(* ===== verification/_CoqProject ===== *)
-Q . S2P
Prelude.v
RustStr.v
External.v
Core.v
Mock.v
Failover.v
Currency.v
HttpShared.v
FiatDest.v
Json.v
Adapter.v
Orders.v
UrlForm.v
Float.v
Square.v
PayPal.v
Mollie.v
Paystack.v
Razorpay.v
Midtrans.v
Yoco.v
BTCPay.v
OpenNode.v
CoinbaseCommerce.v
LNbits.v
Xendit.v
FloatAmounts.v
Flutterwave.v
CheckoutCom.v
MercadoPago.v
PayU.v
Adyen.v
PayFast.v
Iyzico.v
Hyperswitch.v
Manual.v
Registry.v
StellarTx.v
StellarDest.v
StellarAmount.v
StellarRail.v
RpcHttp.v
Horizon.v
StellarRecurring.v
SolanaTx.v
SolanaDest.v
SolanaRail.v
SolanaHttp.v
Sidecar.v
Server.v
Stripe.v
Ffi.v
Secrets.v
Abi.v
Uniffi.v
Providers.v
Build.v
