(* ===== verification/Prelude.v ===== *)
(** * patala: a verification library

    patala is a payment-rail substrate in Rust. A _rail_ moves money one way
    (a chain, a card processor, an operator's bank statement) behind one trait,
    [PaymentRail] of [patala-core/src/rail.rs]: quote, charge, verify a receipt
    later, say what is decidable about a destination, refund. Everything else is
    an implementation of that trait or a client of it. This library models the
    core crate, the two chain crates down to their HTTP requests, the fiat crate
    with its twenty processor adapters, the Hyperswitch adapter, and the three
    ways in (the sidecar, the C ABI, the UniFFI object), and proves what each
    promises the next.

    ** The parts, and where they are

    - [Prelude]: results and the state-and-error monad [Eff W E A] (a function
      of the world [W]: a clock, a ledger, a locked map), integers at their
      width, little-endian bytes, the shared tactics.
    - [RustStr]: [&str] as the bytes of its UTF-8; the operations of [str],
      [char] and [fmt] the crates call, with their lemmas.
    - [External]: the linked libraries (hex, HMAC, SHA-256, Ed25519, serde) as
      classes, their documented laws as classes of their own, and concrete
      instances that satisfy the laws, on which every witness runs.
    - [Core] ([patala-core/src/error.rs], [capabilities.rs], [rail.rs],
      [destination.rs], [webhook.rs]): the shared types, [validate], verdicts,
      the trait as the record [PaymentRail W], and [RailLaws], what the trait's
      documentation asks of every rail: a foreign receipt never verifies, a
      charge answers its own id and the request's reference, an invalid request
      has no effect, verdicts are honest, a final rail never refunds.
    - [Mock] ([mock.rs]) and [Failover] ([failover.rs]): the offline rail, and
      the chain of rails that never crosses the settlement class unasked.
      Failover is proved against [RailLaws] only.
    - [Currency], [HttpShared], [FiatDest], [Manual], [Registry]
      ([patala-fiat/src/<same names, lower case>.rs], [FiatDest] being
      [destination.rs]): minor units and decimal strings, webhook
      authentication, fiat destinations, the operator-attested rail over a
      locked map of records, and the rail registry with its allowlist.
    - [StellarTx] ([patala-stellar/src/tx.rs], [keys.rs]), [StellarDest]
      ([destination.rs]), [StellarAmount] ([rpc.rs], [parse_stroops]),
      [StellarRail] ([lib.rs] and the trait of [rpc.rs]), [StellarRecurring]
      ([recurring.rs]): memo bindings, builders and the strict decoder; address
      verdicts; charge/verify and charge_split/verify_split; pre-signed
      instalment plans.
    - [RpcHttp], [Horizon] ([patala-stellar/src/rpc.rs], [HorizonRpc]) and
      [SolanaHttp] ([patala-solana/src/rpc.rs], [HttpRpc]): the two clients that
      open a socket, as implementations of the RPC seams over replies of a status
      and a JSON value.
    - [Json], [SolanaTx] ([patala-solana/src/tx.rs], [keys.rs]), [SolanaDest]
      ([destination.rs]), [SolanaRail] ([lib.rs] and the trait of [rpc.rs]):
      program-derived addresses, the legacy message, address verdicts, and
      charge/verify against transactions read back as JSON.
    - [Adapter], [Orders], [UrlForm], [Float]: what the processor adapters share
      (requests and their failures, configuration from the environment, the last
      comparison of verify, signatures, UTF-8 with its errors and percent coding,
      doubles), and the classes an adapter
      is an instance of: [RailLaws]; [VerifiesBy], verify decided by what the
      processor says; [WebhookAnswers], events only for authentic deliveries;
      [ChargeOrders] and [RefundOrders], one request that carries the order, in
      the fields that processor reads and on its [Terms]: how it reads the text of
      an amount (said without any of the adapters' conversions), and what multiple
      of the requested minor units the adapter is known to ask; [QuotesCharge],
      a quote that says what its charge will ask.
    - [Stripe], [Square], [PayPal], [Mollie], [Paystack], [Razorpay], [Midtrans],
      [Yoco], [BTCPay], [OpenNode], [CoinbaseCommerce], [LNbits], [Xendit],
      [Flutterwave], [CheckoutCom], [MercadoPago], [PayU], [Adyen], [PayFast],
      [Iyzico] ([patala-fiat/src/<name>/*.rs]) and [Hyperswitch]
      ([patala-hyperswitch/src/*.rs]): one file per processor, in the order of the
      crate's own files: configuration, models, proof, webhook, rail. Their names
      clash as the modules' do; a client requires them without importing.
    - [FloatAmounts]: the adapters that pass money through a double, together.
    - [Sidecar] ([patala-sidecar/src/auth.rs], [registry.rs],
      [api.rs], [lib.rs]): the local HTTP service over a set of rails. [Server]
      ([main.rs], and the route table of [lib.rs]): from the environment to the
      socket, and from a method and a path to a handler.
    - [Ffi] ([patala-ffi/src/lib.rs]): the C ABI's handle table as a step
      relation over interleaved threads, its configuration documents and its
      dispatch, shown to speak the sidecar's wire format. [Abi] ([abi.rs]): the
      [extern "C"] shell over it, strings as a heap shared with a host.
    - [Secrets] (both [keys.rs], the [Debug] of [patala-ffi/src/lib.rs] and
      [patala-hyperswitch/src/config.rs]): loading keys, and keeping them out of
      text.
    - [Uniffi] ([patala-uniffi/src/lib.rs]): the binding's own types, conversions,
      rail object and constructors. [Providers] ([fiat.rs]): every fiat rail by
      provider name and a map of strings. [Build]: the C ABI with every feature
      on, from a configuration document to the adapters.

    A rail of a component is a value [<component>_rail : PaymentRail W], and the
    instances [<component>_rail_laws] discharge the interface (Adyen and PayFast
    cannot: their verify is unsupported even for a foreign receipt; Paystack's
    holds if the processor echoes the reference). The clients ([Failover],
    [Registry], [Sidecar], [Ffi]) take any rail; what they need of it they take
    from [RailLaws].

    ** How code becomes definitions

    A [Result<T, E>] is [Result E T]; [?] is the bind of that monad; an early
    return is the notation [return_if c with_ x; k], a [let .. else] is
    [let_some]/[let_ok]. A method that reads the clock, the network or a lock is
    an [Eff]. Network seams ([StellarRpc], [SolanaRpc], [HttpClient], [RpcHttp])
    are [Eff] operations, arguments of the rail, about which nothing is assumed.
    An adapter's [new] is given a builder of such clients ([HttpBuilder]), which can
    fail as [reqwest]'s can; the two RPC clients fall back to a default client in the
    code and cannot. [open] of the C library is given what tokio's builder of a
    runtime answered;
    [f64] is IEEE 754's, parsed and printed as the standard library does, and
    serde_json's text of one is a class ([F64Text]) with the law that it reads back,
    and the number serde_json makes of a decimal text one with the law that it is the
    nearest double ([MercadoPago.NumberLaws]);
    an adapter's reading of its processor's JSON is a class of its file
    ([StripeJson], ...), one [FromJson] per type serde derives. Arithmetic that
    overflows wraps, as in a release build; a panic is an outcome or a parameter where a
    caller catches it ([Abi], whose [patala_close] catches one too, and [Iyzico]). Machine
    integers are [Z] with the operation's own wrap, check or saturation written
    out; the bounds of typed inputs are hypotheses ([is_u64], ...). Texts shown
    to people are kept verbatim, since several theorems are about what they may
    not contain.

    ** What the theorems show

    - _A receipt that verifies was paid for, once._ [stellar_verify_exact],
      [stellar_verify_over_horizon], [stellar_verify_split_exact],
      [solana_verify_exact], [solana_verify_over_http],
      [hyperswitch_verify_exact] characterise verify, and [new_fiat_verifies] does
      for every fiat rail but the two that cannot, saying apart what LNbits is asked
      (whether a hash is paid) and what it takes from the receipt's own proof;
      [stellar_charge_verify], [stellar_charge_split_verify],
      [solana_charge_verify], [mock_charge_verify] relate it to charge, each naming
      every effect of the charge's run in order, with one submission among them;
      [stellar_transaction_pays_once] and [memo_binding_unambiguous] say one
      transaction serves one order unless SHA-256 collides on the very payloads or
      memo preimages of the two receipts; [solana_payment_unique] says what of that
      holds on Solana, for one record of the transaction and a positive amount, and
      [solana_memo_reusable] what does not; [mock_tamper_detected] and
      [mock_boundary_not_signed] do the same for the mock's digest;
      [manual_verified_is_attested] says a manual receipt verifies only while a
      named operator's mark says paid, over every history;
      [new_fiat_charges] says what a charge of each fiat rail sends, and in which
      currencies Stripe and PayPal misprice it ([misprices]), [new_fiat_refunds] the same of refunds, and [new_fiat_quotes] what a quote
      says of the charge that follows it;
      [new_fiat_references] says on which rails nothing binds a payment to the
      receipt's order, and [new_fiat_unverifiable] which have no verify.
    - _What every rail is._ [new_fiat_capabilities], [new_fiat_lawful],
      [new_fiat_fails_closed], [c_abi_final_is_final]: the rails a binding or a C
      host can build, over all providers.
    - _Money is exact._ [minor_major_roundtrip], [major_string_to_minor_spec],
      [parse_stroops_spec], [stripe_amount_inverse], [paypal_amount_bounds],
      [paypal_amount_agrees], [float_amounts_exact] (up to what amounts a double
      still means the amount, on LNbits, OpenNode and Xendit), [horizon_holdings_spec]; the decoders and encoders of transactions:
      [build_payment_transaction_spec], [build_decode_roundtrip],
      [decode_payments_exact], [message_roundtrip],
      [compact_u16_terminates], [find_program_address_spec].
    - _A chain of rails keeps its class._ [failover_never_crosses],
      [failover_charge_tries] (a refinement of the abstract "first success in
      order"), [failover_refuses_at_boundary], [failover_receipt_dispatch],
      and the lemma [failover_invalid_request].
    - _Nobody is told an address is good when it is not decidable._
      [stellar_destination_decided], [solana_destination_decided],
      [fiat_destination_verdicts], [mock_structurally_valid_iff].
    - _Schedules._ [recurring_schedule_enforced] over every run of the dedicated
      account as a step relation; [build_all_instalments_spec].
    - _Selection and authentication._ [registry_select_spec],
      [registry_list_spec], [registry_allowlist], [new_fiat_webhooks] (which sets
      Mollie apart: it authenticates no delivery and fetches the payment instead),
      [server_gated] (every path to a rail stands behind a token of some length,
      or nothing listens), [sidecar_dispatch_spec], [sidecar_delivery_spec],
      [ffi_matches_sidecar], [ffi_handles_never_reused], [ffi_decode_hex_spec].
    - _Boundaries._ [uniffi_transparent] (nothing lost or swapped in the binding),
      [abi_ownership] and [abi_answers] (strings and errors across the C ABI),
      [debug_never_prints_secrets].

    ** Bounds and fuel

    [find_bump] counts the 256 bumps of the [u8] range down to none;
    [compact_loop 10] has one step per seven bits of a [usize], enough by
    [compact_u16_terminates]; [dec_digits] is given as many steps as the number
    has bits ([to_dec_spec]); the two UTF-8 loops of [UrlForm] have one step per
    byte ([utf8_lossy_fuel]). No other definition of the code has fuel: loops over
    slices are structural. [ffi_handles_never_reused] bounds the number of opens
    by [2^64 - 1], where the counter would wrap. [f64_nearest] finds its exponent
    from the logarithm of the value, without a loop.

    ** What is not modelled, and why

    Sockets, TLS and time-outs ([reqwest]), serde's derived parsers (they enter as
    classes, with the law that what was written reads back where a theorem needs
    it), key generation, logging and zeroisation: libraries and I/O behind the
    seams. Timing (constant-time comparison) is not observable in the model.
    axum's reading of a pattern and its extractors are classes; shutdown by
    signal, the tokio runtimes, the scaffolding UniFFI generates and the Python
    crate, which re-exports it, hold no logic of the program. Async interleaving is modelled only where state is
    shared: a [Mutex] held for a whole method makes the method one step on the
    map. *)

From Stdlib Require Export ZArith Lia.
From Stdlib Require Export Strings.Byte Strings.Ascii Strings.String.
From stdpp Require Export base tactics list gmap strings.

Create HintDb patala.
Create Rewrite HintDb patala_rw.
Declare Scope patala_scope.
Delimit Scope patala_scope with patala.
#[global] Open Scope Z_scope.
(** Concatenation of text computes on constructors, so that inductions on
    strings read like inductions on lists. *)
#[global] Arguments String.append : simpl nomatch.

(** ** Results

    [Result E A] is Rust's [Result<A, E>], with the error type first so that
    [Result E] is a monad for stdpp's [x ← m; k] notation (the [?] operator). *)

Inductive Result (E A : Type) : Type :=
  | Ok (a : A)
  | Err (e : E).
Arguments Ok {E A} a.
Arguments Err {E A} e.

#[export] Instance result_ret {E} : MRet (Result E) := fun A a => Ok a.
#[export] Instance result_bind {E} : MBind (Result E) :=
  fun A B k r => match r with Ok a => k a | Err e => Err e end.
#[export] Instance result_fmap {E} : FMap (Result E) :=
  fun A B f r => match r with Ok a => Ok (f a) | Err e => Err e end.

#[export] Instance result_eq_dec {E A} `{EqDecision E, EqDecision A} :
  EqDecision (Result E A).
Proof. solve_decision. Defined.

(** [Result::map_err], [Result::ok], [Option::ok_or]. *)
Definition map_err {E F A} (f : E -> F) (r : Result E A) : Result F A :=
  match r with Ok a => Ok a | Err e => Err (f e) end.
Definition result_ok {E A} (r : Result E A) : option A :=
  match r with Ok a => Some a | Err _ => None end.
Definition ok_or {E A} (e : E) (o : option A) : Result E A :=
  match o with Some a => Ok a | None => Err e end.
Definition is_ok {E A} (r : Result E A) : bool :=
  match r with Ok _ => true | Err _ => false end.
Lemma is_ok_Ok {E A} (r : Result E A) : is_ok r = true -> exists a, r = Ok a.
Proof. destruct r; [eauto | done]. Qed.

(** ** Effects

    A fallible effectful computation over a world [W] (clock, network,
    in-process state). An [async fn] that is awaited is run to completion in
    the order the code awaits it, so the world is threaded sequentially. *)

Definition Eff (W E A : Type) : Type := W -> Result E A * W.

#[export] Instance eff_ret {W E} : MRet (Eff W E) := fun A a w => (Ok a, w).
#[export] Instance eff_bind {W E} : MBind (Eff W E) :=
  fun A B k m w =>
    match m w with
    | (Ok a, w') => k a w'
    | (Err e, w') => (Err e, w')
    end.

Definition eff_of {W E A} (r : Result E A) : Eff W E A := fun w => (r, w).
Definition eff_err {W E A} (e : E) : Eff W E A := fun w => (Err e, w).
Definition eff_io {W E A} (f : W -> A * W) : Eff W E A :=
  fun w => let '(a, w') := f w in (Ok a, w').
(** [.await.map_err(f)?] *)
Definition eff_map_err {W E F A} (f : E -> F) (m : Eff W E A) : Eff W F A :=
  fun w => let '(r, w') := m w in (map_err f r, w').
(** [match m.await { ok => .., err => .. }]: look at the outcome without
    propagating it. *)
Definition eff_try {W E F A} (m : Eff W E A) : Eff W F (Result E A) :=
  fun w => let '(r, w') := m w in (Ok r, w').

(** The clock each crate reads through its own [now_unix()]. Reading it may
    advance the world: two reads need not agree. *)
Class Clock (W : Type) := now_unix : W -> Z * W.
Definition read_clock {W E} `{Clock W} : Eff W E Z := eff_io now_unix.

(** A clock that ticks once per read, for the witnesses. *)
#[export] Instance tick_clock : Clock Z := fun t => (t, t + 1).

Ltac unfold_eff :=
  unfold eff_err, eff_of, read_clock, eff_io, eff_map_err, eff_try, mret, eff_ret,
    mbind, eff_bind.


(** [let Ok(x) = r else { return d };] and its [Option] sibling. *)
Notation "'let_ok' x := r 'or_else' d ; k" :=
  (match r with Ok x => k | Err _ => d end)
  (at level 100, x name, r at level 99, d at level 99, k at level 200,
   right associativity, only parsing) : patala_scope.
Notation "'let_some' x := r 'or_else' d ; k" :=
  (match r with Some x => k | None => d end)
  (at level 100, x name, r at level 99, d at level 99, k at level 200,
   right associativity, only parsing) : patala_scope.
(** [if c { return d }] *)
Notation "'return_if' c 'with_' d ; k" :=
  (if c then d else k)
  (at level 100, c at level 99, d at level 99, k at level 200,
   right associativity, only parsing) : patala_scope.
#[global] Open Scope patala_scope.

(** ** Machine integers

    Unsigned and signed integers are [Z] with the range written where it
    matters; the checked and saturating operations are the ones the code
    calls. *)

Definition u8_max : Z := 2 ^ 8 - 1.
Definition u32_max : Z := 2 ^ 32 - 1.
Definition u64_max : Z := 2 ^ 64 - 1.
Definition i64_min : Z := - 2 ^ 63.
Definition i64_max : Z := 2 ^ 63 - 1.
Definition i128_min : Z := - 2 ^ 127.
Definition i128_max : Z := 2 ^ 127 - 1.

Definition is_u32 (z : Z) : Prop := 0 <= z <= u32_max.
Definition is_u64 (z : Z) : Prop := 0 <= z <= u64_max.
Definition is_i64 (z : Z) : Prop := i64_min <= z <= i64_max.

Definition in_range (lo hi z : Z) : option Z :=
  if (lo <=? z) && (z <=? hi) then Some z else None.
Definition u32_checked_mul (a b : Z) : option Z := in_range 0 u32_max (a * b).
Definition u64_checked_mul (a b : Z) : option Z := in_range 0 u64_max (a * b).
Definition u64_checked_add (a b : Z) : option Z := in_range 0 u64_max (a + b).
Definition i64_checked_add (a b : Z) : option Z := in_range i64_min i64_max (a + b).
Definition i128_checked_mul (a b : Z) : option Z := in_range i128_min i128_max (a * b).
Definition i128_checked_add (a b : Z) : option Z := in_range i128_min i128_max (a + b).
Definition u64_saturating_add (a b : Z) : Z := Z.min u64_max (a + b).
Definition u32_saturating_add (a b : Z) : Z := Z.min u32_max (a + b).
(** [i64::try_from(z)] and [u32::try_from(z)] for a value of a wider type. *)
Definition i64_try_from (z : Z) : option Z := in_range i64_min i64_max z.
Definition u32_try_from (z : Z) : option Z := in_range 0 u32_max z.
(** [z as i64] (two's complement reinterpretation) and [z as u64]. *)
Definition as_i64 (z : Z) : Z := (z + 2 ^ 63) mod 2 ^ 64 - 2 ^ 63.
Definition as_u64 (z : Z) : Z := z mod 2 ^ 64.

(** Closes [P <-> Q] where both sides are contradictory. *)
Ltac refute_iff := cbn; split; intros; destruct_and?; congruence.

Ltac unfold_ints :=
  unfold is_u64, is_u32, is_i64, u64_max, u32_max, u8_max, i64_min, i64_max,
    i128_min, i128_max in *.

Lemma in_range_Some lo hi z y :
  in_range lo hi z = Some y <-> y = z /\ lo <= z <= hi.
Proof.
  unfold in_range. destruct (lo <=? z) eqn:E1, (z <=? hi) eqn:E2; simpl;
    rewrite ?Z.leb_le, ?Z.leb_gt in *; split; intros H; try discriminate;
    try (injection H as <-); intuition (auto; try lia). now subst.
Qed.

Lemma in_range_ok lo hi z : lo <= z <= hi -> in_range lo hi z = Some z.
Proof. intros H. now apply in_range_Some. Qed.

Lemma in_range_None lo hi z : in_range lo hi z = None <-> ~ (lo <= z <= hi).
Proof.
  destruct (in_range lo hi z) eqn:E.
  - apply in_range_Some in E. split; [discriminate | tauto].
  - split; [|done]. intros _ H. now rewrite (in_range_ok _ _ _ H) in E.
Qed.

Lemma as_i64_small z : is_i64 z -> as_i64 z = z.
Proof. unfold as_i64; unfold_ints. intros H. rewrite Z.mod_small; lia. Qed.

Lemma as_u64_small z : is_u64 z -> as_u64 z = z.
Proof. unfold as_u64; unfold_ints. intros H. apply Z.mod_small. lia. Qed.

(** An [i64] that equals a reinterpreted [u64] and is nonnegative is that
    very number. *)
Lemma as_i64_eq_nonneg a u : is_u64 u -> 0 <= a -> a = as_i64 u -> a = u.
Proof.
  unfold as_i64; unfold_ints. intros Hu Ha E.
  destruct (Z_lt_le_dec u (2 ^ 63)).
  - rewrite Z.mod_small in E; lia.
  - rewrite (Z.mod_eq (u + 2 ^ 63) (2 ^ 64)) in E by lia.
    assert ((u + 2 ^ 63) / 2 ^ 64 = 1) as Hd
      by (symmetry; apply (Z.div_unique_pos _ _ _ (u - 2 ^ 63)); lia).
    lia.
Qed.

(** ** Bytes

    A byte is [Byte.byte]; multi-byte integers are written little-endian. *)

Definition Z_of_byte (b : byte) : Z := Z.of_N (Byte.to_N b).
Definition byte_of_Z (z : Z) : byte :=
  match Byte.of_N (Z.to_N (z mod 256)) with Some b => b | None => x00 end.

#[export] Instance byte_eq_dec : EqDecision byte := Byte.byte_eq_dec.

Lemma Z_of_byte_range b : 0 <= Z_of_byte b < 256.
Proof. unfold Z_of_byte. pose proof (Byte.to_N_bounded b). lia. Qed.

Lemma Z_of_byte_inj a b : Z_of_byte a = Z_of_byte b -> a = b.
Proof.
  unfold Z_of_byte. intros H%N2Z.inj.
  pose proof (Byte.of_to_N a). pose proof (Byte.of_to_N b). congruence.
Qed.

Lemma Z_of_byte_of_Z z : Z_of_byte (byte_of_Z z) = z mod 256.
Proof.
  unfold byte_of_Z, Z_of_byte.
  pose proof (Z.mod_pos_bound z 256 ltac:(lia)).
  destruct (Byte.of_N _) eqn:E.
  - apply Byte.to_of_N in E. rewrite E. lia.
  - apply Byte.of_N_None_iff in E. lia.
Qed.

Lemma byte_of_Z_of_byte b : byte_of_Z (Z_of_byte b) = b.
Proof.
  apply Z_of_byte_inj. rewrite Z_of_byte_of_Z.
  apply Z.mod_small, Z_of_byte_range.
Qed.

(** [to_le_bytes] of an [n]-byte integer; negative numbers come out in two's
    complement because [mod] and [/] round down. *)
Fixpoint le_bytes (n : nat) (z : Z) : list byte :=
  match n with
  | O => []
  | S n => byte_of_Z z :: le_bytes n (z / 256)
  end.
Fixpoint le_value (l : list byte) : Z :=
  match l with
  | [] => 0
  | b :: l => Z_of_byte b + 256 * le_value l
  end.

Definition u64_le (z : Z) : list byte := le_bytes 8 z.
Definition i64_le (z : Z) : list byte := le_bytes 8 z.
Definition u32_le (z : Z) : list byte := le_bytes 4 z.

Lemma length_le_bytes n z : length (le_bytes n z) = n.
Proof. revert z; induction n; intros z; simpl; auto. Qed.

Lemma le_value_le_bytes n z : le_value (le_bytes n z) = z mod 256 ^ Z.of_nat n.
Proof.
  revert z; induction n as [|n IH]; intros z; cbn [le_bytes le_value].
  - rewrite Z.mod_1_r; reflexivity.
  - rewrite IH, Z_of_byte_of_Z.
    replace (256 ^ Z.of_nat (S n)) with (256 * 256 ^ Z.of_nat n)
      by (rewrite Nat2Z.inj_succ, Z.pow_succ_r; lia).
    rewrite Z.rem_mul_r; lia.
Qed.

Lemma le_bytes_inj_mod n x y :
  le_bytes n x = le_bytes n y -> x mod 256 ^ Z.of_nat n = y mod 256 ^ Z.of_nat n.
Proof. intros H. now rewrite <- !le_value_le_bytes, H. Qed.

Lemma u64_le_inj x y : is_u64 x -> is_u64 y -> u64_le x = u64_le y -> x = y.
Proof.
  intros Hx Hy H%le_bytes_inj_mod. unfold_ints. change (256 ^ Z.of_nat 8) with (2^64) in H.
  rewrite !Z.mod_small in H; lia.
Qed.

Lemma u32_le_inj x y : is_u32 x -> is_u32 y -> u32_le x = u32_le y -> x = y.
Proof.
  intros Hx Hy H%le_bytes_inj_mod. unfold_ints. change (256 ^ Z.of_nat 4) with (2^32) in H.
  rewrite !Z.mod_small in H; lia.
Qed.

Lemma i64_le_inj x y : is_i64 x -> is_i64 y -> i64_le x = i64_le y -> x = y.
Proof.
  intros Hx Hy H%le_bytes_inj_mod. unfold_ints. change (256 ^ Z.of_nat 8) with (2^64) in H.
  apply (f_equal (fun v => (v + 2 ^ 63) mod 2 ^ 64)) in H.
  rewrite !Zplus_mod_idemp_l in H. rewrite !Z.mod_small in H; lia.
Qed.

Lemma le_value_range l : 0 <= le_value l < 256 ^ Z.of_nat (length l).
Proof.
  induction l as [|b l IH]; cbn [le_value length]; [done|].
  rewrite Nat2Z.inj_succ, Z.pow_succ_r by lia. pose proof (Z_of_byte_range b). lia.
Qed.
Lemma le_bytes_le_value l : le_bytes (length l) (le_value l) = l.
Proof.
  induction l as [|b l IH]; cbn [le_value length le_bytes]; [done|].
  pose proof (Z_of_byte_range b). f_equal.
  - apply Z_of_byte_inj. rewrite Z_of_byte_of_Z, (Z.mul_comm 256), Z.mod_add by lia.
    now apply Z.mod_small.
  - rewrite (Z.mul_comm 256), Z.div_add, Z.div_small by lia. exact IH.
Qed.

#[export] Hint Rewrite length_le_bytes : patala_rw.
