(* ===== verification/RustStr.v ===== *)
(** * Rust strings

    [&str]/[String] as Stdlib [string]: the UTF-8 bytes of the text. The
    operations of [core::str], [core::char] and [core::fmt] that the crates
    use, with the lemmas the components share. Lengths are byte lengths, as
    [str::len] is. *)

From S2P Require Import Prelude.

Abbreviation str := string.

(** ** Characters *)

Definition code (a : ascii) : Z := Z.of_N (N_of_ascii a).
Definition char_of (z : Z) : ascii := ascii_of_N (Z.to_N z).

Definition between (lo hi : Z) (a : ascii) : bool := (lo <=? code a) && (code a <=? hi).
Definition is_ascii (a : ascii) : bool := code a <? 128.
Definition is_ascii_digit : ascii -> bool := between 48 57.
Definition is_ascii_uppercase : ascii -> bool := between 65 90.
Definition is_ascii_lowercase : ascii -> bool := between 97 122.
Definition is_ascii_alphabetic (a : ascii) : bool :=
  is_ascii_uppercase a || is_ascii_lowercase a.
Definition is_ascii_alphanumeric (a : ascii) : bool :=
  is_ascii_alphabetic a || is_ascii_digit a.
Definition is_ascii_hexdigit (a : ascii) : bool :=
  is_ascii_digit a || between 65 70 a || between 97 102 a.

Definition char_to_upper (a : ascii) : ascii :=
  if is_ascii_lowercase a then char_of (code a - 32) else a.
Definition char_to_lower (a : ascii) : ascii :=
  if is_ascii_uppercase a then char_of (code a + 32) else a.

Lemma code_range a : 0 <= code a < 256.
Proof. unfold code. pose proof (N_ascii_bounded a). lia. Qed.

Lemma code_char_of z : 0 <= z < 256 -> code (char_of z) = z.
Proof. intros H. unfold code, char_of. rewrite N_ascii_embedding; lia. Qed.

Lemma code_inj a b : code a = code b -> a = b.
Proof.
  unfold code. intros H%N2Z.inj.
  rewrite <- (ascii_N_embedding a), <- (ascii_N_embedding b). now f_equal.
Qed.

Lemma between_spec lo hi a : between lo hi a = true <-> lo <= code a <= hi.
Proof. unfold between. rewrite andb_true_iff, !Z.leb_le. tauto. Qed.

(** ** Whole strings *)

Fixpoint str_all (p : ascii -> bool) (s : str) : bool :=
  match s with
  | EmptyString => true
  | String a s => p a && str_all p s
  end.
Definition str_any (p : ascii -> bool) (s : str) : bool :=
  negb (str_all (fun a => negb (p a)) s).
Fixpoint str_map (f : ascii -> ascii) (s : str) : str :=
  match s with
  | EmptyString => EmptyString
  | String a s => String (f a) (str_map f s)
  end.
Definition to_ascii_uppercase : str -> str := str_map char_to_upper.
Definition to_ascii_lowercase : str -> str := str_map char_to_lower.
Definition eq_ignore_ascii_case (a b : str) : bool :=
  String.eqb (to_ascii_lowercase a) (to_ascii_lowercase b).
Definition is_empty (s : str) : bool :=
  match s with EmptyString => true | _ => false end.
Definition len (s : str) : Z := Z.of_nat (String.length s).
Definition as_bytes (s : str) : list byte := list_byte_of_string s.

Fixpoint strip_prefix (p s : str) : option str :=
  match p, s with
  | EmptyString, _ => Some s
  | String a p, String b s => if Ascii.eqb a b then strip_prefix p s else None
  | String _ _, EmptyString => None
  end.
Definition starts_with (p s : str) : bool :=
  match strip_prefix p s with Some _ => true | None => false end.
Definition first_char (s : str) : option ascii :=
  match s with EmptyString => None | String a _ => Some a end.
Fixpoint last_char (s : str) : option ascii :=
  match s with
  | EmptyString => None
  | String a EmptyString => Some a
  | String _ s => last_char s
  end.
Definition starts_with_char (c : ascii) (s : str) : bool :=
  match first_char s with Some a => Ascii.eqb c a | None => false end.
Definition ends_with_char (c : ascii) (s : str) : bool :=
  match last_char s with Some a => Ascii.eqb c a | None => false end.
Definition contains_char (c : ascii) (s : str) : bool := str_any (Ascii.eqb c) s.
Fixpoint contains_str (p s : str) : bool :=
  starts_with p s || match s with EmptyString => false | String _ s => contains_str p s end.

(** [str::split_once(c)]: at the first occurrence. *)
Fixpoint split_once (c : ascii) (s : str) : option (str * str) :=
  match s with
  | EmptyString => None
  | String a s =>
      if Ascii.eqb c a then Some (EmptyString, s)
      else match split_once c s with
           | Some (l, r) => Some (String a l, r)
           | None => None
           end
  end.

(** [str::split(p)] for a set of ASCII separators: always at least one piece. *)
Fixpoint split_where (p : ascii -> bool) (s : str) : list str :=
  match s with
  | EmptyString => [EmptyString]
  | String a s =>
      if p a then EmptyString :: split_where p s
      else match split_where p s with
           | l :: r => String a l :: r
           | [] => [String a EmptyString]
           end
  end.
Definition split_char (c : ascii) : str -> list str := split_where (Ascii.eqb c).

Fixpoint str_rev_app (s acc : str) : str :=
  match s with
  | EmptyString => acc
  | String a s => str_rev_app s (String a acc)
  end.
Definition str_rev (s : str) : str := str_rev_app s EmptyString.

Fixpoint str_repeat (a : ascii) (n : nat) : str :=
  match n with O => EmptyString | S n => String a (str_repeat a n) end.

(** ** [str::trim]

    Unicode [White_Space] in UTF-8: U+0009..U+000D, U+0020, U+0085, U+00A0,
    U+1680, U+2000..U+200A, U+2028, U+2029, U+202F, U+205F, U+3000. Each
    multi-byte form starts with a lead byte, so matching it at either end of
    well-formed UTF-8 matches exactly that character. *)

Definition ws1 (a : ascii) : bool := between 9 13 a || (code a =? 32).
Definition ws2 (a b : ascii) : bool :=
  (code a =? 194) && ((code b =? 133) || (code b =? 160)).
Definition ws3 (a b c : ascii) : bool :=
  match code a, code b, code c with
  | 225, 154, 128 => true
  | 226, 128, z =>
      ((128 <=? z) && (z <=? 138)) || (z =? 168) || (z =? 169) || (z =? 175)
  | 226, 129, 159 => true
  | 227, 128, 128 => true
  | _, _, _ => false
  end.

Fixpoint trim_start (s : str) : str :=
  match s with
  | EmptyString => EmptyString
  | String a s1 =>
      if ws1 a then trim_start s1
      else match s1 with
           | EmptyString => s
           | String b s2 =>
               if ws2 a b then trim_start s2
               else match s2 with
                    | EmptyString => s
                    | String c s3 => if ws3 a b c then trim_start s3 else s
                    end
           end
  end.
(** The same on the reversed bytes: [a] is the last byte of the text. *)
Fixpoint trim_end_rev (s : str) : str :=
  match s with
  | EmptyString => EmptyString
  | String a s1 =>
      if ws1 a then trim_end_rev s1
      else match s1 with
           | EmptyString => s
           | String b s2 =>
               if ws2 b a then trim_end_rev s2
               else match s2 with
                    | EmptyString => s
                    | String c s3 => if ws3 c b a then trim_end_rev s3 else s
                    end
           end
  end.
Definition trim_end (s : str) : str := str_rev (trim_end_rev (str_rev s)).
Definition trim (s : str) : str := trim_end (trim_start s).
Definition is_blank (s : str) : bool := is_empty (trim s).

(** [char::is_whitespace() || char::is_control()] for some character: an
    ASCII byte below 0x20 or equal to 0x7F or 0x20, one of the multi-byte
    spaces above, or a C1 control (U+0080..U+009F, [C2 80]..[C2 9F]). *)
Fixpoint has_ws_or_control (s : str) : bool :=
  match s with
  | EmptyString => false
  | String a s1 =>
      (code a <=? 32) || (code a =? 127)
      || match s1 with
         | EmptyString => false
         | String b s2 =>
             ws2 a b || ((code a =? 194) && (128 <=? code b) && (code b <=? 159))
             || match s2 with
                | EmptyString => false
                | String c _ => ws3 a b c
                end
         end
      || has_ws_or_control s1
  end.

(** ** Decimal text *)

Definition digit (z : Z) : ascii := char_of (48 + z).
Definition digit_val (a : ascii) : Z := code a - 48.

(** [u64::to_string]: most significant digit first, no sign, no padding. *)
Fixpoint dec_digits (fuel : nat) (n : Z) (acc : str) : str :=
  match fuel with
  | O => acc
  | S fuel =>
      let acc := String (digit (n mod 10)) acc in
      if n <? 10 then acc else dec_digits fuel (n / 10) acc
  end.
Definition to_dec (n : Z) : str := dec_digits (S (Z.to_nat (Z.log2 n))) n EmptyString.
Definition int_to_dec (n : Z) : str :=
  if n <? 0 then String "-" (to_dec (- n)) else to_dec n.

Definition dec_step (acc : Z) (a : ascii) : Z := acc * 10 + digit_val a.
Fixpoint str_fold {A} (f : A -> ascii -> A) (acc : A) (s : str) : A :=
  match s with EmptyString => acc | String a s => str_fold f (f acc a) s end.
Definition dec_value (s : str) : Z := str_fold dec_step 0 s.

(** [parse::<u64>()] and the signed parses: an optional sign ([+] only, when
    unsigned), at least one digit, nothing else, and a value in range. *)
Definition parse_digits (s : str) : option Z :=
  if is_empty s then None
  else if str_all is_ascii_digit s then Some (dec_value s) else None.
Definition strip_plus (s : str) : str :=
  match s with
  | String a r => if Ascii.eqb a "+" then r else s
  | EmptyString => s
  end.
Definition parse_unsigned (hi : Z) (s : str) : option Z :=
  parse_digits (strip_plus s) ≫= in_range 0 hi.
Definition parse_signed (lo hi : Z) (s : str) : option Z :=
  match s with
  | String a r =>
      if Ascii.eqb a "-" then v ← parse_digits r; in_range lo hi (- v)
      else parse_digits (strip_plus s) ≫= in_range lo hi
  | EmptyString => None
  end.
Definition parse_u64 : str -> option Z := parse_unsigned u64_max.
Definition parse_i64 : str -> option Z := parse_signed i64_min i64_max.
Definition parse_i128 : str -> option Z := parse_signed i128_min i128_max.

(** [{v:0width$}] for a number already printed, and [{s:0<width$}]. *)
Definition pad_left (w : nat) (s : str) : str := str_repeat "0" (w - String.length s) +:+ s.
Definition pad_right (w : nat) (s : str) : str := s +:+ str_repeat "0" (w - String.length s).

(** ** [{:?}] of text

    ASCII exactly as [core::fmt] writes it; bytes above 0x7F are copied. *)

Definition quote_char : ascii := "034"%char.
Definition dquote : str := String quote_char EmptyString.
Definition hex_digit_lower (z : Z) : ascii := if z <? 10 then char_of (48 + z) else char_of (87 + z).
Definition debug_ascii (esc : ascii -> bool) (a : ascii) : str :=
  let bs := char_of 92 in
  if esc a || (code a =? 92) then String bs (String a EmptyString)
  else if code a =? 9 then String bs "t"
  else if code a =? 10 then String bs "n"
  else if code a =? 13 then String bs "r"
  else if code a =? 0 then String bs "0"
  else if (code a <? 32) || (code a =? 127) then
    String bs ("u{" +:+ (if code a <? 16 then EmptyString
                         else String (hex_digit_lower (code a / 16)) EmptyString)
               +:+ String (hex_digit_lower (code a mod 16)) "}")
  else String a EmptyString.
Fixpoint debug_body (s : str) : str :=
  match s with
  | EmptyString => EmptyString
  | String a s => debug_ascii (Ascii.eqb quote_char) a +:+ debug_body s
  end.
Definition debug_str (s : str) : str := dquote +:+ debug_body s +:+ dquote.

(** The characters of a UTF-8 text: a continuation byte ([10xxxxxx]) belongs
    to the character before it. *)
Definition is_continuation (a : ascii) : bool := between 128 191 a.
Fixpoint chars (s : str) : list str :=
  match s with
  | EmptyString => []
  | String a s =>
      match chars s, first_char s with
      | c :: cs, Some b =>
          if is_continuation b then String a c :: cs else String a EmptyString :: c :: cs
      | cs, _ => String a EmptyString :: cs
      end
  end.
(** [{:?}] of one character. *)
Definition debug_char (c : str) : str :=
  "'" +:+ match c with
          | String a EmptyString => debug_ascii (Ascii.eqb "'") a
          | _ => c
          end +:+ "'".

(** ** Lemmas *)

Lemma append_assoc (a b c : str) : (a +:+ b) +:+ c = a +:+ (b +:+ c).
Proof. induction a as [|x a IH]; simpl; [done|]. now rewrite IH. Qed.
Lemma append_nil_r (a : str) : a +:+ EmptyString = a.
Proof. induction a as [|x a IH]; simpl; [done|]. now rewrite IH. Qed.
Lemma length_append (a b : str) :
  String.length (a +:+ b) = (String.length a + String.length b)%nat.
Proof. induction a as [|x a IH]; simpl; [done|]. now rewrite IH. Qed.
Lemma append_is_nil (a b : str) : a +:+ b = EmptyString <-> a = EmptyString /\ b = EmptyString.
Proof. destruct a; simpl; [tauto|]. split; [discriminate | intros [? _]; discriminate]. Qed.

Lemma is_empty_spec s : is_empty s = true <-> s = EmptyString.
Proof. destruct s; simpl; split; congruence. Qed.

Lemma str_all_app p a b : str_all p (a +:+ b) = str_all p a && str_all p b.
Proof. induction a as [|x a IH]; simpl; [done|]. now rewrite IH, andb_assoc. Qed.
Lemma str_all_impl (p q : ascii -> bool) s :
  (forall a, p a = true -> q a = true) -> str_all p s = true -> str_all q s = true.
Proof.
  intros Hpq. induction s as [|a s IH]; simpl; [done|].
  rewrite !andb_true_iff. intros [? ?]. auto.
Qed.
Lemma str_all_repeat p a n : p a = true -> str_all p (str_repeat a n) = true.
Proof. intros H. induction n; simpl; [done|]. now rewrite H. Qed.
Lemma length_str_repeat a n : String.length (str_repeat a n) = n.
Proof. induction n; simpl; auto. Qed.

Lemma list_byte_inj a b : as_bytes a = as_bytes b -> a = b.
Proof.
  unfold as_bytes. intros H.
  rewrite <- (string_of_list_byte_of_string a), <- (string_of_list_byte_of_string b).
  now f_equal.
Qed.
Lemma length_as_bytes s : length (as_bytes s) = String.length s.
Proof.
  unfold as_bytes, list_byte_of_string. rewrite length_map.
  induction s; simpl; auto.
Qed.
Lemma as_bytes_app a b : as_bytes (a +:+ b) = as_bytes a ++ as_bytes b.
Proof. unfold as_bytes, list_byte_of_string. induction a; simpl; [done|]. now f_equal. Qed.

Lemma strip_prefix_spec p s r : strip_prefix p s = Some r <-> s = p +:+ r.
Proof.
  revert s; induction p as [|a p IH]; intros s; simpl; [split; congruence|].
  destruct s as [|b s]; [split; discriminate|].
  destruct (Ascii.eqb_spec a b) as [->|Hn].
  - rewrite IH. split; congruence.
  - split; congruence.
Qed.
Lemma strip_prefix_app p r : strip_prefix p (p +:+ r) = Some r.
Proof. now apply strip_prefix_spec. Qed.

Lemma split_once_Some c s l r :
  split_once c s = Some (l, r) <->
  s = l +:+ String c r /\ str_all (fun a => negb (Ascii.eqb c a)) l = true.
Proof.
  revert l; induction s as [|a s IH]; intros l; simpl.
  - split; [discriminate|]. intros [H _]. destruct l; discriminate.
  - destruct (Ascii.eqb_spec c a) as [->|Hn].
    + split.
      * intros [= <- <-]. done.
      * intros [H Hl]. destruct l as [|b l]; simpl in *; [congruence|].
        injection H as -> ->. now rewrite Ascii.eqb_refl in Hl.
    + destruct (split_once c s) as [[l' r']|] eqn:E.
      * split.
        -- intros [= <- <-]. destruct (proj1 (IH l') eq_refl) as [-> Hl]. simpl. split; [done|].
           rewrite Hl. apply Ascii.eqb_neq in Hn. now rewrite Hn.
        -- intros [H Hl]. destruct l as [|b l]; simpl in *; [congruence|].
           injection H as -> ->. apply andb_true_iff in Hl as [_ Hl].
           destruct (IH l) as [_ IH']. specialize (IH' (conj eq_refl Hl)).
           congruence.
      * split; [discriminate|]. intros [H Hl]. destruct l as [|b l]; simpl in *; [congruence|].
        injection H as -> ->. apply andb_true_iff in Hl as [_ Hl].
        destruct (IH l) as [_ IH']. specialize (IH' (conj eq_refl Hl)). discriminate.
Qed.
Lemma split_once_None c s :
  split_once c s = None <-> str_all (fun a => negb (Ascii.eqb c a)) s = true.
Proof.
  induction s as [|a s IH]; simpl; [tauto|].
  destruct (Ascii.eqb c a) eqn:E; simpl; [split; discriminate|].
  rewrite <- IH. destruct (split_once c s) as [[]|]; split; congruence.
Qed.

(** *** Decimal text *)

Lemma digit_val_digit d : 0 <= d < 10 -> digit_val (digit d) = d.
Proof. intros H. unfold digit_val, digit. rewrite code_char_of; lia. Qed.
Lemma is_digit_digit d : 0 <= d < 10 -> is_ascii_digit (digit d) = true.
Proof. intros H. apply between_spec. unfold digit. rewrite code_char_of; lia. Qed.
Lemma digit_val_range a : is_ascii_digit a = true -> 0 <= digit_val a < 10.
Proof. intros H%between_spec. unfold digit_val. lia. Qed.

Lemma dec_fold_acc acc s :
  str_fold dec_step acc s = acc * 10 ^ len s + dec_value s.
Proof.
  unfold dec_value, len. revert acc; induction s as [|a s IH]; intros acc.
  - simpl. lia.
  - cbn [str_fold String.length]. rewrite IH, (IH (dec_step 0 a)).
    rewrite Nat2Z.inj_succ, Z.pow_succ_r by lia. unfold dec_step. lia.
Qed.
Lemma dec_value_app a b : dec_value (a +:+ b) = dec_value a * 10 ^ len b + dec_value b.
Proof.
  rewrite <- (dec_fold_acc (dec_value a) b). unfold dec_value.
  generalize 0. induction a as [|x a IH]; intros z; simpl; [done|]. apply IH.
Qed.
Lemma dec_value_cons a s : dec_value (String a s) = digit_val a * 10 ^ len s + dec_value s.
Proof. unfold dec_value at 1. cbn [str_fold]. rewrite dec_fold_acc. unfold dec_step. lia. Qed.

Lemma dec_value_range s : str_all is_ascii_digit s = true -> 0 <= dec_value s < 10 ^ len s.
Proof.
  induction s as [|a s IH]; intros H.
  - unfold dec_value, len; simpl; lia.
  - cbn [str_all] in H. apply andb_true_iff in H as [Ha%digit_val_range Hs].
    specialize (IH Hs). rewrite dec_value_cons.
    unfold len in *. cbn [String.length]. rewrite Nat2Z.inj_succ, Z.pow_succ_r by lia. nia.
Qed.

Lemma dec_value_zeros n : dec_value (str_repeat "0" n) = 0.
Proof. induction n as [|n IH]; [done|]. cbn [str_repeat]. now rewrite dec_value_cons, IH. Qed.

Lemma dec_digits_spec fuel n acc :
  0 <= n < 10 ^ Z.of_nat fuel -> (0 < fuel)%nat ->
  exists s, dec_digits fuel n acc = s +:+ acc /\ s <> EmptyString /\
    str_all is_ascii_digit s = true /\ dec_value s = n /\
    forall k, (0 < k)%nat -> n < 10 ^ Z.of_nat k -> (String.length s <= k)%nat.
Proof.
  revert n acc; induction fuel as [|fuel IH]; intros n acc Hn Hf; [lia|].
  pose proof (Z.mod_pos_bound n 10 ltac:(lia)) as Hm.
  cbn [dec_digits]. destruct (n <? 10) eqn:E.
  - apply Z.ltb_lt in E. exists (String (digit (n mod 10)) EmptyString).
    cbn [str_all]. rewrite is_digit_digit, dec_value_cons, digit_val_digit by lia.
    repeat split; try done.
    unfold len; cbn. rewrite Z.mod_small; lia.
  - apply Z.ltb_ge in E. rewrite Nat2Z.inj_succ, Z.pow_succ_r in Hn by lia.
    pose proof (Z.div_mod n 10 ltac:(lia)) as Hd.
    assert (0 < fuel)%nat as Hf' by (destruct fuel; [cbn in Hn; lia | lia]).
    destruct (IH (n / 10) (String (digit (n mod 10)) acc)) as (s & -> & Hne & Hall & Hv & Hlen);
      [split; [apply Z.div_pos; lia | apply Z.div_lt_upper_bound; lia] | done |].
    exists (s +:+ String (digit (n mod 10)) EmptyString). repeat split.
    + now rewrite append_assoc.
    + rewrite append_is_nil. intros [? _]; done.
    + rewrite str_all_app, Hall. cbn [str_all]. now rewrite is_digit_digit.
    + rewrite dec_value_app, Hv, dec_value_cons, digit_val_digit by lia.
      unfold len; cbn. lia.
    + intros k Hk Hnk. rewrite length_append. cbn [String.length].
      destruct k as [|[|k]]; [lia | cbn in Hnk; lia |].
      rewrite Nat2Z.inj_succ, Z.pow_succ_r in Hnk by lia.
      specialize (Hlen (S k) ltac:(lia)). assert (n / 10 < 10 ^ Z.of_nat (S k)).
      { apply Z.div_lt_upper_bound; lia. }
      lia.
Qed.

Lemma to_dec_spec n : 0 <= n ->
  to_dec n <> EmptyString /\ str_all is_ascii_digit (to_dec n) = true /\
  dec_value (to_dec n) = n /\
  forall k, (0 < k)%nat -> n < 10 ^ Z.of_nat k -> (String.length (to_dec n) <= k)%nat.
Proof.
  intros Hn. unfold to_dec.
  destruct (dec_digits_spec (S (Z.to_nat (Z.log2 n))) n EmptyString) as (s & -> & H);
    [|lia|rewrite append_nil_r; exact H].
  split; [done|]. rewrite Nat2Z.inj_succ, Z2Nat.id by apply Z.log2_nonneg.
  destruct (decide (n = 0)) as [->|]; [cbn; lia|].
  apply Z.lt_le_trans with (2 ^ Z.succ (Z.log2 n)).
  - apply Z.log2_spec; lia.
  - apply Z.pow_le_mono_l. lia.
Qed.

Lemma parse_digits_spec s v :
  parse_digits s = Some v <->
  s <> EmptyString /\ str_all is_ascii_digit s = true /\ v = dec_value s.
Proof.
  unfold parse_digits. destruct s as [|a s]; cbn [is_empty]; [split; [discriminate | tauto]|].
  destruct (str_all is_ascii_digit (String a s)); split; intros H.
  - injection H as <-. repeat split; discriminate.
  - now destruct H as (_ & _ & ->).
  - discriminate.
  - now destruct H as (_ & ? & _).
Qed.

Lemma strip_plus_digits s : str_all is_ascii_digit s = true -> strip_plus s = s.
Proof.
  destruct s as [|a s]; cbn [str_all strip_plus]; [done|].
  rewrite andb_true_iff. intros [Ha _]. destruct (Ascii.eqb_spec a "+") as [->|]; [|done].
  discriminate Ha.
Qed.

(** On text that is already known to be all digits, [parse::<u64>()] is the
    decimal value with the range check. *)
Lemma parse_unsigned_digits hi s :
  s <> EmptyString -> str_all is_ascii_digit s = true ->
  parse_unsigned hi s = in_range 0 hi (dec_value s).
Proof.
  intros Hs Hd. unfold parse_unsigned. rewrite strip_plus_digits by done.
  rewrite (proj2 (parse_digits_spec s (dec_value s))); done.
Qed.

Lemma length_pad_left w s : (String.length s <= w)%nat -> String.length (pad_left w s) = w.
Proof. intros H. unfold pad_left. rewrite length_append, length_str_repeat. lia. Qed.
Lemma length_pad_right w s : (String.length s <= w)%nat -> String.length (pad_right w s) = w.
Proof. intros H. unfold pad_right. rewrite length_append, length_str_repeat. lia. Qed.
Lemma dec_value_pad_left w s : dec_value (pad_left w s) = dec_value s.
Proof. unfold pad_left. rewrite dec_value_app, dec_value_zeros. lia. Qed.
Lemma str_all_digit_pad_left w s :
  str_all is_ascii_digit s = true -> str_all is_ascii_digit (pad_left w s) = true.
Proof. intros H. unfold pad_left. rewrite str_all_app, H, str_all_repeat by done. done. Qed.
Lemma pad_right_full w s : String.length s = w -> pad_right w s = s.
Proof. intros <-. unfold pad_right. rewrite Nat.sub_diag. apply append_nil_r. Qed.

(** *** Trimming *)

(** A graphic ASCII character: never part of a space, so trimming stops. *)
Definition is_graphic : ascii -> bool := between 33 126.

Lemma ws1_graphic a : is_graphic a = true -> ws1 a = false.
Proof.
  intros H%between_spec. unfold ws1, between.
  destruct (9 <=? code a) eqn:?, (code a <=? 13) eqn:?, (code a =? 32) eqn:?; simpl; try done; lia.
Qed.
Lemma ws2_graphic_l a b : is_graphic a = true -> ws2 a b = false.
Proof. intros H%between_spec. unfold ws2. destruct (Z.eqb_spec (code a) 194); [lia | done]. Qed.
Lemma ws2_graphic_r a b : is_graphic b = true -> ws2 a b = false.
Proof.
  intros H%between_spec. unfold ws2.
  destruct (Z.eqb_spec (code b) 133), (Z.eqb_spec (code b) 160); lia.
Qed.
Lemma ws3_lead a b c : ws3 a b c = true -> 225 <= code a /\ 128 <= code c.
Proof.
  unfold ws3. intros H.
  repeat (case_match; try discriminate; try (split; lia)).
Qed.
Lemma ws3_graphic_l a b c : is_graphic a = true -> ws3 a b c = false.
Proof. intros H%between_spec. destruct (ws3 a b c) eqn:E; [apply ws3_lead in E; lia | done]. Qed.

Lemma str_rev_app_spec s acc : str_rev_app s acc = str_rev s +:+ acc.
Proof.
  unfold str_rev. revert acc; induction s as [|a s IH]; intros acc; cbn [str_rev_app]; [done|].
  rewrite IH, (IH (String a EmptyString)), append_assoc. done.
Qed.
Lemma str_rev_cons a s : str_rev (String a s) = str_rev s +:+ String a EmptyString.
Proof. unfold str_rev at 1. cbn [str_rev_app]. apply str_rev_app_spec. Qed.
Lemma str_rev_append a b : str_rev (a +:+ b) = str_rev b +:+ str_rev a.
Proof.
  induction a as [|x a IH]; cbn [String.append].
  - now rewrite append_nil_r.
  - now rewrite !str_rev_cons, IH, append_assoc.
Qed.
Lemma str_rev_involutive s : str_rev (str_rev s) = s.
Proof.
  induction s as [|a s IH]; [done|]. rewrite str_rev_cons, str_rev_append, IH. done.
Qed.
Lemma str_all_rev p s : str_all p (str_rev s) = str_all p s.
Proof.
  induction s as [|a s IH]; [done|].
  rewrite str_rev_cons, str_all_app, IH. cbn [str_all]. rewrite andb_true_r. apply andb_comm.
Qed.

Lemma trim_start_graphic a s : is_graphic a = true -> trim_start (String a s) = String a s.
Proof.
  intros H. cbn [trim_start]. rewrite (ws1_graphic a H).
  destruct s as [|b s]; [done|]. rewrite (ws2_graphic_l a b H).
  destruct s as [|c s]; [done|]. now rewrite (ws3_graphic_l a b c H).
Qed.
Lemma ws3_graphic_r a b c : is_graphic c = true -> ws3 a b c = false.
Proof. intros H%between_spec. destruct (ws3 a b c) eqn:E; [apply ws3_lead in E; lia | done]. Qed.
Lemma trim_end_rev_graphic a s : is_graphic a = true -> trim_end_rev (String a s) = String a s.
Proof.
  intros H. cbn [trim_end_rev]. rewrite (ws1_graphic a H).
  destruct s as [|b s]; [done|]. rewrite (ws2_graphic_r b a H).
  destruct s as [|c s]; [done|]. now rewrite (ws3_graphic_r c b a H).
Qed.

(** Trimming is the identity on text that starts and ends graphically, in
    particular on graphic text. *)
Lemma trim_graphic s : str_all is_graphic s = true -> trim s = s.
Proof.
  intros H. unfold trim. assert (trim_start s = s) as ->.
  { destruct s as [|a s]; [done|]. apply trim_start_graphic.
    cbn [str_all] in H. now apply andb_true_iff in H as [? _]. }
  unfold trim_end. assert (trim_end_rev (str_rev s) = str_rev s) as ->.
  { rewrite <- str_all_rev in H. destruct (str_rev s) as [|a r]; [done|].
    apply trim_end_rev_graphic. cbn [str_all] in H. now apply andb_true_iff in H as [? _]. }
  apply str_rev_involutive.
Qed.
Lemma is_blank_graphic s : str_all is_graphic s = true -> s <> EmptyString -> is_blank s = false.
Proof. intros H Hs. unfold is_blank. rewrite trim_graphic by done. now destruct s. Qed.

Lemma digit_graphic a : is_ascii_digit a = true -> is_graphic a = true.
Proof. intros H%between_spec. apply between_spec. lia. Qed.

(** *** Case folding *)

Lemma to_lower_idem a : char_to_lower (char_to_lower a) = char_to_lower a.
Proof.
  unfold char_to_lower at 2 3. destruct (is_ascii_uppercase a) eqn:E.
  - apply between_spec in E. unfold char_to_lower.
    destruct (is_ascii_uppercase (char_of (code a + 32))) eqn:E2; [|done].
    apply between_spec in E2. rewrite code_char_of in E2; lia.
  - unfold char_to_lower. now rewrite E.
Qed.
Lemma to_ascii_lowercase_idem s : to_ascii_lowercase (to_ascii_lowercase s) = to_ascii_lowercase s.
Proof.
  unfold to_ascii_lowercase. induction s as [|a s IH]; simpl; [done|].
  now rewrite to_lower_idem, IH.
Qed.
Lemma eq_ignore_ascii_case_spec a b :
  eq_ignore_ascii_case a b = true <-> to_ascii_lowercase a = to_ascii_lowercase b.
Proof. unfold eq_ignore_ascii_case. apply String.eqb_eq. Qed.
Lemma eq_ignore_ascii_case_refl a : eq_ignore_ascii_case a a = true.
Proof. now apply eq_ignore_ascii_case_spec. Qed.

#[export] Hint Rewrite append_assoc append_nil_r length_append str_all_app
  as_bytes_app length_as_bytes : patala_rw.

(** *** Splitting *)

Fixpoint str_join (sep : ascii) (l : list str) : str :=
  match l with
  | [] => EmptyString
  | [s] => s
  | s :: l => s +:+ String sep (str_join sep l)
  end.
Definition no_char (c : ascii) (s : str) : bool := str_all (fun a => negb (Ascii.eqb c a)) s.

Lemma split_where_nonempty p s : split_where p s <> [].
Proof. destruct s; simpl; [done|]. destruct (p a); [done|]. now destruct (split_where p s). Qed.

(** Splitting and joining are inverse: the pieces hold no separator, and
    joining them gives the text back. *)
Lemma split_char_join c s : str_join c (split_char c s) = s.
Proof.
  unfold split_char. induction s as [|a s IH]; [done|]. cbn [split_where].
  pose proof (split_where_nonempty (Ascii.eqb c) s) as Hne.
  destruct (Ascii.eqb_spec c a) as [->|].
  - destruct (split_where _ s) as [|l r]; [done|]. cbn in *. now rewrite IH.
  - destruct (split_where _ s) as [|l [|l2 r]]; [done| |]; cbn in *; now rewrite IH.
Qed.
Lemma split_char_pieces c s : Forall (fun p => no_char c p = true) (split_char c s).
Proof.
  unfold split_char. induction s as [|a s IH]; cbn [split_where]; [now repeat constructor|].
  destruct (Ascii.eqb c a) eqn:E; [now constructor|].
  destruct (split_where _ s) as [|l r]; [constructor; [|done]|].
  - cbn. now rewrite E.
  - apply Forall_cons in IH as [Hl Hr]. constructor; [|done]. cbn. now rewrite E.
Qed.
Lemma split_char_none c s : no_char c s = true -> split_char c s = [s].
Proof.
  unfold split_char, no_char. induction s as [|a s IH]; [done|]. cbn [str_all split_where].
  intros [Ha%negb_true_iff Hs]%andb_true_iff. now rewrite Ha, (IH Hs).
Qed.
Lemma split_char_cons c l s :
  no_char c l = true -> split_char c (l +:+ String c s) = l :: split_char c s.
Proof.
  unfold split_char, no_char. induction l as [|a l IH]; cbn [str_all String.append split_where].
  - intros _. now rewrite Ascii.eqb_refl.
  - intros [Ha%negb_true_iff Hl]%andb_true_iff. now rewrite Ha, (IH Hl).
Qed.
Lemma split_char_3 c s x y z :
  split_char c s = [x; y; z] <->
  s = x +:+ String c (y +:+ String c z) /\
  no_char c x = true /\ no_char c y = true /\ no_char c z = true.
Proof.
  split.
  - intros H. pose proof (split_char_join c s) as J. pose proof (split_char_pieces c s) as P.
    rewrite H in J, P. rewrite !Forall_cons in P. cbn in J. split; [done | tauto].
  - intros (-> & Hx & Hy & Hz). now rewrite !split_char_cons, split_char_none.
Qed.

Lemma split_char_2 c s x y :
  split_char c s = [x; y] <-> s = x +:+ String c y /\ no_char c x = true /\ no_char c y = true.
Proof.
  split.
  - intros H. pose proof (split_char_join c s) as J. pose proof (split_char_pieces c s) as P.
    rewrite H in J, P. rewrite !Forall_cons in P. cbn in J. split; [done | tauto].
  - intros (-> & Hx & Hy). now rewrite split_char_cons, split_char_none.
Qed.

(** *** Trimming twice *)

(** Does the text start (or, on reversed bytes, end) with a space? *)
Definition ws_head (s : str) : bool :=
  match s with
  | EmptyString => false
  | String a s1 =>
      ws1 a || match s1 with
               | EmptyString => false
               | String b s2 => ws2 a b || match s2 with EmptyString => false | String c _ => ws3 a b c end
               end
  end.
Definition ws_head_rev (s : str) : bool :=
  match s with
  | EmptyString => false
  | String a s1 =>
      ws1 a || match s1 with
               | EmptyString => false
               | String b s2 => ws2 b a || match s2 with EmptyString => false | String c _ => ws3 c b a end
               end
  end.

Lemma trim_start_id s : ws_head s = false -> trim_start s = s.
Proof.
  destruct s as [|a s1]; cbn [ws_head trim_start]; [done|].
  intros [-> H]%orb_false_iff. destruct s1 as [|b s2]; [done|].
  apply orb_false_iff in H as [-> H]. destruct s2; [done | now rewrite H].
Qed.
Lemma trim_end_rev_id s : ws_head_rev s = false -> trim_end_rev s = s.
Proof.
  destruct s as [|a s1]; cbn [ws_head_rev trim_end_rev]; [done|].
  intros [-> H]%orb_false_iff. destruct s1 as [|b s2]; [done|].
  apply orb_false_iff in H as [-> H]. destruct s2; [done | now rewrite H].
Qed.

Lemma trim_start_head : forall s, ws_head (trim_start s) = false.
Proof.
  fix IH 1. intros [|a s1]; [done|]. cbn [trim_start].
  destruct (ws1 a) eqn:E1; [apply IH|].
  destruct s1 as [|b s2]; [cbn; now rewrite E1|].
  destruct (ws2 a b) eqn:E2; [apply IH|].
  destruct s2 as [|c s3]; [cbn; now rewrite E1, E2|].
  destruct (ws3 a b c) eqn:E3; [apply IH | cbn; now rewrite E1, E2, E3].
Qed.
Lemma trim_end_rev_head : forall s, ws_head_rev (trim_end_rev s) = false.
Proof.
  fix IH 1. intros [|a s1]; [done|]. cbn [trim_end_rev].
  destruct (ws1 a) eqn:E1; [apply IH|].
  destruct s1 as [|b s2]; [cbn; now rewrite E1|].
  destruct (ws2 b a) eqn:E2; [apply IH|].
  destruct s2 as [|c s3]; [cbn; now rewrite E1, E2|].
  destruct (ws3 c b a) eqn:E3; [apply IH | cbn; now rewrite E1, E2, E3].
Qed.
Lemma trim_end_rev_suffix : forall s, exists p, s = p +:+ trim_end_rev s.
Proof.
  fix IH 1. intros [|a s1]; [now exists EmptyString|]. cbn [trim_end_rev].
  destruct (ws1 a).
  { destruct (IH s1) as [p Hp]. exists (String a p). cbn. now rewrite <- Hp. }
  destruct s1 as [|b s2]; [now exists EmptyString|]. destruct (ws2 b a).
  { destruct (IH s2) as [p Hp]. exists (String a (String b p)). cbn. now rewrite <- Hp. }
  destruct s2 as [|c s3]; [now exists EmptyString|]. destruct (ws3 c b a).
  - destruct (IH s3) as [p Hp]. exists (String a (String b (String c p))). cbn. now rewrite <- Hp.
  - now exists EmptyString.
Qed.
Lemma ws_head_prefix p q : ws_head p = true -> ws_head (p +:+ q) = true.
Proof.
  destruct p as [|a [|b [|c p]]]; cbn [ws_head String.append]; rewrite ?orb_false_r; try done.
  - now intros ->.
  - destruct (ws1 a), (ws2 a b); done.
Qed.

(** [trim] leaves no space at either end, so trimming again changes nothing. *)
Lemma trim_idem s : trim (trim s) = trim s.
Proof.
  unfold trim at 1 2. set (t := trim_start s).
  assert (trim_start (trim_end t) = trim_end t) as E.
  { apply trim_start_id. destruct (ws_head (trim_end t)) eqn:Eh; [|done].
    pose proof (trim_start_head s) as Ht. fold t in Ht. rewrite <- Ht. symmetry.
    destruct (trim_end_rev_suffix (str_rev t)) as [p Hp].
    rewrite <- (str_rev_involutive t), Hp, str_rev_append.
    apply ws_head_prefix, Eh. }
  rewrite E. unfold trim, trim_end. fold t. rewrite str_rev_involutive.
  now rewrite (trim_end_rev_id _ (trim_end_rev_head _)).
Qed.

(** Changing the case of ASCII letters and trimming do not interfere. *)
Lemma to_upper_cases a : char_to_upper a = a \/ (97 <= code a <= 122 /\ 65 <= code (char_to_upper a) <= 90).
Proof.
  unfold char_to_upper. destruct (is_ascii_lowercase a) eqn:E; [|now left].
  apply between_spec in E. right. rewrite code_char_of; lia.
Qed.
Lemma to_upper_idem a : char_to_upper (char_to_upper a) = char_to_upper a.
Proof.
  destruct (to_upper_cases a) as [E|[_ E]]; [now rewrite !E|].
  unfold char_to_upper at 1. destruct (is_ascii_lowercase (char_to_upper a)) eqn:El; [|done].
  apply between_spec in El. lia.
Qed.
Lemma ws1_ascii a : ws1 a = true -> code a <= 32.
Proof. unfold ws1. intros [?%between_spec|?%Z.eqb_eq]%orb_true_iff; lia. Qed.
Lemma ws2_high a b : ws2 a b = true -> 128 <= code a /\ 128 <= code b.
Proof. unfold ws2. intros [?%Z.eqb_eq [?%Z.eqb_eq|?%Z.eqb_eq]%orb_true_iff]%andb_true_iff; lia. Qed.
Lemma ws3_high a b c : ws3 a b c = true -> 128 <= code a /\ 128 <= code b /\ 128 <= code c.
Proof.
  unfold ws3. repeat case_match; intros Hw; try discriminate Hw; try lia.
Qed.
Lemma ws1_upper a : ws1 (char_to_upper a) = ws1 a.
Proof.
  destruct (to_upper_cases a) as [->|[H1 H2]]; [done|].
  destruct (ws1 a) eqn:E1; [apply ws1_ascii in E1; lia|].
  destruct (ws1 (char_to_upper a)) eqn:E2; [apply ws1_ascii in E2; lia | done].
Qed.
Ltac high_bytes := repeat match goal with
  | H : ws2 _ _ = true |- _ => apply ws2_high in H
  | H : ws3 _ _ _ = true |- _ => apply ws3_high in H
  end; lia.
Lemma ws2_upper a b : ws2 (char_to_upper a) (char_to_upper b) = ws2 a b.
Proof.
  apply eq_bool_prop_intro. rewrite !Is_true_true.
  destruct (to_upper_cases a) as [->|[? ?]], (to_upper_cases b) as [->|[? ?]]; split; intros ?; try done; high_bytes.
Qed.
Lemma ws3_upper a b c : ws3 (char_to_upper a) (char_to_upper b) (char_to_upper c) = ws3 a b c.
Proof.
  apply eq_bool_prop_intro. rewrite !Is_true_true.
  destruct (to_upper_cases a) as [->|[? ?]], (to_upper_cases b) as [->|[? ?]], (to_upper_cases c) as [->|[? ?]];
    split; intros ?; try done; high_bytes.
Qed.
Lemma trim_start_upper : forall s, trim_start (to_ascii_uppercase s) = to_ascii_uppercase (trim_start s).
Proof.
  unfold to_ascii_uppercase. fix IH 1. intros [|a s1]; [done|]. cbn [trim_start str_map]. rewrite ws1_upper.
  destruct (ws1 a); [apply IH|]. destruct s1 as [|b s2]; [done|]. cbn [str_map]. rewrite ws2_upper.
  destruct (ws2 a b); [apply IH|]. destruct s2 as [|c s3]; [done|]. cbn [str_map]. rewrite ws3_upper.
  destruct (ws3 a b c); [apply IH | done].
Qed.
Lemma trim_end_rev_upper : forall s, trim_end_rev (to_ascii_uppercase s) = to_ascii_uppercase (trim_end_rev s).
Proof.
  unfold to_ascii_uppercase. fix IH 1. intros [|a s1]; [done|]. cbn [trim_end_rev str_map]. rewrite ws1_upper.
  destruct (ws1 a); [apply IH|]. destruct s1 as [|b s2]; [done|]. cbn [str_map]. rewrite ws2_upper.
  destruct (ws2 b a); [apply IH|]. destruct s2 as [|c s3]; [done|]. cbn [str_map]. rewrite ws3_upper.
  destruct (ws3 c b a); [apply IH | done].
Qed.
Lemma str_map_append f a b : str_map f (a +:+ b) = str_map f a +:+ str_map f b.
Proof. induction a as [|x a IH]; cbn; [done | now rewrite IH]. Qed.
Lemma str_rev_map f s : str_rev (str_map f s) = str_map f (str_rev s).
Proof.
  induction s as [|a s IH]; [done|]. cbn [str_map]. rewrite !str_rev_cons, IH, str_map_append. done.
Qed.
Lemma trim_upper s : trim (to_ascii_uppercase s) = to_ascii_uppercase (trim s).
Proof.
  unfold trim, trim_end. rewrite trim_start_upper.
  unfold to_ascii_uppercase at 1. rewrite str_rev_map.
  change (str_map char_to_upper) with to_ascii_uppercase. rewrite trim_end_rev_upper.
  unfold to_ascii_uppercase at 1. now rewrite str_rev_map.
Qed.
Lemma to_ascii_uppercase_idem s : to_ascii_uppercase (to_ascii_uppercase s) = to_ascii_uppercase s.
Proof.
  unfold to_ascii_uppercase. induction s as [|a s IH]; cbn; [done|]. now rewrite to_upper_idem, IH.
Qed.
