(* ===== verification/External.v ===== *)
(** * Interfaces of the libraries the crates link

    Code that is not in the repository enters the model through these classes:
    its operations, and — in a class of its own — the documented behaviour the
    theorems rely on. The instances at the end are concrete functions that
    satisfy those laws; the witnesses of the other files run on them. *)

From S2P Require Import Prelude RustStr.

(** [hex]: [encode] is lower-case, two characters a byte; [decode] accepts
    what [encode] produces. *)
Class Hex := { hex_encode : list byte -> str; hex_decode : str -> option (list byte) }.
Class HexLaws `{Hex} : Prop := {
  hex_decode_encode b : hex_decode (hex_encode b) = Some b;
  hex_encode_graphic b : str_all is_graphic (hex_encode b) = true;
  length_hex_encode b : String.length (hex_encode b) = (2 * length b)%nat;
}.

(** [hmac::Mac] with its [KeyInit]: [new_from_slice] may refuse a key; the tag
    is a function of key and message; [verify_slice] compares it with the
    expected bytes. *)
Class Mac := { mac_tag : list byte -> option (list byte -> list byte) }.
Definition verify_slice (tag expected : list byte) : bool := bool_decide (tag = expected).

(** ** Concrete instances *)

Definition hex_char (n : Z) : ascii := if n <? 10 then char_of (48 + n) else char_of (87 + n).
Definition hex_val (a : ascii) : option Z :=
  if is_ascii_digit a then Some (code a - 48)
  else if between 97 102 a then Some (code a - 87)
  else if between 65 70 a then Some (code a - 55)
  else None.
Fixpoint hex_encode_ref (b : list byte) : str :=
  match b with
  | [] => EmptyString
  | x :: b =>
      String (hex_char (Z_of_byte x / 16)) (String (hex_char (Z_of_byte x mod 16)) (hex_encode_ref b))
  end.
Fixpoint hex_decode_ref (s : str) : option (list byte) :=
  match s with
  | EmptyString => Some []
  | String a (String b s) =>
      h ← hex_val a; l ← hex_val b; r ← hex_decode_ref s; Some (byte_of_Z (16 * h + l) :: r)
  | _ => None
  end.
#[local] Instance ref_hex : Hex :=
  {| hex_encode := hex_encode_ref; hex_decode := hex_decode_ref |}.

Lemma hex_val_char n : 0 <= n < 16 -> hex_val (hex_char n) = Some n.
Proof.
  intros H. assert (In n (map Z.of_nat (seq 0 16))) as Hin.
  { apply in_map_iff. exists (Z.to_nat n). split; [lia|]. apply in_seq. lia. }
  assert (forallb (fun n => match hex_val (hex_char n) with Some m => m =? n | None => false end)
    (map Z.of_nat (seq 0 16)) = true) as F by (vm_compute; reflexivity).
  rewrite forallb_forall in F. specialize (F n Hin).
  destruct (hex_val _); [apply Z.eqb_eq in F; congruence | done].
Qed.
Lemma hex_char_graphic n : 0 <= n < 16 -> is_graphic (hex_char n) = true.
Proof.
  intros H. unfold hex_char. destruct (Z.ltb_spec n 10); apply between_spec;
    rewrite code_char_of; lia.
Qed.
Lemma nibbles x : 0 <= Z_of_byte x / 16 < 16 /\ 0 <= Z_of_byte x mod 16 < 16.
Proof.
  pose proof (Z_of_byte_range x). split.
  - split; [apply Z.div_pos; lia | apply Z.div_lt_upper_bound; lia].
  - apply Z.mod_pos_bound. lia.
Qed.
Lemma ref_hex_laws : HexLaws.
Proof.
  split; cbn.
  - induction b as [|x b IH]; [done|]. cbn [hex_encode_ref hex_decode_ref].
    destruct (nibbles x). rewrite !hex_val_char, IH by done. cbn.
    rewrite <- Z.div_mod by lia. now rewrite byte_of_Z_of_byte.
  - induction b as [|x b IH]; [done|]. cbn [hex_encode_ref str_all].
    destruct (nibbles x). now rewrite !hex_char_graphic, IH.
  - induction b as [|x b IH]; [done|]. cbn [hex_encode_ref String.length length]. lia.
Qed.

(** A MAC for the witnesses: it authenticates nothing, it only depends on both
    inputs. *)
Definition ref_mac : Mac := {| mac_tag := fun key => Some (fun msg => key ++ msg) |}.

(** ** Cryptography and encodings of the chain rails *)

(** SHA-256 of a byte string. Nothing is assumed about collisions: where a
    theorem needs two digests to differ it says "or these two inputs collide". *)
Class Sha256 := { sha256 : list byte -> list byte }.
Class Sha256Laws `{Sha256} : Prop := { length_sha256 m : length (sha256 m) = 32%nat }.
Definition sha256_collision `{Sha256} (a b : list byte) : Prop := a <> b /\ sha256 a = sha256 b.

(** [ed25519-dalek]: signing keys are given by their 32-byte seed;
    [ed_valid_key] is [VerifyingKey::from_bytes(..).is_ok()]: the bytes are a
    point on the curve. *)
Class Ed25519 := {
  ed_pubkey : list byte -> list byte;
  ed_valid_key : list byte -> bool;
  ed_sign : list byte -> list byte -> list byte;
  ed_verify : list byte -> list byte -> list byte -> bool;
}.
Class Ed25519Laws `{Ed25519} : Prop := {
  length_ed_pubkey s : length (ed_pubkey s) = 32%nat;
  length_ed_sign s m : length (ed_sign s m) = 64%nat;
  ed_pubkey_valid s : ed_valid_key (ed_pubkey s) = true;
  ed_verify_sign s m : ed_verify (ed_pubkey s) m (ed_sign s m) = true;
}.

(** [serde_json::to_vec] and [from_slice] at one type. *)
Class Serde (T : Type) := { to_vec : T -> Result str (list byte); from_slice : list byte -> option T }.
Class SerdeLaws (T : Type) `{Serde T} : Prop := {
  from_slice_to_vec t b : to_vec t = Ok b -> from_slice b = Some t;
}.

(** [hex::decode] into a fixed-size array: [<[u8; n]>::try_from(bytes)]. *)
Definition array_of (n : nat) (b : list byte) : option (list byte) :=
  if Nat.eqb (length b) n then Some b else None.
Lemma array_of_Some n b a : array_of n b = Some a <-> a = b /\ length b = n.
Proof.
  unfold array_of. destruct (Nat.eqb_spec (length b) n); split; try congruence.
  - now intros [= <-].
  - now intros [-> _].
  - now intros [_ ?].
Qed.

(** Stand-ins for the witnesses: the laws hold, nothing is secure. *)
Definition pad_to (n : nat) (m : list byte) : list byte := take n (m ++ repeat x00 n).
Lemma length_pad_to n m : length (pad_to n m) = n.
Proof. unfold pad_to. rewrite length_take, length_app, repeat_length. lia. Qed.
Definition ref_sha256 : Sha256 :=
  {| sha256 := fun m => pad_to 32 (u64_le (Z.of_nat (length m)) ++
       u64_le (fold_left (fun h b => (h * 257 + Z_of_byte b) mod 2 ^ 61) m 7)) |}.
Lemma ref_sha256_laws : @Sha256Laws ref_sha256.
Proof. split. intros m. apply length_pad_to. Qed.
Definition ref_ed25519 : Ed25519 := {|
  ed_pubkey := fun s => pad_to 32 s;
  ed_valid_key := fun pk => Nat.eqb (length pk) 32;
  ed_sign := fun s m => pad_to 64 (pad_to 32 s ++ m);
  ed_verify := fun pk m sig => bool_decide (sig = pad_to 64 (pk ++ m));
|}.
Lemma ref_ed25519_laws : @Ed25519Laws ref_ed25519.
Proof.
  split; cbn; intros; rewrite ?length_pad_to; auto. now apply bool_decide_eq_true.
Qed.

(** A self-delimiting binary format, the stand-in for a serializer: what is
    written can be read back from the front of any stream. *)
Class Codec (T : Type) := {
  put : T -> list byte;
  get : list byte -> option (T * list byte);
  get_put t r : get (put t ++ r) = Some (t, r);
}.
Definition decode_all {T} `{Codec T} (b : list byte) : option T := fst <$> get b.
Lemma decode_put {T} `{Codec T} (t : T) : decode_all (put t) = Some t.
Proof. unfold decode_all. rewrite <- (app_nil_r (put t)), get_put. done. Qed.

Definition get_byte (b : list byte) : option (byte * list byte) :=
  match b with [] => None | x :: b => Some (x, b) end.
#[export] Instance byte_codec : Codec byte :=
  {| put x := [x]; get := get_byte; get_put x r := eq_refl |}.

Definition get_pair {A B} `{Codec A, Codec B} (b : list byte) : option (A * B * list byte) :=
  p ← get b; q ← get p.2; Some (p.1, q.1, q.2).
Lemma get_put_pair {A B} `{Codec A, Codec B} (p : A * B) r :
  get_pair ((put p.1 ++ put p.2) ++ r) = Some (p, r).
Proof. unfold get_pair. rewrite <- app_assoc, get_put. cbn. rewrite get_put. now destruct p. Qed.
#[export] Instance pair_codec {A B} `{Codec A, Codec B} : Codec (A * B) :=
  {| put p := put p.1 ++ put p.2; get := get_pair; get_put := get_put_pair |}.

Definition put_sum {A B} `{Codec A, Codec B} (s : A + B) : list byte :=
  match s with inl a => x00 :: put a | inr b => x01 :: put b end.
Definition get_sum {A B} `{Codec A, Codec B} (b : list byte) : option ((A + B) * list byte) :=
  match b with
  | x00 :: b => p ← get b; Some (inl p.1, p.2)
  | x01 :: b => p ← get b; Some (inr p.1, p.2)
  | _ => None
  end.
Lemma get_put_sum {A B} `{Codec A, Codec B} (s : A + B) r : get_sum (put_sum s ++ r) = Some (s, r).
Proof. destruct s; cbn; now rewrite get_put. Qed.
#[export] Instance sum_codec {A B} `{Codec A, Codec B} : Codec (A + B) :=
  {| put := put_sum; get := get_sum; get_put := get_put_sum |}.

Fixpoint put_list {A} `{Codec A} (l : list A) : list byte :=
  match l with [] => [x00] | a :: l => x01 :: put a ++ put_list l end.
Fixpoint get_list {A} `{Codec A} (fuel : nat) (b : list byte) : option (list A * list byte) :=
  match fuel, b with
  | S _, x00 :: b => Some ([], b)
  | S fuel, x01 :: b => p ← get b; q ← get_list fuel p.2; Some (p.1 :: q.1, q.2)
  | _, _ => None
  end.
Lemma get_put_list_fuel {A} `{Codec A} (l : list A) r fuel :
  (length (put_list l) <= fuel)%nat -> get_list fuel (put_list l ++ r) = Some (l, r).
Proof.
  revert fuel. induction l as [|a l IH]; intros [|fuel] Hf; cbn in *; try lia; [done|].
  rewrite length_app in Hf. rewrite <- app_assoc, get_put. cbn. now rewrite IH by lia.
Qed.
Lemma get_put_list {A} `{Codec A} (l : list A) r :
  get_list (length (put_list l ++ r)) (put_list l ++ r) = Some (l, r).
Proof. apply get_put_list_fuel. rewrite length_app. lia. Qed.
#[export] Instance list_codec {A} `{Codec A} : Codec (list A) :=
  {| put := put_list; get b := get_list (length b) b; get_put := get_put_list |}.

Definition codec_via {A B} `{Codec A} (f : B -> A) (g : A -> B) (Hgf : forall b, g (f b) = b) : Codec B.
Proof.
  refine {| put b := put (f b); get b := p ← get b; Some (g p.1, p.2) |}.
  intros t r. rewrite get_put. cbn. now rewrite Hgf.
Defined.
(** A type is coded through the sum or product its constructors spell. *)
Tactic Notation "codec_as" uconstr(f) uconstr(g) :=
  refine (codec_via f g _); intros x; destruct x; reflexivity.

#[export] Instance option_codec {A} `{Codec A} : Codec (option A).
Proof.
  codec_as (fun o => match o with Some a => inl a | None => inr ([] : list byte) end)
    (fun s => match s with inl a => Some a | inr _ => None end).
Defined.
Fixpoint pos_bits (p : positive) : list byte :=
  match p with xH => [] | xO p => x00 :: pos_bits p | xI p => x01 :: pos_bits p end.
Fixpoint bits_pos (b : list byte) : positive :=
  match b with [] => xH | x00 :: b => xO (bits_pos b) | _ :: b => xI (bits_pos b) end.
Lemma bits_pos_bits p : bits_pos (pos_bits p) = p.
Proof. induction p as [p IH|p IH|]; cbn; now rewrite ?IH. Qed.
#[export] Instance Z_codec : Codec Z.
Proof.
  refine (codec_via (fun z => match z with Z0 => inl x00 | Zpos p => inr (inl (pos_bits p))
                              | Zneg p => inr (inr (pos_bits p)) end)
    (fun s => match s with inl _ => Z0 | inr (inl b) => Zpos (bits_pos b)
              | inr (inr b) => Zneg (bits_pos b) end) _).
  intros [|p|p]; now rewrite ?bits_pos_bits.
Defined.
#[export] Instance str_codec : Codec str :=
  codec_via list_byte_of_string string_of_list_byte string_of_list_byte_of_string.

Definition ref_serde {T} `{Codec T} : Serde T :=
  {| to_vec t := Ok (put t); from_slice := decode_all |}.
Lemma ref_serde_laws {T} `{Codec T} : @SerdeLaws T ref_serde.
Proof. split. intros t b [= <-]. apply decode_put. Qed.

(** Numbers as a fixed count of digits, least significant first: what the
    stand-ins for address encodings are made of. *)
Fixpoint digits (base : Z) (enc : Z -> ascii) (n : nat) (v : Z) : str :=
  match n with
  | O => EmptyString
  | S n => String (enc (v mod base)) (digits base enc n (v / base))
  end.
Fixpoint digits_value (base : Z) (dec : ascii -> Z) (s : str) : Z :=
  match s with EmptyString => 0 | String a s => dec a + base * digits_value base dec s end.

Section Digits.
Context (base : Z) (enc : Z -> ascii) (dec : ascii -> Z) (p : ascii -> bool).
Context (Henc : forall n, 0 <= n < base -> dec (enc n) = n /\ p (enc n) = true).

Lemma digits_value_digits n v : 0 < base -> 0 <= v < base ^ Z.of_nat n -> digits_value base dec (digits base enc n v) = v.
Proof using Henc.
  intros Hb. revert v. induction n as [|n IH]; intros v Hv; cbn [digits digits_value].
  - cbn in Hv. lia.
  - rewrite Nat2Z.inj_succ, Z.pow_succ_r in Hv by lia.
    destruct (Henc (v mod base)) as [-> _]; [apply Z.mod_pos_bound; lia|].
    rewrite IH by (split; [apply Z.div_pos | apply Z.div_lt_upper_bound]; lia).
    rewrite (Z.div_mod v base) at 3 by lia. lia.
Qed.
Lemma digits_shape n v :
  0 < base ->
  String.length (digits base enc n v) = n /\ str_all p (digits base enc n v) = true.
Proof using Henc.
  intros Hb. revert v. induction n as [|n IH]; intros v; [done|]. cbn [digits String.length str_all].
  destruct (IH (v / base)) as [-> ->].
  destruct (Henc (v mod base)) as [_ ->]; [now apply Z.mod_pos_bound | done].
Qed.
End Digits.
