(* ===== verification/Core.v ===== *)
(** * patala-core: the seam

    The types every rail and every consumer shares ([patala-core/src/error.rs],
    [capabilities.rs], [rail.rs], [destination.rs], [webhook.rs]), the
    [PaymentRail] trait as a record of operations over a world, its provided
    methods, and [RailLaws], the promises of the trait's documentation that the
    clients of a rail rely on. *)

From S2P Require Import Prelude RustStr.

(** ** capabilities.rs *)

Inductive RailClass := CustodialReversible | NonCustodialFinal.
#[export] Instance RailClass_eq_dec : EqDecision RailClass.
Proof. solve_decision. Defined.

Inductive Settlement := Instant | Seconds (s : Z) | Days (d : Z).
#[export] Instance Settlement_eq_dec : EqDecision Settlement.
Proof. solve_decision. Defined.

Record RailCapabilities := {
  class : RailClass;
  reversible : bool;
  requires_kyc : bool;
  holds_funds : bool;
  currencies : list str;
  settlement : Settlement;
  atomic_multi_party : bool;
}.

(** ** error.rs *)

Inductive Error :=
  | Unsupported (what : str)
  | Rail (msg : str)
  | InvalidRequest (msg : str)
  | CrossClassFailover (from to : RailClass)
  | AllRailsFailed.
#[export] Instance Error_eq_dec : EqDecision Error.
Proof. solve_decision. Defined.

Definition debug_class (c : RailClass) : str :=
  match c with
  | CustodialReversible => "CustodialReversible"
  | NonCustodialFinal => "NonCustodialFinal"
  end.
(** [Display for Error]. *)
Definition error_display (e : Error) : str :=
  match e with
  | Unsupported what => what +:+ " is not supported by this rail"
  | Rail msg => "rail error: " +:+ msg
  | InvalidRequest msg => "invalid request: " +:+ msg
  | CrossClassFailover from to =>
      "failover from a " +:+ debug_class from +:+ " rail to a " +:+ debug_class to +:+ " rail would cross the settlement-class boundary; call `.allow_cross_class(true)` on the FailoverRail if this is intentional"
  | AllRailsFailed => "no rail satisfied the request"
  end.

Definition require_atomic_multi_party (c : RailCapabilities) : Result Error unit :=
  if atomic_multi_party c then Ok tt
  else Err (Unsupported
    "atomic_multi_party: this rail settles N payouts as N independent operations, never as one atomic event").

(** ** rail.rs: requests, quotes, receipts *)

Record PayRequest := {
  req_amount_minor : Z;
  req_currency : str;
  req_destination : str;
  req_reference : str;
}.

Definition validate (req : PayRequest) : Result Error unit :=
  return_if req_amount_minor req =? 0 with_
    Err (InvalidRequest "amount_minor must be nonzero");
  return_if is_blank (req_currency req) with_
    Err (InvalidRequest "currency must not be empty");
  return_if is_blank (req_destination req) with_
    Err (InvalidRequest "destination must not be empty");
  return_if is_blank (req_reference req) with_
    Err (InvalidRequest "reference must not be empty");
  Ok tt.

Record Quote := {
  q_rail_id : str;
  q_amount_minor : Z;
  q_currency : str;
  q_fee_minor : Z;
  q_total_minor : Z;
  q_settlement : Settlement;
  q_expires_at_unix : Z;
}.

Record Receipt := {
  rail_id : str;
  amount_minor : Z;
  currency : str;
  reference : str;
  proof : list byte;
  settled_at_unix : Z;
}.
#[export] Instance Receipt_eq_dec : EqDecision Receipt.
Proof. solve_decision. Defined.

(** ** destination.rs *)

Definition EXCHANGE_DEPOSIT_CAVEAT : str :=
  "patala cannot tell whether this address belongs to an exchange. A structurally perfect address may still be an exchange deposit or withdrawal address, and an exchange will not credit funds arriving there to the person who gave you the address. Determining that needs commercial address-attribution data patala deliberately does not depend on, so only the person who owns the wallet can confirm they control this address and can receive on it.".

Inductive DestinationStatus :=
  | Malformed | WrongNetwork | NotAWallet | StructurallyValid | Unknown.
#[export] Instance DestinationStatus_eq_dec : EqDecision DestinationStatus.
Proof. solve_decision. Defined.

Record DestinationVerdict := {
  v_rail_id : str;
  status : DestinationStatus;
  reason : str;
  human_must_confirm : bool;
  exchange_deposit_caveat : str;
}.

Definition default_reason (s : DestinationStatus) : str :=
  match s with
  | Malformed => "this is not a well-formed address for this rail's network"
  | WrongNetwork =>
      "this address is well-formed, but belongs to a different network than this rail pays on"
  | NotAWallet =>
      "this address is valid on this network but is not a plain wallet — nobody may hold a key for it, so funds sent there can be unrecoverable"
  | StructurallyValid =>
      "every check this rail can make offline passed; whether the recipient can actually receive on it is not something this rail can know"
  | Unknown =>
      "this rail cannot check this destination offline, so a human who controls the receiving wallet must confirm it"
  end.

Definition verdict_new (rid : str) (s : DestinationStatus) (why : str) : DestinationVerdict := {|
  v_rail_id := rid;
  status := s;
  reason := if is_blank why then default_reason s else why;
  human_must_confirm := true;
  exchange_deposit_caveat := EXCHANGE_DEPOSIT_CAVEAT;
|}.
Definition malformed (rid why : str) := verdict_new rid Malformed why.
Definition wrong_network (rid why : str) := verdict_new rid WrongNetwork why.
Definition not_a_wallet (rid why : str) := verdict_new rid NotAWallet why.
Definition structurally_valid (rid why : str) := verdict_new rid StructurallyValid why.
Definition unknown (rid why : str) := verdict_new rid Unknown why.

Definition is_refusal (v : DestinationVerdict) : bool :=
  match status v with
  | Malformed | WrongNetwork | NotAWallet => true
  | StructurallyValid | Unknown => false
  end.
Definition requires_human_confirmation (_ : DestinationVerdict) : bool := true.

(** ** webhook.rs *)

Record WebhookDelivery := {
  raw_body : list byte;
  headers : gmap str str;
  query : gmap str str;
  wd_now_unix : Z;
}.
Definition delivery_new (body : list byte) (now : Z) : WebhookDelivery :=
  {| raw_body := body; headers := ∅; query := ∅; wd_now_unix := now |}.
Definition with_header (name value : str) (d : WebhookDelivery) : WebhookDelivery :=
  {| raw_body := raw_body d;
     headers := <[to_ascii_lowercase name := value]> (headers d);
     query := query d; wd_now_unix := wd_now_unix d |}.
Definition with_headers (hs : list (str * str)) (d : WebhookDelivery) : WebhookDelivery :=
  fold_left (fun d '(k, v) => with_header k v d) hs d.
Definition with_query_param (name value : str) (d : WebhookDelivery) : WebhookDelivery :=
  {| raw_body := raw_body d; headers := headers d;
     query := <[name := value]> (query d); wd_now_unix := wd_now_unix d |}.
Definition with_query (ps : list (str * str)) (d : WebhookDelivery) : WebhookDelivery :=
  fold_left (fun d '(k, v) => with_query_param k v d) ps d.
Definition header (name : str) (d : WebhookDelivery) : option str :=
  headers d !! to_ascii_lowercase name.
Definition query_param (name : str) (d : WebhookDelivery) : option str := query d !! name.
Definition header_or_empty (name : str) (d : WebhookDelivery) : str :=
  default EmptyString (header name d).

Inductive WebhookStatus := Settled | NotSettled | Unconfirmed.
#[export] Instance WebhookStatus_eq_dec : EqDecision WebhookStatus.
Proof. solve_decision. Defined.

Record WebhookEvent := {
  we_rail_id : str;
  event_id : str;
  we_reference : str;
  object_id : str;
  we_status : WebhookStatus;
  we_amount_minor : Z;
  we_currency : str;
}.
Definition unconfirmed (rid eid oid : str) : WebhookEvent := {|
  we_rail_id := rid; event_id := eid; we_reference := EmptyString; object_id := oid;
  we_status := Unconfirmed; we_amount_minor := 0; we_currency := EmptyString;
|}.
Definition settlement_event (rid eid ref : str) (settled : bool) (amount : Z) (cur : str)
    : WebhookEvent := {|
  we_rail_id := rid; event_id := eid; we_reference := ref; object_id := EmptyString;
  we_status := if settled then Settled else NotSettled;
  we_amount_minor := if settled then amount else 0;
  we_currency := if settled then cur else EmptyString;
|}.
Definition with_object_id (oid : str) (e : WebhookEvent) : WebhookEvent := {|
  we_rail_id := we_rail_id e; event_id := event_id e; we_reference := we_reference e;
  object_id := oid; we_status := we_status e; we_amount_minor := we_amount_minor e;
  we_currency := we_currency e;
|}.
Definition is_settled (e : WebhookEvent) : bool := bool_decide (we_status e = Settled).

(** ** The trait

    A [dyn PaymentRail] is a record of its methods. Everything a method reads
    or changes outside its own arguments (the network, the clock, the rail's
    interior state) is the world [W]; [capabilities], [id] and
    [validate_destination] take no world, which is the trait's purity
    contract for them. *)

Record PaymentRail (W : Type) := {
  id : str;
  capabilities : RailCapabilities;
  quote : PayRequest -> Eff W Error Quote;
  charge : PayRequest -> Eff W Error Receipt;
  verify : Receipt -> Eff W Error bool;
  validate_destination : str -> DestinationVerdict;
  refund : Receipt -> Eff W Error Receipt;
  verify_webhook : WebhookDelivery -> Eff W Error WebhookEvent;
}.
Arguments id {W} _.
Arguments capabilities {W} _.
Arguments quote {W} _ _ _.
Arguments charge {W} _ _ _.
Arguments verify {W} _ _ _.
Arguments validate_destination {W} _ _.
Arguments refund {W} _ _ _.
Arguments verify_webhook {W} _ _ _.

(** The provided methods. *)
Definition default_validate_destination (rid dest : str) : DestinationVerdict :=
  return_if is_blank dest with_
    malformed rid "an empty destination is not an address on any rail";
  unknown rid ("the " +:+ rid +:+ " rail does not check destinations offline, so it can neither accept nor reject this one; a human who controls the receiving wallet must confirm it").
Definition default_refund {W} (_ : Receipt) : Eff W Error Receipt := eff_err (Unsupported "refund").
Definition default_verify_webhook {W} (_ : WebhookDelivery) : Eff W Error WebhookEvent :=
  eff_err (Unsupported "verify_webhook").

(** ** What a rail promises

    [verdict_honest] is what [DestinationVerdict::new] guarantees; [RailLaws]
    is what the trait's documentation asks of every implementation and what
    [FailoverRail] and the bindings rely on, in the worlds that satisfy an
    invariant [I] of the state the rails share. *)

Record verdict_honest (rid : str) (v : DestinationVerdict) : Prop := {
  honest_rail : v_rail_id v = rid;
  honest_confirm : human_must_confirm v = true;
  honest_caveat : exchange_deposit_caveat v = EXCHANGE_DEPOSIT_CAVEAT;
  honest_reason : is_blank (reason v) = false;
}.

Class RailLaws {W} (I : W -> Prop) (R : PaymentRail W) : Prop := {
  law_verify_foreign : forall r w, rail_id r <> id R -> verify R r w = (Ok false, w);
  law_charge_keeps : forall q w r w', I w -> charge R q w = (r, w') -> I w';
  law_charge_issues : forall q w r w', I w -> charge R q w = (Ok r, w') ->
    rail_id r = id R /\ reference r = req_reference q;
  law_charge_invalid : forall q w e, validate q = Err e -> charge R q w = (Err e, w);
  law_quote_invalid : forall q w e, validate q = Err e -> quote R q w = (Err e, w);
  law_verdict_honest : forall d, verdict_honest (id R) (validate_destination R d);
  law_blank_refused : forall d, is_blank d = true ->
    status (validate_destination R d) = Malformed;
  law_final_no_refund : class (capabilities R) = NonCustodialFinal ->
    forall r w, refund R r w = (Err (Unsupported "refund"), w);
}.

(** ** Lemmas *)

Lemma default_reason_not_blank s : is_blank (default_reason s) = false.
Proof. now destruct s. Qed.

Lemma verdict_new_honest rid s why : verdict_honest rid (verdict_new rid s why).
Proof.
  split; try done. cbn [verdict_new reason].
  destruct (is_blank why) eqn:E; [apply default_reason_not_blank | done].
Qed.

(** Every verdict in the workspace is built by [verdict_new], so honesty is
    syntax-directed. *)
Ltac solve_honest := repeat case_match; apply verdict_new_honest.

Lemma validate_spec q :
  validate q = Ok tt <->
  req_amount_minor q <> 0 /\ is_blank (req_currency q) = false /\
  is_blank (req_destination q) = false /\ is_blank (req_reference q) = false.
Proof.
  unfold validate. destruct (Z.eqb_spec (req_amount_minor q) 0); [split; [done | tauto]|].
  destruct (is_blank (req_currency q)), (is_blank (req_destination q)),
    (is_blank (req_reference q)); split; try done; try (intros (? & ? & ? & ?); done).
Qed.

Lemma validate_err q e : validate q = Err e -> exists m, e = InvalidRequest m.
Proof.
  unfold validate.
  repeat (case_match; [intros [= <-]; eauto|]). done.
Qed.

Lemma default_verdict_honest rid d : verdict_honest rid (default_validate_destination rid d).
Proof. unfold default_validate_destination. solve_honest. Qed.
