(* ===== verification/Mock.v ===== *)
(** * MockRail ([patala-core/src/mock.rs])

    The offline default rail: a keyed FNV digest as its receipt proof and a
    synthetic address grammar. *)

From S2P Require Import Prelude RustStr Core.

Definition DIGEST_LEN : nat := 32.
Definition KEY_LEN : nat := 16.

(** ** The digest *)

Definition FNV_OFFSET : Z := 0xcbf29ce484222325.
Definition FNV_PRIME : Z := 0x00000100000001b3.
Definition wrapping_mul (a b : Z) : Z := (a * b) mod 2 ^ 64.
Definition fnv1a_step (h : Z) (b : byte) : Z := wrapping_mul (Z.lxor h (Z_of_byte b)) FNV_PRIME.
Definition fnv1a_round (salt : Z) (key msg : list byte) : Z :=
  fold_left fnv1a_step (key ++ msg) (Z.lxor FNV_OFFSET salt).
Definition keyed_digest (key msg : list byte) : list byte :=
  u64_le (fnv1a_round 0 key msg) ++ u64_le (fnv1a_round 1 key msg) ++
  u64_le (fnv1a_round 2 key msg) ++ u64_le (fnv1a_round 3 key msg).

Definition signing_bytes (rid : str) (r : Receipt) : list byte :=
  as_bytes rid ++ u64_le (amount_minor r) ++ as_bytes (currency r) ++
  as_bytes (reference r) ++ u64_le (settled_at_unix r).

(** ** The rail *)

Record MockRail := {
  mock_id : str;
  mock_capabilities : RailCapabilities;
  mock_key : list byte;
  mock_fee_minor : Z;
  mock_fail : bool;
  checks_destinations : bool;
}.

Definition mock_new (rid : str) (cls : RailClass) (curs : list str) : MockRail :=
  let digest := keyed_digest (as_bytes "patala-core/mock-rail-key/v1") (as_bytes rid) in
  let rev := bool_decide (cls = CustodialReversible) in {|
    mock_id := rid;
    mock_capabilities := {|
      class := cls; reversible := rev; requires_kyc := rev; holds_funds := rev;
      currencies := curs;
      settlement := if rev then Days 2 else Instant;
      atomic_multi_party := false;
    |};
    mock_key := take KEY_LEN digest;
    mock_fee_minor := 0;
    mock_fail := false;
    checks_destinations := true;
  |}.
Definition with_fee_minor (fee : Z) (m : MockRail) : MockRail :=
  {| mock_id := mock_id m; mock_capabilities := mock_capabilities m; mock_key := mock_key m;
     mock_fee_minor := fee; mock_fail := mock_fail m;
     checks_destinations := checks_destinations m |}.
Definition failing (m : MockRail) : MockRail :=
  {| mock_id := mock_id m; mock_capabilities := mock_capabilities m; mock_key := mock_key m;
     mock_fee_minor := mock_fee_minor m; mock_fail := true;
     checks_destinations := checks_destinations m |}.
Definition without_destination_checks (m : MockRail) : MockRail :=
  {| mock_id := mock_id m; mock_capabilities := mock_capabilities m; mock_key := mock_key m;
     mock_fee_minor := mock_fee_minor m; mock_fail := mock_fail m;
     checks_destinations := false |}.

Definition currency_supported (m : MockRail) (c : str) : bool :=
  existsb (fun c' => String.eqb c' c) (currencies (mock_capabilities m)).
Definition unsupported_currency (m : MockRail) (c : str) : Error :=
  InvalidRequest ("rail " +:+ mock_id m +:+ " does not support currency " +:+ c).

Definition mock_validate_destination (m : MockRail) (dest : str) : DestinationVerdict :=
  let rid := mock_id m in
  let dest := trim dest in
  return_if is_empty dest with_
    malformed rid "an empty destination is not an address on any rail";
  return_if negb (checks_destinations m) with_
    unknown rid ("mock rail " +:+ rid +:+ " is configured without destination checks, standing in for a rail whose destination is an opaque processor-side token; a human who controls the receiving account must confirm this one");
  let parts := split_char ":" dest in
  return_if negb (Nat.eqb (length parts) 3) || existsb is_blank parts with_
    malformed rid (debug_str dest +:+ " is not a mock address: expected exactly " +:+ dquote
      +:+ "<network>:<kind>:<label>" +:+ dquote +:+ " with no empty part, e.g. " +:+ dquote
      +:+ rid +:+ ":wallet:alice" +:+ dquote);
  let network := nth 0 parts EmptyString in
  let kind := nth 1 parts EmptyString in
  let label := nth 2 parts EmptyString in
  return_if negb (String.eqb network rid) with_
    wrong_network rid ("this is a well-formed address for network " +:+ debug_str network
      +:+ ", but this rail pays on " +:+ debug_str rid
      +:+ "; money sent to it would land on the wrong network and would not be recoverable");
  return_if String.eqb kind "wallet" with_
    structurally_valid rid (debug_str label +:+ " is a well-formed " +:+ rid
      +:+ " wallet address; every check this rail can make offline passed, which is not the same as knowing the recipient can receive on it");
  return_if String.eqb kind "program" with_
    not_a_wallet rid (debug_str label +:+ " is a valid " +:+ rid
      +:+ " address but a program account, not a wallet — nobody holds a key for it, so funds sent there are typically unrecoverable");
  malformed rid (debug_str kind +:+ " is not a mock address kind: expected " +:+ dquote
    +:+ "wallet" +:+ dquote +:+ " or " +:+ dquote +:+ "program" +:+ dquote +:+ ", as in "
    +:+ dquote +:+ rid +:+ ":wallet:alice" +:+ dquote).

Section Mock.
Context {W : Type} `{Clock W}.

Definition mock_quote (m : MockRail) (req : PayRequest) : Eff W Error Quote :=
  eff_of (validate req) ≫= fun _ =>
  return_if negb (currency_supported m (req_currency req)) with_
    eff_err (unsupported_currency m (req_currency req));
  now ← read_clock;
  mret {|
    q_rail_id := mock_id m;
    q_amount_minor := req_amount_minor req;
    q_currency := req_currency req;
    q_fee_minor := mock_fee_minor m;
    q_total_minor := u64_saturating_add (req_amount_minor req) (mock_fee_minor m);
    q_settlement := settlement (mock_capabilities m);
    q_expires_at_unix := u64_saturating_add now 300;
  |}.

(** [r.proof = keyed_digest(..)] on the receipt whose proof is still empty:
    [signing_bytes] does not read the proof. *)
Definition with_proof (p : list byte) (r : Receipt) : Receipt :=
  {| rail_id := rail_id r; amount_minor := amount_minor r; currency := currency r;
     reference := reference r; proof := p; settled_at_unix := settled_at_unix r |}.
Definition mock_sign (m : MockRail) (r : Receipt) : list byte :=
  keyed_digest (mock_key m) (signing_bytes (mock_id m) r).

Definition mock_charge (m : MockRail) (req : PayRequest) : Eff W Error Receipt :=
  eff_of (validate req) ≫= fun _ =>
  return_if mock_fail m with_
    eff_err (Rail ("mock rail " +:+ mock_id m +:+ " is configured to fail"));
  return_if negb (currency_supported m (req_currency req)) with_
    eff_err (unsupported_currency m (req_currency req));
  now ← read_clock;
  let r := {|
    rail_id := mock_id m;
    amount_minor := req_amount_minor req;
    currency := req_currency req;
    reference := req_reference req;
    proof := [];
    settled_at_unix := now;
  |} in
  mret (with_proof (mock_sign m r) r).

Definition mock_verify (m : MockRail) (r : Receipt) : Eff W Error bool :=
  return_if negb (String.eqb (rail_id r) (mock_id m)) with_ mret false;
  return_if negb (Nat.eqb (length (proof r)) DIGEST_LEN) with_ mret false;
  mret (bool_decide (mock_sign m r = proof r)).

Definition mock_rail (m : MockRail) : PaymentRail W := {|
  id := mock_id m;
  capabilities := mock_capabilities m;
  quote := mock_quote m;
  charge := mock_charge m;
  verify := mock_verify m;
  validate_destination := mock_validate_destination m;
  refund := default_refund;
  verify_webhook := default_verify_webhook;
|}.
End Mock.

(** ** Lemmas *)

Lemma length_keyed_digest key msg : length (keyed_digest key msg) = DIGEST_LEN.
Proof.
  unfold keyed_digest, u64_le. rewrite !length_app, !length_le_bytes. done.
Qed.

Lemma lxor_range h b : 0 <= h < 2 ^ 64 -> 0 <= b < 2 ^ 64 -> 0 <= Z.lxor h b < 2 ^ 64.
Proof.
  intros Hh Hb. split; [apply Z.lxor_nonneg; lia|].
  assert (Z.lxor h b = 0 \/ 0 < Z.lxor h b) as [->|Hp]
    by (pose proof (proj2 (Z.lxor_nonneg h b) ltac:(lia)); lia); [lia|].
  apply Z.log2_lt_pow2; [done|].
  pose proof (Z.log2_lxor h b ltac:(lia) ltac:(lia)).
  assert (forall x, 0 <= x < 2 ^ 64 -> Z.log2 x < 64) as L.
  { intros x Hx. destruct (Z.eq_dec x 0) as [->|]; [done|]. apply Z.log2_lt_pow2; lia. }
  pose proof (L h Hh). pose proof (L b Hb). lia.
Qed.

Lemma lxor_cancel_r a b c : Z.lxor a c = Z.lxor b c -> a = b.
Proof.
  intros E. rewrite <- (Z.lxor_0_r a), <- (Z.lxor_0_r b), <- (Z.lxor_nilpotent c).
  now rewrite <- !Z.lxor_assoc, E.
Qed.

(** [FNV_PRIME] is odd, so multiplying by it is invertible modulo [2^64]. *)
Definition FNV_INVERSE : Z := 0xce965057aff6957b.
Lemma wrapping_mul_prime_inj a b :
  0 <= a < 2 ^ 64 -> 0 <= b < 2 ^ 64 ->
  wrapping_mul a FNV_PRIME = wrapping_mul b FNV_PRIME -> a = b.
Proof.
  unfold wrapping_mul. intros Ha Hb E.
  apply (f_equal (fun x => (x * FNV_INVERSE) mod 2 ^ 64)) in E.
  rewrite !Zmult_mod_idemp_l, <- !Z.mul_assoc in E.
  rewrite (Z.mul_mod a), (Z.mul_mod b) in E by lia.
  replace ((FNV_PRIME * FNV_INVERSE) mod 2 ^ 64) with 1 in E by reflexivity.
  rewrite !Z.mul_1_r, !Z.mod_mod, !Z.mod_small in E; lia.
Qed.

Lemma fnv1a_step_range h b : 0 <= fnv1a_step h b < 2 ^ 64.
Proof. apply Z.mod_pos_bound. lia. Qed.
Lemma byte_range64 b : 0 <= Z_of_byte b < 2 ^ 64.
Proof. pose proof (Z_of_byte_range b). lia. Qed.

Lemma fnv1a_step_inj h h' b :
  0 <= h < 2 ^ 64 -> 0 <= h' < 2 ^ 64 -> fnv1a_step h b = fnv1a_step h' b -> h = h'.
Proof.
  intros Hh Hh' E. apply wrapping_mul_prime_inj in E;
    [now apply lxor_cancel_r in E | apply lxor_range; auto using byte_range64 ..].
Qed.
Lemma fnv1a_step_byte_inj h b b' :
  0 <= h < 2 ^ 64 -> fnv1a_step h b = fnv1a_step h b' -> b = b'.
Proof.
  intros Hh E. apply wrapping_mul_prime_inj in E; [|apply lxor_range; auto using byte_range64 ..].
  rewrite !(Z.lxor_comm h) in E. now apply lxor_cancel_r, Z_of_byte_inj in E.
Qed.

Lemma fnv1a_fold_range l h : 0 <= h < 2 ^ 64 -> 0 <= fold_left fnv1a_step l h < 2 ^ 64.
Proof.
  revert h. induction l as [|b l IH]; intros h Hh; [done|]. apply IH, fnv1a_step_range.
Qed.
Lemma fnv1a_fold_inj l h h' :
  0 <= h < 2 ^ 64 -> 0 <= h' < 2 ^ 64 ->
  fold_left fnv1a_step l h = fold_left fnv1a_step l h' -> h = h'.
Proof.
  revert h h'. induction l as [|b l IH]; intros h h' Hh Hh' E; [done|].
  apply (fnv1a_step_inj h h' b), IH; auto using fnv1a_step_range.
Qed.

(** One changed byte always changes the digest. *)
Lemma keyed_digest_one_byte key pre b b' post :
  keyed_digest key (pre ++ b :: post) = keyed_digest key (pre ++ b' :: post) -> b = b'.
Proof.
  unfold keyed_digest. intros [E _]%app_inj_1; [|unfold u64_le; now rewrite !length_le_bytes].
  assert (0 <= Z.lxor FNV_OFFSET 0 < 2 ^ 64) as H0 by (split; vm_compute; done).
  unfold fnv1a_round in E. rewrite !app_assoc, !(fold_left_app _ (key ++ pre)) in E.
  pose proof (fnv1a_fold_range (key ++ pre) _ H0) as Hh.
  apply u64_le_inj in E;
    [| unfold is_u64, u64_max; match goal with |- 0 <= ?x <= _ =>
         enough (0 <= x < 2 ^ 64) by lia end; apply fnv1a_fold_range, Hh ..].
  cbn [fold_left] in E. apply fnv1a_fold_inj in E; auto using fnv1a_step_range.
  now apply fnv1a_step_byte_inj in E.
Qed.

Section Mock_lemmas.
Context {W : Type} `{Clock W}.
Implicit Types (m : MockRail) (w : W).

Lemma mock_verify_true m r w :
  mock_verify m r w = (Ok true, w) <-> rail_id r = mock_id m /\ proof r = mock_sign m r.
Proof.
  unfold mock_verify. destruct (String.eqb_spec (rail_id r) (mock_id m)); simpl;
    [|split; [discriminate | tauto]].
  destruct (Nat.eqb_spec (length (proof r)) DIGEST_LEN) as [Hl|Hl]; simpl.
  - case_bool_decide as E; split; try done; intros [_ ?]; congruence.
  - split; [discriminate|]. intros [_ E]. rewrite E in Hl.
    unfold mock_sign in Hl. now rewrite length_keyed_digest in Hl.
Qed.
Lemma mock_verify_total m r w : exists b, mock_verify m r w = (Ok b, w).
Proof. unfold mock_verify. repeat case_match; eauto. Qed.
Lemma mock_verify_false m r w :
  mock_verify m r w = (Ok false, w) <-> ~ (rail_id r = mock_id m /\ proof r = mock_sign m r).
Proof.
  rewrite <- (mock_verify_true m r w). destruct (mock_verify_total m r w) as [[] ->]; naive_solver.
Qed.

Lemma mock_charge_ok m q w r w' :
  mock_charge m q w = (Ok r, w') <->
  validate q = Ok tt /\ mock_fail m = false /\ currency_supported m (req_currency q) = true /\
  w' = (now_unix w).2 /\
  rail_id r = mock_id m /\ amount_minor r = req_amount_minor q /\
  currency r = req_currency q /\ reference r = req_reference q /\
  settled_at_unix r = (now_unix w).1 /\ proof r = mock_sign m r.
Proof.
  unfold mock_charge. unfold_eff.
  destruct (validate q) as [[]|]; [|refute_iff].
  destruct (mock_fail m); [refute_iff|].
  destruct (currency_supported m (req_currency q)); [|refute_iff]. cbn [negb].
  destruct (now_unix w) as [now w1]. cbn. split.
  - intros [= <- <-]. repeat split.
  - intros (_ & _ & _ & -> & ? & ? & ? & ? & ? & E). f_equal. f_equal.
    destruct r as [x1 x2 x3 x4 x5 x6]; cbn in *; subst. unfold with_proof; cbn. now f_equal.
Qed.

Lemma mock_verdict_honest m d : verdict_honest (mock_id m) (mock_validate_destination m d).
Proof. unfold mock_validate_destination. solve_honest. Qed.

Lemma mock_blank_refused m d :
  is_blank d = true -> status (mock_validate_destination m d) = Malformed.
Proof. unfold is_blank, mock_validate_destination. now intros ->. Qed.

#[export] Instance mock_rail_laws m (I : W -> Prop) :
  (forall w, I w -> I (now_unix w).2) -> RailLaws I (mock_rail (W := W) m).
Proof.
  intros HI. split; cbn.
  - intros r w Hr. apply mock_verify_false. tauto.
  - intros q w r w' Hw. unfold mock_charge. unfold_eff.
    destruct (validate q); [|now intros [= <- <-]].
    destruct (mock_fail m); [now intros [= <- <-]|].
    destruct (currency_supported m (req_currency q)); [|now intros [= <- <-]]. cbn [negb].
    specialize (HI w Hw). destruct (now_unix w). now intros [= <- <-].
  - intros q w r w' _ Hc%mock_charge_ok. tauto.
  - intros q w e He. unfold mock_charge. unfold_eff. now rewrite He.
  - intros q w e He. unfold mock_quote. unfold_eff. now rewrite He.
  - apply mock_verdict_honest.
  - apply mock_blank_refused.
  - done.
Qed.
End Mock_lemmas.

(** ** The receipt proof *)

(** [MockRail] round trip. A charge succeeds exactly on a valid request in a supported
    currency on a rail not configured to fail; the receipt then carries the request's
    amount, currency and reference, this rail's id and the clock's time, and [verify]
    accepts it at any later moment. *)
Theorem mock_charge_verify {W} `{Clock W} (m : MockRail) (q : PayRequest) (w : W)
    (Hq : validate q = Ok tt) (Hf : mock_fail m = false)
    (Hc : currency_supported m (req_currency q) = true) :
  exists r, mock_charge m q w = (Ok r, (now_unix w).2) /\
    rail_id r = mock_id m /\ amount_minor r = req_amount_minor q /\
    currency r = req_currency q /\ reference r = req_reference q /\
    settled_at_unix r = (now_unix w).1 /\
    forall w' : W, mock_verify m r w' = (Ok true, w').
Proof.
  set (r0 := {| rail_id := mock_id m; amount_minor := req_amount_minor q;
                currency := req_currency q; reference := req_reference q; proof := [];
                settled_at_unix := (now_unix w).1 |}).
  exists (with_proof (mock_sign m r0) r0). repeat split.
  - apply mock_charge_ok. repeat split; auto.
  - intros w'. apply mock_verify_true. split; done.
Qed.

Definition demo_mock : MockRail := mock_new "mock" NonCustodialFinal ["USDC"].
Definition demo_req : PayRequest := {|
  req_amount_minor := 500; req_currency := "USDC"; req_destination := "mock:wallet:alice";
  req_reference := "order-1";
|}.

Lemma mock_charge_verify_witness :
  exists r, mock_charge demo_mock demo_req 7 = (Ok r, 8) /\
    settled_at_unix r = 7 /\ mock_verify demo_mock r 100 = (Ok true, 100).
Proof.
  destruct (mock_charge_verify demo_mock demo_req 7) as (r & ? & ? & ? & ? & ? & ? & Hv);
    [vm_compute; reflexivity | reflexivity | vm_compute; reflexivity |].
  exists r. auto.
Defined.

(** C14: tampering. If the rail accepts a receipt, then any receipt with the same proof whose
    signed bytes (rail id, amount, currency, reference, time) differ from it in exactly
    one byte is rejected, and so is the same receipt under any other proof. *)
Theorem mock_tamper_detected {W} `{Clock W} (m : MockRail) (r r' : Receipt) (w w' : W)
    (Hv : mock_verify m r w = (Ok true, w))
    (Htamper :
      (proof r' = proof r /\ exists pre b b' post, b <> b' /\
         signing_bytes (mock_id m) r = pre ++ b :: post /\
         signing_bytes (mock_id m) r' = pre ++ b' :: post)
      \/ (signing_bytes (mock_id m) r' = signing_bytes (mock_id m) r /\ proof r' <> proof r)) :
  mock_verify m r' w' = (Ok false, w').
Proof.
  apply mock_verify_true in Hv as [_ Hp]. apply mock_verify_false. intros [_ Hp'].
  unfold mock_sign in *.
  destruct Htamper as [(Hpp & pre & b & b' & post & Hne & E & E')|[E Hpp]].
  - rewrite Hpp, Hp, E, E' in Hp'. now apply keyed_digest_one_byte in Hp'.
  - rewrite E, <- Hp in Hp'. congruence.
Qed.

Definition demo_receipt : Receipt :=
  match mock_charge demo_mock demo_req 7 with
  | (Ok r, _) => r
  | _ => {| rail_id := ""; amount_minor := 0; currency := ""; reference := ""; proof := [];
            settled_at_unix := 0 |}
  end.
(** One cent more: the low byte of the amount. *)
Definition tampered_receipt : Receipt :=
  {| rail_id := "mock"; amount_minor := 501; currency := "USDC"; reference := "order-1";
     proof := proof demo_receipt; settled_at_unix := 7 |}.

Lemma mock_tamper_detected_witness : mock_verify demo_mock tampered_receipt 9 = (Ok false, 9).
Proof.
  apply (mock_tamper_detected demo_mock demo_receipt tampered_receipt 9 9);
    [vm_compute; reflexivity|].
  left. split; [vm_compute; reflexivity|].
  exists (as_bytes "mock"), xf4, xf5, (skipn 5 (signing_bytes "mock" demo_receipt)).
  split; [discriminate|]. split; vm_compute; reflexivity.
Defined.

(** Several bytes at once are another matter: [signing_bytes] concatenates
    currency and reference without a length, so moving text across that
    boundary leaves the proof intact and the mutated receipt verifies. *)
Definition boundary_receipt (r : Receipt) (cur ref : str) : Receipt :=
  {| rail_id := rail_id r; amount_minor := amount_minor r; currency := cur; reference := ref;
     proof := proof r; settled_at_unix := settled_at_unix r |}.

(** The currency/reference boundary is not signed. Every receipt [r] the rail accepts
    stays accepted when characters move between its currency and its reference. *)
Theorem mock_boundary_not_signed {W} `{Clock W} (m : MockRail) (r : Receipt) (cur ref : str)
    (w : W) (Hv : mock_verify m r w = (Ok true, w))
    (Hsame : cur +:+ ref = currency r +:+ reference r) :
  mock_verify m (boundary_receipt r cur ref) w = (Ok true, w).
Proof.
  apply mock_verify_true in Hv as [Hid Hp]. apply mock_verify_true. split; [done|].
  cbn [proof boundary_receipt]. rewrite Hp. unfold mock_sign. f_equal.
  cbv [signing_bytes boundary_receipt amount_minor currency reference settled_at_unix].
  rewrite (app_assoc (as_bytes cur)), (app_assoc (as_bytes (Core.currency r))).
  rewrite <- !as_bytes_app, Hsame. done.
Qed.

Lemma mock_boundary_not_signed_witness :
  mock_verify demo_mock (boundary_receipt demo_receipt "USD" "Corder-1") 0 = (Ok true, 0).
Proof. apply mock_boundary_not_signed; vm_compute; reflexivity. Defined.

(** A rail configured to fail still quotes: only [charge] reads the flag. *)
Lemma mock_quote_ignores_failing {W} `{Clock W} (m : MockRail) q (w : W) :
  mock_quote (failing m) q w = mock_quote m q w.
Proof. done. Qed.

(** ** The destination grammar *)

(** [MockRail]'s verdict, decided exactly. On a rail that checks destinations, whose id is
    not blank and holds no colon, an address is [StructurallyValid] iff, trimmed, it is
    [<id>:wallet:<label>] with a non-blank label without colons. *)
Theorem mock_structurally_valid_iff (m : MockRail) (d : str)
    (Hc : checks_destinations m = true)
    (Hid : is_blank (mock_id m) = false) (Hcol : no_char ":" (mock_id m) = true) :
  status (mock_validate_destination m d) = StructurallyValid <->
  exists label, trim d = mock_id m +:+ ":wallet:" +:+ label /\
    is_blank label = false /\ no_char ":" label = true.
Proof.
  unfold mock_validate_destination. rewrite Hc. cbn [negb].
  destruct (is_empty (trim d)) eqn:Ee.
  { apply is_empty_spec in Ee. rewrite Ee. split; [discriminate|].
    intros (l & E & _). symmetry in E. apply append_is_nil in E as [_ E]. discriminate. }
  split.
  - destruct (split_char ":" (trim d)) as [|x [|y [|z [|]]]] eqn:E; cbn; try discriminate.
    destruct (is_blank x), (is_blank y), (is_blank z) eqn:Ez; cbn; try discriminate.
    destruct (String.eqb_spec x (mock_id m)) as [->|]; cbn; [|discriminate].
    destruct (String.eqb_spec y "wallet") as [->|]; cbn; [|destruct (String.eqb y _); discriminate].
    intros _. exists z. apply split_char_3 in E. tauto.
  - intros (l & E & Hb & Hl).
    assert (split_char ":" (trim d) = [mock_id m; "wallet"; l]) as ->
      by (rewrite E; apply split_char_3; auto).
    cbn [length Nat.eqb negb existsb nth orb]. rewrite Hid, Hb. cbn.
    now rewrite String.eqb_refl.
Qed.

Lemma mock_structurally_valid_iff_witness :
  status (mock_validate_destination demo_mock " mock:wallet:alice ") = StructurallyValid.
Proof.
  apply mock_structurally_valid_iff; [vm_compute; reflexivity ..|].
  exists "alice". split_and!; vm_compute; reflexivity.
Defined.
