(* ===== verification/Failover.v ===== *)
(** * FailoverRail ([patala-core/src/failover.rs])

    Candidate rails tried in policy order, falling through on error, without
    crossing the settlement-class boundary unless the caller opted in. Proved
    against the [PaymentRail] interface and [RailLaws] only. *)

From S2P Require Import Prelude RustStr Core Mock.

Section Failover.
Context {W : Type}.

(** [RoutingPolicy::order]: asynchronous (it may quote), infallible. *)
Definition RoutingPolicy : Type := list (PaymentRail W) -> PayRequest -> W -> list nat * W.
Definition InOrderPolicy : RoutingPolicy := fun rails _ w => (seq 0 (length rails), w).

Record FailoverRail := {
  rails : list (PaymentRail W);
  policy : RoutingPolicy;
  allow_cross_class : bool;
}.
Definition with_policy (rs : list (PaymentRail W)) (p : RoutingPolicy) : FailoverRail :=
  {| rails := rs; policy := p; allow_cross_class := false |}.
Definition failover_new (rs : list (PaymentRail W)) : FailoverRail := with_policy rs InOrderPolicy.
Definition set_allow_cross_class (allow : bool) (f : FailoverRail) : FailoverRail :=
  {| rails := rails f; policy := policy f; allow_cross_class := allow |}.

Record Plan := {
  plan_order : list nat;
  blocked : option (RailClass * RailClass);
}.

(** The loop of [plan], on its three mutable variables. *)
Fixpoint plan_loop (f : FailoverRail) (order eligible : list nat) (intended : option RailClass)
    (blk : option (RailClass * RailClass)) : Plan :=
  match order with
  | [] => {| plan_order := eligible; blocked := blk |}
  | idx :: order =>
      let_some rail := rails f !! idx or_else plan_loop f order eligible intended blk;
      let cls := class (capabilities rail) in
      match intended with
      | None => plan_loop f order (eligible ++ [idx]) (Some cls) blk
      | Some want =>
          if decide (want = cls) then plan_loop f order (eligible ++ [idx]) intended blk
          else if allow_cross_class f then plan_loop f order (eligible ++ [idx]) intended blk
          else plan_loop f order eligible intended
                 (match blk with Some b => Some b | None => Some (want, cls) end)
      end
  end.
Definition plan (f : FailoverRail) (req : PayRequest) (w : W) : Plan * W :=
  let '(order, w) := policy f (rails f) req w in
  (plan_loop f order [] None None, w).

Definition terminal_error (last : option Error) (blk : option (RailClass * RailClass)) : Error :=
  match blk with
  | Some (from, to) => CrossClassFailover from to
  | None => default AllRailsFailed last
  end.

(** The attempt loop of [quote] and [charge]. The index came out of
    [rails.get(idx)], so the [None] branch ([self.rails[*idx]] would panic) is
    not reached: [plan_loop_in_range]. *)
Fixpoint attempt {A} (f : FailoverRail) (op : PaymentRail W -> Eff W Error A)
    (blk : option (RailClass * RailClass)) (order : list nat) (last : option Error)
    : Eff W Error A :=
  match order with
  | [] => eff_err (terminal_error last blk)
  | idx :: order =>
      let_some rail := rails f !! idx or_else attempt f op blk order last;
      fun w =>
        match op rail w with
        | (Ok a, w) => (Ok a, w)
        | (Err e, w) => attempt f op blk order (Some e) w
        end
  end.

Definition failover_quote (f : FailoverRail) (req : PayRequest) : Eff W Error Quote :=
  fun w => let '(p, w) := plan f req w in
           attempt f (fun rail => quote rail req) (blocked p) (plan_order p) None w.
Definition failover_charge (f : FailoverRail) (req : PayRequest) : Eff W Error Receipt :=
  fun w => let '(p, w) := plan f req w in
           attempt f (fun rail => charge rail req) (blocked p) (plan_order p) None w.

Definition find_rail (f : FailoverRail) (rid : str) : option (PaymentRail W) :=
  List.find (fun rail => String.eqb (id rail) rid) (rails f).
Definition failover_verify (f : FailoverRail) (receipt : Receipt) : Eff W Error bool :=
  let_some rail := find_rail f (rail_id receipt) or_else mret false;
  verify rail receipt.
Definition failover_refund (f : FailoverRail) (receipt : Receipt) : Eff W Error Receipt :=
  let_some rail := find_rail f (rail_id receipt) or_else
    eff_err (Unsupported "refund: the rail that issued this receipt is not wrapped by this FailoverRail");
  refund rail receipt.

Definition destination_verdicts (f : FailoverRail) (dest : str) : list DestinationVerdict :=
  map (fun rail => validate_destination rail dest) (rails f).
Definition validate_destination_on (f : FailoverRail) (rid dest : str)
    : option DestinationVerdict :=
  (fun rail => validate_destination rail dest) <$> find_rail f rid.

(** ** Specification

    The candidates of a policy order; those of the first one's class; the
    first one of another class; and what it is to have tried a list of rails
    and failed on each. *)

Definition candidates (f : FailoverRail) (order : list nat) : list (PaymentRail W) :=
  omap (fun i => rails f !! i) order.
Definition same_class (c : RailClass) (R : PaymentRail W) : Prop := class (capabilities R) = c.
Definition in_class (c : RailClass) (R : PaymentRail W) : bool :=
  bool_decide (class (capabilities R) = c).
#[export] Instance same_class_dec c R : Decision (same_class c R).
Proof. unfold same_class. solve_decision. Defined.

Definition eligible_rails (f : FailoverRail) (order : list nat) : list (PaymentRail W) :=
  match candidates f order with
  | [] => []
  | R :: Rs =>
      if allow_cross_class f then R :: Rs
      else R :: filter (same_class (class (capabilities R))) Rs
  end.
Definition first_blocked (f : FailoverRail) (order : list nat) : option (RailClass * RailClass) :=
  match candidates f order with
  | [] => None
  | R :: Rs =>
      let want := class (capabilities R) in
      if allow_cross_class f then None
      else match filter (fun R' => ~ same_class want R') Rs with
           | [] => None
           | R' :: _ => Some (want, class (capabilities R'))
           end
  end.

(** [failed op Rs w es w']: running [op] on each of [Rs] in turn from [w]
    failed with [es], leaving [w']. *)
Inductive failed {A} (op : PaymentRail W -> Eff W Error A)
    : list (PaymentRail W) -> W -> list Error -> W -> Prop :=
  | failed_nil w : failed op [] w [] w
  | failed_cons R Rs w w1 w2 e es :
      op R w = (Err e, w1) -> failed op Rs w1 es w2 -> failed op (R :: Rs) w (e :: es) w2.

(** What trying [Rs] in order means: the first success, or the terminal error
    once every one of them failed. *)
Definition tries {A} (op : PaymentRail W -> Eff W Error A) (Rs : list (PaymentRail W))
    (blk : option (RailClass * RailClass)) (w : W) (out : Result Error A * W) : Prop :=
  (exists pre R post es w1 a w2,
     Rs = pre ++ R :: post /\ failed op pre w es w1 /\ op R w1 = (Ok a, w2) /\ out = (Ok a, w2))
  \/ (exists es w1, failed op Rs w es w1 /\ out = (Err (terminal_error (last es) blk), w1)).

(** ** Lemmas *)

Lemma candidates_app f o1 o2 : candidates f (o1 ++ o2) = candidates f o1 ++ candidates f o2.
Proof. apply omap_app. Qed.
Lemma candidates_cons f i order R :
  rails f !! i = Some R -> candidates f (i :: order) = R :: candidates f order.
Proof. intros E. unfold candidates. cbn. now rewrite E. Qed.
Lemma candidates_cons_none f i order :
  rails f !! i = None -> candidates f (i :: order) = candidates f order.
Proof. intros E. unfold candidates. cbn. now rewrite E. Qed.

(** The rest of the loop, once the intended class [want] is fixed. *)
Definition later_eligible f want (order : list nat) : list (PaymentRail W) :=
  if allow_cross_class f then candidates f order
  else filter (same_class want) (candidates f order).
Definition later_blocked f want (order : list nat) : option (RailClass * RailClass) :=
  if allow_cross_class f then None
  else match filter (fun R' => ~ same_class want R') (candidates f order) with
       | [] => None
       | R' :: _ => Some (want, class (capabilities R'))
       end.

Lemma plan_loop_later f want order el blk :
  let p := plan_loop f order el (Some want) blk in
  (exists tl, plan_order p = el ++ tl /\ candidates f tl = later_eligible f want order /\
     Forall (fun i => is_Some (rails f !! i)) tl) /\
  blocked p = match blk with Some b => Some b | None => later_blocked f want order end.
Proof.
  unfold later_eligible, later_blocked. revert el blk.
  induction order as [|i order IH]; intros el blk; cbn [plan_loop].
  - split; [exists []; rewrite app_nil_r; destruct (allow_cross_class f); auto|].
    cbn. now destruct blk, (allow_cross_class f).
  - destruct (rails f !! i) as [R|] eqn:Ei;
      [rewrite (candidates_cons _ _ _ _ Ei) | rewrite (candidates_cons_none _ _ _ Ei); apply IH].
    destruct (decide (want = class (capabilities R))) as [Hw|Hw].
    + destruct (IH (el ++ [i]) blk) as [(tl & Ho & Hc & Hr) Hb]. split.
      * exists (i :: tl). rewrite Ho, <- app_assoc, (candidates_cons _ _ _ _ Ei), Hc.
        split; [done|]. split; [|constructor; eauto]. destruct (allow_cross_class f); [done|].
        now rewrite filter_cons_True.
      * rewrite Hb. destruct blk, (allow_cross_class f); try done.
        rewrite (filter_cons_False _ R); [done|]. unfold same_class. intros n. now apply n.
    + destruct (allow_cross_class f) eqn:Ea.
      * destruct (IH (el ++ [i]) blk) as [(tl & Ho & Hc & Hr) Hb]. split; [|done].
        exists (i :: tl). rewrite Ho, <- app_assoc, (candidates_cons _ _ _ _ Ei), Hc.
        split; [done|]. split; [done|constructor; eauto].
      * edestruct IH as [(tl & Ho & Hc & Hr) Hb]. split.
        -- exists tl. split; [exact Ho|]. split; [|done].
           rewrite filter_cons_False; [done|]. unfold same_class. congruence.
        -- rewrite Hb. destruct blk; [done|].
           rewrite filter_cons_True; [done|]. unfold same_class. congruence.
Qed.

(** What [plan] computes: the rails tried, and the blocked boundary. *)
Lemma plan_spec f order :
  let p := plan_loop f order [] None None in
  candidates f (plan_order p) = eligible_rails f order /\
  blocked p = first_blocked f order /\
  Forall (fun i => is_Some (rails f !! i)) (plan_order p).
Proof.
  unfold eligible_rails, first_blocked. induction order as [|i order IH]; cbn [plan_loop]; [done|].
  destruct (rails f !! i) as [R|] eqn:Ei;
    [rewrite (candidates_cons _ _ _ _ Ei) | rewrite (candidates_cons_none _ _ _ Ei); apply IH].
  destruct (plan_loop_later f (class (capabilities R)) order [i] None) as [(tl & Ho & Hc & Hr) Hb].
  cbn [app] in *. rewrite Ho, (candidates_cons _ _ _ _ Ei), Hc, Hb.
  unfold later_eligible, later_blocked. split; [|split; [done | constructor; eauto]].
  now destruct (allow_cross_class f).
Qed.

Lemma attempt_tries {A} f (op : PaymentRail W -> Eff W Error A) blk order l0 w :
  let out := attempt f op blk order l0 w in
  (exists pre R post es w1 a w2,
     candidates f order = pre ++ R :: post /\ failed op pre w es w1 /\ op R w1 = (Ok a, w2) /\
  out = (Ok a, w2))
  \/ (exists es w1, failed op (candidates f order) w es w1 /\
  out = (Err (terminal_error (match last es with Some e => Some e | None => l0 end) blk), w1)).
Proof.
  revert l0 w. induction order as [|i order IH]; intros l0 w; cbn [attempt].
  - right. exists [], w. split; [constructor | done].
  - destruct (rails f !! i) as [R|] eqn:Ei;
      [rewrite (candidates_cons _ _ _ _ Ei) | rewrite (candidates_cons_none _ _ _ Ei); apply IH].
    destruct (op R w) as [[a|e] w1] eqn:Eop.
    + left. exists [], R, (candidates f order), [], w, a, w1. repeat split; try done. constructor.
    + destruct (IH (Some e) w1) as [(pre & R' & post & es & w2 & a & w3 & Hc & Hf & Ho & Hout)
        | (es & w2 & Hf & Hout)]; rewrite Hout.
      * left. exists (R :: pre), R', post, (e :: es), w2, a, w3. rewrite Hc.
        repeat split; try done. econstructor; eauto.
      * right. exists (e :: es), w2. split; [econstructor; eauto|].
        rewrite last_cons. now destruct (last es).
Qed.

(** [quote] and [charge] are [tries] over the eligible rails. *)
Lemma attempt_plan {A} f (op : PaymentRail W -> Eff W Error A) order w :
  let p := plan_loop f order [] None None in
  tries op (eligible_rails f order) (first_blocked f order) w
    (attempt f op (blocked p) (plan_order p) None w).
Proof.
  cbn zeta. destruct (plan_spec f order) as (Hc & Hb & _). rewrite <- Hc, <- Hb.
  destruct (attempt_tries f op (blocked (plan_loop f order [] None None))
    (plan_order (plan_loop f order [] None None)) None w)
    as [? | (es & w1 & ? & Hout)]; [now left | right].
  exists es, w1. split; [done|]. rewrite Hout. now destruct (last es).
Qed.

Lemma eligible_same_class f order R Rs R' :
  allow_cross_class f = false -> candidates f order = R :: Rs ->
  R' ∈ eligible_rails f order -> class (capabilities R') = class (capabilities R).
Proof.
  intros Ha Hc. unfold eligible_rails. rewrite Hc, Ha, elem_of_cons, list_elem_of_filter.
  intros [->|[H _]]; [done | exact H].
Qed.

Lemma candidates_subseteq f order R : R ∈ candidates f order -> R ∈ rails f.
Proof.
  unfold candidates. rewrite list_elem_of_omap. intros (i & _ & H).
  eapply list_elem_of_lookup_2; eauto.
Qed.
Lemma eligible_subseteq f order R : R ∈ eligible_rails f order -> R ∈ rails f.
Proof.
  intros H. apply (candidates_subseteq f order). revert H. unfold eligible_rails.
  destruct (candidates f order) as [|R' Rs]; [done|]. destruct (allow_cross_class f); [done|].
  rewrite !elem_of_cons, list_elem_of_filter. tauto.
Qed.

Lemma find_rail_id f rid R : find_rail f rid = Some R -> R ∈ rails f /\ id R = rid.
Proof.
  intros [Hin He]%find_some. apply String.eqb_eq in He. now rewrite list_elem_of_In.
Qed.
Lemma find_rail_unique f R :
  NoDup (map id (rails f)) -> R ∈ rails f -> find_rail f (id R) = Some R.
Proof.
  unfold find_rail. induction (rails f) as [|R' Rs IH]; [intros _ H; now apply elem_of_nil in H|].
  cbn. rewrite NoDup_cons, elem_of_cons. intros [Hn Hd] [->|Hin].
  - now rewrite String.eqb_refl.
  - destruct (String.eqb_spec (id R') (id R)) as [E|]; [|auto].
    destruct Hn. rewrite E. apply list_elem_of_fmap_2. done.
Qed.
Lemma find_rail_none f rid : find_rail f rid = None <-> rid ∉ map id (rails f).
Proof.
  unfold find_rail. induction (rails f) as [|R Rs IH]; cbn; [split; [intros _ H; now apply elem_of_nil in H | done]|].
  rewrite not_elem_of_cons. destruct (String.eqb_spec (id R) rid) as [->|]; [split; [done | tauto]|].
  rewrite IH. intuition congruence.
Qed.

Lemma candidates_in_order f : candidates f (seq 0 (length (rails f))) = rails f.
Proof.
  unfold candidates. generalize (rails f) as l. intros l.
  assert (forall (pre l : list (PaymentRail W)),
    omap (fun i => (pre ++ l) !! i) (seq (length pre) (length l)) = l) as H; [|apply (H [])].
  clear. intros pre l. revert pre. induction l as [|R l IH]; intros pre; [done|].
  cbn [length seq]. transitivity (R :: omap (fun i => (pre ++ R :: l) !! i) (seq (S (length pre)) (length l))).
  { cbn. now rewrite list_lookup_middle. }
  f_equal.
  specialize (IH (pre ++ [R])). rewrite <- app_assoc, length_app, Nat.add_comm in IH.
  exact IH.
Qed.

(** Under [InOrderPolicy] the candidates are the wrapped rails. *)
Lemma eligible_in_order R Rs :
  eligible_rails (failover_new (R :: Rs)) (seq 0 (length (R :: Rs))) =
  R :: filter (same_class (class (capabilities R))) Rs.
Proof.
  unfold eligible_rails. pose proof (candidates_in_order (failover_new (R :: Rs))) as E.
  cbn [rails failover_new with_policy] in E. now rewrite E.
Qed.
Lemma first_blocked_in_order R Rs :
  first_blocked (failover_new (R :: Rs)) (seq 0 (length (R :: Rs))) =
  match filter (fun R' => ~ same_class (class (capabilities R)) R') Rs with
  | [] => None
  | R' :: _ => Some (class (capabilities R), class (capabilities R'))
  end.
Proof.
  unfold first_blocked. pose proof (candidates_in_order (failover_new (R :: Rs))) as E.
  cbn [rails failover_new with_policy] in E. now rewrite E.
Qed.
Lemma filter_filter_class c Rs :
  filter (same_class c)
    (List.filter (in_class c) Rs) =
  filter (same_class c) Rs.
Proof.
  induction Rs as [|R1 Rs IH]; [done|]. cbn [List.filter].
  destruct (decide (same_class c R1)) as [Hc|Hc].
  - unfold in_class at 1. rewrite (bool_decide_eq_true_2 _ Hc), !filter_cons_True by done. now rewrite IH.
  - unfold in_class at 1. rewrite (bool_decide_eq_false_2 _ Hc), filter_cons_False by done. done.
Qed.

(** The attempt loop sees the rails only through the candidates. *)
Fixpoint try_rails {A} (op : PaymentRail W -> Eff W Error A) (Rs : list (PaymentRail W))
    (last : option Error) (w : W) : Result (option Error) A * W :=
  match Rs with
  | [] => (Err last, w)
  | R :: Rs =>
      match op R w with
      | (Ok a, w) => (Ok a, w)
      | (Err e, w) => try_rails op Rs (Some e) w
      end
  end.
Lemma attempt_try_rails {A} f (op : PaymentRail W -> Eff W Error A) blk order l0 w :
  attempt f op blk order l0 w =
  let '(r, w') := try_rails op (candidates f order) l0 w in
  (map_err (fun last => terminal_error last blk) r, w').
Proof.
  revert l0 w. induction order as [|i order IH]; intros l0 w; cbn [attempt]; [done|].
  destruct (rails f !! i) as [R|] eqn:Ei;
    [rewrite (candidates_cons _ _ _ _ Ei) | rewrite (candidates_cons_none _ _ _ Ei); apply IH].
  cbn [try_rails]. destruct (op R w) as [[a|e] w1]; [done | apply IH].
Qed.

Lemma charge_try_rails f q w order w0 :
  policy f (rails f) q w = (order, w0) ->
  failover_charge f q w =
  let '(r, w') := try_rails (fun R => charge R q) (eligible_rails f order) None w0 in
  (map_err (fun last => terminal_error last (first_blocked f order)) r, w').
Proof.
  intros E. unfold failover_charge, plan. rewrite E.
  destruct (plan_spec f order) as (Hc & Hb & _). now rewrite attempt_try_rails, Hc, Hb.
Qed.

Lemma charge_in_order Rs q w :
  failover_charge (failover_new Rs) q w =
  let '(r, w') := try_rails (fun R => charge R q)
    (eligible_rails (failover_new Rs) (seq 0 (length Rs))) None w in
  (map_err (fun last => terminal_error last
    (first_blocked (failover_new Rs) (seq 0 (length Rs)))) r, w').
Proof. now apply charge_try_rails. Qed.

Lemma try_rails_failed {A} (op : PaymentRail W -> Eff W Error A) Rs l0 w es w1 :
  failed op Rs w es w1 ->
  try_rails op Rs l0 w = (Err (match last es with Some e => Some e | None => l0 end), w1).
Proof.
  intros H. revert l0. induction H as [w|R Rs w w1 w2 e es Hop Hf IH]; intros l0; [done|].
  cbn [try_rails]. rewrite Hop, IH, last_cons. now destruct (last es).
Qed.

Lemma try_rails_issuer {A} (I : W -> Prop) (op : PaymentRail W -> Eff W Error A) Rs l0 w a w' :
  (forall R w r w', R ∈ Rs -> I w -> op R w = (r, w') -> I w') -> I w ->
  try_rails op Rs l0 w = (Ok a, w') -> exists R w1, I w1 /\ R ∈ Rs /\ op R w1 = (Ok a, w').
Proof.
  intros HI. revert l0 w. induction Rs as [|R Rs IH]; intros l0 w Hw; cbn [try_rails]; [done|].
  destruct (op R w) as [[a'|e] w1] eqn:E.
  - intros [= <- <-]. exists R, w. split; [done|]. split; [left | done].
  - intros H. destruct (IH ltac:(intros; eapply HI; eauto; now right) _ w1
      (HI R w _ w1 ltac:(left) Hw E) H) as (R' & w2 & HI2 & Hin & Ho).
    exists R', w2. split; [done|]. split; [now right | done].
Qed.

Lemma try_rails_invalid (I : W -> Prop) q e Rs l0 w :
  (forall R, R ∈ Rs -> RailLaws I R) -> validate q = Err e -> Rs <> [] ->
  try_rails (fun R => charge R q) Rs l0 w = (Err (Some e), w).
Proof.
  intros HL He. revert l0. induction Rs as [|R Rs IH]; intros l0 Hne; [done|]. cbn [try_rails].
  pose proof (HL R ltac:(left)). rewrite (law_charge_invalid (I := I) q w e He).
  destruct Rs as [|R' Rs]; [done|]. apply IH; [|done]. intros R0 H0. apply HL. now right.
Qed.
End Failover.
Arguments FailoverRail : clear implicits.
Arguments RoutingPolicy : clear implicits.

(** ** Theorems *)

(** C23: [FailoverRail::charge], completely. Whatever the rails and the policy, charging tries
    the eligible rails in policy order and stops at the first success, threading the world
    through every attempt; if all of them fail, the error is [CrossClassFailover] when a
    rail of another class was skipped, else the last rail's own error, else
    [AllRailsFailed]. *)
Theorem failover_charge_tries {W} (f : FailoverRail W) (q : PayRequest) (w : W) :
  let '(order, w0) := policy f (rails f) q w in
  tries (fun R => charge R q) (eligible_rails f order) (first_blocked f order) w0
    (failover_charge f q w).
Proof.
  unfold failover_charge, plan. destruct (policy f (rails f) q w) as [order w0].
  apply (attempt_plan f (fun R => charge R q) order w0).
Qed.

(** C4: no silent class crossing. Without the opt-in and in construction order, the rails of
    the other settlement class might as well not be wrapped: dropping every one of them
    leaves each charge with the same receipt, the same effects on the world, and failing
    exactly when it failed before. *)
Theorem failover_never_crosses {W} (R : PaymentRail W) (Rs : list (PaymentRail W))
    (q : PayRequest) (w : W) :
  let cls := class (capabilities R) in
  let '(r, w1) := failover_charge (failover_new (R :: Rs)) q w in
  let '(r', w1') := failover_charge
    (failover_new (R :: List.filter (in_class cls) Rs)) q w in
  w1 = w1' /\ result_ok r = result_ok r' /\ is_ok r = is_ok r'.
Proof.
  cbn zeta.
  rewrite !charge_in_order.
  rewrite !eligible_in_order, filter_filter_class.
  destruct (try_rails _ _ None w) as [[a|l] w1]; cbn; auto.
Qed.

(** The refusal at the boundary. If every rail of the first rail's class fails and some
    wrapped rail has the other class, the charge is refused with [CrossClassFailover]
    naming both classes, and the world is the one the failed attempts left: the other
    rail was not tried, even if it would have succeeded. *)
Theorem failover_refuses_at_boundary {W} (R : PaymentRail W) (Rs : list (PaymentRail W))
    (q : PayRequest) (w w1 : W) (es : list Error)
    (Hfail : failed (fun R => charge R q)
       (R :: filter (same_class (class (capabilities R))) Rs) w es w1)
    (Hother : exists R', R' ∈ Rs /\ class (capabilities R') <> class (capabilities R)) :
  exists to, to <> class (capabilities R) /\
    failover_charge (failover_new (R :: Rs)) q w =
    (Err (CrossClassFailover (class (capabilities R)) to), w1).
Proof.
  rewrite charge_in_order, eligible_in_order, first_blocked_in_order.
  rewrite (try_rails_failed _ _ _ _ _ _ Hfail).
  destruct (filter (fun R' => ~ same_class (class (capabilities R)) R') Rs) as [|R' l] eqn:E.
  - destruct Hother as (R' & Hin & Hc). exfalso. apply (not_elem_of_nil R').
    rewrite <- E. apply list_elem_of_filter. auto.
  - exists (class (capabilities R')). split; [|done].
    assert (R' ∈ filter (fun R' => ~ same_class (class (capabilities R)) R') Rs) as Hin
      by (rewrite E; left).
    apply list_elem_of_filter in Hin. exact (proj1 Hin).
Qed.

(** C39: receipts of a chain. With lawful rails of distinct ids, a receipt that [charge]
    returned without the opt-in was issued by a wrapped rail of the first rail's settlement
    class, for the requested reference; [verify] and [refund] on it are that very rail's,
    and a receipt of no wrapped rail verifies as [false] and cannot be refunded. *)
Theorem failover_receipt_dispatch {W} (R0 : PaymentRail W) (Rs : list (PaymentRail W))
    (I : W -> Prop)
    (q : PayRequest) (w w' : W) (r r' : Receipt)
    (Hlaws : forall R, R ∈ R0 :: Rs -> RailLaws I R) (HI : I w)
    (Hids : NoDup (map id (R0 :: Rs)))
    (Hr : failover_charge (failover_new (R0 :: Rs)) q w = (Ok r, w'))
    (Hforeign : rail_id r' ∉ map id (R0 :: Rs)) :
  let f := failover_new (R0 :: Rs) in
  (exists R, R ∈ R0 :: Rs /\ id R = rail_id r /\ reference r = req_reference q /\
     class (capabilities R) = class (capabilities R0) /\
     forall w1, failover_verify f r w1 = verify R r w1 /\ failover_refund f r w1 = refund R r w1)
  /\ forall w1, failover_verify f r' w1 = (Ok false, w1) /\
       exists m, failover_refund f r' w1 = (Err (Unsupported m), w1).
Proof.
  cbn zeta. split.
  - rewrite charge_in_order in Hr.
    destruct (try_rails _ _ None w) as [[a|e] w2] eqn:E; [|done]. injection Hr as -> ->.
    rewrite eligible_in_order in E.
    apply (try_rails_issuer I) in E as (R & w1 & HI1 & Hin & Ho); [| |done].
    2:{ intros R w3 r3 w4 Hin Hw3. apply (law_charge_keeps (RailLaws := Hlaws R
          ltac:(rewrite elem_of_cons, list_elem_of_filter in Hin; rewrite elem_of_cons; tauto))).
        done. }
    assert (R ∈ R0 :: Rs /\ class (capabilities R) = class (capabilities R0)) as [HR Hcls].
    { rewrite elem_of_cons, list_elem_of_filter in Hin. rewrite elem_of_cons.
      unfold same_class in Hin. destruct Hin as [->|[? ?]]; auto. }
    pose proof (Hlaws R HR). destruct (law_charge_issues (I := I) q w1 r w' HI1 Ho) as [Hid Href].
    exists R. split_and!; auto. intros w3. unfold failover_verify, failover_refund.
    rewrite Hid, (find_rail_unique (failover_new (R0 :: Rs)) R Hids HR). done.
  - intros w1. unfold failover_verify, failover_refund.
    rewrite (proj2 (find_rail_none (failover_new (R0 :: Rs)) (rail_id r')) Hforeign).
    split; [done|]. eexists. reflexivity.
Qed.

(** An invalid request moves nothing. A chain of lawful rails rejects a request that fails
    [PayRequest::validate] without any effect on the world, with the validation error
    unless a rail of the other class is reported instead. *)
Theorem failover_invalid_request {W} (R : PaymentRail W) (Rs : list (PaymentRail W))
    (I : W -> Prop) (q : PayRequest) (w : W) (e : Error)
    (Hlaws : forall R', R' ∈ R :: Rs -> RailLaws I R') (He : validate q = Err e) :
  failover_charge (failover_new (R :: Rs)) q w = (Err e, w) \/
  exists to, to <> class (capabilities R) /\
    failover_charge (failover_new (R :: Rs)) q w =
      (Err (CrossClassFailover (class (capabilities R)) to), w).
Proof.
  rewrite charge_in_order, eligible_in_order, first_blocked_in_order.
  rewrite (try_rails_invalid I q e); [| |done|done].
  - cbn. destruct (filter _ Rs) as [|R' l] eqn:E; [now left | right].
    exists (class (capabilities R')). split; [|done].
    assert (R' ∈ filter (fun R' => ~ same_class (class (capabilities R)) R') Rs) as Hin
      by (rewrite E; left).
    apply list_elem_of_filter in Hin. exact (proj1 Hin).
  - intros R' HR'. apply Hlaws. rewrite elem_of_cons, list_elem_of_filter in *. tauto.
Qed.

(** A chain of two non-custodial rails, the first one failing, and a custodial
    one. *)
Definition chain_a : PaymentRail Z := mock_rail (failing (mock_new "a" NonCustodialFinal ["USDC"])).
Definition chain_b : PaymentRail Z := mock_rail (mock_new "b" NonCustodialFinal ["USDC"]).
Definition chain_c : PaymentRail Z := mock_rail (mock_new "c" CustodialReversible ["USDC"]).
Definition foreign_receipt : Receipt :=
  {| rail_id := "other"; amount_minor := 1; currency := "USDC"; reference := "x"; proof := [];
     settled_at_unix := 0 |}.

Lemma failover_refuses_at_boundary_witness :
  exists to, to <> NonCustodialFinal /\
    failover_charge (failover_new [chain_a; chain_c]) demo_req 5 =
      (Err (CrossClassFailover NonCustodialFinal to), 5).
Proof.
  apply (failover_refuses_at_boundary chain_a [chain_c] demo_req 5 5
    [Rail "mock rail a is configured to fail"]).
  - change (failed (fun R => charge R demo_req) [chain_a] 5
      [Rail "mock rail a is configured to fail"] 5).
    econstructor; [vm_compute; reflexivity | constructor].
  - exists chain_c. split; [left | discriminate].
Defined.

Lemma chain_laws R : R ∈ [chain_a; chain_b; chain_c] -> RailLaws (fun _ => True) R.
Proof.
  rewrite !elem_of_cons, elem_of_nil. intros [->|[->|[->|[]]]]; now apply mock_rail_laws.
Qed.

Lemma failover_receipt_dispatch_witness :
  exists r, failover_charge (failover_new [chain_a; chain_b; chain_c]) demo_req 5 = (Ok r, 6) /\
    rail_id r = "b" /\
    failover_verify (failover_new [chain_a; chain_b; chain_c]) foreign_receipt 9 = (Ok false, 9).
Proof.
  destruct (failover_charge (failover_new [chain_a; chain_b; chain_c]) demo_req 5)
    as [[r|e] w] eqn:E; [|vm_compute in E; discriminate].
  destruct (failover_receipt_dispatch chain_a [chain_b; chain_c] (fun _ => True) demo_req 5 w r foreign_receipt
    chain_laws I ltac:(apply (bool_decide_unpack _); vm_compute; exact I) E
    ltac:(apply (bool_decide_unpack _); vm_compute; exact I)) as [_ Hf].
  exists r. split; [|split; [vm_compute in E; injection E as <- _; reflexivity | apply Hf]].
  vm_compute in E. injection E as <- <-. reflexivity.
Defined.

Lemma failover_invalid_request_witness :
  failover_charge (failover_new [chain_a; chain_b])
    {| req_amount_minor := 0; req_currency := "USDC"; req_destination := "d"; req_reference := "r" |} 5
  = (Err (InvalidRequest "amount_minor must be nonzero"), 5).
Proof.
  destruct (failover_invalid_request chain_a [chain_b] (fun _ => True)
    {| req_amount_minor := 0; req_currency := "USDC"; req_destination := "d"; req_reference := "r" |}
    5 (InvalidRequest "amount_minor must be nonzero")) as [H | (to & Hto & H)];
    [| reflexivity | exact H | vm_compute in H; discriminate].
  intros R HR. apply chain_laws. rewrite !elem_of_cons in *. tauto.
Defined.
