(* ===== verification/Currency.v ===== *)
(** * The currency table ([patala-fiat/src/currency.rs])

    The ISO-4217 minor-unit table, its lookups, and the conversions between
    integer minor units and the decimal strings processors speak. *)

From S2P Require Import Prelude RustStr.

Inductive CurrencyError :=
  | InvalidCurrency (code : str)
  | UnknownCurrency (code : str)
  | InvalidAmount (msg : str).
#[export] Instance CurrencyError_eq_dec : EqDecision CurrencyError.
Proof. solve_decision. Defined.

(** Its [Display]. *)
Definition currency_error_display (e : CurrencyError) : str :=
  match e with
  | InvalidCurrency c =>
      "invalid currency code " +:+ debug_str c +:+ " (must be a 3-letter ISO-4217 code)"
  | UnknownCurrency c => "unknown currency code " +:+ debug_str c
  | InvalidAmount m => "invalid amount: " +:+ m
  end.

Record CurrencyInfo := cur { cur_code : str; cur_exponent : Z; cur_name : str }.

Definition CURRENCY_DEFS : list CurrencyInfo := [
  cur "AED" 2 "United Arab Emirates Dirham";
  cur "AFN" 2 "Afghan Afghani";
  cur "ALL" 2 "Albanian Lek";
  cur "AMD" 2 "Armenian Dram";
  cur "ANG" 2 "Netherlands Antillean Guilder";
  cur "AOA" 2 "Angolan Kwanza";
  cur "ARS" 2 "Argentine Peso";
  cur "AUD" 2 "Australian Dollar";
  cur "AWG" 2 "Aruban Florin";
  cur "AZN" 2 "Azerbaijani Manat";
  cur "BAM" 2 "Bosnia-Herzegovina Convertible Mark";
  cur "BBD" 2 "Barbadian Dollar";
  cur "BDT" 2 "Bangladeshi Taka";
  cur "BGN" 2 "Bulgarian Lev";
  cur "BHD" 3 "Bahraini Dinar";
  cur "BIF" 0 "Burundian Franc";
  cur "BMD" 2 "Bermudian Dollar";
  cur "BND" 2 "Brunei Dollar";
  cur "BOB" 2 "Bolivian Boliviano";
  cur "BRL" 2 "Brazilian Real";
  cur "BSD" 2 "Bahamian Dollar";
  cur "BTN" 2 "Bhutanese Ngultrum";
  cur "BWP" 2 "Botswana Pula";
  cur "BYN" 2 "Belarusian Ruble";
  cur "BZD" 2 "Belize Dollar";
  cur "CAD" 2 "Canadian Dollar";
  cur "CDF" 2 "Congolese Franc";
  cur "CHF" 2 "Swiss Franc";
  cur "CLP" 0 "Chilean Peso";
  cur "CNY" 2 "Chinese Yuan";
  cur "COP" 2 "Colombian Peso";
  cur "CRC" 2 "Costa Rican Colon";
  cur "CUP" 2 "Cuban Peso";
  cur "CVE" 2 "Cape Verdean Escudo";
  cur "CZK" 2 "Czech Koruna";
  cur "DJF" 0 "Djiboutian Franc";
  cur "DKK" 2 "Danish Krone";
  cur "DOP" 2 "Dominican Peso";
  cur "DZD" 2 "Algerian Dinar";
  cur "EGP" 2 "Egyptian Pound";
  cur "ETB" 2 "Ethiopian Birr";
  cur "EUR" 2 "Euro";
  cur "FJD" 2 "Fijian Dollar";
  cur "GBP" 2 "British Pound Sterling";
  cur "GEL" 2 "Georgian Lari";
  cur "GHS" 2 "Ghanaian Cedi";
  cur "GMD" 2 "Gambian Dalasi";
  cur "GNF" 0 "Guinean Franc";
  cur "GTQ" 2 "Guatemalan Quetzal";
  cur "GYD" 2 "Guyanese Dollar";
  cur "HKD" 2 "Hong Kong Dollar";
  cur "HNL" 2 "Honduran Lempira";
  cur "HTG" 2 "Haitian Gourde";
  cur "HUF" 2 "Hungarian Forint";
  cur "IDR" 2 "Indonesian Rupiah";
  cur "ILS" 2 "Israeli New Shekel";
  cur "INR" 2 "Indian Rupee";
  cur "IQD" 3 "Iraqi Dinar";
  cur "IRR" 2 "Iranian Rial";
  cur "ISK" 0 "Icelandic Krona";
  cur "JMD" 2 "Jamaican Dollar";
  cur "JOD" 3 "Jordanian Dinar";
  cur "JPY" 0 "Japanese Yen";
  cur "KES" 2 "Kenyan Shilling";
  cur "KGS" 2 "Kyrgyzstani Som";
  cur "KHR" 2 "Cambodian Riel";
  cur "KMF" 0 "Comorian Franc";
  cur "KRW" 0 "South Korean Won";
  cur "KWD" 3 "Kuwaiti Dinar";
  cur "KYD" 2 "Cayman Islands Dollar";
  cur "KZT" 2 "Kazakhstani Tenge";
  cur "LAK" 2 "Lao Kip";
  cur "LBP" 2 "Lebanese Pound";
  cur "LKR" 2 "Sri Lankan Rupee";
  cur "LRD" 2 "Liberian Dollar";
  cur "LSL" 2 "Lesotho Loti";
  cur "LYD" 3 "Libyan Dinar";
  cur "MAD" 2 "Moroccan Dirham";
  cur "MDL" 2 "Moldovan Leu";
  cur "MGA" 2 "Malagasy Ariary";
  cur "MKD" 2 "Macedonian Denar";
  cur "MMK" 2 "Myanmar Kyat";
  cur "MNT" 2 "Mongolian Tugrik";
  cur "MOP" 2 "Macanese Pataca";
  cur "MRU" 2 "Mauritanian Ouguiya";
  cur "MUR" 2 "Mauritian Rupee";
  cur "MVR" 2 "Maldivian Rufiyaa";
  cur "MWK" 2 "Malawian Kwacha";
  cur "MXN" 2 "Mexican Peso";
  cur "MYR" 2 "Malaysian Ringgit";
  cur "MZN" 2 "Mozambican Metical";
  cur "NAD" 2 "Namibian Dollar";
  cur "NGN" 2 "Nigerian Naira";
  cur "NIO" 2 "Nicaraguan Cordoba";
  cur "NOK" 2 "Norwegian Krone";
  cur "NPR" 2 "Nepalese Rupee";
  cur "NZD" 2 "New Zealand Dollar";
  cur "OMR" 3 "Omani Rial";
  cur "PAB" 2 "Panamanian Balboa";
  cur "PEN" 2 "Peruvian Sol";
  cur "PGK" 2 "Papua New Guinean Kina";
  cur "PHP" 2 "Philippine Peso";
  cur "PKR" 2 "Pakistani Rupee";
  cur "PLN" 2 "Polish Zloty";
  cur "PYG" 0 "Paraguayan Guarani";
  cur "QAR" 2 "Qatari Riyal";
  cur "RON" 2 "Romanian Leu";
  cur "RSD" 2 "Serbian Dinar";
  cur "RUB" 2 "Russian Ruble";
  cur "RWF" 0 "Rwandan Franc";
  cur "SAR" 2 "Saudi Riyal";
  cur "SBD" 2 "Solomon Islands Dollar";
  cur "SCR" 2 "Seychellois Rupee";
  cur "SDG" 2 "Sudanese Pound";
  cur "SEK" 2 "Swedish Krona";
  cur "SGD" 2 "Singapore Dollar";
  cur "SLE" 2 "Sierra Leonean Leone";
  cur "SOS" 2 "Somali Shilling";
  cur "SRD" 2 "Surinamese Dollar";
  cur "SSP" 2 "South Sudanese Pound";
  cur "STN" 2 "Sao Tome and Principe Dobra";
  cur "SZL" 2 "Eswatini Lilangeni";
  cur "THB" 2 "Thai Baht";
  cur "TJS" 2 "Tajikistani Somoni";
  cur "TMT" 2 "Turkmenistani Manat";
  cur "TND" 3 "Tunisian Dinar";
  cur "TOP" 2 "Tongan Pa'anga";
  cur "TRY" 2 "Turkish Lira";
  cur "TTD" 2 "Trinidad and Tobago Dollar";
  cur "TWD" 2 "New Taiwan Dollar";
  cur "TZS" 2 "Tanzanian Shilling";
  cur "UAH" 2 "Ukrainian Hryvnia";
  cur "UGX" 0 "Ugandan Shilling";
  cur "USD" 2 "United States Dollar";
  cur "UYU" 2 "Uruguayan Peso";
  cur "UZS" 2 "Uzbekistani Som";
  cur "VES" 2 "Venezuelan Bolivar Soberano";
  cur "VND" 0 "Vietnamese Dong";
  cur "VUV" 0 "Vanuatu Vatu";
  cur "WST" 2 "Samoan Tala";
  cur "XAF" 0 "Central African CFA Franc";
  cur "XCD" 2 "East Caribbean Dollar";
  cur "XOF" 0 "West African CFA Franc";
  cur "XPF" 0 "CFP Franc";
  cur "YER" 2 "Yemeni Rial";
  cur "ZAR" 2 "South African Rand";
  cur "ZMW" 2 "Zambian Kwacha"
].

(** [collect()] into the map: a later row of the same code would win. *)
Definition table : gmap str CurrencyInfo :=
  fold_left (fun t c => <[cur_code c := c]> t) CURRENCY_DEFS ∅.

Definition normalize_code (code : str) : Result CurrencyError str :=
  let c := to_ascii_uppercase (trim code) in
  return_if negb (Nat.eqb (String.length c) 3) || negb (str_all is_ascii_uppercase c) with_
    Err (InvalidCurrency code);
  Ok c.
Definition lookup (code : str) : Result CurrencyError CurrencyInfo :=
  norm ← normalize_code code;
  ok_or (UnknownCurrency norm) (table !! norm).
Definition exponent (code : str) : Result CurrencyError Z :=
  i ← lookup code; mret (cur_exponent i).
Definition currency_validate (code : str) : Result CurrencyError unit :=
  i ← lookup code; mret tt.
Definition normalize (code : str) : Result CurrencyError str :=
  i ← lookup code; mret (cur_code i).
Definition currency_name (code : str) : Result CurrencyError str :=
  i ← lookup code; mret (cur_name i).
Definition supported_currencies : list str := map cur_code CURRENCY_DEFS.

Definition minor_to_major_string (amount_minor : Z) (currency : str) : Result CurrencyError str :=
  exp ← exponent currency;
  return_if exp =? 0 with_ mret (to_dec amount_minor);
  let div := 10 ^ exp in
  let whole := amount_minor / div in
  let frac := amount_minor mod div in
  mret (to_dec whole +:+ "." +:+ pad_left (Z.to_nat exp) (to_dec frac)).

Definition malformed_amount (trimmed : str) : CurrencyError :=
  InvalidAmount ("malformed amount string " +:+ debug_str trimmed).

Definition major_string_to_minor (s currency : str) : Result CurrencyError Z :=
  let trimmed := trim s in
  return_if is_empty trimmed with_ Err (InvalidAmount "empty amount string");
  match strip_prefix "-" trimmed with
  | Some stripped =>
      Err (InvalidAmount ("negative amount " +:+ debug_str ("-" +:+ stripped) +:+ " is not valid"))
  | None =>
      exp ← exponent currency;
      let '(whole_part, frac_part) :=
        match split_once "." trimmed with
        | Some (w, f) => (w, Some f)
        | None => (trimmed, None)
        end in
      let whole_part := if is_empty whole_part then "0" else whole_part in
      return_if negb (str_all is_ascii_digit whole_part) with_ Err (malformed_amount trimmed);
      frac_digits ←
        match frac_part with
        | Some f =>
            return_if negb (str_all is_ascii_digit f) with_ Err (malformed_amount trimmed);
            return_if exp <? len f with_
              Err (InvalidAmount ("amount string " +:+ debug_str trimmed
                +:+ " has more fractional digits than " +:+ to_ascii_uppercase (trim currency)
                +:+ "'s " +:+ to_dec exp +:+ "-decimal exponent"));
            mret (pad_right (Z.to_nat exp) f)
        | None => mret (str_repeat "0" (Z.to_nat exp))
        end;
      whole_n ← ok_or (malformed_amount trimmed) (parse_u64 whole_part);
      frac_n ← (if 0 <? exp then ok_or (malformed_amount trimmed) (parse_u64 frac_digits)
                else mret 0);
      let mul := 10 ^ exp in
      ok_or (InvalidAmount ("amount string " +:+ debug_str trimmed +:+ " overflows u64"))
        (w ← u64_checked_mul whole_n mul; u64_checked_add w frac_n)
  end.

(** ** The table *)

Definition is_code (c : str) : bool :=
  Nat.eqb (String.length c) 3 && str_all is_ascii_uppercase c.

Lemma collect_lookup (l : list CurrencyInfo) (m : gmap str CurrencyInfo) c i :
  NoDup (map cur_code l) ->
  fold_left (fun t c => <[cur_code c := c]> t) l m !! c = Some i <->
  (i ∈ l /\ cur_code i = c) \/ ((c ∉ map cur_code l) /\ m !! c = Some i).
Proof.
  revert m. induction l as [|j l IH]; intros m Hnd; cbn [fold_left map] in *.
  - rewrite elem_of_nil. pose proof (not_elem_of_nil c). tauto.
  - apply NoDup_cons in Hnd as [Hj Hnd]. rewrite IH, elem_of_cons, not_elem_of_cons by done.
    destruct (decide (c = cur_code j)) as [->|Hne].
    + rewrite lookup_insert_eq. split.
      * intros [[Hi Hc]|[_ [= ->]]]; auto.
      * intros [[[->|Hi] Hc]|[[? _] _]]; auto. done.
    + rewrite lookup_insert_ne by congruence. split.
      * tauto.
      * intros [[[->|Hi] Hc]|?]; [congruence | auto | tauto].
Qed.
Lemma currency_codes_nodup : NoDup supported_currencies.
Proof. apply (bool_decide_unpack _). vm_compute. exact I. Qed.
Lemma currency_rows_ok :
  Forall (fun i => is_code (cur_code i) = true /\
    (cur_exponent i = 0 \/ cur_exponent i = 2 \/ cur_exponent i = 3)) CURRENCY_DEFS.
Proof.
  assert (forallb (fun i => is_code (cur_code i) &&
    ((cur_exponent i =? 0) || (cur_exponent i =? 2) || (cur_exponent i =? 3))) CURRENCY_DEFS
    = true) as H by (vm_compute; reflexivity).
  rewrite forallb_forall in H. apply Forall_forall. intros i Hi%list_elem_of_In.
  apply H in Hi. rewrite andb_true_iff, !orb_true_iff, !Z.eqb_eq in Hi. tauto.
Qed.

Lemma table_lookup c i : table !! c = Some i <-> i ∈ CURRENCY_DEFS /\ cur_code i = c.
Proof.
  unfold table. rewrite collect_lookup by apply currency_codes_nodup.
  rewrite lookup_empty. split; [|auto]. intros [?|[_ ?]]; [done | discriminate].
Qed.

Lemma exponent_lookup c e :
  exponent c = Ok e <-> exists i, lookup c = Ok i /\ cur_exponent i = e.
Proof.
  unfold exponent, mbind, result_bind, mret, result_ret. destruct (lookup c) as [i|x]; split.
  - intros [= <-]. eauto.
  - intros (j & [= ->] & <-). done.
  - done.
  - intros (j & ? & _). done.
Qed.

Lemma lookup_sound c i :
  lookup c = Ok i -> i ∈ CURRENCY_DEFS /\ cur_code i = to_ascii_uppercase (trim c).
Proof.
  unfold lookup, normalize_code, mbind, result_bind.
  destruct (_ || _); [done|]. intros H. apply table_lookup.
  destruct (table !! _); cbn in H; congruence.
Qed.

Lemma exponent_cases c e : exponent c = Ok e -> e = 0 \/ e = 2 \/ e = 3.
Proof.
  intros (i & Hl & <-)%exponent_lookup. apply lookup_sound in Hl as [Hi _].
  pose proof currency_rows_ok as H. rewrite Forall_forall in H. now apply H.
Qed.

(** The currency table. [lookup] accepts exactly the trimmed, case-insensitive spellings
    of the table's codes and answers with that code's own row: nothing outside the table
    has an exponent, and no two rows compete for a code. *)
Theorem currency_lookup_spec (c : str) (i : CurrencyInfo) :
  lookup c = Ok i <-> i ∈ CURRENCY_DEFS /\ cur_code i = to_ascii_uppercase (trim c).
Proof.
  split; [apply lookup_sound|]. intros [Hi Hc].
  unfold lookup, normalize_code, mbind, result_bind. rewrite <- Hc.
  pose proof currency_rows_ok as H. rewrite Forall_forall in H.
  destruct (H i Hi) as [[Hl Hu]%andb_true_iff _]. rewrite Hl, Hu. cbn [negb orb].
  now rewrite (proj2 (table_lookup _ _) (conj Hi eq_refl)).
Qed.

(** ** Decimal strings *)

(** A plain decimal: digits, and perhaps a dot and more digits. *)
Definition decimal_text (w : str) (f : option str) : str :=
  match f with None => w | Some f => w +:+ "." +:+ f end.
Definition decimal_ok (e : Z) (w : str) (f : option str) : Prop :=
  str_all is_ascii_digit w = true /\
  match f with None => True | Some f => str_all is_ascii_digit f = true /\ len f <= e end.
(** Its value in minor units at exponent [e]. *)
Definition decimal_minor (e : Z) (w : str) (f : option str) : Z :=
  dec_value w * 10 ^ e + match f with None => 0 | Some f => dec_value f * 10 ^ (e - len f) end.

Lemma digits_no_dot s : str_all is_ascii_digit s = true ->
  str_all (fun a => negb (Ascii.eqb "." a)) s = true.
Proof.
  apply str_all_impl. intros a Ha. destruct (Ascii.eqb_spec "." a) as [<-|]; [discriminate|done].
Qed.

Lemma split_decimal w f : str_all is_ascii_digit w = true ->
  match f with None => True | Some f => str_all is_ascii_digit f = true end ->
  split_once "." (decimal_text w f) = match f with None => None | Some f => Some (w, f) end.
Proof.
  intros Hw Hf. destruct f as [f|]; cbn [decimal_text].
  - apply split_once_Some. split; [done | now apply digits_no_dot].
  - apply split_once_None, digits_no_dot, Hw.
Qed.
Lemma decimal_no_minus w f : str_all is_ascii_digit w = true ->
  strip_prefix "-" (decimal_text w f) = None.
Proof.
  intros Hw. destruct w as [|a w]; [now destruct f|].
  assert (exists r, decimal_text (String a w) f = String a r) as (r & ->)
    by (destruct f; cbn; eauto).
  cbn [str_all] in Hw. apply andb_true_iff in Hw as [Ha _]. cbn [strip_prefix].
  destruct (Ascii.eqb_spec "-" a) as [<-|]; [discriminate | done].
Qed.

Lemma parse_u64_digits s : s <> EmptyString -> str_all is_ascii_digit s = true ->
  parse_u64 s = in_range 0 u64_max (dec_value s).
Proof. apply parse_unsigned_digits. Qed.

Lemma dec_value_nonneg s : str_all is_ascii_digit s = true -> 0 <= dec_value s.
Proof. intros H%dec_value_range. lia. Qed.

(** The fraction, padded on the right to the exponent's width. *)
Lemma padded_fraction e f : 0 <= e -> str_all is_ascii_digit f = true -> len f <= e ->
  str_all is_ascii_digit (pad_right (Z.to_nat e) f) = true /\
  String.length (pad_right (Z.to_nat e) f) = Z.to_nat e /\
  dec_value (pad_right (Z.to_nat e) f) = dec_value f * 10 ^ (e - len f).
Proof.
  intros He Hf Hl. unfold len in *. split; [|split].
  - unfold pad_right. rewrite str_all_app, Hf, str_all_repeat by done. done.
  - apply length_pad_right. lia.
  - unfold pad_right. rewrite dec_value_app, dec_value_zeros. unfold len.
    rewrite length_str_repeat, Nat2Z.inj_sub, Z2Nat.id by lia. lia.
Qed.

Lemma checked_sum w e fr : 0 <= w -> 0 <= e -> 0 <= fr < 10 ^ e ->
  (w' ← in_range 0 u64_max w; p ← u64_checked_mul w' (10 ^ e); u64_checked_add p fr) =
  in_range 0 u64_max (w * 10 ^ e + fr).
Proof.
  intros Hw He Hf. unfold u64_checked_mul, u64_checked_add, mbind, option_bind.
  assert (1 <= 10 ^ e) by (pose proof (Z.pow_pos_nonneg 10 e); lia).
  destruct (in_range 0 u64_max w) as [w'|] eqn:Ew.
  - apply in_range_Some in Ew as [-> ?].
    destruct (in_range 0 u64_max (w * 10 ^ e)) as [p|] eqn:Ep.
    + now apply in_range_Some in Ep as [-> ?].
    + apply in_range_None in Ep. symmetry. apply in_range_None. nia.
  - apply in_range_None in Ew. symmetry. apply in_range_None. nia.
Qed.

(** On a plain decimal the conversion is its value, when that fits a [u64]. *)
Lemma major_string_eval s c e w f :
  exponent c = Ok e -> trim s = decimal_text w f -> trim s <> EmptyString ->
  decimal_ok e w f ->
  result_ok (major_string_to_minor s c) = in_range 0 u64_max (decimal_minor e w f).
Proof.
  intros He Ht Hne [Hw Hf]. pose proof (exponent_cases c e He) as Hec.
  unfold major_string_to_minor. rewrite Ht in *.
  destruct (is_empty (decimal_text w f)) eqn:Ee; [now apply is_empty_spec in Ee|].
  rewrite decimal_no_minus, He by done. cbn [mbind result_bind].
  rewrite split_decimal by (destruct f; tauto).
  set (w' := if is_empty w then "0"%string else w).
  assert (str_all is_ascii_digit w' = true /\ w' <> EmptyString /\ dec_value w' = dec_value w)
    as (Hw' & Hne' & Hv) by (subst w'; destruct w; done).
  set (fd := match f with None => str_repeat "0" (Z.to_nat e) | Some f => pad_right (Z.to_nat e) f end).
  set (fv := match f with None => 0 | Some f => dec_value f * 10 ^ (e - len f) end).
  assert (str_all is_ascii_digit fd = true /\ String.length fd = Z.to_nat e /\ dec_value fd = fv)
    as (Hfd & Hfl & Hfv).
  { subst fd fv. destruct f as [f|]; [apply padded_fraction; try lia; tauto|].
    now rewrite str_all_repeat, length_str_repeat, dec_value_zeros. }
  assert (0 <= fv < 10 ^ e) as Hfr.
  { rewrite <- Hfv. pose proof (dec_value_range fd Hfd) as H. unfold len in H.
    rewrite Hfl, Z2Nat.id in H by lia. exact H. }
  transitivity (w0 ← in_range 0 u64_max (dec_value w); p ← u64_checked_mul w0 (10 ^ e);
                u64_checked_add p fv); [|apply checked_sum; auto using dec_value_nonneg; lia].
  set (last := fun whole_n => u64_checked_mul whole_n (10 ^ e) ≫= fun p => u64_checked_add p fv).
  assert (forall err err' : CurrencyError,
    result_ok (ok_or err (in_range 0 u64_max (dec_value w)) ≫= fun whole_n =>
      ok_or err' (last whole_n)) = (in_range 0 u64_max (dec_value w) ≫= last)) as Hk
    by (intros err err'; destruct (in_range _ _ _) as [z|]; cbn; [now destruct (last z) | done]).
  assert ((if 0 <? e then ok_or (malformed_amount (decimal_text w f)) (parse_u64 fd) else mret 0)
    = Ok fv) as Hfn.
  { destruct (Z.ltb_spec 0 e).
    - rewrite parse_u64_digits, Hfv; [| destruct fd; [cbn in Hfl; lia | done] | done].
      rewrite in_range_ok; [done|]. split; [lia|].
      apply Z.le_trans with (10 ^ 3); [|unfold u64_max; lia].
      apply Z.le_trans with (10 ^ e); [lia | apply Z.pow_le_mono_r; lia].
    - f_equal. assert (e = 0) as -> by lia. cbn in Hfr. unfold mret, result_ret. f_equal; lia. }
  clearbody fv. destruct f as [f|]; cbn [decimal_text] in *; cbv beta iota zeta; fold w';
    rewrite Hw'; cbn [negb].
  - destruct Hf as [Hf Hfl2]. rewrite Hf. cbn [negb]. rewrite (proj2 (Z.ltb_ge e (len f)) Hfl2).
    fold fd. cbn [mret result_ret mbind result_bind]. fold fd in Hfn.
    rewrite Hfn, (parse_u64_digits w'), Hv by done. apply Hk.
  - cbn [mret result_ret mbind result_bind]. fold fd. fold fd in Hfn.
    rewrite Hfn, (parse_u64_digits w'), Hv by done. apply Hk.
Qed.

Lemma major_string_inv s c v :
  major_string_to_minor s c = Ok v ->
  exists e w f, exponent c = Ok e /\ trim s = decimal_text w f /\ trim s <> EmptyString /\
    decimal_ok e w f.
Proof.
  unfold major_string_to_minor. destruct (is_empty (trim s)) eqn:Ee; [done|].
  destruct (strip_prefix "-" (trim s)); [done|].
  destruct (exponent c) as [e|]; [cbn [mbind result_bind] | done].
  assert (trim s <> EmptyString) as Hne by (intros E; now rewrite E in Ee).
  assert (forall w, str_all is_ascii_digit (if is_empty w then "0"%string else w) = true ->
    str_all is_ascii_digit w = true) as Hw by (intros [|]; done).
  destruct (split_once "." (trim s)) as [[w f]|] eqn:Es.
  - apply split_once_Some in Es as [Es _].
    destruct (str_all is_ascii_digit (if is_empty w then _ else w)) eqn:Ew; [cbn [negb] | done].
    destruct (str_all is_ascii_digit f) eqn:Ef; [cbn [negb] | done].
    destruct (Z.ltb_spec e (len f)); [done|]. intros _.
    exists e, w, (Some f). split_and!; [done | exact Es | done|]. split; [now apply Hw | split; [done | lia]].
  - destruct (str_all is_ascii_digit (if is_empty (trim s) then _ else _)) eqn:Ew;
      [cbn [negb] | done].
    intros _. exists e, (trim s), None. split_and!; try done. split; [now apply Hw | done].
Qed.

Lemma result_ok_Some {E A} (r : Result E A) a : result_ok r = Some a <-> r = Ok a.
Proof. destruct r; cbn; split; congruence. Qed.

(** [major_string_to_minor], decided exactly. It accepts precisely the texts that, trimmed,
    are a non-empty plain decimal with at most as many fractional digits as the currency's
    exponent, and answers their exact value in minor units when it fits a [u64]: no
    rounding, no truncation, no wrap-around. *)
Theorem major_string_to_minor_spec (s c : str) (v : Z) :
  major_string_to_minor s c = Ok v <->
  exists e w f, exponent c = Ok e /\ trim s = decimal_text w f /\ trim s <> EmptyString /\
    decimal_ok e w f /\ v = decimal_minor e w f /\ 0 <= v <= u64_max.
Proof.
  split.
  - intros H. destruct (major_string_inv s c v H) as (e & w & f & He & Ht & Hne & Hok).
    exists e, w, f. apply result_ok_Some in H. rewrite (major_string_eval s c e w f) in H by done.
    apply in_range_Some in H as [-> ?]. split_and!; auto; lia.
  - intros (e & w & f & He & Ht & Hne & Hok & -> & Hr). apply result_ok_Some.
    rewrite (major_string_eval s c e w f) by done. now apply in_range_ok.
Qed.

(** What [minor_to_major_string] writes: the amount, with all the decimals the
    currency has. *)
Lemma minor_major_text n c e : 0 <= n -> exponent c = Ok e ->
  exists w f, minor_to_major_string n c = Ok (decimal_text w f) /\
    w <> EmptyString /\ str_all is_ascii_digit w = true /\
    match f with None => e = 0 | Some f => str_all is_ascii_digit f = true /\ len f = e end /\
    decimal_minor e w f = n.
Proof.
  intros Hn He. pose proof (exponent_cases c e He) as Hec.
  unfold minor_to_major_string. rewrite He. cbn [mbind result_bind mret result_ret].
  destruct (Z.eqb_spec e 0) as [->|Hne0].
  - destruct (to_dec_spec n Hn) as (Hne & Hd & Hv & _). exists (to_dec n), None.
    split_and!; try done. unfold decimal_minor. rewrite Hv. lia.
  - assert (0 < e) as Hpos by lia.
    pose proof (Z.pow_pos_nonneg 10 e ltac:(lia) ltac:(lia)) as Hp.
    pose proof (Z.div_mod n (10 ^ e) ltac:(lia)) as Hdm. pose proof (Z.mod_pos_bound n (10 ^ e) Hp) as Hm.
    destruct (to_dec_spec (n / 10 ^ e) ltac:(apply Z.div_pos; lia)) as (Hne & Hd & Hv & _).
    destruct (to_dec_spec (n mod 10 ^ e) ltac:(lia)) as (_ & Hd' & Hv' & Hl').
    specialize (Hl' (Z.to_nat e) ltac:(lia) ltac:(rewrite Z2Nat.id; lia)).
    set (f := pad_left (Z.to_nat e) (to_dec (n mod 10 ^ e))).
    assert (len f = e) as Hlf by (unfold len; subst f; rewrite length_pad_left; lia).
    exists (to_dec (n / 10 ^ e)), (Some f). split_and!; try done; [apply str_all_digit_pad_left, Hd'|].
    unfold decimal_minor. rewrite Hlf. subst f. rewrite dec_value_pad_left, Hv, Hv', Z.sub_diag, Z.pow_0_r. lia.
Qed.
Lemma decimal_text_graphic w f : str_all is_ascii_digit w = true ->
  match f with None => True | Some f => str_all is_ascii_digit f = true end ->
  str_all is_graphic (decimal_text w f) = true.
Proof.
  intros Hw Hf. assert (forall s, str_all is_ascii_digit s = true -> str_all is_graphic s = true) as Hg
    by (intros s; apply str_all_impl; auto using digit_graphic).
  destruct f as [f|]; cbn [decimal_text]; [|auto]. now rewrite !str_all_app, (Hg w), (Hg f).
Qed.
Lemma minor_major_exact (amount : Z) (c : str) (e : Z) (Ha : is_u64 amount) (He : exponent c = Ok e) :
  exists s, minor_to_major_string amount c = Ok s /\ major_string_to_minor s c = Ok amount.
Proof.
  destruct (minor_major_text amount c e (proj1 Ha) He) as (w & f & Ht & Hne & Hw & Hf & Hv).
  exists (decimal_text w f). split; [done|].
  assert (trim (decimal_text w f) = decimal_text w f) as Htr
    by (apply trim_graphic, decimal_text_graphic; [done | destruct f; tauto]).
  apply major_string_to_minor_spec. exists e, w, f. rewrite Htr. split_and!; try done.
  - destruct f; cbn [decimal_text]; [rewrite append_is_nil; tauto | done].
  - split; [done|]. destruct f; [split; [tauto | lia] | done].
  - apply Ha.
  - apply Ha.
Qed.

(** C18: minor to major and back. For every amount a [u64] can hold and every currency of the
    table, the printed major-unit string reads back as exactly that amount. *)
Theorem minor_major_roundtrip (amount : Z) (c : str) (e : Z)
    (Ha : is_u64 amount) (He : exponent c = Ok e) :
  exists s, minor_to_major_string amount c = Ok s /\ major_string_to_minor s c = Ok amount.
Proof. now apply minor_major_exact with e. Qed.

Lemma minor_major_roundtrip_witness :
  exists s, minor_to_major_string 18446744073709551615 " usd" = Ok s /\
    s = "184467440737095516.15"%string /\
    major_string_to_minor s " usd" = Ok 18446744073709551615.
Proof.
  destruct (minor_major_roundtrip 18446744073709551615 " usd" 2) as (s & Hs & Hr);
    [unfold_ints; lia | vm_compute; reflexivity |].
  exists s. split; [exact Hs|]. split; [|exact Hr].
  vm_compute in Hs. injection Hs as <-. reflexivity.
Defined.
