(* ===== verification/HttpShared.v ===== *)
(** * Webhook authentication helpers ([patala-fiat/src/httpshared.rs])

    The size cap, the HMAC checks every signing processor shares, and the
    constant-time comparison for bare shared secrets. *)

From S2P Require Import Prelude RustStr External.

Definition DEFAULT_MAX_BODY_BYTES : Z := Z.shiftl 1 20.

Definition bounded_len_check (body : list byte) (limit : Z) : Result str unit :=
  return_if limit <? Z.of_nat (length body) with_ Err "payments: body exceeds size limit"%string;
  Ok tt.

Section Hmac.
Context `{Hex}.

Definition verify_hmac_hex (M : Mac) (secret signed_payload : list byte) (hex_signature : str)
    : bool :=
  return_if bool_decide (secret = []) || is_blank hex_signature with_ false;
  let_some expected_bytes := hex_decode (trim hex_signature) or_else false;
  let_some mac := mac_tag secret or_else false;
  verify_slice (mac signed_payload) expected_bytes.

(** The two instantiations: HMAC-SHA256 and HMAC-SHA512. *)
Definition verify_hmac_sha256_hex (sha256 : Mac) := verify_hmac_hex sha256.
Definition verify_hmac_sha512_hex (sha512 : Mac) := verify_hmac_hex sha512.

(** The base64 sibling (Adyen), over base64's [STANDARD] decoder. *)
Definition verify_hmac_sha256_base64 (base64_decode : str -> option (list byte)) (sha256 : Mac)
    (secret signed_payload : list byte) (base64_signature : str) : bool :=
  return_if bool_decide (secret = []) || is_blank base64_signature with_ false;
  let_some expected_bytes := base64_decode (trim base64_signature) or_else false;
  let_some mac := mac_tag secret or_else false;
  verify_slice (mac signed_payload) expected_bytes.
End Hmac.

(** [for (x, y) in a.iter().zip(b.iter()) { diff |= x ^ y }] *)
Definition ct_diff (a b : list byte) : Z :=
  fold_left (fun diff '(x, y) => Z.lor diff (Z.lxor (Z_of_byte x) (Z_of_byte y))) (zip a b) 0.
Definition constant_time_eq (a b : list byte) : bool :=
  return_if negb (Nat.eqb (length a) (length b)) with_ false;
  ct_diff a b =? 0.

(** ** Lemmas *)

Lemma ct_diff_acc l acc : 
  fold_left (fun diff '(x, y) => Z.lor diff (Z.lxor (Z_of_byte x) (Z_of_byte y))) l acc = 0 <->
  acc = 0 /\ Forall (fun '(x, y) => x = y) l.
Proof.
  revert acc. induction l as [|[x y] l IH]; intros acc; cbn [fold_left].
  - split; [auto | tauto].
  - rewrite IH, Z.lor_eq_0_iff, Z.lxor_eq_0_iff, Forall_cons. split.
    + intros [[-> E] ?]. split_and!; auto. now apply Z_of_byte_inj.
    + intros (-> & -> & ?). auto.
Qed.
Lemma zip_all_eq (a b : list byte) :
  length a = length b -> Forall (fun '(x, y) => x = y) (zip a b) -> a = b.
Proof.
  revert b. induction a as [|x a IH]; intros [|y b] Hl F; try done.
  cbn in F. apply Forall_cons in F as [-> F]. f_equal. apply IH; [|done]. cbn in Hl. lia.
Qed.

(** [constant_time_eq] is equality: accumulating the byte differences without an early exit
    decides exactly whether two secrets are the same bytes. *)
Theorem constant_time_eq_spec (a b : list byte) : constant_time_eq a b = true <-> a = b.
Proof.
  unfold constant_time_eq. destruct (Nat.eqb_spec (length a) (length b)) as [Hl|Hl]; cbn [negb].
  - rewrite Z.eqb_eq. unfold ct_diff. rewrite ct_diff_acc. split.
    + intros [_ F]. now apply zip_all_eq.
    + intros ->. split; [done|]. clear Hl. induction b; cbn; auto.
  - split; [done | congruence].
Qed.

Section Hmac_lemmas.
Context `{Hex}.

(** The HMAC check. [verify_hmac_hex] accepts a signature exactly when the secret and the
    trimmed signature are non-empty, the signature is hex, the algorithm takes the key, and
    the decoded bytes are the tag of exactly the signed payload: a missing, malformed or
    mismatched signature is always a rejection. *)
Theorem verify_hmac_hex_spec (M : Mac) (secret payload : list byte) (sig : str) :
  verify_hmac_hex M secret payload sig = true <->
  secret <> [] /\ trim sig <> EmptyString /\
  exists tag, mac_tag secret = Some tag /\ hex_decode (trim sig) = Some (tag payload).
Proof.
  unfold verify_hmac_hex, is_blank, verify_slice. case_bool_decide as Es; cbn [orb];
    [split; [done | tauto]|].
  destruct (is_empty (trim sig)) eqn:Et.
  { apply is_empty_spec in Et. split; [done | tauto]. }
  assert (trim sig <> EmptyString) as Hne by (intros E; now rewrite E in Et).
  destruct (hex_decode (trim sig)) as [e|]; [|split; [done | naive_solver]].
  destruct (mac_tag secret) as [tag|]; [|split; [done | naive_solver]].
  rewrite bool_decide_eq_true. split; [|naive_solver].
  intros <-. eauto.
Qed.

(** The signature a processor computes is accepted. *)
Lemma verify_hmac_hex_signed (L : HexLaws) (M : Mac) secret payload tag :
  secret <> [] -> mac_tag secret = Some tag -> tag payload <> [] ->
  verify_hmac_hex M secret payload (hex_encode (tag payload)) = true.
Proof.
  intros Hs Ht Hn. apply verify_hmac_hex_spec. rewrite trim_graphic by apply hex_encode_graphic.
  split_and!; [done| |exists tag; split; [done | apply hex_decode_encode]].
  intros E. pose proof (length_hex_encode (tag payload)) as Hl. rewrite E in Hl.
  destruct (tag payload); [done | discriminate].
Qed.
End Hmac_lemmas.
