(* ===== verification/FiatDest.v ===== *)
(** * Fiat destinations ([patala-fiat/src/destination.rs])

    What a fiat rail can say about a [destination] offline: nothing that would
    bless it, and a refusal for a disclosed key, a wallet address or a string
    that is not what its processor documents the field as. *)

From S2P Require Import Prelude RustStr Core.

Definition BASE58_ALPHABET : str := "123456789ABCDEFGHJKLMNPQRSTUVWXYZabcdefghijkmnopqrstuvwxyz".
Definition is_base58_char (a : ascii) : bool := contains_char a BASE58_ALPHABET.
Definition is_base32 (s : str) : bool :=
  str_all (fun c => is_ascii_alphabetic c || between 50 55 c) s.

Definition looks_like_a_secret_key (dest : str) : bool :=
  (len dest =? 56) && (starts_with_char "S" dest || starts_with_char "s" dest) && is_base32 dest.

(** [x.or_else(|| y)] *)
Definition orElse {A} (x y : option A) : option A := match x with Some _ => x | None => y end.

Definition looks_like_stellar (dest : str) : option str :=
  if is_base32 dest then
    let is_lead c := bool_decide (char_to_upper <$> first_char dest = Some c) in
    return_if is_lead "G"%char && (len dest =? 56) with_ Some "a Stellar account address (G…)"%string;
    return_if is_lead "C"%char && (len dest =? 56) with_ Some "a Stellar contract address (C…)"%string;
    return_if is_lead "M"%char && (len dest =? 69) with_
      Some "a Stellar muxed account address (M…)"%string;
    None
  else None.
Definition looks_like_hex (dest : str) : option str :=
  let_some hex := orElse (strip_prefix "0x" dest) (strip_prefix "0X" dest) or_else None;
  if str_all is_ascii_hexdigit hex then
    return_if len hex =? 40 with_ Some "an Ethereum/EVM address"%string;
    return_if len hex =? 64 with_ Some "a Sui or Aptos address"%string;
    None
  else None.
Definition looks_like_bitcoin (dest : str) : option str :=
  return_if (26 <=? len dest) && (len dest <=? 35)
      && (starts_with_char "1" dest || starts_with_char "3" dest)
      && str_all is_base58_char dest with_
    Some "a legacy Bitcoin address"%string;
  let_some rest := orElse (strip_prefix "bc1" dest)
    (orElse (strip_prefix "tb1" dest) (strip_prefix "bcrt1" dest)) or_else None;
  if negb (is_empty rest) && str_all (fun b => is_ascii_lowercase b || is_ascii_digit b) rest
  then Some "a bech32 Bitcoin address (bc1…)"%string
  else None.
Definition looks_like_a_wallet_address (dest : str) : option str :=
  return_if ((len dest =? 43) || (len dest =? 44)) && str_all is_base58_char dest with_
    Some "a Solana wallet address"%string;
  orElse (looks_like_stellar dest) (orElse (looks_like_hex dest) (looks_like_bitcoin dest)).

Definition SECRET_SEED_WARNING : str :=
  "STOP — this is not a destination, it is a Stellar SECRET SEED (S…). You have just pasted a PRIVATE KEY into a payment field. Treat it as disclosed: create a new account, move everything the old key controls to it, and never use the old key again. patala has not logged the value and this message does not repeat it, but wherever you copied it from may have. Nothing on this rail ever wants a key or an address of any kind.".

Definition common_refusals (rid dest field : str) : option DestinationVerdict :=
  return_if is_blank dest with_
    Some (malformed rid
      ("an empty destination is not usable on any rail; on the " +:+ rid +:+ " rail this field is "
       +:+ field));
  return_if looks_like_a_secret_key dest with_ Some (malformed rid SECRET_SEED_WARNING);
  let_some what := looks_like_a_wallet_address dest or_else None;
  Some (wrong_network rid
    ("this looks like " +:+ what +:+ ", and the " +:+ rid
     +:+ " rail does not pay to wallet addresses at all — it is a custodial fiat rail, and its `destination` is "
     +:+ field
     +:+ ". Nothing sent through this rail arrives at a blockchain address. If you meant to pay someone on-chain, use a crypto rail (patala-solana, patala-stellar); if you meant to give a customer their money back on THIS rail, that is `refund`, which sends it back the way it came and needs no destination.")).

Definition processor_owns_this (rid : str) : str :=
  "Beyond that nothing more can be checked offline: what this string means is the " +:+ rid
  +:+ " processor's to decide, not patala's, and this rail can neither accept nor reject it on the processor's behalf. A human must confirm it.".

(** [parse_absolute_http_url]: [Ok true] for plain [http]. The host is what
    precedes the first of [/ ? #], after the last [@]. *)
Definition url_host (rest : str) : str :=
  let authority := hd EmptyString
    (split_where (fun a => Ascii.eqb a "/" || Ascii.eqb a "?" || Ascii.eqb a "#") rest) in
  List.last (split_char "@" authority) EmptyString.
Definition parse_absolute_http_url (s : str) : Result str bool :=
  '(is_http, rest) ←
    match strip_prefix "https://" s with
    | Some r => Ok (false, r)
    | None =>
        match strip_prefix "http://" s with
        | Some r => Ok (true, r)
        | None =>
            if contains_str "://" s then
              Err "its scheme is neither http nor https; a browser cannot be redirected to it"%string
            else Err "it has no scheme at all, so it is not an absolute URL"%string
        end
    end;
  return_if has_ws_or_control s with_
    Err "it contains whitespace, so it is not a single URL"%string;
  return_if is_empty (url_host rest) with_ Err "it has a scheme but no host"%string;
  mret is_http.

Definition REDIRECT_FIELD : str := "the URL the buyer's browser returns to after checkout".
Definition redirect_url (rid dest : str) : DestinationVerdict :=
  match common_refusals rid dest REDIRECT_FIELD with
  | Some refusal => refusal
  | None =>
      match parse_absolute_http_url (trim dest) with
      | Err why =>
          malformed rid ("the " +:+ rid +:+ " rail uses `destination` as " +:+ REDIRECT_FIELD
            +:+ ", and every processor in this crate documents that field as an absolute URL — but "
            +:+ why
            +:+ ". Pass the full URL the buyer should land on, scheme and all, e.g. `https://shop.example.com/orders/1234/thanks`.")
      | Ok insecure =>
          let security_note : str :=
            if insecure then " Note that this is a plain `http://` URL: processors generally accept one only in test mode, and a buyer returning from a payment over http is a real exposure — use https in production."
            else EmptyString in
          unknown rid ("this is a well-formed absolute URL, which is what the " +:+ rid
            +:+ " rail sends this field as — it is where the BUYER'S BROWSER lands after checkout, not an address money is sent to, so there is no payout destination here for a verdict to be about."
            +:+ security_note +:+ " " +:+ processor_owns_this rid)
      end
  end.

Definition check_email_shape (s : str) : Result str unit :=
  return_if has_ws_or_control s with_ Err "it contains whitespace"%string;
  match split_char "@" s with
  | [local; domain] =>
      return_if is_empty local with_ Err "there is nothing before the `@`"%string;
      return_if is_empty domain with_ Err "there is nothing after the `@`"%string;
      return_if negb (contains_char "." domain) || starts_with_char "." domain
          || ends_with_char "." domain with_
        Err "the part after the `@` is not a domain name"%string;
      Ok tt
  | _ => Err "an email address has exactly one `@` and this does not"%string
  end.

Definition EMAIL_FIELD : str := "the buyer's email address".
Definition buyer_email (rid dest : str) : DestinationVerdict :=
  match common_refusals rid dest EMAIL_FIELD with
  | Some refusal => refusal
  | None =>
      match check_email_shape (trim dest) with
      | Err why =>
          malformed rid ("the " +:+ rid +:+ " rail uses `destination` as " +:+ EMAIL_FIELD
            +:+ ", which its processor requires to open a transaction — but " +:+ why
            +:+ ". Pass the address the buyer's receipt should go to, e.g. `buyer@example.com`.")
      | Ok _ =>
          unknown rid ("this has the shape of an email address, which is what the " +:+ rid
            +:+ " rail sends this field as — it identifies the BUYER, it is not an address money is sent to, so there is no payout destination here for a verdict to be about. Whether the mailbox exists or belongs to the right person is not decidable offline either. "
            +:+ processor_owns_this rid)
      end
  end.

Definition ignored (rid dest : str) : DestinationVerdict :=
  return_if is_blank dest with_
    malformed rid ("an empty destination is refused by `PayRequest::validate()` on every rail, so the "
      +:+ rid +:+ " rail cannot be charged with one — even though it never reads the field. Pass any non-empty placeholder.");
  unknown rid ("the " +:+ rid +:+ " rail never reads `destination` — see its module docs — so this string cannot be right or wrong, and setting it steers nothing. It exists only because `PayRequest::validate()` requires a non-empty one on every rail. If you expected it to direct where the money goes, it does not: on this rail the processor settles to the merchant account configured out of band, and giving a customer their money back is `refund` (or the processor's own dashboard), never a charge to a destination.").

(** ** Lemmas *)

Definition fiat_verdicts : list (str -> str -> DestinationVerdict) :=
  [redirect_url; buyer_email; ignored].

Lemma common_refusals_refuse rid dest field v :
  common_refusals rid dest field = Some v -> is_refusal v = true.
Proof.
  unfold common_refusals. repeat case_match; try done; intros [= <-]; done.
Qed.
Lemma common_refusals_honest rid dest field v :
  common_refusals rid dest field = Some v -> verdict_honest rid v.
Proof.
  unfold common_refusals. repeat case_match; try done; intros [= <-]; apply verdict_new_honest.
Qed.
Lemma common_refusals_blank rid dest field :
  is_blank dest = true ->
  exists v, common_refusals rid dest field = Some v /\ status v = Malformed.
Proof. unfold common_refusals. intros ->. eexists. split; reflexivity. Qed.

Lemma fiat_verdict_honest V rid dest : In V fiat_verdicts -> verdict_honest rid (V rid dest).
Proof.
  intros [<-|[<-|[<-|[]]]].
  - unfold redirect_url. destruct (common_refusals _ _ _) eqn:E;
      [eapply common_refusals_honest; eauto|]. solve_honest.
  - unfold buyer_email. destruct (common_refusals _ _ _) eqn:E;
      [eapply common_refusals_honest; eauto|]. solve_honest.
  - unfold ignored. solve_honest.
Qed.
Lemma fiat_verdict_blank V rid dest :
  In V fiat_verdicts -> is_blank dest = true -> status (V rid dest) = Malformed.
Proof.
  intros [<-|[<-|[<-|[]]]] Hb.
  - unfold redirect_url. destruct (common_refusals_blank rid dest REDIRECT_FIELD Hb) as (v & -> & ?).
    done.
  - unfold buyer_email. destruct (common_refusals_blank rid dest EMAIL_FIELD Hb) as (v & -> & ?).
    done.
  - unfold ignored. now rewrite Hb.
Qed.

(** Every wallet description is one of these. *)
Definition wallet_kinds : list str :=
  ["a Solana wallet address"; "a Stellar account address (G…)"; "a Stellar contract address (C…)";
   "a Stellar muxed account address (M…)"; "an Ethereum/EVM address"; "a Sui or Aptos address";
   "a legacy Bitcoin address"; "a bech32 Bitcoin address (bc1…)"]%string.
Lemma wallet_kinds_spec dest what :
  looks_like_a_wallet_address dest = Some what -> In what wallet_kinds.
Proof.
  unfold looks_like_a_wallet_address, looks_like_stellar, looks_like_hex, looks_like_bitcoin, orElse.
  intros H. cbv zeta in H. repeat (case_match; try discriminate);
    simplify_eq; unfold wallet_kinds; cbn; tauto.
Qed.

(** Every verdict [redirect_url] and [buyer_email] can give on a rail: the
    reason ranges over a finite set of texts fixed by the rail, so no part of
    the destination is ever copied into it. *)
Definition url_errors : list str :=
  ["its scheme is neither http nor https; a browser cannot be redirected to it";
   "it has no scheme at all, so it is not an absolute URL";
   "it contains whitespace, so it is not a single URL"; "it has a scheme but no host"]%string.
Definition email_errors : list str :=
  ["it contains whitespace"; "an email address has exactly one `@` and this does not";
   "there is nothing before the `@`"; "there is nothing after the `@`";
   "the part after the `@` is not a domain name"]%string.

Lemma url_errors_spec s why : parse_absolute_http_url s = Err why -> In why url_errors.
Proof.
  unfold parse_absolute_http_url, mbind, result_bind, mret, result_ret.
  repeat (case_match; simplify_eq; try discriminate); intros; simplify_eq; cbn; tauto.
Qed.
Lemma email_errors_spec s why : check_email_shape s = Err why -> In why email_errors.
Proof.
  unfold check_email_shape.
  repeat (case_match; simplify_eq; try discriminate); intros; simplify_eq; cbn; tauto.
Qed.

(** A function whose values are all in one list, however many arguments it has. *)
Definition finitely_many {D A} (f : D -> A) : Prop := exists l, forall d, In (f d) l.
Lemma many_const {D A} (a : A) : finitely_many (fun _ : D => a).
Proof. exists [a]. intros _. now left. Qed.
Lemma many_if {D A} (b : D -> bool) (f g : D -> A) :
  finitely_many f -> finitely_many g -> finitely_many (fun d => if b d then f d else g d).
Proof. intros [l Hl] [k Hk]. exists (l ++ k). intros d. apply in_app_iff. destruct (b d); auto. Qed.
(** A value drawn from a list, then a function of it. *)
Lemma many_of {D X A} (L : list X) (k : X -> D -> A) : (forall x, finitely_many (k x)) ->
  exists l, forall x d, In x L -> In (k x d) l.
Proof.
  intros Hk. induction L as [|x L [l Hl]]; [now exists []|]. destruct (Hk x) as [lx Hx].
  exists (lx ++ l). intros y d [->|Hy]; apply in_app_iff; auto.
Qed.
Lemma many_option {D X A} (o : D -> option X) (L : list X) (k : X -> D -> A) (g : D -> A) :
  (forall d x, o d = Some x -> In x L) -> (forall x, finitely_many (k x)) -> finitely_many g ->
  finitely_many (fun d => match o d with Some x => k x d | None => g d end).
Proof.
  intros Ho [l Hl]%(many_of L) [m Hm]. exists (l ++ m). intros d. apply in_app_iff.
  destruct (o d) eqn:E; eauto.
Qed.
Lemma many_result {D X F A} (r : D -> Result F X) (L : list F) (M : list X) (k : F -> D -> A) (g : X -> D -> A) :
  (forall d e, r d = Err e -> In e L) -> (forall x, In x M) ->
  (forall e, finitely_many (k e)) -> (forall x, finitely_many (g x)) ->
  finitely_many (fun d => match r d with Err e => k e d | Ok x => g x d end).
Proof.
  intros Hr HM [l Hl]%(many_of L) [m Hm]%(many_of M). exists (l ++ m). intros d. apply in_app_iff.
  destruct (r d) eqn:E; eauto.
Qed.
Lemma common_refusals_finite rid field : exists l, forall d v, common_refusals rid d field = Some v -> In v l.
Proof.
  enough (finitely_many (fun d => common_refusals rid d field)) as [l Hl].
  { exists (omap (fun x => x) l). intros d v Hv. apply list_elem_of_In, list_elem_of_omap. exists (Some v).
    split; [|done]. apply list_elem_of_In. rewrite <- Hv. apply Hl. }
  unfold common_refusals. apply many_if; [apply many_const|]. apply many_if; [apply many_const|].
  apply (many_option looks_like_a_wallet_address wallet_kinds); [apply wallet_kinds_spec | intros; apply many_const ..].
Qed.
(** The destination is never copied into a verdict: every verdict a fiat rail can
    give is one of a list that is fixed by the rail alone. *)
Lemma fiat_verdict_finite V rid : In V fiat_verdicts -> finitely_many (V rid).
Proof.
  assert (forall b : bool, In b [true; false]) as Hb by (intros []; cbn; tauto).
  intros [<-|[<-|[<-|[]]]]; unfold redirect_url, buyer_email, ignored.
  - destruct (common_refusals_finite rid REDIRECT_FIELD) as [l Hl].
    apply (many_option (fun d => common_refusals rid d REDIRECT_FIELD) l); [exact Hl | intros; apply many_const |].
    apply (many_result (fun d => parse_absolute_http_url (trim d)) url_errors [true; false]);
      [intros d e; apply url_errors_spec | exact Hb | intros; apply many_const ..].
  - destruct (common_refusals_finite rid EMAIL_FIELD) as [l Hl].
    apply (many_option (fun d => common_refusals rid d EMAIL_FIELD) l); [exact Hl | intros; apply many_const |].
    apply (many_result (fun d => check_email_shape (trim d)) email_errors [tt]);
      [intros d e; apply email_errors_spec | intros []; now left | intros; apply many_const ..].
  - apply many_if; apply many_const.
Qed.

(** Fiat destinations, what the verdict may say. A redirect-URL or e-mail rail never calls
    a destination structurally valid; a blank one or a Stellar secret seed is [Malformed], the
    seed with one fixed warning; anything that looks like a wallet address is
    [WrongNetwork]; and a string that is neither gets a reason that is the same for every
    destination with the same parse outcome, so the destination itself is never repeated. *)
Theorem fiat_destination_verdicts (rid d : str) :
  forall V, V = redirect_url \/ V = buyer_email ->
  status (V rid d) <> StructurallyValid /\
  (is_blank d = true -> status (V rid d) = Malformed) /\
  (is_blank d = false -> looks_like_a_secret_key d = true ->
     V rid d = malformed rid SECRET_SEED_WARNING) /\
  (is_blank d = false -> looks_like_a_secret_key d = false ->
     looks_like_a_wallet_address d <> None -> status (V rid d) = WrongNetwork) /\
  (forall d', is_blank d = false -> is_blank d' = false ->
     looks_like_a_secret_key d = looks_like_a_secret_key d' ->
     looks_like_a_wallet_address d = looks_like_a_wallet_address d' ->
     parse_absolute_http_url (trim d) = parse_absolute_http_url (trim d') ->
     check_email_shape (trim d) = check_email_shape (trim d') -> V rid d = V rid d').
Proof.
  intros V HV.
  assert (forall field, is_blank d = false -> looks_like_a_secret_key d = true ->
    common_refusals rid d field = Some (malformed rid SECRET_SEED_WARNING)) as Hs
    by (unfold common_refusals; intros field -> ->; done).
  assert (forall field, is_blank d = false -> looks_like_a_secret_key d = false ->
    looks_like_a_wallet_address d <> None ->
    exists why, common_refusals rid d field = Some (wrong_network rid why)) as Hw.
  { unfold common_refusals. intros field -> ->. destruct (looks_like_a_wallet_address d); [eauto|done]. }
  assert (forall field v, common_refusals rid d field = Some v -> status v <> StructurallyValid) as Hr.
  { intros field v Hv%common_refusals_refuse E. unfold is_refusal in Hv. now rewrite E in Hv. }
  split_and!.
  - destruct HV as [->| ->]; unfold redirect_url, buyer_email;
      (destruct (common_refusals _ _ _) eqn:E; [eapply Hr; exact E|]); case_match; done.
  - intros Hb. apply (fiat_verdict_blank V rid d); [|done]. destruct HV as [->| ->]; cbn; tauto.
  - intros Hb Hk. destruct HV as [->| ->]; unfold redirect_url, buyer_email; now rewrite Hs.
  - intros Hb Hk Hl. destruct HV as [->| ->]; unfold redirect_url, buyer_email.
    + destruct (Hw REDIRECT_FIELD Hb Hk Hl) as (why & ->). done.
    + destruct (Hw EMAIL_FIELD Hb Hk Hl) as (why & ->). done.
  - intros d' Hb Hb' Hk Hl Hu He.
    assert (forall field, common_refusals rid d field = common_refusals rid d' field) as E
      by (unfold common_refusals; intros; now rewrite Hb, Hb', Hk, Hl).
    destruct HV as [->| ->]; unfold redirect_url, buyer_email; now rewrite E, ?Hu, ?He.
Qed.

Definition demo_seed : str := "SAAAAAAAAAAAAAAAAAAAAAAAAAAAAAAAAAAAAAAAAAAAAAAAAAAAAAAA".
Lemma fiat_destination_verdicts_witness :
  redirect_url "stripe" demo_seed = malformed "stripe" SECRET_SEED_WARNING /\
  status (buyer_email "paystack" "0x52908400098527886E0F7030069857D2E4169EE7") = WrongNetwork.
Proof.
  split.
  - apply (fiat_destination_verdicts "stripe" demo_seed redirect_url (or_introl eq_refl));
      vm_compute; reflexivity.
  - apply (fiat_destination_verdicts "paystack" "0x52908400098527886E0F7030069857D2E4169EE7"
      buyer_email (or_intror eq_refl)); vm_compute; [reflexivity | reflexivity | discriminate].
Defined.

(** The e-mail shape. [check_email_shape] accepts exactly [local@domain] with one [@], a
    non-empty local part, a domain holding a dot that neither starts nor ends it, and no
    whitespace or control character. *)
Theorem check_email_shape_spec (s : str) :
  check_email_shape s = Ok tt <->
  has_ws_or_control s = false /\
  exists local domain, s = local +:+ "@" +:+ domain /\
    no_char "@" local = true /\ no_char "@" domain = true /\ local <> EmptyString /\
    contains_char "." domain = true /\ starts_with_char "." domain = false /\
    ends_with_char "." domain = false.
Proof.
  unfold check_email_shape. destruct (has_ws_or_control s); [split; [done | now intros [? _]]|]. split.
  - intros H. split; [done|].
    destruct (split_char "@" s) as [|l [|d [|]]] eqn:E; try done.
    apply split_char_2 in E as (-> & Hl & Hd).
    destruct l as [|x l]; [done|]. destruct d as [|y d]; [done|]. cbn [is_empty] in H.
    destruct (contains_char "." (String y d)) eqn:E1; [|done]. cbn [negb orb] in H.
    destruct (starts_with_char "." (String y d)) eqn:E2; [done|].
    destruct (ends_with_char "." (String y d)) eqn:E3; [done|].
    exists (String x l), (String y d). split_and!; done.
  - intros (_ & l & d & -> & Hl & Hd & Hne & H1 & H2 & H3).
    assert (split_char "@" (l +:+ "@" +:+ d) = [l; d]) as -> by (apply split_char_2; auto).
    destruct l; [done|]. destruct d; [done|]. cbn [is_empty]. now rewrite H1, H2, H3.
Qed.
