(* ===== verification/Json.v ===== *)
(** * JSON values

    [serde_json::Value] as the crates read it: lookups of a key, and the [as_*]
    views that answer [None] on any other shape. An object is its fields in
    order; numbers keep their text. *)

From S2P Require Import Prelude RustStr.

#[warnings="-register-all"]
Inductive Json :=
  | JNull
  | JBool (b : bool)
  | JNumber (text : str)
  | JString (s : str)
  | JArray (items : list Json)
  | JObject (fields : list (str * Json)).

Fixpoint assoc {A} (k : str) (l : list (str * A)) : option A :=
  match l with
  | [] => None
  | (k', a) :: l => if String.eqb k' k then Some a else assoc k l
  end.
Definition get_field (k : str) (j : Json) : option Json :=
  match j with JObject fs => assoc k fs | _ => None end.
Definition as_str (j : Json) : option str := match j with JString s => Some s | _ => None end.
Definition as_bool (j : Json) : option bool := match j with JBool b => Some b | _ => None end.
Definition as_array (j : Json) : option (list Json) := match j with JArray l => Some l | _ => None end.
Definition is_null (j : Json) : bool := match j with JNull => true | _ => false end.
(** [j.get(k).and_then(|v| v.as_str())] *)
Definition get_str (k : str) (j : Json) : option str := get_field k j ≫= as_str.
(** [list.and_then(|v| v.as_array()).unwrap_or(&empty)] *)
Definition items_of (j : option Json) : list Json := default [] (j ≫= as_array).
