(* ===== verification/Adapter.v ===== *)
(** * What the processor adapters share

    Every adapter of [patala-fiat] is written to one shape: a configuration
    from the environment, an HTTP client, a charge that opens something at the
    processor, a verify that asks the processor about it, a signed webhook.
    This file has that shape once: requests and their failures, the status and
    size checks, the environment readers, the quote, the open receipt and the
    last comparison of verify; the laws of an adapter's verify as a class; and
    the tactics that take an adapter's effectful code apart guard by guard. *)

From S2P Require Import Prelude RustStr Core External HttpShared FiatDest Json.

(** ** serde

    [serde_json::from_slice] at one type, with serde's error text;
    [serde_json::from_value]; the bytes of an adapter's [ChargeProof], which
    [to_bytes] always writes. *)

Class FromJson (T : Type) := from_json : list byte -> Result str T.
Class FromValue (T : Type) := from_value : Json -> Result str T.
Class ProofBytes (P : Type) := { to_bytes : P -> list byte; from_bytes : list byte -> option P }.
Class ProofLaws (P : Type) `{ProofBytes P} : Prop := {
  from_to_bytes p : from_bytes (to_bytes p) = Some p;
}.

(** ** Requests

    A request as [reqwest] is asked to make it, and its two ways to fail. A
    JSON body is the value the code builds. *)

Inductive HttpBody :=
  | NoBody
  | FormBody (fields : list (str * str))
  | JsonBody (value : Json)
  | RawBody (bytes : list byte).
Record HttpCall := {
  hc_method : str;
  hc_url : str;
  hc_basic_auth : option (str * option str);
  hc_headers : list (str * str);
  hc_body : HttpBody;
}.
Inductive HttpFailure := SendFailed (e : str) | BodyFailed (e : str).
Definition HttpClient (W : Type) : Type := HttpCall -> Eff W HttpFailure (list byte * Z).

(** [reqwest::Client::builder().timeout(secs).build()], which can fail, and what
    every [new] makes of that. *)
Definition HttpBuilder (W : Type) : Type := Z -> Result str (HttpClient W).
Definition client_unbuilt (name e : str) : Error := Rail ("failed building " +:+ name +:+ " http client: " +:+ e).
Definition built_client {W} (name : str) (builder : HttpBuilder W) (timeout_secs : Z) : Result Error (HttpClient W) :=
  map_err (client_unbuilt name) (builder timeout_secs).

Definition json_body (j : option Json) : HttpBody :=
  match j with Some j => JsonBody j | None => NoBody end.
Definition is_2xx (code : Z) : bool := (200 <=? code) && (code <? 300).
Definition json_u64 (n : Z) : Json := JNumber (to_dec n).

(** The errors every adapter words alike but for its own name. *)
Definition api_malformed (name detail : str) : Error :=
  Rail (name +:+ ": malformed API response: " +:+ detail).
Definition api_status (name : str) (code : Z) (msg : str) : Error :=
  Rail (name +:+ ": unexpected API response status: http " +:+ to_dec code +:+ ": " +:+ msg).
Definition or_no_message (msg : str) : str := if is_empty msg then "no message" else msg.

Section Requests.
Context {W : Type}.

(** Send, read the body, refuse one that is too long: the tail of every
    [do_json], [do_form] and [do_request]. *)
Definition transport_saying (failed : HttpFailure -> str) (name : str) (http : HttpClient W) (call : HttpCall)
    : Eff W Error (list byte * Z) :=
  resp ← eff_map_err (fun e => Rail (failed e)) (http call);
  eff_of (map_err (fun e => Rail (name +:+ ": " +:+ e)) (bounded_len_check resp.1 DEFAULT_MAX_BODY_BYTES)) ≫= fun _ =>
  mret resp.
Definition transport (name path : str) : HttpClient W -> HttpCall -> Eff W Error (list byte * Z) :=
  transport_saying (fun e => match e with
    | SendFailed e => name +:+ ": request to " +:+ path +:+ " failed: " +:+ e
    | BodyFailed e => name +:+ ": failed reading response body: " +:+ e
    end) name.
(** The status check every caller makes. *)
Definition expect_2xx (classify : Z -> list byte -> Error) (m : Eff W Error (list byte * Z))
    : Eff W Error (list byte) :=
  resp ← m;
  return_if negb (is_2xx resp.2) with_ eff_err (classify resp.2 resp.1);
  mret resp.1.
Definition parse_as {T} `{FromJson T} (name : str) (body : list byte) : Eff W Error T :=
  eff_of (map_err (api_malformed name) (from_json body)).
End Requests.

(** ** Guards *)

(** [!s.is_empty() && no separator && s.is_ascii()]. *)
Definition path_breaker (a : ascii) : bool :=
  existsb (Ascii.eqb a) ["/"; "?"; "#"; " "; "009"; "010"; "013"]%char.
Definition is_safe_path_segment (s : str) : bool :=
  negb (is_empty s || str_any path_breaker s || negb (str_all is_ascii s)).
Definition path_segment (what s : str) : Result Error str :=
  return_if negb (is_safe_path_segment s) with_
    Err (InvalidRequest ("value " +:+ debug_str s +:+ " is not a safe URL path segment for " +:+ what));
  Ok s.

Definition unsupported_by (rid c : str) : Error :=
  InvalidRequest ("rail " +:+ rid +:+ " does not support currency " +:+ c).
Definition lists_currency (cs : list str) (c : str) : bool := existsb (fun x => eq_ignore_ascii_case x c) cs.
(** [check_currency] where an empty list means unrestricted, and where not. *)
Definition check_unless_empty (rid : str) (cs : list str) (c : str) : Result Error unit :=
  return_if bool_decide (cs = []) || lists_currency cs c with_ Ok tt;
  Err (unsupported_by rid c).
Definition check_listed (rid : str) (cs : list str) (c : str) : Result Error unit :=
  return_if lists_currency cs c with_ Ok tt;
  Err (unsupported_by rid c).
Definition normal_currency (c : str) : str := to_ascii_uppercase (trim c).

(** A required field of a configuration. *)
Definition required (field v : str) : Result Error unit :=
  return_if is_blank v with_ Err (InvalidRequest (field +:+ " must not be empty"));
  Ok tt.

(** ** The environment, as a lookup *)

Definition Environment : Type := str -> option str.
Definition non_empty_env (env : Environment) (name : str) : Result Error str :=
  v ← ok_or (InvalidRequest ("environment variable " +:+ name +:+ " is not set")) (env name);
  return_if is_blank v with_ Err (InvalidRequest ("environment variable " +:+ name +:+ " is set but empty"));
  Ok v.
(** The readers that answer the trimmed value. *)
Definition trimmed_env (env : Environment) (name : str) : Result Error str :=
  v ← non_empty_env env name; Ok (trim v).
Definition currency_list (v : str) : list str :=
  List.filter (fun c => negb (is_empty c)) (map (fun c => to_ascii_uppercase (trim c)) (split_char "," v)).
Definition env_currencies (env : Environment) (name : str) (dflt : list str) : list str :=
  match env name with
  | Some v => if is_blank v then dflt else currency_list v
  | None => dflt
  end.
Definition env_flag (env : Environment) (name : str) (dflt : bool) : bool :=
  default dflt ((fun s => eq_ignore_ascii_case s "true") <$> env name).
Definition env_u8 (env : Environment) (name : str) (dflt : Z) : Z :=
  default dflt (env name ≫= parse_unsigned u8_max).
Definition env_u64 (env : Environment) (name : str) (dflt : Z) : Z :=
  default dflt (env name ≫= parse_u64).
(** [s.trim_end_matches('/')] *)
Fixpoint trim_end_slashes (s : str) : str :=
  match s with
  | EmptyString => EmptyString
  | String a s =>
      let t := trim_end_slashes s in
      if is_empty t && Ascii.eqb a "/" then EmptyString else String a t
  end.

(** [(now_unix as i64 - ts_unix).unsigned_abs()], the subtraction wrapping. *)
Definition signature_age (now ts : Z) : Z := Z.abs (as_i64 (as_i64 now - ts)).

(** ** Quotes and receipts *)

Definition quoted {W} `{Clock W} (rid : str) (days : Settlement) (ttl : Z) (cur : str) (req : PayRequest)
    : Eff W Error Quote :=
  now ← read_clock;
  mret {|
    q_rail_id := rid;
    q_amount_minor := req_amount_minor req;
    q_currency := cur;
    q_fee_minor := 0;
    q_total_minor := req_amount_minor req;
    q_settlement := days;
    q_expires_at_unix := u64_saturating_add now ttl;
  |}.
(** What every charge answers: nothing has settled yet. *)
Definition open_receipt {P} `{ProofBytes P} (rid cur ref : str) (p : P) : Receipt := {|
  rail_id := rid;
  amount_minor := 0;
  currency := cur;
  reference := ref;
  proof := to_bytes p;
  settled_at_unix := 0;
|}.
(** The last comparison of verify: what the processor says moved covers what
    the receipt claims. *)
Definition covers (settled : bool) (cur : str) (amt : Z) (rc : Receipt) : bool :=
  return_if negb settled with_ false;
  return_if negb (eq_ignore_ascii_case cur (currency rc)) with_ false;
  return_if amt <? amount_minor rc with_ false;
  true.
#[global] Arguments covers : simpl never.
#[global] Arguments eq_ignore_ascii_case : simpl never.
#[global] Arguments String.eqb : simpl never.
Definition other_rail (rid : str) (rc : Receipt) : Error :=
  InvalidRequest ("receipt names rail " +:+ debug_str (rail_id rc) +:+ ", not " +:+ debug_str rid).

Definition with_reference (ref : str) (rc : Receipt) : Receipt := {|
  rail_id := rail_id rc; amount_minor := amount_minor rc; currency := currency rc;
  reference := ref; proof := proof rc; settled_at_unix := settled_at_unix rc;
|}.

Definition with_amount (amt : Z) (rc : Receipt) : Receipt := {|
  rail_id := rail_id rc; amount_minor := amt; currency := currency rc;
  reference := reference rc; proof := proof rc; settled_at_unix := settled_at_unix rc;
|}.

(** ** The contract of an adapter's verify

    What the processor says, reduced to what verify compares: the order it was
    for when the adapter compares it, the currency and the amount. [evidence]
    relates a receipt's proof and reference, and the world verify runs in, to
    what the processor answered there. *)

Record Evidence := { ev_reference : option str; ev_currency : str; ev_amount : Z }.
Definition supports (ev : Evidence) (rc : Receipt) : Prop :=
  match ev_reference ev with Some ref => ref = reference rc | None => True end /\
  eq_ignore_ascii_case (ev_currency ev) (currency rc) = true /\
  amount_minor rc <= ev_amount ev.

Class VerifiesBy {W} (R : PaymentRail W)
    (evidence : list byte -> str -> W -> Evidence -> W -> Prop) : Prop :=
  verifies_by rc w w' :
    verify R rc w = (Ok true, w') <->
    rail_id rc = id R /\ exists ev, evidence (proof rc) (reference rc) w ev w' /\ supports ev rc.

(** What a rail's webhook may answer: an event of that rail that a caller can
    deduplicate, for a delivery the rail authenticated. *)
Class WebhookAnswers {W} (R : PaymentRail W) (authentic : WebhookDelivery -> W -> Prop) : Prop :=
  webhook_answers d w ev w' :
    verify_webhook R d w = (Ok ev, w') ->
    we_rail_id ev = id R /\ event_id ev <> EmptyString /\ authentic d w.

(** Whether an order's reference matters to verify. *)
Definition ignores_reference {W} (R : PaymentRail W) : Prop :=
  forall rc ref w, verify R (with_reference ref rc) w = verify R rc w.
Definition compares_reference {W} (R : PaymentRail W) : Prop :=
  forall rc ref w w1 w2, verify R rc w = (Ok true, w1) ->
    verify R (with_reference ref rc) w = (Ok true, w2) -> ref = reference rc.

(** ** Lemmas: taking effects apart *)

Section EffLemmas.
Context {W E : Type}.

Lemma eff_bind_Ok {A B} (m : Eff W E A) (k : A -> Eff W E B) w b w' :
  (m ≫= k) w = (Ok b, w') <-> exists a v, m w = (Ok a, v) /\ k a v = (Ok b, w').
Proof.
  unfold mbind, eff_bind. destruct (m w) as [[a|e] v]; split.
  - intros H. now exists a, v.
  - now intros (? & ? & [= <- <-] & ?).
  - done.
  - now intros (? & ? & [=] & ?).
Qed.
Lemma eff_of_Ok {A} (r : Result E A) (w : W) a v : eff_of r w = (Ok a, v) <-> r = Ok a /\ v = w.
Proof. unfold eff_of. split; [now intros [= -> ->] | now intros [-> ->]]. Qed.
Lemma eff_ret_Ok {A} (a b : A) (w v : W) : (mret a : Eff W E A) w = (Ok b, v) <-> a = b /\ v = w.
Proof. unfold mret, eff_ret. split; [now intros [= -> ->] | now intros [-> ->]]. Qed.
Lemma eff_guard_Ok {A} (c : bool) (e : E) (k : Eff W E A) w b w' :
  (if c then eff_err e else k) w = (Ok b, w') <-> c = false /\ k w = (Ok b, w').
Proof. destruct c; split; try done; now intros [? ?]. Qed.
Lemma eff_refuse_Ok (c : bool) (k : Eff W E bool) w w' :
  (if c then mret false else k) w = (Ok true, w') <-> c = false /\ k w = (Ok true, w').
Proof. destruct c; split; try done; now intros [? ?]. Qed.
Lemma eff_some_Ok {A} (o : option A) (k : A -> Eff W E bool) w w' :
  (match o with Some a => k a | None => mret false end) w = (Ok true, w') <->
  exists a, o = Some a /\ k a w = (Ok true, w').
Proof. destruct o; split; eauto; try done; now intros (? & [= <-] & ?). Qed.
Lemma eff_ok_Ok {A F} (o : Result F A) (k : A -> Eff W E bool) w w' :
  (match o with Ok a => k a | Err _ => mret false end) w = (Ok true, w') <->
  exists a, o = Ok a /\ k a w = (Ok true, w').
Proof. destruct o; split; eauto; try done; now intros (? & [= <-] & ?). Qed.
Lemma eff_map_err_Ok {A F} (f : E -> F) (m : Eff W E A) (w : W) a w' :
  eff_map_err f m w = (Ok a, w') <-> m w = (Ok a, w').
Proof. unfold eff_map_err. destruct (m w) as [[?|?] ?]; cbn; split; congruence. Qed.
Lemma eff_refused {A B} (r : Result E A) (k : A -> Eff W E B) w e : r = Err e -> (eff_of r ≫= k) w = (Err e, w).
Proof. now intros ->. Qed.
End EffLemmas.

Section ResultLemmas.
Context {E : Type}.
Lemma result_bind_Ok {A B} (m : Result E A) (k : A -> Result E B) b :
  m ≫= k = Ok b <-> exists a, m = Ok a /\ k a = Ok b.
Proof. destruct m; split; eauto; try done; now intros (? & [= <-] & ?). Qed.
Lemma result_guard_Ok {A} (c : bool) (e : E) (k : Result E A) b :
  (if c then Err e else k) = Ok b <-> c = false /\ k = Ok b.
Proof. destruct c; split; try done; now intros [? ?]. Qed.
Lemma map_err_Ok {F A} (f : E -> F) (r : Result E A) a : map_err f r = Ok a <-> r = Ok a.
Proof. destruct r; split; intros [=]; now subst. Qed.
Lemma ok_or_Ok {A} (e : E) (o : option A) a : ok_or e o = Ok a <-> o = Some a.
Proof. destruct o; split; intros [=]; now subst. Qed.
End ResultLemmas.

(** One guard, bind or parse of a successful run at a time. *)
Ltac run_inv1 H :=
  lazymatch type of H with
  | (_ ≫= _) _ = (Ok _, _) =>
      let x := fresh "x" in let v := fresh "v" in let Hx := fresh "Hx" in
      apply eff_bind_Ok in H as (x & v & Hx & H); try run_inv Hx
  | eff_of _ _ = (Ok _, _) => apply eff_of_Ok in H as [H ->]; run_inv1 H
  | eff_map_err _ _ _ = (Ok _, _) => apply eff_map_err_Ok in H
  | parse_as _ _ _ = (Ok _, _) => apply eff_of_Ok in H as [H ->]; run_inv1 H
  | mret _ _ = (Ok _, _) => apply eff_ret_Ok in H as [H ->]
  | (if _ then eff_err _ else _) _ = (Ok _, _) =>
      let Hc := fresh "Hc" in apply eff_guard_Ok in H as [Hc H]
  | (if _ then mret false else _) _ = (Ok true, _) =>
      let Hc := fresh "Hc" in apply eff_refuse_Ok in H as [Hc H]
  | (match _ with Some _ => _ | None => mret false end) _ = (Ok true, _) =>
      let x := fresh "p" in let Hx := fresh "Hp" in apply eff_some_Ok in H as (x & Hx & H)
  | (match _ with Ok _ => _ | Err _ => mret false end) _ = (Ok true, _) =>
      let x := fresh "p" in let Hx := fresh "Hp" in apply eff_ok_Ok in H as (x & Hx & H)
  | map_err _ _ = Ok _ => apply map_err_Ok in H
  | ok_or _ _ = Ok _ => apply ok_or_Ok in H
  | (_ ≫= _) = Ok _ =>
      let x := fresh "x" in let Hx := fresh "Hx" in
      apply result_bind_Ok in H as (x & Hx & H); try run_inv Hx
  | (if _ then Err _ else _) = Ok _ =>
      let Hc := fresh "Hc" in apply result_guard_Ok in H as [Hc H]
  | _ => idtac
  end
with run_inv H := progress repeat progress (cbn beta zeta in H; run_inv1 H).

(** The same facts rebuild the run. *)
Ltac run1 :=
  lazymatch goal with
  | |- (_ ≫= _) _ = (Ok _, _) => apply eff_bind_Ok; eexists _, _; split; [solve [run1; eauto] |]
  | |- eff_of _ _ = (Ok _, _) => apply eff_of_Ok; split; [run1 | reflexivity]
  | |- parse_as _ _ _ = (Ok _, _) => apply eff_of_Ok; split; [run1 | reflexivity]
  | |- mret _ _ = (Ok _, _) => apply eff_ret_Ok; split; [|reflexivity]
  | |- (if _ then eff_err _ else _) _ = (Ok _, _) => apply eff_guard_Ok; split; [solve [eauto]|]
  | |- (if _ then mret false else _) _ = (Ok true, _) => apply eff_refuse_Ok; split; [solve [eauto]|]
  | |- (match _ with Some _ => _ | None => mret false end) _ = (Ok true, _) =>
      apply eff_some_Ok; eexists; split; [solve [eauto]|]
  | |- (match _ with Ok _ => _ | Err _ => mret false end) _ = (Ok true, _) =>
      apply eff_ok_Ok; eexists; split; [solve [eauto]|]
  | |- map_err _ _ = Ok _ => apply map_err_Ok
  | |- ok_or _ _ = Ok _ => apply ok_or_Ok
  | |- (_ ≫= _) = Ok _ => apply result_bind_Ok; eexists; split; [solve [run1; eauto] |]
  | |- (if _ then Err _ else _) = Ok _ => apply result_guard_Ok; split; [solve [eauto]|]
  | |- _ => idtac
  end.
Ltac run := repeat progress (cbn beta zeta; run1); eauto.

(** ** Lemmas: requests *)

Section RequestLemmas.
Context {W : Type}.

(** A call answered with this body: sent, 2xx, and not too long. *)
Definition answered (http : HttpClient W) (call : HttpCall) (w : W) (body : list byte) (w' : W) : Prop :=
  exists code, http call w = (Ok (body, code), w') /\
    is_2xx code = true /\ Z.of_nat (length body) <= DEFAULT_MAX_BODY_BYTES.
Lemma transport_saying_Ok failed name (http : HttpClient W) call w resp w' :
  transport_saying failed name http call w = (Ok resp, w') <->
  http call w = (Ok resp, w') /\ Z.of_nat (length resp.1) <= DEFAULT_MAX_BODY_BYTES.
Proof.
  unfold transport_saying, bounded_len_check. unfold_eff.
  destruct (http call w) as [[[b code]|e] v]; cbn [map_err fst snd]; [|split; [done | now intros [[=] _]]].
  destruct (Z.ltb_spec DEFAULT_MAX_BODY_BYTES (Z.of_nat (length b))); cbn [map_err fst snd].
  - split; [done|]. intros [[= <- <-] ?]. cbn in *. lia.
  - split; [intros [= <- <-]; done | now intros [[= <- <-] _]].
Qed.
Lemma transport_Ok name path (http : HttpClient W) call w resp w' :
  transport name path http call w = (Ok resp, w') <->
  http call w = (Ok resp, w') /\ Z.of_nat (length resp.1) <= DEFAULT_MAX_BODY_BYTES.
Proof. apply transport_saying_Ok. Qed.
Lemma expect_2xx_saying_Ok failed name (http : HttpClient W) classify call w body w' :
  expect_2xx classify (transport_saying failed name http call) w = (Ok body, w') <-> answered http call w body w'.
Proof.
  unfold expect_2xx, answered. rewrite eff_bind_Ok. split.
  - intros ([b code] & v & Ht & H). apply transport_saying_Ok in Ht as [Ht Hlen].
    apply eff_guard_Ok in H as [Hc H]. apply eff_ret_Ok in H as [<- <-].
    apply negb_false_iff in Hc. now exists code.
  - intros (code & Hh & Hc & Hlen). exists (body, code), w'. rewrite transport_saying_Ok. split; [done|].
    apply eff_guard_Ok. cbn [snd]. now rewrite Hc.
Qed.
Lemma expect_2xx_Ok name path (http : HttpClient W) classify call w body w' :
  expect_2xx classify (transport name path http call) w = (Ok body, w') <-> answered http call w body w'.
Proof. apply expect_2xx_saying_Ok. Qed.
Lemma answered_fun (http : HttpClient W) call w b v b' v' :
  answered http call w b v -> answered http call w b' v' -> b' = b /\ v' = v.
Proof. intros (? & E & _) (? & E' & _). rewrite E in E'. now injection E' as <- _ <-. Qed.
End RequestLemmas.

(** ** Lemmas: guards *)

Lemma path_segment_Ok what s x : path_segment what s = Ok x <-> x = s /\ is_safe_path_segment s = true.
Proof.
  unfold path_segment. destruct (is_safe_path_segment s); cbn [negb].
  - split; [intros [= <-]; done | now intros [-> _]].
  - split; [done | now intros [_ ?]].
Qed.
Lemma as_bytes_inj s t : as_bytes s = as_bytes t -> s = t.
Proof. intros E%(f_equal string_of_list_byte). now rewrite !string_of_list_byte_of_string in E. Qed.
Lemma int_to_dec_nonempty n : int_to_dec n <> EmptyString.
Proof. unfold int_to_dec. destruct (Z.ltb_spec n 0); [done|]. now destruct (to_dec_spec n ltac:(lia)). Qed.
Lemma is_empty_false s : is_empty s = false <-> s <> EmptyString.
Proof. now destruct s. Qed.
Lemma names_rail rid rc : negb (String.eqb (rail_id rc) rid) = false <-> rail_id rc = rid.
Proof. rewrite negb_false_iff. apply String.eqb_eq. Qed.
Lemma covers_spec settled cur amt rc :
  covers settled cur amt rc = true <->
  settled = true /\ eq_ignore_ascii_case cur (currency rc) = true /\ amount_minor rc <= amt.
Proof.
  unfold covers. destruct settled; cbn [negb]; [|split; [done | now intros [? _]]].
  destruct (eq_ignore_ascii_case cur (currency rc)); cbn [negb]; [|split; [done | now intros (_ & ? & _)]].
  destruct (Z.ltb_spec amt (amount_minor rc)); split; try done; intros; destruct_and?; try lia.
Qed.
Lemma required_Ok field v u : required field v = Ok u <-> is_blank v = false.
Proof. unfold required. destruct u, (is_blank v); split; done. Qed.
Lemma non_empty_env_Ok env name v :
  non_empty_env env name = Ok v <-> env name = Some v /\ is_blank v = false.
Proof.
  unfold non_empty_env. rewrite result_bind_Ok. split.
  - intros (x & Hx & H). apply ok_or_Ok in Hx. apply result_guard_Ok in H as [Hb [= ->]]. done.
  - intros [Hv Hb]. exists v. rewrite Hv, Hb. done.
Qed.

Lemma parse_i64_range s t : parse_i64 s = Some t -> i64_min <= t <= i64_max.
Proof.
  unfold parse_i64, parse_signed. destruct s as [|a r]; [done|]. destruct (Ascii.eqb a "-").
  - destruct (parse_digits r) as [v|]; [|done]. cbn. now intros [-> ?]%in_range_Some.
  - destruct (parse_digits _) as [v|]; [|done]. cbn. now intros [-> ?]%in_range_Some.
Qed.
(** For any plausible clock and tolerance the wrapping subtraction is the distance. *)
Lemma signature_age_spec tol now ts : tol < 2 ^ 62 -> 0 <= now < 2 ^ 62 -> i64_min <= ts <= i64_max ->
  signature_age now ts <= tol <-> Z.abs (now - ts) <= tol.
Proof.
  intros Htol Hn Ht. unfold signature_age.
  assert (as_i64 now = now) as -> by (apply as_i64_small; unfold_ints; lia).
  unfold as_i64. unfold_ints. destruct (decide (now - ts < 2 ^ 63)).
  - rewrite Z.mod_small by lia. lia.
  - rewrite <- (Z.mod_unique (now - ts + 2 ^ 63) (2 ^ 64) 1 (now - ts + 2 ^ 63 - 2 ^ 64)) by lia. lia.
Qed.

(** ** Signatures

    What an accepted HMAC says, in hex or in base64: a non-empty key under
    which the tag of exactly this payload is what the header spells. *)

Section Signatures.
Context `{Hex}.
Definition hex_signed (M : Mac) (key payload : list byte) (sig : str) : Prop :=
  key <> [] /\ trim sig <> EmptyString /\
  exists tag, mac_tag key = Some tag /\ hex_decode (trim sig) = Some (tag payload).
Definition base64_signed (base64_decode : str -> option (list byte)) (M : Mac) (key payload : list byte)
    (sig : str) : Prop :=
  key <> [] /\ trim sig <> EmptyString /\
  exists tag, mac_tag key = Some tag /\ base64_decode (trim sig) = Some (tag payload).
Lemma hex_signed_spec M key payload sig :
  verify_hmac_hex M key payload sig = true <-> hex_signed M key payload sig.
Proof. apply verify_hmac_hex_spec. Qed.
Lemma base64_signed_spec base64_decode M key payload sig :
  verify_hmac_sha256_base64 base64_decode M key payload sig = true <->
  base64_signed base64_decode M key payload sig.
Proof.
  unfold verify_hmac_sha256_base64, base64_signed, is_blank, verify_slice.
  case_bool_decide as Es; cbn [orb]; [split; [done | tauto]|].
  destruct (is_empty (trim sig)) eqn:Et; [apply is_empty_spec in Et; split; [done | tauto]|].
  apply is_empty_false in Et.
  destruct (base64_decode (trim sig)) as [e|]; [|split; [done | now intros (_ & _ & ? & _ & ?)]].
  destruct (mac_tag key) as [tag|]; [|split; [done | now intros (_ & _ & ? & ? & _)]].
  rewrite bool_decide_eq_true. split; [intros <-; eauto | now intros (_ & _ & t & [= <-] & [= ->])].
Qed.
End Signatures.

(** ** What follows from the contract alone *)

Section Contract.
Context {W : Type} (R : PaymentRail W) evidence `{!VerifiesBy R evidence}.

(** A receipt that verifies, verifies for any smaller amount. *)
Lemma verifies_less rc amt w w' :
  verify R rc w = (Ok true, w') -> amt <= amount_minor rc ->
  verify R {| rail_id := rail_id rc; amount_minor := amt; currency := currency rc;
    reference := reference rc; proof := proof rc; settled_at_unix := settled_at_unix rc |} w = (Ok true, w').
Proof.
  rewrite !verifies_by. cbn. intros (Hi & ev & He & Href & Hc & Ha) Hle.
  split; [done|]. exists ev. split; [done|]. split_and!; try done. cbn. lia.
Qed.
(** Evidence that always names its order makes verify compare references. *)
Lemma evidence_compares :
  (forall p ref w ev v, evidence p ref w ev v -> exists r, ev_reference ev = Some r) ->
  (forall p ref ref' w ev v ev' v', evidence p ref w ev v -> evidence p ref' w ev' v' -> ev' = ev) ->
  compares_reference R.
Proof.
  intros Hsome Hfun rc ref w w1 w2. rewrite !verifies_by. cbn [with_reference rail_id proof reference].
  intros (_ & ev & He & Hs) (_ & ev' & He' & Hs').
  rewrite (Hfun _ _ _ _ _ _ _ _ He He') in Hs'. destruct (Hsome _ _ _ _ _ He) as [r Er].
  unfold supports in *. rewrite Er in *. cbn in *. destruct Hs as [-> _], Hs' as [-> _]. done.
Qed.
End Contract.

(** ** The seam's laws, for an adapter

    An adapter adds its operations to the unfold database [adapter]; then its
    [RailLaws] follow guard by guard from how it was built. *)

Create HintDb adapter.
#[export] Hint Unfold json_body : adapter.
Ltac solve_rail_laws Hnew :=
  autounfold with adapter in Hnew; run_inv Hnew; injection Hnew as <-;
  split; cbn [id verify charge quote capabilities refund validate_destination class];
  [ let Hid := fresh "Hid" in intros ?rc ?w Hid; cbn in Hid |- *; autounfold with adapter; cbn;
    now rewrite (proj2 (String.eqb_neq _ _) Hid)
  | done
  | let Hc := fresh "Hc" in intros ?q ?w ?rc ?w' _ Hc; cbn in Hc; autounfold with adapter in Hc; run_inv Hc; subst; split_and?; reflexivity
  | let Hv := fresh "Hv" in intros ?q ?w ?e Hv; autounfold with adapter; cbn [charge quote]; apply eff_refused; exact Hv
  | let Hv := fresh "Hv" in intros ?q ?w ?e Hv; autounfold with adapter; cbn [charge quote]; apply eff_refused; exact Hv
  | intros ?d; apply fiat_verdict_honest; cbn; tauto
  | intros ?d; apply fiat_verdict_blank; cbn; tauto
  | done ].

(** A stand-in for serde's proofs, and a processor that gives one answer to
    every call, for the witnesses. *)
Definition codec_proof {P} `{Codec P} : ProofBytes P := {| to_bytes := put; from_bytes := decode_all |}.
Lemma codec_proof_laws {P} `{Codec P} : @ProofLaws P codec_proof.
Proof. split. apply decode_put. Qed.
Definition says {W} (body : str) : HttpClient W := fun _ w => (Ok (as_bytes body, 200), w).
