(* ===== verification/Orders.v ===== *)
(** * What a charge orders, and what its quote says of it

    A charge is exact when what reaches the processor, in the fields that
    processor reads, asks for the requested amount in the requested currency
    for the requested order. This file says so once for every adapter: the
    fields of a request's body, the ways a processor reads an amount, and the
    class of the rails whose charge sends one such order and nothing else. *)

From S2P Require Import Prelude RustStr Core External HttpShared Json Currency Adapter.

(** ** Reading a request *)

(** The text at a path of keys; ["0"] is the head of an array. *)
Fixpoint json_at (path : list str) (j : Json) : option str :=
  match path with
  | [] => match j with JString s | JNumber s => Some s | _ => None end
  | k :: path =>
      match j with
      | JObject fs => assoc k fs ≫= json_at path
      | JArray (x :: _) => if String.eqb k "0" then json_at path x else None
      | _ => None
      end
  end.
Definition body_at (path : list str) (b : HttpBody) : option str :=
  match b with
  | JsonBody j => json_at path j
  | FormBody fs => match path with [k] => assoc k fs | _ => None end
  | _ => None
  end.

Record Order := { o_amount : str; o_currency : str; o_reference : str }.
(** Where a processor looks, and the currency of one that takes no other. *)
Inductive Place := At (path : list str) | Always (text : str).
Definition text_at (p : Place) (b : HttpBody) : option str :=
  match p with At path => body_at path b | Always t => Some t end.
Record Places := { amount_at : list str; currency_at : Place; reference_at : list str }.
Definition reads (pl : Places) (b : HttpBody) (o : Order) : Prop :=
  body_at (amount_at pl) b = Some (o_amount o) /\
  text_at (currency_at pl) b = Some (o_currency o) /\
  body_at (reference_at pl) b = Some (o_reference o).
(** One call with such a body, which was answered; one that carried the order. *)
Definition called {W} (http : HttpClient W) (method url : str) (with_body : HttpBody -> Prop) (w w' : W) : Prop :=
  exists call body, hc_method call = method /\ hc_url call = url /\ with_body (hc_body call) /\
    answered http call w body w'.
Definition ordered_by {W} (http : HttpClient W) (method url : str) (reads : HttpBody -> Order -> Prop)
    (o : Order) (w w' : W) : Prop := called http method url (fun b => reads b o) w w'.

(** ** Reading an amount

    What a processor takes the text of an amount to mean: so many of its
    currency's minor units, or [num / 10^places] of the currency itself. The
    readings are the processors' own, said here without any conversion of an
    adapter: a plain integer, a plain decimal, an integer whose decimals the
    processor documents for some currencies. *)

Inductive Amount := Minor (n : Z) | Major (num places : Z).
Definition Pricing : Type := str -> str -> option Amount.
Definition in_minor_units : Pricing := fun _ t => Minor <$> parse_digits t.
Definition in_major_units : Pricing := fun _ t =>
  match split_once "." t with
  | Some (w, f) => return_if is_empty w || is_empty f with_ None; n ← parse_digits (w +:+ f); Some (Major n (len f))
  | None => n ← parse_digits t; Some (Major n 0)
  end.
(** An integer: of [10^-places] where the processor says so, of minor units else. *)
Definition in_units_of (places : str -> option Z) : Pricing := fun c t =>
  n ← parse_digits t; Some (match places c with Some d => Major n d | None => Minor n end).

(** The decimals of a currency's minor unit, two for a code the table lacks. *)
Definition minor_places (c : str) : Z := match exponent c with Ok e => e | Err _ => 2 end.
(** [a] is [num / den] times [n] minor units of [c]. *)
Definition worth (c : str) (a : Amount) (ratio : Z * Z) (n : Z) : Prop :=
  match a with
  | Minor m => m * ratio.2 = n * ratio.1
  | Major m d => m * 10 ^ minor_places c * ratio.2 = n * ratio.1 * 10 ^ d
  end.
(** How a processor reads an amount, and what a rail is known to ask of it: the
    amount it was given times [ratio], for amounts below a bound. *)
Record Terms := { price : Pricing; ratio : str -> Z * Z; exact_below : Z }.
Definition exactly (p : Pricing) : Terms := {| price := p; ratio _ := (1, 1); exact_below := 2 ^ 64 |}.
Definition asks_for (T : Terms) (c t : str) (n : Z) : Prop :=
  n < exact_below T -> exists a, price T c t = Some a /\ worth c a (ratio T c) n.

(** ** The contract of an adapter's charge *)

(** The same currency, up to case and to blanks around it. *)
Definition same_currency (c c' : str) : Prop :=
  eq_ignore_ascii_case c c' = true \/ eq_ignore_ascii_case c (trim c') = true.
Class ChargeOrders {W} (R : PaymentRail W) (T : Terms) (ordered : Order -> Receipt -> W -> W -> Prop) : Prop :=
  charge_orders q rc w w' :
    is_u64 (req_amount_minor q) -> charge R q w = (Ok rc, w') ->
    exists o, ordered o rc w w' /\ o_reference o = req_reference q /\
      same_currency (o_currency o) (req_currency q) /\
      asks_for T (o_currency o) (o_amount o) (req_amount_minor q).

(** And its receipt says that nothing has settled yet. *)
Class ChargeOpens {W} (R : PaymentRail W) : Prop :=
  charge_opens q rc w w' : charge R q w = (Ok rc, w') -> amount_minor rc = 0 /\ settled_at_unix rc = 0.

(** And of its refund: it asks for the receipt's amount, no more and no less, and
    answers a receipt of its own for the same order. *)
Class RefundOrders {W} (R : PaymentRail W) (T : Terms) (asked : str -> Receipt -> W -> W -> Prop) : Prop :=
  refund_orders rc rc' w w' :
    is_u64 (amount_minor rc) -> refund R rc w = (Ok rc', w') ->
    rail_id rc = id R /\ rail_id rc' = id R /\ reference rc' = reference rc /\
    exists text, asked text rc w w' /\ asks_for T (normal_currency (currency rc)) text (amount_minor rc).

(** ** The contract of an adapter's quote

    What it names, and what it says of the charge: reading the clock is all it
    does, and a request that it refuses, the charge refuses before any call. *)

Section Quotes.
Context {W : Type} `{Clock W} (rid : str) (days : Settlement) (ttl : Z) (q : PayRequest).
Definition is_quote (qt : Quote) (w w' : W) : Prop :=
  q_rail_id qt = rid /\ q_amount_minor qt = req_amount_minor q /\ same_currency (q_currency qt) (req_currency q) /\
  q_fee_minor qt = 0 /\ q_total_minor qt = req_amount_minor q /\ q_settlement qt = days /\
  q_expires_at_unix qt = u64_saturating_add (fst (now_unix w)) ttl /\ w' = snd (now_unix w).
Definition quoted_before (Q : Eff W Error Quote) (C : Eff W Error Receipt) : Prop :=
  forall w, match Q w with
            | (Ok qt, w') => is_quote qt w w'
            | (Err _, w') => w' = w /\ exists e, C w = (Err e, w)
            end.
End Quotes.
Class QuotesCharge {W} `{Clock W} (R : PaymentRail W) (ttl : Z) : Prop :=
  quotes_charge q : quoted_before (id R) (settlement (capabilities R)) ttl q (quote R q) (charge R q).

(** ** Lemmas *)

Create HintDb orders.
Lemma parse_u64_to_dec n : is_u64 n -> parse_u64 (to_dec n) = Some n.
Proof.
  intros Hn. destruct (to_dec_spec n) as (Hne & Hd & Hv & _); [unfold is_u64 in Hn; lia|].
  unfold parse_u64. rewrite parse_unsigned_digits by done. rewrite Hv. now apply in_range_Some.
Qed.
Lemma parse_digits_to_dec n : 0 <= n -> parse_digits (to_dec n) = Some n.
Proof. intros Hn. destruct (to_dec_spec n Hn) as (Hne & Hd & Hv & _). now apply parse_digits_spec. Qed.
Lemma minor_units_exact c n : is_u64 n -> asks_for (exactly in_minor_units) c (to_dec n) n.
Proof.
  intros [Hn _] _. exists (Minor n). unfold exactly, in_minor_units. cbn [price]. rewrite parse_digits_to_dec by done.
  split; [done|]. cbn. lia.
Qed.
(** A plain decimal is read as its digits over a power of ten. *)
Lemma decimal_read c w f : w <> EmptyString -> str_all is_ascii_digit w = true ->
  match f with None => True | Some f => f <> EmptyString /\ str_all is_ascii_digit f = true end ->
  in_major_units c (decimal_text w f) = Some (match f with
    | None => Major (dec_value w) 0
    | Some f => Major (dec_value w * 10 ^ len f + dec_value f) (len f)
    end).
Proof.
  intros Hne Hw Hf. unfold in_major_units. rewrite split_decimal by (destruct f; tauto). destruct f as [f|].
  - destruct Hf as [Hfe Hf]. apply is_empty_false in Hne as Hne', Hfe as Hfe'. rewrite Hne', Hfe'. cbn [orb].
    rewrite (proj2 (parse_digits_spec _ (dec_value (w +:+ f)))); [cbn; now rewrite dec_value_app|].
    rewrite append_is_nil, str_all_app, Hw, Hf. tauto.
  - cbn. now rewrite (proj2 (parse_digits_spec _ (dec_value w))).
Qed.
Lemma major_units_exact c n t : is_u64 n -> minor_to_major_string n c = Ok t -> asks_for (exactly in_major_units) c t n.
Proof.
  intros [Hn _] Ht _. destruct (exponent c) as [e|] eqn:E; [|unfold minor_to_major_string in Ht; now rewrite E in Ht].
  destruct (minor_major_text n c e Hn E) as (w & f & Ht' & Hne & Hw & Hf & Hv). rewrite Ht in Ht'. injection Ht' as ->.
  cbn [exactly price ratio]. unfold worth, minor_places. rewrite E. unfold decimal_minor in Hv. destruct f as [f|].
  - destruct Hf as [Hfd <-]. assert (f <> EmptyString).
    { intros ->. change (len EmptyString) with 0 in *. unfold minor_to_major_string in Ht. rewrite E in Ht.
      assert (to_dec n = w +:+ "." +:+ "") as Hd by now injection Ht. clear Ht. rename Hd into Ht. destruct (to_dec_spec n Hn) as (_ & Hd & _). rewrite Ht, str_all_app in Hd.
      apply andb_true_iff in Hd as [_ Hd]. discriminate Hd. }
    eexists. split; [now apply decimal_read|]. rewrite Z.sub_diag, Z.pow_0_r in Hv. cbn [fst snd]. nia.
  - subst e. eexists. split; [now apply decimal_read|]. cbn in *. lia.
Qed.
Lemma major_units_known c n t : minor_to_major_string n c = Ok t -> exists e, exponent c = Ok e.
Proof. unfold minor_to_major_string. destruct (exponent c); [now eexists | done]. Qed.
Lemma to_lower_upper a : char_to_lower (char_to_upper a) = char_to_lower a.
Proof. now destruct a as [[] [] [] [] [] [] [] []]. Qed.
Lemma lowercase_uppercase s : to_ascii_lowercase (to_ascii_uppercase s) = to_ascii_lowercase s.
Proof.
  unfold to_ascii_lowercase, to_ascii_uppercase. induction s as [|a s IH]; cbn; [done|].
  now rewrite to_lower_upper, IH.
Qed.
Lemma normal_same c : same_currency (normal_currency c) c.
Proof. right. apply eq_ignore_ascii_case_spec. apply lowercase_uppercase. Qed.
Lemma lower_normal_same c : same_currency (to_ascii_lowercase (normal_currency c)) c.
Proof.
  right. apply eq_ignore_ascii_case_spec. rewrite to_ascii_lowercase_idem. apply lowercase_uppercase.
Qed.

Lemma normal_currency_idem c : normal_currency (normal_currency c) = normal_currency c.
Proof. unfold normal_currency. now rewrite trim_upper, trim_idem, to_ascii_uppercase_idem. Qed.
Lemma to_upper_lower a : is_ascii_uppercase a = true -> char_to_upper (char_to_lower a) = a.
Proof. now destruct a as [[] [] [] [] [] [] [] []]. Qed.
Lemma to_lower_graphic a : is_ascii_uppercase a = true -> is_graphic (char_to_lower a) = true.
Proof. now destruct a as [[] [] [] [] [] [] [] []]. Qed.
Lemma uppercase_lowercase s : str_all is_ascii_uppercase s = true ->
  to_ascii_uppercase (to_ascii_lowercase s) = s /\ str_all is_graphic (to_ascii_lowercase s) = true.
Proof.
  unfold to_ascii_lowercase, to_ascii_uppercase. induction s as [|a s IH]; cbn; [done|].
  intros [Ha [IH1 IH2]%IH]%andb_true_iff. rewrite to_upper_lower, IH1, IH2 by done. now rewrite to_lower_graphic.
Qed.
(** The table knows a code in either case. *)
Lemma exponent_lower c e : exponent (normal_currency c) = Ok e ->
  exponent (to_ascii_lowercase (normal_currency c)) = Ok e.
Proof.
  unfold exponent, lookup, normalize_code. set (k := normal_currency c).
  assert (to_ascii_uppercase (trim k) = k) as Hk by apply normal_currency_idem. rewrite Hk.
  destruct (Nat.eqb (String.length k) 3) eqn:El; cbn [negb orb]; [|done].
  destruct (str_all is_ascii_uppercase k) eqn:Ea; cbn [negb orb]; [|done].
  destruct (uppercase_lowercase k Ea) as [Eu Eg]. rewrite (trim_graphic _ Eg), Eu, El, Ea. done.
Qed.
Lemma major_units_lower c n t : is_u64 n -> minor_to_major_string n (normal_currency c) = Ok t ->
  asks_for (exactly in_major_units) (to_ascii_lowercase (normal_currency c)) t n.
Proof.
  intros Hn Ht. apply major_units_exact; [done|]. rewrite <- Ht.
  destruct (major_units_known _ _ _ Ht) as [e He]. unfold minor_to_major_string. now rewrite He, (exponent_lower _ _ He).
Qed.
Lemma ignoring_case_same c c' : eq_ignore_ascii_case c' c = true -> same_currency c c'.
Proof. intros E%eq_ignore_ascii_case_spec. left. now apply eq_ignore_ascii_case_spec. Qed.
Lemma only_listed_same rid c c' u : check_listed rid [c] c' = Ok u -> same_currency c c'.
Proof.
  unfold check_listed, lists_currency. cbn [existsb]. rewrite orb_false_r.
  destruct (eq_ignore_ascii_case c c') eqn:E; [now left | done].
Qed.
Lemma lists_currency_lower cs c : lists_currency cs (to_ascii_lowercase c) = lists_currency cs c.
Proof.
  unfold lists_currency. induction cs as [|x cs IH]; cbn [existsb]; [done|]. rewrite IH. f_equal.
  unfold eq_ignore_ascii_case. now rewrite to_ascii_lowercase_idem.
Qed.
(** Currencies of a list whose minor units all have the same decimals. *)
Lemma minor_places_code c c' : normal_currency c = normal_currency c' -> minor_places c = minor_places c'.
Proof.
  unfold minor_places, exponent, lookup, normalize_code. fold (normal_currency c) (normal_currency c'). intros ->.
  now destruct (negb _ || negb _).
Qed.
Lemma uppercase_of_lowercase s : to_ascii_uppercase (to_ascii_lowercase s) = to_ascii_uppercase s.
Proof.
  unfold to_ascii_lowercase, to_ascii_uppercase. induction s as [|a s IH]; cbn; [done|]. rewrite IH. f_equal.
  now destruct a as [[] [] [] [] [] [] [] []].
Qed.
Lemma minor_places_case c c' : eq_ignore_ascii_case c c' = true -> minor_places c = minor_places c'.
Proof.
  intros E%eq_ignore_ascii_case_spec%(f_equal to_ascii_uppercase). rewrite !uppercase_of_lowercase in E.
  apply minor_places_code. unfold normal_currency. now rewrite <- !trim_upper, E.
Qed.
Lemma lists_places cs d c : lists_currency cs c = true -> forallb (fun x => minor_places x =? d) cs = true ->
  minor_places c = d.
Proof.
  intros (x & Hx & E)%existsb_exists Hd. rewrite forallb_forall in Hd. apply Hd, Z.eqb_eq in Hx as <-.
  symmetry. now apply minor_places_case.
Qed.
Lemma lists_currency_case cs c c' : eq_ignore_ascii_case c c' = true -> lists_currency cs c = lists_currency cs c'.
Proof.
  intros E%eq_ignore_ascii_case_spec. unfold lists_currency, eq_ignore_ascii_case. now rewrite E.
Qed.
Lemma lists_apart cs cs' c : lists_currency cs c = true -> forallb (fun x => negb (lists_currency cs' x)) cs = true ->
  lists_currency cs' c = false.
Proof.
  intros (x & Hx & E)%existsb_exists Hd. rewrite forallb_forall in Hd. apply Hd, negb_true_iff in Hx as <-.
  symmetry. now apply lists_currency_case.
Qed.
(** The currencies of the table that do not count hundredths. *)
Definition WHOLE_UNITS : list str := ["BIF"; "CLP"; "DJF"; "GNF"; "ISK"; "JPY"; "KMF"; "KRW"; "PYG"; "RWF"; "UGX"; "VND";
  "VUV"; "XAF"; "XOF"; "XPF"]%string.
Definition THOUSANDTHS : list str := ["BHD"; "IQD"; "JOD"; "KWD"; "LYD"; "OMR"; "TND"]%string.
Lemma unlisted_places c : lists_currency (WHOLE_UNITS ++ THOUSANDTHS) (normal_currency c) = false ->
  minor_places (normal_currency c) = 2.
Proof.
  intros Hl. unfold minor_places. destruct (exponent (normal_currency c)) as [e|] eqn:E; [|done].
  apply exponent_lookup in E as (i & [Hi Hc]%currency_lookup_spec & <-).
  change (to_ascii_uppercase (trim (normal_currency c))) with (normal_currency (normal_currency c)) in Hc.
  rewrite normal_currency_idem in Hc. rewrite <- Hc in Hl.
  assert (forallb (fun i => lists_currency (WHOLE_UNITS ++ THOUSANDTHS) (cur_code i) || (cur_exponent i =? 2)) CURRENCY_DEFS = true) as F
    by (vm_compute; reflexivity).
  rewrite forallb_forall in F. apply list_elem_of_In, F in Hi. rewrite Hl in Hi. now apply Z.eqb_eq in Hi.
Qed.

(** An integer of minor units, and one of documented decimals. *)
Lemma units_minor places c n : 0 <= n -> places c = None ->
  exists a, in_units_of places c (to_dec n) = Some a /\ worth c a (1, 1) n.
Proof.
  intros Hn Hp. exists (Minor n). unfold in_units_of. rewrite parse_digits_to_dec, Hp by done. split; [done | cbn; lia].
Qed.
Lemma units_major places c n m d k : 0 <= m -> places c = Some d -> m * 10 ^ minor_places c = n * k * 10 ^ d ->
  exists a, in_units_of places c (to_dec m) = Some a /\ worth c a (k, 1) n.
Proof.
  intros Hm Hp E. exists (Major m d). unfold in_units_of. rewrite parse_digits_to_dec, Hp by done. split; [done | cbn; lia].
Qed.

Lemma called_call {W} (http : HttpClient W) call (with_body : HttpBody -> Prop) w body w' :
  answered http call w body w' -> with_body (hc_body call) ->
  called http (hc_method call) (hc_url call) with_body w w'.
Proof. intros Ha Hb. now exists call, body. Qed.
#[export] Hint Resolve ignoring_case_same only_listed_same normal_same lower_normal_same minor_units_exact major_units_exact major_units_lower : orders.

Lemma only_same c c' (e : Error) u :
  (return_if negb (eq_ignore_ascii_case c' c) with_ Err e; Ok tt) = Ok u -> same_currency c c'.
Proof. destruct (eq_ignore_ascii_case c' c) eqn:E; [intros _; now apply ignoring_case_same | done]. Qed.
Lemma same_currency_refl c : same_currency c c.
Proof. left. now apply eq_ignore_ascii_case_spec. Qed.
Lemma exponent_normal c e : exponent (normal_currency c) = Ok e -> exponent c = Ok e.
Proof.
  unfold exponent, lookup, normalize_code. fold (normal_currency (normal_currency c)) (normal_currency c).
  rewrite normal_currency_idem. now destruct (negb _ || negb _).
Qed.
Lemma major_units_normal n c t : minor_to_major_string n (normal_currency c) = Ok t -> minor_to_major_string n c = Ok t.
Proof.
  unfold minor_to_major_string. destruct (exponent (normal_currency c)) as [e|] eqn:E; [|done].
  now rewrite (exponent_normal _ _ E).
Qed.
Lemma map_err_major (f : CurrencyError -> Error) n c b : map_err f (minor_to_major_string n (normal_currency c)) = Ok b ->
  exists a, map_err f (minor_to_major_string n c) = Ok a.
Proof.
  destruct (minor_to_major_string n (normal_currency c)) eqn:E; [|done]. apply major_units_normal in E. rewrite E. cbn. eauto.
Qed.

Section QuotesLemmas.
Context {W : Type} `{Clock W} (rid : str) (days : Settlement) (ttl : Z) (q : PayRequest).
#[local] Notation quoted_before := (quoted_before rid days ttl q).
Lemma quoted_before_guard {A} (x : Result Error A) Q C :
  (forall a, x = Ok a -> quoted_before (Q a) (C a)) -> quoted_before (eff_of x ≫= Q) (eff_of x ≫= C).
Proof. intros Hk w. unfold_eff. destruct x as [a|e]; [exact (Hk a eq_refl w) | eauto]. Qed.
(** A guard of the charge that its quote has in another form. *)
Lemma quoted_before_amount {A B} (x : Result Error A) (y : Result Error B) Q C :
  (forall b, y = Ok b -> exists a, x = Ok a) -> (forall a, quoted_before (Q a) (eff_of y ≫= C)) ->
  quoted_before (eff_of x ≫= Q) (eff_of y ≫= C).
Proof.
  intros Hy Hk w. destruct x as [a|e] eqn:E; [exact (Hk a w)|]. unfold_eff.
  split; [done|]. destruct y as [b|e']; [|eauto]. destruct (Hy b eq_refl) as [a Ha]. discriminate Ha.
Qed.
Lemma quoted_before_also (b : bool) e Q C :
  quoted_before Q C -> quoted_before Q (return_if b with_ eff_err e; C).
Proof. intros Hk w. specialize (Hk w). destruct b; [|exact Hk]. destruct (Q w) as [[|]]; [exact Hk | unfold eff_err; naive_solver]. Qed.
Lemma quoted_before_quoted cur C : same_currency cur (req_currency q) -> quoted_before (quoted rid days ttl cur q) C.
Proof.
  intros Hc w. unfold quoted. unfold_eff. destruct (now_unix w) as [t w'] eqn:E. unfold is_quote. rewrite E. now split_and!.
Qed.
End QuotesLemmas.
#[export] Hint Resolve same_currency_refl map_err_major : orders.

(** ** Automation

    A successful charge taken apart; the order of this amount and currency, its
    easy half proved; the call that carried it; a quote beside its charge, guard
    by guard. *)

Ltac charge_inv Hc :=
  cbn in Hc; autounfold with adapter in Hc; run_inv Hc;
  repeat match goal with Hx : expect_2xx _ _ _ = (Ok _, _) |- _ => apply expect_2xx_Ok in Hx end.
Ltac refund_inv Hr :=
  charge_inv Hr;
  repeat match goal with
  | Hc : negb (String.eqb _ _) = false |- _ => apply names_rail in Hc
  | Hp : path_segment _ _ = Ok _ |- _ => apply path_segment_Ok in Hp as [-> _]
  end.
Ltac refunds Hr text :=
  subst; split_and!; try reflexivity; [assumption|]; exists text; split; [|eauto with orders].
Ltac orders amount cur :=
  lazymatch goal with q : PayRequest |- _ =>
    exists {| o_amount := amount; o_currency := cur; o_reference := req_reference q |};
    split; [|split; [done | split; eauto with orders]]
  end.
(** The order whose amount is the decimal text just computed. *)
Ltac major_orders cur :=
  lazymatch goal with Ht : minor_to_major_string _ _ = Ok ?t |- _ => orders t cur end.
Ltac by_the_call :=
  lazymatch goal with Hx : answered _ _ _ _ _ |- _ => refine (called_call _ _ _ _ _ _ Hx _); cbn beta end.
Ltac sent := by_the_call; now repeat split.
Ltac charge_opens := intros q rc w w' Hc; charge_inv Hc; subst; split; reflexivity.
Ltac quotes_before :=
  intros q; cbn; autounfold with adapter;
  repeat first [ apply quoted_before_quoted; eauto with orders
               | apply quoted_before_also
               | apply quoted_before_guard; intros ? ?
               | apply quoted_before_amount; [try (intros ? ?; eauto with orders; fail) | intros ?] ].
Tactic Notation "same_guard" reference(f) :=
  let Hg := fresh "Hg" in intros ? Hg; unfold f in *; rewrite normal_currency_idem in Hg; eauto.
