(* ===== verification/UrlForm.v ===== *)
(** * Form bodies and percent encoding

    What the adapters with form-encoded notifications use of the standard
    library: UTF-8 checking and its lossy reading, two hex digits as a byte,
    and the cut of a body into its [key=value] pairs. The adapters' own
    decoders are in their files. *)

From S2P Require Import Prelude RustStr.

(** ** UTF-8

    [utf8_char] looks at the front of a non-empty text: [inl n] is a
    well-formed character of [n] bytes, [inr n] the longest ill-formed start of
    one, which the lossy reading replaces. *)

Definition in_bytes (lo hi : Z) (b : byte) : bool := (lo <=? Z_of_byte b) && (Z_of_byte b <=? hi).
Definition continuation : byte -> bool := in_bytes 128 191.

(** The range the second byte must be in, and how many bytes follow the first. *)
Definition utf8_lead (b : byte) : option (nat * (byte -> bool)) :=
  let z := Z_of_byte b in
  if (194 <=? z) && (z <=? 223) then Some (1%nat, continuation)
  else if z =? 224 then Some (2%nat, in_bytes 160 191)
  else if z =? 237 then Some (2%nat, in_bytes 128 159)
  else if (225 <=? z) && (z <=? 239) then Some (2%nat, continuation)
  else if z =? 240 then Some (3%nat, in_bytes 144 191)
  else if (241 <=? z) && (z <=? 243) then Some (3%nat, continuation)
  else if z =? 244 then Some (3%nat, in_bytes 128 143)
  else None.
(** How many of the next [n] bytes continue the character, and whether all do. *)
Fixpoint utf8_rest (n : nat) (ok : byte -> bool) (l : list byte) : nat * bool :=
  match n, l with
  | O, _ => (O, true)
  | S n, b :: l =>
      if ok b then let '(k, full) := utf8_rest n continuation l in (S k, full) else (O, false)
  | S _, [] => (O, false)
  end.
Definition utf8_char (b : byte) (l : list byte) : nat + nat :=
  if Z_of_byte b <? 128 then inl 1%nat
  else match utf8_lead b with
       | Some (n, ok) => let '(k, full) := utf8_rest n ok l in if full then inl (S k) else inr (S k)
       | None => inr 1%nat
       end.

(** One step per character; a text never has more characters than bytes. *)
Fixpoint utf8_valid_loop (fuel : nat) (l : list byte) : bool :=
  match fuel, l with
  | _, [] => true
  | O, _ => false
  | S fuel, b :: t =>
      match utf8_char b t with
      | inl n => utf8_valid_loop fuel (drop n l)
      | inr _ => false
      end
  end.
Definition from_utf8 (l : list byte) : option str :=
  if utf8_valid_loop (length l) l then Some (string_of_list_byte l) else None.
(** [Utf8Error] and its text: where the first ill-formed character starts, and
    how many bytes it takes, unless the text ends inside it. *)
Record Utf8Error := { valid_up_to : Z; error_len : option Z }.
Fixpoint utf8_error_loop (fuel : nat) (at' : Z) (l : list byte) : option Utf8Error :=
  match fuel, l with
  | S fuel, b :: t =>
      match utf8_char b t with
      | inl n => utf8_error_loop fuel (at' + Z.of_nat n) (drop n l)
      | inr n =>
          let incomplete := Nat.eqb n (length l) && (if utf8_lead b then true else false) in
          Some {| valid_up_to := at'; error_len := if incomplete then None else Some (Z.of_nat n) |}
      end
  | _, _ => None
  end.
Definition utf8_error (l : list byte) : option Utf8Error := utf8_error_loop (length l) 0 l.
Definition utf8_error_display (e : Utf8Error) : str :=
  match error_len e with
  | Some n => "invalid utf-8 sequence of " +:+ to_dec n +:+ " bytes from index " +:+ to_dec (valid_up_to e)
  | None => "incomplete utf-8 byte sequence from index " +:+ to_dec (valid_up_to e)
  end.
Definition checked_utf8 (l : list byte) : Result Utf8Error str :=
  match utf8_error l with Some e => Err e | None => Ok (string_of_list_byte l) end.
Definition REPLACEMENT : list byte := [xef; xbf; xbd].
Fixpoint utf8_lossy_loop (fuel : nat) (l : list byte) : list byte :=
  match fuel, l with
  | _, [] => []
  | O, _ => []
  | S fuel, b :: t =>
      match utf8_char b t with
      | inl n => take n l ++ utf8_lossy_loop fuel (drop n l)
      | inr n => REPLACEMENT ++ utf8_lossy_loop fuel (drop n l)
      end
  end.
Definition from_utf8_lossy (l : list byte) : str := string_of_list_byte (utf8_lossy_loop (length l) l).

(** ** Two hex digits

    [u8::from_str_radix(_, 16)] of two bytes: a leading [+] is a sign. *)

Definition hex_digit (b : byte) : option Z :=
  let z := Z_of_byte b in
  if in_bytes 48 57 b then Some (z - 48)
  else if in_bytes 97 102 b then Some (z - 87)
  else if in_bytes 65 70 b then Some (z - 55)
  else None.
Definition hex_radix2 (hi lo : byte) : option byte :=
  l ← hex_digit lo;
  if Byte.eqb hi x2b then Some (byte_of_Z l)
  else h ← hex_digit hi; Some (byte_of_Z (16 * h + l)).

(** ** Pairs

    [split('&')], empty pieces skipped, each cut at its first [=]. *)

Definition split_pair (p : str) : str * str :=
  match split_once "=" p with Some kv => kv | None => (p, EmptyString) end.
Definition form_pairs (s : str) : list (str * str) :=
  map split_pair (List.filter (fun p => negb (is_empty p)) (split_char "&" s)).

(** ** Percent encoding *)

(** A byte the query keeps as it is, and [%{b:02X}] for any other. *)
Definition query_safe (a : ascii) : bool :=
  is_ascii_alphanumeric a || existsb (Ascii.eqb a) ["-"; "_"; "."; "~"]%char.
Definition hex_digit_upper (z : Z) : ascii := if z <? 10 then char_of (48 + z) else char_of (55 + z).
Fixpoint percent_encode (s : str) : str :=
  match s with
  | EmptyString => EmptyString
  | String a s =>
      (if query_safe a then String a EmptyString
       else String "%" (String (hex_digit_upper (code a / 16)) (String (hex_digit_upper (code a mod 16)) EmptyString)))
      +:+ percent_encode s
  end.

(** ** Lemmas *)

Lemma utf8_rest_le n ok l : (fst (utf8_rest n ok l) <= n)%nat /\ (fst (utf8_rest n ok l) <= length l)%nat.
Proof.
  revert ok l. induction n as [|n IH]; intros ok [|b l]; cbn; try lia.
  destruct (ok b); cbn; [|lia]. specialize (IH continuation l).
  destruct (utf8_rest n continuation l). cbn in *. lia.
Qed.
(** Every step consumes at least one byte, and no more than there are. *)
Lemma utf8_char_progress b l n : utf8_char b l = inl n \/ utf8_char b l = inr n ->
  (1 <= n)%nat /\ (n <= S (length l))%nat.
Proof.
  unfold utf8_char. destruct (Z_of_byte b <? 128); [intros [[= <-]|[=]]; lia|].
  destruct (utf8_lead b) as [[k ok]|]; [|intros [[=]|[= <-]]; lia].
  pose proof (utf8_rest_le k ok l) as [_ Hl]. destruct (utf8_rest k ok l) as [c full]. cbn in Hl.
  destruct full; intros [[=]|[=]]; subst; lia.
Qed.
(** The fuel given is enough: any more changes nothing. *)
Lemma utf8_lossy_fuel fuel l : (length l <= fuel)%nat -> utf8_lossy_loop fuel l = utf8_lossy_loop (length l) l.
Proof.
  remember (length l) as n eqn:En. revert fuel l En.
  induction (lt_wf n) as [n _ IH]. intros fuel [|b t] -> Hf; [now destruct fuel|].
  destruct fuel as [|fuel]; [cbn in Hf; lia|]. cbn [utf8_lossy_loop length] in *.
  assert (forall k, (1 <= k <= S (length t))%nat ->
    utf8_lossy_loop fuel (drop k (b :: t)) = utf8_lossy_loop (length t) (drop k (b :: t))) as E.
  { intros k Hk. assert (length (drop k (b :: t)) < S (length t))%nat by (rewrite length_drop; cbn; lia).
    rewrite (IH (length (drop k (b :: t))) ltac:(lia) fuel _ eq_refl) by lia.
    symmetry. apply IH; [lia | done | lia]. }
  destruct (utf8_char b t) as [k|k] eqn:Ec; (rewrite E; [done|]); apply utf8_char_progress with b; auto.
Qed.
Lemma utf8_lossy_cons b t : utf8_lossy_loop (length (b :: t)) (b :: t) =
  match utf8_char b t with
  | inl n => take n (b :: t) ++ utf8_lossy_loop (length (drop n (b :: t))) (drop n (b :: t))
  | inr n => REPLACEMENT ++ utf8_lossy_loop (length (drop n (b :: t))) (drop n (b :: t))
  end.
Proof.
  cbn [utf8_lossy_loop length]. destruct (utf8_char b t) as [k|k] eqn:Ec; f_equal; apply utf8_lossy_fuel;
    destruct (utf8_char_progress b t k ltac:(auto)); rewrite length_drop; cbn; lia.
Qed.
(** The check fails exactly where it has an error to tell. *)
Lemma utf8_error_valid fuel at' l : (length l <= fuel)%nat ->
  utf8_error_loop fuel at' l = None <-> utf8_valid_loop fuel l = true.
Proof.
  revert at' l. induction fuel as [|fuel IH]; intros at' [|b t] Hf; cbn in *; try (split; done || lia).
  destruct (utf8_char b t) as [n|n] eqn:Ec; [|done].
  apply IH. destruct (utf8_char_progress b t n ltac:(auto)). rewrite length_drop. cbn. lia.
Qed.
Lemma checked_utf8_from l : result_ok (checked_utf8 l) = from_utf8 l.
Proof.
  unfold checked_utf8, from_utf8, utf8_error. pose proof (utf8_error_valid (length l) 0 l ltac:(lia)) as Hv.
  destruct (utf8_error_loop _ _ _), (utf8_valid_loop _ _); cbn; try done; exfalso; intuition congruence.
Qed.
Example utf8_error_examples :
  utf8_error_display <$> utf8_error [x61; xe2; x82] = Some "incomplete utf-8 byte sequence from index 1"%string /\
  utf8_error_display <$> utf8_error [x61; xe2; x28; xa1] = Some "invalid utf-8 sequence of 1 bytes from index 1"%string /\
  utf8_error_display <$> utf8_error [xff] = Some "invalid utf-8 sequence of 1 bytes from index 0"%string.
Proof. now split_and!. Qed.
Definition is_ascii_byte (b : byte) : bool := Z_of_byte b <? 128.
Lemma utf8_lossy_ascii l : forallb is_ascii_byte l = true -> utf8_lossy_loop (length l) l = l.
Proof.
  induction l as [|b l IH]; intros Ha; [done|]. cbn [forallb] in Ha. apply andb_true_iff in Ha as [Hb Ha].
  rewrite utf8_lossy_cons. unfold utf8_char. unfold is_ascii_byte in Hb. rewrite Hb. cbn [take drop app].
  f_equal. rewrite drop_0. now apply IH.
Qed.
