(* ===== verification/Float.v ===== *)
(** * Double precision numbers

    Two adapters send an amount as an [f64] and one reads an amount from one:
    [str::parse::<f64>] and the [{:.6}] formatting of the standard library, with
    the values and the rounding of IEEE 754 (to nearest, ties to even). How
    [serde_json] writes a double is a parameter, with the one law the crates
    rely on: what it writes reads back as that double. *)

From S2P Require Import Prelude RustStr Core HttpShared Json Currency Adapter Orders.

(** ** Values

    [Finite neg m e] is [m * 2^(e - 1074)]: [2^-1074] is the least positive
    double and every finite one is a multiple of it. *)

Inductive F64 :=
  | Finite (negative : bool) (m e : Z)
  | Infinite (negative : bool)
  | NaN.
#[export] Instance F64_eq_dec : EqDecision F64.
Proof. solve_decision. Defined.
Definition least_double : Z := 2 ^ 1074.
Definition max_exponent : Z := 2045.
(** The one form of each double: 53 significant bits unless it is subnormal. *)
Definition is_f64 (f : F64) : Prop :=
  match f with
  | Finite _ m e => 0 <= m < 2 ^ 53 /\ 0 <= e <= max_exponent /\ (0 < e -> 2 ^ 52 <= m)
  | _ => True
  end.

(** The integer nearest to [a / b], the even one of two. *)
Definition round_ratio (a b : Z) : Z :=
  let q := a / b in
  let r := 2 * (a mod b) in
  if r <? b then q else if b <? r then q + 1 else if Z.even q then q else q + 1.
(** The double nearest to [a / b]. *)
Definition f64_nearest (neg : bool) (a b : Z) : F64 :=
  let x := a * least_double in
  let e := Z.max 0 (Z.log2 (x / b) - 52) in
  let m := round_ratio x (b * 2 ^ e) in
  let '(m, e) := if m =? 2 ^ 53 then (2 ^ 52, e + 1) else (m, e) in
  if max_exponent <? e then Infinite neg else Finite neg m e.

(** ** Text *)

(** [num * 10^scale] *)
Record Decimal := { d_negative : bool; d_num : Z; d_scale : Z }.
Definition numerator (d : Decimal) : Z := d_num d * 10 ^ Z.max 0 (d_scale d).
Definition denominator (d : Decimal) : Z := 10 ^ Z.max 0 (- d_scale d).
Definition strip_sign (s : str) : bool * str :=
  match s with
  | String a r => if Ascii.eqb a "-" then (true, r) else if Ascii.eqb a "+" then (false, r) else (false, s)
  | EmptyString => (false, s)
  end.
(** [Digit+ | Digit+ '.' Digit* | Digit* '.' Digit+] *)
Definition parse_mantissa (s : str) : option (Z * Z) :=
  match split_once "." s with
  | Some (w, f) => n ← parse_digits (w +:+ f); Some (n, - len f)
  | None => n ← parse_digits s; Some (n, 0)
  end.
Definition parse_exponent (s : str) : option Z :=
  let '(neg, digits) := strip_sign s in
  n ← parse_digits digits; Some (if neg then - n else n).
(** A number as JSON and [f64::from_str] write one, exactly. *)
Definition decimal_of (s : str) : option Decimal :=
  let '(neg, s) := strip_sign s in
  match split_once "e" (to_ascii_lowercase s) with
  | Some (m, x) =>
      ns ← parse_mantissa m; k ← parse_exponent x;
      Some {| d_negative := neg; d_num := ns.1; d_scale := ns.2 + k |}
  | None => ns ← parse_mantissa s; Some {| d_negative := neg; d_num := ns.1; d_scale := ns.2 |}
  end.
(** [s.parse::<f64>().ok()] *)
Definition f64_from_str (s : str) : option F64 :=
  let '(neg, body) := strip_sign s in
  let word := to_ascii_lowercase body in
  if String.eqb word "inf" || String.eqb word "infinity" then Some (Infinite neg)
  else if String.eqb word "nan" then Some NaN
  else d ← decimal_of s; Some (f64_nearest (d_negative d) (numerator d) (denominator d)).

(** [format!("{f:.p$}")], for at least one decimal: the exact value, rounded to
    nearest, ties to even. *)
Definition fixed (p : nat) (f : F64) : str :=
  match f with
  | Finite neg m e =>
      let scale := 10 ^ Z.of_nat p in
      let n := round_ratio (m * 2 ^ e * scale) least_double in
      (if neg then "-" else "") +:+ to_dec (n / scale) +:+ "." +:+ pad_left p (to_dec (n mod scale))
  | Infinite neg => if neg then "-inf" else "inf"
  | NaN => "NaN"
  end.

(** [serde_json] writes a finite double so that it reads back, and no other. *)
Class F64Text := f64_text : F64 -> str.
Class F64TextLaws (T : F64Text) : Prop :=
  f64_text_reads_back neg m e :
    is_f64 (Finite neg m e) -> f64_from_str (f64_text (Finite neg m e)) = Some (Finite neg m e).
Definition json_f64 `{F64Text} (f : F64) : Json :=
  match f with Finite _ _ _ => JNumber (f64_text f) | _ => JNull end.

(** A processor that takes a number for an amount of a currency: to the nearest
    minor unit. *)
Definition in_major_number (c t : str) : option Z :=
  e ← result_ok (exponent c);
  d ← decimal_of t;
  if d_negative d then None else Some (round_ratio (numerator d * 10 ^ e) (denominator d)).
(** Exact below [2^50] minor units. *)
Definition as_number : Terms := {|
  price c t := Minor <$> in_major_number c t; ratio _ := (1, 1); exact_below := 2 ^ 50 |}.
(** A JSON body asks for [n] minor units of [c]: a number under ["amount"] that
    means them in the currency named at [key]. *)
Definition asks_number (key c : str) (n : Z) (b : HttpBody) : Prop :=
  exists j x cur, b = JsonBody j /\ get_field "amount" j = Some (JNumber x) /\
    body_at [key] b = Some cur /\ same_currency cur c /\ in_major_number cur x = Some n.

Example f64_examples :
  f64_from_str "1" = Some (Finite false (2 ^ 52) 1022) /\
  f64_from_str "-0.1" = Some (Finite true 7205759403792794 1018) /\
  f64_from_str "9007199254740993" = f64_from_str "9007199254740992" /\
  f64_from_str "1E400" = Some (Infinite false) /\ f64_from_str "5e-324" = Some (Finite false 1 0) /\
  f64_from_str "+Infinity" = Some (Infinite false) /\ f64_from_str "." = None /\ f64_from_str "1e" = None /\
  f64_from_str "" = None /\ f64_from_str ".5" = f64_from_str "5.e-1" /\
  fixed 6 (Finite false 7205759403792794 1018) = "0.100000" /\
  fixed 1 (default NaN (f64_from_str "0.25")) = "0.2".
Proof. vm_compute. repeat split. Qed.

(** ** Lemmas

    *** Rounding *)

Lemma round_ratio_error a b : 0 < b -> 2 * Z.abs (round_ratio a b * b - a) <= b.
Proof.
  intros Hb. unfold round_ratio. pose proof (Z.div_mod a b ltac:(lia)). pose proof (Z.mod_pos_bound a b Hb).
  destruct (Z.ltb_spec (2 * (a mod b)) b); [lia|]. destruct (Z.ltb_spec b (2 * (a mod b))); [lia|].
  destruct (Z.even _); lia.
Qed.
(** An integer less than half a unit away is the one rounded to. *)
Lemma round_ratio_near a b n : 0 < b -> 2 * Z.abs (n * b - a) < b -> round_ratio a b = n.
Proof. intros Hb Hn. pose proof (round_ratio_error a b Hb). nia. Qed.
Lemma round_ratio_exact n b : 0 < b -> round_ratio (n * b) b = n.
Proof. intros Hb. apply round_ratio_near; lia. Qed.
Lemma round_ratio_between a b lo hi : 0 < b -> lo * b <= a <= hi * b -> lo <= round_ratio a b <= hi.
Proof. intros Hb [Hlo Hhi]. pose proof (round_ratio_error a b Hb). nia. Qed.

(** The scaled value at the exponent [f64_nearest] picks has at most 53 bits,
    and exactly 53 unless the exponent is the least. *)
Lemma nearest_scale x b (e := Z.max 0 (Z.log2 (x / b) - 52)) : 0 <= x -> 0 < b ->
  0 <= x <= 2 ^ 53 * (b * 2 ^ e) /\ (0 < e -> 2 ^ 52 * (b * 2 ^ e) <= x).
Proof.
  intros Hx Hb. pose proof (Z.div_pos x b Hx Hb) as Hq. pose proof (Z.div_mod x b ltac:(lia)) as Hd.
  pose proof (Z.mod_pos_bound x b Hb) as Hr. set (q := x / b) in *.
  assert (q < 2 ^ 53 * 2 ^ e) as Hhi.
  { rewrite <- Z.pow_add_r by lia. destruct (decide (q = 0)) as [->|]; [apply Z.pow_pos_nonneg; lia|].
    eapply Z.lt_le_trans; [apply (Z.log2_spec q); lia | apply Z.pow_le_mono_r; lia]. }
  split; [nia|]. intros He. assert (0 < q) by (destruct (decide (q = 0)) as [->|]; [cbn in e; lia | lia]).
  assert (2 ^ 52 * 2 ^ e <= q); [|nia].
  rewrite <- Z.pow_add_r by lia. replace (52 + e) with (Z.log2 q) by lia. now apply Z.log2_spec.
Qed.

Lemma least_double_pos : 0 < least_double.
Proof. unfold least_double. apply Z.pow_pos_nonneg; lia. Qed.
Lemma least_double_range : 2 ^ 60 <= least_double <= 2 ^ 1075.
Proof. unfold least_double. split; apply Z.pow_le_mono_r; lia. Qed.
#[local] Hint Resolve least_double_pos : core.
#[local] Opaque least_double.

(** What is rounded to is a double in its one form, at most half of its last
    bit away. *)
Lemma nearest_finite neg a b neg' m e : 0 <= a -> 0 < b -> f64_nearest neg a b = Finite neg' m e ->
  neg' = neg /\ is_f64 (Finite neg m e) /\ 2 * Z.abs (m * 2 ^ e * b - a * least_double) <= 2 ^ e * b.
Proof.
  intros Ha Hb. unfold f64_nearest. set (x := a * least_double).
  assert (0 <= x) as Hx by (pose proof least_double_pos; lia).
  destruct (nearest_scale x b Hx Hb) as [Hr Hlo]. set (e0 := Z.max 0 _) in *. assert (0 <= e0) by (subst e0; lia).
  pose proof (Z.pow_pos_nonneg 2 e0 ltac:(lia) ltac:(lia)) as Hp.
  assert (0 < b * 2 ^ e0) as Hu by nia.
  pose proof (round_ratio_error x (b * 2 ^ e0) Hu) as Herr.
  pose proof (round_ratio_between x (b * 2 ^ e0) 0 (2 ^ 53) Hu ltac:(lia)) as Hm.
  pose proof (fun H : 0 < e0 => round_ratio_between x (b * 2 ^ e0) (2 ^ 52) (2 ^ 53) Hu ltac:(lia)) as Hm'.
  set (m0 := round_ratio _ _) in *.
  destruct (Z.eqb_spec m0 (2 ^ 53)) as [E|E].
  - destruct (Z.ltb_spec max_exponent (e0 + 1)) as [|He]; intros [= <- <- <-].
    rewrite Z.pow_add_r by lia. rewrite E in Herr. unfold is_f64. split; [done|]. split_and!; lia.
  - destruct (Z.ltb_spec max_exponent e0) as [|He]; intros [= <- <- <-]. unfold is_f64. split; [done|]. split_and!; lia.
Qed.
(** Its last bit is at most [2^-51] of the value, or nearly the least there is. *)
Lemma nearest_exponent neg a b neg' m e : 0 <= a -> 0 < b -> f64_nearest neg a b = Finite neg' m e ->
  e <= 1 \/ 2 ^ 51 * 2 ^ e * b <= a * least_double.
Proof.
  intros Ha Hb. unfold f64_nearest. set (x := a * least_double).
  assert (0 <= x) as Hx by (pose proof least_double_pos; nia).
  destruct (nearest_scale x b Hx Hb) as [_ Hlo]. set (e0 := Z.max 0 _) in *. assert (0 <= e0) by (subst e0; lia).
  destruct (_ =? 2 ^ 53); destruct (max_exponent <? _); intros [= <- <- <-];
    (destruct (decide (e0 = 0)); [lia | right]); specialize (Hlo ltac:(lia)).
  all: try rewrite Z.pow_add_r by lia; lia.
Qed.
(** A double is the one nearest to its own value, however that is written. *)
Lemma nearest_exact neg m e a b : 0 < b -> is_f64 (Finite neg m e) -> a * least_double = m * 2 ^ e * b ->
  f64_nearest neg a b = Finite neg m e.
Proof.
  intros Hb ([Hm Hm'] & [He He'] & Hlo) Hv. unfold f64_nearest. rewrite Hv, Z.div_mul by lia.
  assert (Z.max 0 (Z.log2 (m * 2 ^ e) - 52) = e) as ->.
  { destruct (decide (m = 0)) as [->|]; [rewrite Z.mul_0_l; change (Z.log2 0) with 0; lia|].
    rewrite Z.log2_mul_pow2 by lia.
    assert (Z.log2 m <= 52) by (apply Z.lt_succ_r, Z.log2_lt_pow2; lia).
    destruct (decide (e = 0)); [lia|]. assert (52 <= Z.log2 m) by (apply Z.log2_le_pow2; lia). lia. }
  rewrite <- Z.mul_assoc, (Z.mul_comm (2 ^ e)), round_ratio_exact by (pose proof (Z.pow_pos_nonneg 2 e); nia).
  destruct (Z.eqb_spec m (2 ^ 53)); [lia|]. destruct (Z.ltb_spec max_exponent e); [lia | done].
Qed.

(** *** Amounts

    [n / k] is [n] minor units of a currency with [k] of them to the major unit.
    Below [2^50], whatever value rounds to the same double is nearer to [n] minor
    units than to any other number of them. *)
Lemma nearest_reads_back n k m e a b : 0 <= n < 2 ^ 50 -> 0 < k < 2 ^ 50 -> 0 <= a -> 0 < b ->
  f64_nearest false n k = Finite false m e -> f64_nearest false a b = Finite false m e ->
  round_ratio (a * k) b = n.
Proof.
  intros Hn Hk Ha Hb Hf Hg. pose proof least_double_pos as HD.
  destruct (nearest_finite _ n k _ _ _ ltac:(lia) ltac:(lia) Hf) as (_ & ([_ _] & [He _] & _) & Ef).
  destruct (nearest_finite _ _ _ _ _ _ Ha Hb Hg) as (_ & _ & Eg).
  pose proof (Z.pow_pos_nonneg 2 e ltac:(lia) He) as Hp.
  assert (2 * 2 ^ e * k < least_double) as Hs.
  { destruct (nearest_exponent _ n k _ _ _ ltac:(lia) ltac:(lia) Hf) as [?|Hx]; [|nia].
    assert (2 ^ e <= 2 ^ 1) by (apply Z.pow_le_mono_r; lia).
    pose proof least_double_range. nia. }
  apply round_ratio_near; [done|].
  set (p := 2 ^ e) in *. set (D := least_double) in *.
  assert (D * Z.abs (n * b - a * k) <= p * k * b); [|nia].
  rewrite <- (Z.abs_eq D) at 1 by lia. rewrite <- Z.abs_mul.
  apply (Z.mul_le_mono_pos_r _ _ b Hb) in Ef as Ef'. apply (Z.mul_le_mono_pos_r _ _ k) in Eg as Eg'; [|lia].
  nia.
Qed.

Lemma nearest_is_finite a b : 0 <= a < 2 ^ 900 -> 0 < b -> exists m e, f64_nearest false a b = Finite false m e.
Proof.
  intros Ha Hb. unfold f64_nearest. pose proof least_double_pos.
  assert (Z.log2 (a * least_double / b) <= 1974) as Hl.
  { apply Z.lt_succ_r. destruct (decide (a * least_double / b <= 0)) as [?|];
      [rewrite Z.log2_nonpos by done; lia|].
    apply Z.log2_lt_pow2; [lia|]. apply Z.div_lt_upper_bound; [done|].
    change (Z.succ 1974) with (900 + 1075). rewrite Z.pow_add_r by lia.
    assert (a * least_double < 2 ^ 900 * 2 ^ 1075); [|nia].
    pose proof least_double_range. nia. }
  set (e := Z.max 0 _). set (m := round_ratio _ _).
  assert (0 <= e <= 1922) as He by lia.
  destruct (m =? 2 ^ 53); rewrite (proj2 (Z.ltb_ge max_exponent _)) by (unfold max_exponent; lia); eauto.
Qed.

(** *** Reading text *)

Lemma strip_sign_digit w r : w <> EmptyString -> str_all is_ascii_digit w = true ->
  strip_sign (w +:+ r) = (false, w +:+ r).
Proof.
  destruct w as [|a w]; [done|]. cbn [str_all String.append strip_sign]. intros _ [Ha _]%andb_true_iff.
  destruct (Ascii.eqb_spec a "-") as [->|]; [done|]. now destruct (Ascii.eqb_spec a "+") as [->|].
Qed.
Lemma to_ascii_lowercase_id s : str_all (fun a => negb (is_ascii_uppercase a)) s = true -> to_ascii_lowercase s = s.
Proof.
  unfold to_ascii_lowercase. induction s as [|a s IH]; [done|]. cbn [str_all str_map].
  intros [Ha%negb_true_iff Hs]%andb_true_iff. rewrite IH by done. unfold char_to_lower. now rewrite Ha.
Qed.
(** The characters of a plain decimal. *)
Definition decimal_char (a : ascii) : bool := is_ascii_digit a || Ascii.eqb a ".".
Lemma decimal_chars w f : str_all is_ascii_digit w = true ->
  match f with None => True | Some f => str_all is_ascii_digit f = true end ->
  str_all decimal_char (decimal_text w f) = true.
Proof.
  assert (forall s, str_all is_ascii_digit s = true -> str_all decimal_char s = true) as Hd.
  { intros s. apply str_all_impl. intros a Ha. unfold decimal_char. now rewrite Ha. }
  intros Hw Hf. destruct f as [f|]; cbn [decimal_text]; [|auto]. now rewrite !str_all_app, (Hd w), (Hd f).
Qed.
Lemma decimal_char_plain a : decimal_char a = true ->
  negb (is_ascii_uppercase a) = true /\ negb (Ascii.eqb "e" a) = true.
Proof. now destruct a as [[] [] [] [] [] [] [] []]. Qed.
Lemma decimal_plain w f : str_all is_ascii_digit w = true ->
  match f with None => True | Some f => str_all is_ascii_digit f = true end ->
  to_ascii_lowercase (decimal_text w f) = decimal_text w f /\ split_once "e" (decimal_text w f) = None.
Proof.
  intros Hw Hf. pose proof (decimal_chars w f Hw Hf) as Hc. split.
  - apply to_ascii_lowercase_id. revert Hc. apply str_all_impl, decimal_char_plain.
  - apply split_once_None. revert Hc. apply str_all_impl, decimal_char_plain.
Qed.
Definition digits_of (w : str) (f : option str) : str := match f with None => w | Some f => w +:+ f end.
Definition decimals_of (f : option str) : Z := match f with None => 0 | Some f => len f end.
Lemma decimal_of_text w f : w <> EmptyString -> str_all is_ascii_digit w = true ->
  match f with None => True | Some f => str_all is_ascii_digit f = true end ->
  decimal_of (decimal_text w f) =
    Some {| d_negative := false; d_num := dec_value (digits_of w f); d_scale := - decimals_of f |}.
Proof.
  intros Hne Hw Hf. destruct (decimal_plain w f Hw Hf) as [Hl He].
  assert (strip_sign (decimal_text w f) = (false, decimal_text w f)) as Hs.
  { destruct f as [f|]; cbn [decimal_text]; [now apply strip_sign_digit|].
    rewrite <- (append_nil_r w). now apply strip_sign_digit. }
  unfold decimal_of. rewrite Hs, Hl, He. unfold parse_mantissa. rewrite split_decimal by done.
  unfold digits_of, decimals_of. destruct f as [f|]; cbn [decimal_text].
  - rewrite (proj2 (parse_digits_spec _ (dec_value (w +:+ f)))); [done|].
    rewrite append_is_nil, str_all_app, Hw, Hf. tauto.
  - now rewrite (proj2 (parse_digits_spec _ (dec_value w))).
Qed.
Lemma f64_of_text w f : w <> EmptyString -> str_all is_ascii_digit w = true ->
  match f with None => True | Some f => str_all is_ascii_digit f = true end ->
  f64_from_str (decimal_text w f) = Some (f64_nearest false (dec_value (digits_of w f)) (10 ^ decimals_of f)).
Proof.
  intros Hne Hw Hf. destruct (decimal_plain w f Hw Hf) as [Hl _].
  pose proof (decimal_chars w f Hw Hf) as Hc. unfold f64_from_str. rewrite (decimal_of_text w f) by done.
  assert (exists n, strip_sign (decimal_text w f) = (n, decimal_text w f)) as [n ->].
  { destruct f as [f|]; cbn [decimal_text]; [eexists; now apply strip_sign_digit|].
    rewrite <- (append_nil_r w). eexists. now apply strip_sign_digit. }
  rewrite Hl. set (t := decimal_text w f) in *.
  assert (forall x, str_all decimal_char x = false -> String.eqb t x = false) as Hx
    by (intros x Hx; apply String.eqb_neq; congruence).
  rewrite !Hx by done. cbn [orb mbind option_bind]. unfold numerator, denominator. cbn [d_negative d_num d_scale].
  assert (0 <= decimals_of f) by (unfold decimals_of, len; destruct f; lia).
  replace (Z.max 0 (- decimals_of f)) with 0 by lia. replace (Z.max 0 (- - decimals_of f)) with (decimals_of f) by lia.
  now rewrite Z.mul_1_r.
Qed.

(** *** Amounts of money *)

(** An amount's text is parsed to the double nearest to the amount. *)
Lemma f64_of_amount n c t : 0 <= n -> minor_to_major_string n c = Ok t ->
  exists e, exponent c = Ok e /\ f64_from_str t = Some (f64_nearest false n (10 ^ e)).
Proof.
  intros Hn Ht. destruct (exponent c) as [e|] eqn:E; [|unfold minor_to_major_string in Ht; now rewrite E in Ht].
  exists e. split; [done|]. destruct (minor_major_text n c e Hn E) as (w & f & Ht' & Hne & Hw & Hf & Hv).
  rewrite Ht in Ht'. injection Ht' as ->.
  rewrite f64_of_text by (destruct f; tauto). do 2 f_equal.
  - rewrite <- Hv. unfold digits_of, decimal_minor. destruct f as [f|].
    + destruct Hf as [_ <-]. rewrite dec_value_app, Z.sub_diag, Z.pow_0_r. lia.
    + subst e. lia.
  - destruct f; [destruct Hf as [_ <-] | subst e]; done.
Qed.
Lemma amount_decimal n c t : 0 <= n -> minor_to_major_string n c = Ok t ->
  exists d, decimal_of t = Some d /\ d_num d = n /\ -3 <= d_scale d <= 0.
Proof.
  intros Hn Ht. destruct (exponent c) as [e|] eqn:E; [|unfold minor_to_major_string in Ht; now rewrite E in Ht].
  destruct (minor_major_text n c e Hn E) as (w & f & Ht' & Hne & Hw & Hf & Hv).
  rewrite Ht in Ht'. injection Ht' as ->. rewrite decimal_of_text by (destruct f; tauto).
  apply exponent_cases in E. eexists. split; [reflexivity|]. cbn [d_num d_scale].
  unfold digits_of, decimals_of, decimal_minor in *. destruct f as [f|].
  - destruct Hf as [_ <-]. rewrite Z.sub_diag, Z.pow_0_r in Hv. rewrite dec_value_app. lia.
  - subst e. cbn in Hv. lia.
Qed.
Lemma exponent_small c e : exponent c = Ok e -> 0 < 10 ^ e < 2 ^ 50.
Proof. intros [-> | [-> | ->]]%exponent_cases; lia. Qed.

(** What a text that reads as a finite double is. *)
Lemma f64_from_str_finite s neg m e : f64_from_str s = Some (Finite neg m e) ->
  exists d, decimal_of s = Some d /\ f64_nearest (d_negative d) (numerator d) (denominator d) = Finite neg m e /\
    0 <= numerator d /\ 0 < denominator d.
Proof.
  unfold f64_from_str. destruct (strip_sign s) as [sg body] eqn:Es. destruct (_ || _); [done|].
  destruct (String.eqb _ "nan"); [done|]. destruct (decimal_of s) as [d|] eqn:Ed; [|done]. intros [= Hd].
  exists d. split_and!; try done; [|apply Z.pow_pos_nonneg; lia].
  apply Z.mul_nonneg_nonneg; [|apply Z.pow_nonneg; lia].
  assert (forall x ns, parse_mantissa x = Some ns -> 0 <= ns.1) as Hm.
  { intros x ns. unfold parse_mantissa. destruct (split_once "." x) as [[w f]|];
      (destruct (parse_digits _) as [n|] eqn:En; [|done]); intros [= <-];
      apply parse_digits_spec in En as (_ & Hx & ->); now apply dec_value_nonneg. }
  unfold decimal_of in Ed. rewrite Es in Ed. destruct (split_once "e" _) as [[x k]|];
    (destruct (parse_mantissa _) as [ns|] eqn:En; [|done]); [destruct (parse_exponent k); [|done]|];
    injection Ed as <-; cbn; eauto.
Qed.

(** Every [u64] amount is sent as a number; below [2^50] minor units a processor
    that reads the number to the nearest minor unit reads the amount. *)
Lemma amount_is_finite n c t f : is_u64 n -> minor_to_major_string n c = Ok t -> f64_from_str t = Some f ->
  exists e m x, exponent c = Ok e /\ f = Finite false m x /\ is_f64 f /\ f64_nearest false n (10 ^ e) = f.
Proof.
  intros Hn Ht Hf. unfold is_u64 in Hn. destruct (f64_of_amount n c t (proj1 Hn) Ht) as (e & He & Hf').
  rewrite Hf in Hf'. injection Hf' as ->. pose proof (exponent_small c e He).
  destruct (nearest_is_finite n (10 ^ e)) as (m & x & Hx); [|lia|].
  { split; [lia|]. apply Z.le_lt_trans with (1 := proj2 Hn). reflexivity. }
  exists e, m, x. rewrite Hx. split_and!; try done; now apply nearest_finite in Hx as (_ & ? & _); try lia.
Qed.
Lemma amount_is_number `{F64Text} n c t f : is_u64 n -> minor_to_major_string n c = Ok t ->
  f64_from_str t = Some f -> json_f64 f = JNumber (f64_text f).
Proof. intros Hn Ht Hf. now destruct (amount_is_finite n c t f Hn Ht Hf) as (e & m & x & _ & -> & _). Qed.
Lemma double_read_exactly n c t f s : 0 <= n < 2 ^ 50 -> minor_to_major_string n c = Ok t ->
  f64_from_str t = Some f -> f64_from_str s = Some f -> in_major_number c s = Some n.
Proof.
  intros Hn Ht Hf Hr.
  assert (is_u64 n) as Hu by (unfold is_u64, u64_max; lia).
  destruct (amount_is_finite n c t f Hu Ht Hf) as (e & m & x & He & -> & Hc & Hx).
  apply f64_from_str_finite in Hr as (d & Hd & Hv & Ha & Hb).
  unfold in_major_number. rewrite He, Hd. cbn.
  destruct (nearest_finite _ _ _ _ _ _ Ha Hb Hv) as (Hs & _). rewrite <- Hs in *. f_equal.
  now apply (nearest_reads_back n (10 ^ e) m x); [|apply (exponent_small c)| | | |].
Qed.
Lemma amount_read_exactly `{F64TextLaws} n c t f : 0 <= n < 2 ^ 50 -> minor_to_major_string n c = Ok t ->
  f64_from_str t = Some f -> in_major_number c (f64_text f) = Some n.
Proof.
  intros Hn Ht Hf. apply (double_read_exactly n c t f); try done.
  destruct (amount_is_finite n c t f) as (e & m & x & He & -> & Hc & Hx); try done; [unfold is_u64, u64_max; lia|].
  now apply f64_text_reads_back.
Qed.
Lemma number_lower c x n : in_major_number (normal_currency c) x = Some n ->
  in_major_number (to_ascii_lowercase (normal_currency c)) x = Some n.
Proof.
  unfold in_major_number. destruct (exponent (normal_currency c)) as [e|] eqn:E; [|done].
  now rewrite (exponent_lower _ _ E).
Qed.
Lemma number_asks c n x : 0 <= n -> (n < 2 ^ 50 -> in_major_number c x = Some n) -> asks_for as_number c x n.
Proof. intros Hn Hx Hb. cbn in Hb. exists (Minor n). cbn [as_number price ratio]. rewrite Hx by done. split; [done | cbn; lia]. Qed.
(** A body with the double its amount's text parses to asks for the amount. *)
Lemma double_asks_number `{F64TextLaws} key c n t f j :
  0 <= n < 2 ^ 50 -> minor_to_major_string n (normal_currency c) = Ok t -> f64_from_str t = Some f ->
  get_field "amount" j = Some (json_f64 f) ->
  (json_at [key] j = Some (normal_currency c) \/ json_at [key] j = Some (to_ascii_lowercase (normal_currency c))) ->
  asks_number key c n (JsonBody j).
Proof.
  intros Hn Ht Hf Hj Hk. pose proof (amount_read_exactly n _ t f Hn Ht Hf) as Hr.
  rewrite (amount_is_number n _ t f) in Hj by (try done; unfold is_u64, u64_max; lia).
  exists j, (f64_text f). destruct Hk as [Hk|Hk]; eexists; (split_and!; [done | done | exact Hk | |]);
    eauto using number_lower with orders.
Qed.

(** *** A writer with the law

    Every double has a finite decimal expansion, over a power of ten. *)
Definition expansion : F64Text := fun f =>
  match f with
  | Finite neg m e => (if neg then "-" else "") +:+ to_dec (m * 2 ^ e * 5 ^ 1074) +:+ "e-1074"
  | _ => "null"
  end.
#[export] Instance expansion_laws : F64TextLaws expansion.
Proof.
  intros neg m e Hf. pose proof Hf as ([Hm _] & [He _] & _). unfold f64_text, expansion.
  set (n := m * 2 ^ e * 5 ^ 1074).
  assert (0 <= n) by (pose proof (Z.pow_nonneg 2 e); pose proof (Z.pow_nonneg 5 1074); nia).
  destruct (to_dec_spec n) as (Hne & Hd & Hv & _); [done|]. set (w := to_dec n) in *. clearbody w.
  assert (strip_sign ((if neg then "-" else "") +:+ w +:+ "e-1074") = (neg, w +:+ "e-1074")) as Hs
    by (destruct neg; [done | exact (strip_sign_digit w _ Hne Hd)]).
  assert (to_ascii_lowercase (w +:+ "e-1074") = w +:+ "e-1074") as Hl.
  { apply to_ascii_lowercase_id. rewrite str_all_app. apply andb_true_iff. split; [|done].
    revert Hd. apply str_all_impl. intros a Ha. apply decimal_char_plain. unfold decimal_char. now rewrite Ha. }
  assert (split_once "e" (w +:+ "e-1074") = Some (w, "-1074"%string)) as Hp.
  { apply split_once_Some. split; [done|]. revert Hd. apply str_all_impl. intros a Ha.
    apply decimal_char_plain. unfold decimal_char. now rewrite Ha. }
  assert (decimal_of ((if neg then "-" else "") +:+ w +:+ "e-1074") =
    Some {| d_negative := neg; d_num := n; d_scale := -1074 |}) as Hdec.
  { unfold decimal_of. rewrite Hs, Hl, Hp. unfold parse_mantissa.
    rewrite (proj2 (split_once_None "." w)) by now apply digits_no_dot.
    now rewrite (proj2 (parse_digits_spec w n)). }
  unfold f64_from_str. rewrite Hdec, Hs, Hl. cbn [mbind option_bind d_negative].
  assert (forall x, (exists y r, x = String y r /\ is_ascii_digit y = false) ->
    String.eqb (w +:+ "e-1074") x = false) as Hx.
  { intros x (y & r & -> & Hy). apply String.eqb_neq. destruct w as [|a w']; [done|]. cbn in Hd |- *.
    apply andb_true_iff in Hd as [Ha _]. congruence. }
  rewrite !Hx by (do 2 eexists; done). cbn [orb]. f_equal.
  apply nearest_exact; [now apply Z.pow_pos_nonneg | done |].
  unfold numerator, denominator. cbn [d_num d_scale].
  change (Z.max 0 (-1074)) with 0. change (Z.max 0 (- -1074)) with 1074. subst n.
  change 10 with (5 * 2). rewrite (Z.pow_mul_l 5 2). change least_double with (2 ^ 1074). ring.
Qed.

(** *** Fixed-point text

    The double nearest to an amount, printed with more decimals than its currency
    has, shows the amount while its last bit is worth less than the last decimal. *)
Lemma fixed_nearest p a k N m e : 0 <= a -> 0 < k -> 10 ^ Z.of_nat p < 2 ^ 50 ->
  N * k = a * 10 ^ Z.of_nat p -> a * 10 ^ Z.of_nat p < k * 2 ^ 51 -> f64_nearest false a k = Finite false m e ->
  round_ratio (m * 2 ^ e * 10 ^ Z.of_nat p) least_double = N.
Proof.
  intros Ha Hk Hp HN Hb Hf. pose proof (Z.pow_pos_nonneg 10 (Z.of_nat p) ltac:(lia) ltac:(lia)) as Hs.
  destruct (nearest_finite _ a k _ _ _ Ha Hk Hf) as (_ & (_ & [He _] & _) & Ef).
  pose proof (Z.pow_pos_nonneg 2 e ltac:(lia) He) as Hq. set (s := 10 ^ Z.of_nat p) in *.
  pose proof least_double_pos as HD. pose proof least_double_range as HD'.
  assert (s * 2 ^ e < least_double) as Hlast.
  { destruct (nearest_exponent _ a k _ _ _ Ha Hk Hf) as [?|Hx]; [|nia].
    assert (2 ^ e <= 2 ^ 1) by (apply Z.pow_le_mono_r; lia). nia. }
  apply round_ratio_near; [done|]. set (q := 2 ^ e) in *. set (D := least_double) in *.
  assert (k * Z.abs (N * D - m * q * s) = s * Z.abs (m * q * k - a * D)) as Heq; [|nia].
  rewrite <- (Z.abs_eq k) at 1 by lia. rewrite <- (Z.abs_eq s) at 2 by lia.
  rewrite <- !Z.abs_mul, <- Z.abs_opp. f_equal. nia.
Qed.
