(* ===== verification/Square.v ===== *)
(** * The Square adapter ([patala-fiat/src/square/*.rs])

    Hosted payment links. The payment's id is not known when the link is
    created: verify answers only for a proof into which a webhook's payment id
    has been written back ([with_resolved_payment_id]), and compares the
    payment's own reference with the receipt's. *)

From S2P Require Import Prelude RustStr Core External HttpShared FiatDest Json Adapter Orders.

(** ** models.rs *)

Definition SQUARE_THREE_DECIMAL : list str := ["KWD"; "BHD"; "JOD"; "OMR"; "TND"]%string.
Definition square_unsupported (cur : str) : Error := InvalidRequest
  ("square: " +:+ cur +:+ " is a three-decimal ISO-4217 currency, not verified against Square's documented Money semantics; refusing rather than guessing").
Definition square_amount (amt : Z) (c : str) : Result Error Z :=
  let cur := normal_currency c in
  return_if lists_currency SQUARE_THREE_DECIMAL cur with_ Err (square_unsupported cur);
  Ok amt.
Definition square_malformed : str -> Error := api_malformed "square".

Record SquareErrorDetail := { sed_category : str; sed_code : str; sed_detail : str }.
Record SquareErrorEnvelope := { errors : list SquareErrorDetail }.
Record SquareAmountMoney := { sam_amount : Z; sam_currency : str }.
Record SquarePayment := {
  spp_id : str;
  spp_status : str;
  reference_id : str;
  order_id : str;
  amount_money : SquareAmountMoney;
}.
Record SquareOutcome := {
  sqo_reference : str;
  sqo_event_id : str;
  sqo_settled : bool;
  sqo_amount_minor : Z;
  sqo_currency : str;
}.
Definition parse_square_payment (p : SquarePayment) : Result Error SquareOutcome :=
  return_if is_empty (spp_id p) with_ Err (square_malformed "missing payment id");
  return_if is_empty (reference_id p) with_
    Err (square_malformed "payment has no reference_id to reconcile against");
  let cur := normal_currency (sam_currency (amount_money p)) in
  if String.eqb (spp_status p) "COMPLETED" then
    return_if sam_amount (amount_money p) =? 0 with_
      Err (square_malformed "status=COMPLETED with non-positive amount");
    Ok {| sqo_reference := reference_id p; sqo_event_id := spp_id p; sqo_settled := true;
          sqo_amount_minor := sam_amount (amount_money p); sqo_currency := cur |}
  else
    Ok {| sqo_reference := reference_id p; sqo_event_id := spp_id p; sqo_settled := false;
          sqo_amount_minor := 0; sqo_currency := cur |}.

(** ** proof.rs, and the answers [rail.rs] and [webhook.rs] read *)

Record ChargeProof := { cp_order_id : str; payment_link_id : str; payment_id : option str }.
Definition with_resolved_payment_id (p : ChargeProof) (pid : str) : ChargeProof :=
  {| cp_order_id := cp_order_id p; payment_link_id := payment_link_id p; payment_id := Some pid |}.
Record PaymentLink := { pl_id : str; pl_url : str; pl_order_id : str }.
Record VerifyResponse := { vr_payment : SquarePayment }.
Record RefundEntity := { re_id : str; re_status : str; re_amount_money : SquareAmountMoney }.
Record Envelope := { env_event_id : str; env_type : str; env_payment : SquarePayment }.

Class SquareJson := {
  #[export] link_json :: FromJson PaymentLink;
  #[export] verify_json :: FromJson VerifyResponse;
  #[export] refund_json :: FromJson RefundEntity;
  #[export] envelope_json :: FromJson Envelope;
  #[export] error_json :: FromJson SquareErrorEnvelope;
}.

Definition classify_error `{SquareJson} (code : Z) (body : list byte) : Error :=
  let env := default {| errors := [] |} (result_ok (from_json body)) in
  api_status "square" code
    match errors env with
    | e :: _ => sed_code e +:+ ": " +:+ sed_detail e
    | [] => "no message"
    end.

(** ** webhook.rs *)

Inductive SquareWebhookError :=
  | MissingSignature | InvalidSignature
  | MalformedResponse (e : str)
  | ResponseTooLarge
  | UnhandledEvent (ty : str).
Definition square_webhook_error_display (e : SquareWebhookError) : str :=
  match e with
  | MissingSignature => "payments: square: missing x-square-hmacsha256-signature header"
  | InvalidSignature => "payments: square: invalid webhook signature"
  | MalformedResponse e => "payments: square: malformed API response: " +:+ e
  | ResponseTooLarge => "payments: square: response body exceeds size limit"
  | UnhandledEvent ty => "payments: unhandled webhook event type: " +:+ ty
  end.
Record SquareWebhookEvent := {
  sqe_event_id : str;
  sqe_reference : str;
  sqe_payment_id : str;
  sqe_amount_minor : Z;
  sqe_currency : str;
}.
Definition parse_event `{SquareJson} (body : list byte) : Result SquareWebhookError SquareWebhookEvent :=
  env ← map_err MalformedResponse (from_json (T := Envelope) body);
  return_if negb (String.eqb (env_type env) "payment.updated") with_ Err (UnhandledEvent (env_type env));
  outcome ← map_err (fun e => MalformedResponse (error_display e)) (parse_square_payment (env_payment env));
  return_if negb (sqo_settled outcome) with_ Err (UnhandledEvent "payment.updated with status!=COMPLETED");
  Ok {| sqe_event_id := if is_empty (env_event_id env) then sqo_event_id outcome else env_event_id env;
        sqe_reference := sqo_reference outcome; sqe_payment_id := spp_id (env_payment env);
        sqe_amount_minor := sqo_amount_minor outcome; sqe_currency := sqo_currency outcome |}.
Definition verify_and_parse `{SquareJson} (base64_decode : str -> option (list byte)) (sha256_mac : Mac)
    (key notification_url : str) (body : list byte) (sig_header : str)
    : Result SquareWebhookError SquareWebhookEvent :=
  _ ← map_err (fun _ => ResponseTooLarge) (bounded_len_check body DEFAULT_MAX_BODY_BYTES);
  let h := trim sig_header in
  return_if is_empty h with_ Err MissingSignature;
  return_if negb (verify_hmac_sha256_base64 base64_decode sha256_mac (as_bytes key)
      (as_bytes notification_url ++ body) h) with_ Err InvalidSignature;
  parse_event body.

(** ** config.rs *)

Record SquareConfig := {
  access_token : str;
  webhook_signature_key : str;
  location_id : str;
  notification_url : str;
  api_base_url : str;
  sq_requires_kyc : bool;
  sq_currencies : list str;
  sq_settlement_days : Z;
  sq_timeout_secs : Z;
}.
Definition square_config_from_env (env : Environment) : Result Error SquareConfig :=
  token ← non_empty_env env "SQUARE_ACCESS_TOKEN";
  key ← non_empty_env env "SQUARE_WEBHOOK_SIGNATURE_KEY";
  location ← non_empty_env env "SQUARE_LOCATION_ID";
  url ← non_empty_env env "SQUARE_NOTIFICATION_URL";
  base ← non_empty_env env "SQUARE_API_BASE_URL";
  Ok {| access_token := token; webhook_signature_key := key; location_id := location;
        notification_url := url; api_base_url := trim_end_slashes base;
        sq_requires_kyc := env_flag env "SQUARE_REQUIRES_KYC" true;
        sq_currencies := env_currencies env "SQUARE_CURRENCIES" [];
        sq_settlement_days := env_u8 env "SQUARE_SETTLEMENT_DAYS" 2;
        sq_timeout_secs := env_u64 env "SQUARE_TIMEOUT_SECS" 15 |}.

(** ** rail.rs *)

Record SquareRail (W : Type) := {
  square_id : str;
  sq_config : SquareConfig;
  sq_http : HttpClient W;
  sq_capabilities : RailCapabilities;
  sq_base_url : str;
}.
Arguments square_id {W} _.
Arguments sq_config {W} _.
Arguments sq_http {W} _.
Arguments sq_capabilities {W} _.
Arguments sq_base_url {W} _.

Definition square_new {W} (c : SquareConfig) (builder : HttpBuilder W) : Result Error (SquareRail W) :=
  _ ← required "access_token" (access_token c);
  _ ← required "webhook_signature_key" (webhook_signature_key c);
  _ ← required "location_id" (location_id c);
  _ ← required "notification_url" (notification_url c);
  _ ← required "api_base_url" (api_base_url c);
  http ← built_client "square" builder (sq_timeout_secs c);
  Ok {| square_id := "square"; sq_config := c; sq_http := http;
        sq_capabilities := {|
          class := CustodialReversible; reversible := true; requires_kyc := sq_requires_kyc c;
          holds_funds := true; currencies := sq_currencies c; settlement := Days (sq_settlement_days c);
          atomic_multi_party := false |};
        sq_base_url := api_base_url c |}.

Definition safe_path_segment : str -> Result Error str := path_segment "a square id".

Section SquareRail.
Context `{SquareJson} `{!ProofBytes ChargeProof} (base64_decode : str -> option (list byte)) (sha256_mac : Mac)
  {W : Type} `{Clock W}.

Definition check_currency (r : SquareRail W) : str -> Result Error unit :=
  check_unless_empty (square_id r) (currencies (sq_capabilities r)).
Definition json_call (r : SquareRail W) (method path : str) (body : option Json) : HttpCall := {|
  hc_method := method; hc_url := sq_base_url r +:+ path; hc_basic_auth := None;
  hc_headers := [("Authorization", "Bearer " +:+ access_token (sq_config r));
                 ("Content-Type", "application/json"); ("Accept", "application/json")]%string;
  hc_body := json_body body |}.
Definition do_json (r : SquareRail W) (method path : str) (body : option Json)
    : Eff W Error (list byte * Z) :=
  transport "square" path (sq_http r) (json_call r method path body).

Definition square_quote (r : SquareRail W) (req : PayRequest) : Eff W Error Quote :=
  _ ← eff_of (validate req);
  _ ← eff_of (check_currency r (req_currency req));
  _ ← eff_of (square_amount (req_amount_minor req) (req_currency req));
  quoted (square_id r) (settlement (sq_capabilities r)) 300 (req_currency req) req.

Definition link_request (r : SquareRail W) (req : PayRequest) (amt : Z) (cur redirect : str) : Json := JObject [
  ("idempotency_key", JString (req_reference req));
  ("order", JObject [
    ("location_id", JString (location_id (sq_config r)));
    ("reference_id", JString (req_reference req));
    ("line_items", JArray [JObject [
      ("name", JString ("patala order " +:+ req_reference req));
      ("quantity", JString "1");
      ("base_price_money", JObject [("amount", json_u64 amt); ("currency", JString cur)])]])]);
  ("checkout_options", JObject [("redirect_url", JString redirect)])]%string.
Definition square_charge (r : SquareRail W) (req : PayRequest) : Eff W Error Receipt :=
  _ ← eff_of (validate req);
  _ ← eff_of (check_currency r (req_currency req));
  let cur := normal_currency (req_currency req) in
  amt ← eff_of (square_amount (req_amount_minor req) cur);
  let redirect := trim (req_destination req) in
  return_if is_empty redirect with_
    eff_err (InvalidRequest "square: destination (used as the redirect_url) is required");
  body ← expect_2xx classify_error (do_json r "POST" "/v2/online-checkout/payment-links"
    (Some (link_request r req amt cur redirect)));
  link ← parse_as (T := PaymentLink) "square" body;
  return_if is_empty (pl_id link) || is_empty (pl_url link) with_
    eff_err (square_malformed "empty payment link id or url");
  mret (open_receipt (square_id r) cur (req_reference req)
    {| cp_order_id := pl_order_id link; payment_link_id := pl_id link; payment_id := None |}).

Definition payment_covers (p : SquarePayment) (rc : Receipt) : bool :=
  let_ok outcome := parse_square_payment p or_else false;
  return_if negb (String.eqb (sqo_reference outcome) (reference rc)) with_ false;
  covers (sqo_settled outcome) (sqo_currency outcome) (sqo_amount_minor outcome) rc.
Definition square_verify (r : SquareRail W) (rc : Receipt) : Eff W Error bool :=
  return_if negb (String.eqb (rail_id rc) (square_id r)) with_ mret false;
  let_some p := from_bytes (P := ChargeProof) (proof rc) or_else mret false;
  let_some pid := payment_id p or_else mret false;
  let_ok pid := safe_path_segment pid or_else mret false;
  body ← expect_2xx classify_error (do_json r "GET" ("/v2/payments/" +:+ pid) None);
  parsed ← parse_as (T := VerifyResponse) "square" body;
  mret (payment_covers (vr_payment parsed) rc).

Definition refund_request (rc : Receipt) (pid : str) : Json := JObject [
  ("idempotency_key", JString ("refund:" +:+ reference rc));
  ("amount_money", JObject [("amount", json_u64 (amount_minor rc)); ("currency", JString (currency rc))]);
  ("payment_id", JString pid)]%string.
Definition square_refund (r : SquareRail W) (rc : Receipt) : Eff W Error Receipt :=
  return_if negb (String.eqb (rail_id rc) (square_id r)) with_ eff_err (other_rail (square_id r) rc);
  p ← eff_of (ok_or (InvalidRequest "receipt proof is not a square charge proof")
    (from_bytes (P := ChargeProof) (proof rc)));
  pid ← eff_of (ok_or (InvalidRequest
    "square: receipt has no resolved payment_id -- cannot refund a payment whose id was never learned (see proof.rs's module docs)")
    (payment_id p));
  pid ← eff_of (safe_path_segment pid);
  body ← expect_2xx classify_error (do_json r "POST" "/v2/refunds" (Some (refund_request rc pid)));
  refund ← parse_as (T := RefundEntity) "square" body;
  return_if is_empty (re_id refund) with_ eff_err (square_malformed "empty refund id");
  let cur := normal_currency (sam_currency (re_amount_money refund)) in
  now ← read_clock;
  mret {|
    rail_id := square_id r;
    amount_minor := if String.eqb (re_status refund) "COMPLETED" then sam_amount (re_amount_money refund) else 0;
    currency := if is_empty cur then currency rc else cur;
    reference := reference rc;
    proof := [];
    settled_at_unix := now;
  |}.

Definition square_webhook (r : SquareRail W) (d : WebhookDelivery) : Result Error WebhookEvent :=
  event ← map_err (fun e => InvalidRequest (square_webhook_error_display e))
    (verify_and_parse base64_decode sha256_mac (webhook_signature_key (sq_config r))
       (notification_url (sq_config r)) (raw_body d) (header_or_empty "x-square-hmacsha256-signature" d));
  Ok (with_object_id (sqe_payment_id event)
    (settlement_event (square_id r) (sqe_event_id event) (sqe_reference event) true
       (sqe_amount_minor event) (sqe_currency event))).
Definition square_rail (r : SquareRail W) : PaymentRail W := {|
  id := square_id r;
  capabilities := sq_capabilities r;
  quote := square_quote r;
  charge := square_charge r;
  verify := square_verify r;
  validate_destination := redirect_url (square_id r);
  refund := square_refund r;
  verify_webhook d := eff_of (square_webhook r d);
|}.
End SquareRail.

#[export] Hint Unfold square_rail square_new square_verify square_charge square_quote safe_path_segment do_json : adapter.

(** ** Lemmas *)

(** A payment that settled: what the processor says about it. *)
Definition square_settled (p : SquarePayment) (ev : Evidence) : Prop :=
  spp_id p <> EmptyString /\ reference_id p <> EmptyString /\ spp_status p = "COMPLETED"%string /\
  sam_amount (amount_money p) <> 0 /\
  ev = {| ev_reference := Some (reference_id p); ev_currency := normal_currency (sam_currency (amount_money p));
          ev_amount := sam_amount (amount_money p) |}.
Lemma square_covers_spec p rc :
  payment_covers p rc = true <-> exists ev, square_settled p ev /\ supports ev rc.
Proof.
  unfold payment_covers, parse_square_payment, square_settled, supports. split.
  - destruct (is_empty (spp_id p)) eqn:E1; [done|]. destruct (is_empty (reference_id p)) eqn:E2; [done|].
    destruct (String.eqb_spec (spp_status p) "COMPLETED") as [E3|].
    + destruct (Z.eqb_spec (sam_amount (amount_money p)) 0) as [|E4]; [done|]. cbn.
      destruct (String.eqb_spec (reference_id p) (reference rc)) as [E5|]; [|done].
      intros (_ & Hc & Ha)%covers_spec. eexists. split_and!; try now apply is_empty_false. all: done.
    + cbn. now destruct (String.eqb _ _).
  - intros (ev & (E1%is_empty_false & E2%is_empty_false & E3 & E4%Z.eqb_neq & ->) & Hr & Hc & Ha).
    rewrite E1, E2, E3, E4, String.eqb_refl. cbn in *. rewrite Hr, String.eqb_refl. cbn. now apply covers_spec.
Qed.

Section SquareLemmas.
Context `{SquareJson} `{!ProofBytes ChargeProof} (base64_decode : str -> option (list byte)) (sha256_mac : Mac)
  {W : Type} `{Clock W}.

(** The receipt's proof names a payment, and Square answers that it settled. *)
Definition square_evidence (r : SquareRail W) (p : list byte) (ref : str) (w : W) (ev : Evidence) (w' : W) : Prop :=
  exists cp pid body parsed,
    from_bytes (P := ChargeProof) p = Some cp /\ payment_id cp = Some pid /\ is_safe_path_segment pid = true /\
    answered (sq_http r) (json_call r "GET" ("/v2/payments/" +:+ pid) None) w body w' /\
    from_json (T := VerifyResponse) body = Ok parsed /\ square_settled (vr_payment parsed) ev.
#[export] Instance square_verifies r :
  VerifiesBy (square_rail base64_decode sha256_mac r) (square_evidence r).
Proof.
  intros rc w w'. cbn [verify square_rail id]. unfold square_verify, square_evidence. split.
  - intros Hv. run_inv Hv. apply names_rail in Hc. apply path_segment_Ok in Hp1 as [-> Hs].
    apply expect_2xx_Ok in Hx. apply square_covers_spec in Hv as (ev & ? & ?). eauto 15.
  - intros (Hi%names_rail & ev & (cp & pid & body & parsed & Hp & Hpid & Hs & Hg & Hb & Hset) & Hsup).
    pose proof (proj2 (path_segment_Ok "a square id" _ _) (conj eq_refl Hs)).
    pose proof (proj2 (expect_2xx_Ok "square" ("/v2/payments/" +:+ pid) _ classify_error _ _ _ _) Hg).
    assert (payment_covers (vr_payment parsed) rc = true) by (apply square_covers_spec; eauto).
    autounfold with adapter. run.
Qed.
Lemma square_compares_reference r : compares_reference (square_rail base64_decode sha256_mac r).
Proof.
  apply (evidence_compares _ (square_evidence r)).
  - intros p ref w ev v (? & ? & ? & ? & _ & _ & _ & _ & _ & _ & _ & _ & _ & ->). eauto.
  - intros p ref ref' w ev v ev' v' (? & ? & ? & ? & E1 & E2 & _ & Hg & Hb & _ & _ & _ & _ & ->)
      (? & ? & ? & ? & E1' & E2' & _ & Hg' & Hb' & _ & _ & _ & _ & ->).
    rewrite E1 in E1'. injection E1' as <-. rewrite E2 in E2'. injection E2' as <-.
    destruct (answered_fun _ _ _ _ _ _ _ Hg Hg') as [-> _]. congruence.
Qed.
Definition square_authentic (r : SquareRail W) (d : WebhookDelivery) (w : W) : Prop :=
  base64_signed base64_decode sha256_mac (as_bytes (webhook_signature_key (sq_config r)))
    (as_bytes (notification_url (sq_config r)) ++ raw_body d)
    (trim (header_or_empty "x-square-hmacsha256-signature" d)).
Lemma square_parse_event_id body ev : parse_event body = Ok ev -> sqe_event_id ev <> EmptyString.
Proof.
  unfold parse_event. intros Hp. run_inv Hp. injection Hp as <-. cbn [sqe_event_id].
  destruct (is_empty (env_event_id x)) eqn:Ei; [|now apply is_empty_false].
  unfold parse_square_payment in Hx0. run_inv Hx0. apply is_empty_false in Hc1.
  repeat case_match; now simplify_eq.
Qed.
#[export] Instance square_webhook_answers r :
  WebhookAnswers (square_rail base64_decode sha256_mac r) (square_authentic r).
Proof.
  intros d w ev w' Hw. cbn [verify_webhook square_rail] in Hw. unfold square_webhook, verify_and_parse in Hw.
  run_inv Hw. simplify_eq. apply negb_false_iff, base64_signed_spec in Hc0. split; [done|].
  split; [exact (square_parse_event_id _ _ Hx) | exact Hc0].
Qed.
Definition square_places : Places := {|
  amount_at := ["order"; "line_items"; "0"; "base_price_money"; "amount"];
  currency_at := At ["order"; "line_items"; "0"; "base_price_money"; "currency"];
  reference_at := ["order"; "reference_id"] |}%string.
Definition square_ordered (r : SquareRail W) (o : Order) (rc : Receipt) (w w' : W) : Prop :=
  ordered_by (sq_http r) "POST" (sq_base_url r +:+ "/v2/online-checkout/payment-links") (reads square_places) o w w'.
#[export] Instance square_orders r :
  ChargeOrders (square_rail base64_decode sha256_mac r) (exactly in_minor_units) (square_ordered r).
Proof.
  intros q rc w w' Hu Hc. charge_inv Hc.
  unfold square_amount in Hx1. run_inv Hx1. injection Hx1 as <-.
  orders (to_dec (req_amount_minor q)) (normal_currency (req_currency q)).
  sent.
Qed.
#[export] Instance square_opens r : ChargeOpens (square_rail base64_decode sha256_mac r).
Proof. charge_opens. Qed.
#[export] Instance square_quotes r : QuotesCharge (square_rail base64_decode sha256_mac r) 300.
Proof. quotes_before. same_guard square_amount. Qed.
Definition square_refunded (r : SquareRail W) (text : str) (rc : Receipt) (w w' : W) : Prop :=
  exists cp pid v now, from_bytes (P := ChargeProof) (proof rc) = Some cp /\ payment_id cp = Some pid /\
    called (sq_http r) "POST" (sq_base_url r +:+ "/v2/refunds") (fun b =>
      body_at ["payment_id"%string] b = Some pid /\ body_at ["amount_money"; "amount"]%string b = Some text /\
      body_at ["amount_money"; "currency"]%string b = Some (currency rc)) w v /\
    read_clock v = (Ok (E := Error) now, w').
#[export] Instance square_refunds r :
  RefundOrders (square_rail base64_decode sha256_mac r) (exactly in_minor_units) (square_refunded r).
Proof.
  intros rc rc' w w' Hu Hr. cbn in Hr. unfold square_refund in Hr. refund_inv Hr. refunds Hr (to_dec (amount_minor rc)).
  do 4 eexists. split; [eassumption|]. split; [eassumption|]. split; [|eassumption].
  sent.
Qed.
#[export] Instance square_rail_laws c builder r :
  square_new c builder = Ok r -> RailLaws (fun _ : W => True) (square_rail base64_decode sha256_mac r).
Proof. intros Hnew. solve_rail_laws Hnew. Qed.
End SquareLemmas.
