(* ===== verification/PayPal.v ===== *)
(** * The PayPal adapter ([patala-fiat/src/paypal/*.rs])

    Orders with an explicit capture: verify captures an approved order itself.
    Every call but the token's carries an OAuth access token fetched for it.
    Amounts are decimal strings of PayPal's own making, not the currency
    table's. The webhook is checked by asking PayPal. *)

From S2P Require Import Prelude RustStr Core External HttpShared FiatDest Json Currency Adapter Orders.

(** ** models.rs: amounts *)

Definition ZERO_DECIMAL_CURRENCIES : list str := ["JPY"; "HUF"; "TWD"]%string.
Definition THREE_DECIMAL_CURRENCIES : list str := ["KWD"; "BHD"; "JOD"; "OMR"; "TND"]%string.
Definition is_zero_decimal : str -> bool := lists_currency ZERO_DECIMAL_CURRENCIES.
Definition is_three_decimal : str -> bool := lists_currency THREE_DECIMAL_CURRENCIES.
Definition paypal_unsupported (cur : str) : Error := InvalidRequest
  ("paypal: three-decimal ISO-4217 currency " +:+ debug_str cur +:+ " is not verified against PayPal's documented amount semantics; refusing rather than guessing").
Definition paypal_malformed : str -> Error := api_malformed "paypal".

Definition two_decimals (amt : Z) : str := to_dec (amt / 100) +:+ "." +:+ pad_left 2 (to_dec (amt mod 100)).
Definition paypal_amount_value (amt : Z) (c : str) : Result Error str :=
  let cur := normal_currency c in
  return_if is_three_decimal cur with_ Err (paypal_unsupported cur);
  return_if is_zero_decimal cur with_ Ok (to_dec amt);
  Ok (two_decimals amt).

(** [while f.len() < 2 { f.push('0') }; f.truncate(2)]. Where byte 2 falls inside a
    character the code panics; here the cut text then fails to parse. *)
Definition two_fraction_bytes (f : str) : str := String.substring 0 2 (pad_right 2 f).
Definition paypal_fraction (value : str) (f : option str) : Result Error Z :=
  match f with
  | Some f => ok_or (paypal_malformed ("amount " +:+ debug_str value +:+ " has an invalid fractional part"))
      (parse_u64 (two_fraction_bytes f))
  | None => Ok 0
  end.
(** [whole * 100 + frac], as a release build computes it in a [u64]. *)
Definition paypal_scale (whole frac : Z) : Z := as_u64 (as_u64 (whole * 100) + frac).
Definition paypal_amount_value_to_minor (value c : str) : Result Error Z :=
  let cur := normal_currency c in
  return_if is_three_decimal cur with_ Err (paypal_unsupported cur);
  let value := trim value in
  if is_zero_decimal cur then
    ok_or (paypal_malformed ("zero-decimal amount " +:+ debug_str value +:+ " is not an integer")) (parse_u64 value)
  else
    let parts := match split_once "." value with Some (w, f) => (w, Some f) | None => (value, None) end in
    whole ← ok_or (paypal_malformed ("amount " +:+ debug_str value +:+ " has an invalid whole part"))
      (parse_u64 parts.1);
    frac ← paypal_fraction value parts.2;
    Ok (paypal_scale whole frac).

(** ** models.rs: what PayPal answers *)

Record PayPalErrorEnvelope := { pee_name : str; pee_message : str }.
Record TokenResponse := { tr_access_token : str }.
Record Link := { rel : str; href : str }.
Record CreateOrderResponse := { cor_id : str; links : list Link }.
Record CaptureAmount := { currency_code : str; value : str }.
Record Capture := { cap_id : str; cap_status : str; cap_amount : CaptureAmount }.
Record PurchaseUnit := { pu_reference_id : str; custom_id : str; captures : list Capture }.
Record OrderResponse := { or_id : str; or_status : str; purchase_units : list PurchaseUnit }.
Record RefundResponse := { rfr_id : str; rfr_status : str; rfr_amount : CaptureAmount }.
Record VerifyResponse := { verification_status : str }.
Record WebhookEnvelope := { whe_id : str; whe_event_type : str; resource : Json }.
Record CaptureResource := { car_id : str; car_status : str; car_custom_id : str; car_amount : CaptureAmount }.

(** ** proof.rs *)

Record ChargeProof := { paypal_order_id : str; approve_url : option str }.
Record RefundProof := { refund_id : str; status_at_refund : str }.

Class PayPalJson := {
  #[export] error_json :: FromJson PayPalErrorEnvelope;
  #[export] token_json :: FromJson TokenResponse;
  #[export] create_json :: FromJson CreateOrderResponse;
  #[export] order_json :: FromJson OrderResponse;
  #[export] refund_json :: FromJson RefundResponse;
  #[export] value_json :: FromJson Json;
  #[export] verify_json :: FromJson VerifyResponse;
  #[export] envelope_json :: FromJson WebhookEnvelope;
  #[export] resource_json :: FromValue CaptureResource;
}.

Definition classify_error `{PayPalJson} (code : Z) (body : list byte) : Error :=
  let env := default {| pee_name := EmptyString; pee_message := EmptyString |} (result_ok (from_json body)) in
  api_status "paypal" code
    (if negb (is_empty (pee_message env)) then pee_message env else or_no_message (pee_name env)).

(** ** webhook.rs *)

Record PayPalWebhookHeaders := {
  transmission_id : str;
  transmission_time : str;
  cert_url : str;
  auth_algo : str;
  transmission_sig : str;
}.
Definition all_present (h : PayPalWebhookHeaders) : bool :=
  negb (is_empty (transmission_id h)) && negb (is_empty (transmission_time h)) &&
  negb (is_empty (cert_url h)) && negb (is_empty (auth_algo h)) && negb (is_empty (transmission_sig h)).
Inductive PayPalWebhookError :=
  | MissingSignatureHeaders | InvalidSignature
  | UnexpectedStatus (e : str)
  | MalformedResponse (e : str)
  | UnhandledEvent (ty : str).
Definition paypal_webhook_error_display (e : PayPalWebhookError) : str :=
  match e with
  | MissingSignatureHeaders => "payments: paypal: missing one or more PAYPAL-TRANSMISSION-* headers"
  | InvalidSignature => "payments: paypal: webhook signature verification failed"
  | UnexpectedStatus e => "payments: paypal: unexpected API response status: " +:+ e
  | MalformedResponse e => "payments: paypal: malformed API response: " +:+ e
  | UnhandledEvent ty => "payments: unhandled webhook event type: " +:+ ty
  end.
Record PayPalWebhookEvent := {
  ppe_event_id : str;
  ppe_reference : str;
  ppe_amount_minor : Z;
  ppe_currency : str;
}.
Record ParsedCaptureEvent := {
  pce_event_id : str;
  pce_custom_id : str;
  pce_currency_code : str;
  pce_value : str;
}.
Definition parse_capture_completed `{PayPalJson} (body : list byte) : Result PayPalWebhookError ParsedCaptureEvent :=
  env ← map_err MalformedResponse (from_json (T := WebhookEnvelope) body);
  return_if negb (String.eqb (whe_event_type env) "PAYMENT.CAPTURE.COMPLETED") with_
    Err (UnhandledEvent (whe_event_type env));
  capture ← map_err (fun e => MalformedResponse ("event resource: " +:+ e))
    (from_value (T := CaptureResource) (resource env));
  return_if negb (String.eqb (car_status capture) "COMPLETED") with_
    Err (MalformedResponse ("PAYMENT.CAPTURE.COMPLETED event carried resource.status=" +:+ debug_str (car_status capture)));
  return_if is_empty (car_custom_id capture) with_
    Err (MalformedResponse "capture resource has no custom_id to reconcile against");
  let eid := if negb (is_empty (whe_id env)) then whe_id env else car_id capture in
  return_if is_empty eid with_
    Err (MalformedResponse "neither the event nor the capture resource has an id to deduplicate on");
  Ok {| pce_event_id := eid; pce_custom_id := car_custom_id capture;
        pce_currency_code := currency_code (car_amount capture); pce_value := value (car_amount capture) |}.

(** ** config.rs *)

Definition LIVE_BASE_URL : str := "https://api-m.paypal.com".
Definition SANDBOX_BASE_URL : str := "https://api-m.sandbox.paypal.com".
Record PayPalConfig := {
  client_id : str;
  client_secret : str;
  webhook_id : str;
  pp_config_base_url : str;
  pp_requires_kyc : bool;
  pp_currencies : list str;
  pp_settlement_days : Z;
  pp_timeout_secs : Z;
}.
Definition trimmed_env (env : Environment) (name : str) : Result Error str :=
  v ← non_empty_env env name; Ok (trim v).
Definition paypal_env_base (env : Environment) : Result Error str :=
  let mode := to_ascii_lowercase (trim (default EmptyString (env "PAYPAL_ENV"%string))) in
  return_if String.eqb mode "live" with_ Ok LIVE_BASE_URL;
  return_if String.eqb mode "sandbox" with_ Ok SANDBOX_BASE_URL;
  Err (InvalidRequest ("environment variable PAYPAL_ENV must be exactly " +:+ debug_str "live" +:+ " or " +:+ debug_str "sandbox")).
Definition paypal_config_from_env (env : Environment) : Result Error PayPalConfig :=
  cid ← trimmed_env env "PAYPAL_CLIENT_ID";
  secret ← trimmed_env env "PAYPAL_CLIENT_SECRET";
  wid ← trimmed_env env "PAYPAL_WEBHOOK_ID";
  base ← paypal_env_base env;
  Ok {| client_id := cid; client_secret := secret; webhook_id := wid; pp_config_base_url := base;
        pp_requires_kyc := env_flag env "PAYPAL_REQUIRES_KYC" true;
        pp_currencies := env_currencies env "PAYPAL_CURRENCIES" [];
        pp_settlement_days := env_u8 env "PAYPAL_SETTLEMENT_DAYS" 2;
        pp_timeout_secs := env_u64 env "PAYPAL_TIMEOUT_SECS" 15 |}.

(** ** rail.rs *)

Record PayPalRail (W : Type) := {
  paypal_id : str;
  pp_config : PayPalConfig;
  pp_http : HttpClient W;
  pp_capabilities : RailCapabilities;
  pp_base_url : str;
}.
Arguments paypal_id {W} _.
Arguments pp_config {W} _.
Arguments pp_http {W} _.
Arguments pp_capabilities {W} _.
Arguments pp_base_url {W} _.

Definition paypal_new {W} (c : PayPalConfig) (builder : HttpBuilder W) : Result Error (PayPalRail W) :=
  _ ← required "client_id" (client_id c);
  _ ← required "client_secret" (client_secret c);
  _ ← required "webhook_id" (webhook_id c);
  _ ← required "base_url" (pp_config_base_url c);
  http ← built_client "paypal" builder (pp_timeout_secs c);
  Ok {| paypal_id := "paypal"; pp_config := c; pp_http := http;
        pp_capabilities := {|
          class := CustodialReversible; reversible := true; requires_kyc := pp_requires_kyc c;
          holds_funds := true; currencies := pp_currencies c; settlement := Days (pp_settlement_days c);
          atomic_multi_party := false |};
        pp_base_url := pp_config_base_url c |}.

Definition safe_path_segment : str -> Result Error str := path_segment "a paypal id".

(** The first completed capture, over the units and their captures in order. *)
Definition find_completed_capture (order : OrderResponse) : option (PurchaseUnit * Capture) :=
  find (fun uc => String.eqb (cap_status uc.2) "COMPLETED")
    (flat_map (fun u => map (pair u) (captures u)) (purchase_units order)).
Definition unit_reference (u : PurchaseUnit) : str :=
  if negb (is_empty (custom_id u)) then custom_id u else pu_reference_id u.
Definition match_capture_for_receipt (order : OrderResponse) (rc : Receipt) : Result Error (option (str * Z)) :=
  uc ← ok_or (paypal_malformed ("order " +:+ or_id order +:+ " has no COMPLETED capture"))
    (find_completed_capture order);
  return_if negb (String.eqb (unit_reference uc.1) (reference rc)) with_ Ok None;
  let cur := to_ascii_uppercase (currency_code (cap_amount uc.2)) in
  return_if negb (eq_ignore_ascii_case cur (currency rc)) with_ Ok None;
  amt ← paypal_amount_value_to_minor (value (cap_amount uc.2)) cur;
  return_if amt =? 0 with_ Err (paypal_malformed "completed capture with non-positive amount");
  return_if amt <? amount_minor rc with_ Ok None;
  Ok (Some (cap_id uc.2, amt)).

Section PayPalRail.
Context `{PayPalJson} `{!ProofBytes ChargeProof} `{!ProofBytes RefundProof} {W : Type} `{Clock W}.

Definition check_currency (r : PayPalRail W) : str -> Result Error unit :=
  check_unless_empty (paypal_id r) (currencies (pp_capabilities r)).

Definition token_call (r : PayPalRail W) : HttpCall := {|
  hc_method := "POST"; hc_url := pp_base_url r +:+ "/v1/oauth2/token";
  hc_basic_auth := Some (client_id (pp_config r), Some (client_secret (pp_config r)));
  hc_headers := [("Accept", "application/json")]%string;
  hc_body := FormBody [("grant_type", "client_credentials")]%string |}.
Definition fetch_access_token (r : PayPalRail W) : Eff W Error str :=
  resp ← eff_map_err (fun e => match e with
      | SendFailed e => Rail ("paypal: token request failed: " +:+ e)
      | BodyFailed e => Rail ("paypal: read token response: " +:+ e)
      end) (pp_http r (token_call r));
  _ ← eff_of (map_err (fun e => Rail ("paypal: " +:+ e)) (bounded_len_check resp.1 DEFAULT_MAX_BODY_BYTES));
  return_if negb (is_2xx resp.2) with_ eff_err (Rail ("paypal: token endpoint http " +:+ to_dec resp.2));
  parsed ← parse_as (T := TokenResponse) "paypal" resp.1;
  return_if is_empty (tr_access_token parsed) with_ eff_err (paypal_malformed "empty access_token");
  mret (tr_access_token parsed).

Definition json_call (r : PayPalRail W) (method path : str) (body : option Json) (token : str) : HttpCall := {|
  hc_method := method; hc_url := pp_base_url r +:+ path; hc_basic_auth := None;
  hc_headers := [("Authorization", "Bearer " +:+ token); ("Accept", "application/json")]%string;
  hc_body := json_body body |}.
Definition do_json (r : PayPalRail W) (method path : str) (body : option Json) (token : str)
    : Eff W Error (list byte * Z) :=
  transport "paypal" path (pp_http r) (json_call r method path body token).

Definition paypal_quote (r : PayPalRail W) (req : PayRequest) : Eff W Error Quote :=
  _ ← eff_of (validate req);
  _ ← eff_of (check_currency r (req_currency req));
  quoted (paypal_id r) (settlement (pp_capabilities r)) 300 (req_currency req) req.

Definition order_request (req : PayRequest) (cur v : str) : Json := JObject [
  ("intent", JString "CAPTURE");
  ("purchase_units", JArray [JObject [
    ("reference_id", JString (req_reference req));
    ("custom_id", JString (req_reference req));
    ("amount", JObject [("currency_code", JString cur); ("value", JString v)])]]);
  ("application_context", JObject [
    ("return_url", JString (req_destination req));
    ("cancel_url", JString (req_destination req))])]%string.
Definition approve_link (ls : list Link) : option str :=
  href <$> find (fun l => String.eqb (rel l) "approve") ls.
Definition paypal_charge (r : PayPalRail W) (req : PayRequest) : Eff W Error Receipt :=
  _ ← eff_of (validate req);
  _ ← eff_of (check_currency r (req_currency req));
  let cur := normal_currency (req_currency req) in
  v ← eff_of (paypal_amount_value (req_amount_minor req) cur);
  token ← fetch_access_token r;
  body ← expect_2xx classify_error (do_json r "POST" "/v2/checkout/orders" (Some (order_request req cur v)) token);
  parsed ← parse_as (T := CreateOrderResponse) "paypal" body;
  return_if is_empty (cor_id parsed) with_ eff_err (paypal_malformed "empty order id");
  url ← eff_of (ok_or (paypal_malformed "no approve link in order response") (approve_link (links parsed)));
  mret (open_receipt (paypal_id r) cur (req_reference req)
    {| paypal_order_id := cor_id parsed; approve_url := Some url |}).

Definition capture_verdict (order : OrderResponse) (rc : Receipt) : Result Error bool :=
  m ← match_capture_for_receipt order rc;
  Ok (match m with Some _ => true | None => false end).
Definition capture_order (r : PayPalRail W) (oid token : str) : Eff W Error OrderResponse :=
  body ← expect_2xx classify_error
    (do_json r "POST" ("/v2/checkout/orders/" +:+ oid +:+ "/capture") (Some (JObject [])) token);
  eff_of (map_err (fun e => paypal_malformed ("capture response: " +:+ e)) (from_json body)).
Definition fetch_order (r : PayPalRail W) (oid token : str) : Eff W Error OrderResponse :=
  body ← expect_2xx classify_error (do_json r "GET" ("/v2/checkout/orders/" +:+ oid) None token);
  parse_as "paypal" body.
Definition paypal_verify (r : PayPalRail W) (rc : Receipt) : Eff W Error bool :=
  return_if negb (String.eqb (rail_id rc) (paypal_id r)) with_ mret false;
  let_some p := from_bytes (P := ChargeProof) (proof rc) or_else mret false;
  oid ← eff_of (safe_path_segment (paypal_order_id p));
  token ← fetch_access_token r;
  order ← fetch_order r oid token;
  return_if is_empty (or_id order) with_ eff_err (paypal_malformed "missing order id");
  if String.eqb (or_status order) "COMPLETED" then eff_of (capture_verdict order rc)
  else if String.eqb (or_status order) "APPROVED" then
    captured ← capture_order r oid token;
    return_if negb (String.eqb (or_status captured) "COMPLETED") with_ mret false;
    eff_of (capture_verdict captured rc)
  else mret false.

Definition refund_request (rc : Receipt) (v : str) : Json := JObject [
  ("amount", JObject [("currency_code", JString (currency rc)); ("value", JString v)])]%string.
Definition paypal_refund (r : PayPalRail W) (rc : Receipt) : Eff W Error Receipt :=
  return_if negb (String.eqb (rail_id rc) (paypal_id r)) with_ eff_err (other_rail (paypal_id r) rc);
  p ← eff_of (ok_or (InvalidRequest "receipt proof is not a paypal charge proof")
    (from_bytes (P := ChargeProof) (proof rc)));
  oid ← eff_of (safe_path_segment (paypal_order_id p));
  token ← fetch_access_token r;
  order ← fetch_order r oid token;
  uc ← eff_of (ok_or (Rail ("paypal: order " +:+ or_id order +:+ " has no COMPLETED capture to refund"))
    (find_completed_capture order));
  return_if negb (String.eqb (unit_reference uc.1) (reference rc)) with_
    eff_err (Rail "paypal: order's captured purchase unit does not match this receipt's reference");
  cid ← eff_of (safe_path_segment (cap_id uc.2));
  v ← eff_of (paypal_amount_value (amount_minor rc) (currency rc));
  body ← expect_2xx classify_error
    (do_json r "POST" ("/v2/payments/captures/" +:+ cid +:+ "/refund") (Some (refund_request rc v)) token);
  parsed ← parse_as (T := RefundResponse) "paypal" body;
  let code := currency_code (rfr_amount parsed) in
  let cur := if is_empty code then currency rc else to_ascii_uppercase code in
  amt ← eff_of (if String.eqb (rfr_status parsed) "COMPLETED"
                then paypal_amount_value_to_minor (value (rfr_amount parsed)) cur else Ok 0);
  now ← read_clock;
  mret {|
    rail_id := paypal_id r;
    amount_minor := amt;
    currency := cur;
    reference := reference rc;
    proof := to_bytes {| refund_id := rfr_id parsed; status_at_refund := rfr_status parsed |};
    settled_at_unix := now;
  |}.

Definition signature_request (r : PayPalRail W) (h : PayPalWebhookHeaders) (event : Json) : Json := JObject [
  ("transmission_id", JString (transmission_id h));
  ("transmission_time", JString (transmission_time h));
  ("cert_url", JString (cert_url h));
  ("auth_algo", JString (auth_algo h));
  ("transmission_sig", JString (transmission_sig h));
  ("webhook_id", JString (webhook_id (pp_config r)));
  ("webhook_event", event)]%string.
Definition unexpected (e : Error) : PayPalWebhookError := UnexpectedStatus (error_display e).
Definition handle_webhook (r : PayPalRail W) (body : list byte) (h : PayPalWebhookHeaders)
    : Eff W PayPalWebhookError PayPalWebhookEvent :=
  return_if negb (all_present h) with_ eff_err MissingSignatureHeaders;
  event ← eff_of (map_err (fun _ => MalformedResponse "webhook body is not valid JSON") (from_json (T := Json) body));
  token ← eff_map_err unexpected (fetch_access_token r);
  resp ← eff_map_err unexpected
    (do_json r "POST" "/v1/notifications/verify-webhook-signature" (Some (signature_request r h event)) token);
  return_if negb (is_2xx resp.2) with_
    eff_err (UnexpectedStatus ("verify-webhook-signature http " +:+ to_dec resp.2));
  verdict ← eff_of (map_err (fun e => MalformedResponse ("verify response: " +:+ e))
    (from_json (T := VerifyResponse) resp.1));
  return_if negb (String.eqb (verification_status verdict) "SUCCESS") with_ eff_err InvalidSignature;
  parsed ← eff_of (parse_capture_completed body);
  let cur := to_ascii_uppercase (pce_currency_code parsed) in
  amt ← eff_of (map_err (fun e => MalformedResponse (error_display e))
    (paypal_amount_value_to_minor (pce_value parsed) cur));
  return_if amt =? 0 with_ eff_err (MalformedResponse "non-positive amount");
  mret {| ppe_event_id := pce_event_id parsed; ppe_reference := pce_custom_id parsed;
          ppe_amount_minor := amt; ppe_currency := cur |}.
Definition delivery_headers (d : WebhookDelivery) : PayPalWebhookHeaders := {|
  transmission_id := header_or_empty "PAYPAL-TRANSMISSION-ID" d;
  transmission_time := header_or_empty "PAYPAL-TRANSMISSION-TIME" d;
  cert_url := header_or_empty "PAYPAL-CERT-URL" d;
  auth_algo := header_or_empty "PAYPAL-AUTH-ALGO" d;
  transmission_sig := header_or_empty "PAYPAL-TRANSMISSION-SIG" d |}.
Definition paypal_webhook (r : PayPalRail W) (d : WebhookDelivery) : Eff W Error WebhookEvent :=
  event ← eff_map_err (fun e => match e with
      | UnexpectedStatus _ => Rail (paypal_webhook_error_display e)
      | other => InvalidRequest (paypal_webhook_error_display other)
      end) (handle_webhook r (raw_body d) (delivery_headers d));
  mret (settlement_event (paypal_id r) (ppe_event_id event) (ppe_reference event) true
    (ppe_amount_minor event) (ppe_currency event)).
Definition paypal_rail (r : PayPalRail W) : PaymentRail W := {|
  id := paypal_id r;
  capabilities := pp_capabilities r;
  quote := paypal_quote r;
  charge := paypal_charge r;
  verify := paypal_verify r;
  validate_destination := redirect_url (paypal_id r);
  refund := paypal_refund r;
  verify_webhook := paypal_webhook r;
|}.
End PayPalRail.
#[export] Hint Unfold paypal_rail paypal_new paypal_verify paypal_charge paypal_quote safe_path_segment do_json
  fetch_order capture_order : adapter.

(** ** Lemmas: amounts *)

Lemma substring_digits n m s :
  str_all is_ascii_digit s = true -> str_all is_ascii_digit (String.substring n m s) = true.
Proof.
  revert n m. induction s as [|a s IH]; intros [|n] [|m] Hd; try done; cbn in *;
    apply andb_true_iff in Hd as [Ha Hs]; auto. rewrite Ha. cbn. now apply IH.
Qed.
Lemma length_substring_prefix m s : (m <= String.length s)%nat -> String.length (String.substring 0 m s) = m.
Proof. revert m. induction s as [|a s IH]; intros [|m] Hl; cbn in *; try done; [lia|]. now rewrite IH by lia. Qed.
Lemma substring_whole s m : String.length s = m -> String.substring 0 m s = s.
Proof. revert m. induction s as [|a s IH]; intros m <-; cbn; [done|]. now rewrite IH. Qed.

Lemma two_fraction_digits f : str_all is_ascii_digit f = true ->
  str_all is_ascii_digit (two_fraction_bytes f) = true /\ String.length (two_fraction_bytes f) = 2%nat.
Proof.
  intros Hf. unfold two_fraction_bytes. split.
  - apply substring_digits. unfold pad_right. rewrite str_all_app, Hf, str_all_repeat by done. done.
  - apply length_substring_prefix. unfold pad_right. rewrite length_append, length_str_repeat. lia.
Qed.
Lemma two_fraction_range f : str_all is_ascii_digit f = true -> 0 <= dec_value (two_fraction_bytes f) < 100.
Proof.
  intros Hf. destruct (two_fraction_digits f Hf) as [Hd Hl].
  pose proof (dec_value_range _ Hd) as Hr. unfold len in Hr. now rewrite Hl in Hr.
Qed.

(** A decimal string, read in a two-decimal currency. *)
Lemma paypal_reads w f c :
  is_three_decimal (normal_currency c) = false -> is_zero_decimal (normal_currency c) = false ->
  w <> EmptyString -> str_all is_ascii_digit w = true -> str_all is_ascii_digit f = true ->
  result_ok (paypal_amount_value_to_minor (decimal_text w (Some f)) c) =
  (fun whole => paypal_scale whole (dec_value (two_fraction_bytes f))) <$> in_range 0 u64_max (dec_value w).
Proof.
  intros H3 H0 Hw Hwd Hfd. unfold paypal_amount_value_to_minor. rewrite H3, H0.
  rewrite trim_graphic.
  2:{ cbn [decimal_text]. rewrite !str_all_app.
      rewrite (str_all_impl is_ascii_digit is_graphic w), (str_all_impl is_ascii_digit is_graphic f);
        auto using digit_graphic. }
  cbn [decimal_text]. assert (split_once "." (w +:+ "." +:+ f) = Some (w, f)) as ->.
  { apply split_once_Some. split; [done|]. now apply digits_no_dot. }
  cbn [fst snd]. rewrite parse_u64_digits by done.
  destruct (in_range 0 u64_max (dec_value w)) as [v|]; [|done]. cbn.
  destruct (two_fraction_digits f Hfd) as [Hd Hl]. pose proof (two_fraction_range f Hfd).
  rewrite parse_u64_digits; [|intros E; now rewrite E in Hl | done].
  rewrite in_range_ok by (unfold_ints; lia). done.
Qed.
Lemma paypal_scale_exact whole frac : 0 <= whole <= u64_max -> 0 <= frac < 100 ->
  paypal_scale whole frac = (whole * 100 + frac) mod 2 ^ 64.
Proof. intros Hw Hf. unfold paypal_scale, as_u64. now rewrite Zplus_mod_idemp_l. Qed.

(** What PayPal's and the table's renderings look like, row by row. *)
Definition paypal_row_ok (i : CurrencyInfo) : bool :=
  let c := cur_code i in
  Bool.eqb (is_zero_decimal c) (existsb (String.eqb c) ZERO_DECIMAL_CURRENCIES) &&
  (if is_three_decimal c then (cur_exponent i =? 3) && negb (is_zero_decimal c) else true).
Lemma paypal_rows : forallb paypal_row_ok CURRENCY_DEFS = true.
Proof. vm_compute. reflexivity. Qed.

Lemma two_decimals_text a : 0 <= a ->
  two_decimals a = decimal_text (to_dec (a / 100)) (Some (pad_left 2 (to_dec (a mod 100)))) /\
  str_all is_ascii_digit (pad_left 2 (to_dec (a mod 100))) = true /\
  String.length (pad_left 2 (to_dec (a mod 100))) = 2%nat /\
  dec_value (pad_left 2 (to_dec (a mod 100))) = a mod 100.
Proof.
  intros Ha. pose proof (Z.mod_pos_bound a 100 ltac:(lia)) as Hm.
  destruct (to_dec_spec (a mod 100) ltac:(lia)) as (_ & Hd & Hv & Hl).
  specialize (Hl 2%nat ltac:(lia) ltac:(cbn; lia)). split; [done|]. split_and!.
  - now apply str_all_digit_pad_left.
  - now apply length_pad_left.
  - now rewrite dec_value_pad_left.
Qed.

(** ** Theorems: amounts *)

(** PayPal's amounts, there and back. The decimal string an amount is charged as reads back as
    that amount, for every [u64] amount and every currency PayPal takes, including the
    three it keeps without decimals. *)
Theorem paypal_amount_roundtrip (a : Z) (c s : str) (Ha : is_u64 a)
    (Hs : paypal_amount_value a c = Ok s) : paypal_amount_value_to_minor s c = Ok a.
Proof.
  unfold is_u64 in Ha. unfold paypal_amount_value in Hs.
  destruct (is_three_decimal (normal_currency c)) eqn:E3; [done|].
  destruct (is_zero_decimal (normal_currency c)) eqn:E0; injection Hs as <-.
  - unfold paypal_amount_value_to_minor. rewrite E3, E0.
    destruct (to_dec_spec a ltac:(lia)) as (Hn & Hd & Hv & _).
    rewrite trim_graphic by (apply (str_all_impl is_ascii_digit); auto using digit_graphic).
    rewrite parse_u64_digits, Hv, in_range_ok by done. done.
  - destruct (two_decimals_text a ltac:(lia)) as (-> & Hfd & Hfl & Hfv).
    destruct (to_dec_spec (a / 100) ltac:(apply Z.div_pos; lia)) as (Hn & Hd & Hv & _).
    apply result_ok_Some. rewrite paypal_reads by done. unfold two_fraction_bytes.
    rewrite (pad_right_full _ _ Hfl), (substring_whole _ _ Hfl), Hv, Hfv.
    pose proof (Z.div_mod a 100 ltac:(lia)). pose proof (Z.mod_pos_bound a 100 ltac:(lia)).
    assert (0 <= a / 100) by (apply Z.div_pos; lia).
    rewrite in_range_ok by lia. cbn. f_equal. rewrite paypal_scale_exact by lia.
    rewrite Z.mod_small; unfold_ints; lia.
Qed.
Lemma paypal_amount_roundtrip_witness :
  paypal_amount_value_to_minor "184467440737095516.15" "eur" = Ok 18446744073709551615.
Proof.
  apply paypal_amount_roundtrip; [split; apply Z.leb_le; reflexivity|]. vm_compute. reflexivity.
Defined.

(** C30: bounds on the amount PayPal reports. A decimal [w.f] in a two-decimal currency is read exactly when
    its whole part fits a [u64], as its value in hundredths, further digits dropped, modulo
    [2^64]: the amount is exact precisely when the value fits a [u64], and where it does not,
    what verify compares is smaller than what moved, never larger. *)
Theorem paypal_amount_bounds (w f c : str) (v : Z)
    (H3 : is_three_decimal (normal_currency c) = false) (H0 : is_zero_decimal (normal_currency c) = false)
    (Hw : w <> EmptyString) (Hwd : str_all is_ascii_digit w = true) (Hfd : str_all is_ascii_digit f = true) :
  let hundredths := dec_value w * 100 + dec_value (two_fraction_bytes f) in
  (paypal_amount_value_to_minor (decimal_text w (Some f)) c = Ok v <->
   dec_value w <= u64_max /\ v = hundredths mod 2 ^ 64) /\
  (paypal_amount_value_to_minor (decimal_text w (Some f)) c = Ok v ->
   is_u64 v /\ v <= hundredths /\ (v = hundredths <-> hundredths <= u64_max)).
Proof.
  intros hundredths. pose proof (two_fraction_range f Hfd) as Hf. pose proof (dec_value_nonneg w Hwd) as Hw0.
  assert (paypal_amount_value_to_minor (decimal_text w (Some f)) c = Ok v <->
    dec_value w <= u64_max /\ v = hundredths mod 2 ^ 64) as Hiff.
  { rewrite <- result_ok_Some, paypal_reads by done.
    destruct (in_range 0 u64_max (dec_value w)) as [x|] eqn:E; cbn.
    - apply in_range_Some in E as [-> E]. rewrite paypal_scale_exact by lia. subst hundredths.
      split; [intros [= <-]; lia | now intros [_ ->]].
    - apply in_range_None in E. split; [done | lia]. }
  split; [exact Hiff|]. intros [Hm ->]%Hiff.
  pose proof (Z.mod_pos_bound hundredths (2 ^ 64) ltac:(lia)).
  assert (0 <= hundredths) by lia. unfold_ints. split; [lia|]. split; [now apply Z.mod_le|].
  split; [lia|]. intros Hle. apply Z.mod_small. lia.
Qed.
Lemma paypal_amount_bounds_witness :
  paypal_amount_value_to_minor "184467440737095516.179" "USD" = Ok 1.
Proof.
  apply (paypal_amount_bounds "184467440737095516" "179" "USD" 1); try reflexivity; [discriminate|].
  split; [apply Z.leb_le; reflexivity | vm_compute; reflexivity].
Defined.

Lemma row_at c i k : lookup c = Ok i -> normal_currency c = k -> table !! k = Some i.
Proof. intros [Hin Hc]%lookup_sound <-. unfold normal_currency. rewrite <- Hc. now apply table_lookup. Qed.
Lemma paypal_row c i : lookup c = Ok i ->
  is_zero_decimal (normal_currency c) = existsb (String.eqb (normal_currency c)) ZERO_DECIMAL_CURRENCIES /\
  (is_three_decimal (normal_currency c) = true -> cur_exponent i = 3).
Proof.
  intros [Hin Hc]%lookup_sound. unfold normal_currency. rewrite <- Hc.
  pose proof paypal_rows as Hall. rewrite forallb_forall in Hall. apply list_elem_of_In in Hin.
  specialize (Hall _ Hin). unfold paypal_row_ok in Hall. apply andb_true_iff in Hall as [Hz H3].
  apply Bool.eqb_prop in Hz. split; [done|]. intros E. rewrite E in H3. apply andb_true_iff in H3 as [H3 _].
  now apply Z.eqb_eq.
Qed.
(** The three currencies PayPal keeps without decimals, and what the table says of them. *)
Lemma zero_decimal_rows c i : lookup c = Ok i ->
  is_zero_decimal (normal_currency c) = true <->
  (normal_currency c = "JPY"%string /\ cur_exponent i = 0) \/
  ((normal_currency c = "HUF"%string \/ normal_currency c = "TWD"%string) /\ cur_exponent i = 2).
Proof.
  intros Hl. split.
  - intros Hz. rewrite (proj1 (paypal_row c i Hl)) in Hz.
    apply existsb_exists in Hz as (k & Hk & E%String.eqb_eq). pose proof (row_at c i k Hl E) as Ht.
    destruct Hk as [<-|[<-|[<-|[]]]]; vm_compute in Ht; injection Ht as <-; tauto.
  - intros [[-> _]|[[-> | ->] _]]; vm_compute; reflexivity.
Qed.
Lemma dec_no_dot s w f : str_all is_ascii_digit s = true -> s <> w +:+ "." +:+ f.
Proof. intros Hs ->. rewrite !str_all_app in Hs. cbn in Hs. now rewrite andb_false_r in Hs. Qed.
Lemma dec_fraction_length a b w w' f f' :
  w = to_dec a -> w' = to_dec b -> 0 <= a -> 0 <= b ->
  w +:+ "." +:+ f = w' +:+ "." +:+ f' -> String.length f = String.length f'.
Proof.
  intros -> -> Ha Hb E. destruct (to_dec_spec a Ha) as (_ & Hda & _), (to_dec_spec b Hb) as (_ & Hdb & _).
  pose proof (proj2 (split_once_Some "." _ _ f) (conj eq_refl (digits_no_dot _ Hda))) as E1.
  pose proof (proj2 (split_once_Some "." _ _ f') (conj eq_refl (digits_no_dot _ Hdb))) as E2.
  cbn in *. rewrite E in E1. congruence.
Qed.

(** PayPal's decimal strings and the currency table's. For a currency of the table, the amount string
    PayPal is sent is the one the shared table would write exactly for JPY and for the
    two-decimal currencies other than HUF and TWD. An amount in HUF or TWD minor units goes
    to PayPal with its hundredths read as whole units, a hundred times the amount asked for. *)
Theorem paypal_amount_agrees (a e : Z) (c : str) (Ha : 0 <= a) (He : exponent c = Ok e) :
  result_ok (paypal_amount_value a c) = result_ok (minor_to_major_string a c) <->
  normal_currency c = "JPY"%string \/
  (e = 2 /\ normal_currency c <> "HUF"%string /\ normal_currency c <> "TWD"%string).
Proof.
  pose proof He as He'. apply exponent_lookup in He' as (i & Hl & <-).
  destruct (paypal_row c i Hl) as (_ & H3). pose proof (zero_decimal_rows c i Hl) as Hz.
  unfold paypal_amount_value, minor_to_major_string. rewrite He. cbn [mbind result_bind mret result_ret].
  pose proof (to_dec_spec a Ha) as (_ & Hd & _). assert (0 <= a / 100) by (apply Z.div_pos; lia).
  destruct (is_three_decimal (normal_currency c)) eqn:E3.
  { rewrite (H3 eq_refl). split; [done|]. intros [E|[? _]]; [|lia]. rewrite E in E3. vm_compute in E3. done. }
  destruct (is_zero_decimal (normal_currency c)) eqn:E0; cbn [result_ok].
  - destruct (proj1 Hz eq_refl) as [[Hj ->]|[Hht ->]]; cbn [Z.eqb result_ok]; split; try tauto.
    + intros [= E]. now apply dec_no_dot in E.
    + intros [E|(_ & ? & ?)]; [|tauto]. destruct Hht; congruence.
  - assert (normal_currency c <> "JPY"%string /\ normal_currency c <> "HUF"%string /\ normal_currency c <> "TWD"%string)
      as (? & ? & ?) by (split_and!; intros E; rewrite E in E0; vm_compute in E0; discriminate E0).
    destruct (exponent_cases c _ He) as [Ee|[Ee|Ee]]; rewrite Ee; cbn [Z.eqb result_ok]; split; try tauto.
    + intros [= E]. unfold two_decimals in E. symmetry in E. now apply dec_no_dot in E.
    + intros [E|[? _]]; [done | lia].
    + intros [= E]. exfalso. eapply dec_fraction_length in E; [|done | done | lia | apply Z.div_pos; lia].
      rewrite (proj1 (proj2 (proj2 (two_decimals_text a Ha)))), length_pad_left in E; [done|].
      pose proof (Z.mod_pos_bound a (10 ^ 3) ltac:(lia)).
      destruct (to_dec_spec (a mod 10 ^ 3) ltac:(lia)) as (_ & _ & _ & Hlen). apply Hlen; [lia|]. change (10 ^ Z.of_nat (Z.to_nat 3)) with (10 ^ 3). lia.
    + intros [E|[? _]]; [done | lia].
Qed.
Lemma paypal_amount_agrees_witness :
  paypal_amount_value 10000 "HUF" = Ok "10000"%string /\
  result_ok (paypal_amount_value 10000 "huf") <> result_ok (minor_to_major_string 10000 "huf").
Proof.
  split; [vm_compute; reflexivity|]. rewrite (paypal_amount_agrees 10000 2 "huf"); [| lia | vm_compute; reflexivity].
  vm_compute. intros [E|(_ & E & _)]; [discriminate E | now apply E].
Defined.

(** ** Lemmas: verify *)

(** The first completed capture of an order, as evidence. *)
Definition order_captured (order : OrderResponse) (ev : Evidence) : Prop :=
  exists u c amt, find_completed_capture order = Some (u, c) /\
    paypal_amount_value_to_minor (value (cap_amount c)) (to_ascii_uppercase (currency_code (cap_amount c))) = Ok amt /\
    amt <> 0 /\
    ev = {| ev_reference := Some (unit_reference u);
            ev_currency := to_ascii_uppercase (currency_code (cap_amount c)); ev_amount := amt |}.
Lemma capture_verdict_true order rc :
  capture_verdict order rc = Ok true <-> exists ev, order_captured order ev /\ supports ev rc.
Proof.
  unfold capture_verdict, match_capture_for_receipt, order_captured, supports. split.
  - intros H. run_inv H. destruct x0 as [u c]. cbn in Hx. revert Hx.
    destruct (String.eqb_spec (unit_reference u) (reference rc)) as [Er|]; cbn; [|now intros [= <-]].
    destruct (eq_ignore_ascii_case _ (currency rc)) eqn:Ec; cbn; [|now intros [= <-]]. intros Hx.
    destruct (paypal_amount_value_to_minor _ _) as [amt|] eqn:Ea; [|done]. cbn in Hx.
    destruct (Z.eqb_spec amt 0); [done|]. destruct (Z.ltb_spec amt (amount_minor rc)); [now injection Hx as <-|].
    eexists. split; [eauto 10|]. done.
  - intros (ev & (u & c & amt & Hf & Ha & Hn%Z.eqb_neq & ->) & Hr & Hc & Hle%Z.ltb_ge). cbn in *.
    rewrite Hf. cbn. rewrite Hr, String.eqb_refl, Hc. cbn. rewrite Ha. cbn. now rewrite Hn, Hle.
Qed.
Lemma order_captured_fun order ev ev' : order_captured order ev -> order_captured order ev' -> ev' = ev.
Proof.
  intros (u & c & a & Hf & Ha & _ & ->) (u' & c' & a' & Hf' & Ha' & _ & ->).
  rewrite Hf in Hf'. injection Hf' as <- <-. rewrite Ha in Ha'. now injection Ha' as <-.
Qed.

Section PayPalLemmas.
Context `{PayPalJson} `{!ProofBytes ChargeProof} `{!ProofBytes RefundProof} {W : Type} `{Clock W}.

(** The order the receipt's proof names is captured, or approved and captured
    by this very verify. *)
Definition paypal_evidence (r : PayPalRail W) (p : list byte) (ref : str) (w : W) (ev : Evidence) (w' : W) : Prop :=
  exists cp token w1 order w2,
    from_bytes (P := ChargeProof) p = Some cp /\ is_safe_path_segment (paypal_order_id cp) = true /\
    fetch_access_token r w = (Ok token, w1) /\
    fetch_order r (paypal_order_id cp) token w1 = (Ok order, w2) /\ or_id order <> EmptyString /\
    ((or_status order = "COMPLETED"%string /\ w' = w2 /\ order_captured order ev) \/
     (or_status order = "APPROVED"%string /\ exists captured,
        capture_order r (paypal_order_id cp) token w2 = (Ok captured, w') /\
        or_status captured = "COMPLETED"%string /\ order_captured captured ev)).
#[export] Instance paypal_verifies r : VerifiesBy (paypal_rail r) (paypal_evidence r).
Proof.
  intros rc w w'. cbn [verify paypal_rail id]. unfold paypal_verify, paypal_evidence. split.
  - intros Hv. run_inv Hv. apply names_rail in Hc. apply path_segment_Ok in Hx as [-> Hs].
    apply is_empty_false in Hc0. split; [done|].
    destruct (String.eqb_spec (or_status x1) "COMPLETED") as [Est|_].
    { apply eff_of_Ok in Hv as [Hv ->]. apply capture_verdict_true in Hv as (ev & ? & ?). eauto 20. }
    destruct (String.eqb_spec (or_status x1) "APPROVED") as [Est|_]; [|now apply eff_ret_Ok in Hv].
    run_inv Hv. apply negb_false_iff, String.eqb_eq in Hc1.
    apply capture_verdict_true in Hv as (ev & ? & ?). exists ev. split; [|done]. eauto 20.
  - intros (Hi%names_rail & ev & (cp & token & w1 & order & w2 & Hp & Hs & Ht & Ho & Hid%is_empty_false & Hst) & Hsup).
    rewrite Hi, Hp. apply eff_bind_Ok. exists (paypal_order_id cp), w. split.
    { apply eff_of_Ok. split; [|done]. now apply path_segment_Ok. }
    apply eff_bind_Ok. exists token, w1. split; [done|]. apply eff_bind_Ok. exists order, w2. split; [done|].
    rewrite Hid. destruct Hst as [(-> & -> & Hcap)|(-> & captured & Hcap & Hcst & Hev)].
    + apply eff_of_Ok. split; [|done]. apply capture_verdict_true. eauto.
    + change (String.eqb "APPROVED" "COMPLETED") with false. rewrite String.eqb_refl.
      apply eff_bind_Ok. exists captured, w'. split; [done|]. rewrite Hcst, String.eqb_refl. cbn [negb].
      apply eff_of_Ok. split; [|done]. apply capture_verdict_true. eauto.
Qed.
Lemma paypal_compares_reference r : compares_reference (paypal_rail r).
Proof.
  apply (evidence_compares _ (paypal_evidence r)).
  - intros p ref w ev v (? & ? & ? & ? & ? & _ & _ & _ & _ & _ & Hst).
    destruct Hst as [(_ & _ & Hc)|(_ & ? & _ & _ & Hc)]; destruct Hc as (? & ? & ? & _ & _ & _ & ->); eauto.
  - intros p ref ref' w ev v ev' v' (cp & t & w1 & o & w2 & Hp & _ & Ht & Ho & _ & Hst)
      (cp' & t' & w1' & o' & w2' & Hp' & _ & Ht' & Ho' & _ & Hst').
    rewrite Hp in Hp'. injection Hp' as <-. rewrite Ht in Ht'. injection Ht' as <- <-.
    rewrite Ho in Ho'. injection Ho' as <- <-.
    destruct Hst as [(Es & -> & Hc)|(Es & k & Hk & _ & Hc)], Hst' as [(Es' & -> & Hc')|(Es' & k' & Hk' & _ & Hc')];
      try (rewrite Es in Es'; discriminate Es').
    + eapply order_captured_fun; eauto.
    + rewrite Hk in Hk'. injection Hk' as <- <-. eapply order_captured_fun; eauto.
Qed.
(** PayPal, asked with the delivery's own headers and body under the configured
    webhook id, answers SUCCESS. *)
Definition paypal_authentic (r : PayPalRail W) (d : WebhookDelivery) (w : W) : Prop :=
  exists event token w1 resp w2 verdict,
    all_present (delivery_headers d) = true /\ from_json (T := Json) (raw_body d) = Ok event /\
    fetch_access_token r w = (Ok token, w1) /\
    do_json r "POST" "/v1/notifications/verify-webhook-signature"
      (Some (signature_request r (delivery_headers d) event)) token w1 = (Ok resp, w2) /\
    is_2xx resp.2 = true /\ from_json (T := VerifyResponse) resp.1 = Ok verdict /\
    verification_status verdict = "SUCCESS"%string.
Lemma parse_capture_id body ev : parse_capture_completed body = Ok ev -> pce_event_id ev <> EmptyString.
Proof. unfold parse_capture_completed. intros Hp. run_inv Hp. injection Hp as <-. now apply is_empty_false. Qed.
#[export] Instance paypal_webhook_answers r : WebhookAnswers (paypal_rail r) (paypal_authentic r).
Proof.
  intros d w ev w' Hw. cbn [verify_webhook paypal_rail] in Hw. unfold paypal_webhook, handle_webhook in Hw.
  run_inv Hw. simplify_eq. split; [done|].
  apply negb_false_iff in Hc, Hc0, Hc1. apply String.eqb_eq in Hc1.
  apply parse_capture_id in Hx4. split; [exact Hx4|]. repeat eexists; eassumption.
Qed.
Lemma paypal_amount_value_normal n c : paypal_amount_value n (normal_currency c) = paypal_amount_value n c.
Proof. unfold paypal_amount_value. now rewrite normal_currency_idem. Qed.
Definition paypal_places : Places := {|
  amount_at := ["purchase_units"; "0"; "amount"; "value"];
  currency_at := At ["purchase_units"; "0"; "amount"; "currency_code"];
  reference_at := ["purchase_units"; "0"; "custom_id"] |}%string.
(** PayPal reads plain decimals. What the adapter writes in two decimals, or in none
    for the forint and the new Taiwan dollar, is not every currency's minor unit. *)
Definition paypal_terms : Terms := {| price := in_major_units; exact_below := 2 ^ 64;
  ratio c :=
    if lists_currency ["HUF"; "TWD"] c then (100, 1)
    else if lists_currency ["BIF"; "CLP"; "DJF"; "GNF"; "ISK"; "KMF"; "KRW"; "PYG"; "RWF"; "UGX"; "VND"; "VUV"; "XAF"; "XOF"; "XPF"] c
    then (1, 100)
    else if lists_currency ["IQD"; "LYD"] c then (10, 1) else (1, 1) |}.
Lemma two_decimals_read c n : 0 <= n -> in_major_units c (two_decimals n) = Some (Major n 2).
Proof.
  intros Hn. unfold two_decimals. pose proof (Z.mod_pos_bound n 100 ltac:(lia)).
  destruct (to_dec_spec (n / 100)) as (Hne & Hd & Hv & _); [apply Z.div_pos; lia|].
  destruct (to_dec_spec (n mod 100)) as (_ & Hd' & Hv' & Hl'); [lia|]. specialize (Hl' 2%nat ltac:(lia) ltac:(cbn; lia)).
  set (f := pad_left 2 (to_dec (n mod 100))). assert (len f = 2) as Hlf by (unfold len; subst f; rewrite length_pad_left; lia).
  change (to_dec (n / 100) +:+ "." +:+ f) with (decimal_text (to_dec (n / 100)) (Some f)). rewrite decimal_read; try done.
  - rewrite Hlf. subst f. rewrite dec_value_pad_left, Hv, Hv'. do 2 f_equal. pose proof (Z.div_mod n 100). lia.
  - split; [intros E; now rewrite E in Hlf|]. apply str_all_digit_pad_left, Hd'.
Qed.
Lemma paypal_amount_asked c n t : is_u64 n -> paypal_amount_value n c = Ok t -> normal_currency c = c ->
  asks_for paypal_terms c t n.
Proof.
  intros [Hn _] Ht Hc _. unfold paypal_amount_value, is_three_decimal, is_zero_decimal in Ht. rewrite Hc in Ht.
  run_inv Ht. cbn [paypal_terms price ratio]. destruct (lists_currency ZERO_DECIMAL_CURRENCIES c) eqn:Ez; injection Ht as <-.
  - exists (Major n 0). split; [destruct (to_dec_spec n Hn) as (Hne & Hd & Hv & _); rewrite <- Hv at 2; now apply (decimal_read c _ None)|].
    destruct (lists_currency ["HUF"; "TWD"]%string c) eqn:Eh.
    + cbn. rewrite (lists_places _ 2 c Eh eq_refl). lia.
    + assert (lists_currency ["JPY"]%string c = true) as Ej.
      { unfold lists_currency in *. cbn [existsb ZERO_DECIMAL_CURRENCIES] in *. destruct (eq_ignore_ascii_case "JPY" c); [done|].
        rewrite Eh in Ez. discriminate Ez. }
      rewrite !(lists_apart ["JPY"]%string) by (done || reflexivity). cbn. rewrite (lists_places _ 0 c Ej eq_refl). lia.
  - exists (Major n 2). split; [now apply two_decimals_read|].
    destruct (lists_currency ["HUF"; "TWD"]%string c) eqn:Eh.
    { unfold lists_currency in *. cbn [existsb ZERO_DECIMAL_CURRENCIES] in *. rewrite Eh, orb_true_r in Ez. discriminate Ez. }
    destruct (lists_currency _ c) eqn:E0 at 1; [cbn; rewrite (lists_places _ 0 c E0 eq_refl); lia|].
    destruct (lists_currency _ c) eqn:E3 at 1; [cbn; rewrite (lists_places _ 3 c E3 eq_refl); lia|].
    cbn. rewrite <- Hc, unlisted_places; [lia|]. rewrite Hc. unfold lists_currency in *.
    cbn [existsb ZERO_DECIMAL_CURRENCIES THREE_DECIMAL_CURRENCIES WHOLE_UNITS THOUSANDTHS app] in *.
    rewrite !orb_false_iff in *. tauto.
Qed.
(** A token is fetched first. *)
Definition paypal_ordered (r : PayPalRail W) (o : Order) (rc : Receipt) (w w' : W) : Prop :=
  exists token v, fetch_access_token r w = (Ok token, v) /\
    ordered_by (pp_http r) "POST" (pp_base_url r +:+ "/v2/checkout/orders") (reads paypal_places) o v w'.
#[export] Instance paypal_orders r : ChargeOrders (paypal_rail r) paypal_terms (paypal_ordered r).
Proof.
  intros q rc w w' Hu Hc. charge_inv Hc. orders x1 (normal_currency (req_currency q)).
  - eexists _, _. split; [eassumption | sent].
  - apply paypal_amount_asked; [done | done | apply normal_currency_idem].
Qed.
#[export] Instance paypal_opens r : ChargeOpens (paypal_rail r).
Proof. charge_opens. Qed.
#[export] Instance paypal_quotes r : QuotesCharge (paypal_rail r) 300.
Proof. quotes_before. Qed.
(** A token, the order and its completed capture first. *)
Definition paypal_refunded (r : PayPalRail W) (text : str) (rc : Receipt) (w w' : W) : Prop :=
  exists cp token order u c w1 w2 w3 now, from_bytes (P := ChargeProof) (proof rc) = Some cp /\
    fetch_access_token r w = (Ok token, w1) /\ fetch_order r (paypal_order_id cp) token w1 = (Ok order, w2) /\
    find_completed_capture order = Some (u, c) /\ unit_reference u = reference rc /\
    called (pp_http r) "POST" (pp_base_url r +:+ "/v2/payments/captures/" +:+ cap_id c +:+ "/refund") (fun b =>
      body_at ["amount"; "value"]%string b = Some text /\
      body_at ["amount"; "currency_code"]%string b = Some (currency rc)) w2 w3 /\
    read_clock w3 = (Ok (E := Error) now, w').
#[export] Instance paypal_refunds r : RefundOrders (paypal_rail r) paypal_terms (paypal_refunded r).
Proof.
  intros rc rc' w w' Hu Hr. cbn in Hr. unfold paypal_refund in Hr. run_inv Hr.
  apply names_rail in Hc. apply path_segment_Ok in Hx0 as [-> _]. apply path_segment_Ok in Hx4 as [-> _].
  apply negb_false_iff, String.eqb_eq in Hc0. destruct x3 as [u c]. apply expect_2xx_Ok in Hx6.
  subst. split_and!; try reflexivity; [assumption|]. eexists. split.
  - do 9 eexists. split; [eassumption|]. split; [eassumption|]. split; [eassumption|]. split; [eassumption|].
    split; [eassumption|]. split; [|eassumption]. by_the_call. now repeat split.
  - rewrite <- paypal_amount_value_normal in Hx5. apply paypal_amount_asked; [done | done | apply normal_currency_idem].
Qed.
#[export] Instance paypal_rail_laws c builder r :
  paypal_new c builder = Ok r -> RailLaws (fun _ : W => True) (paypal_rail r).
Proof. intros Hnew. solve_rail_laws Hnew. Qed.
End PayPalLemmas.
