(* ===== verification/Mollie.v ===== *)
(** * The Mollie adapter ([patala-fiat/src/mollie/*.rs])

    Payments with hosted checkout. Mollie does not sign its webhooks: a
    notification is a form body with a payment id, and the adapter answers from
    what it fetches for that id. verify answers [false] where the fetch fails. *)

From S2P Require Import Prelude RustStr Core External HttpShared FiatDest Json Currency Adapter Orders UrlForm.

(** ** models.rs *)

Definition mollie_unsupported (cur : str) : Error := InvalidRequest
  ("mollie: " +:+ cur +:+ " is not a 2-decimal ISO-4217 currency; its amount.value decimal-string format is not verified against Mollie's documented semantics, refusing rather than guessing (see models.rs HONESTY note)").
Definition mollie_malformed : str -> Error := api_malformed "mollie".
Definition mollie_refuses (e : CurrencyError) : Error := InvalidRequest ("mollie: " +:+ currency_error_display e).
Definition mollie_amount_value (amt : Z) (c : str) : Result Error str :=
  let cur := normal_currency c in
  exp ← map_err mollie_refuses (exponent cur);
  return_if negb (exp =? 2) with_ Err (mollie_unsupported cur);
  map_err mollie_refuses (minor_to_major_string amt cur).
Definition mollie_amount_value_to_minor (value c : str) : Result Error Z :=
  let cur := normal_currency c in
  exp ← map_err (fun e => mollie_malformed (currency_error_display e)) (exponent cur);
  return_if negb (exp =? 2) with_ Err (mollie_unsupported cur);
  map_err (fun e => mollie_malformed (currency_error_display e)) (major_string_to_minor value cur).

Record AmountObj := { ao_currency : str; ao_value : str }.
Record PaymentPayload := {
  pp_id : str;
  pp_status : str;
  pp_amount : AmountObj;
  pp_metadata : option Json;
}.
Definition metadata_reference (raw : option Json) : option str :=
  j ← raw; get_str "patala_reference" j.
Record PaymentOutcome := {
  po_reference : str;
  po_settled : bool;
  po_amount_minor : Z;
  po_currency : str;
}.
Definition evaluate_payment (p : PaymentPayload) : Result Error PaymentOutcome :=
  return_if is_empty (pp_id p) with_ Err (mollie_malformed "missing payment id");
  ref ← ok_or (mollie_malformed "payment has no patala_reference metadata to reconcile against")
    (metadata_reference (pp_metadata p));
  let cur := normal_currency (ao_currency (pp_amount p)) in
  if String.eqb (pp_status p) "paid" then
    amt ← mollie_amount_value_to_minor (ao_value (pp_amount p)) cur;
    return_if amt =? 0 with_ Err (mollie_malformed "status=paid with non-positive amount");
    Ok {| po_reference := ref; po_settled := true; po_amount_minor := amt; po_currency := cur |}
  else
    Ok {| po_reference := ref; po_settled := false; po_amount_minor := 0; po_currency := cur |}.

(** ** proof.rs and the answers *)

Record ChargeProof := { payment_id : str; checkout_url : option str }.
Record RefundProof := { refund_id : str; status_at_refund : str }.
Record MollieErrorEnvelope := { title : str; detail : str }.
Record CreateResponse := { cr_id : str; checkout_href : str }.
Record RefundResponse := { rr_id : str; rr_status : str; rr_amount : AmountObj }.
Class MollieJson := {
  #[export] error_json :: FromJson MollieErrorEnvelope;
  #[export] create_json :: FromJson CreateResponse;
  #[export] payment_json :: FromJson PaymentPayload;
  #[export] refund_json :: FromJson RefundResponse;
}.
Definition classify_error `{MollieJson} (code : Z) (body : list byte) : Error :=
  let env := default {| title := EmptyString; detail := EmptyString |} (result_ok (from_json body)) in
  api_status "mollie" code (if negb (is_empty (detail env)) then detail env else or_no_message (title env)).

(** ** webhook.rs *)

Inductive MollieWebhookError := MissingId | MalformedForm (e : str).
Definition mollie_webhook_error_display (e : MollieWebhookError) : str :=
  match e with
  | MissingId => "payments: mollie: webhook body has no id parameter"
  | MalformedForm e => "payments: mollie: body is not valid form encoding: " +:+ e
  end.
(** The decoder's loop over the bytes from [i] on: a [%] with two more bytes that
    read as hex is one byte, any other byte stands for itself. *)
Fixpoint decode_bytes (l : list byte) : list byte :=
  match l with
  | [] => []
  | b :: t =>
      if Byte.eqb b x2b then x20 :: decode_bytes t
      else if Byte.eqb b x25 then
        match t with
        | hi :: lo :: t' =>
            match hex_radix2 hi lo with
            | Some c => c :: decode_bytes t'
            | None => b :: decode_bytes t
            end
        | _ => b :: decode_bytes t
        end
      else b :: decode_bytes t
  end.
Definition percent_decode (s : str) : str := from_utf8_lossy (decode_bytes (as_bytes s)).
Definition form_parse (s : str) : list (str * str) :=
  map (fun kv => (percent_decode kv.1, percent_decode kv.2)) (form_pairs s).
Definition extract_payment_id (body : list byte) : Result MollieWebhookError str :=
  s ← map_err (fun e => MalformedForm (utf8_error_display e)) (checked_utf8 body);
  let pid := default EmptyString
    ((fun kv => trim kv.2) <$> find (fun kv => String.eqb kv.1 "id") (form_parse s)) in
  return_if is_empty pid with_ Err MissingId;
  Ok pid.

(** ** config.rs *)

Definition MOLLIE_API_BASE : str := "https://api.mollie.com/v2".
Record MollieConfig := {
  api_key : str;
  webhook_url : str;
  mo_requires_kyc : bool;
  mo_currencies : list str;
  mo_settlement_days : Z;
  mo_timeout_secs : Z;
}.
Definition mollie_config_from_env (env : Environment) : Result Error MollieConfig :=
  key ← non_empty_env env "MOLLIE_API_KEY";
  url ← non_empty_env env "MOLLIE_WEBHOOK_URL";
  Ok {| api_key := key; webhook_url := url;
        mo_requires_kyc := env_flag env "MOLLIE_REQUIRES_KYC" true;
        mo_currencies := env_currencies env "MOLLIE_CURRENCIES" [];
        mo_settlement_days := env_u8 env "MOLLIE_SETTLEMENT_DAYS" 2;
        mo_timeout_secs := env_u64 env "MOLLIE_TIMEOUT_SECS" 15 |}.

(** ** rail.rs *)

Record MollieRail (W : Type) := {
  mollie_id : str;
  mo_config : MollieConfig;
  mo_http : HttpClient W;
  mo_capabilities : RailCapabilities;
  mo_base_url : str;
}.
Arguments mollie_id {W} _.
Arguments mo_config {W} _.
Arguments mo_http {W} _.
Arguments mo_capabilities {W} _.
Arguments mo_base_url {W} _.

Definition mollie_new {W} (c : MollieConfig) (builder : HttpBuilder W) : Result Error (MollieRail W) :=
  _ ← required "api_key" (api_key c);
  _ ← required "webhook_url" (webhook_url c);
  http ← built_client "mollie" builder (mo_timeout_secs c);
  Ok {| mollie_id := "mollie"; mo_config := c; mo_http := http;
        mo_capabilities := {|
          class := CustodialReversible; reversible := true; requires_kyc := mo_requires_kyc c;
          holds_funds := true; currencies := mo_currencies c; settlement := Days (mo_settlement_days c);
          atomic_multi_party := false |};
        mo_base_url := MOLLIE_API_BASE |}.

Definition safe_path_segment : str -> Result Error str := path_segment "a mollie id".

Section MollieRail.
Context `{MollieJson} `{!ProofBytes ChargeProof} `{!ProofBytes RefundProof}
  {W : Type} `{Clock W}.

Definition check_currency (r : MollieRail W) : str -> Result Error unit :=
  check_unless_empty (mollie_id r) (currencies (mo_capabilities r)).
Definition json_call (r : MollieRail W) (method path : str) (body : option Json) : HttpCall := {|
  hc_method := method; hc_url := mo_base_url r +:+ path; hc_basic_auth := None;
  hc_headers := [("Authorization", "Bearer " +:+ api_key (mo_config r));
                 ("Content-Type", "application/json"); ("Accept", "application/json")]%string;
  hc_body := json_body body |}.
Definition do_json (r : MollieRail W) (method path : str) (body : option Json)
    : Eff W Error (list byte * Z) :=
  transport "mollie" path (mo_http r) (json_call r method path body).

Definition fetch_outcome (r : MollieRail W) (pid : str) : Eff W Error PaymentOutcome :=
  pid ← eff_of (safe_path_segment pid);
  body ← expect_2xx classify_error (do_json r "GET" ("/payments/" +:+ pid) None);
  payload ← parse_as (T := PaymentPayload) "mollie" body;
  eff_of (evaluate_payment payload).
Record MollieWebhookEvent := {
  mwe_event_id : str;
  mwe_reference : str;
  mwe_settled : bool;
  mwe_amount_minor : Z;
  mwe_currency : str;
}.
Definition handle_webhook (r : MollieRail W) (body : list byte) : Eff W Error MollieWebhookEvent :=
  pid ← eff_of (map_err (fun e => InvalidRequest (mollie_webhook_error_display e))
    (extract_payment_id body));
  outcome ← fetch_outcome r pid;
  mret {| mwe_event_id := pid; mwe_reference := po_reference outcome; mwe_settled := po_settled outcome;
          mwe_amount_minor := po_amount_minor outcome; mwe_currency := po_currency outcome |}.

Definition mollie_quote (r : MollieRail W) (req : PayRequest) : Eff W Error Quote :=
  _ ← eff_of (validate req);
  _ ← eff_of (check_currency r (req_currency req));
  _ ← eff_of (mollie_amount_value (req_amount_minor req) (req_currency req));
  quoted (mollie_id r) (settlement (mo_capabilities r)) 300 (req_currency req) req.

Definition payment_request (r : MollieRail W) (req : PayRequest) (cur v : str) : Json := JObject [
  ("amount", JObject [("currency", JString cur); ("value", JString v)]);
  ("description", JString ("patala order " +:+ req_reference req));
  ("redirectUrl", JString (req_destination req));
  ("webhookUrl", JString (webhook_url (mo_config r)));
  ("metadata", JObject [("patala_reference", JString (req_reference req))])]%string.
Definition mollie_charge (r : MollieRail W) (req : PayRequest) : Eff W Error Receipt :=
  _ ← eff_of (validate req);
  _ ← eff_of (check_currency r (req_currency req));
  let cur := normal_currency (req_currency req) in
  v ← eff_of (mollie_amount_value (req_amount_minor req) cur);
  body ← expect_2xx classify_error (do_json r "POST" "/payments" (Some (payment_request r req cur v)));
  parsed ← parse_as (T := CreateResponse) "mollie" body;
  return_if is_empty (cr_id parsed) || is_empty (checkout_href parsed) with_
    eff_err (mollie_malformed "empty payment id or _links.checkout.href");
  mret (open_receipt (mollie_id r) cur (req_reference req)
    {| payment_id := cr_id parsed; checkout_url := Some (checkout_href parsed) |}).

Definition mollie_verify (r : MollieRail W) (rc : Receipt) : Eff W Error bool :=
  return_if negb (String.eqb (rail_id rc) (mollie_id r)) with_ mret false;
  let_some p := from_bytes (P := ChargeProof) (proof rc) or_else mret false;
  fetched ← eff_try (fetch_outcome r (payment_id p));
  let_ok outcome := fetched or_else mret false;
  mret (covers (po_settled outcome) (po_currency outcome) (po_amount_minor outcome) rc).

Definition refund_request (cur v : str) : Json := JObject [
  ("amount", JObject [("currency", JString cur); ("value", JString v)])]%string.
Definition mollie_refund (r : MollieRail W) (rc : Receipt) : Eff W Error Receipt :=
  return_if negb (String.eqb (rail_id rc) (mollie_id r)) with_ eff_err (other_rail (mollie_id r) rc);
  p ← eff_of (ok_or (InvalidRequest "receipt proof is not a mollie charge proof")
    (from_bytes (P := ChargeProof) (proof rc)));
  pid ← eff_of (safe_path_segment (payment_id p));
  let cur := normal_currency (currency rc) in
  v ← eff_of (mollie_amount_value (amount_minor rc) cur);
  body ← expect_2xx classify_error
    (do_json r "POST" ("/payments/" +:+ pid +:+ "/refunds") (Some (refund_request cur v)));
  parsed ← parse_as (T := RefundResponse) "mollie" body;
  amt ← eff_of (if String.eqb (rr_status parsed) "refunded"
                then mollie_amount_value_to_minor (ao_value (rr_amount parsed)) cur else Ok 0);
  now ← read_clock;
  mret {|
    rail_id := mollie_id r;
    amount_minor := amt;
    currency := cur;
    reference := reference rc;
    proof := to_bytes {| refund_id := rr_id parsed; status_at_refund := rr_status parsed |};
    settled_at_unix := now;
  |}.

Definition mollie_webhook (r : MollieRail W) (d : WebhookDelivery) : Eff W Error WebhookEvent :=
  event ← handle_webhook r (raw_body d);
  mret (with_object_id (mwe_event_id event)
    (settlement_event (mollie_id r) (mwe_event_id event) (mwe_reference event) (mwe_settled event)
       (mwe_amount_minor event) (mwe_currency event))).
Definition mollie_rail (r : MollieRail W) : PaymentRail W := {|
  id := mollie_id r;
  capabilities := mo_capabilities r;
  quote := mollie_quote r;
  charge := mollie_charge r;
  verify := mollie_verify r;
  validate_destination := redirect_url (mollie_id r);
  refund := mollie_refund r;
  verify_webhook := mollie_webhook r;
|}.
End MollieRail.
#[export] Hint Unfold mollie_rail mollie_new mollie_verify mollie_charge mollie_quote safe_path_segment do_json
  fetch_outcome : adapter.

(** ** Lemmas *)

(** A paid payment with a reference, an amount that is read exactly, and money in it. *)
Definition mollie_paid (p : PaymentPayload) (ref : str) (ev : Evidence) : Prop :=
  pp_id p <> EmptyString /\ metadata_reference (pp_metadata p) = Some ref /\ pp_status p = "paid"%string /\
  ev_reference ev = None /\ ev_currency ev = normal_currency (ao_currency (pp_amount p)) /\
  mollie_amount_value_to_minor (ao_value (pp_amount p)) (ev_currency ev) = Ok (ev_amount ev) /\ ev_amount ev <> 0.
Lemma evaluate_payment_settled p o :
  evaluate_payment p = Ok o -> po_settled o = true ->
  mollie_paid p (po_reference o)
    {| ev_reference := None; ev_currency := po_currency o; ev_amount := po_amount_minor o |}.
Proof.
  unfold evaluate_payment. intros He Hs. run_inv He. apply is_empty_false in Hc. revert He.
  destruct (String.eqb_spec (pp_status p) "paid"); [|now intros [= <-]].
  intros He. run_inv He. injection He as <-. apply Z.eqb_neq in Hc0. unfold mollie_paid. cbn. auto 10.
Qed.
Lemma mollie_paid_evaluates p ref ev : mollie_paid p ref ev ->
  evaluate_payment p = Ok {| po_reference := ref; po_settled := true;
    po_amount_minor := ev_amount ev; po_currency := ev_currency ev |}.
Proof.
  intros (Hi%is_empty_false & Hr & Hs & _ & Hc & Ha & Hn%Z.eqb_neq). unfold evaluate_payment.
  rewrite Hi, Hr, Hs. cbn. rewrite <- Hc, Ha. cbn. now rewrite Hn.
Qed.

Lemma extract_payment_id_nonempty body pid : extract_payment_id body = Ok pid -> pid <> EmptyString.
Proof.
  unfold extract_payment_id. intros H. apply result_bind_Ok in H as (s & _ & H).
  apply result_guard_Ok in H as [Hc [= <-]]. now apply is_empty_false.
Qed.

Section MollieLemmas.
Context `{MollieJson} `{!ProofBytes ChargeProof} `{!ProofBytes RefundProof}
  {W : Type} `{Clock W}.

Lemma fetch_outcome_Ok (r : MollieRail W) pid w o w' :
  fetch_outcome r pid w = (Ok o, w') <->
  is_safe_path_segment pid = true /\ exists body payload,
    answered (mo_http r) (json_call r "GET" ("/payments/" +:+ pid) None) w body w' /\
    from_json (T := PaymentPayload) body = Ok payload /\ evaluate_payment payload = Ok o.
Proof.
  unfold fetch_outcome. split.
  - intros Hf. run_inv Hf. apply path_segment_Ok in Hx as [-> Hs]. apply expect_2xx_Ok in Hx0. eauto 10.
  - intros (Hs & body & payload & Hg & Hb & He).
    pose proof (proj2 (path_segment_Ok "a mollie id" _ _) (conj eq_refl Hs)).
    pose proof (proj2 (expect_2xx_Ok "mollie" ("/payments/" +:+ pid) _ classify_error _ _ _ _) Hg).
    unfold safe_path_segment, do_json. run.
Qed.
Definition mollie_evidence (r : MollieRail W) (p : list byte) (ref : str) (w : W) (ev : Evidence) (w' : W) : Prop :=
  exists cp body payload ref',
    from_bytes (P := ChargeProof) p = Some cp /\ is_safe_path_segment (payment_id cp) = true /\
    answered (mo_http r) (json_call r "GET" ("/payments/" +:+ payment_id cp) None) w body w' /\
    from_json (T := PaymentPayload) body = Ok payload /\ mollie_paid payload ref' ev.
#[export] Instance mollie_verifies r : VerifiesBy (mollie_rail r) (mollie_evidence r).
Proof.
  intros rc w w'. cbn [verify mollie_rail id]. unfold mollie_verify, mollie_evidence. split.
  - intros Hv. run_inv Hv. apply names_rail in Hc. unfold eff_try in Hx.
    destruct (fetch_outcome _ _ w) as [res v'] eqn:Ef. injection Hx as <- <-. subst res.
    apply fetch_outcome_Ok in Ef as (Hs & body & payload & Hg & Hb & He).
    apply covers_spec in Hv as (Hset & Hcur & Ha). split; [done|].
    pose proof (evaluate_payment_settled _ _ He Hset). eexists. split; [eauto 10|]. done.
  - intros (Hi%names_rail & ev & (cp & body & payload & ref & Hp & Hs & Hg & Hb & Hpaid) & Href & Hcur & Ha).
    apply mollie_paid_evaluates in Hpaid.
    pose proof (proj2 (fetch_outcome_Ok r (payment_id cp) w _ w')
      (conj Hs (ex_intro _ body (ex_intro _ payload (conj Hg (conj Hb Hpaid)))))) as Hf.
    rewrite Hi, Hp. apply eff_bind_Ok. eexists (Ok _), w'. split; [unfold eff_try; now rewrite Hf|].
    apply eff_ret_Ok. split; [|done]. apply covers_spec. done.
Qed.
Lemma mollie_ignores_reference r : ignores_reference (mollie_rail r).
Proof. intros rc ref w. reflexivity. Qed.

(** A notification proves nothing of its own: it names a payment, and the event is
    what Mollie answers, with the API key, for that payment. *)
Definition mollie_refetched (r : MollieRail W) (d : WebhookDelivery) (w : W) (ev : WebhookEvent) (w' : W) : Prop :=
  exists body payload,
    extract_payment_id (raw_body d) = Ok (event_id ev) /\ is_safe_path_segment (event_id ev) = true /\
    answered (mo_http r) (json_call r "GET" ("/payments/" +:+ event_id ev) None) w body w' /\
    from_json (T := PaymentPayload) body = Ok payload /\
    metadata_reference (pp_metadata payload) = Some (we_reference ev) /\
    if bool_decide (pp_status payload = "paid"%string)
    then we_status ev = Settled /\ mollie_paid payload (we_reference ev)
      {| ev_reference := None; ev_currency := we_currency ev; ev_amount := we_amount_minor ev |}
    else we_status ev = NotSettled /\ we_amount_minor ev = 0.
Lemma mollie_webhook_refetches r d w ev w' :
  verify_webhook (mollie_rail r) d w = (Ok ev, w') ->
  we_rail_id ev = mollie_id r /\ event_id ev <> EmptyString /\ mollie_refetched r d w ev w'.
Proof.
  intros Hw. cbn [verify_webhook mollie_rail] in Hw. unfold mollie_webhook, handle_webhook in Hw.
  apply eff_bind_Ok in Hw as (e & v & He & Hw). apply eff_ret_Ok in Hw as [<- <-].
  apply eff_bind_Ok in He as (pid & v1 & Hp & He). apply eff_of_Ok in Hp as [Hp%map_err_Ok ->].
  apply eff_bind_Ok in He as (o & v2 & Hf & He). apply eff_ret_Ok in He as [<- <-].
  apply fetch_outcome_Ok in Hf as (Hs & body & payload & Hg & Hb & Ho).
  split; [done|]. split; [cbn; now apply extract_payment_id_nonempty in Hp|].
  exists body, payload. cbn [event_id with_object_id settlement_event we_reference we_status we_currency we_amount_minor
    mwe_event_id mwe_reference mwe_settled mwe_amount_minor mwe_currency].
  split; [exact Hp|]. split; [exact Hs|]. split; [exact Hg|]. split; [exact Hb|].
  destruct (po_settled o) eqn:Eo.
  - pose proof (evaluate_payment_settled _ _ Ho Eo) as Hpaid. pose proof Hpaid as (_ & Hr & Hst & _).
    split; [exact Hr|]. rewrite bool_decide_true by done. done.
  - unfold evaluate_payment in Ho. run_inv Ho. split; [|].
    + destruct (String.eqb _ _) in Ho; [run_inv Ho|]; injection Ho as <-; done.
    + destruct (String.eqb_spec (pp_status payload) "paid") in Ho; [run_inv Ho; injection Ho as <-; discriminate Eo|].
      now rewrite bool_decide_false by done.
Qed.
Definition mollie_places : Places := {|
  amount_at := ["amount"; "value"]; currency_at := At ["amount"; "currency"];
  reference_at := ["metadata"; "patala_reference"] |}%string.
Definition mollie_ordered (r : MollieRail W) (o : Order) (rc : Receipt) (w w' : W) : Prop :=
  ordered_by (mo_http r) "POST" (mo_base_url r +:+ "/payments") (reads mollie_places) o w w'.
#[export] Instance mollie_orders r : ChargeOrders (mollie_rail r) (exactly in_major_units) (mollie_ordered r).
Proof.
  intros q rc w w' Hu Hc. charge_inv Hc. unfold mollie_amount_value in Hx1. rewrite normal_currency_idem in Hx1. run_inv Hx1.
  major_orders (normal_currency (req_currency q)). sent.
Qed.
#[export] Instance mollie_opens r : ChargeOpens (mollie_rail r).
Proof. charge_opens. Qed.
#[export] Instance mollie_quotes r : QuotesCharge (mollie_rail r) 300.
Proof. quotes_before. same_guard mollie_amount_value. Qed.
Definition mollie_refunded (r : MollieRail W) (text : str) (rc : Receipt) (w w' : W) : Prop :=
  exists cp v now, from_bytes (P := ChargeProof) (proof rc) = Some cp /\
    called (mo_http r) "POST" (mo_base_url r +:+ "/payments/" +:+ payment_id cp +:+ "/refunds") (fun b =>
      body_at ["amount"; "value"]%string b = Some text /\
      body_at ["amount"; "currency"]%string b = Some (normal_currency (currency rc))) w v /\
    read_clock v = (Ok (E := Error) now, w').
#[export] Instance mollie_refunds r : RefundOrders (mollie_rail r) (exactly in_major_units) (mollie_refunded r).
Proof.
  intros rc rc' w w' Hu Hr. cbn in Hr. unfold mollie_refund in Hr. refund_inv Hr.
  unfold mollie_amount_value in Hx1. rewrite normal_currency_idem in Hx1. run_inv Hx1. refunds Hr x1.
  do 3 eexists. split; [eassumption|]. split; [|eassumption]. sent.
Qed.
#[export] Instance mollie_rail_laws c builder r :
  mollie_new c builder = Ok r -> RailLaws (fun _ : W => True) (mollie_rail r).
Proof. intros Hnew. solve_rail_laws Hnew. Qed.
End MollieLemmas.
