(* ===== verification/Paystack.v ===== *)
(** * The Paystack adapter ([patala-fiat/src/paystack/*.rs])

    Transactions named by their own reference: verify asks Paystack about the
    receipt's reference itself, and charge answers the reference Paystack
    echoes, not always the one it was given. *)

From S2P Require Import Prelude RustStr Core External HttpShared FiatDest Json Adapter Orders.

(** ** models.rs, proof.rs *)

Record InitializeData := { authorization_url : str; access_code : str; id_reference : str }.
Record InitializeResponse := { ir_status : bool; ir_message : str; ir_data : InitializeData }.
Record VerifyData := {
  vd_id : Z;
  vd_status : str;
  vd_reference : str;
  vd_amount : Z;
  vd_currency : str;
  paid_at : str;
}.
Record VerifyResponse := { vr_status : bool; vr_message : str; vr_data : VerifyData }.
Record PaystackErrorEnvelope := { error_message : str }.
Record ChargeProof := { cp_authorization_url : str; cp_access_code : str }.
Record RefundData := { rd_amount : Z; rd_currency : str; rd_status : str }.
Record RefundResponse := { rr_status : bool; rr_data : RefundData }.
Record EventData := { ed_id : Z; ed_status : str; ed_reference : str; ed_amount : Z; ed_currency : str }.
Record Envelope := { env_event : str; env_data : EventData }.
Class PaystackJson := {
  #[export] error_json :: FromJson PaystackErrorEnvelope;
  #[export] initialize_json :: FromJson InitializeResponse;
  #[export] verify_json :: FromJson VerifyResponse;
  #[export] refund_json :: FromJson RefundResponse;
  #[export] envelope_json :: FromJson Envelope;
}.
Definition classify_error `{PaystackJson} (code : Z) (body : list byte) : Error :=
  let env := default {| error_message := EmptyString |} (result_ok (from_json body)) in
  api_status "paystack" code (or_no_message (error_message env)).
Definition paystack_malformed : str -> Error := api_malformed "paystack".
Definition is_settled_success (s : str) : bool := String.eqb s "success".

(** ** webhook.rs *)

Inductive PaystackWebhookError :=
  | MissingSignature | InvalidSignature
  | MalformedResponse (e : str)
  | UnhandledEvent (ty : str).
Definition paystack_webhook_error_display (e : PaystackWebhookError) : str :=
  match e with
  | MissingSignature => "payments: paystack: missing webhook signature"
  | InvalidSignature => "payments: paystack: invalid webhook signature"
  | MalformedResponse e => "payments: paystack: malformed API response: " +:+ e
  | UnhandledEvent ty => "payments: unhandled webhook event type: " +:+ ty
  end.
Record PaystackWebhookEvent := {
  pse_event_id : str;
  pse_reference : str;
  pse_amount_minor : Z;
  pse_currency : str;
}.
Definition parse_event `{PaystackJson} (body : list byte) : Result PaystackWebhookError PaystackWebhookEvent :=
  env ← map_err MalformedResponse (from_json (T := Envelope) body);
  return_if negb (String.eqb (env_event env) "charge.success") with_ Err (UnhandledEvent (env_event env));
  let data := env_data env in
  return_if negb (String.eqb (ed_status data) "success") with_
    Err (MalformedResponse ("charge.success event carried data.status=" +:+ debug_str (ed_status data)));
  return_if is_empty (ed_reference data) || (ed_amount data =? 0) with_
    Err (MalformedResponse "missing reference or non-positive amount");
  return_if ed_id data =? 0 with_
    Err (MalformedResponse "no data.id: this delivery carries no id to deduplicate on");
  Ok {| pse_event_id := int_to_dec (ed_id data); pse_reference := ed_reference data;
        pse_amount_minor := ed_amount data; pse_currency := ed_currency data |}.
Definition verify_and_parse `{PaystackJson, Hex} (sha512_mac : Mac) (secret : str) (body : list byte)
    (sig_header : str) : Result PaystackWebhookError PaystackWebhookEvent :=
  let h := trim sig_header in
  return_if is_empty h with_ Err MissingSignature;
  return_if negb (verify_hmac_sha512_hex sha512_mac (as_bytes secret) body h) with_ Err InvalidSignature;
  parse_event body.

(** ** config.rs *)

Definition DEFAULT_CURRENCIES : list str := ["NGN"; "GHS"; "ZAR"; "KES"; "USD"]%string.
Record PaystackConfig := {
  secret_key : str;
  ps_requires_kyc : bool;
  ps_currencies : list str;
  ps_settlement_days : Z;
  ps_timeout_secs : Z;
}.
Definition paystack_config_from_env (env : Environment) : Result Error PaystackConfig :=
  key ← non_empty_env env "PAYSTACK_SECRET_KEY";
  Ok {| secret_key := key;
        ps_requires_kyc := env_flag env "PAYSTACK_REQUIRES_KYC" true;
        ps_currencies := env_currencies env "PAYSTACK_CURRENCIES" DEFAULT_CURRENCIES;
        ps_settlement_days := env_u8 env "PAYSTACK_SETTLEMENT_DAYS" 2;
        ps_timeout_secs := env_u64 env "PAYSTACK_TIMEOUT_SECS" 15 |}.

(** ** rail.rs *)

Definition PAYSTACK_API_BASE : str := "https://api.paystack.co".
Record PaystackRail (W : Type) := {
  paystack_id : str;
  ps_config : PaystackConfig;
  ps_http : HttpClient W;
  ps_capabilities : RailCapabilities;
  ps_base_url : str;
}.
Arguments paystack_id {W} _.
Arguments ps_config {W} _.
Arguments ps_http {W} _.
Arguments ps_capabilities {W} _.
Arguments ps_base_url {W} _.

Definition paystack_new {W} (c : PaystackConfig) (builder : HttpBuilder W) : Result Error (PaystackRail W) :=
  _ ← required "secret_key" (secret_key c);
  return_if bool_decide (ps_currencies c = []) with_ Err (InvalidRequest "currencies must not be empty");
  http ← built_client "paystack" builder (ps_timeout_secs c);
  Ok {| paystack_id := "paystack"; ps_config := c; ps_http := http;
        ps_capabilities := {|
          class := CustodialReversible; reversible := true; requires_kyc := ps_requires_kyc c;
          holds_funds := true; currencies := ps_currencies c; settlement := Days (ps_settlement_days c);
          atomic_multi_party := false |};
        ps_base_url := PAYSTACK_API_BASE |}.

Definition safe_path_segment : str -> Result Error str := path_segment "a paystack reference".

Section PaystackRail.
Context `{PaystackJson} `{!ProofBytes ChargeProof} `{Hex} (sha512_mac : Mac) {W : Type} `{Clock W}.

Definition check_currency (r : PaystackRail W) : str -> Result Error unit :=
  check_listed (paystack_id r) (currencies (ps_capabilities r)).
Definition json_call (r : PaystackRail W) (method path : str) (body : option Json) : HttpCall := {|
  hc_method := method; hc_url := ps_base_url r +:+ path; hc_basic_auth := None;
  hc_headers := [("Authorization", "Bearer " +:+ secret_key (ps_config r)); ("Accept", "application/json")]%string;
  hc_body := json_body body |}.
Definition do_json (r : PaystackRail W) (method path : str) (body : option Json)
    : Eff W Error (list byte * Z) :=
  transport "paystack" path (ps_http r) (json_call r method path body).

Definition paystack_quote (r : PaystackRail W) (req : PayRequest) : Eff W Error Quote :=
  _ ← eff_of (validate req);
  _ ← eff_of (check_currency r (req_currency req));
  quoted (paystack_id r) (settlement (ps_capabilities r)) 300 (req_currency req) req.

Definition initialize_request (req : PayRequest) (email cur : str) : Json := JObject [
  ("email", JString email); ("amount", json_u64 (req_amount_minor req));
  ("reference", JString (req_reference req)); ("currency", JString cur)]%string.
Definition paystack_charge (r : PaystackRail W) (req : PayRequest) : Eff W Error Receipt :=
  _ ← eff_of (validate req);
  _ ← eff_of (check_currency r (req_currency req));
  let email := trim (req_destination req) in
  return_if is_empty email with_
    eff_err (InvalidRequest "paystack: destination (used as the buyer email) is required");
  let cur := normal_currency (req_currency req) in
  body ← expect_2xx classify_error
    (do_json r "POST" "/transaction/initialize" (Some (initialize_request req email cur)));
  parsed ← parse_as (T := InitializeResponse) "paystack" body;
  return_if negb (ir_status parsed) || is_empty (authorization_url (ir_data parsed)) with_
    eff_err (paystack_malformed "status=false or empty authorization_url");
  mret (open_receipt (paystack_id r) cur
    (if is_empty (id_reference (ir_data parsed)) then req_reference req else id_reference (ir_data parsed))
    {| cp_authorization_url := authorization_url (ir_data parsed); cp_access_code := access_code (ir_data parsed) |}).

Definition transaction_covers (v : VerifyResponse) (ref : str) (rc : Receipt) : bool :=
  return_if negb (vr_status v) with_ false;
  return_if negb (is_empty (vd_reference (vr_data v))) && negb (String.eqb (vd_reference (vr_data v)) ref) with_ false;
  covers (is_settled_success (vd_status (vr_data v))) (vd_currency (vr_data v)) (vd_amount (vr_data v)) rc.
Definition paystack_verify (r : PaystackRail W) (rc : Receipt) : Eff W Error bool :=
  return_if negb (String.eqb (rail_id rc) (paystack_id r)) with_ mret false;
  let_ok ref := safe_path_segment (reference rc) or_else mret false;
  body ← expect_2xx classify_error (do_json r "GET" ("/transaction/verify/" +:+ ref) None);
  parsed ← parse_as (T := VerifyResponse) "paystack" body;
  mret (transaction_covers parsed ref rc).

Definition refund_request (rc : Receipt) (ref : str) : Json :=
  JObject [("transaction", JString ref); ("amount", json_u64 (amount_minor rc))]%string.
Definition paystack_refund (r : PaystackRail W) (rc : Receipt) : Eff W Error Receipt :=
  return_if negb (String.eqb (rail_id rc) (paystack_id r)) with_ eff_err (other_rail (paystack_id r) rc);
  ref ← eff_of (safe_path_segment (reference rc));
  body ← expect_2xx classify_error (do_json r "POST" "/refund" (Some (refund_request rc ref)));
  parsed ← parse_as (T := RefundResponse) "paystack" body;
  return_if negb (rr_status parsed) with_ eff_err (paystack_malformed "refund request returned status=false");
  let cur := normal_currency (rd_currency (rr_data parsed)) in
  now ← read_clock;
  mret {|
    rail_id := paystack_id r;
    amount_minor := if String.eqb (rd_status (rr_data parsed)) "processed" then rd_amount (rr_data parsed) else 0;
    currency := if is_empty cur then currency rc else cur;
    reference := reference rc;
    proof := [];
    settled_at_unix := now;
  |}.

Definition paystack_webhook (r : PaystackRail W) (d : WebhookDelivery) : Result Error WebhookEvent :=
  event ← map_err (fun e => InvalidRequest (paystack_webhook_error_display e))
    (verify_and_parse sha512_mac (secret_key (ps_config r)) (raw_body d) (header_or_empty "X-Paystack-Signature" d));
  Ok (settlement_event (paystack_id r) (pse_event_id event) (pse_reference event) true
       (pse_amount_minor event) (pse_currency event)).
Definition paystack_rail (r : PaystackRail W) : PaymentRail W := {|
  id := paystack_id r;
  capabilities := ps_capabilities r;
  quote := paystack_quote r;
  charge := paystack_charge r;
  verify := paystack_verify r;
  validate_destination := buyer_email (paystack_id r);
  refund := paystack_refund r;
  verify_webhook d := eff_of (paystack_webhook r d);
|}.
End PaystackRail.
#[export] Hint Unfold paystack_rail paystack_new paystack_verify paystack_charge paystack_quote safe_path_segment do_json : adapter.

(** ** Lemmas *)

(** A successful transaction that is this reference's, or names none. *)
Definition transaction_settled (v : VerifyResponse) (ref : str) (ev : Evidence) : Prop :=
  vr_status v = true /\
  (vd_reference (vr_data v) = EmptyString \/ vd_reference (vr_data v) = ref) /\
  vd_status (vr_data v) = "success"%string /\
  ev = {| ev_reference := None; ev_currency := vd_currency (vr_data v); ev_amount := vd_amount (vr_data v) |}.
Lemma paystack_covers_spec v ref rc :
  transaction_covers v ref rc = true <-> exists ev, transaction_settled v ref ev /\ supports ev rc.
Proof.
  unfold transaction_covers, transaction_settled, supports, is_settled_success. split.
  - destruct (vr_status v); [|done]. cbn [negb].
    destruct (is_empty (vd_reference (vr_data v))) eqn:Ee; cbn [negb andb];
      [apply is_empty_spec in Ee | destruct (String.eqb_spec (vd_reference (vr_data v)) ref); [|done]; cbn [negb]];
      intros (Hs%String.eqb_eq & Hc & Ha)%covers_spec; eexists; split_and!; eauto; done.
  - intros (ev & (-> & Hr & -> & ->) & _ & Hc & Ha). cbn [negb].
    assert (negb (is_empty (vd_reference (vr_data v))) && negb (String.eqb (vd_reference (vr_data v)) ref) = false) as ->.
    { destruct Hr as [-> | ->]; [done|]. rewrite String.eqb_refl. apply andb_false_r. }
    apply covers_spec. done.
Qed.

Section PaystackLemmas.
Context `{PaystackJson} `{!ProofBytes ChargeProof} `{Hex} (sha512_mac : Mac) {W : Type} `{Clock W}.

Definition paystack_evidence (r : PaystackRail W) (p : list byte) (ref : str) (w : W) (ev : Evidence) (w' : W) : Prop :=
  is_safe_path_segment ref = true /\ exists body parsed,
    answered (ps_http r) (json_call r "GET" ("/transaction/verify/" +:+ ref) None) w body w' /\
    from_json (T := VerifyResponse) body = Ok parsed /\ transaction_settled parsed ref ev.
#[export] Instance paystack_verifies r : VerifiesBy (paystack_rail sha512_mac r) (paystack_evidence r).
Proof.
  intros rc w w'. cbn [verify paystack_rail id]. unfold paystack_verify, paystack_evidence. split.
  - intros Hv. run_inv Hv. apply names_rail in Hc. apply path_segment_Ok in Hp as [-> Hs].
    apply expect_2xx_Ok in Hx. apply paystack_covers_spec in Hv as (ev & ? & ?). eauto 10.
  - intros (Hi%names_rail & ev & (Hs & body & parsed & Hg & Hb & Hset) & Hsup).
    pose proof (proj2 (path_segment_Ok "a paystack reference" _ _) (conj eq_refl Hs)).
    pose proof (proj2 (expect_2xx_Ok "paystack" ("/transaction/verify/" +:+ reference rc) _ classify_error _ _ _ _) Hg).
    assert (transaction_covers parsed (reference rc) rc = true) by (apply paystack_covers_spec; eauto).
    autounfold with adapter. run.
Qed.

Definition paystack_authentic (r : PaystackRail W) (d : WebhookDelivery) (w : W) : Prop :=
  hex_signed sha512_mac (as_bytes (secret_key (ps_config r))) (raw_body d)
    (trim (header_or_empty "X-Paystack-Signature" d)).
Definition paystack_places : Places := {|
  amount_at := ["amount"]; currency_at := At ["currency"];
  reference_at := ["reference"] |}%string.
Definition paystack_ordered (r : PaystackRail W) (o : Order) (rc : Receipt) (w w' : W) : Prop :=
  ordered_by (ps_http r) "POST" (ps_base_url r +:+ "/transaction/initialize") (reads paystack_places) o w w'.
#[export] Instance paystack_orders r : ChargeOrders (paystack_rail sha512_mac r) (exactly in_minor_units) (paystack_ordered r).
Proof.
  intros q rc w w' Hu Hc. charge_inv Hc.
  orders (to_dec (req_amount_minor q)) (normal_currency (req_currency q)). sent.
Qed.
#[export] Instance paystack_opens r : ChargeOpens (paystack_rail sha512_mac r).
Proof. charge_opens. Qed.
#[export] Instance paystack_quotes r : QuotesCharge (paystack_rail sha512_mac r) 300.
Proof. quotes_before. Qed.
#[export] Instance paystack_webhook_answers r :
  WebhookAnswers (paystack_rail sha512_mac r) (paystack_authentic r).
Proof.
  intros d w ev w' Hw. cbn [verify_webhook paystack_rail] in Hw.
  unfold paystack_webhook, verify_and_parse, parse_event in Hw. run_inv Hw. simplify_eq.
  apply negb_false_iff, hex_signed_spec in Hc0. split; [done|]. split; [apply int_to_dec_nonempty | done].
Qed.

(** The transaction is named by the receipt's reference. *)
Definition paystack_refunded (r : PaystackRail W) (text : str) (rc : Receipt) (w w' : W) : Prop :=
  exists v now, called (ps_http r) "POST" (ps_base_url r +:+ "/refund") (fun b =>
      body_at ["transaction"%string] b = Some (reference rc) /\ body_at ["amount"%string] b = Some text) w v /\
    read_clock v = (Ok (E := Error) now, w').
#[export] Instance paystack_refunds r : RefundOrders (paystack_rail sha512_mac r) (exactly in_minor_units) (paystack_refunded r).
Proof.
  intros rc rc' w w' Hu Hr. cbn in Hr. unfold paystack_refund in Hr. refund_inv Hr. refunds Hr (to_dec (amount_minor rc)).
  do 2 eexists. split; [|eassumption]. sent.
Qed.

(** Paystack documents that it echoes the reference it is given; then the seam's
    laws hold. *)
Definition echoes_reference (r : PaystackRail W) : Prop :=
  forall q w body w' parsed cur email,
    answered (ps_http r) (json_call r "POST" "/transaction/initialize" (Some (initialize_request q email cur))) w body w' ->
    from_json (T := InitializeResponse) body = Ok parsed ->
    id_reference (ir_data parsed) = EmptyString \/ id_reference (ir_data parsed) = req_reference q.
Lemma paystack_rail_laws c builder r :
  paystack_new c builder = Ok r -> echoes_reference r -> RailLaws (fun _ : W => True) (paystack_rail sha512_mac r).
Proof.
  intros Hnew Hecho. pose proof Hnew as Hnew'. autounfold with adapter in Hnew'. run_inv Hnew'. injection Hnew' as <-.
  split; cbn [id verify charge quote capabilities refund validate_destination class].
  - intros rc w Hid. cbn in Hid |- *. unfold paystack_verify. cbn. now rewrite (proj2 (String.eqb_neq _ _) Hid).
  - done.
  - intros q w rc w' _ Hch. cbn in Hch. unfold paystack_charge in Hch. run_inv Hch. subst rc.
    split; [done|]. cbn. apply expect_2xx_Ok in Hx3. destruct (Hecho _ _ _ _ _ _ _ Hx3 Hx4) as [-> | ->]; [done|].
    now case_match.
  - intros q w e Hv. cbn. unfold paystack_charge. unfold_eff. now rewrite Hv.
  - intros q w e Hv. cbn. unfold paystack_quote. unfold_eff. now rewrite Hv.
  - intros d. apply fiat_verdict_honest. cbn. tauto.
  - intros d. apply fiat_verdict_blank. cbn. tauto.
  - done.
Qed.
End PaystackLemmas.
