(* ===== verification/Razorpay.v ===== *)
(** * The Razorpay adapter ([patala-fiat/src/razorpay/*.rs])

    Orders in rupees, paid by a checkout script in the buyer's browser: charge
    creates the order, verify asks for the order's payments and looks for a
    captured one of that order, the webhook names the order as its reference. *)

From S2P Require Import Prelude RustStr Core External HttpShared FiatDest Json Adapter Orders.

(** ** models.rs *)

Definition razorpay_malformed : str -> Error := api_malformed "razorpay".
Record RazorpayPayment := {
  rp_id : str;
  rp_order_id : str;
  rp_amount : Z;
  rp_currency : str;
  rp_status : str;
  rp_created_at : Z;
}.
Record PaymentOutcome := {
  po_order_id : str;
  po_event_id : str;
  po_settled : bool;
  po_amount_minor : Z;
  po_currency : str;
}.
Definition evaluate_payment (pay : RazorpayPayment) : Result Error PaymentOutcome :=
  return_if is_empty (rp_order_id pay) with_ Err (razorpay_malformed "missing order_id");
  return_if is_empty (rp_id pay) with_
    Err (razorpay_malformed "no payment id: this entity carries no id to deduplicate on");
  let cur := normal_currency (rp_currency pay) in
  if String.eqb (rp_status pay) "captured" then
    return_if rp_amount pay =? 0 with_ Err (razorpay_malformed "captured with non-positive amount");
    Ok {| po_order_id := rp_order_id pay; po_event_id := rp_id pay; po_settled := true;
          po_amount_minor := rp_amount pay; po_currency := cur |}
  else
    Ok {| po_order_id := rp_order_id pay; po_event_id := rp_id pay; po_settled := false;
          po_amount_minor := 0; po_currency := cur |}.

(** ** proof.rs and the answers *)

Record ChargeProof := { order_id : str }.
Record ErrorEnvelope := { error_description : str }.
Record CreateResponse := { cr_id : str }.
Record ListResponse := { items : list RazorpayPayment }.
Record Envelope := { env_event : str; env_entity : RazorpayPayment }.
Class RazorpayJson := {
  #[export] error_json :: FromJson ErrorEnvelope;
  #[export] create_json :: FromJson CreateResponse;
  #[export] list_json :: FromJson ListResponse;
  #[export] envelope_json :: FromJson Envelope;
}.
Definition classify_error `{RazorpayJson} (code : Z) (body : list byte) : Error :=
  let env := default {| error_description := EmptyString |} (result_ok (from_json body)) in
  api_status "razorpay" code (or_no_message (error_description env)).

(** ** webhook.rs *)

Inductive RazorpayWebhookError :=
  | MissingSignature | InvalidSignature
  | MalformedResponse (e : str)
  | ResponseTooLarge
  | UnhandledEvent (ty : str).
Definition razorpay_webhook_error_display (e : RazorpayWebhookError) : str :=
  match e with
  | MissingSignature => "payments: razorpay: missing X-Razorpay-Signature header"
  | InvalidSignature => "payments: razorpay: invalid webhook signature"
  | MalformedResponse e => "payments: razorpay: malformed API response: " +:+ e
  | ResponseTooLarge => "payments: razorpay: response body exceeds size limit"
  | UnhandledEvent ty => "payments: unhandled webhook event type: " +:+ ty
  end.
Record RazorpayWebhookEvent := {
  rze_event_id : str;
  rze_reference : str;
  rze_settled : bool;
  rze_amount_minor : Z;
  rze_currency : str;
}.
Definition verify_and_parse `{RazorpayJson, Hex} (sha256_mac : Mac) (secret : str) (body : list byte)
    (sig_header : str) : Result RazorpayWebhookError RazorpayWebhookEvent :=
  let h := trim sig_header in
  return_if is_empty h with_ Err MissingSignature;
  _ ← map_err (fun _ => ResponseTooLarge) (bounded_len_check body DEFAULT_MAX_BODY_BYTES);
  return_if negb (verify_hmac_sha256_hex sha256_mac (as_bytes secret) body h) with_ Err InvalidSignature;
  env ← map_err MalformedResponse (from_json (T := Envelope) body);
  return_if negb (String.eqb (env_event env) "payment.captured") with_ Err (UnhandledEvent (env_event env));
  outcome ← map_err (fun e => MalformedResponse (error_display e)) (evaluate_payment (env_entity env));
  Ok {| rze_event_id := po_event_id outcome; rze_reference := po_order_id outcome;
        rze_settled := po_settled outcome; rze_amount_minor := po_amount_minor outcome;
        rze_currency := po_currency outcome |}.

(** ** config.rs *)

Record RazorpayConfig := {
  key_id : str;
  key_secret : str;
  webhook_secret : str;
  rp_requires_kyc : bool;
  rp_settlement_days : Z;
  rp_timeout_secs : Z;
}.
Definition razorpay_config_from_env (env : Environment) : Result Error RazorpayConfig :=
  let kid := default EmptyString (env "RAZORPAY_KEY_ID"%string) in
  let ksec := default EmptyString (env "RAZORPAY_KEY_SECRET"%string) in
  return_if is_blank kid || is_blank ksec with_
    Err (InvalidRequest "razorpay: RAZORPAY_KEY_ID and RAZORPAY_KEY_SECRET must both be set");
  secret ← non_empty_env env "RAZORPAY_WEBHOOK_SECRET";
  Ok {| key_id := trim kid; key_secret := trim ksec; webhook_secret := secret;
        rp_requires_kyc := env_flag env "RAZORPAY_REQUIRES_KYC" true;
        rp_settlement_days := env_u8 env "RAZORPAY_SETTLEMENT_DAYS" 2;
        rp_timeout_secs := env_u64 env "RAZORPAY_TIMEOUT_SECS" 15 |}.

(** ** rail.rs *)

Definition RAZORPAY_API_BASE : str := "https://api.razorpay.com/v1".
Record RazorpayRail (W : Type) := {
  razorpay_id : str;
  rp_config : RazorpayConfig;
  rp_http : HttpClient W;
  rp_capabilities : RailCapabilities;
  rp_base_url : str;
}.
Arguments razorpay_id {W} _.
Arguments rp_config {W} _.
Arguments rp_http {W} _.
Arguments rp_capabilities {W} _.
Arguments rp_base_url {W} _.

Definition razorpay_new {W} (c : RazorpayConfig) (builder : HttpBuilder W) : Result Error (RazorpayRail W) :=
  _ ← required "key_id" (key_id c);
  _ ← required "key_secret" (key_secret c);
  _ ← required "webhook_secret" (webhook_secret c);
  http ← built_client "razorpay" builder (rp_timeout_secs c);
  Ok {| razorpay_id := "razorpay"; rp_config := c; rp_http := http;
        rp_capabilities := {|
          class := CustodialReversible; reversible := false; requires_kyc := rp_requires_kyc c;
          holds_funds := true; currencies := ["INR"%string]; settlement := Days (rp_settlement_days c);
          atomic_multi_party := false |};
        rp_base_url := RAZORPAY_API_BASE |}.

Definition safe_path_segment : str -> Result Error str := path_segment "a razorpay id".

Section RazorpayRail.
Context `{RazorpayJson} `{!ProofBytes ChargeProof} `{Hex} (sha256_mac : Mac) {W : Type} `{Clock W}.

Definition check_currency (r : RazorpayRail W) : str -> Result Error unit :=
  check_listed (razorpay_id r) (currencies (rp_capabilities r)).
Definition json_call (r : RazorpayRail W) (method path : str) (body : option Json) : HttpCall := {|
  hc_method := method; hc_url := rp_base_url r +:+ path;
  hc_basic_auth := Some (key_id (rp_config r), Some (key_secret (rp_config r)));
  hc_headers := [("Content-Type", "application/json")]%string;
  hc_body := json_body body |}.
Definition do_json (r : RazorpayRail W) (method path : str) (body : option Json)
    : Eff W Error (list byte * Z) :=
  transport "razorpay" path (rp_http r) (json_call r method path body).

Definition razorpay_quote (r : RazorpayRail W) (req : PayRequest) : Eff W Error Quote :=
  _ ← eff_of (validate req);
  _ ← eff_of (check_currency r (req_currency req));
  quoted (razorpay_id r) (settlement (rp_capabilities r)) 300 (req_currency req) req.

Definition order_request (req : PayRequest) (cur : str) : Json := JObject [
  ("amount", json_u64 (req_amount_minor req)); ("currency", JString cur);
  ("receipt", JString (req_reference req))]%string.
Definition razorpay_charge (r : RazorpayRail W) (req : PayRequest) : Eff W Error Receipt :=
  _ ← eff_of (validate req);
  _ ← eff_of (check_currency r (req_currency req));
  let cur := normal_currency (req_currency req) in
  body ← expect_2xx classify_error (do_json r "POST" "/orders" (Some (order_request req cur)));
  parsed ← parse_as (T := CreateResponse) "razorpay" body;
  return_if is_empty (cr_id parsed) with_ eff_err (razorpay_malformed "empty order id");
  mret (open_receipt (razorpay_id r) cur (req_reference req) {| order_id := cr_id parsed |}).

(** [iter().filter(..).find(..)] *)
Definition captured_payment (oid : str) (l : list RazorpayPayment) : option RazorpayPayment :=
  find (fun item => String.eqb (rp_status item) "captured")
    (List.filter (fun item => String.eqb (rp_order_id item) oid) l).
Definition payments_cover (oid : str) (l : list RazorpayPayment) (rc : Receipt) : bool :=
  let_some pay := captured_payment oid l or_else false;
  let_ok outcome := evaluate_payment pay or_else false;
  covers (po_settled outcome) (po_currency outcome) (po_amount_minor outcome) rc.
Definition razorpay_verify (r : RazorpayRail W) (rc : Receipt) : Eff W Error bool :=
  return_if negb (String.eqb (rail_id rc) (razorpay_id r)) with_ mret false;
  let_some p := from_bytes (P := ChargeProof) (proof rc) or_else mret false;
  let_ok oid := safe_path_segment (order_id p) or_else mret false;
  body ← expect_2xx classify_error (do_json r "GET" ("/orders/" +:+ oid +:+ "/payments") None);
  parsed ← parse_as (T := ListResponse) "razorpay" body;
  mret (payments_cover oid (items parsed) rc).

Definition razorpay_webhook (r : RazorpayRail W) (d : WebhookDelivery) : Result Error WebhookEvent :=
  event ← map_err (fun e => InvalidRequest (razorpay_webhook_error_display e))
    (verify_and_parse sha256_mac (webhook_secret (rp_config r)) (raw_body d)
       (header_or_empty "X-Razorpay-Signature" d));
  Ok (settlement_event (razorpay_id r) (rze_event_id event) (rze_reference event) (rze_settled event)
       (rze_amount_minor event) (rze_currency event)).
Definition razorpay_rail (r : RazorpayRail W) : PaymentRail W := {|
  id := razorpay_id r;
  capabilities := rp_capabilities r;
  quote := razorpay_quote r;
  charge := razorpay_charge r;
  verify := razorpay_verify r;
  validate_destination := ignored (razorpay_id r);
  refund := default_refund;
  verify_webhook d := eff_of (razorpay_webhook r d);
|}.
End RazorpayRail.
#[export] Hint Unfold razorpay_rail razorpay_new razorpay_verify razorpay_charge razorpay_quote safe_path_segment do_json
  : adapter.

(** ** Lemmas *)

(** The first captured payment of the order, with money in it. *)
Definition order_captured (oid : str) (l : list RazorpayPayment) (ev : Evidence) : Prop :=
  exists pay, captured_payment oid l = Some pay /\ oid <> EmptyString /\ rp_id pay <> EmptyString /\
    rp_amount pay <> 0 /\
    ev = {| ev_reference := None; ev_currency := normal_currency (rp_currency pay); ev_amount := rp_amount pay |}.
Lemma captured_payment_Some oid l pay : captured_payment oid l = Some pay ->
  In pay l /\ rp_order_id pay = oid /\ rp_status pay = "captured"%string.
Proof.
  unfold captured_payment. intros Hf. apply find_some in Hf as [Hin Hs].
  apply filter_In in Hin as [Hin Ho]. now apply String.eqb_eq in Hs, Ho.
Qed.
Lemma payments_cover_spec oid l rc :
  payments_cover oid l rc = true <-> exists ev, order_captured oid l ev /\ supports ev rc.
Proof.
  unfold payments_cover, order_captured, supports, evaluate_payment.
  destruct (captured_payment oid l) as [pay|] eqn:Ec; [|split; [done | naive_solver]].
  pose proof (captured_payment_Some _ _ _ Ec) as (_ & <- & Hs). rewrite Hs. cbn. split.
  - destruct (is_empty (rp_order_id pay)) eqn:E1; [done|]. destruct (is_empty (rp_id pay)) eqn:E2; [done|].
    destruct (Z.eqb_spec (rp_amount pay) 0); [done|]. intros (_ & ? & ?)%covers_spec.
    eexists. split; [exists pay; split_and!; try now apply is_empty_false|]; done.
  - intros (ev & (pay' & [= <-] & E1%is_empty_false & E2%is_empty_false & E3%Z.eqb_neq & ->) & _ & Hc & Ha).
    rewrite E1, E2, E3. now apply covers_spec.
Qed.

Section RazorpayLemmas.
Context `{RazorpayJson} `{!ProofBytes ChargeProof} `{Hex} (sha256_mac : Mac) {W : Type} `{Clock W}.

(** The proof names an order, and Razorpay lists a captured payment of it. *)
Definition razorpay_evidence (r : RazorpayRail W) (p : list byte) (ref : str) (w : W) (ev : Evidence) (w' : W) : Prop :=
  exists cp body parsed,
    from_bytes (P := ChargeProof) p = Some cp /\ is_safe_path_segment (order_id cp) = true /\
    answered (rp_http r) (json_call r "GET" ("/orders/" +:+ order_id cp +:+ "/payments") None) w body w' /\
    from_json (T := ListResponse) body = Ok parsed /\ order_captured (order_id cp) (items parsed) ev.
#[export] Instance razorpay_verifies r : VerifiesBy (razorpay_rail sha256_mac r) (razorpay_evidence r).
Proof.
  intros rc w w'. cbn [verify razorpay_rail id]. unfold razorpay_verify, razorpay_evidence. split.
  - intros Hv. run_inv Hv. apply names_rail in Hc. apply path_segment_Ok in Hp0 as [-> Hs].
    apply expect_2xx_Ok in Hx. apply payments_cover_spec in Hv as (ev & ? & ?). eauto 12.
  - intros (Hi%names_rail & ev & (cp & body & parsed & Hp & Hs & Hg & Hb & Hset) & Hsup).
    pose proof (proj2 (path_segment_Ok "a razorpay id" _ _) (conj eq_refl Hs)).
    pose proof (proj2 (expect_2xx_Ok "razorpay" ("/orders/" +:+ order_id cp +:+ "/payments") _ classify_error _ _ _ _) Hg).
    assert (payments_cover (order_id cp) (items parsed) rc = true) by (apply payments_cover_spec; eauto).
    autounfold with adapter. run.
Qed.
Lemma razorpay_ignores_reference r : ignores_reference (razorpay_rail sha256_mac r).
Proof. intros rc ref w. reflexivity. Qed.

Definition razorpay_authentic (r : RazorpayRail W) (d : WebhookDelivery) (w : W) : Prop :=
  hex_signed sha256_mac (as_bytes (webhook_secret (rp_config r))) (raw_body d)
    (trim (header_or_empty "X-Razorpay-Signature" d)).
Lemma razorpay_evaluate_id pay o : evaluate_payment pay = Ok o -> po_event_id o <> EmptyString.
Proof.
  unfold evaluate_payment. intros He. run_inv He. apply is_empty_false in Hc0. revert He.
  destruct (String.eqb _ _); [intros He; run_inv He|intros He]; now injection He as <-.
Qed.
#[export] Instance razorpay_webhook_answers r :
  WebhookAnswers (razorpay_rail sha256_mac r) (razorpay_authentic r).
Proof.
  intros d w ev w' Hw. cbn [verify_webhook razorpay_rail] in Hw.
  unfold razorpay_webhook, verify_and_parse in Hw. run_inv Hw. simplify_eq.
  apply negb_false_iff, hex_signed_spec in Hc0. split; [done|]. split; [|done].
  cbn. eapply razorpay_evaluate_id; eassumption.
Qed.
Definition razorpay_places : Places := {|
  amount_at := ["amount"]; currency_at := At ["currency"];
  reference_at := ["receipt"] |}%string.
Definition razorpay_ordered (r : RazorpayRail W) (o : Order) (rc : Receipt) (w w' : W) : Prop :=
  ordered_by (rp_http r) "POST" (rp_base_url r +:+ "/orders") (reads razorpay_places) o w w'.
#[export] Instance razorpay_orders r : ChargeOrders (razorpay_rail sha256_mac r) (exactly in_minor_units) (razorpay_ordered r).
Proof.
  intros q rc w w' Hu Hc. charge_inv Hc.
  orders (to_dec (req_amount_minor q)) (normal_currency (req_currency q)). sent.
Qed.
#[export] Instance razorpay_opens r : ChargeOpens (razorpay_rail sha256_mac r).
Proof. charge_opens. Qed.
#[export] Instance razorpay_quotes r : QuotesCharge (razorpay_rail sha256_mac r) 300.
Proof. quotes_before. Qed.
#[export] Instance razorpay_rail_laws c builder r :
  razorpay_new c builder = Ok r -> RailLaws (fun _ : W => True) (razorpay_rail sha256_mac r).
Proof. intros Hnew. solve_rail_laws Hnew. Qed.
End RazorpayLemmas.
