(* ===== verification/Midtrans.v ===== *)
(** * The Midtrans adapter ([patala-fiat/src/midtrans/*.rs])

    Snap payments in rupiah. verify asks for the transaction of the receipt's
    own reference, which Midtrans calls the order id. A notification carries its
    signature in the body: the SHA-512 of the order id, the status code, the
    gross amount and the server key, and of nothing else. *)

From S2P Require Import Prelude RustStr Core External HttpShared FiatDest Json Currency Adapter Orders.

(** ** models.rs *)

Definition midtrans_malformed : str -> Error := api_malformed "midtrans".
Record MidtransTransactionStatus := {
  mts_order_id : str;
  transaction_id : str;
  transaction_status : str;
  fraud_status : str;
  gross_amount : str;
  mts_currency : str;
  status_code : str;
  signature_key : str;
  settlement_time : str;
  transaction_time : str;
}.
Definition currency_or_idr (s : MidtransTransactionStatus) : str :=
  if is_empty (mts_currency s) then "IDR" else mts_currency s.
Record StatusOutcome := {
  so_event_id : str;
  so_settled : bool;
  so_amount_minor : Z;
  so_currency : str;
}.
Definition midtrans_unsettled (s : MidtransTransactionStatus) : StatusOutcome :=
  {| so_event_id := transaction_id s; so_settled := false; so_amount_minor := 0; so_currency := currency_or_idr s |}.
Definition midtrans_settled (s : MidtransTransactionStatus) (amt : Z) : StatusOutcome :=
  {| so_event_id := transaction_id s; so_settled := true; so_amount_minor := amt; so_currency := currency_or_idr s |}.
Definition evaluate_status (s : MidtransTransactionStatus) : Result Error StatusOutcome :=
  return_if is_empty (mts_order_id s) with_ Err (midtrans_malformed "missing order_id");
  return_if is_empty (transaction_id s) with_
    Err (midtrans_malformed "no transaction_id: this notification carries no id to deduplicate on");
  amt ← map_err (fun e => midtrans_malformed ("gross_amount " +:+ debug_str (gross_amount s) +:+ ": " +:+ currency_error_display e))
    (major_string_to_minor (gross_amount s) (currency_or_idr s));
  if String.eqb (transaction_status s) "capture" then
    return_if negb (String.eqb (fraud_status s) "accept") with_ Ok (midtrans_unsettled s);
    return_if amt =? 0 with_ Err (midtrans_malformed "capture/accept with non-positive amount");
    Ok (midtrans_settled s amt)
  else if String.eqb (transaction_status s) "settlement" then
    return_if amt =? 0 with_ Err (midtrans_malformed "settlement with non-positive amount");
    Ok (midtrans_settled s amt)
  else Ok (midtrans_unsettled s).

(** ** proof.rs, what [rail.rs] sends and reads

    [RawValue] is JSON text kept as it is. *)

Record ChargeProof := { proof_redirect_url : option str }.
Record ErrorEnvelope := { status_message : str }.
Record CustomerDetails := { email : str; first_name : str }.
Record BeginRequest := {
  br_order_id : str;
  br_gross_amount : str;
  customer_details : option CustomerDetails;
}.
Record CreateResponse := { token : str; cr_redirect_url : str }.
Class MidtransJson := {
  #[export] error_json :: FromJson ErrorEnvelope;
  #[export] create_json :: FromJson CreateResponse;
  #[export] status_json :: FromJson MidtransTransactionStatus;
  raw_value_error : str -> option str;
  begin_to_vec : BeginRequest -> Result str (list byte);
}.
(** [RawValue::from_string] keeps the text as it is, when serde takes it for JSON. *)
Definition raw_value_from_string `{MidtransJson} (s : str) : Result str str :=
  match raw_value_error s with Some e => Err e | None => Ok s end.
Definition classify_error `{MidtransJson} (code : Z) (body : list byte) : Error :=
  let env := default {| status_message := EmptyString |} (result_ok (from_json body)) in
  api_status "midtrans" code (or_no_message (status_message env)).
Definition unsupported_currency (got : str) : Error :=
  InvalidRequest ("midtrans: only IDR is supported, got " +:+ debug_str got).

(** ** webhook.rs *)

Inductive MidtransWebhookError := MissingSignature | InvalidSignature | MalformedResponse (e : str).
Definition midtrans_webhook_error_display (e : MidtransWebhookError) : str :=
  match e with
  | MissingSignature => "payments: midtrans: webhook body has no signature_key"
  | InvalidSignature => "payments: midtrans: invalid signature_key"
  | MalformedResponse e => "payments: midtrans: malformed API response: " +:+ e
  end.
Record MidtransWebhookEvent := {
  mde_event_id : str;
  mde_reference : str;
  mde_settled : bool;
  mde_amount_minor : Z;
  mde_currency : str;
}.
Definition constant_time_eq_hex_ci (expected_lower_hex given : str) : bool :=
  let a := as_bytes expected_lower_hex in
  let b := as_bytes (to_ascii_lowercase given) in
  return_if negb (Nat.eqb (length a) (length b)) with_ false;
  ct_diff a b =? 0.
Definition midtrans_digest `{Hex} (sha512 : list byte -> list byte) (key : str) (s : MidtransTransactionStatus) : str :=
  hex_encode (sha512 (as_bytes (mts_order_id s) ++ as_bytes (status_code s) ++ as_bytes (gross_amount s) ++ as_bytes key)).
Definition verify_and_parse `{MidtransJson, Hex} (sha512 : list byte -> list byte) (key : str) (body : list byte)
    : Result MidtransWebhookError MidtransWebhookEvent :=
  parsed ← map_err MalformedResponse (from_json (T := MidtransTransactionStatus) body);
  return_if is_empty (signature_key parsed) with_ Err MissingSignature;
  return_if is_empty (mts_order_id parsed) || is_empty (status_code parsed) || is_empty (gross_amount parsed) with_
    Err (MalformedResponse "missing order_id/status_code/gross_amount");
  return_if negb (constant_time_eq_hex_ci (midtrans_digest sha512 key parsed) (signature_key parsed)) with_
    Err InvalidSignature;
  outcome ← map_err (fun e => MalformedResponse (error_display e)) (evaluate_status parsed);
  Ok {| mde_event_id := so_event_id outcome; mde_reference := mts_order_id parsed;
        mde_settled := so_settled outcome; mde_amount_minor := so_amount_minor outcome;
        mde_currency := so_currency outcome |}.

(** ** config.rs *)

Definition SNAP_API_BASE : str := "https://app.midtrans.com/snap/v1".
Definition CORE_API_BASE : str := "https://api.midtrans.com/v2".
Record MidtransConfig := {
  server_key : str;
  md_requires_kyc : bool;
  md_settlement_days : Z;
  md_timeout_secs : Z;
}.
Definition midtrans_config_from_env (env : Environment) : Result Error MidtransConfig :=
  key ← non_empty_env env "MIDTRANS_SERVER_KEY";
  Ok {| server_key := key;
        md_requires_kyc := env_flag env "MIDTRANS_REQUIRES_KYC" true;
        md_settlement_days := env_u8 env "MIDTRANS_SETTLEMENT_DAYS" 2;
        md_timeout_secs := env_u64 env "MIDTRANS_TIMEOUT_SECS" 15 |}.

(** ** rail.rs *)

Record MidtransRail (W : Type) := {
  midtrans_id : str;
  md_config : MidtransConfig;
  md_http : HttpClient W;
  md_capabilities : RailCapabilities;
  snap_base_url : str;
  core_base_url : str;
}.
Arguments midtrans_id {W} _.
Arguments md_config {W} _.
Arguments md_http {W} _.
Arguments md_capabilities {W} _.
Arguments snap_base_url {W} _.
Arguments core_base_url {W} _.

Definition midtrans_new {W} (c : MidtransConfig) (builder : HttpBuilder W) : Result Error (MidtransRail W) :=
  _ ← required "server_key" (server_key c);
  http ← built_client "midtrans" builder (md_timeout_secs c);
  Ok {| midtrans_id := "midtrans"; md_config := c; md_http := http;
        md_capabilities := {|
          class := CustodialReversible; reversible := true; requires_kyc := md_requires_kyc c;
          holds_funds := true; currencies := ["IDR"%string]; settlement := Days (md_settlement_days c);
          atomic_multi_party := false |};
        snap_base_url := SNAP_API_BASE; core_base_url := CORE_API_BASE |}.

Definition safe_path_segment : str -> Result Error str := path_segment "a midtrans order_id".

Section MidtransRail.
Context `{MidtransJson} `{!ProofBytes ChargeProof} `{Hex} (sha512 : list byte -> list byte) {W : Type} `{Clock W}.

Definition request_call (r : MidtransRail W) (base method path : str) (body : option (list byte)) : HttpCall := {|
  hc_method := method; hc_url := base +:+ path;
  hc_basic_auth := Some (server_key (md_config r), None);
  hc_headers := [("Content-Type", "application/json"); ("Accept", "application/json")]%string;
  hc_body := match body with Some b => RawBody b | None => NoBody end |}.
Definition do_request (r : MidtransRail W) (base method path : str) (body : option (list byte))
    : Eff W Error (list byte * Z) :=
  transport "midtrans" path (md_http r) (request_call r base method path body).

(** The guard quote and charge share, and the amount as rupiah. *)
Definition check_currency (cur : str) : Result Error unit :=
  return_if negb (eq_ignore_ascii_case cur "IDR") with_ Err (unsupported_currency cur);
  Ok tt.
Definition idr_string (amt : Z) : Result Error str :=
  map_err (fun e => InvalidRequest (currency_error_display e)) (minor_to_major_string amt "IDR").

#[global] Arguments idr_string : simpl never.

Definition midtrans_quote (r : MidtransRail W) (req : PayRequest) : Eff W Error Quote :=
  _ ← eff_of (validate req);
  _ ← eff_of (check_currency (req_currency req));
  _ ← eff_of (idr_string (req_amount_minor req));
  quoted (midtrans_id r) (settlement (md_capabilities r)) 300 "IDR" req.

Definition begin_request (req : PayRequest) (raw_amount : str) : BeginRequest :=
  let mail := trim (req_destination req) in {|
    br_order_id := req_reference req;
    br_gross_amount := raw_amount;
    customer_details := if is_empty mail then None else Some {| email := mail; first_name := EmptyString |} |}.
Definition midtrans_charge (r : MidtransRail W) (req : PayRequest) : Eff W Error Receipt :=
  _ ← eff_of (validate req);
  _ ← eff_of (check_currency (req_currency req));
  gross ← eff_of (idr_string (req_amount_minor req));
  raw_amount ← eff_of (map_err (fun e => Rail ("midtrans: encode gross_amount: " +:+ e)) (raw_value_from_string gross));
  bytes ← eff_of (map_err (fun e => Rail ("midtrans: encode request: " +:+ e)) (begin_to_vec (begin_request req raw_amount)));
  body ← expect_2xx classify_error (do_request r (snap_base_url r) "POST" "/transactions" (Some bytes));
  parsed ← parse_as (T := CreateResponse) "midtrans" body;
  return_if is_empty (cr_redirect_url parsed) with_ eff_err (midtrans_malformed "empty redirect_url");
  mret (open_receipt (midtrans_id r) "IDR" (req_reference req)
    {| proof_redirect_url := Some (cr_redirect_url parsed) |}).

Definition status_covers (s : MidtransTransactionStatus) (ref : str) (rc : Receipt) : bool :=
  return_if negb (is_empty (mts_order_id s)) && negb (String.eqb (mts_order_id s) ref) with_ false;
  let_ok outcome := evaluate_status s or_else false;
  covers (so_settled outcome) (so_currency outcome) (so_amount_minor outcome) rc.
Definition midtrans_verify (r : MidtransRail W) (rc : Receipt) : Eff W Error bool :=
  return_if negb (String.eqb (rail_id rc) (midtrans_id r)) with_ mret false;
  let_ok ref := safe_path_segment (reference rc) or_else mret false;
  body ← expect_2xx classify_error (do_request r (core_base_url r) "GET" ("/" +:+ ref +:+ "/status") None);
  parsed ← parse_as (T := MidtransTransactionStatus) "midtrans" body;
  mret (status_covers parsed ref rc).

Definition midtrans_webhook (r : MidtransRail W) (d : WebhookDelivery) : Result Error WebhookEvent :=
  event ← map_err (fun e => InvalidRequest (midtrans_webhook_error_display e))
    (verify_and_parse sha512 (server_key (md_config r)) (raw_body d));
  Ok (settlement_event (midtrans_id r) (mde_event_id event) (mde_reference event) (mde_settled event)
       (mde_amount_minor event) (mde_currency event)).
Definition midtrans_rail (r : MidtransRail W) : PaymentRail W := {|
  id := midtrans_id r;
  capabilities := md_capabilities r;
  quote := midtrans_quote r;
  charge := midtrans_charge r;
  verify := midtrans_verify r;
  validate_destination := buyer_email (midtrans_id r);
  refund := default_refund;
  verify_webhook d := eff_of (midtrans_webhook r d);
|}.
End MidtransRail.
#[export] Hint Unfold midtrans_rail midtrans_new midtrans_verify midtrans_charge midtrans_quote safe_path_segment do_request
  : adapter.

(** ** Lemmas *)

(** A transaction whose money has moved: captured and accepted, or settled. *)
Definition midtrans_paid (s : MidtransTransactionStatus) (amt : Z) : Prop :=
  mts_order_id s <> EmptyString /\ transaction_id s <> EmptyString /\
  major_string_to_minor (gross_amount s) (currency_or_idr s) = Ok amt /\ amt <> 0 /\
  (transaction_status s = "capture"%string /\ fraud_status s = "accept"%string \/
   transaction_status s = "settlement"%string).
Lemma evaluate_status_paid s o :
  evaluate_status s = Ok o /\ so_settled o = true <->
  exists amt, midtrans_paid s amt /\ o = midtrans_settled s amt.
Proof.
  unfold evaluate_status, midtrans_paid.
  destruct (is_empty (mts_order_id s)) eqn:E1; [apply is_empty_spec in E1; naive_solver|].
  destruct (is_empty (transaction_id s)) eqn:E2; [apply is_empty_spec in E2; naive_solver|].
  apply is_empty_false in E1, E2.
  destruct (major_string_to_minor _ _) as [amt|] eqn:Ea; cbn; [|naive_solver].
  destruct (String.eqb_spec (transaction_status s) "capture") as [E3|E3].
  - destruct (String.eqb_spec (fraud_status s) "accept") as [E4|E4]; cbn;
      [destruct (Z.eqb_spec amt 0)|]; naive_solver congruence.
  - destruct (String.eqb_spec (transaction_status s) "settlement") as [E4|E4]; cbn;
      [destruct (Z.eqb_spec amt 0)|]; naive_solver.
Qed.
Lemma evaluate_status_id s o : evaluate_status s = Ok o -> so_event_id o = transaction_id s /\ transaction_id s <> EmptyString.
Proof.
  unfold evaluate_status. intros He. run_inv He. apply is_empty_false in Hc0. revert He.
  repeat case_match; intros [= <-]; done.
Qed.
Definition midtrans_says (s : MidtransTransactionStatus) (ref : str) (ev : Evidence) : Prop :=
  mts_order_id s = ref /\ exists amt, midtrans_paid s amt /\
    ev = {| ev_reference := Some ref; ev_currency := currency_or_idr s; ev_amount := amt |}.
Lemma status_covers_spec s rc :
  status_covers s (reference rc) rc = true <->
  exists ev, midtrans_says s (reference rc) ev /\ supports ev rc.
Proof.
  unfold status_covers, midtrans_says, supports. split.
  - destruct (is_empty (mts_order_id s)) eqn:E1.
    { unfold evaluate_status. now rewrite E1. }
    destruct (String.eqb_spec (mts_order_id s) (reference rc)) as [E2|]; cbn; [|done].
    destruct (evaluate_status s) as [o|] eqn:Ee; [|done]. intros (Hs & Hc & Ha)%covers_spec.
    destruct (proj1 (evaluate_status_paid s o) (conj Ee Hs)) as (amt & Hp & ->).
    eexists. split; [split; [done|]; eauto | done].
  - intros (ev & (<- & amt & Hp & ->) & _ & Hc & Ha). rewrite String.eqb_refl, andb_false_r.
    destruct (proj2 (evaluate_status_paid s (midtrans_settled s amt)) (ex_intro _ amt (conj Hp eq_refl))) as [-> _].
    now apply covers_spec.
Qed.

Section MidtransLemmas.
Context `{MidtransJson} `{!ProofBytes ChargeProof} `{Hex} (sha512 : list byte -> list byte) {W : Type} `{Clock W}.

Definition midtrans_evidence (r : MidtransRail W) (p : list byte) (ref : str) (w : W) (ev : Evidence) (w' : W) : Prop :=
  is_safe_path_segment ref = true /\ exists body parsed,
    answered (md_http r) (request_call r (core_base_url r) "GET" ("/" +:+ ref +:+ "/status") None) w body w' /\
    from_json (T := MidtransTransactionStatus) body = Ok parsed /\ midtrans_says parsed ref ev.
#[export] Instance midtrans_verifies r : VerifiesBy (midtrans_rail sha512 r) (midtrans_evidence r).
Proof.
  intros rc w w'. cbn [verify midtrans_rail id]. unfold midtrans_verify, midtrans_evidence. split.
  - intros Hv. run_inv Hv. apply names_rail in Hc. apply path_segment_Ok in Hp as [-> Hs].
    apply expect_2xx_Ok in Hx. apply status_covers_spec in Hv as (ev & ? & ?). eauto 10.
  - intros (Hi%names_rail & ev & (Hs & body & parsed & Hg & Hb & Hset) & Hsup).
    pose proof (proj2 (path_segment_Ok "a midtrans order_id" _ _) (conj eq_refl Hs)).
    pose proof (proj2 (expect_2xx_Ok "midtrans" ("/" +:+ reference rc +:+ "/status") _ classify_error _ _ _ _) Hg).
    assert (status_covers parsed (reference rc) rc = true) by (apply status_covers_spec; eauto).
    autounfold with adapter. run.
Qed.

(** What a notification's signature says of it: the digest of four fields. *)
Definition midtrans_signed (key : str) (s : MidtransTransactionStatus) : Prop :=
  midtrans_digest sha512 key s = to_ascii_lowercase (signature_key s).
Lemma constant_time_eq_hex_ci_spec e g : constant_time_eq_hex_ci e g = true <-> e = to_ascii_lowercase g.
Proof.
  unfold constant_time_eq_hex_ci. change (constant_time_eq (as_bytes e) (as_bytes (to_ascii_lowercase g)) = true <-> e = to_ascii_lowercase g).
  rewrite constant_time_eq_spec. split; [|now intros ->]. unfold as_bytes. intros E%(f_equal string_of_list_byte).
  now rewrite !string_of_list_byte_of_string in E.
Qed.
Definition midtrans_authentic (r : MidtransRail W) (d : WebhookDelivery) (w : W) : Prop :=
  exists s, from_json (T := MidtransTransactionStatus) (raw_body d) = Ok s /\
    midtrans_signed (server_key (md_config r)) s.
#[export] Instance midtrans_webhook_answers r :
  WebhookAnswers (midtrans_rail sha512 r) (midtrans_authentic r).
Proof.
  intros d w ev w' Hw. cbn [verify_webhook midtrans_rail] in Hw.
  unfold midtrans_webhook, verify_and_parse in Hw. run_inv Hw. simplify_eq.
  apply negb_false_iff, constant_time_eq_hex_ci_spec in Hc1.
  apply evaluate_status_id in Hx1 as [Hi Hn]. split; [done|]. cbn. rewrite Hi. unfold midtrans_authentic. eauto.
Qed.
(** The body is what serde writes for the request whose gross amount is this
    decimal text, unquoted. *)
Definition midtrans_reads (b : HttpBody) (o : Order) : Prop :=
  exists bytes br, b = RawBody bytes /\ begin_to_vec br = Ok bytes /\
    br_gross_amount br = o_amount o /\ br_order_id br = o_reference o /\
    o_currency o = "IDR"%string.
Definition midtrans_ordered (r : MidtransRail W) (o : Order) (rc : Receipt) (w w' : W) : Prop :=
  ordered_by (md_http r) "POST" (snap_base_url r +:+ "/transactions") midtrans_reads o w w'.
#[export] Instance midtrans_orders r : ChargeOrders (midtrans_rail sha512 r) (exactly in_major_units) (midtrans_ordered r).
Proof.
  intros q rc w w' Hu Hc. charge_inv Hc. unfold check_currency in Hx0. run_inv Hx0. apply negb_false_iff in Hc1.
  unfold idr_string in Hx1. run_inv Hx1. major_orders "IDR"%string.
  assert (x2 = x1) as ->.
  { unfold raw_value_from_string in Hx2. destruct (raw_value_error _); [discriminate Hx2 | now injection Hx2]. }
  by_the_call.
  eexists _, _. split; [reflexivity|]. split; [eassumption | done].
Qed.
#[export] Instance midtrans_opens r : ChargeOpens (midtrans_rail sha512 r).
Proof. charge_opens. Qed.
#[export] Instance midtrans_quotes r : QuotesCharge (midtrans_rail sha512 r) 300.
Proof. quotes_before. eapply only_same; eassumption. Qed.
#[export] Instance midtrans_rail_laws c builder r :
  midtrans_new c builder = Ok r -> RailLaws (fun _ : W => True) (midtrans_rail sha512 r).
Proof. intros Hnew. solve_rail_laws Hnew. Qed.
End MidtransLemmas.
