(* ===== verification/Yoco.v ===== *)
(** * The Yoco adapter ([patala-fiat/src/yoco/*.rs])

    Hosted checkouts in rand. Notifications follow the Standard Webhooks
    scheme: the tag of [id.timestamp.body] under a decoded secret, in one of the
    [v1] entries of the signature header, within a tolerance window. *)

From S2P Require Import Prelude RustStr Core External HttpShared FiatDest Json Adapter Orders.

(** ** models.rs *)

Definition yoco_malformed : str -> Error := api_malformed "yoco".
Record YocoMetadata := { ym_reference : str }.
Record YocoCheckout := {
  yc_id : str;
  yc_status : str;
  yc_amount : Z;
  yc_currency : str;
  yc_metadata : YocoMetadata;
}.
Record CheckoutOutcome := {
  co_event_id : str;
  co_settled : bool;
  co_amount_minor : Z;
  co_currency : str;
}.
Definition yoco_completed (status : str) : bool :=
  let s := to_ascii_lowercase status in String.eqb s "completed" || String.eqb s "succeeded".
Definition evaluate_checkout (c : YocoCheckout) : Result Error CheckoutOutcome :=
  return_if is_empty (yc_id c) with_ Err (yoco_malformed "missing id");
  if yoco_completed (yc_status c) then
    return_if yc_amount c =? 0 with_ Err (yoco_malformed "completed status with non-positive amount");
    Ok {| co_event_id := yc_id c; co_settled := true; co_amount_minor := yc_amount c; co_currency := yc_currency c |}
  else
    Ok {| co_event_id := yc_id c; co_settled := false; co_amount_minor := 0; co_currency := yc_currency c |}.

(** ** proof.rs and the answers *)

Record ChargeProof := { checkout_id : str; proof_redirect_url : option str }.
Record ErrorEnvelope := { message : str }.
Record CreateResponse := { cr_id : str; cr_redirect_url : str }.
Record Envelope := { event_type : str; payload : YocoCheckout }.
Class YocoJson := {
  #[export] error_json :: FromJson ErrorEnvelope;
  #[export] create_json :: FromJson CreateResponse;
  #[export] checkout_json :: FromJson YocoCheckout;
  #[export] envelope_json :: FromJson Envelope;
}.
Definition classify_error `{YocoJson} (code : Z) (body : list byte) : Error :=
  let env := default {| message := EmptyString |} (result_ok (from_json body)) in
  api_status "yoco" code (or_no_message (message env)).
Definition unsupported_currency (got : str) : Error :=
  InvalidRequest ("yoco: only ZAR is supported, got " +:+ debug_str got).

(** ** webhook.rs *)

Definition SIGNATURE_TOLERANCE_SECS : Z := 5 * 60.
Inductive YocoWebhookError :=
  | MissingSignature | InvalidSignature | StaleTimestamp
  | MalformedResponse (e : str)
  | UnhandledEvent (ty : str).
Definition yoco_webhook_error_display (e : YocoWebhookError) : str :=
  match e with
  | MissingSignature => "payments: yoco: missing webhook-id/webhook-timestamp/webhook-signature headers"
  | InvalidSignature => "payments: yoco: invalid webhook signature"
  | StaleTimestamp => "payments: yoco: webhook timestamp outside tolerance window"
  | MalformedResponse e => "payments: yoco: malformed API response: " +:+ e
  | UnhandledEvent ty => "payments: unhandled webhook event type: " +:+ ty
  end.
Record YocoWebhookEvent := {
  ye_event_id : str;
  ye_checkout_id : str;
  ye_settled : bool;
  ye_amount_minor : Z;
  ye_currency : str;
}.

(** [str::split_whitespace]; [cur] is the word being read, reversed. *)
Definition flush_word (cur : str) : list str := if is_empty cur then [] else [str_rev cur].
Fixpoint words_from (cur s : str) : list str :=
  match s with
  | EmptyString => flush_word cur
  | String a s1 =>
      if ws1 a then flush_word cur ++ words_from EmptyString s1
      else match s1 with
           | String b s2 =>
               if ws2 a b then flush_word cur ++ words_from EmptyString s2
               else match s2 with
                    | String c s3 =>
                        if ws3 a b c then flush_word cur ++ words_from EmptyString s3
                        else words_from (String a cur) s1
                    | EmptyString => words_from (String a cur) s1
                    end
           | EmptyString => words_from (String a cur) s1
           end
  end.
Definition split_whitespace : str -> list str := words_from EmptyString.

Definition signed_content (wid timestamp : str) (body : list byte) : list byte :=
  as_bytes wid ++ as_bytes "." ++ as_bytes timestamp ++ as_bytes "." ++ body.
(** One entry of the signature header against the expected tag. *)
Definition entry_matches (base64_decode : str -> Result str (list byte)) (expected : list byte) (entry : str) : bool :=
  let_some vs := split_once "," entry or_else false;
  return_if negb (String.eqb vs.1 "v1") with_ false;
  let_ok given := base64_decode vs.2 or_else false;
  constant_time_eq expected given.
Definition verify_and_parse `{YocoJson} (base64_decode : str -> Result str (list byte)) (sha256_mac : Mac)
    (secret body : list byte) (id_header timestamp_header sig_header : str) (now : Z)
    : Result YocoWebhookError YocoWebhookEvent :=
  let wid := trim id_header in
  let timestamp := trim timestamp_header in
  let sigs := trim sig_header in
  return_if is_empty wid || is_empty timestamp || is_empty sigs with_ Err MissingSignature;
  ts ← ok_or InvalidSignature (parse_i64 timestamp);
  return_if SIGNATURE_TOLERANCE_SECS <? signature_age now ts with_ Err StaleTimestamp;
  tag ← ok_or InvalidSignature (mac_tag secret);
  let expected := tag (signed_content wid timestamp body) in
  return_if negb (existsb (entry_matches base64_decode expected) (split_whitespace sigs)) with_ Err InvalidSignature;
  env ← map_err MalformedResponse (from_json (T := Envelope) body);
  return_if negb (String.eqb (event_type env) "payment.succeeded") with_ Err (UnhandledEvent (event_type env));
  outcome ← map_err (fun e => MalformedResponse (error_display e)) (evaluate_checkout (payload env));
  Ok {| ye_event_id := co_event_id outcome; ye_checkout_id := yc_id (payload env);
        ye_settled := co_settled outcome; ye_amount_minor := co_amount_minor outcome;
        ye_currency := co_currency outcome |}.

(** ** config.rs *)

Record YocoConfig := {
  secret_key : str;
  webhook_secret : str;
  yc_requires_kyc : bool;
  yc_settlement_days : Z;
  yc_timeout_secs : Z;
}.
Definition yoco_config_from_env (env : Environment) : Result Error YocoConfig :=
  key ← non_empty_env env "YOCO_SECRET_KEY";
  secret ← non_empty_env env "YOCO_WEBHOOK_SECRET";
  Ok {| secret_key := key; webhook_secret := secret;
        yc_requires_kyc := env_flag env "YOCO_REQUIRES_KYC" true;
        yc_settlement_days := env_u8 env "YOCO_SETTLEMENT_DAYS" 2;
        yc_timeout_secs := env_u64 env "YOCO_TIMEOUT_SECS" 15 |}.

(** ** rail.rs *)

Definition YOCO_API_BASE : str := "https://payments.yoco.com/api".
Definition decode_webhook_secret (base64_decode : str -> Result str (list byte)) (whsec : str)
    : Result Error (list byte) :=
  decoded ← map_err (fun e => InvalidRequest ("yoco: webhook_secret not valid base64 after whsec_ prefix: " +:+ e))
    (base64_decode (default whsec (strip_prefix "whsec_" whsec)));
  return_if bool_decide (decoded = []) with_
    Err (InvalidRequest "yoco: webhook_secret decodes to zero bytes; an empty HMAC key verifies signatures anyone can compute");
  Ok decoded.

Record YocoRail (W : Type) := {
  yoco_id : str;
  yc_config : YocoConfig;
  decoded_secret : list byte;
  yc_http : HttpClient W;
  yc_capabilities : RailCapabilities;
  yc_base_url : str;
}.
Arguments yoco_id {W} _.
Arguments yc_config {W} _.
Arguments decoded_secret {W} _.
Arguments yc_http {W} _.
Arguments yc_capabilities {W} _.
Arguments yc_base_url {W} _.

Definition yoco_new {W} (base64_decode : str -> Result str (list byte)) (c : YocoConfig) (builder : HttpBuilder W)
    : Result Error (YocoRail W) :=
  _ ← required "secret_key" (secret_key c);
  _ ← required "webhook_secret" (webhook_secret c);
  secret ← decode_webhook_secret base64_decode (webhook_secret c);
  http ← built_client "yoco" builder (yc_timeout_secs c);
  Ok {| yoco_id := "yoco"; yc_config := c; decoded_secret := secret; yc_http := http;
        yc_capabilities := {|
          class := CustodialReversible; reversible := true; requires_kyc := yc_requires_kyc c;
          holds_funds := true; currencies := ["ZAR"%string]; settlement := Days (yc_settlement_days c);
          atomic_multi_party := false |};
        yc_base_url := YOCO_API_BASE |}.

Definition safe_path_segment : str -> Result Error str := path_segment "a yoco checkout id".

Section YocoRail.
Context `{YocoJson} `{!ProofBytes ChargeProof} (base64_decode : str -> Result str (list byte)) (sha256_mac : Mac)
  {W : Type} `{Clock W}.

Definition check_currency (cur : str) : Result Error unit :=
  return_if negb (eq_ignore_ascii_case cur "ZAR") with_ Err (unsupported_currency cur);
  Ok tt.
Definition json_call (r : YocoRail W) (method path : str) (body : option Json) : HttpCall := {|
  hc_method := method; hc_url := yc_base_url r +:+ path; hc_basic_auth := None;
  hc_headers := [("Authorization", "Bearer " +:+ secret_key (yc_config r)); ("Content-Type", "application/json")]%string;
  hc_body := json_body body |}.
Definition do_json (r : YocoRail W) (method path : str) (body : option Json)
    : Eff W Error (list byte * Z) :=
  transport "yoco" path (yc_http r) (json_call r method path body).

Definition yoco_quote (r : YocoRail W) (req : PayRequest) : Eff W Error Quote :=
  _ ← eff_of (validate req);
  _ ← eff_of (check_currency (req_currency req));
  quoted (yoco_id r) (settlement (yc_capabilities r)) 300 "ZAR" req.

Definition checkout_request (req : PayRequest) : Json :=
  let callback := trim (req_destination req) in JObject [
    ("amount", json_u64 (req_amount_minor req)); ("currency", JString "ZAR");
    ("metadata", JObject [("reference", JString (req_reference req))]);
    ("successUrl", JString callback); ("cancelUrl", JString callback); ("failureUrl", JString callback)]%string.
Definition yoco_charge (r : YocoRail W) (req : PayRequest) : Eff W Error Receipt :=
  _ ← eff_of (validate req);
  _ ← eff_of (check_currency (req_currency req));
  body ← expect_2xx classify_error (do_json r "POST" "/checkouts" (Some (checkout_request req)));
  parsed ← parse_as (T := CreateResponse) "yoco" body;
  return_if is_empty (cr_id parsed) || is_empty (cr_redirect_url parsed) with_
    eff_err (yoco_malformed "empty id or redirectUrl");
  mret (open_receipt (yoco_id r) "ZAR" (req_reference req)
    {| checkout_id := cr_id parsed; proof_redirect_url := Some (cr_redirect_url parsed) |}).

Definition checkout_covers (c : YocoCheckout) (cid : str) (rc : Receipt) : bool :=
  return_if negb (is_empty (yc_id c)) && negb (String.eqb (yc_id c) cid) with_ false;
  let_ok outcome := evaluate_checkout c or_else false;
  covers (co_settled outcome) (co_currency outcome) (co_amount_minor outcome) rc.
Definition yoco_verify (r : YocoRail W) (rc : Receipt) : Eff W Error bool :=
  return_if negb (String.eqb (rail_id rc) (yoco_id r)) with_ mret false;
  let_some p := from_bytes (P := ChargeProof) (proof rc) or_else mret false;
  let_ok cid := safe_path_segment (checkout_id p) or_else mret false;
  body ← expect_2xx classify_error (do_json r "GET" ("/checkouts/" +:+ cid) None);
  parsed ← parse_as (T := YocoCheckout) "yoco" body;
  mret (checkout_covers parsed cid rc).

Definition yoco_webhook (r : YocoRail W) (d : WebhookDelivery) : Result Error WebhookEvent :=
  event ← map_err (fun e => InvalidRequest (yoco_webhook_error_display e))
    (verify_and_parse base64_decode sha256_mac (decoded_secret r) (raw_body d)
       (header_or_empty "webhook-id" d) (header_or_empty "webhook-timestamp" d)
       (header_or_empty "webhook-signature" d) (wd_now_unix d));
  Ok (with_object_id (ye_checkout_id event)
    (settlement_event (yoco_id r) (ye_event_id event) EmptyString (ye_settled event)
       (ye_amount_minor event) (ye_currency event))).
Definition yoco_rail (r : YocoRail W) : PaymentRail W := {|
  id := yoco_id r;
  capabilities := yc_capabilities r;
  quote := yoco_quote r;
  charge := yoco_charge r;
  verify := yoco_verify r;
  validate_destination := redirect_url (yoco_id r);
  refund := default_refund;
  verify_webhook d := eff_of (yoco_webhook r d);
|}.
End YocoRail.
#[export] Hint Unfold yoco_rail yoco_new yoco_verify yoco_charge yoco_quote safe_path_segment do_json : adapter.

(** ** Lemmas *)

(** A completed checkout of this id, with money in it. *)
Definition yoco_paid (c : YocoCheckout) (cid : str) (ev : Evidence) : Prop :=
  yc_id c = cid /\ cid <> EmptyString /\ yoco_completed (yc_status c) = true /\ yc_amount c <> 0 /\
  ev = {| ev_reference := None; ev_currency := yc_currency c; ev_amount := yc_amount c |}.
Lemma checkout_covers_spec c cid rc :
  checkout_covers c cid rc = true <-> exists ev, yoco_paid c cid ev /\ supports ev rc.
Proof.
  unfold checkout_covers, evaluate_checkout, yoco_paid, supports. split.
  - destruct (is_empty (yc_id c)) eqn:E1; [done|]. destruct (String.eqb_spec (yc_id c) cid) as [E2|]; [|done].
    cbn. destruct (yoco_completed (yc_status c)).
    + destruct (Z.eqb_spec (yc_amount c) 0); [done|]. intros (_ & ? & ?)%covers_spec.
      apply is_empty_false in E1. subst cid. eexists. split; [split_and!|]; done.
    + now intros (? & _)%covers_spec.
  - intros (ev & (<- & E1%is_empty_false & E2 & E3%Z.eqb_neq & ->) & _ & Hc & Ha).
    rewrite String.eqb_refl, andb_false_r, E1, E2, E3. now apply covers_spec.
Qed.
Section YocoLemmas.
Context `{YocoJson} `{!ProofBytes ChargeProof} (base64_decode : str -> Result str (list byte)) (sha256_mac : Mac)
  {W : Type} `{Clock W}.

Definition yoco_evidence (r : YocoRail W) (p : list byte) (ref : str) (w : W) (ev : Evidence) (w' : W) : Prop :=
  exists cp body parsed,
    from_bytes (P := ChargeProof) p = Some cp /\ is_safe_path_segment (checkout_id cp) = true /\
    answered (yc_http r) (json_call r "GET" ("/checkouts/" +:+ checkout_id cp) None) w body w' /\
    from_json (T := YocoCheckout) body = Ok parsed /\ yoco_paid parsed (checkout_id cp) ev.
#[export] Instance yoco_verifies r : VerifiesBy (yoco_rail base64_decode sha256_mac r) (yoco_evidence r).
Proof.
  intros rc w w'. cbn [verify yoco_rail id]. unfold yoco_verify, yoco_evidence. split.
  - intros Hv. run_inv Hv. apply names_rail in Hc. apply path_segment_Ok in Hp0 as [-> Hs].
    apply expect_2xx_Ok in Hx. apply checkout_covers_spec in Hv as (ev & ? & ?). eauto 12.
  - intros (Hi%names_rail & ev & (cp & body & parsed & Hp & Hs & Hg & Hb & Hset) & Hsup).
    pose proof (proj2 (path_segment_Ok "a yoco checkout id" _ _) (conj eq_refl Hs)).
    pose proof (proj2 (expect_2xx_Ok "yoco" ("/checkouts/" +:+ checkout_id cp) _ classify_error _ _ _ _) Hg).
    assert (checkout_covers parsed (checkout_id cp) rc = true) by (apply checkout_covers_spec; eauto).
    autounfold with adapter. run.
Qed.
Lemma yoco_ignores_reference r : ignores_reference (yoco_rail base64_decode sha256_mac r).
Proof. intros rc ref w. reflexivity. Qed.

(** A recent delivery, one of whose [v1] entries is the tag of its id, its
    timestamp and its body under the decoded secret. *)
Definition yoco_authentic (r : YocoRail W) (d : WebhookDelivery) (w : W) : Prop :=
  let wid := trim (header_or_empty "webhook-id" d) in
  let timestamp := trim (header_or_empty "webhook-timestamp" d) in
  exists ts tag sig, parse_i64 timestamp = Some ts /\
    signature_age (wd_now_unix d) ts <= SIGNATURE_TOLERANCE_SECS /\
    mac_tag (decoded_secret r) = Some tag /\
    In ("v1," +:+ sig) (split_whitespace (trim (header_or_empty "webhook-signature" d))) /\
    base64_decode sig = Ok (tag (signed_content wid timestamp (raw_body d))).
Lemma entry_matches_inv expected entry : entry_matches base64_decode expected entry = true ->
  exists sig, entry = "v1," +:+ sig /\ base64_decode sig = Ok expected.
Proof.
  unfold entry_matches. destruct (split_once "," entry) as [[v s]|] eqn:Es; [|done]. cbn.
  destruct (String.eqb_spec v "v1") as [->|]; [|done]. cbn.
  destruct (base64_decode s) as [g|] eqn:Eb; [|done]. intros ->%constant_time_eq_spec.
  exists s. now apply split_once_Some in Es as [-> _].
Qed.
#[export] Instance yoco_webhook_answers r :
  WebhookAnswers (yoco_rail base64_decode sha256_mac r) (yoco_authentic r).
Proof.
  intros d w ev w' Hw. cbn [verify_webhook yoco_rail] in Hw.
  unfold yoco_webhook, verify_and_parse in Hw. run_inv Hw. simplify_eq.
  apply Z.ltb_ge in Hc0. apply negb_false_iff, existsb_exists in Hc1 as (entry & Hin & He).
  apply entry_matches_inv in He as (sig & -> & Hd).
  split; [done|]. split; [|unfold yoco_authentic; eauto 10]. cbn.
  unfold evaluate_checkout in *. repeat case_match; simplify_eq; now apply is_empty_false.
Qed.
Definition yoco_places : Places := {|
  amount_at := ["amount"]; currency_at := At ["currency"];
  reference_at := ["metadata"; "reference"] |}%string.
Definition yoco_ordered (r : YocoRail W) (o : Order) (rc : Receipt) (w w' : W) : Prop :=
  ordered_by (yc_http r) "POST" (yc_base_url r +:+ "/checkouts") (reads yoco_places) o w w'.
#[export] Instance yoco_orders r : ChargeOrders (yoco_rail base64_decode sha256_mac r) (exactly in_minor_units) (yoco_ordered r).
Proof.
  intros q rc w w' Hu Hc. charge_inv Hc. unfold check_currency in Hx0. run_inv Hx0. apply negb_false_iff in Hc1.
  orders (to_dec (req_amount_minor q)) "ZAR". sent.
Qed.
#[export] Instance yoco_opens r : ChargeOpens (yoco_rail base64_decode sha256_mac r).
Proof. charge_opens. Qed.
#[export] Instance yoco_quotes r : QuotesCharge (yoco_rail base64_decode sha256_mac r) 300.
Proof. quotes_before. eapply only_same; eassumption. Qed.
#[export] Instance yoco_rail_laws c builder r :
  yoco_new base64_decode c builder = Ok r -> RailLaws (fun _ : W => True) (yoco_rail base64_decode sha256_mac r).
Proof. intros Hnew. solve_rail_laws Hnew. Qed.
End YocoLemmas.
