(* ===== verification/BTCPay.v ===== *)
(** * The BTCPay adapter ([patala-fiat/src/btcpay/*.rs])

    Invoices of a self-hosted server, whose wallet the payee controls: final
    and non-custodial. verify fetches the invoice the proof names, reads its
    amount, then its state; an overpayment or a state it does not know is an
    error a person has to look at. A notification only says that an invoice
    changed. *)

From S2P Require Import Prelude RustStr Core External HttpShared FiatDest Json Currency Adapter Orders.

(** ** models.rs *)

Definition btcpay_malformed : str -> Error := api_malformed "btcpay".
Record BTCPayInvoice := {
  inv_id : str;
  inv_store_id : str;
  inv_amount : str;
  inv_currency : str;
  inv_status : str;
  additional_status : str;
  inv_checkout_link : str;
  expiration_time : Z;
}.
Inductive InvoiceState := Paid | Pending | Failed | Overpaid | Inconsistent.
#[export] Instance InvoiceState_eq_dec : EqDecision InvoiceState.
Proof. solve_decision. Defined.
Definition one_of (s : str) (l : list str) : bool := existsb (String.eqb s) l.
Definition classify_invoice_state (status additional : str) : InvoiceState :=
  if String.eqb status "Settled" then
    if one_of additional [""; "None"; "Marked"; "PaidLate"]%string then Paid
    else if String.eqb additional "PaidOver" then Overpaid
    else Inconsistent
  else if one_of status ["New"; "Processing"]%string then Pending
  else Failed.

(** ** proof.rs and the answers *)

Record ChargeProof := { invoice_id : str; checkout_link : str }.
Record ErrorEnvelope := { message : str }.
Record Envelope := { event_type : str; env_invoice_id : str }.
Class BTCPayJson := {
  #[export] error_json :: FromJson ErrorEnvelope;
  #[export] invoice_json :: FromJson BTCPayInvoice;
  #[export] envelope_json :: FromJson Envelope;
}.
Definition classify_error `{BTCPayJson} (code : Z) (body : list byte) : Error :=
  let env := default {| message := EmptyString |} (result_ok (from_json body)) in
  api_status "btcpay" code (or_no_message (message env)).

(** ** webhook.rs *)

Inductive BTCPayWebhookError :=
  | MissingSignature | InvalidSignature
  | MalformedResponse (e : str)
  | UnhandledEvent (ty : str).
Definition btcpay_webhook_error_display (e : BTCPayWebhookError) : str :=
  match e with
  | MissingSignature => "payments: btcpay: missing BTCPay-Sig webhook header"
  | InvalidSignature => "payments: btcpay: invalid BTCPay-Sig webhook signature"
  | MalformedResponse e => "payments: btcpay: malformed API response: " +:+ e
  | UnhandledEvent ty => "payments: unhandled webhook event type: " +:+ ty
  end.
Record BTCPayWebhookEvent := { bte_event_id : str; bte_invoice_id : str }.
Definition verify_and_extract `{BTCPayJson, Hex} (sha256_mac : Mac) (secret : str) (body : list byte)
    (sig_header : str) : Result BTCPayWebhookError BTCPayWebhookEvent :=
  let h := trim sig_header in
  return_if is_empty h with_ Err MissingSignature;
  hex_sig ← ok_or InvalidSignature (strip_prefix "sha256=" h);
  return_if negb (verify_hmac_sha256_hex sha256_mac (as_bytes secret) body hex_sig) with_ Err InvalidSignature;
  env ← map_err MalformedResponse (from_json (T := Envelope) body);
  return_if negb (starts_with "Invoice" (event_type env)) with_ Err (UnhandledEvent (event_type env));
  return_if is_empty (env_invoice_id env) with_ Err (MalformedResponse "missing invoiceId");
  Ok {| bte_event_id := env_invoice_id env; bte_invoice_id := env_invoice_id env |}.

(** ** config.rs *)

Record BTCPayConfig := {
  base_url : str;
  api_key : str;
  store_id : str;
  webhook_secret : str;
  bt_requires_kyc : bool;
  bt_currencies : list str;
  settlement_seconds : option Z;
  bt_timeout_secs : Z;
}.
Definition btcpay_config_from_env (env : Environment) : Result Error BTCPayConfig :=
  base ← trimmed_env env "BTCPAY_BASE_URL";
  key ← trimmed_env env "BTCPAY_API_KEY";
  store ← trimmed_env env "BTCPAY_STORE_ID";
  secret ← trimmed_env env "BTCPAY_WEBHOOK_SECRET";
  Ok {| base_url := trim_end_slashes base; api_key := key; store_id := store; webhook_secret := secret;
        bt_requires_kyc := env_flag env "BTCPAY_REQUIRES_KYC" false;
        bt_currencies := env_currencies env "BTCPAY_CURRENCIES" [];
        settlement_seconds := env "BTCPAY_SETTLEMENT_SECONDS"%string ≫= parse_unsigned u32_max;
        bt_timeout_secs := env_u64 env "BTCPAY_TIMEOUT_SECS" 20 |}.

(** ** rail.rs *)

Record BTCPayRail (W : Type) := {
  btcpay_id : str;
  bt_config : BTCPayConfig;
  bt_http : HttpClient W;
  bt_capabilities : RailCapabilities;
  bt_base_url : str;
}.
Arguments btcpay_id {W} _.
Arguments bt_config {W} _.
Arguments bt_http {W} _.
Arguments bt_capabilities {W} _.
Arguments bt_base_url {W} _.

Definition btcpay_new {W} (c : BTCPayConfig) (builder : HttpBuilder W) : Result Error (BTCPayRail W) :=
  _ ← required "base_url" (base_url c);
  _ ← required "api_key" (api_key c);
  _ ← required "store_id" (store_id c);
  _ ← required "webhook_secret" (webhook_secret c);
  http ← built_client "btcpay" builder (bt_timeout_secs c);
  Ok {| btcpay_id := "btcpay"; bt_config := c; bt_http := http;
        bt_capabilities := {|
          class := NonCustodialFinal; reversible := false; requires_kyc := bt_requires_kyc c;
          holds_funds := false; currencies := bt_currencies c;
          settlement := match settlement_seconds c with Some secs => Seconds secs | None => Instant end;
          atomic_multi_party := false |};
        bt_base_url := base_url c |}.

Definition safe_path_segment : str -> Result Error str := path_segment "a btcpay id".

Section BTCPayRail.
Context `{BTCPayJson} `{!ProofBytes ChargeProof} `{Hex} (sha256_mac : Mac) {W : Type} `{Clock W}.

Definition check_currency (r : BTCPayRail W) : str -> Result Error unit :=
  check_unless_empty (btcpay_id r) (currencies (bt_capabilities r)).
Definition json_call (r : BTCPayRail W) (method path : str) (body : option Json) : HttpCall := {|
  hc_method := method; hc_url := bt_base_url r +:+ path; hc_basic_auth := None;
  hc_headers := [("Authorization", "token " +:+ api_key (bt_config r)); ("Accept", "application/json")]%string;
  hc_body := json_body body |}.
Definition do_json (r : BTCPayRail W) (method path : str) (body : option Json)
    : Eff W Error (list byte * Z) :=
  transport "btcpay" path (bt_http r) (json_call r method path body).
(** [urlencode_segment] answers its argument. *)
Definition urlencode_segment (s : str) : str := s.
Definition invoices_path (r : BTCPayRail W) : str :=
  "/api/v1/stores/" +:+ urlencode_segment (store_id (bt_config r)) +:+ "/invoices".
Definition invoice_path (r : BTCPayRail W) (iid : str) : str :=
  "/api/v1/stores/" +:+ urlencode_segment (store_id (bt_config r)) +:+ "/invoices/" +:+ iid.
Definition fetch_invoice (r : BTCPayRail W) (iid : str) : Eff W Error BTCPayInvoice :=
  iid ← eff_of (safe_path_segment iid);
  body ← expect_2xx classify_error (do_json r "GET" (invoice_path r iid) None);
  inv ← parse_as (T := BTCPayInvoice) "btcpay" body;
  return_if is_empty (inv_id inv) with_ eff_err (btcpay_malformed "empty invoice id");
  mret inv.

Definition btcpay_quote (r : BTCPayRail W) (req : PayRequest) : Eff W Error Quote :=
  _ ← eff_of (validate req);
  _ ← eff_of (check_currency r (req_currency req));
  quoted (btcpay_id r) (settlement (bt_capabilities r)) 300 (req_currency req) req.

Definition invoice_request (req : PayRequest) (amt cur : str) : Json := JObject [
  ("amount", JString amt); ("currency", JString cur);
  ("metadata", JObject [("orderId", JString (req_reference req))])]%string.
Definition btcpay_charge (r : BTCPayRail W) (req : PayRequest) : Eff W Error Receipt :=
  _ ← eff_of (validate req);
  _ ← eff_of (check_currency r (req_currency req));
  let cur := normal_currency (req_currency req) in
  amt ← eff_of (map_err (fun e => InvalidRequest ("btcpay: " +:+ currency_error_display e))
    (minor_to_major_string (req_amount_minor req) cur));
  body ← expect_2xx classify_error (do_json r "POST" (invoices_path r) (Some (invoice_request req amt cur)));
  inv ← parse_as (T := BTCPayInvoice) "btcpay" body;
  return_if is_empty (inv_id inv) || is_empty (inv_checkout_link inv) with_
    eff_err (btcpay_malformed "empty id or checkoutLink");
  mret (open_receipt (btcpay_id r) cur (req_reference req)
    {| invoice_id := inv_id inv; checkout_link := inv_checkout_link inv |}).

Definition overpaid : Error := Rail
  "btcpay: invoice reports an overpayment (additionalStatus=PaidOver) -- check the BTCPay dashboard and refund/credit the difference manually; this adapter will not guess the received amount".
Definition inconsistent (inv : BTCPayInvoice) : Error := Rail
  ("btcpay: invoice reported an inconsistent status/additionalStatus combination: status="
   +:+ debug_str (inv_status inv) +:+ " additionalStatus=" +:+ debug_str (additional_status inv)).
Definition invoice_covers (inv : BTCPayInvoice) (rc : Receipt) : Result Error bool :=
  amt ← map_err (fun e => btcpay_malformed (currency_error_display e))
    (major_string_to_minor (inv_amount inv) (inv_currency inv));
  match classify_invoice_state (inv_status inv) (additional_status inv) with
  | Paid => Ok (covers true (inv_currency inv) amt rc)
  | Pending | Failed => Ok false
  | Overpaid => Err overpaid
  | Inconsistent => Err (inconsistent inv)
  end.
Definition btcpay_verify (r : BTCPayRail W) (rc : Receipt) : Eff W Error bool :=
  return_if negb (String.eqb (rail_id rc) (btcpay_id r)) with_ mret false;
  let_some p := from_bytes (P := ChargeProof) (proof rc) or_else mret false;
  inv ← fetch_invoice r (invoice_id p);
  eff_of (invoice_covers inv rc).

Definition btcpay_webhook (r : BTCPayRail W) (d : WebhookDelivery) : Result Error WebhookEvent :=
  event ← map_err (fun e => InvalidRequest (btcpay_webhook_error_display e))
    (verify_and_extract sha256_mac (webhook_secret (bt_config r)) (raw_body d) (header_or_empty "BTCPay-Sig" d));
  Ok (unconfirmed (btcpay_id r) (bte_event_id event) (bte_invoice_id event)).
Definition btcpay_rail (r : BTCPayRail W) : PaymentRail W := {|
  id := btcpay_id r;
  capabilities := bt_capabilities r;
  quote := btcpay_quote r;
  charge := btcpay_charge r;
  verify := btcpay_verify r;
  validate_destination := ignored (btcpay_id r);
  refund := default_refund;
  verify_webhook d := eff_of (btcpay_webhook r d);
|}.
End BTCPayRail.
#[export] Hint Unfold btcpay_rail btcpay_new btcpay_verify btcpay_charge btcpay_quote safe_path_segment do_json
  : adapter.

(** ** Lemmas *)

(** The invoice is paid, in full or late or marked so by hand, and not over. *)
Definition btcpay_paid (inv : BTCPayInvoice) (ev : Evidence) : Prop :=
  inv_status inv = "Settled"%string /\ one_of (additional_status inv) [""; "None"; "Marked"; "PaidLate"]%string = true /\
  major_string_to_minor (inv_amount inv) (inv_currency inv) = Ok (ev_amount ev) /\
  ev_reference ev = None /\ ev_currency ev = inv_currency inv.
Lemma classify_paid status additional : classify_invoice_state status additional = Paid <->
  status = "Settled"%string /\ one_of additional [""; "None"; "Marked"; "PaidLate"]%string = true.
Proof.
  unfold classify_invoice_state. destruct (String.eqb_spec status "Settled") as [->|Hs].
  - destruct (one_of additional _); [tauto|]. destruct (String.eqb _ _); split; try done; now intros [_ ?].
  - destruct (one_of status _); split; try done; now intros [? _].
Qed.
Lemma invoice_covers_spec inv rc :
  invoice_covers inv rc = Ok true <-> exists ev, btcpay_paid inv ev /\ supports ev rc.
Proof.
  unfold invoice_covers, btcpay_paid, supports. split.
  - intros Hv. run_inv Hv. destruct (classify_invoice_state _ _) eqn:Es; try done.
    injection Hv as Hv. apply covers_spec in Hv as (_ & Hc & Ha). apply classify_paid in Es as [? ?].
    exists {| ev_reference := None; ev_currency := inv_currency inv; ev_amount := x |}. done.
  - intros (ev & (Hs & Ho & Ha & Hr & Hc) & _ & Hcur & Hle). rewrite Ha. cbn.
    rewrite (proj2 (classify_paid _ _) (conj Hs Ho)). f_equal. apply covers_spec. now rewrite <- Hc.
Qed.
(** What verify makes of each state: only a paid invoice can satisfy a receipt,
    and the two states a person has to look at are errors. *)
Lemma invoice_covers_state inv rc amt :
  major_string_to_minor (inv_amount inv) (inv_currency inv) = Ok amt ->
  invoice_covers inv rc = match classify_invoice_state (inv_status inv) (additional_status inv) with
    | Paid => Ok (eq_ignore_ascii_case (inv_currency inv) (currency rc) && (amount_minor rc <=? amt))
    | Pending | Failed => Ok false
    | Overpaid => Err overpaid
    | Inconsistent => Err (inconsistent inv)
    end.
Proof.
  intros Ha. unfold invoice_covers, covers. rewrite Ha. cbn. destruct (classify_invoice_state _ _); try done.
  destruct (eq_ignore_ascii_case _ _); [|done]. cbn. rewrite Z.leb_antisym. now destruct (_ <? _).
Qed.

Section BTCPayLemmas.
Context `{BTCPayJson} `{!ProofBytes ChargeProof} `{Hex} (sha256_mac : Mac) {W : Type} `{Clock W}.

Definition btcpay_evidence (r : BTCPayRail W) (p : list byte) (ref : str) (w : W) (ev : Evidence) (w' : W) : Prop :=
  exists cp body inv,
    from_bytes (P := ChargeProof) p = Some cp /\ is_safe_path_segment (invoice_id cp) = true /\
    answered (bt_http r) (json_call r "GET" (invoice_path r (invoice_id cp)) None) w body w' /\
    from_json (T := BTCPayInvoice) body = Ok inv /\ inv_id inv <> EmptyString /\ btcpay_paid inv ev.
#[export] Instance btcpay_verifies r : VerifiesBy (btcpay_rail sha256_mac r) (btcpay_evidence r).
Proof.
  intros rc w w'. cbn [verify btcpay_rail id]. unfold btcpay_verify, fetch_invoice, btcpay_evidence. split.
  - intros Hv. run_inv Hv. subst. apply names_rail in Hc. apply path_segment_Ok in Hx0 as [-> Hs].
    apply expect_2xx_Ok in Hx1. apply is_empty_false in Hc0. apply invoice_covers_spec in Hv as (ev & ? & ?). eauto 12.
  - intros (Hi%names_rail & ev & (cp & body & inv & Hp & Hs & Hg & Hb & Hn%is_empty_false & Hset) & Hsup).
    pose proof (proj2 (path_segment_Ok "a btcpay id" _ _) (conj eq_refl Hs)).
    pose proof (proj2 (expect_2xx_Ok "btcpay" (invoice_path r (invoice_id cp)) _ classify_error _ _ _ _) Hg).
    assert (invoice_covers inv rc = Ok true) by (apply invoice_covers_spec; eauto).
    autounfold with adapter. rewrite Hi, Hp.
    apply eff_bind_Ok. exists inv, w'. split; [|run]. run.
Qed.
Lemma btcpay_ignores_reference r : ignores_reference (btcpay_rail sha256_mac r).
Proof. intros rc ref w. reflexivity. Qed.

Definition btcpay_authentic (r : BTCPayRail W) (d : WebhookDelivery) (w : W) : Prop :=
  exists sig, trim (header_or_empty "BTCPay-Sig" d) = "sha256=" +:+ sig /\
    hex_signed sha256_mac (as_bytes (webhook_secret (bt_config r))) (raw_body d) sig.
#[export] Instance btcpay_webhook_answers r :
  WebhookAnswers (btcpay_rail sha256_mac r) (btcpay_authentic r).
Proof.
  intros d w ev w' Hw. cbn [verify_webhook btcpay_rail] in Hw.
  unfold btcpay_webhook, verify_and_extract in Hw. run_inv Hw. simplify_eq.
  apply strip_prefix_spec in Hx0. apply negb_false_iff, hex_signed_spec in Hc0. apply is_empty_false in Hc2.
  split; [done|]. split; [done|]. unfold btcpay_authentic. eauto.
Qed.
Definition btcpay_places : Places := {|
  amount_at := ["amount"]; currency_at := At ["currency"];
  reference_at := ["metadata"; "orderId"] |}%string.
Definition btcpay_ordered (r : BTCPayRail W) (o : Order) (rc : Receipt) (w w' : W) : Prop :=
  ordered_by (bt_http r) "POST" (bt_base_url r +:+ invoices_path r) (reads btcpay_places) o w w'.
#[export] Instance btcpay_orders r : ChargeOrders (btcpay_rail sha256_mac r) (exactly in_major_units) (btcpay_ordered r).
Proof.
  intros q rc w w' Hu Hc. charge_inv Hc.
  major_orders (normal_currency (req_currency q)). sent.
Qed.
#[export] Instance btcpay_opens r : ChargeOpens (btcpay_rail sha256_mac r).
Proof. charge_opens. Qed.
#[export] Instance btcpay_quotes r : QuotesCharge (btcpay_rail sha256_mac r) 300.
Proof. quotes_before. Qed.
#[export] Instance btcpay_rail_laws c builder r :
  btcpay_new c builder = Ok r -> RailLaws (fun _ : W => True) (btcpay_rail sha256_mac r).
Proof. intros Hnew. solve_rail_laws Hnew. Qed.
End BTCPayLemmas.
