(* ===== verification/OpenNode.v ===== *)
(** * The OpenNode adapter ([patala-fiat/src/opennode/*.rs])

    Custodial bitcoin charges. Amounts go out as JSON numbers and come back as
    numbers or strings. A notification is a form body whose [hashed_order] is
    the tag of the charge id alone, so it only says which charge changed. *)

From S2P Require Import Prelude RustStr Core External HttpShared FiatDest Json Currency Adapter Orders UrlForm Float.

(** ** models.rs *)

Definition opennode_malformed : str -> Error := api_malformed "opennode".
Record OpenNodeCharge := {
  oc_id : str;
  oc_status : str;
  oc_amount : Json;
  oc_currency : str;
  oc_hosted_checkout_url : str;
}.
Record ErrorEnvelope := { message : str }.
Record Envelope := { data : OpenNodeCharge }.
(** [json_text] is a value's [Display]. *)
Class OpenNodeJson := {
  #[export] error_json :: FromJson ErrorEnvelope;
  #[export] charge_json :: FromJson Envelope;
  json_text : Json -> str;
}.
Definition classify_error `{OpenNodeJson} (code : Z) (body : list byte) : Error :=
  let env := default {| message := EmptyString |} (result_ok (from_json body)) in
  api_status "opennode" code (or_no_message (message env)).
Definition flexible_json_amount_to_string `{OpenNodeJson} (raw : Json) : Result Error str :=
  match raw with
  | JNumber n => Ok n
  | JString s => Ok s
  | JNull => Err (opennode_malformed "amount is null")
  | other => Err (opennode_malformed ("amount is neither a JSON number nor a JSON string: " +:+ json_text other))
  end.

Inductive ChargeState := Paid | Pending | Failed.
Definition classify_charge_state (status : str) : ChargeState :=
  if String.eqb status "paid" then Paid
  else if String.eqb status "unpaid" || String.eqb status "processing" then Pending
  else Failed.

(** ** proof.rs *)

Record ChargeProof := { charge_id : str; hosted_checkout_url : str }.

(** ** webhook.rs *)

Inductive OpenNodeWebhookError := MissingSignature | InvalidSignature | MalformedResponse (e : str).
Definition opennode_webhook_error_display (e : OpenNodeWebhookError) : str :=
  match e with
  | MissingSignature => "payments: opennode: missing hashed_order in webhook callback"
  | InvalidSignature => "payments: opennode: invalid hashed_order in webhook callback"
  | MalformedResponse e => "payments: opennode: malformed API response: " +:+ e
  end.
Record OpenNodeWebhookEvent := { one_event_id : str; one_charge_id : str }.
Definition form_value (k : str) (form : gmap str str) : str := default EmptyString (form !! k).
Definition verify_and_extract `{Hex} (sha256_mac : Mac) (key : str) (form : gmap str str)
    : Result OpenNodeWebhookError OpenNodeWebhookEvent :=
  let cid := form_value "id" form in
  return_if is_empty cid with_ Err (MalformedResponse "missing id");
  let hashed := form_value "hashed_order" form in
  return_if is_empty hashed with_ Err MissingSignature;
  return_if negb (verify_hmac_sha256_hex sha256_mac (as_bytes key) (as_bytes cid) hashed) with_ Err InvalidSignature;
  Ok {| one_event_id := cid; one_charge_id := cid |}.

(** The iterator takes two bytes after a [%] whether or not they read as hex:
    after a bad escape they are gone and the [%] stands. *)
Fixpoint decode_bytes (l : list byte) : list byte :=
  match l with
  | [] => []
  | b :: t =>
      if Byte.eqb b x25 then
        match t with
        | hi :: lo :: t' => default b (hex_radix2 hi lo) :: decode_bytes t'
        | _ => [b]
        end
      else b :: decode_bytes t
  end.
Definition plus_to_space (b : byte) : byte := if Byte.eqb b x2b then x20 else b.
Definition decode (s : str) : str := from_utf8_lossy (decode_bytes (map plus_to_space (as_bytes s))).
Definition parse_form_body (body : str) : gmap str str :=
  fold_left (fun out kv => <[decode kv.1 := decode kv.2]> out) (form_pairs body) ∅.

(** ** config.rs *)

Definition DEFAULT_BASE_URL : str := "https://api.opennode.com".
Record OpenNodeConfig := {
  api_key : str;
  base_url : str;
  on_requires_kyc : bool;
  on_currencies : list str;
  on_timeout_secs : Z;
}.
Definition opennode_config_from_env (env : Environment) : Result Error OpenNodeConfig :=
  key ← trimmed_env env "OPENNODE_API_KEY";
  let base := default EmptyString ((fun s => trim_end_slashes (trim s)) <$> env "OPENNODE_BASE_URL"%string) in
  Ok {| api_key := key;
        base_url := if is_empty base then DEFAULT_BASE_URL else base;
        on_requires_kyc := env_flag env "OPENNODE_REQUIRES_KYC" false;
        on_currencies := env_currencies env "OPENNODE_CURRENCIES" [];
        on_timeout_secs := env_u64 env "OPENNODE_TIMEOUT_SECS" 20 |}.

(** ** rail.rs *)

Record OpenNodeRail (W : Type) := {
  opennode_id : str;
  on_config : OpenNodeConfig;
  on_http : HttpClient W;
  on_capabilities : RailCapabilities;
  on_base_url : str;
}.
Arguments opennode_id {W} _.
Arguments on_config {W} _.
Arguments on_http {W} _.
Arguments on_capabilities {W} _.
Arguments on_base_url {W} _.

Definition opennode_new {W} (c : OpenNodeConfig) (builder : HttpBuilder W) : Result Error (OpenNodeRail W) :=
  _ ← required "api_key" (api_key c);
  http ← built_client "opennode" builder (on_timeout_secs c);
  Ok {| opennode_id := "opennode"; on_config := c; on_http := http;
        on_capabilities := {|
          class := CustodialReversible; reversible := false; requires_kyc := on_requires_kyc c;
          holds_funds := true; currencies := on_currencies c; settlement := Instant;
          atomic_multi_party := false |};
        on_base_url := base_url c |}.

Definition safe_path_segment : str -> Result Error str := path_segment "an opennode charge id".

Section OpenNodeRail.
Context `{OpenNodeJson} `{!F64Text} `{!ProofBytes ChargeProof} `{Hex} (sha256_mac : Mac) {W : Type} `{Clock W}.

Definition check_currency (r : OpenNodeRail W) : str -> Result Error unit :=
  check_unless_empty (opennode_id r) (currencies (on_capabilities r)).
Definition json_call (r : OpenNodeRail W) (method path : str) (body : option Json) : HttpCall := {|
  hc_method := method; hc_url := on_base_url r +:+ path; hc_basic_auth := None;
  hc_headers := [("Authorization", api_key (on_config r)); ("Accept", "application/json")]%string;
  hc_body := json_body body |}.
Definition do_json (r : OpenNodeRail W) (method path : str) (body : option Json)
    : Eff W Error (list byte * Z) :=
  transport "opennode" path (on_http r) (json_call r method path body).
Definition fetch_charge (r : OpenNodeRail W) (cid : str) : Eff W Error OpenNodeCharge :=
  cid ← eff_of (safe_path_segment cid);
  body ← expect_2xx classify_error (do_json r "GET" ("/v1/charge/" +:+ cid) None);
  env ← parse_as (T := Envelope) "opennode" body;
  return_if is_empty (oc_id (data env)) with_ eff_err (opennode_malformed "empty charge id");
  mret (data env).

Definition opennode_quote (r : OpenNodeRail W) (req : PayRequest) : Eff W Error Quote :=
  _ ← eff_of (validate req);
  _ ← eff_of (check_currency r (req_currency req));
  quoted (opennode_id r) (settlement (on_capabilities r)) 300 (req_currency req) req.

Definition charge_request (req : PayRequest) (amt : F64) (cur : str) : Json := JObject [
  ("amount", json_f64 amt); ("currency", JString cur); ("order_id", JString (req_reference req));
  ("description", JString ("patala order " +:+ req_reference req))]%string.
Definition opennode_charge (r : OpenNodeRail W) (req : PayRequest) : Eff W Error Receipt :=
  _ ← eff_of (validate req);
  _ ← eff_of (check_currency r (req_currency req));
  let cur := normal_currency (req_currency req) in
  amt ← eff_of (map_err (fun e => InvalidRequest ("opennode: " +:+ currency_error_display e))
    (minor_to_major_string (req_amount_minor req) cur));
  num ← eff_of (ok_or (Rail "opennode: could not render amount as a number") (f64_from_str amt));
  body ← expect_2xx classify_error (do_json r "POST" "/v1/charges" (Some (charge_request req num cur)));
  env ← parse_as (T := Envelope) "opennode" body;
  return_if is_empty (oc_id (data env)) || is_empty (oc_hosted_checkout_url (data env)) with_
    eff_err (opennode_malformed "empty id or hosted_checkout_url");
  mret (open_receipt (opennode_id r) cur (req_reference req)
    {| charge_id := oc_id (data env); hosted_checkout_url := oc_hosted_checkout_url (data env) |}).

Definition charge_covers (c : OpenNodeCharge) (rc : Receipt) : Result Error bool :=
  amt_str ← flexible_json_amount_to_string (oc_amount c);
  amt ← map_err (fun e => opennode_malformed (currency_error_display e))
    (major_string_to_minor amt_str (oc_currency c));
  match classify_charge_state (oc_status c) with
  | Paid => Ok (covers true (oc_currency c) amt rc)
  | Pending | Failed => Ok false
  end.
Definition opennode_verify (r : OpenNodeRail W) (rc : Receipt) : Eff W Error bool :=
  return_if negb (String.eqb (rail_id rc) (opennode_id r)) with_ mret false;
  let_some p := from_bytes (P := ChargeProof) (proof rc) or_else mret false;
  c ← fetch_charge r (charge_id p);
  eff_of (charge_covers c rc).

Definition opennode_webhook (r : OpenNodeRail W) (d : WebhookDelivery) : Result Error WebhookEvent :=
  body ← ok_or (InvalidRequest "opennode: webhook body is not valid UTF-8") (from_utf8 (raw_body d));
  event ← map_err (fun e => InvalidRequest (opennode_webhook_error_display e))
    (verify_and_extract sha256_mac (api_key (on_config r)) (parse_form_body body));
  Ok (unconfirmed (opennode_id r) (one_event_id event) (one_charge_id event)).
Definition opennode_rail (r : OpenNodeRail W) : PaymentRail W := {|
  id := opennode_id r;
  capabilities := on_capabilities r;
  quote := opennode_quote r;
  charge := opennode_charge r;
  verify := opennode_verify r;
  validate_destination := ignored (opennode_id r);
  refund := default_refund;
  verify_webhook d := eff_of (opennode_webhook r d);
|}.
End OpenNodeRail.
#[export] Hint Unfold opennode_rail opennode_new opennode_verify opennode_charge opennode_quote safe_path_segment
  do_json : adapter.

(** ** Lemmas *)

(** A paid charge whose amount, number or string, is read exactly. *)
Definition opennode_paid `{OpenNodeJson} (c : OpenNodeCharge) (ev : Evidence) : Prop :=
  oc_status c = "paid"%string /\
  (exists s, (oc_amount c = JNumber s \/ oc_amount c = JString s) /\
    major_string_to_minor s (oc_currency c) = Ok (ev_amount ev)) /\
  ev_reference ev = None /\ ev_currency ev = oc_currency c.
Lemma flexible_amount_Ok `{OpenNodeJson} raw s :
  flexible_json_amount_to_string raw = Ok s <-> raw = JNumber s \/ raw = JString s.
Proof. destruct raw; cbn; naive_solver. Qed.
Lemma opennode_classify_paid status : classify_charge_state status = Paid <-> status = "paid"%string.
Proof.
  unfold classify_charge_state. destruct (String.eqb_spec status "paid") as [|Hn]; [tauto|].
  destruct (_ || _); split; try done; now intros ?%Hn.
Qed.
Lemma opennode_covers_spec `{OpenNodeJson} c rc :
  charge_covers c rc = Ok true <-> exists ev, opennode_paid c ev /\ supports ev rc.
Proof.
  unfold charge_covers, opennode_paid, supports. split.
  - intros Hv. run_inv Hv. apply flexible_amount_Ok in Hx. destruct (classify_charge_state _) eqn:Es; try done.
    injection Hv as Hv. apply covers_spec in Hv as (_ & Hc & Ha). apply opennode_classify_paid in Es.
    exists {| ev_reference := None; ev_currency := oc_currency c; ev_amount := x0 |}. cbn. split_and!; eauto.
  - intros (ev & (Hs & (s & Hraw & Ha) & Hr & Hc) & _ & Hcur & Hle).
    rewrite (proj2 (flexible_amount_Ok _ _) Hraw). cbn. rewrite Ha. cbn.
    rewrite (proj2 (opennode_classify_paid _) Hs). f_equal. apply covers_spec. now rewrite <- Hc.
Qed.

Section OpenNodeLemmas.
Context `{OpenNodeJson} `{!F64Text} `{!ProofBytes ChargeProof} `{Hex} (sha256_mac : Mac) {W : Type} `{Clock W}.

Definition opennode_evidence (r : OpenNodeRail W) (p : list byte) (ref : str) (w : W) (ev : Evidence) (w' : W) : Prop :=
  exists cp body env,
    from_bytes (P := ChargeProof) p = Some cp /\ is_safe_path_segment (charge_id cp) = true /\
    answered (on_http r) (json_call r "GET" ("/v1/charge/" +:+ charge_id cp) None) w body w' /\
    from_json (T := Envelope) body = Ok env /\ oc_id (data env) <> EmptyString /\ opennode_paid (data env) ev.
#[export] Instance opennode_verifies r : VerifiesBy (opennode_rail sha256_mac r) (opennode_evidence r).
Proof.
  intros rc w w'. cbn [verify opennode_rail id]. unfold opennode_verify, fetch_charge, opennode_evidence. split.
  - intros Hv. run_inv Hv. subst. apply names_rail in Hc. apply path_segment_Ok in Hx0 as [-> Hs].
    apply expect_2xx_Ok in Hx1. apply is_empty_false in Hc0. apply opennode_covers_spec in Hv as (ev & ? & ?). eauto 12.
  - intros (Hi%names_rail & ev & (cp & body & env & Hp & Hs & Hg & Hb & Hn%is_empty_false & Hset) & Hsup).
    pose proof (proj2 (path_segment_Ok "an opennode charge id" _ _) (conj eq_refl Hs)).
    pose proof (proj2 (expect_2xx_Ok "opennode" ("/v1/charge/" +:+ charge_id cp) _ classify_error _ _ _ _) Hg).
    assert (charge_covers (data env) rc = Ok true) by (apply opennode_covers_spec; eauto).
    autounfold with adapter. rewrite Hi, Hp.
    apply eff_bind_Ok. exists (data env), w'. split; [|run]. run.
Qed.
Lemma opennode_ignores_reference r : ignores_reference (opennode_rail sha256_mac r).
Proof. intros rc ref w. reflexivity. Qed.

(** The tag is of the charge id, and of nothing else in the body. *)
Definition opennode_authentic (r : OpenNodeRail W) (d : WebhookDelivery) (w : W) : Prop :=
  exists body, from_utf8 (raw_body d) = Some body /\
    hex_signed sha256_mac (as_bytes (api_key (on_config r)))
      (as_bytes (form_value "id" (parse_form_body body))) (form_value "hashed_order" (parse_form_body body)).
#[export] Instance opennode_webhook_answers r :
  WebhookAnswers (opennode_rail sha256_mac r) (opennode_authentic r).
Proof.
  intros d w ev w' Hw. cbn [verify_webhook opennode_rail] in Hw.
  unfold opennode_webhook, verify_and_extract in Hw. run_inv Hw. simplify_eq.
  apply negb_false_iff, hex_signed_spec in Hc1. apply is_empty_false in Hc.
  split; [done|]. split; [done|]. unfold opennode_authentic. eauto.
Qed.
(** The amount crosses as a number. *)
Definition opennode_places : Places := {|
  amount_at := ["amount"]; currency_at := At ["currency"]; reference_at := ["order_id"] |}%string.
Definition opennode_ordered (r : OpenNodeRail W) (o : Order) (rc : Receipt) (w w' : W) : Prop :=
  ordered_by (on_http r) "POST" (on_base_url r +:+ "/v1/charges") (reads opennode_places) o w w'.
#[export] Instance opennode_orders `{F64Laws : !F64TextLaws _} r :
  ChargeOrders (opennode_rail sha256_mac r) as_number (opennode_ordered r).
Proof.
  intros q rc w w' Hu Hc. charge_inv Hc. pose proof (amount_is_number _ _ _ _ Hu Hx1 Hx2) as Hj.
  orders (f64_text x2) (normal_currency (req_currency q)).
  - by_the_call. split; [|now repeat split]. cbn. now rewrite Hj.
  - apply number_asks; [apply Hu|]. intros Hb. eapply amount_read_exactly; try eassumption. split; [apply Hu | exact Hb].
Qed.
Lemma opennode_asks_number `{!F64TextLaws _} r q rc w w' :
  0 <= req_amount_minor q < 2 ^ 50 -> charge (opennode_rail sha256_mac r) q w = (Ok rc, w') ->
  called (on_http r) "POST" (on_base_url r +:+ "/v1/charges")
    (asks_number "currency" (req_currency q) (req_amount_minor q)) w w'.
Proof.
  intros Hn Hc. charge_inv Hc. by_the_call. eapply double_asks_number; eauto.
Qed.
(** Two amounts of yen, one charge. *)
Lemma opennode_merges r q q' w :
  req_amount_minor q = 2 ^ 53 -> req_amount_minor q' = 2 ^ 53 + 1 -> normal_currency (req_currency q) = "JPY"%string ->
  req_currency q' = req_currency q -> req_destination q' = req_destination q -> req_reference q' = req_reference q ->
  charge (opennode_rail sha256_mac r) q w = charge (opennode_rail sha256_mac r) q' w.
Proof.
  intros Hq Hq' Hj Hc Hd Hr. cbn. unfold opennode_charge, validate, charge_request. rewrite Hq, Hq', Hc, Hd, Hr, Hj.
  change (2 ^ 53 + 1 =? 0) with (2 ^ 53 =? 0).
  assert (minor_to_major_string (2 ^ 53) "JPY" = Ok "9007199254740992"%string) as -> by (vm_compute; reflexivity).
  assert (minor_to_major_string (2 ^ 53 + 1) "JPY" = Ok "9007199254740993"%string) as -> by (vm_compute; reflexivity).
  assert (f64_from_str "9007199254740993" = f64_from_str "9007199254740992") as E by (vm_compute; reflexivity).
  unfold_eff. cbn [map_err]. rewrite E. reflexivity.
Qed.
#[export] Instance opennode_opens r : ChargeOpens (opennode_rail sha256_mac r).
Proof. charge_opens. Qed.
#[export] Instance opennode_quotes r : QuotesCharge (opennode_rail sha256_mac r) 300.
Proof. quotes_before. Qed.
#[export] Instance opennode_rail_laws c builder r :
  opennode_new c builder = Ok r -> RailLaws (fun _ : W => True) (opennode_rail sha256_mac r).
Proof. intros Hnew. solve_rail_laws Hnew. Qed.
End OpenNodeLemmas.
