(* ===== verification/CoinbaseCommerce.v ===== *)
(** * The Coinbase Commerce adapter ([patala-fiat/src/coinbasecommerce/*.rs])

    Hosted charges with a timeline: the last entry is the charge's state.
    verify answers for a completed charge, and makes an error of the states a
    person has to look at. A notification only says which charge changed. *)

From S2P Require Import Prelude RustStr Core External HttpShared FiatDest Json Currency Adapter Orders.

(** ** models.rs *)

Definition coinbase_malformed : str -> Error := api_malformed "coinbasecommerce".
Record TimelineEntry := { time : str; te_status : str; te_context : str }.
Record LocalPrice := { lp_amount : str; lp_currency : str }.
Record Charge := {
  ch_id : str;
  ch_hosted_url : str;
  timeline : list TimelineEntry;
  local_price : LocalPrice;
}.
Inductive ChargeState :=
  | Paid | Pending | Failed
  | RequiresManualReview (context : option str)
  | Unrecognised (status : str).
Definition classify_charge_state (latest : TimelineEntry) : ChargeState :=
  let s := te_status latest in
  if String.eqb s "COMPLETED" then Paid
  else if String.eqb s "NEW" || String.eqb s "PENDING" then Pending
  else if String.eqb s "EXPIRED" || String.eqb s "CANCELED" then Failed
  else if String.eqb s "UNRESOLVED" || String.eqb s "RESOLVED" then
    if is_empty (te_context latest) then RequiresManualReview None
    else RequiresManualReview (Some (te_context latest))
  else Unrecognised s.

(** ** proof.rs and the answers *)

Record ChargeProof := { charge_id : str; hosted_url : str }.
Record ErrorEnvelope := { error_message : str }.
Record Envelope := { data : Charge }.
Record EventEnvelope := { event_type : str; event_data_id : str }.
Class CoinbaseJson := {
  #[export] error_json :: FromJson ErrorEnvelope;
  #[export] charge_json :: FromJson Envelope;
  #[export] event_json :: FromJson EventEnvelope;
}.
Definition classify_error `{CoinbaseJson} (code : Z) (body : list byte) : Error :=
  let env := default {| error_message := EmptyString |} (result_ok (from_json body)) in
  api_status "coinbasecommerce" code (or_no_message (error_message env)).

(** ** webhook.rs *)

Inductive CoinbaseCommerceWebhookError :=
  | MissingSignature | InvalidSignature
  | MalformedResponse (e : str)
  | UnhandledEvent (ty : str).
Definition coinbase_webhook_error_display (e : CoinbaseCommerceWebhookError) : str :=
  match e with
  | MissingSignature => "payments: coinbasecommerce: missing X-CC-Webhook-Signature header"
  | InvalidSignature => "payments: coinbasecommerce: invalid X-CC-Webhook-Signature"
  | MalformedResponse e => "payments: coinbasecommerce: malformed API response: " +:+ e
  | UnhandledEvent ty => "payments: unhandled webhook event type: " +:+ ty
  end.
Record CoinbaseCommerceWebhookEvent := { cce_event_id : str; cce_charge_id : str }.
Definition verify_and_extract `{CoinbaseJson, Hex} (sha256_mac : Mac) (secret : str) (body : list byte)
    (sig_header : str) : Result CoinbaseCommerceWebhookError CoinbaseCommerceWebhookEvent :=
  let h := trim sig_header in
  return_if is_empty h with_ Err MissingSignature;
  return_if negb (verify_hmac_sha256_hex sha256_mac (as_bytes secret) body h) with_ Err InvalidSignature;
  env ← map_err MalformedResponse (from_json (T := EventEnvelope) body);
  return_if negb (starts_with "charge:" (event_type env)) with_ Err (UnhandledEvent (event_type env));
  return_if is_empty (event_data_id env) with_ Err (MalformedResponse "missing event.data.id");
  Ok {| cce_event_id := event_data_id env; cce_charge_id := event_data_id env |}.

(** ** config.rs *)

Definition DEFAULT_BASE_URL : str := "https://api.commerce.coinbase.com".
Definition API_VERSION : str := "2018-03-22".
Record CoinbaseCommerceConfig := {
  api_key : str;
  webhook_secret : str;
  base_url : str;
  cc_requires_kyc : bool;
  cc_currencies : list str;
  cc_timeout_secs : Z;
}.
Definition coinbase_config_from_env (env : Environment) : Result Error CoinbaseCommerceConfig :=
  key ← trimmed_env env "COINBASECOMMERCE_API_KEY";
  secret ← trimmed_env env "COINBASECOMMERCE_WEBHOOK_SECRET";
  let base := default EmptyString ((fun s => trim_end_slashes (trim s)) <$> env "COINBASECOMMERCE_BASE_URL"%string) in
  Ok {| api_key := key; webhook_secret := secret;
        base_url := if is_empty base then DEFAULT_BASE_URL else base;
        cc_requires_kyc := env_flag env "COINBASECOMMERCE_REQUIRES_KYC" false;
        cc_currencies := env_currencies env "COINBASECOMMERCE_CURRENCIES" [];
        cc_timeout_secs := env_u64 env "COINBASECOMMERCE_TIMEOUT_SECS" 20 |}.

(** ** rail.rs *)

Record CoinbaseCommerceRail (W : Type) := {
  coinbase_id : str;
  cc_config : CoinbaseCommerceConfig;
  cc_http : HttpClient W;
  cc_capabilities : RailCapabilities;
  cc_base_url : str;
}.
Arguments coinbase_id {W} _.
Arguments cc_config {W} _.
Arguments cc_http {W} _.
Arguments cc_capabilities {W} _.
Arguments cc_base_url {W} _.

Definition coinbase_new {W} (c : CoinbaseCommerceConfig) (builder : HttpBuilder W)
    : Result Error (CoinbaseCommerceRail W) :=
  _ ← required "api_key" (api_key c);
  _ ← required "webhook_secret" (webhook_secret c);
  http ← built_client "coinbasecommerce" builder (cc_timeout_secs c);
  Ok {| coinbase_id := "coinbasecommerce"; cc_config := c; cc_http := http;
        cc_capabilities := {|
          class := CustodialReversible; reversible := false; requires_kyc := cc_requires_kyc c;
          holds_funds := true; currencies := cc_currencies c; settlement := Instant;
          atomic_multi_party := false |};
        cc_base_url := base_url c |}.

Definition safe_path_segment : str -> Result Error str := path_segment "a coinbasecommerce charge id".

Section CoinbaseCommerceRail.
Context `{CoinbaseJson} `{!ProofBytes ChargeProof} `{Hex} (sha256_mac : Mac) {W : Type} `{Clock W}.

Definition check_currency (r : CoinbaseCommerceRail W) : str -> Result Error unit :=
  check_unless_empty (coinbase_id r) (currencies (cc_capabilities r)).
Definition json_call (r : CoinbaseCommerceRail W) (method path : str) (body : option Json) : HttpCall := {|
  hc_method := method; hc_url := cc_base_url r +:+ path; hc_basic_auth := None;
  hc_headers := [("X-CC-Api-Key", api_key (cc_config r)); ("X-CC-Version", API_VERSION);
                 ("Accept", "application/json")]%string;
  hc_body := json_body body |}.
Definition do_json (r : CoinbaseCommerceRail W) (method path : str) (body : option Json)
    : Eff W Error (list byte * Z) :=
  transport "coinbasecommerce" path (cc_http r) (json_call r method path body).
Definition fetch_charge (r : CoinbaseCommerceRail W) (cid : str) : Eff W Error Charge :=
  cid ← eff_of (safe_path_segment cid);
  body ← expect_2xx classify_error (do_json r "GET" ("/charges/" +:+ cid) None);
  env ← parse_as (T := Envelope) "coinbasecommerce" body;
  return_if is_empty (ch_id (data env)) with_ eff_err (coinbase_malformed "empty charge id");
  mret (data env).

Definition coinbase_quote (r : CoinbaseCommerceRail W) (req : PayRequest) : Eff W Error Quote :=
  _ ← eff_of (validate req);
  _ ← eff_of (check_currency r (req_currency req));
  quoted (coinbase_id r) (settlement (cc_capabilities r)) 300 (req_currency req) req.

Definition charge_request (req : PayRequest) (amt cur : str) : Json := JObject [
  ("name", JString ("patala order " +:+ req_reference req));
  ("description", JString ("patala order " +:+ req_reference req));
  ("pricing_type", JString "fixed_price");
  ("local_price", JObject [("amount", JString amt); ("currency", JString cur)]);
  ("metadata", JObject [("order_id", JString (req_reference req))])]%string.
Definition coinbase_charge (r : CoinbaseCommerceRail W) (req : PayRequest) : Eff W Error Receipt :=
  _ ← eff_of (validate req);
  _ ← eff_of (check_currency r (req_currency req));
  let cur := normal_currency (req_currency req) in
  amt ← eff_of (map_err (fun e => InvalidRequest ("coinbasecommerce: " +:+ currency_error_display e))
    (minor_to_major_string (req_amount_minor req) cur));
  body ← expect_2xx classify_error (do_json r "POST" "/charges" (Some (charge_request req amt cur)));
  env ← parse_as (T := Envelope) "coinbasecommerce" body;
  return_if is_empty (ch_id (data env)) || is_empty (ch_hosted_url (data env)) with_
    eff_err (coinbase_malformed "empty id or hosted_url");
  mret (open_receipt (coinbase_id r) cur (req_reference req)
    {| charge_id := ch_id (data env); hosted_url := ch_hosted_url (data env) |}).

Definition manual_review (context : option str) : Error := Rail
  ("coinbasecommerce: charge requires manual review in the Coinbase Commerce dashboard (unresolved/resolved timeline state) -- this adapter will not guess whether it was paid in full: context="
   +:+ debug_str (default EmptyString context)).
Definition unrecognised (status : str) : Error :=
  Rail ("coinbasecommerce: unrecognised timeline status " +:+ debug_str status).
Definition charge_covers (c : Charge) (rc : Receipt) : Result Error bool :=
  latest ← ok_or (coinbase_malformed "empty timeline") (last (timeline c));
  match classify_charge_state latest with
  | Paid =>
      amt ← map_err (fun e => coinbase_malformed (currency_error_display e))
        (major_string_to_minor (lp_amount (local_price c)) (lp_currency (local_price c)));
      Ok (covers true (lp_currency (local_price c)) amt rc)
  | Pending | Failed => Ok false
  | RequiresManualReview context => Err (manual_review context)
  | Unrecognised status => Err (unrecognised status)
  end.
Definition coinbase_verify (r : CoinbaseCommerceRail W) (rc : Receipt) : Eff W Error bool :=
  return_if negb (String.eqb (rail_id rc) (coinbase_id r)) with_ mret false;
  let_some p := from_bytes (P := ChargeProof) (proof rc) or_else mret false;
  c ← fetch_charge r (charge_id p);
  eff_of (charge_covers c rc).

Definition coinbase_webhook (r : CoinbaseCommerceRail W) (d : WebhookDelivery) : Result Error WebhookEvent :=
  event ← map_err (fun e => InvalidRequest (coinbase_webhook_error_display e))
    (verify_and_extract sha256_mac (webhook_secret (cc_config r)) (raw_body d)
       (header_or_empty "X-CC-Webhook-Signature" d));
  Ok (unconfirmed (coinbase_id r) (cce_event_id event) (cce_charge_id event)).
Definition coinbase_rail (r : CoinbaseCommerceRail W) : PaymentRail W := {|
  id := coinbase_id r;
  capabilities := cc_capabilities r;
  quote := coinbase_quote r;
  charge := coinbase_charge r;
  verify := coinbase_verify r;
  validate_destination := ignored (coinbase_id r);
  refund := default_refund;
  verify_webhook d := eff_of (coinbase_webhook r d);
|}.
End CoinbaseCommerceRail.
#[export] Hint Unfold coinbase_rail coinbase_new coinbase_verify coinbase_charge coinbase_quote safe_path_segment
  do_json : adapter.

(** ** Lemmas *)

(** The timeline ends in COMPLETED and the price is read exactly. *)
Definition coinbase_paid (c : Charge) (ev : Evidence) : Prop :=
  (exists latest, last (timeline c) = Some latest /\ te_status latest = "COMPLETED"%string) /\
  major_string_to_minor (lp_amount (local_price c)) (lp_currency (local_price c)) = Ok (ev_amount ev) /\
  ev_reference ev = None /\ ev_currency ev = lp_currency (local_price c).
Lemma coinbase_classify_paid e : classify_charge_state e = Paid <-> te_status e = "COMPLETED"%string.
Proof.
  unfold classify_charge_state. destruct (String.eqb_spec (te_status e) "COMPLETED") as [|Hn]; [tauto|].
  split; [|now intros ?%Hn]. now repeat case_match.
Qed.
Lemma coinbase_covers_spec c rc :
  charge_covers c rc = Ok true <-> exists ev, coinbase_paid c ev /\ supports ev rc.
Proof.
  unfold charge_covers, coinbase_paid, supports. split.
  - intros Hv. run_inv Hv. destruct (classify_charge_state _) eqn:Es; try done. run_inv Hv.
    injection Hv as Hv. apply covers_spec in Hv as (_ & Hc & Ha). apply coinbase_classify_paid in Es.
    exists {| ev_reference := None; ev_currency := lp_currency (local_price c); ev_amount := x0 |}. cbn. split_and!; eauto.
  - intros (ev & ((e & He & Hs) & Ha & Hr & Hc) & _ & Hcur & Hle). rewrite He. cbn.
    rewrite (proj2 (coinbase_classify_paid _) Hs), Ha. cbn. f_equal. apply covers_spec. now rewrite <- Hc.
Qed.

Section CoinbaseLemmas.
Context `{CoinbaseJson} `{!ProofBytes ChargeProof} `{Hex} (sha256_mac : Mac) {W : Type} `{Clock W}.

Definition coinbase_evidence (r : CoinbaseCommerceRail W) (p : list byte) (ref : str) (w : W) (ev : Evidence) (w' : W) : Prop :=
  exists cp body env,
    from_bytes (P := ChargeProof) p = Some cp /\ is_safe_path_segment (charge_id cp) = true /\
    answered (cc_http r) (json_call r "GET" ("/charges/" +:+ charge_id cp) None) w body w' /\
    from_json (T := Envelope) body = Ok env /\ ch_id (data env) <> EmptyString /\ coinbase_paid (data env) ev.
#[export] Instance coinbase_verifies r : VerifiesBy (coinbase_rail sha256_mac r) (coinbase_evidence r).
Proof.
  intros rc w w'. cbn [verify coinbase_rail id]. unfold coinbase_verify, fetch_charge, coinbase_evidence. split.
  - intros Hv. run_inv Hv. subst. apply names_rail in Hc. apply path_segment_Ok in Hx0 as [-> Hs].
    apply expect_2xx_Ok in Hx1. apply is_empty_false in Hc0. apply coinbase_covers_spec in Hv as (ev & ? & ?). eauto 12.
  - intros (Hi%names_rail & ev & (cp & body & env & Hp & Hs & Hg & Hb & Hn%is_empty_false & Hset) & Hsup).
    pose proof (proj2 (path_segment_Ok "a coinbasecommerce charge id" _ _) (conj eq_refl Hs)).
    pose proof (proj2 (expect_2xx_Ok "coinbasecommerce" ("/charges/" +:+ charge_id cp) _ classify_error _ _ _ _) Hg).
    assert (charge_covers (data env) rc = Ok true) by (apply coinbase_covers_spec; eauto).
    autounfold with adapter. rewrite Hi, Hp.
    apply eff_bind_Ok. exists (data env), w'. split; [|run]. run.
Qed.
Lemma coinbase_ignores_reference r : ignores_reference (coinbase_rail sha256_mac r).
Proof. intros rc ref w. reflexivity. Qed.

Definition coinbase_authentic (r : CoinbaseCommerceRail W) (d : WebhookDelivery) (w : W) : Prop :=
  hex_signed sha256_mac (as_bytes (webhook_secret (cc_config r))) (raw_body d)
    (trim (header_or_empty "X-CC-Webhook-Signature" d)).
#[export] Instance coinbase_webhook_answers r :
  WebhookAnswers (coinbase_rail sha256_mac r) (coinbase_authentic r).
Proof.
  intros d w ev w' Hw. cbn [verify_webhook coinbase_rail] in Hw.
  unfold coinbase_webhook, verify_and_extract in Hw. run_inv Hw. simplify_eq.
  apply negb_false_iff, hex_signed_spec in Hc0. apply is_empty_false in Hc2. done.
Qed.
Definition coinbase_places : Places := {|
  amount_at := ["local_price"; "amount"]; currency_at := At ["local_price"; "currency"];
  reference_at := ["metadata"; "order_id"] |}%string.
Definition coinbase_ordered (r : CoinbaseCommerceRail W) (o : Order) (rc : Receipt) (w w' : W) : Prop :=
  ordered_by (cc_http r) "POST" (cc_base_url r +:+ "/charges") (reads coinbase_places) o w w'.
#[export] Instance coinbase_orders r : ChargeOrders (coinbase_rail sha256_mac r) (exactly in_major_units) (coinbase_ordered r).
Proof.
  intros q rc w w' Hu Hc. charge_inv Hc.
  major_orders (normal_currency (req_currency q)). sent.
Qed.
#[export] Instance coinbase_opens r : ChargeOpens (coinbase_rail sha256_mac r).
Proof. charge_opens. Qed.
#[export] Instance coinbase_quotes r : QuotesCharge (coinbase_rail sha256_mac r) 300.
Proof. quotes_before. Qed.
#[export] Instance coinbase_rail_laws c builder r :
  coinbase_new c builder = Ok r -> RailLaws (fun _ : W => True) (coinbase_rail sha256_mac r).
Proof. intros Hnew. solve_rail_laws Hnew. Qed.
End CoinbaseLemmas.
