(* ===== verification/LNbits.v ===== *)
(** * The LNbits adapter ([patala-fiat/src/lnbits/*.rs])

    Lightning invoices of a self-hosted wallet: final and non-custodial. LNbits
    answers only whether a payment hash is paid; the amount and the currency of
    a charge are what the receipt's proof carries. A notification is
    authenticated by a secret in its URL. *)

From S2P Require Import Prelude RustStr Core External HttpShared FiatDest Json Currency Adapter Orders UrlForm Float.

(** ** models.rs, proof.rs *)

Definition lnbits_malformed : str -> Error := api_malformed "lnbits".
Record CreatePaymentResponse := { cpr_payment_hash : str; cpr_payment_request : str }.
Record PaymentStatus := { paid : bool }.
Record ErrorEnvelope := { detail : str }.
Record Envelope := { env_payment_hash : str }.
Class LNbitsJson := {
  #[export] error_json :: FromJson ErrorEnvelope;
  #[export] create_json :: FromJson CreatePaymentResponse;
  #[export] status_json :: FromJson PaymentStatus;
  #[export] envelope_json :: FromJson Envelope;
}.
Definition classify_error `{LNbitsJson} (code : Z) (body : list byte) : Error :=
  let env := default {| detail := EmptyString |} (result_ok (from_json body)) in
  api_status "lnbits" code (or_no_message (detail env)).
Record ChargeProof := {
  payment_hash : str;
  payment_request : str;
  cp_amount_minor : Z;
  cp_currency : str;
  created_at_unix : Z;
}.

(** ** webhook.rs *)

Inductive LNbitsWebhookError := MissingSecret | InvalidSecret | MalformedResponse (e : str).
Definition lnbits_webhook_error_display (e : LNbitsWebhookError) : str :=
  match e with
  | MissingSecret => "payments: lnbits: missing ?secret= query parameter on webhook request"
  | InvalidSecret => "payments: lnbits: webhook ?secret= does not match the configured webhook secret"
  | MalformedResponse e => "payments: lnbits: malformed API response: " +:+ e
  end.
Record LNbitsWebhookEvent := { lne_event_id : str; lne_payment_hash : str }.
Definition verify_and_extract `{LNbitsJson} (expected : str) (given : option str) (body : list byte)
    : Result LNbitsWebhookError LNbitsWebhookEvent :=
  let given := default EmptyString given in
  return_if is_empty given with_ Err MissingSecret;
  return_if negb (constant_time_eq (as_bytes given) (as_bytes expected)) with_ Err InvalidSecret;
  env ← map_err MalformedResponse (from_json (T := Envelope) body);
  return_if is_empty (env_payment_hash env) with_ Err (MalformedResponse "missing payment_hash");
  Ok {| lne_event_id := env_payment_hash env; lne_payment_hash := env_payment_hash env |}.

(** ** config.rs *)

Definition DEFAULT_QUOTE_TTL_SECS : Z := 900.
Record LNbitsConfig := {
  base_url : str;
  api_key : str;
  webhook_secret : str;
  webhook_url : option str;
  quote_ttl_secs : Z;
  ln_requires_kyc : bool;
  ln_currencies : list str;
  ln_timeout_secs : Z;
}.
Definition ttl_error : Error :=
  InvalidRequest "LNBITS_QUOTE_TTL_SECONDS must be a positive integer number of seconds".
Definition quote_ttl_from_env (env : Environment) : Result Error Z :=
  let v := default EmptyString (env "LNBITS_QUOTE_TTL_SECONDS"%string) in
  return_if is_blank v with_ Ok DEFAULT_QUOTE_TTL_SECS;
  n ← ok_or ttl_error (parse_u64 (trim v));
  return_if n =? 0 with_ Err ttl_error;
  Ok n.
Definition lnbits_config_from_env (env : Environment) : Result Error LNbitsConfig :=
  base ← trimmed_env env "LNBITS_BASE_URL";
  key ← trimmed_env env "LNBITS_API_KEY";
  secret ← trimmed_env env "LNBITS_WEBHOOK_SECRET";
  let url := default EmptyString (trim <$> env "LNBITS_WEBHOOK_URL"%string) in
  ttl ← quote_ttl_from_env env;
  Ok {| base_url := trim_end_slashes base; api_key := key; webhook_secret := secret;
        webhook_url := if is_empty url then None else Some url;
        quote_ttl_secs := ttl;
        ln_requires_kyc := env_flag env "LNBITS_REQUIRES_KYC" false;
        ln_currencies := env_currencies env "LNBITS_CURRENCIES" [];
        ln_timeout_secs := env_u64 env "LNBITS_TIMEOUT_SECS" 20 |}.

(** ** rail.rs *)

Record LNbitsRail (W : Type) := {
  lnbits_id : str;
  ln_config : LNbitsConfig;
  ln_http : HttpClient W;
  ln_capabilities : RailCapabilities;
  ln_base_url : str;
}.
Arguments lnbits_id {W} _.
Arguments ln_config {W} _.
Arguments ln_http {W} _.
Arguments ln_capabilities {W} _.
Arguments ln_base_url {W} _.

Definition lnbits_new {W} (c : LNbitsConfig) (builder : HttpBuilder W) : Result Error (LNbitsRail W) :=
  _ ← required "base_url" (base_url c);
  _ ← required "api_key" (api_key c);
  _ ← required "webhook_secret" (webhook_secret c);
  return_if quote_ttl_secs c =? 0 with_ Err (InvalidRequest "quote_ttl_secs must be a positive integer");
  http ← built_client "lnbits" builder (ln_timeout_secs c);
  Ok {| lnbits_id := "lnbits"; ln_config := c; ln_http := http;
        ln_capabilities := {|
          class := NonCustodialFinal; reversible := false; requires_kyc := ln_requires_kyc c;
          holds_funds := false; currencies := ln_currencies c; settlement := Instant;
          atomic_multi_party := false |};
        ln_base_url := base_url c |}.

Definition safe_path_segment : str -> Result Error str := path_segment "an lnbits payment hash".

Definition urlencoding_minimal : str -> str := percent_encode.

Section LNbitsRail.
Context `{LNbitsJson} `{!F64Text} `{!ProofBytes ChargeProof} {W : Type} `{Clock W}.

Definition check_currency (r : LNbitsRail W) : str -> Result Error unit :=
  check_unless_empty (lnbits_id r) (currencies (ln_capabilities r)).
Definition json_call (r : LNbitsRail W) (method path : str) (body : option Json) : HttpCall := {|
  hc_method := method; hc_url := ln_base_url r +:+ path; hc_basic_auth := None;
  hc_headers := [("X-Api-Key", api_key (ln_config r)); ("Accept", "application/json")]%string;
  hc_body := json_body body |}.
Definition do_json (r : LNbitsRail W) (method path : str) (body : option Json)
    : Eff W Error (list byte * Z) :=
  transport "lnbits" path (ln_http r) (json_call r method path body).

Definition lnbits_quote (r : LNbitsRail W) (req : PayRequest) : Eff W Error Quote :=
  _ ← eff_of (validate req);
  _ ← eff_of (check_currency r (req_currency req));
  quoted (lnbits_id r) (settlement (ln_capabilities r)) (quote_ttl_secs (ln_config r)) (req_currency req) req.

Definition webhook_field (c : LNbitsConfig) : list (str * Json) :=
  match webhook_url c with
  | Some url =>
      let sep : str := if contains_char "?" url then "&" else "?" in
      [("webhook"%string, JString (url +:+ sep +:+ "secret=" +:+ urlencoding_minimal (webhook_secret c)))]
  | None => []
  end.
Definition payment_body (r : LNbitsRail W) (req : PayRequest) (amt : F64) (cur : str) : Json := JObject ([
  ("out", JBool false); ("amount", json_f64 amt); ("unit", JString (to_ascii_lowercase cur));
  ("memo", JString ("patala order " +:+ req_reference req));
  ("expiry", json_u64 (quote_ttl_secs (ln_config r)))]%string ++ webhook_field (ln_config r)).
Definition lnbits_charge (r : LNbitsRail W) (req : PayRequest) : Eff W Error Receipt :=
  _ ← eff_of (validate req);
  _ ← eff_of (check_currency r (req_currency req));
  let cur := normal_currency (req_currency req) in
  amt ← eff_of (map_err (fun e => InvalidRequest ("lnbits: " +:+ currency_error_display e))
    (minor_to_major_string (req_amount_minor req) cur));
  num ← eff_of (ok_or (Rail "lnbits: could not render amount as a number") (f64_from_str amt));
  body ← expect_2xx classify_error (do_json r "POST" "/api/v1/payments" (Some (payment_body r req num cur)));
  parsed ← parse_as (T := CreatePaymentResponse) "lnbits" body;
  return_if is_empty (cpr_payment_hash parsed) || is_empty (cpr_payment_request parsed) with_
    eff_err (lnbits_malformed "empty payment_hash or payment_request");
  now ← read_clock;
  mret (open_receipt (lnbits_id r) cur (req_reference req)
    {| payment_hash := cpr_payment_hash parsed; payment_request := cpr_payment_request parsed;
       cp_amount_minor := req_amount_minor req; cp_currency := cur; created_at_unix := now |}).

(** An expired invoice and an open one are both unpaid: reading the clock
    changes nothing about the answer. *)
Definition verify_paid_wins_over_expiry (is_paid : bool) (created ttl : Z) : Eff W Error bool :=
  return_if is_paid with_ mret true;
  _ ← read_clock;
  mret false.
Definition lnbits_verify (r : LNbitsRail W) (rc : Receipt) : Eff W Error bool :=
  return_if negb (String.eqb (rail_id rc) (lnbits_id r)) with_ mret false;
  let_some p := from_bytes (P := ChargeProof) (proof rc) or_else mret false;
  return_if negb (eq_ignore_ascii_case (cp_currency p) (currency rc)) with_ mret false;
  return_if cp_amount_minor p <? amount_minor rc with_ mret false;
  hash ← eff_of (safe_path_segment (payment_hash p));
  body ← expect_2xx classify_error (do_json r "GET" ("/api/v1/payments/" +:+ hash) None);
  parsed ← parse_as (T := PaymentStatus) "lnbits" body;
  verify_paid_wins_over_expiry (paid parsed) (created_at_unix p) (quote_ttl_secs (ln_config r)).

Definition lnbits_webhook (r : LNbitsRail W) (d : WebhookDelivery) : Result Error WebhookEvent :=
  event ← map_err (fun e => InvalidRequest (lnbits_webhook_error_display e))
    (verify_and_extract (webhook_secret (ln_config r)) (query_param "secret" d) (raw_body d));
  Ok (unconfirmed (lnbits_id r) (lne_event_id event) (lne_payment_hash event)).
Definition lnbits_rail (r : LNbitsRail W) : PaymentRail W := {|
  id := lnbits_id r;
  capabilities := ln_capabilities r;
  quote := lnbits_quote r;
  charge := lnbits_charge r;
  verify := lnbits_verify r;
  validate_destination := ignored (lnbits_id r);
  refund := default_refund;
  verify_webhook d := eff_of (lnbits_webhook r d);
|}.
End LNbitsRail.
#[export] Hint Unfold lnbits_rail lnbits_new lnbits_verify lnbits_charge lnbits_quote safe_path_segment do_json
  : adapter.

(** ** Lemmas *)

Section LNbitsLemmas.
Context `{LNbitsJson} `{!F64Text} `{!ProofBytes ChargeProof} {W : Type} `{Clock W}.

(** LNbits says that a payment hash is paid, and nothing of how much was. *)
Definition lnbits_says_paid (r : LNbitsRail W) (hash : str) (w w' : W) : Prop :=
  is_safe_path_segment hash = true /\ exists body parsed,
    answered (ln_http r) (json_call r "GET" ("/api/v1/payments/" +:+ hash) None) w body w' /\
    from_json (T := PaymentStatus) body = Ok parsed /\ paid parsed = true.
(** The proof's hash is paid, and the receipt claims no more than the proof does:
    the amount and the currency are the proof's word, not the wallet's. *)
Definition lnbits_accepts (r : LNbitsRail W) (rc : Receipt) (w w' : W) : Prop :=
  rail_id rc = lnbits_id r /\ exists cp, from_bytes (P := ChargeProof) (proof rc) = Some cp /\
    eq_ignore_ascii_case (cp_currency cp) (currency rc) = true /\ amount_minor rc <= cp_amount_minor cp /\
    lnbits_says_paid r (payment_hash cp) w w'.
Lemma lnbits_verify_exact r rc w w' : verify (lnbits_rail r) rc w = (Ok true, w') <-> lnbits_accepts r rc w w'.
Proof.
  cbn [verify lnbits_rail]. unfold lnbits_verify, lnbits_accepts, lnbits_says_paid, verify_paid_wins_over_expiry. split.
  - intros Hv. run_inv Hv. apply names_rail in Hc. apply negb_false_iff in Hc0. apply Z.ltb_ge in Hc1.
    apply path_segment_Ok in Hx as [-> Hs]. apply expect_2xx_Ok in Hx0. destruct (paid x1) eqn:Epaid.
    + apply eff_ret_Ok in Hv as [_ ->]. split; [done|]. eauto 12.
    + run_inv Hv. done.
  - intros (Hi%names_rail & cp & Hp & Hcur%negb_false_iff & Ha%Z.ltb_ge & Hs & body & parsed & Hg & Hb & Hpaid).
    pose proof (proj2 (path_segment_Ok "an lnbits payment hash" _ _) (conj eq_refl Hs)).
    pose proof (proj2 (expect_2xx_Ok "lnbits" ("/api/v1/payments/" +:+ payment_hash cp) _ classify_error _ _ _ _) Hg).
    cbn in Hcur, Ha. autounfold with adapter. rewrite Hi, Hp, Hcur, Ha. run. rewrite Hpaid. run.
Qed.
Lemma lnbits_ignores_reference r : ignores_reference (lnbits_rail r).
Proof. intros rc ref w. reflexivity. Qed.

(** The delivery carries the configured secret. *)
Definition lnbits_authentic (r : LNbitsRail W) (d : WebhookDelivery) (w : W) : Prop :=
  query_param "secret" d = Some (webhook_secret (ln_config r)).
#[export] Instance lnbits_webhook_answers r :
  WebhookAnswers (lnbits_rail r) (lnbits_authentic r).
Proof.
  intros d w ev w' Hw. cbn [verify_webhook lnbits_rail] in Hw.
  unfold lnbits_webhook, verify_and_extract in Hw. run_inv Hw. simplify_eq.
  apply negb_false_iff, constant_time_eq_spec, as_bytes_inj in Hc0. apply is_empty_false in Hc, Hc1.
  split; [done|]. split; [done|]. unfold lnbits_authentic. destruct (query_param _ _); [now f_equal | done].
Qed.
(** The amount crosses as a number, the order's reference in the memo only; the
    clock is read after the answer. *)
Definition lnbits_reads (b : HttpBody) (o : Order) : Prop :=
  body_at ["amount"%string] b = Some (o_amount o) /\ body_at ["unit"%string] b = Some (o_currency o) /\
  body_at ["memo"%string] b = Some ("patala order " +:+ o_reference o).
Definition lnbits_ordered (r : LNbitsRail W) (o : Order) (rc : Receipt) (w w' : W) : Prop :=
  exists v now, ordered_by (ln_http r) "POST" (ln_base_url r +:+ "/api/v1/payments") lnbits_reads o w v /\
    read_clock v = (Ok (E := Error) now, w').
#[export] Instance lnbits_orders `{F64Laws : !F64TextLaws _} r : ChargeOrders (lnbits_rail r) as_number (lnbits_ordered r).
Proof.
  intros q rc w w' Hu Hc. charge_inv Hc. pose proof (amount_is_number _ _ _ _ Hu Hx1 Hx2) as Hj.
  orders (f64_text x2) (to_ascii_lowercase (normal_currency (req_currency q))).
  - eexists _, _. split; [|eassumption]. by_the_call. split; [|now repeat split]. cbn. now rewrite Hj.
  - apply number_asks; [apply Hu|]. intros Hb. apply number_lower. eapply amount_read_exactly; try eassumption.
    split; [apply Hu | exact Hb].
Qed.
Lemma lnbits_asks_number `{!F64TextLaws _} r q rc w w' :
  0 <= req_amount_minor q < 2 ^ 50 -> charge (lnbits_rail r) q w = (Ok rc, w') ->
  exists v, called (ln_http r) "POST" (ln_base_url r +:+ "/api/v1/payments")
    (asks_number "unit" (req_currency q) (req_amount_minor q)) w v.
Proof.
  intros Hn Hc. charge_inv Hc. eexists. by_the_call. eapply double_asks_number; eauto.
Qed.
#[export] Instance lnbits_opens r : ChargeOpens (lnbits_rail r).
Proof. charge_opens. Qed.
#[export] Instance lnbits_quotes r : QuotesCharge (lnbits_rail r) (quote_ttl_secs (ln_config r)).
Proof. quotes_before. Qed.
#[export] Instance lnbits_rail_laws c builder r :
  lnbits_new c builder = Ok r -> RailLaws (fun _ : W => True) (lnbits_rail r).
Proof. intros Hnew. solve_rail_laws Hnew. Qed.
End LNbitsLemmas.
