(* ===== verification/Xendit.v ===== *)
(** * The Xendit adapter ([patala-fiat/src/xendit/*.rs])

    Hosted invoices found again by the caller's reference. Amounts are JSON
    numbers or strings; a number passes through a double printed with six
    decimals. A notification is authenticated by a shared token in a header. *)

From S2P Require Import Prelude RustStr Core External HttpShared FiatDest Json Currency Adapter Orders Float.

(** ** models.rs *)

Definition xendit_malformed : str -> Error := api_malformed "xendit".
Record XenditInvoice := {
  xi_id : str;
  external_id : str;
  xi_status : str;
  xi_amount : Json;
  paid_amount : Json;
  xi_currency : str;
  invoice_url : str;
  paid_at : str;
}.
Record ErrorEnvelope := { message : str; error_code : str }.
(** [as_f64]: the double [serde_json] reads a number as ([n.as_f64()]). *)
Class XenditJson := {
  #[export] error_json :: FromJson ErrorEnvelope;
  #[export] invoice_json :: FromJson XenditInvoice;
  #[export] invoices_json :: FromJson (list XenditInvoice);
  as_f64 : str -> option F64;
}.
(** [s.trim_end_matches(c)] *)
Fixpoint trim_end_char (c : ascii) (s : str) : str :=
  match s with
  | EmptyString => EmptyString
  | String a s =>
      let t := trim_end_char c s in
      if is_empty t && Ascii.eqb a c then EmptyString else String a t
  end.
Definition xendit_trim_trailing_zeros (f : F64) : str := trim_end_char "." (trim_end_char "0" (fixed 6 f)).
Definition xendit_number_to_string `{XenditJson} (v : Json) : option str :=
  match v with
  | JString s => Some s
  | JNumber n => xendit_trim_trailing_zeros <$> as_f64 n
  | _ => None
  end.
Definition classify_error `{XenditJson} (code : Z) (body : list byte) : Error :=
  let env := default {| message := EmptyString; error_code := EmptyString |} (result_ok (from_json body)) in
  api_status "xendit" code (if negb (is_empty (message env)) then message env else or_no_message (error_code env)).

Record InvoiceOutcome := {
  io_reference : str;
  io_event_id : str;
  io_settled : bool;
  io_amount_minor : Z;
  io_currency : str;
}.
Definition xendit_settled (status : str) : bool := String.eqb status "PAID" || String.eqb status "SETTLED".
Definition amount_field (inv : XenditInvoice) : Json :=
  if String.eqb (xi_status inv) "PAID" && negb (is_null (paid_amount inv)) then paid_amount inv else xi_amount inv.
(** [.filter(|s| !s.is_empty())] *)
Definition non_empty (o : option str) : option str :=
  s ← o; if is_empty s then None else Some s.
Definition invoice_amount `{XenditJson} (inv : XenditInvoice) : Result Error Z :=
  amt_str ← ok_or (xendit_malformed "unparseable amount field") (non_empty (xendit_number_to_string (amount_field inv)));
  map_err (fun e => xendit_malformed ("amount " +:+ debug_str amt_str +:+ ": " +:+ currency_error_display e))
    (major_string_to_minor amt_str (xi_currency inv)).
Definition invoice_to_outcome `{XenditJson} (inv : XenditInvoice) : Result Error InvoiceOutcome :=
  return_if is_empty (external_id inv) with_ Err (xendit_malformed "missing external_id");
  amt ← invoice_amount inv;
  if xendit_settled (xi_status inv) then
    return_if amt =? 0 with_ Err (xendit_malformed "paid status with non-positive amount");
    return_if is_empty (xi_id inv) with_ Err (xendit_malformed "paid invoice with no id (cannot dedupe webhooks)");
    Ok {| io_reference := external_id inv; io_event_id := xi_id inv; io_settled := true;
          io_amount_minor := amt; io_currency := xi_currency inv |}
  else
    Ok {| io_reference := external_id inv; io_event_id := xi_id inv; io_settled := false;
          io_amount_minor := 0; io_currency := xi_currency inv |}.

(** As a path segment, and free of the two characters that separate query pairs. *)
Definition query_breaker (a : ascii) : bool := path_breaker a || existsb (Ascii.eqb a) ["&"; "="]%char.
Definition is_safe_query_value (s : str) : bool :=
  negb (is_empty s || str_any query_breaker s || negb (str_all is_ascii s)).
Definition safe_query_value (s : str) : Result Error str :=
  return_if negb (is_safe_query_value s) with_
    Err (InvalidRequest ("value " +:+ debug_str s +:+ " is not a safe query value for a xendit external_id"));
  Ok s.

(** ** proof.rs *)

Record ChargeProof := { proof_invoice_url : str; invoice_id : str }.

(** ** webhook.rs *)

Inductive XenditWebhookError :=
  | MissingToken | InvalidToken
  | MalformedResponse (e : str)
  | UnhandledEvent (ty : str)
  | ResponseTooLarge.
Definition xendit_webhook_error_display (e : XenditWebhookError) : str :=
  match e with
  | MissingToken => "payments: xendit: missing x-callback-token header"
  | InvalidToken => "payments: xendit: invalid x-callback-token"
  | MalformedResponse e => "payments: xendit: malformed API response: " +:+ e
  | UnhandledEvent ty => "payments: unhandled webhook event type: " +:+ ty
  | ResponseTooLarge => "payments: xendit: response body exceeds size limit"
  end.
Record XenditWebhookEvent := {
  xe_event_id : str;
  xe_reference : str;
  xe_amount_minor : Z;
  xe_currency : str;
}.
Definition verify_and_parse `{XenditJson} (token : str) (body : list byte) (token_header : str)
    : Result XenditWebhookError XenditWebhookEvent :=
  let given := trim token_header in
  return_if is_empty given with_ Err MissingToken;
  _ ← map_err (fun _ => ResponseTooLarge) (bounded_len_check body DEFAULT_MAX_BODY_BYTES);
  return_if negb (constant_time_eq (as_bytes given) (as_bytes token)) with_ Err InvalidToken;
  inv ← map_err MalformedResponse (from_json (T := XenditInvoice) body);
  return_if negb (xendit_settled (xi_status inv)) with_ Err (UnhandledEvent (xi_status inv));
  outcome ← map_err (fun e => MalformedResponse (error_display e)) (invoice_to_outcome inv);
  Ok {| xe_event_id := io_event_id outcome; xe_reference := io_reference outcome;
        xe_amount_minor := io_amount_minor outcome; xe_currency := io_currency outcome |}.

(** ** config.rs *)

Definition DEFAULT_CURRENCIES : list str := ["IDR"; "PHP"; "VND"; "THB"; "MYR"]%string.
Record XenditConfig := {
  secret_key : str;
  webhook_token : str;
  xd_requires_kyc : bool;
  xd_currencies : list str;
  xd_settlement_days : Z;
  xd_timeout_secs : Z;
}.
Definition xendit_config_from_env (env : Environment) : Result Error XenditConfig :=
  key ← non_empty_env env "XENDIT_SECRET_KEY";
  token ← non_empty_env env "XENDIT_WEBHOOK_TOKEN";
  Ok {| secret_key := key; webhook_token := token;
        xd_requires_kyc := env_flag env "XENDIT_REQUIRES_KYC" true;
        xd_currencies := env_currencies env "XENDIT_CURRENCIES" DEFAULT_CURRENCIES;
        xd_settlement_days := env_u8 env "XENDIT_SETTLEMENT_DAYS" 2;
        xd_timeout_secs := env_u64 env "XENDIT_TIMEOUT_SECS" 15 |}.

(** ** rail.rs *)

Definition XENDIT_API_BASE : str := "https://api.xendit.co".
Record XenditRail (W : Type) := {
  xendit_id : str;
  xd_config : XenditConfig;
  xd_http : HttpClient W;
  xd_capabilities : RailCapabilities;
  xd_base_url : str;
}.
Arguments xendit_id {W} _.
Arguments xd_config {W} _.
Arguments xd_http {W} _.
Arguments xd_capabilities {W} _.
Arguments xd_base_url {W} _.

Definition xendit_new {W} (c : XenditConfig) (builder : HttpBuilder W) : Result Error (XenditRail W) :=
  _ ← required "secret_key" (secret_key c);
  _ ← required "webhook_token" (webhook_token c);
  return_if bool_decide (xd_currencies c = []) with_ Err (InvalidRequest "currencies must not be empty");
  http ← built_client "xendit" builder (xd_timeout_secs c);
  Ok {| xendit_id := "xendit"; xd_config := c; xd_http := http;
        xd_capabilities := {|
          class := CustodialReversible; reversible := false; requires_kyc := xd_requires_kyc c;
          holds_funds := true; currencies := xd_currencies c; settlement := Days (xd_settlement_days c);
          atomic_multi_party := false |};
        xd_base_url := XENDIT_API_BASE |}.

Section XenditRail.
Context `{XenditJson} `{!ProofBytes ChargeProof} {W : Type} `{Clock W}.

Definition check_currency (r : XenditRail W) : str -> Result Error unit :=
  check_listed (xendit_id r) (currencies (xd_capabilities r)).
Definition json_call (r : XenditRail W) (method path : str) (body : option Json) : HttpCall := {|
  hc_method := method; hc_url := xd_base_url r +:+ path;
  hc_basic_auth := Some (secret_key (xd_config r), Some EmptyString);
  hc_headers := [("Content-Type", "application/json"); ("Accept", "application/json")]%string;
  hc_body := json_body body |}.
Definition do_json (r : XenditRail W) (method path : str) (body : option Json)
    : Eff W Error (list byte * Z) :=
  transport "xendit" path (xd_http r) (json_call r method path body).
Definition major_amount (amt : Z) (cur : str) : Result Error str :=
  map_err (fun e => InvalidRequest ("xendit: " +:+ currency_error_display e)) (minor_to_major_string amt cur).

Definition xendit_quote (r : XenditRail W) (req : PayRequest) : Eff W Error Quote :=
  _ ← eff_of (validate req);
  _ ← eff_of (check_currency r (req_currency req));
  _ ← eff_of (major_amount (req_amount_minor req) (req_currency req));
  quoted (xendit_id r) (settlement (xd_capabilities r)) 300 (req_currency req) req.

Definition invoice_request (req : PayRequest) (amt cur : str) : Json := JObject [
  ("external_id", JString (req_reference req)); ("amount", JString amt); ("currency", JString cur);
  ("success_redirect_url", JString (req_destination req))]%string.
Definition xendit_charge (r : XenditRail W) (req : PayRequest) : Eff W Error Receipt :=
  _ ← eff_of (validate req);
  _ ← eff_of (check_currency r (req_currency req));
  let cur := normal_currency (req_currency req) in
  amt ← eff_of (major_amount (req_amount_minor req) cur);
  body ← expect_2xx classify_error (do_json r "POST" "/v2/invoices" (Some (invoice_request req amt cur)));
  inv ← parse_as (T := XenditInvoice) "xendit" body;
  return_if is_empty (invoice_url inv) with_ eff_err (xendit_malformed "empty invoice_url");
  mret (open_receipt (xendit_id r) cur (req_reference req)
    {| proof_invoice_url := invoice_url inv; invoice_id := xi_id inv |}).

Definition invoices_cover (l : list XenditInvoice) (ref : str) (rc : Receipt) : bool :=
  let_some inv := head l or_else false;
  return_if negb (String.eqb (external_id inv) ref) with_ false;
  let_ok outcome := invoice_to_outcome inv or_else false;
  covers (io_settled outcome) (io_currency outcome) (io_amount_minor outcome) rc.
Definition xendit_verify (r : XenditRail W) (rc : Receipt) : Eff W Error bool :=
  return_if negb (String.eqb (rail_id rc) (xendit_id r)) with_ mret false;
  let_ok ref := safe_query_value (reference rc) or_else mret false;
  body ← expect_2xx classify_error (do_json r "GET" ("/v2/invoices?external_id=" +:+ ref) None);
  invoices ← parse_as (T := list XenditInvoice) "xendit" body;
  mret (invoices_cover invoices ref rc).

Definition xendit_webhook (r : XenditRail W) (d : WebhookDelivery) : Result Error WebhookEvent :=
  event ← map_err (fun e => InvalidRequest (xendit_webhook_error_display e))
    (verify_and_parse (webhook_token (xd_config r)) (raw_body d) (header_or_empty "x-callback-token" d));
  Ok (settlement_event (xendit_id r) (xe_event_id event) (xe_reference event) true
       (xe_amount_minor event) (xe_currency event)).
Definition xendit_rail (r : XenditRail W) : PaymentRail W := {|
  id := xendit_id r;
  capabilities := xd_capabilities r;
  quote := xendit_quote r;
  charge := xendit_charge r;
  verify := xendit_verify r;
  validate_destination := redirect_url (xendit_id r);
  refund := default_refund;
  verify_webhook d := eff_of (xendit_webhook r d);
|}.
End XenditRail.
#[export] Hint Unfold xendit_rail xendit_new xendit_verify xendit_charge xendit_quote do_json : adapter.

(** ** Lemmas *)

(** *** Trimming a fixed-point text *)

Lemma trim_end_char_app c a b :
  trim_end_char c (a +:+ b) = if is_empty (trim_end_char c b) then trim_end_char c a else a +:+ trim_end_char c b.
Proof.
  induction a as [|x a IH]; cbn [String.append trim_end_char].
  - destruct (is_empty (trim_end_char c b)) eqn:E; [now apply is_empty_spec in E | done].
  - rewrite IH. destruct (is_empty (trim_end_char c b)) eqn:E; [done|].
    destruct (is_empty (a +:+ trim_end_char c b)) eqn:E2; [|done].
    apply is_empty_spec, append_is_nil in E2 as [-> E2]. apply is_empty_false in E. done.
Qed.
Lemma trim_end_char_none c s : no_char c s = true -> trim_end_char c s = s.
Proof.
  unfold no_char. induction s as [|a s IH]; cbn [str_all trim_end_char]; [done|].
  intros [Ha%negb_true_iff Hs]%andb_true_iff. rewrite IH by done.
  rewrite Ascii.eqb_sym, Ha, andb_false_r. done.
Qed.
(** Trimming zeros takes off exactly the zeros at the end. *)
Lemma trim_zeros g (t := trim_end_char "0" g) : str_all is_ascii_digit g = true ->
  exists j, g = t +:+ str_repeat "0" j /\ (t = EmptyString \/ dec_value t mod 10 <> 0).
Proof.
  subst t. induction g as [|a g IH]; cbn [str_all trim_end_char]; [exists 0%nat; auto|].
  intros [Ha Hg]%andb_true_iff. destruct (IH Hg) as (j & Hj & Ht).
  set (t := trim_end_char "0" g) in *. destruct (is_empty t) eqn:E; cbn [andb].
  - apply is_empty_spec in E. rewrite E in *. destruct (Ascii.eqb_spec a "0") as [->|Hn].
    + exists (S j). split; [cbn; now f_equal | now left].
    + exists j. split; [cbn; now f_equal | right]. rewrite dec_value_cons. pose proof (digit_val_range a Ha).
      change (dec_value EmptyString) with 0. change (10 ^ len EmptyString) with 1.
      rewrite Z.mul_1_r, Z.add_0_r, Z.mod_small by lia. intros Hz. apply Hn, code_inj. unfold digit_val in Hz.
      change (code "0") with 48. lia.
  - exists j. split; [cbn; now f_equal | right]. destruct Ht as [Ht|Ht]; [now rewrite Ht in E|].
    rewrite dec_value_cons. assert (0 < len t) as Hl by (unfold len; destruct t; [done | cbn; lia]).
    rewrite <- (Z.succ_pred (len t)), Z.pow_succ_r by lia.
    replace (digit_val a * (10 * 10 ^ Z.pred (len t)) + dec_value t)
      with (dec_value t + digit_val a * 10 ^ Z.pred (len t) * 10) by lia.
    now rewrite Z.mod_add.
Qed.
Lemma trimmed_text w g : str_all is_ascii_digit w = true -> str_all is_ascii_digit g = true ->
  trim_end_char "." (trim_end_char "0" (w +:+ "." +:+ g)) =
    decimal_text w (if is_empty (trim_end_char "0" g) then None else Some (trim_end_char "0" g)).
Proof.
  intros Hw Hg. destruct (trim_zeros g Hg) as (j & Hj & _). set (t := trim_end_char "0" g) in *.
  assert (str_all is_ascii_digit t = true) as Ht.
  { rewrite Hj, str_all_app in Hg. now apply andb_true_iff in Hg as [? _]. }
  assert (trim_end_char "0" ("." +:+ g) = "." +:+ t) as Hz
    by (cbn [String.append trim_end_char]; fold t; now rewrite andb_false_r).
  rewrite trim_end_char_app, Hz. cbn [is_empty String.append]. rewrite trim_end_char_app.
  pose proof (trim_end_char_none "." t (digits_no_dot t Ht)) as Htd.
  cbn [trim_end_char]. rewrite Htd. destruct (is_empty t) eqn:E; cbn [andb Ascii.eqb is_empty].
  - apply is_empty_spec in E. rewrite E. cbn. now apply trim_end_char_none, digits_no_dot.
  - done.
Qed.
(** Six decimals of which the currency has fewer, without their zeros. *)
Lemma trimmed_amount n c e N w g : exponent c = Ok e -> is_u64 n -> N = n * 10 ^ (6 - e) ->
  w <> EmptyString -> str_all is_ascii_digit w = true -> str_all is_ascii_digit g = true ->
  String.length g = 6%nat -> N = dec_value w * 10 ^ 6 + dec_value g ->
  major_string_to_minor (decimal_text w (if is_empty (trim_end_char "0" g) then None else Some (trim_end_char "0" g))) c
    = Ok n.
Proof.
  intros He Hn HN Hne Hw Hg Hl Hv. pose proof (exponent_cases c e He) as Hec.
  destruct (trim_zeros g Hg) as (j & Hj & Ht). set (t := trim_end_char "0" g) in *.
  rewrite Hj in Hl, Hg, Hv. rewrite length_append, length_str_repeat in Hl.
  rewrite str_all_app in Hg. apply andb_true_iff in Hg as [Htd _].
  rewrite dec_value_app, dec_value_zeros in Hv. unfold len in Hv. rewrite length_str_repeat in Hv.
  pose proof (dec_value_nonneg w Hw) as Hw0. pose proof (dec_value_nonneg t Htd) as Ht0.
  assert (len t <= e) as Hte.
  { unfold len. destruct (Z.le_gt_cases (6 - e) (Z.of_nat j)) as [|Hlt]; [lia|]. exfalso.
    destruct Ht as [E|Hd]; [rewrite E in Hl; cbn in Hl; lia|]. apply Hd.
    replace (6 - e) with (Z.of_nat j + (6 - e - Z.of_nat j)) in HN by lia.
    rewrite Z.pow_add_r in HN by lia.
    replace (10 ^ 6) with (10 ^ Z.of_nat j * 10 ^ (6 - Z.of_nat j)) in Hv
      by (rewrite <- Z.pow_add_r by lia; f_equal; lia).
    pose proof (Z.pow_pos_nonneg 10 (Z.of_nat j) ltac:(lia) ltac:(lia)) as Hu. set (u := 10 ^ Z.of_nat j) in *.
    assert (dec_value t = (n * 10 ^ (5 - e - Z.of_nat j) - dec_value w * 10 ^ (5 - Z.of_nat j)) * 10) as ->;
      [|apply Z.mod_mul; lia].
    replace (6 - e - Z.of_nat j) with (Z.succ (5 - e - Z.of_nat j)) in HN by lia.
    replace (6 - Z.of_nat j) with (Z.succ (5 - Z.of_nat j)) in Hv by lia.
    rewrite Z.pow_succ_r in HN, Hv by lia. nia. }
  apply major_string_to_minor_spec. set (f := if is_empty t then None else Some t).
  assert (trim (decimal_text w f) = decimal_text w f) as Htr.
  { apply trim_graphic, decimal_text_graphic; [done|]. subst f. now destruct (is_empty t). }
  exists e, w, f. rewrite Htr. split_and!; try done; try apply Hn.
  - subst f. destruct (is_empty t); cbn [decimal_text]; [done | rewrite append_is_nil; tauto].
  - subst f. split; [done|]. now destruct (is_empty t).
  - unfold decimal_minor. assert (match f with None => 0 | Some f => dec_value f * 10 ^ (e - len f) end =
      dec_value t * 10 ^ (e - len t)) as ->.
    { subst f. destruct (is_empty t) eqn:E; [|done]. apply is_empty_spec in E. now rewrite E. }
    assert (10 ^ 6 = 10 ^ e * 10 ^ (6 - e)) as H6 by (rewrite <- Z.pow_add_r by lia; f_equal; lia).
    assert (10 ^ Z.of_nat j = 10 ^ (e - len t) * 10 ^ (6 - e)) as Hj'.
    { rewrite <- Z.pow_add_r by lia. f_equal. unfold len. lia. }
    pose proof (Z.pow_pos_nonneg 10 (6 - e) ltac:(lia) ltac:(lia)). nia.
Qed.
(** A number that reads as the double nearest to an amount is taken for the
    amount, below some two thousand million of the currency's units. *)
Lemma fixed_amount_read n c e : 0 <= n -> exponent c = Ok e -> n * 10 ^ 6 < 10 ^ e * 2 ^ 51 ->
  major_string_to_minor (xendit_trim_trailing_zeros (f64_nearest false n (10 ^ e))) c = Ok n.
Proof.
  intros Hn He Hb. pose proof (exponent_small c e He) as Hk. pose proof (exponent_cases c e He) as Hec.
  destruct (nearest_is_finite n (10 ^ e)) as (m & x & Hx); [|lia|].
  { split; [done|]. apply Z.le_lt_trans with (n * 10 ^ 6); [lia|]. apply Z.lt_trans with (1 := Hb).
    apply Z.lt_trans with (2 ^ 50 * 2 ^ 51); [nia | reflexivity]. }
  rewrite Hx. unfold xendit_trim_trailing_zeros, fixed. set (N := n * 10 ^ (6 - e)).
  assert (N * 10 ^ e = n * 10 ^ 6) as HN
    by (subst N; rewrite <- Z.mul_assoc, <- Z.pow_add_r by lia; do 2 f_equal; lia).
  rewrite (fixed_nearest 6 n (10 ^ e) N) by (first [exact Hx | done | lia]).
  change (10 ^ Z.of_nat 6) with (10 ^ 6).
  pose proof (Z.div_mod N (10 ^ 6) ltac:(lia)) as Hdm. pose proof (Z.mod_pos_bound N (10 ^ 6) ltac:(lia)) as Hm.
  assert (0 <= N) as HN0 by nia.
  destruct (to_dec_spec (N / 10 ^ 6) ltac:(apply Z.div_pos; lia)) as (Hne & Hw & Hv & _).
  destruct (to_dec_spec (N mod 10 ^ 6) ltac:(lia)) as (_ & Hg & Hvg & Hlg).
  specialize (Hlg 6%nat ltac:(lia) ltac:(lia)). set (w := to_dec (N / 10 ^ 6)) in *.
  pose proof (length_pad_left 6 _ Hlg) as Hl. apply (str_all_digit_pad_left 6) in Hg.
  rewrite <- (dec_value_pad_left 6) in Hvg. set (g := pad_left 6 (to_dec (N mod 10 ^ 6))) in *.
  pose proof (trimmed_text w g Hw Hg) as Ht. cbn [String.append] in Ht |- *. rewrite Ht.
  apply (trimmed_amount n c e N w g); try done; [unfold is_u64, u64_max; nia | lia].
Qed.
(** Beyond, a double may show a remainder in the sixth decimal, which is refused. *)
Lemma large_amount_refused : exponent "IDR" = Ok 2 /\
  result_ok (major_string_to_minor (xendit_trim_trailing_zeros (f64_nearest false 858993459203 (10 ^ 2))) "IDR") = None.
Proof. vm_compute. split; reflexivity. Qed.
Lemma number_amount_read `{XenditJson} inv x n e :
  exponent (xi_currency inv) = Ok e -> 0 <= n -> n * 10 ^ 6 < 10 ^ e * 2 ^ 51 ->
  amount_field inv = JNumber x -> as_f64 x = Some (f64_nearest false n (10 ^ e)) -> invoice_amount inv = Ok n.
Proof.
  intros He Hn Hb Hx Hf. unfold invoice_amount. rewrite Hx. cbn [xendit_number_to_string]. rewrite Hf.
  pose proof (fixed_amount_read n _ e Hn He Hb) as Hr. cbn [fmap option_fmap option_map non_empty mbind option_bind].
  set (t := xendit_trim_trailing_zeros _) in *. destruct (is_empty t) eqn:E.
  - apply is_empty_spec in E. rewrite E in Hr. discriminate Hr.
  - cbn. now rewrite Hr.
Qed.


(** A settled invoice of this reference, with an id, and money in it. *)
Definition xendit_paid `{XenditJson} (inv : XenditInvoice) (ref : str) (ev : Evidence) : Prop :=
  external_id inv = ref /\ ref <> EmptyString /\ xi_id inv <> EmptyString /\ xendit_settled (xi_status inv) = true /\
  exists amt, invoice_amount inv = Ok amt /\ amt <> 0 /\
    ev = {| ev_reference := Some ref; ev_currency := xi_currency inv; ev_amount := amt |}.
Lemma invoices_cover_spec `{XenditJson} l rc :
  invoices_cover l (reference rc) rc = true <->
  exists inv ev, head l = Some inv /\ xendit_paid inv (reference rc) ev /\ supports ev rc.
Proof.
  unfold invoices_cover, invoice_to_outcome, xendit_paid, supports.
  destruct (head l) as [inv|]; [|split; [done | naive_solver]]. split.
  - destruct (String.eqb_spec (external_id inv) (reference rc)) as [E1|]; [|done]. cbn.
    destruct (is_empty (external_id inv)) eqn:E2; [done|].
    destruct (invoice_amount inv) as [amt|] eqn:Ea; [|done]. cbn.
    destruct (xendit_settled (xi_status inv)) eqn:Es; [|now intros (? & _)%covers_spec].
    destruct (Z.eqb_spec amt 0); [done|]. destruct (is_empty (xi_id inv)) eqn:E3; [done|].
    intros (_ & ? & ?)%covers_spec. apply is_empty_false in E2, E3. rewrite <- E1.
    eexists inv, {| ev_reference := Some (external_id inv); ev_currency := xi_currency inv; ev_amount := amt |}.
    split; [done|]. split; [|done]. split_and!; try done. exists amt. done.
  - intros (inv' & ev & [= <-] & (<- & E1%is_empty_false & E2%is_empty_false & E3 & amt & Ha & E4%Z.eqb_neq & ->)
      & _ & Hc & Hle).
    rewrite String.eqb_refl, E1, Ha. cbn. rewrite E3, E4, E2. now apply covers_spec.
Qed.
Lemma safe_query_value_Ok s x : safe_query_value s = Ok x <-> x = s /\ is_safe_query_value s = true.
Proof. unfold safe_query_value. destruct (is_safe_query_value s); cbn; naive_solver. Qed.

Section XenditLemmas.
Context `{XenditJson} `{!ProofBytes ChargeProof} {W : Type} `{Clock W}.

(** The first invoice of the receipt's reference is settled. *)
Definition xendit_evidence (r : XenditRail W) (p : list byte) (ref : str) (w : W) (ev : Evidence) (w' : W) : Prop :=
  is_safe_query_value ref = true /\ exists body l inv,
    answered (xd_http r) (json_call r "GET" ("/v2/invoices?external_id=" +:+ ref) None) w body w' /\
    from_json (T := list XenditInvoice) body = Ok l /\ head l = Some inv /\ xendit_paid inv ref ev.
#[export] Instance xendit_verifies r : VerifiesBy (xendit_rail r) (xendit_evidence r).
Proof.
  intros rc w w'. cbn [verify xendit_rail id]. unfold xendit_verify, xendit_evidence. split.
  - intros Hv. run_inv Hv. apply names_rail in Hc. apply safe_query_value_Ok in Hp as [-> Hs].
    apply expect_2xx_Ok in Hx. apply invoices_cover_spec in Hv as (inv & ev & ? & ? & ?). eauto 12.
  - intros (Hi%names_rail & ev & (Hs & body & l & inv & Hg & Hb & Hh & Hset) & Hsup).
    pose proof (proj2 (safe_query_value_Ok _ _) (conj eq_refl Hs)).
    pose proof (proj2 (expect_2xx_Ok "xendit" ("/v2/invoices?external_id=" +:+ reference rc) _ classify_error _ _ _ _) Hg).
    assert (invoices_cover l (reference rc) rc = true) by (apply invoices_cover_spec; eauto).
    autounfold with adapter. run.
Qed.

Definition xendit_authentic (r : XenditRail W) (d : WebhookDelivery) (w : W) : Prop :=
  trim (header_or_empty "x-callback-token" d) = webhook_token (xd_config r).
#[export] Instance xendit_webhook_answers r :
  WebhookAnswers (xendit_rail r) (xendit_authentic r).
Proof.
  intros d w ev w' Hw. cbn [verify_webhook xendit_rail] in Hw.
  unfold xendit_webhook, verify_and_parse in Hw. run_inv Hw. simplify_eq.
  apply negb_false_iff, constant_time_eq_spec, as_bytes_inj in Hc0.
  split; [done|]. split; [|done]. cbn. unfold invoice_to_outcome in *.
  apply negb_false_iff in Hc1. rewrite Hc1 in *. run_inv Hx2. injection Hx2 as <-. now apply is_empty_false.
Qed.
Definition xendit_places : Places := {|
  amount_at := ["amount"]; currency_at := At ["currency"];
  reference_at := ["external_id"] |}%string.
Definition xendit_ordered (r : XenditRail W) (o : Order) (rc : Receipt) (w w' : W) : Prop :=
  ordered_by (xd_http r) "POST" (xd_base_url r +:+ "/v2/invoices") (reads xendit_places) o w w'.
#[export] Instance xendit_orders r : ChargeOrders (xendit_rail r) (exactly in_major_units) (xendit_ordered r).
Proof.
  intros q rc w w' Hu Hc. charge_inv Hc. unfold major_amount in Hx1. run_inv Hx1.
  major_orders (normal_currency (req_currency q)). sent.
Qed.
#[export] Instance xendit_opens r : ChargeOpens (xendit_rail r).
Proof. charge_opens. Qed.
#[export] Instance xendit_quotes r : QuotesCharge (xendit_rail r) 300.
Proof. quotes_before. Qed.
#[export] Instance xendit_rail_laws c builder r :
  xendit_new c builder = Ok r -> RailLaws (fun _ : W => True) (xendit_rail r).
Proof. intros Hnew. solve_rail_laws Hnew. Qed.
End XenditLemmas.
