(* ===== verification/FloatAmounts.v ===== *)
(** * Money that passes through a double

    The LNbits and OpenNode adapters send the amount of a charge as an [f64];
    Xendit's reads one that the processor sends. Up to what amounts the number
    means the amount, and what becomes of one beyond. *)

From S2P Require Import Prelude RustStr Core External HttpShared Json Currency Adapter Orders Float.
From S2P Require LNbits OpenNode Xendit.

Section FloatAmounts.
Context `{!LNbits.LNbitsJson} `{!ProofBytes LNbits.ChargeProof}.
Context `{!OpenNode.OpenNodeJson} `{!ProofBytes OpenNode.ChargeProof} `{Hex} (sha256_mac : Mac).
Context `{!Xendit.XenditJson}.
Context {W : Type} `{Clock W} `{F64TextLaws}.

(** C28: Money that passes through a double. Below 2^50 minor units, a successful charge of
    LNbits or OpenNode made one call, to the endpoint that creates payments, whose body holds
    a number that means exactly the requested amount of the requested currency when it is read
    to the nearest minor unit. An amount that Xendit reports as a number is read exactly while
    it is less than 2^51 millionths of the currency's unit. Beyond, OpenNode's charges of 2^53
    yen and of one more are one and the same. *)
Theorem float_amounts_exact (q : PayRequest) (rc : Receipt) (w w' : W)
    (Hn : 0 <= req_amount_minor q < 2 ^ 50) :
  (forall r, charge (LNbits.lnbits_rail r) q w = (Ok rc, w') ->
    exists v, called (LNbits.ln_http r) "POST" (LNbits.ln_base_url r +:+ "/api/v1/payments")
      (asks_number "unit" (req_currency q) (req_amount_minor q)) w v) /\
  (forall r, charge (OpenNode.opennode_rail sha256_mac r) q w = (Ok rc, w') ->
    called (OpenNode.on_http r) "POST" (OpenNode.on_base_url r +:+ "/v1/charges")
      (asks_number "currency" (req_currency q) (req_amount_minor q)) w w') /\
  (forall inv x n e, exponent (Xendit.xi_currency inv) = Ok e -> 0 <= n -> n * 10 ^ 6 < 10 ^ e * 2 ^ 51 ->
    Xendit.amount_field inv = JNumber x -> Xendit.as_f64 x = Some (f64_nearest false n (10 ^ e)) ->
    Xendit.invoice_amount inv = Ok n) /\
  (forall r dest ref v,
    let yen n := {| req_amount_minor := n; req_currency := "JPY"; req_destination := dest; req_reference := ref |} in
    charge (OpenNode.opennode_rail sha256_mac r) (yen (2 ^ 53)) v =
    charge (OpenNode.opennode_rail sha256_mac r) (yen (2 ^ 53 + 1)) v).
Proof.
  split_and!.
  - intros r. now apply LNbits.lnbits_asks_number.
  - intros r. now apply OpenNode.opennode_asks_number.
  - intros inv x n e He Hn0 Hb Hx Hf. now apply (Xendit.number_amount_read inv x n e).
  - intros r dest ref v yen. now apply OpenNode.opennode_merges.
Qed.
End FloatAmounts.

(** ** A charge of ten rand fifty *)
Module FloatDemo.
#[local] Instance unread T : FromJson T := fun _ => Err "not read"%string.
#[local] Instance no_proof P : ProofBytes P := {| to_bytes _ := []; from_bytes _ := None |}.
#[local] Existing Instances ref_hex expansion.
#[local] Instance ln_json : LNbits.LNbitsJson := LNbits.Build_LNbitsJson _ _ _ _.
#[local] Instance xd_json : Xendit.XenditJson := Xendit.Build_XenditJson _ _ _ f64_from_str.
#[local] Instance created : FromJson OpenNode.Envelope := fun _ => Ok {| OpenNode.data :=
  {| OpenNode.oc_id := "c1"; OpenNode.oc_status := "unpaid";
     OpenNode.oc_amount := JNumber "10.5"; OpenNode.oc_currency := "ZAR";
     OpenNode.oc_hosted_checkout_url := "https://checkout.example/c1" |} |}.
#[local] Instance on_json : OpenNode.OpenNodeJson := OpenNode.Build_OpenNodeJson _ _ (fun _ => EmptyString).
Definition opennode_config : OpenNode.OpenNodeConfig := {|
  OpenNode.api_key := "key"; OpenNode.base_url := OpenNode.DEFAULT_BASE_URL; OpenNode.on_requires_kyc := false;
  OpenNode.on_currencies := []; OpenNode.on_timeout_secs := 20 |}.
Definition request : PayRequest := {| req_amount_minor := 1050; req_currency := "ZAR";
  req_destination := "https://shop.example/done"; req_reference := "order-7" |}.
Definition charged (r : OpenNode.OpenNodeRail Z) : Eff Z Error Receipt :=
  charge (OpenNode.opennode_rail ref_mac r) request.
End FloatDemo.
Import FloatDemo.
#[local] Existing Instances ref_hex expansion expansion_laws unread no_proof ln_json xd_json created on_json.

Lemma float_amounts_exact_witness :
  exists r rc, OpenNode.opennode_new opennode_config (fun _ => Ok (says (W := Z) "{}")) = Ok r /\ charged r 0 = (Ok rc, 0) /\
    called (OpenNode.on_http r) "POST" "https://api.opennode.com/v1/charges" (asks_number "currency" "ZAR" 1050) 0 0.
Proof.
  destruct (OpenNode.opennode_new opennode_config (fun _ => Ok (says (W := Z) "{}"))) as [r|] eqn:Hr; [|discriminate Hr].
  injection Hr as <-. eexists _, _. split; [reflexivity|].
  split; [vm_compute; reflexivity|].
  refine (proj1 (proj2 (float_amounts_exact ref_mac request _ 0 0 _)) _ _).
  - split; [discriminate | reflexivity].
  - vm_compute. reflexivity.
Defined.
