(* ===== verification/Flutterwave.v ===== *)
(** * The Flutterwave adapter ([patala-fiat/src/flutterwave/*.rs])

    Hosted payments found again by the caller's own reference, sent as a query
    parameter. Amounts are major units, number or string on the wire. A
    notification is authenticated by a shared hash in a header. *)

From S2P Require Import Prelude RustStr Core External HttpShared FiatDest Json Currency Adapter Orders.

(** ** models.rs *)

Definition flutterwave_malformed : str -> Error := api_malformed "flutterwave".
(** [amount]: serde's [amount_as_string] has read a string or a number as its text. *)
Record FlutterwaveTransactionPayload := {
  ft_id : Z;
  tx_ref : str;
  flw_ref : str;
  ft_amount : str;
  ft_currency : str;
  ft_status : str;
}.
Record TransactionOutcome := {
  to_reference : str;
  to_event_id : str;
  to_settled : bool;
  to_amount_minor : Z;
  to_currency : str;
}.
Definition transaction_amount (t : FlutterwaveTransactionPayload) : Result Error Z :=
  return_if is_empty (ft_amount t) with_ Ok 0;
  map_err (fun e => flutterwave_malformed ("amount " +:+ debug_str (ft_amount t) +:+ ": " +:+ currency_error_display e))
    (major_string_to_minor (ft_amount t) (normal_currency (ft_currency t))).
Definition evaluate_transaction (t : FlutterwaveTransactionPayload) : Result Error TransactionOutcome :=
  return_if is_empty (tx_ref t) with_ Err (flutterwave_malformed "missing tx_ref");
  let cur := normal_currency (ft_currency t) in
  amt ← transaction_amount t;
  if String.eqb (ft_status t) "successful" then
    return_if amt =? 0 with_ Err (flutterwave_malformed "successful status with non-positive amount");
    Ok {| to_reference := tx_ref t; to_event_id := int_to_dec (ft_id t); to_settled := true;
          to_amount_minor := amt; to_currency := cur |}
  else
    Ok {| to_reference := tx_ref t; to_event_id := int_to_dec (ft_id t); to_settled := false;
          to_amount_minor := 0; to_currency := cur |}.

(** ** proof.rs and the answers *)

Record ChargeProof := { proof_redirect_url : option str }.
Record ErrorEnvelope := { message : str }.
Record CreateResponse := { cr_status : str; cr_link : str }.
Record VerifyResponse := { vr_status : str; vr_data : FlutterwaveTransactionPayload }.
Record Envelope := { env_event : str; env_data : FlutterwaveTransactionPayload }.
(** [query_string] is what [reqwest] appends to a URL for [.query(..)]. *)
Class FlutterwaveJson := {
  #[export] error_json :: FromJson ErrorEnvelope;
  #[export] create_json :: FromJson CreateResponse;
  #[export] verify_json :: FromJson VerifyResponse;
  #[export] envelope_json :: FromJson Envelope;
  query_string : list (str * str) -> str;
}.
Definition classify_error `{FlutterwaveJson} (code : Z) (body : list byte) : Error :=
  let env := default {| message := EmptyString |} (result_ok (from_json body)) in
  api_status "flutterwave" code (or_no_message (message env)).

(** ** webhook.rs *)

Inductive FlutterwaveWebhookError :=
  | MissingSignature | InvalidSignature
  | MalformedResponse (e : str)
  | UnhandledEvent (ty : str).
Definition flutterwave_webhook_error_display (e : FlutterwaveWebhookError) : str :=
  match e with
  | MissingSignature => "payments: flutterwave: missing verif-hash header"
  | InvalidSignature => "payments: flutterwave: invalid verif-hash"
  | MalformedResponse e => "payments: flutterwave: malformed API response: " +:+ e
  | UnhandledEvent ty => "payments: unhandled webhook event type: " +:+ ty
  end.
Record FlutterwaveWebhookEvent := {
  fe_event_id : str;
  fe_reference : str;
  fe_settled : bool;
  fe_amount_minor : Z;
  fe_currency : str;
}.
Definition verify_and_parse `{FlutterwaveJson} (configured : str) (body : list byte) (given_hash : str)
    : Result FlutterwaveWebhookError FlutterwaveWebhookEvent :=
  let given := trim given_hash in
  return_if is_empty given with_ Err MissingSignature;
  return_if negb (constant_time_eq (as_bytes given) (as_bytes (trim configured))) with_ Err InvalidSignature;
  env ← map_err MalformedResponse (from_json (T := Envelope) body);
  return_if negb (String.eqb (env_event env) "charge.completed") with_ Err (UnhandledEvent (env_event env));
  return_if ft_id (env_data env) =? 0 with_
    Err (MalformedResponse "no data.id: this delivery carries no id to deduplicate on");
  outcome ← map_err (fun e => MalformedResponse (error_display e)) (evaluate_transaction (env_data env));
  Ok {| fe_event_id := to_event_id outcome; fe_reference := to_reference outcome;
        fe_settled := to_settled outcome; fe_amount_minor := to_amount_minor outcome;
        fe_currency := to_currency outcome |}.

(** ** config.rs *)

Definition DEFAULT_CURRENCIES : list str :=
  ["NGN"; "GHS"; "KES"; "UGX"; "TZS"; "ZAR"; "USD"; "XOF"; "XAF"; "RWF"]%string.
Record FlutterwaveConfig := {
  secret_key : str;
  webhook_hash : str;
  fw_requires_kyc : bool;
  fw_currencies : list str;
  fw_settlement_days : Z;
  fw_timeout_secs : Z;
}.
Definition flutterwave_config_from_env (env : Environment) : Result Error FlutterwaveConfig :=
  key ← non_empty_env env "FLUTTERWAVE_SECRET_KEY";
  hash ← non_empty_env env "FLUTTERWAVE_WEBHOOK_HASH";
  Ok {| secret_key := key; webhook_hash := hash;
        fw_requires_kyc := env_flag env "FLUTTERWAVE_REQUIRES_KYC" true;
        fw_currencies := env_currencies env "FLUTTERWAVE_CURRENCIES" DEFAULT_CURRENCIES;
        fw_settlement_days := env_u8 env "FLUTTERWAVE_SETTLEMENT_DAYS" 2;
        fw_timeout_secs := env_u64 env "FLUTTERWAVE_TIMEOUT_SECS" 15 |}.

(** ** rail.rs *)

Definition FLUTTERWAVE_API_BASE : str := "https://api.flutterwave.com/v3".
Record FlutterwaveRail (W : Type) := {
  flutterwave_id : str;
  fw_config : FlutterwaveConfig;
  fw_http : HttpClient W;
  fw_capabilities : RailCapabilities;
  fw_base_url : str;
}.
Arguments flutterwave_id {W} _.
Arguments fw_config {W} _.
Arguments fw_http {W} _.
Arguments fw_capabilities {W} _.
Arguments fw_base_url {W} _.

Definition flutterwave_new {W} (c : FlutterwaveConfig) (builder : HttpBuilder W) : Result Error (FlutterwaveRail W) :=
  _ ← required "secret_key" (secret_key c);
  _ ← required "webhook_hash" (webhook_hash c);
  return_if bool_decide (fw_currencies c = []) with_ Err (InvalidRequest "currencies must not be empty");
  http ← built_client "flutterwave" builder (fw_timeout_secs c);
  Ok {| flutterwave_id := "flutterwave"; fw_config := c; fw_http := http;
        fw_capabilities := {|
          class := CustodialReversible; reversible := true; requires_kyc := fw_requires_kyc c;
          holds_funds := true; currencies := fw_currencies c; settlement := Days (fw_settlement_days c);
          atomic_multi_party := false |};
        fw_base_url := FLUTTERWAVE_API_BASE |}.

(** The reference travels as a query parameter, which [reqwest] escapes: only
    what would break a header or a log line is refused. *)
Definition is_safe_reference (s : str) : bool :=
  negb (is_empty s || str_any (fun a => existsb (Ascii.eqb a) ["009"; "010"; "013"]%char) s).
Definition safe_reference (s : str) : Result Error str :=
  return_if negb (is_safe_reference s) with_
    Err (InvalidRequest ("value " +:+ debug_str s +:+ " is not a safe reference"));
  Ok s.

Section FlutterwaveRail.
Context `{FlutterwaveJson} `{!ProofBytes ChargeProof} {W : Type} `{Clock W}.

Definition check_currency (r : FlutterwaveRail W) : str -> Result Error unit :=
  check_listed (flutterwave_id r) (currencies (fw_capabilities r)).
Definition post_call (r : FlutterwaveRail W) (path : str) (body : Json) : HttpCall := {|
  hc_method := "POST"; hc_url := fw_base_url r +:+ path; hc_basic_auth := None;
  hc_headers := [("Authorization", "Bearer " +:+ secret_key (fw_config r)); ("Content-Type", "application/json")]%string;
  hc_body := JsonBody body |}.
Definition do_json_post (r : FlutterwaveRail W) (path : str) (body : Json) : Eff W Error (list byte * Z) :=
  transport "flutterwave" path (fw_http r) (post_call r path body).
Definition get_call (r : FlutterwaveRail W) (path : str) (query : list (str * str)) : HttpCall := {|
  hc_method := "GET"; hc_url := fw_base_url r +:+ path +:+ query_string query; hc_basic_auth := None;
  hc_headers := [("Authorization", "Bearer " +:+ secret_key (fw_config r))]%string;
  hc_body := NoBody |}.
Definition do_get_query (r : FlutterwaveRail W) (path : str) (query : list (str * str)) : Eff W Error (list byte * Z) :=
  transport "flutterwave" path (fw_http r) (get_call r path query).
Definition major_amount (amt : Z) (cur : str) : Result Error str :=
  map_err (fun e => InvalidRequest (currency_error_display e)) (minor_to_major_string amt cur).

Definition flutterwave_quote (r : FlutterwaveRail W) (req : PayRequest) : Eff W Error Quote :=
  _ ← eff_of (validate req);
  _ ← eff_of (check_currency r (req_currency req));
  _ ← eff_of (major_amount (req_amount_minor req) (req_currency req));
  quoted (flutterwave_id r) (settlement (fw_capabilities r)) 300 (req_currency req) req.

Definition payment_request (req : PayRequest) (amt cur mail : str) : Json := JObject [
  ("tx_ref", JString (req_reference req)); ("amount", JString amt); ("currency", JString cur);
  ("redirect_url", JString ""); ("customer", JObject [("email", JString mail); ("name", JString "")])]%string.
Definition flutterwave_charge (r : FlutterwaveRail W) (req : PayRequest) : Eff W Error Receipt :=
  _ ← eff_of (validate req);
  _ ← eff_of (check_currency r (req_currency req));
  let mail := trim (req_destination req) in
  return_if is_empty mail with_
    eff_err (InvalidRequest "flutterwave: destination (used as the buyer email) is required");
  let cur := normal_currency (req_currency req) in
  amt ← eff_of (major_amount (req_amount_minor req) cur);
  body ← expect_2xx classify_error (do_json_post r "/payments" (payment_request req amt cur mail));
  parsed ← parse_as (T := CreateResponse) "flutterwave" body;
  return_if negb (String.eqb (cr_status parsed) "success") || is_empty (cr_link parsed) with_
    eff_err (flutterwave_malformed ("status=" +:+ debug_str (cr_status parsed) +:+ " or empty link"));
  mret (open_receipt (flutterwave_id r) cur (req_reference req) {| proof_redirect_url := Some (cr_link parsed) |}).

Definition transaction_covers (v : VerifyResponse) (ref : str) (rc : Receipt) : bool :=
  return_if negb (String.eqb (vr_status v) "success") with_ false;
  let t := vr_data v in
  return_if negb (is_empty (tx_ref t)) && negb (String.eqb (tx_ref t) ref) with_ false;
  let_ok outcome := evaluate_transaction t or_else false;
  covers (to_settled outcome) (to_currency outcome) (to_amount_minor outcome) rc.
Definition flutterwave_verify (r : FlutterwaveRail W) (rc : Receipt) : Eff W Error bool :=
  return_if negb (String.eqb (rail_id rc) (flutterwave_id r)) with_ mret false;
  let_ok ref := safe_reference (reference rc) or_else mret false;
  body ← expect_2xx classify_error (do_get_query r "/transactions/verify_by_reference" [("tx_ref"%string, ref)]);
  parsed ← parse_as (T := VerifyResponse) "flutterwave" body;
  mret (transaction_covers parsed ref rc).

Definition flutterwave_webhook (r : FlutterwaveRail W) (d : WebhookDelivery) : Result Error WebhookEvent :=
  event ← map_err (fun e => InvalidRequest (flutterwave_webhook_error_display e))
    (verify_and_parse (webhook_hash (fw_config r)) (raw_body d) (header_or_empty "verif-hash" d));
  Ok (settlement_event (flutterwave_id r) (fe_event_id event) (fe_reference event) (fe_settled event)
       (fe_amount_minor event) (fe_currency event)).
Definition flutterwave_rail (r : FlutterwaveRail W) : PaymentRail W := {|
  id := flutterwave_id r;
  capabilities := fw_capabilities r;
  quote := flutterwave_quote r;
  charge := flutterwave_charge r;
  verify := flutterwave_verify r;
  validate_destination := buyer_email (flutterwave_id r);
  refund := default_refund;
  verify_webhook d := eff_of (flutterwave_webhook r d);
|}.
End FlutterwaveRail.
#[export] Hint Unfold flutterwave_rail flutterwave_new flutterwave_verify flutterwave_charge flutterwave_quote
  do_json_post do_get_query : adapter.

(** ** Lemmas *)

(** A successful transaction of this reference, with money in it. *)
Definition flutterwave_paid (v : VerifyResponse) (ref : str) (ev : Evidence) : Prop :=
  vr_status v = "success"%string /\ tx_ref (vr_data v) = ref /\ ref <> EmptyString /\
  ft_status (vr_data v) = "successful"%string /\
  exists amt, transaction_amount (vr_data v) = Ok amt /\ amt <> 0 /\
    ev = {| ev_reference := Some ref; ev_currency := normal_currency (ft_currency (vr_data v)); ev_amount := amt |}.
Lemma flutterwave_covers_spec v rc :
  transaction_covers v (reference rc) rc = true <->
  exists ev, flutterwave_paid v (reference rc) ev /\ supports ev rc.
Proof.
  unfold transaction_covers, evaluate_transaction, flutterwave_paid, supports. split.
  - destruct (String.eqb_spec (vr_status v) "success") as [E1|]; [|done]. cbn.
    destruct (is_empty (tx_ref (vr_data v))) eqn:E2; [done|]; cbn.
    destruct (String.eqb_spec (tx_ref (vr_data v)) (reference rc)) as [E3|]; [|done]. cbn.
    destruct (transaction_amount (vr_data v)) as [amt|] eqn:Ea; [|done]. cbn.
    destruct (String.eqb_spec (ft_status (vr_data v)) "successful") as [E4|]; [|now intros (? & _)%covers_spec].
    destruct (Z.eqb_spec amt 0); [done|]. intros (_ & ? & ?)%covers_spec. apply is_empty_false in E2. rewrite <- E3.
    exists {| ev_reference := Some (tx_ref (vr_data v)); ev_currency := normal_currency (ft_currency (vr_data v));
              ev_amount := amt |}.
    split; [|done]. split_and!; try done. now exists amt.
  - intros (ev & (E1 & <- & E2%is_empty_false & E3 & amt & Ha & E4%Z.eqb_neq & ->) & _ & Hc & Hle).
    rewrite E1, E2, !String.eqb_refl, Ha, E3. cbn. rewrite E4. now apply covers_spec.
Qed.
Lemma flutterwave_safe_reference_Ok s x : safe_reference s = Ok x <-> x = s /\ is_safe_reference s = true.
Proof. unfold safe_reference. destruct (is_safe_reference s); cbn; naive_solver. Qed.

Section FlutterwaveLemmas.
Context `{FlutterwaveJson} `{!ProofBytes ChargeProof} {W : Type} `{Clock W}.

Definition flutterwave_evidence (r : FlutterwaveRail W) (p : list byte) (ref : str) (w : W) (ev : Evidence) (w' : W) : Prop :=
  is_safe_reference ref = true /\ exists body v,
    answered (fw_http r) (get_call r "/transactions/verify_by_reference" [("tx_ref"%string, ref)]) w body w' /\
    from_json (T := VerifyResponse) body = Ok v /\ flutterwave_paid v ref ev.
#[export] Instance flutterwave_verifies r : VerifiesBy (flutterwave_rail r) (flutterwave_evidence r).
Proof.
  intros rc w w'. cbn [verify flutterwave_rail id]. unfold flutterwave_verify, flutterwave_evidence. split.
  - intros Hv. run_inv Hv. apply names_rail in Hc. apply flutterwave_safe_reference_Ok in Hp as [-> Hs].
    apply expect_2xx_Ok in Hx. apply flutterwave_covers_spec in Hv as (ev & ? & ?). eauto 12.
  - intros (Hi%names_rail & ev & (Hs & body & v & Hg & Hb & Hset) & Hsup).
    pose proof (proj2 (flutterwave_safe_reference_Ok _ _) (conj eq_refl Hs)).
    pose proof (proj2 (expect_2xx_Ok "flutterwave" "/transactions/verify_by_reference" _ classify_error _ _ _ _) Hg).
    assert (transaction_covers v (reference rc) rc = true) by (apply flutterwave_covers_spec; eauto).
    autounfold with adapter. run.
Qed.

Definition flutterwave_authentic (r : FlutterwaveRail W) (d : WebhookDelivery) (w : W) : Prop :=
  trim (header_or_empty "verif-hash" d) = trim (webhook_hash (fw_config r)).
#[export] Instance flutterwave_webhook_answers r :
  WebhookAnswers (flutterwave_rail r) (flutterwave_authentic r).
Proof.
  intros d w ev w' Hw. cbn [verify_webhook flutterwave_rail] in Hw.
  unfold flutterwave_webhook, verify_and_parse in Hw. run_inv Hw. simplify_eq.
  apply negb_false_iff, constant_time_eq_spec, as_bytes_inj in Hc0.
  split; [done|]. split; [|done]. cbn.
  assert (to_event_id x1 = int_to_dec (ft_id (env_data x0))) as ->; [|apply int_to_dec_nonempty].
  unfold evaluate_transaction in *. run_inv Hx1. revert Hx1.
  destruct (String.eqb (ft_status _) _); intros Hx1; [run_inv Hx1|]; now injection Hx1 as <-.
Qed.
Definition flutterwave_places : Places := {|
  amount_at := ["amount"]; currency_at := At ["currency"];
  reference_at := ["tx_ref"] |}%string.
Definition flutterwave_ordered (r : FlutterwaveRail W) (o : Order) (rc : Receipt) (w w' : W) : Prop :=
  ordered_by (fw_http r) "POST" (fw_base_url r +:+ "/payments") (reads flutterwave_places) o w w'.
#[export] Instance flutterwave_orders r : ChargeOrders (flutterwave_rail r) (exactly in_major_units) (flutterwave_ordered r).
Proof.
  intros q rc w w' Hu Hc. charge_inv Hc. unfold major_amount in Hx1. run_inv Hx1.
  major_orders (normal_currency (req_currency q)). sent.
Qed.
#[export] Instance flutterwave_opens r : ChargeOpens (flutterwave_rail r).
Proof. charge_opens. Qed.
#[export] Instance flutterwave_quotes r : QuotesCharge (flutterwave_rail r) 300.
Proof. quotes_before. Qed.
#[export] Instance flutterwave_rail_laws c builder r :
  flutterwave_new c builder = Ok r -> RailLaws (fun _ : W => True) (flutterwave_rail r).
Proof. intros Hnew. solve_rail_laws Hnew. Qed.
End FlutterwaveLemmas.
