(* ===== verification/CheckoutCom.v ===== *)
(** * The Checkout.com adapter ([patala-fiat/src/checkoutcom/*.rs])

    Hosted payments. Amounts are minor units, except that Chilean pesos travel
    with two decimals they do not have. verify asks for the payment the proof
    names; refund opens one and reports that nothing has settled yet. *)

From S2P Require Import Prelude RustStr Core External HttpShared FiatDest Json Adapter Orders.

(** ** models.rs *)

Definition checkout_malformed : str -> Error := api_malformed "checkoutcom".
Definition CHECKOUTCOM_FORCED_TWO_DECIMAL : list str := ["CLP"%string].
Definition checkout_com_amount (amt : Z) (c : str) : Result Error Z :=
  let cur := normal_currency c in
  return_if lists_currency CHECKOUTCOM_FORCED_TWO_DECIMAL cur with_
    ok_or (InvalidRequest ("checkoutcom: amount " +:+ to_dec amt +:+ " overflows for " +:+ cur)) (u64_checked_mul amt 100);
  Ok amt.
Definition checkout_com_amount_to_minor (amt : Z) (c : str) : Result Error Z :=
  let cur := normal_currency c in
  if lists_currency CHECKOUTCOM_FORCED_TWO_DECIMAL cur then
    return_if negb (amt mod 100 =? 0) with_
      Err (checkout_malformed (cur +:+ " amount " +:+ to_dec amt +:+ " is not a whole multiple of 100 as Checkout.com documents"));
    Ok (amt / 100)
  else Ok amt.

Record PaymentPayload := {
  pp_id : str;
  pp_status : str;
  pp_amount : Z;
  pp_currency : str;
  pp_reference : str;
  pp_metadata : gmap str str;
}.
Record PaymentOutcome := {
  po_reference : str;
  po_settled : bool;
  po_amount_minor : Z;
  po_currency : str;
}.
Definition payment_reference (p : PaymentPayload) : option str :=
  if negb (is_empty (pp_reference p)) then Some (pp_reference p) else pp_metadata p !! "patala_reference"%string.
Definition evaluate_payment (p : PaymentPayload) : Result Error PaymentOutcome :=
  return_if is_empty (pp_id p) with_ Err (checkout_malformed "missing payment id");
  ref ← ok_or (checkout_malformed "payment has no reference or patala_reference metadata to reconcile against")
    (payment_reference p);
  let cur := normal_currency (pp_currency p) in
  if String.eqb (pp_status p) "Captured" then
    return_if pp_amount p =? 0 with_ Err (checkout_malformed "status=Captured with non-positive amount");
    amt ← checkout_com_amount_to_minor (pp_amount p) cur;
    Ok {| po_reference := ref; po_settled := true; po_amount_minor := amt; po_currency := cur |}
  else Ok {| po_reference := ref; po_settled := false; po_amount_minor := 0; po_currency := cur |}.

(** ** proof.rs and the answers *)

Record ChargeProof := { payment_id : str; status_at_charge : str; proof_redirect_url : option str }.
Record RefundProof := { proof_action_id : str }.
Record ErrorEnvelope := { error_type : str; error_codes : list str }.
Record CreateResponse := { cr_id : str; redirect_href : str }.
Record RefundResponse := { action_id : str }.
Record Envelope := { env_id : str; event_type : str; env_data : PaymentPayload }.
Class CheckoutJson := {
  #[export] error_json :: FromJson ErrorEnvelope;
  #[export] create_json :: FromJson CreateResponse;
  #[export] payment_json :: FromJson PaymentPayload;
  #[export] refund_json :: FromJson RefundResponse;
  #[export] envelope_json :: FromJson Envelope;
}.
(** [{:?}] of a list of strings. *)
Fixpoint debug_items (l : list str) : str :=
  match l with
  | [] => EmptyString
  | [s] => debug_str s
  | s :: l => debug_str s +:+ ", " +:+ debug_items l
  end.
Definition debug_list (l : list str) : str := "[" +:+ debug_items l +:+ "]".
Definition classify_error `{CheckoutJson} (code : Z) (body : list byte) : Error :=
  let env := default {| error_type := EmptyString; error_codes := [] |} (result_ok (from_json body)) in
  api_status "checkoutcom" code (error_type env +:+ " " +:+ debug_list (error_codes env)).

(** ** webhook.rs *)

Inductive CheckoutComWebhookError :=
  | MissingSignature | InvalidSignature
  | MalformedResponse (e : str)
  | UnhandledEvent (ty : str).
Definition checkout_webhook_error_display (e : CheckoutComWebhookError) : str :=
  match e with
  | MissingSignature => "payments: checkoutcom: missing Cko-Signature header"
  | InvalidSignature => "payments: checkoutcom: invalid webhook signature"
  | MalformedResponse e => "payments: checkoutcom: malformed API response: " +:+ e
  | UnhandledEvent ty => "payments: unhandled webhook event type: " +:+ ty
  end.
Record CheckoutComWebhookEvent := {
  coe_event_id : str;
  coe_reference : str;
  coe_settled : bool;
  coe_amount_minor : Z;
  coe_currency : str;
}.
Definition verify_and_parse `{CheckoutJson, Hex} (sha256_mac : Mac) (secret : str) (body : list byte)
    (sig_header : str) : Result CheckoutComWebhookError CheckoutComWebhookEvent :=
  let h := trim sig_header in
  return_if is_empty h with_ Err MissingSignature;
  return_if negb (verify_hmac_sha256_hex sha256_mac (as_bytes secret) body h) with_ Err InvalidSignature;
  env ← map_err MalformedResponse (from_json (T := Envelope) body);
  return_if negb (String.eqb (event_type env) "payment_captured") with_ Err (UnhandledEvent (event_type env));
  outcome ← map_err (fun e => MalformedResponse (error_display e)) (evaluate_payment (env_data env));
  return_if negb (po_settled outcome) with_
    Err (MalformedResponse "payment_captured event carried a non-Captured status");
  Ok {| coe_event_id := if is_empty (env_id env) then pp_id (env_data env) else env_id env;
        coe_reference := po_reference outcome; coe_settled := po_settled outcome;
        coe_amount_minor := po_amount_minor outcome; coe_currency := po_currency outcome |}.

(** ** config.rs *)

Record CheckoutComConfig := {
  secret_key : str;
  webhook_secret : str;
  api_base_url : str;
  co_requires_kyc : bool;
  co_currencies : list str;
  co_settlement_days : Z;
  co_timeout_secs : Z;
}.
Definition checkout_config_from_env (env : Environment) : Result Error CheckoutComConfig :=
  key ← non_empty_env env "CHECKOUTCOM_SECRET_KEY";
  secret ← non_empty_env env "CHECKOUTCOM_WEBHOOK_SECRET";
  base ← non_empty_env env "CHECKOUTCOM_API_BASE_URL";
  Ok {| secret_key := key; webhook_secret := secret; api_base_url := base;
        co_requires_kyc := env_flag env "CHECKOUTCOM_REQUIRES_KYC" true;
        co_currencies := env_currencies env "CHECKOUTCOM_CURRENCIES" [];
        co_settlement_days := env_u8 env "CHECKOUTCOM_SETTLEMENT_DAYS" 2;
        co_timeout_secs := env_u64 env "CHECKOUTCOM_TIMEOUT_SECS" 15 |}.

(** ** rail.rs *)

Record CheckoutComRail (W : Type) := {
  checkout_id : str;
  co_config : CheckoutComConfig;
  co_http : HttpClient W;
  co_capabilities : RailCapabilities;
  co_base_url : str;
}.
Arguments checkout_id {W} _.
Arguments co_config {W} _.
Arguments co_http {W} _.
Arguments co_capabilities {W} _.
Arguments co_base_url {W} _.

Definition checkout_new {W} (c : CheckoutComConfig) (builder : HttpBuilder W) : Result Error (CheckoutComRail W) :=
  _ ← required "secret_key" (secret_key c);
  _ ← required "webhook_secret" (webhook_secret c);
  _ ← required "api_base_url" (api_base_url c);
  http ← built_client "checkoutcom" builder (co_timeout_secs c);
  Ok {| checkout_id := "checkoutcom"; co_config := c; co_http := http;
        co_capabilities := {|
          class := CustodialReversible; reversible := true; requires_kyc := co_requires_kyc c;
          holds_funds := true; currencies := co_currencies c; settlement := Days (co_settlement_days c);
          atomic_multi_party := false |};
        co_base_url := trim_end_slashes (api_base_url c) |}.

Definition safe_path_segment : str -> Result Error str := path_segment "a checkoutcom id".

Section CheckoutComRail.
Context `{CheckoutJson} `{!ProofBytes ChargeProof} `{!ProofBytes RefundProof} `{Hex} (sha256_mac : Mac)
  {W : Type} `{Clock W}.

Definition check_currency (r : CheckoutComRail W) : str -> Result Error unit :=
  check_unless_empty (checkout_id r) (currencies (co_capabilities r)).
Definition json_call (r : CheckoutComRail W) (method path : str) (body : option Json) : HttpCall := {|
  hc_method := method; hc_url := co_base_url r +:+ path; hc_basic_auth := None;
  hc_headers := [("Authorization", "Bearer " +:+ secret_key (co_config r));
                 ("Content-Type", "application/json"); ("Accept", "application/json")]%string;
  hc_body := json_body body |}.
Definition do_json (r : CheckoutComRail W) (method path : str) (body : option Json)
    : Eff W Error (list byte * Z) :=
  transport "checkoutcom" path (co_http r) (json_call r method path body).

Definition checkout_quote (r : CheckoutComRail W) (req : PayRequest) : Eff W Error Quote :=
  _ ← eff_of (validate req);
  _ ← eff_of (check_currency r (req_currency req));
  _ ← eff_of (checkout_com_amount (req_amount_minor req) (req_currency req));
  quoted (checkout_id r) (settlement (co_capabilities r)) 300 (req_currency req) req.

Definition hosted_request (req : PayRequest) (amt : Z) (cur : str) : Json := JObject [
  ("amount", json_u64 amt); ("currency", JString cur); ("reference", JString (req_reference req));
  ("success_url", JString (req_destination req)); ("failure_url", JString (req_destination req));
  ("cancel_url", JString (req_destination req));
  ("metadata", JObject [("patala_reference", JString (req_reference req))])]%string.
Definition checkout_charge (r : CheckoutComRail W) (req : PayRequest) : Eff W Error Receipt :=
  _ ← eff_of (validate req);
  _ ← eff_of (check_currency r (req_currency req));
  let cur := normal_currency (req_currency req) in
  amt ← eff_of (checkout_com_amount (req_amount_minor req) cur);
  body ← expect_2xx classify_error (do_json r "POST" "/hosted-payments" (Some (hosted_request req amt cur)));
  parsed ← parse_as (T := CreateResponse) "checkoutcom" body;
  return_if is_empty (cr_id parsed) || is_empty (redirect_href parsed) with_
    eff_err (checkout_malformed "empty session id or _links.redirect.href");
  mret (open_receipt (checkout_id r) cur (req_reference req)
    {| payment_id := cr_id parsed; status_at_charge := "pending"; proof_redirect_url := Some (redirect_href parsed) |}).

Definition payment_covers (p : PaymentPayload) (rc : Receipt) : bool :=
  let_ok outcome := evaluate_payment p or_else false;
  covers (po_settled outcome) (po_currency outcome) (po_amount_minor outcome) rc.
Definition checkout_verify (r : CheckoutComRail W) (rc : Receipt) : Eff W Error bool :=
  return_if negb (String.eqb (rail_id rc) (checkout_id r)) with_ mret false;
  let_some p := from_bytes (P := ChargeProof) (proof rc) or_else mret false;
  let_ok pid := safe_path_segment (payment_id p) or_else mret false;
  body ← expect_2xx classify_error (do_json r "GET" ("/payments/" +:+ pid) None);
  payload ← parse_as (T := PaymentPayload) "checkoutcom" body;
  mret (payment_covers payload rc).

Definition refund_request (rc : Receipt) (amt : Z) : Json :=
  JObject [("amount", json_u64 amt); ("reference", JString (reference rc))]%string.
(** An answer that cannot be read is a refund with no action id. *)
Definition checkout_refund (r : CheckoutComRail W) (rc : Receipt) : Eff W Error Receipt :=
  return_if negb (String.eqb (rail_id rc) (checkout_id r)) with_ eff_err (other_rail (checkout_id r) rc);
  p ← eff_of (ok_or (InvalidRequest "receipt proof is not a checkoutcom charge proof")
    (from_bytes (P := ChargeProof) (proof rc)));
  pid ← eff_of (safe_path_segment (payment_id p));
  let cur := normal_currency (currency rc) in
  amt ← eff_of (checkout_com_amount (amount_minor rc) cur);
  body ← expect_2xx classify_error (do_json r "POST" ("/payments/" +:+ pid +:+ "/refunds") (Some (refund_request rc amt)));
  let parsed := default {| action_id := EmptyString |} (result_ok (from_json (T := RefundResponse) body)) in
  mret (open_receipt (checkout_id r) cur (reference rc) {| proof_action_id := action_id parsed |}).

Definition checkout_webhook (r : CheckoutComRail W) (d : WebhookDelivery) : Result Error WebhookEvent :=
  event ← map_err (fun e => InvalidRequest (checkout_webhook_error_display e))
    (verify_and_parse sha256_mac (webhook_secret (co_config r)) (raw_body d) (header_or_empty "Cko-Signature" d));
  Ok (settlement_event (checkout_id r) (coe_event_id event) (coe_reference event) (coe_settled event)
       (coe_amount_minor event) (coe_currency event)).
Definition checkout_rail (r : CheckoutComRail W) : PaymentRail W := {|
  id := checkout_id r;
  capabilities := co_capabilities r;
  quote := checkout_quote r;
  charge := checkout_charge r;
  verify := checkout_verify r;
  validate_destination := redirect_url (checkout_id r);
  refund := checkout_refund r;
  verify_webhook d := eff_of (checkout_webhook r d);
|}.
End CheckoutComRail.
#[export] Hint Unfold checkout_rail checkout_new checkout_verify checkout_charge checkout_quote safe_path_segment
  do_json : adapter.

(** ** Lemmas *)

(** What goes out comes back, whatever the currency. *)
Lemma checkout_amount_inverse amt cur out :
  checkout_com_amount amt cur = Ok out -> checkout_com_amount_to_minor out cur = Ok amt.
Proof.
  unfold checkout_com_amount, checkout_com_amount_to_minor.
  destruct (lists_currency _ _); [|now intros [= <-]].
  intros Hm. apply ok_or_Ok in Hm. unfold u64_checked_mul in Hm. apply in_range_Some in Hm as [-> _].
  rewrite Z.mod_mul by lia. cbn. now rewrite Z.div_mul by lia.
Qed.

(** A captured payment with a reference, whose amount is a whole number of minor units. *)
Definition checkout_paid (p : PaymentPayload) (ev : Evidence) : Prop :=
  pp_id p <> EmptyString /\ (exists ref, payment_reference p = Some ref) /\ pp_status p = "Captured"%string /\
  pp_amount p <> 0 /\ ev_reference ev = None /\ ev_currency ev = normal_currency (pp_currency p) /\
  checkout_com_amount_to_minor (pp_amount p) (normal_currency (pp_currency p)) = Ok (ev_amount ev).
Lemma checkoutcom_covers_spec p rc :
  payment_covers p rc = true <-> exists ev, checkout_paid p ev /\ supports ev rc.
Proof.
  unfold payment_covers, evaluate_payment, checkout_paid, supports. split.
  - destruct (is_empty (pp_id p)) eqn:E1; [done|].
    destruct (payment_reference p) as [ref|]; [|done]. cbn.
    destruct (String.eqb_spec (pp_status p) "Captured") as [E2|]; [|now intros (? & _)%covers_spec].
    destruct (Z.eqb_spec (pp_amount p) 0); [done|].
    destruct (checkout_com_amount_to_minor _ _) as [amt|] eqn:Ea; [|done]. cbn.
    intros (_ & ? & ?)%covers_spec. apply is_empty_false in E1.
    exists {| ev_reference := None; ev_currency := normal_currency (pp_currency p); ev_amount := amt |}.
    split; [|done]. split_and!; try done. now exists ref.
  - intros (ev & (E1%is_empty_false & (ref & Er) & E2 & E3%Z.eqb_neq & _ & Ec & Ea) & _ & Hc & Hle).
    rewrite E1, Er, E2. cbn. rewrite E3, Ea. cbn. apply covers_spec. cbn. now rewrite <- Ec.
Qed.

Section CheckoutComLemmas.
Context `{CheckoutJson} `{!ProofBytes ChargeProof} `{!ProofBytes RefundProof} `{Hex} (sha256_mac : Mac)
  {W : Type} `{Clock W}.

Definition checkout_evidence (r : CheckoutComRail W) (p : list byte) (ref : str) (w : W) (ev : Evidence) (w' : W) : Prop :=
  exists cp body parsed,
    from_bytes (P := ChargeProof) p = Some cp /\ is_safe_path_segment (payment_id cp) = true /\
    answered (co_http r) (json_call r "GET" ("/payments/" +:+ payment_id cp) None) w body w' /\
    from_json (T := PaymentPayload) body = Ok parsed /\ checkout_paid parsed ev.
#[export] Instance checkout_verifies r : VerifiesBy (checkout_rail sha256_mac r) (checkout_evidence r).
Proof.
  intros rc w w'. cbn [verify checkout_rail id]. unfold checkout_verify, checkout_evidence. split.
  - intros Hv. run_inv Hv. apply names_rail in Hc. apply path_segment_Ok in Hp0 as [-> Hs].
    apply expect_2xx_Ok in Hx. apply checkoutcom_covers_spec in Hv as (ev & ? & ?). eauto 12.
  - intros (Hi%names_rail & ev & (cp & body & parsed & Hp & Hs & Hg & Hb & Hset) & Hsup).
    pose proof (proj2 (path_segment_Ok "a checkoutcom id" _ _) (conj eq_refl Hs)).
    pose proof (proj2 (expect_2xx_Ok "checkoutcom" ("/payments/" +:+ payment_id cp) _ classify_error _ _ _ _) Hg).
    assert (payment_covers parsed rc = true) by (apply checkoutcom_covers_spec; eauto).
    autounfold with adapter. run.
Qed.
Lemma checkout_ignores_reference r : ignores_reference (checkout_rail sha256_mac r).
Proof. intros rc ref w. reflexivity. Qed.

Definition checkout_authentic (r : CheckoutComRail W) (d : WebhookDelivery) (w : W) : Prop :=
  hex_signed sha256_mac (as_bytes (webhook_secret (co_config r))) (raw_body d)
    (trim (header_or_empty "Cko-Signature" d)).
#[export] Instance checkout_webhook_answers r :
  WebhookAnswers (checkout_rail sha256_mac r) (checkout_authentic r).
Proof.
  intros d w ev w' Hw. cbn [verify_webhook checkout_rail] in Hw.
  unfold checkout_webhook, verify_and_parse, evaluate_payment in Hw. run_inv Hw. simplify_eq.
  apply negb_false_iff, hex_signed_spec in Hc0. split; [done|]. split; [|done]. cbn.
  destruct (is_empty (env_id _)) eqn:E; now apply is_empty_false.
Qed.
(** What Checkout.com documents of the integers it takes: the peso of Chile in
    hundredths it does not have, whole units and thousandths for these. *)
Definition checkout_units (c : str) : option Z :=
  if lists_currency ["CLP"] c then Some 2
  else if lists_currency ["BIF"; "DJF"; "GNF"; "ISK"; "JPY"; "KMF"; "KRW"; "PYG"; "RWF"; "UGX"; "VUV"; "VND"; "XAF"; "XOF"; "XPF"] c
  then Some 0
  else if lists_currency ["BHD"; "IQD"; "JOD"; "KWD"; "LYD"; "OMR"; "TND"] c then Some 3 else None.
Definition checkout_terms : Terms := exactly (in_units_of checkout_units).
Lemma checkout_com_amount_exact n c m : is_u64 n -> checkout_com_amount n (normal_currency c) = Ok m ->
  asks_for checkout_terms (normal_currency c) (to_dec m) n.
Proof.
  intros Hn Hm _. unfold checkout_com_amount in Hm. rewrite normal_currency_idem in Hm. cbn [checkout_terms exactly price ratio].
  set (k := normal_currency c) in *. destruct (checkout_units k) as [d|] eqn:Eu; unfold checkout_units in Eu.
  - assert (0 <= m) as Hm0.
    { unfold is_u64 in Hn. destruct (lists_currency CHECKOUTCOM_FORCED_TWO_DECIMAL k);
        [run_inv Hm; apply in_range_Some in Hm as [-> ?] | injection Hm as <-]; lia. }
    apply units_major with (d := d); [done | exact Eu |].
    destruct (lists_currency ["CLP"%string] k) eqn:Ec.
    + injection Eu as <-. change (lists_currency CHECKOUTCOM_FORCED_TWO_DECIMAL k) with (lists_currency ["CLP"%string] k) in Hm.
      rewrite Ec in Hm. run_inv Hm. apply in_range_Some in Hm as [-> _]. rewrite (lists_places _ 0 k Ec eq_refl). lia.
    + change (lists_currency CHECKOUTCOM_FORCED_TWO_DECIMAL k) with (lists_currency ["CLP"%string] k) in Hm. rewrite Ec in Hm.
      injection Hm as <-. destruct (lists_currency _ k) eqn:E0 in Eu;
        [|destruct (lists_currency _ k) eqn:E3 in Eu; [|done]]; injection Eu as <-.
      * rewrite (lists_places _ 0 k E0 eq_refl). lia.
      * rewrite (lists_places _ 3 k E3 eq_refl). lia.
  - assert (lists_currency CHECKOUTCOM_FORCED_TWO_DECIMAL k = false) as Ec.
    { change CHECKOUTCOM_FORCED_TWO_DECIMAL with ["CLP"%string]. now destruct (lists_currency ["CLP"%string] k). }
    rewrite Ec in Hm. injection Hm as <-. apply units_minor; [apply Hn|]. exact Eu.
Qed.
Definition checkout_places : Places := {|
  amount_at := ["amount"]; currency_at := At ["currency"];
  reference_at := ["reference"] |}%string.
Definition checkout_ordered (r : CheckoutComRail W) (o : Order) (rc : Receipt) (w w' : W) : Prop :=
  ordered_by (co_http r) "POST" (co_base_url r +:+ "/hosted-payments") (reads checkout_places) o w w'.
#[export] Instance checkout_orders r : ChargeOrders (checkout_rail sha256_mac r) checkout_terms (checkout_ordered r).
Proof.
  intros q rc w w' Hu Hc. charge_inv Hc. orders (to_dec x1) (normal_currency (req_currency q)); [sent|].
  now apply checkout_com_amount_exact.
Qed.
#[export] Instance checkout_opens r : ChargeOpens (checkout_rail sha256_mac r).
Proof. charge_opens. Qed.
#[export] Instance checkout_quotes r : QuotesCharge (checkout_rail sha256_mac r) 300.
Proof. quotes_before. same_guard checkout_com_amount. Qed.
Definition checkout_refunded (r : CheckoutComRail W) (text : str) (rc : Receipt) (w w' : W) : Prop :=
  exists cp, from_bytes (P := ChargeProof) (proof rc) = Some cp /\
    called (co_http r) "POST" (co_base_url r +:+ "/payments/" +:+ payment_id cp +:+ "/refunds") (fun b =>
      body_at ["amount"%string] b = Some text /\ body_at ["reference"%string] b = Some (reference rc)) w w'.
#[export] Instance checkout_refunds r :
  RefundOrders (checkout_rail sha256_mac r) checkout_terms (checkout_refunded r).
Proof.
  intros rc rc' w w' Hu Hr. cbn in Hr. unfold checkout_refund in Hr. refund_inv Hr. refunds Hr (to_dec x1).
  - eexists. split; [eassumption | sent].
  - now apply checkout_com_amount_exact.
Qed.
#[export] Instance checkout_rail_laws c builder r :
  checkout_new c builder = Ok r -> RailLaws (fun _ : W => True) (checkout_rail sha256_mac r).
Proof. intros Hnew. solve_rail_laws Hnew. Qed.
End CheckoutComLemmas.
