(* ===== verification/MercadoPago.v ===== *)
(** * The Mercado Pago adapter ([patala-fiat/src/mercadopago/*.rs])

    Checkout preferences; payments found again by the caller's reference. A
    notification names a payment under a signature over that name, the request
    id and a timestamp, and the adapter answers from what it fetches for it. *)

From S2P Require Import Prelude RustStr Core External HttpShared FiatDest Json Currency Adapter Orders UrlForm Float.

(** ** models.rs *)

Definition mercadopago_malformed : str -> Error := api_malformed "mercadopago".
Record Payment := {
  pay_id : Z;
  pay_status : str;
  transaction_amount : str;
  currency_id : str;
  external_reference : str;
  date_approved : str;
}.
Record PreferenceResponse := { pr_id : str; pr_init_point : str }.
Record ErrorEnvelope := { message : str }.
Record SearchResponse := { results : list Payment }.
Record Envelope := { action : str; event_type : str; data_id : str }.
(** [number_from_str] is [serde_json::Number::from_str], a number by the text it is
    written with again. *)
Class MercadoPagoJson := {
  #[export] error_json :: FromJson ErrorEnvelope;
  #[export] preference_json :: FromJson PreferenceResponse;
  #[export] payment_json :: FromJson Payment;
  #[export] search_json :: FromJson SearchResponse;
  #[export] envelope_json :: FromJson Envelope;
  number_from_str : str -> Result str str;
}.
(** Without [arbitrary_precision] a number with a point is a double: the nearest one,
    where both its digits and its power of ten are doubles themselves. *)
Class NumberLaws `{MercadoPagoJson} : Prop := {
  number_nearest t d n : decimal_of t = Some d -> d_num d < 2 ^ 53 -> -22 <= d_scale d <= 0 ->
    number_from_str t = Ok n -> f64_from_str n = f64_from_str t;
}.
Definition amount_minor_to_json_number `{MercadoPagoJson} (amt : Z) (cur : str) : Result Error Json :=
  major ← map_err (fun e => InvalidRequest ("mercadopago: " +:+ currency_error_display e)) (minor_to_major_string amt cur);
  n ← map_err (fun e => InvalidRequest ("mercadopago: unparseable amount " +:+ debug_str major +:+ ": " +:+ e))
    (number_from_str major);
  Ok (JNumber n).
Definition json_number_to_amount_minor (n cur : str) : Result Error Z :=
  map_err (fun e => mercadopago_malformed ("transaction_amount: " +:+ currency_error_display e))
    (major_string_to_minor n cur).

Record PaymentOutcome := {
  po_reference : str;
  po_settled : bool;
  po_amount_minor : Z;
  po_currency : str;
  po_event_id : str;
}.
Definition evaluate_payment (p : Payment) : Result Error PaymentOutcome :=
  return_if is_empty (external_reference p) with_ Err (mercadopago_malformed "missing external_reference");
  let cur := normal_currency (currency_id p) in
  amt ← json_number_to_amount_minor (transaction_amount p) cur;
  if String.eqb (pay_status p) "approved" then
    return_if (amt =? 0) || (pay_id p =? 0) with_
      Err (mercadopago_malformed "approved with non-positive amount or no id");
    Ok {| po_reference := external_reference p; po_settled := true; po_amount_minor := amt; po_currency := cur;
          po_event_id := int_to_dec (pay_id p) |}
  else
    Ok {| po_reference := external_reference p; po_settled := false; po_amount_minor := 0; po_currency := cur;
          po_event_id := int_to_dec (pay_id p) |}.
Definition classify_error `{MercadoPagoJson} (code : Z) (body : list byte) : Error :=
  let env := default {| message := EmptyString |} (result_ok (from_json body)) in
  api_status "mercadopago" code (or_no_message (message env)).

(** ** proof.rs *)

Record ChargeProof := { preference_id : str; init_point : option str }.

(** ** webhook.rs *)

Inductive MercadoPagoWebhookError :=
  | MissingSignature | InvalidSignature
  | MalformedResponse (e : str)
  | UnhandledEvent (ty : str).
Definition mercadopago_webhook_error_display (e : MercadoPagoWebhookError) : str :=
  match e with
  | MissingSignature => "payments: mercadopago: missing x-signature/x-request-id headers"
  | InvalidSignature => "payments: mercadopago: invalid webhook signature"
  | MalformedResponse e => "payments: mercadopago: malformed API response: " +:+ e
  | UnhandledEvent ty => "payments: unhandled webhook event type: " +:+ ty
  end.
(** The last [ts] and the last [v1] of the header's parts. *)
Definition signature_part (acc : option str * option str) (part : str) : option str * option str :=
  match split_once "=" (trim part) with
  | Some (k, v) =>
      let k := trim k in
      if String.eqb k "ts" then (Some (trim v), acc.2)
      else if String.eqb k "v1" then (acc.1, Some (trim v))
      else acc
  | None => acc
  end.
Definition parse_signature_header (header : str) : option (str * str) :=
  match fold_left signature_part (split_char "," header) (None, None) with
  | (Some t, Some v) => if negb (is_empty t) && negb (is_empty v) then Some (t, v) else None
  | _ => None
  end.
Definition manifest (did request_id ts : str) : str :=
  "id:" +:+ did +:+ ";request-id:" +:+ request_id +:+ ";ts:" +:+ ts +:+ ";".
Definition verify_signature_and_extract_id `{MercadoPagoJson, Hex} (sha256_mac : Mac) (secret : str)
    (body : list byte) (x_signature x_request_id : str) : Result MercadoPagoWebhookError str :=
  let x_signature := trim x_signature in
  let x_request_id := trim x_request_id in
  return_if is_empty x_signature || is_empty x_request_id with_ Err MissingSignature;
  env ← map_err MalformedResponse (from_json (T := Envelope) body);
  return_if is_empty (data_id env) with_ Err (MalformedResponse "missing data.id");
  tv ← ok_or InvalidSignature (parse_signature_header x_signature);
  return_if negb (verify_hmac_sha256_hex sha256_mac (as_bytes secret)
      (as_bytes (manifest (data_id env) x_request_id tv.1)) tv.2) with_ Err InvalidSignature;
  return_if negb (String.eqb (event_type env) "payment") with_ Err (UnhandledEvent (event_type env));
  Ok (data_id env).

(** ** config.rs *)

Definition MERCADOPAGO_API_BASE : str := "https://api.mercadopago.com".
Definition DEFAULT_CURRENCIES : list str := ["ARS"; "BRL"; "CLP"; "COP"; "MXN"; "PEN"; "UYU"]%string.
Record MercadoPagoConfig := {
  access_token : str;
  webhook_secret : str;
  mp_requires_kyc : bool;
  mp_currencies : list str;
  mp_settlement_days : Z;
  mp_timeout_secs : Z;
}.
Definition mercadopago_config_from_env (env : Environment) : Result Error MercadoPagoConfig :=
  token ← non_empty_env env "MERCADOPAGO_ACCESS_TOKEN";
  secret ← non_empty_env env "MERCADOPAGO_WEBHOOK_SECRET";
  Ok {| access_token := token; webhook_secret := secret;
        mp_requires_kyc := env_flag env "MERCADOPAGO_REQUIRES_KYC" true;
        mp_currencies := env_currencies env "MERCADOPAGO_CURRENCIES" DEFAULT_CURRENCIES;
        mp_settlement_days := env_u8 env "MERCADOPAGO_SETTLEMENT_DAYS" 2;
        mp_timeout_secs := env_u64 env "MERCADOPAGO_TIMEOUT_SECS" 15 |}.

(** ** rail.rs *)

Record MercadoPagoRail (W : Type) := {
  mercadopago_id : str;
  mp_config : MercadoPagoConfig;
  mp_http : HttpClient W;
  mp_capabilities : RailCapabilities;
  mp_base_url : str;
}.
Arguments mercadopago_id {W} _.
Arguments mp_config {W} _.
Arguments mp_http {W} _.
Arguments mp_capabilities {W} _.
Arguments mp_base_url {W} _.

Definition mercadopago_new {W} (c : MercadoPagoConfig) (builder : HttpBuilder W) : Result Error (MercadoPagoRail W) :=
  _ ← required "access_token" (access_token c);
  _ ← required "webhook_secret" (webhook_secret c);
  return_if bool_decide (mp_currencies c = []) with_ Err (InvalidRequest "currencies must not be empty");
  http ← built_client "mercadopago" builder (mp_timeout_secs c);
  Ok {| mercadopago_id := "mercadopago"; mp_config := c; mp_http := http;
        mp_capabilities := {|
          class := CustodialReversible; reversible := true; requires_kyc := mp_requires_kyc c;
          holds_funds := true; currencies := mp_currencies c; settlement := Days (mp_settlement_days c);
          atomic_multi_party := false |};
        mp_base_url := MERCADOPAGO_API_BASE |}.
Definition urlencode : str -> str := percent_encode.

Section MercadoPagoRail.
Context `{MercadoPagoJson} `{!ProofBytes ChargeProof} `{Hex} (sha256_mac : Mac) {W : Type} `{Clock W}.

Definition check_currency (r : MercadoPagoRail W) : str -> Result Error unit :=
  check_listed (mercadopago_id r) (currencies (mp_capabilities r)).
Definition json_call (r : MercadoPagoRail W) (method path : str) (body : option Json) : HttpCall := {|
  hc_method := method; hc_url := mp_base_url r +:+ path; hc_basic_auth := None;
  hc_headers := [("Authorization", "Bearer " +:+ access_token (mp_config r)); ("Content-Type", "application/json")]%string;
  hc_body := json_body body |}.
Definition do_json (r : MercadoPagoRail W) (method path : str) (body : option Json)
    : Eff W Error (list byte * Z) :=
  transport "mercadopago" path (mp_http r) (json_call r method path body).

Definition mercadopago_quote (r : MercadoPagoRail W) (req : PayRequest) : Eff W Error Quote :=
  _ ← eff_of (validate req);
  _ ← eff_of (check_currency r (req_currency req));
  _ ← eff_of (amount_minor_to_json_number (req_amount_minor req) (req_currency req));
  quoted (mercadopago_id r) (settlement (mp_capabilities r)) 300 (req_currency req) req.

Definition back_urls (req : PayRequest) : list (str * Json) :=
  if is_blank (req_destination req) then []
  else let d := JString (req_destination req) in
       [("back_urls", JObject [("success", d); ("failure", d); ("pending", d)])]%string.
Definition preference_request (req : PayRequest) (price : Json) (cur : str) : Json := JObject ([
  ("external_reference", JString (req_reference req));
  ("items", JArray [JObject [
    ("title", JString ("Order " +:+ req_reference req)); ("quantity", JNumber "1");
    ("unit_price", price); ("currency_id", JString cur)]])]%string ++ back_urls req).
Definition mercadopago_charge (r : MercadoPagoRail W) (req : PayRequest) : Eff W Error Receipt :=
  _ ← eff_of (validate req);
  _ ← eff_of (check_currency r (req_currency req));
  let cur := normal_currency (req_currency req) in
  price ← eff_of (amount_minor_to_json_number (req_amount_minor req) cur);
  body ← expect_2xx classify_error
    (do_json r "POST" "/checkout/preferences" (Some (preference_request req price cur)));
  parsed ← parse_as (T := PreferenceResponse) "mercadopago" body;
  return_if is_empty (pr_init_point parsed) with_ eff_err (mercadopago_malformed "empty init_point");
  mret (open_receipt (mercadopago_id r) cur (req_reference req)
    {| preference_id := pr_id parsed; init_point := Some (pr_init_point parsed) |}).

(** One turn of verify's loop over the results. *)
Definition payment_covers (rc : Receipt) (p : Payment) : bool :=
  return_if negb (String.eqb (external_reference p) (reference rc)) with_ false;
  let_ok outcome := evaluate_payment p or_else false;
  covers (po_settled outcome) (po_currency outcome) (po_amount_minor outcome) rc.
Definition search_path (ref : str) : str := "/v1/payments/search?external_reference=" +:+ urlencode ref.
Definition mercadopago_verify (r : MercadoPagoRail W) (rc : Receipt) : Eff W Error bool :=
  return_if negb (String.eqb (rail_id rc) (mercadopago_id r)) with_ mret false;
  return_if is_blank (reference rc) with_ mret false;
  body ← expect_2xx classify_error (do_json r "GET" (search_path (reference rc)) None);
  parsed ← parse_as (T := SearchResponse) "mercadopago" body;
  mret (existsb (payment_covers rc) (results parsed)).

Record MercadoPagoWebhookEvent := {
  mpe_event_id : str;
  mpe_reference : str;
  mpe_settled : bool;
  mpe_amount_minor : Z;
  mpe_currency : str;
}.
Definition mismatched (p : Payment) (did : str) : Error := mercadopago_malformed
  ("fetched payment id " +:+ int_to_dec (pay_id p) +:+ " does not match webhook data.id " +:+ debug_str did).
Definition handle_webhook (r : MercadoPagoRail W) (body : list byte) (x_signature x_request_id : str)
    : Eff W Error MercadoPagoWebhookEvent :=
  did ← eff_of (map_err (fun e => InvalidRequest (mercadopago_webhook_error_display e))
    (verify_signature_and_extract_id sha256_mac (webhook_secret (mp_config r)) body x_signature x_request_id));
  answer ← expect_2xx classify_error (do_json r "GET" ("/v1/payments/" +:+ did) None);
  pay ← parse_as (T := Payment) "mercadopago" answer;
  return_if negb (String.eqb (int_to_dec (pay_id pay)) did) with_ eff_err (mismatched pay did);
  outcome ← eff_of (evaluate_payment pay);
  mret {| mpe_event_id := po_event_id outcome; mpe_reference := po_reference outcome;
          mpe_settled := po_settled outcome; mpe_amount_minor := po_amount_minor outcome;
          mpe_currency := po_currency outcome |}.
Definition mercadopago_webhook (r : MercadoPagoRail W) (d : WebhookDelivery) : Eff W Error WebhookEvent :=
  event ← handle_webhook r (raw_body d) (header_or_empty "x-signature" d) (header_or_empty "x-request-id" d);
  mret (with_object_id (mpe_event_id event)
    (settlement_event (mercadopago_id r) (mpe_event_id event) (mpe_reference event) (mpe_settled event)
       (mpe_amount_minor event) (mpe_currency event))).
Definition mercadopago_rail (r : MercadoPagoRail W) : PaymentRail W := {|
  id := mercadopago_id r;
  capabilities := mp_capabilities r;
  quote := mercadopago_quote r;
  charge := mercadopago_charge r;
  verify := mercadopago_verify r;
  validate_destination := redirect_url (mercadopago_id r);
  refund := default_refund;
  verify_webhook := mercadopago_webhook r;
|}.
End MercadoPagoRail.
#[export] Hint Unfold mercadopago_rail mercadopago_new mercadopago_verify mercadopago_charge mercadopago_quote do_json
  : adapter.

(** ** Lemmas *)

(** An approved payment of this reference, with an id and money in it. *)
Definition mercadopago_paid (p : Payment) (ref : str) (ev : Evidence) : Prop :=
  external_reference p = ref /\ ref <> EmptyString /\ pay_status p = "approved"%string /\ pay_id p <> 0 /\
  ev_reference ev = Some ref /\ ev_currency ev = normal_currency (currency_id p) /\ ev_amount ev <> 0 /\
  json_number_to_amount_minor (transaction_amount p) (ev_currency ev) = Ok (ev_amount ev).
Lemma mercadopago_covers_spec p rc :
  payment_covers rc p = true <-> exists ev, mercadopago_paid p (reference rc) ev /\ supports ev rc.
Proof.
  unfold payment_covers, evaluate_payment, mercadopago_paid, supports. split.
  - destruct (String.eqb_spec (external_reference p) (reference rc)) as [E1|]; [|done]. cbn.
    destruct (is_empty (external_reference p)) eqn:E2; [done|].
    destruct (json_number_to_amount_minor _ _) as [amt|] eqn:Ea; [|done]. cbn.
    destruct (String.eqb_spec (pay_status p) "approved") as [E3|]; [|now intros (? & _)%covers_spec].
    destruct (Z.eqb_spec amt 0); [done|]. destruct (Z.eqb_spec (pay_id p) 0); [done|]. cbn.
    intros (_ & ? & ?)%covers_spec. apply is_empty_false in E2. rewrite E1 in E2.
    exists {| ev_reference := Some (reference rc); ev_currency := normal_currency (currency_id p); ev_amount := amt |}.
    split; [|done]. split_and!; done.
  - intros (ev & (E1 & E2%is_empty_false & E3 & E4%Z.eqb_neq & _ & Ec & E5%Z.eqb_neq & Ea) & _ & Hc & Hle).
    rewrite E1, String.eqb_refl, E2. rewrite <- Ec, Ea, E3. cbn. rewrite E4, E5. now apply covers_spec.
Qed.

Lemma mercadopago_evaluate_id p o : evaluate_payment p = Ok o -> po_event_id o = int_to_dec (pay_id p).
Proof.
  unfold evaluate_payment. intros He. run_inv He. revert He.
  destruct (String.eqb (pay_status p) _); intros He; [run_inv He|]; now injection He as <-.
Qed.

Section MercadoPagoLemmas.
Context `{MercadoPagoJson} `{!ProofBytes ChargeProof} `{Hex} (sha256_mac : Mac) {W : Type} `{Clock W}.

(** Some payment the search for this reference lists is approved. *)
Definition mercadopago_evidence (r : MercadoPagoRail W) (p : list byte) (ref : str) (w : W) (ev : Evidence) (w' : W) : Prop :=
  is_blank ref = false /\ exists body parsed pay,
    answered (mp_http r) (json_call r "GET" (search_path ref) None) w body w' /\
    from_json (T := SearchResponse) body = Ok parsed /\ In pay (results parsed) /\ mercadopago_paid pay ref ev.
#[export] Instance mercadopago_verifies r : VerifiesBy (mercadopago_rail sha256_mac r) (mercadopago_evidence r).
Proof.
  intros rc w w'. cbn [verify mercadopago_rail id]. unfold mercadopago_verify, mercadopago_evidence. split.
  - intros Hv. run_inv Hv. apply names_rail in Hc. apply expect_2xx_Ok in Hx.
    apply existsb_exists in Hv as (pay & Hin & (ev & ? & ?)%mercadopago_covers_spec). eauto 12.
  - intros (Hi%names_rail & ev & (Hs & body & parsed & pay & Hg & Hb & Hin & Hset) & Hsup).
    pose proof (proj2 (expect_2xx_Ok "mercadopago" (search_path (reference rc)) _ classify_error _ _ _ _) Hg).
    assert (existsb (payment_covers rc) (results parsed) = true).
    { apply existsb_exists. exists pay. split; [done|]. apply mercadopago_covers_spec. eauto. }
    autounfold with adapter. run.
Qed.

(** The tag is of the payment's id, the request id and the timestamp. *)
Definition mercadopago_authentic (r : MercadoPagoRail W) (d : WebhookDelivery) (w : W) : Prop :=
  exists env ts v1, from_json (T := Envelope) (raw_body d) = Ok env /\
    parse_signature_header (trim (header_or_empty "x-signature" d)) = Some (ts, v1) /\
    hex_signed sha256_mac (as_bytes (webhook_secret (mp_config r)))
      (as_bytes (manifest (data_id env) (trim (header_or_empty "x-request-id" d)) ts)) v1.
#[export] Instance mercadopago_webhook_answers r :
  WebhookAnswers (mercadopago_rail sha256_mac r) (mercadopago_authentic r).
Proof.
  intros d w ev w' Hw. cbn [verify_webhook mercadopago_rail] in Hw.
  unfold mercadopago_webhook, handle_webhook, verify_signature_and_extract_id in Hw. run_inv Hw. simplify_eq.
  apply negb_false_iff, hex_signed_spec in Hc1. split; [done|]. split.
  - cbn. erewrite mercadopago_evaluate_id by eassumption. apply int_to_dec_nonempty.
  - destruct x2 as [ts v1]. unfold mercadopago_authentic. eauto 10.
Qed.
Definition mercadopago_places : Places := {|
  amount_at := ["items"; "0"; "unit_price"]; currency_at := At ["items"; "0"; "currency_id"];
  reference_at := ["external_reference"] |}%string.
Definition mercadopago_ordered (r : MercadoPagoRail W) (o : Order) (rc : Receipt) (w w' : W) : Prop :=
  ordered_by (mp_http r) "POST" (mp_base_url r +:+ "/checkout/preferences") (reads mercadopago_places) o w w'.
(** The number serde reads an amount's text as. *)
Lemma serde_amount `{Laws : !NumberLaws} n c t x : 0 <= n < 2 ^ 50 -> minor_to_major_string n c = Ok t ->
  number_from_str t = Ok x -> in_major_number c x = Some n.
Proof.
  intros Hn Ht Hx. destruct (amount_decimal n c t (proj1 Hn) Ht) as (d & Hd & Hm & Hs).
  destruct (f64_of_amount n c t (proj1 Hn) Ht) as (e & _ & Hf).
  apply (double_read_exactly n c t _ x Hn Ht Hf). rewrite <- Hf. apply (number_nearest t d); try done; lia.
Qed.
#[export] Instance mercadopago_orders `{Laws : !NumberLaws} r :
  ChargeOrders (mercadopago_rail sha256_mac r) as_number (mercadopago_ordered r).
Proof.
  intros q rc w w' Hu Hc. charge_inv Hc. unfold amount_minor_to_json_number in Hx1. run_inv Hx1. injection Hx1 as <-.
  orders x5 (normal_currency (req_currency q)).
  - sent.
  - apply number_asks; [apply Hu|]. intros Hb. eapply serde_amount; try eassumption. split; [apply Hu | exact Hb].
Qed.
#[export] Instance mercadopago_opens r : ChargeOpens (mercadopago_rail sha256_mac r).
Proof. charge_opens. Qed.
#[export] Instance mercadopago_quotes r : QuotesCharge (mercadopago_rail sha256_mac r) 300.
Proof.
  quotes_before. intros j Hj. unfold amount_minor_to_json_number in *.
  destruct (minor_to_major_string _ (normal_currency _)) as [t|] eqn:Et; [|discriminate Hj].
  apply major_units_normal in Et. rewrite Et. eauto.
Qed.
#[export] Instance mercadopago_rail_laws c builder r :
  mercadopago_new c builder = Ok r -> RailLaws (fun _ : W => True) (mercadopago_rail sha256_mac r).
Proof. intros Hnew. solve_rail_laws Hnew. Qed.
End MercadoPagoLemmas.
