(* ===== verification/PayU.v ===== *)
(** * The PayU adapter ([patala-fiat/src/payu/*.rs])

    A form the buyer's browser posts, with a hash over its fields and the
    merchant's salt: charge makes no call at all. verify asks PayU for the
    transaction of the receipt's reference. A notification is authenticated by a
    hash over six of its fields. *)

From S2P Require Import Prelude RustStr Core External HttpShared FiatDest Json Currency Adapter Orders.

(** ** models.rs *)

Definition payu_malformed : str -> Error := api_malformed "payu".
Definition unexpected_status (code : Z) : Error :=
  Rail ("payu: unexpected API response status: http " +:+ to_dec code).
Definition is_settled_success_ci (status : str) : bool := eq_ignore_ascii_case status "success".

Section Hashes.
Context `{Hex} (sha512 : list byte -> list byte).
Definition sha512_hex (data : str) : str := hex_encode (sha512 (as_bytes data)).
Definition request_hash (key salt txnid amount productinfo firstname email : str) : str :=
  sha512_hex (str_join "|" [key; txnid; amount; productinfo; firstname; email; "";"";"";"";""; "";"";"";"";""; salt]%string).
Definition response_hash (key salt status txnid amount productinfo firstname email : str) : str :=
  sha512_hex (str_join "|" [salt; status; "";"";"";"";""; email; firstname; productinfo; amount; txnid; key]%string).
Definition verify_hash (key reference salt : str) : str :=
  sha512_hex (key +:+ "|verify_payment|" +:+ reference +:+ "|" +:+ salt).
End Hashes.

Record PayUVerifyTransactionDetail := {
  pd_mihpayid : str;
  pd_status : str;
  pd_txn_id : str;
  pd_amount : str;
  pd_addedon : str;
}.
Record PayUVerifyResponse := { response_status : Z; transaction_details : gmap str PayUVerifyTransactionDetail }.
(** [url::form_urlencoded]: what a body parses to, and a list of pairs as text. *)
Class PayUJson := {
  #[export] verify_json :: FromJson PayUVerifyResponse;
  form_parse : list byte -> list (str * str);
  form_serialize : list (str * str) -> str;
}.

(** ** proof.rs *)

Record ChargeProof := { fields : str; checkout_url : str }.

(** ** webhook.rs *)

Inductive PayUWebhookError := MissingHash | InvalidHash | MalformedResponse (e : str) | ResponseTooLarge.
Definition payu_webhook_error_display (e : PayUWebhookError) : str :=
  match e with
  | MissingHash => "payments: payu: missing hash field"
  | InvalidHash => "payments: payu: invalid response hash"
  | MalformedResponse e => "payments: payu: malformed API response: " +:+ e
  | ResponseTooLarge => "payments: payu: response body exceeds size limit"
  end.
Record PayUWebhookEvent := {
  pue_event_id : str;
  pue_reference : str;
  pue_settled : bool;
  pue_amount_minor : Z;
  pue_currency : str;
}.
(** [.collect()] into a map: a repeated key keeps its last value. *)
Definition collect (l : list (str * str)) : gmap str str := fold_left (fun m kv => <[kv.1 := kv.2]> m) l ∅.
Definition value (k : str) (m : gmap str str) : str := default EmptyString (m !! k).
Definition signed_hash `{Hex} (sha512 : list byte -> list byte) (key salt : str) (v : gmap str str) : str :=
  response_hash sha512 key salt (value "status" v) (value "txnid" v) (value "amount" v) (value "productinfo" v)
    (value "firstname" v) (value "email" v).
Definition event_of (v : gmap str str) : Result PayUWebhookError PayUWebhookEvent :=
  return_if is_empty (value "mihpayid" v) with_
    Err (MalformedResponse "no mihpayid: this delivery carries no id to deduplicate on");
  amt ← map_err (fun e => MalformedResponse ("amount " +:+ debug_str (value "amount" v) +:+ ": " +:+ currency_error_display e))
    (major_string_to_minor (value "amount" v) "INR");
  let settled := String.eqb (value "status" v) "success" in
  return_if settled && (amt =? 0) with_ Err (MalformedResponse "success status with non-positive amount");
  Ok {| pue_event_id := value "mihpayid" v; pue_reference := value "txnid" v; pue_settled := settled;
        pue_amount_minor := if settled then amt else 0; pue_currency := "INR" |}.
Definition verify_and_parse `{PayUJson, Hex} (sha512 : list byte -> list byte) (key salt : str) (body : list byte)
    : Result PayUWebhookError PayUWebhookEvent :=
  _ ← map_err (fun _ => ResponseTooLarge) (bounded_len_check body DEFAULT_MAX_BODY_BYTES);
  let v := collect (form_parse body) in
  return_if is_empty (value "hash" v) with_ Err MissingHash;
  return_if is_empty (value "txnid" v) || is_empty (value "amount" v) with_
    Err (MalformedResponse "missing txnid or amount");
  return_if negb (constant_time_eq (as_bytes (signed_hash sha512 key salt v)) (as_bytes (value "hash" v))) with_
    Err InvalidHash;
  event_of v.

(** ** config.rs *)

Record PayUConfig := {
  merchant_key : str;
  salt : str;
  pu_requires_kyc : bool;
  pu_settlement_days : Z;
  pu_timeout_secs : Z;
}.
Definition payu_config_from_env (env : Environment) : Result Error PayUConfig :=
  key ← non_empty_env env "PAYU_MERCHANT_KEY";
  s ← non_empty_env env "PAYU_SALT";
  Ok {| merchant_key := key; salt := s;
        pu_requires_kyc := env_flag env "PAYU_REQUIRES_KYC" true;
        pu_settlement_days := env_u8 env "PAYU_SETTLEMENT_DAYS" 2;
        pu_timeout_secs := env_u64 env "PAYU_TIMEOUT_SECS" 15 |}.

(** ** rail.rs *)

Definition PAYU_CHECKOUT_URL : str := "https://secure.payu.in/_payment".
Definition PAYU_VERIFY_URL : str := "https://info.payu.in/merchant/postservice?form=2".
Record PayURail (W : Type) := {
  payu_id : str;
  pu_config : PayUConfig;
  pu_http : HttpClient W;
  pu_capabilities : RailCapabilities;
  pu_base_url : str;
}.
Arguments payu_id {W} _.
Arguments pu_config {W} _.
Arguments pu_http {W} _.
Arguments pu_capabilities {W} _.
Arguments pu_base_url {W} _.

Definition payu_new {W} (c : PayUConfig) (builder : HttpBuilder W) : Result Error (PayURail W) :=
  _ ← required "merchant_key" (merchant_key c);
  _ ← required "salt" (salt c);
  http ← built_client "payu" builder (pu_timeout_secs c);
  Ok {| payu_id := "payu"; pu_config := c; pu_http := http;
        pu_capabilities := {|
          class := CustodialReversible; reversible := false; requires_kyc := pu_requires_kyc c;
          holds_funds := true; currencies := ["INR"%string]; settlement := Days (pu_settlement_days c);
          atomic_multi_party := false |};
        pu_base_url := PAYU_VERIFY_URL |}.

Section PayURail.
Context `{PayUJson} `{!ProofBytes ChargeProof} `{Hex} (sha512 : list byte -> list byte) {W : Type} `{Clock W}.

Definition check_currency (r : PayURail W) : str -> Result Error unit :=
  check_listed (payu_id r) (currencies (pu_capabilities r)).
Definition inr_string (amt : Z) : Result Error str :=
  map_err (fun e => InvalidRequest ("payu: " +:+ currency_error_display e)) (minor_to_major_string amt "INR").
#[global] Arguments inr_string : simpl never.
Definition verify_call (r : PayURail W) (form : list (str * str)) : HttpCall := {|
  hc_method := "POST"; hc_url := pu_base_url r; hc_basic_auth := None; hc_headers := [];
  hc_body := FormBody form |}.
Definition verify_failed (e : HttpFailure) : str :=
  match e with
  | SendFailed e => "payu: verify request failed: " +:+ e
  | BodyFailed e => "payu: failed reading response body: " +:+ e
  end.
Definition do_verify_call (r : PayURail W) (form : list (str * str)) : Eff W Error (list byte * Z) :=
  transport_saying verify_failed "payu" (pu_http r) (verify_call r form).

Definition payu_quote (r : PayURail W) (req : PayRequest) : Eff W Error Quote :=
  _ ← eff_of (validate req);
  _ ← eff_of (check_currency r (req_currency req));
  _ ← eff_of (inr_string (req_amount_minor req));
  quoted (payu_id r) (settlement (pu_capabilities r)) 300 (req_currency req) req.

Definition checkout_fields (c : PayUConfig) (req : PayRequest) (mail amount : str) : list (str * str) :=
  let info := "Order " +:+ req_reference req in
  [("key", merchant_key c); ("txnid", req_reference req); ("amount", amount); ("productinfo", info);
   ("firstname", "Customer"); ("email", mail);
   ("hash", request_hash sha512 (merchant_key c) (salt c) (req_reference req) amount info "Customer" mail)]%string.
Definition payu_charge (r : PayURail W) (req : PayRequest) : Eff W Error Receipt :=
  _ ← eff_of (validate req);
  _ ← eff_of (check_currency r (req_currency req));
  let mail := trim (req_destination req) in
  return_if is_empty mail with_
    eff_err (InvalidRequest "payu: destination (used as the buyer email) is required");
  amount ← eff_of (inr_string (req_amount_minor req));
  mret (open_receipt (payu_id r) "INR" (req_reference req)
    {| fields := form_serialize (checkout_fields (pu_config r) req mail amount); checkout_url := PAYU_CHECKOUT_URL |}).

Definition detail_covers (d : PayUVerifyTransactionDetail) (ref : str) (rc : Receipt) : bool :=
  return_if negb (is_empty (pd_txn_id d)) && negb (String.eqb (pd_txn_id d) ref) with_ false;
  return_if negb (is_settled_success_ci (pd_status d)) with_ false;
  return_if is_empty (pd_mihpayid d) with_ false;
  let_ok amt := major_string_to_minor (pd_amount d) "INR" or_else false;
  return_if amt =? 0 with_ false;
  return_if negb (eq_ignore_ascii_case (currency rc) "INR") with_ false;
  return_if amt <? amount_minor rc with_ false;
  true.
Definition verify_form (r : PayURail W) (ref : str) : list (str * str) :=
  [("key", merchant_key (pu_config r)); ("command", "verify_payment"); ("var1", ref);
   ("hash", verify_hash sha512 (merchant_key (pu_config r)) ref (salt (pu_config r)))]%string.
Definition payu_verify (r : PayURail W) (rc : Receipt) : Eff W Error bool :=
  return_if negb (String.eqb (rail_id rc) (payu_id r)) with_ mret false;
  let ref := trim (reference rc) in
  return_if is_empty ref with_ mret false;
  body ← expect_2xx (fun code _ => unexpected_status code) (do_verify_call r (verify_form r ref));
  parsed ← parse_as (T := PayUVerifyResponse) "payu" body;
  let_some d := transaction_details parsed !! ref or_else mret false;
  mret (detail_covers d ref rc).

Definition payu_webhook (r : PayURail W) (d : WebhookDelivery) : Result Error WebhookEvent :=
  event ← map_err (fun e => InvalidRequest (payu_webhook_error_display e))
    (verify_and_parse sha512 (merchant_key (pu_config r)) (salt (pu_config r)) (raw_body d));
  Ok (settlement_event (payu_id r) (pue_event_id event) (pue_reference event) (pue_settled event)
       (pue_amount_minor event) (pue_currency event)).
Definition payu_rail (r : PayURail W) : PaymentRail W := {|
  id := payu_id r;
  capabilities := pu_capabilities r;
  quote := payu_quote r;
  charge := payu_charge r;
  verify := payu_verify r;
  validate_destination := buyer_email (payu_id r);
  refund := default_refund;
  verify_webhook d := eff_of (payu_webhook r d);
|}.
End PayURail.
#[export] Hint Unfold payu_rail payu_new payu_verify payu_charge payu_quote do_verify_call : adapter.

(** ** Lemmas *)

Lemma eq_ignore_ascii_case_sym a b : eq_ignore_ascii_case a b = eq_ignore_ascii_case b a.
Proof. unfold eq_ignore_ascii_case. apply String.eqb_sym. Qed.
(** A successful transaction with PayU's own id, and money in it. *)
Definition payu_paid (d : PayUVerifyTransactionDetail) (ref : str) (ev : Evidence) : Prop :=
  (pd_txn_id d = EmptyString \/ pd_txn_id d = ref) /\ is_settled_success_ci (pd_status d) = true /\
  pd_mihpayid d <> EmptyString /\ major_string_to_minor (pd_amount d) "INR" = Ok (ev_amount ev) /\
  ev_amount ev <> 0 /\ ev_reference ev = None /\ ev_currency ev = "INR"%string.
Lemma detail_covers_spec d ref rc :
  detail_covers d ref rc = true <-> exists ev, payu_paid d ref ev /\ supports ev rc.
Proof.
  unfold detail_covers, payu_paid, supports. split.
  - destruct (negb (is_empty (pd_txn_id d)) && negb (String.eqb (pd_txn_id d) ref)) eqn:E1; [done|].
    destruct (is_settled_success_ci (pd_status d)); [|done]. cbn [negb].
    destruct (is_empty (pd_mihpayid d)) eqn:E2; [done|]. apply is_empty_false in E2.
    destruct (major_string_to_minor (pd_amount d) "INR") as [amt|] eqn:Ea; [|done].
    destruct (Z.eqb_spec amt 0); [done|].
    destruct (eq_ignore_ascii_case (currency rc) "INR") eqn:Ec; [|done]. cbn [negb].
    destruct (Z.ltb_spec amt (amount_minor rc)); [done|]. intros _.
    exists {| ev_reference := None; ev_currency := "INR"; ev_amount := amt |}. rewrite eq_ignore_ascii_case_sym in Ec.
    split; [split_and!; try done|done]. apply andb_false_iff in E1 as [E1|E1]; apply negb_false_iff in E1.
    + left. now apply is_empty_spec.
    + right. now apply String.eqb_eq.
  - intros (ev & (E1 & Hs & E2%is_empty_false & Ea & E3%Z.eqb_neq & _ & Hc) & _ & Hcur & Hle%Z.ltb_ge).
    rewrite Hs, E2, Ea, E3, Hle, eq_ignore_ascii_case_sym, <- Hc, Hcur. cbn [negb].
    destruct E1 as [-> | ->]; [done|]. now rewrite String.eqb_refl, andb_false_r.
Qed.

Section PayULemmas.
Context `{PayUJson} `{!ProofBytes ChargeProof} `{Hex} (sha512 : list byte -> list byte) {W : Type} `{Clock W}.

(** PayU's answer for the receipt's reference has a successful transaction under it. *)
Definition payu_evidence (r : PayURail W) (p : list byte) (ref : str) (w : W) (ev : Evidence) (w' : W) : Prop :=
  is_blank ref = false /\ exists body parsed d,
    answered (pu_http r) (verify_call r (verify_form sha512 r (trim ref))) w body w' /\
    from_json (T := PayUVerifyResponse) body = Ok parsed /\
    transaction_details parsed !! trim ref = Some d /\ payu_paid d (trim ref) ev.
#[export] Instance payu_verifies r : VerifiesBy (payu_rail sha512 r) (payu_evidence r).
Proof.
  intros rc w w'. cbn [verify payu_rail id]. unfold payu_verify, payu_evidence, is_blank, do_verify_call. split.
  - intros Hv. run_inv Hv. apply names_rail in Hc. apply expect_2xx_saying_Ok in Hx.
    apply detail_covers_spec in Hv as (ev & ? & ?). eauto 12.
  - intros (Hi%names_rail & ev & (Hs & body & parsed & d & Hg & Hb & Hd & Hset) & Hsup).
    pose proof (proj2 (expect_2xx_saying_Ok verify_failed "payu" _
      (fun code _ => unexpected_status code) _ _ _ _) Hg).
    assert (detail_covers d (trim (reference rc)) rc = true) by (apply detail_covers_spec; eauto).
    cbn beta zeta. run.
Qed.

(** The hash is of six fields of the body, [mihpayid] not among them. *)
Definition payu_authentic (r : PayURail W) (d : WebhookDelivery) (w : W) : Prop :=
  let v := collect (form_parse (raw_body d)) in
  value "hash" v = signed_hash sha512 (merchant_key (pu_config r)) (salt (pu_config r)) v.
Lemma event_of_id v ev : event_of v = Ok ev -> pue_event_id ev = value "mihpayid" v /\ value "mihpayid" v <> EmptyString.
Proof. unfold event_of. intros He. run_inv He. injection He as <-. split; [done | now apply is_empty_false]. Qed.
#[export] Instance payu_webhook_answers r : WebhookAnswers (payu_rail sha512 r) (payu_authentic r).
Proof.
  intros d w ev w' Hw. cbn [verify_webhook payu_rail] in Hw.
  unfold payu_webhook, verify_and_parse in Hw. run_inv Hw. simplify_eq.
  apply negb_false_iff, constant_time_eq_spec, as_bytes_inj in Hc1. apply event_of_id in Hx as [Hi Hn].
  split; [done|]. split; [|done]. cbn. now rewrite Hi.
Qed.
Definition payu_places : Places := {|
  amount_at := ["amount"%string]; currency_at := Always "INR"; reference_at := ["txnid"%string] |}.
(** Nothing is sent: the receipt's proof is the form the buyer's browser posts. *)
Definition payu_ordered (r : PayURail W) (o : Order) (rc : Receipt) (w w' : W) : Prop :=
  w' = w /\ exists fs, reads payu_places (FormBody fs) o /\
    proof rc = to_bytes {| fields := form_serialize fs; checkout_url := PAYU_CHECKOUT_URL |}.
Lemma payu_orders c builder r : payu_new c builder = Ok r -> ChargeOrders (payu_rail sha512 r) (exactly in_major_units) (payu_ordered r).
Proof.
  intros Hnew. autounfold with adapter in Hnew. run_inv Hnew. injection Hnew as <-.
  intros q rc w w' Hu Hc. charge_inv Hc. unfold inr_string in *. unfold check_currency in *.
  match goal with Hi : map_err _ _ = Ok _ |- _ => run_inv Hi end.
  major_orders "INR"%string. subst rc. split; [done|]. eexists. split; [|reflexivity]. now repeat split.
Qed.
#[export] Instance payu_opens r : ChargeOpens (payu_rail sha512 r).
Proof. charge_opens. Qed.
#[export] Instance payu_quotes r : QuotesCharge (payu_rail sha512 r) 300.
Proof. quotes_before. Qed.
#[export] Instance payu_rail_laws c builder r :
  payu_new c builder = Ok r -> RailLaws (fun _ : W => True) (payu_rail sha512 r).
Proof. intros Hnew. solve_rail_laws Hnew. Qed.
End PayULemmas.
