(* ===== verification/Adyen.v ===== *)
(** * The Adyen adapter ([patala-fiat/src/adyen/*.rs])

    Payment links that cannot be looked up afterwards: verify is unsupported
    and settlement is what an AUTHORISATION notification says. A notification
    carries several items, each signed over eight of its fields; the first item
    that is authentic and conclusive is the answer. *)

From S2P Require Import Prelude RustStr Core External HttpShared FiatDest Json Adapter Orders.

(** ** models.rs *)

Definition adyen_malformed : str -> Error := api_malformed "adyen".
Definition ADYEN_NON_ISO_STANDARD : list str := ["CLP"; "CVE"; "IDR"; "ISK"]%string.
Definition unsupported_currency (cur : str) : Error := InvalidRequest
  ("adyen: " +:+ cur +:+ " needs Adyen's non-ISO-standard minor-unit handling, which this adapter has not verified precisely; refusing rather than guessing").
Definition adyen_amount (amt : Z) (c : str) : Result Error Z :=
  let cur := normal_currency c in
  return_if lists_currency ADYEN_NON_ISO_STANDARD cur with_ Err (unsupported_currency cur);
  Ok amt.

Record PaymentLinkResponse := { pl_id : str; pl_url : str }.
Record AdyenErrorEnvelope := { error_status : Z; error_code : str; error_message : str }.
Record AmountObj := { ao_value : Z; ao_currency : str }.
Record NotificationRequestItem := {
  hmac_signature : str;
  ni_amount : AmountObj;
  event_code : str;
  merchant_reference : str;
  original_reference : str;
  psp_reference : str;
  ni_success : str;
}.
Record NotificationEnvelope := { live : str; notification_items : list NotificationRequestItem }.

(** ** proof.rs and the answers *)

Record ChargeProof := { payment_link_id : str; cp_psp_reference : option str; redirect : option str }.
Record RefundProof := { refund_psp_reference : str; status_at_refund : str }.
Record RefundResponse := { rr_psp_reference : str; rr_status : str }.
(** [hex_error] is the text of [hex::FromHexError]. *)
Class AdyenJson := {
  #[export] error_json :: FromJson AdyenErrorEnvelope;
  #[export] link_json :: FromJson PaymentLinkResponse;
  #[export] refund_json :: FromJson RefundResponse;
  #[export] envelope_json :: FromJson NotificationEnvelope;
  hex_error : str -> str;
}.
Definition classify_error `{AdyenJson} (code : Z) (body : list byte) : Error :=
  let env := default {| error_status := 0; error_code := EmptyString; error_message := EmptyString |}
    (result_ok (from_json body)) in
  api_status "adyen" code (or_no_message (error_message env) +:+ " (errorCode=" +:+ error_code env +:+ ")").

(** ** webhook.rs *)

Inductive AdyenWebhookError :=
  | MissingSignature | InvalidSignature
  | MalformedResponse (e : str)
  | UnhandledEvent (ty : str).
Definition adyen_webhook_error_display (e : AdyenWebhookError) : str :=
  match e with
  | MissingSignature => "payments: adyen: notification item has no additionalData.hmacSignature"
  | InvalidSignature => "payments: adyen: invalid HMAC signature"
  | MalformedResponse e => "payments: adyen: malformed API response: " +:+ e
  | UnhandledEvent ty => "payments: unhandled webhook event type: " +:+ ty
  end.
Record AdyenWebhookEvent := {
  ae_event_id : str;
  ae_reference : str;
  ae_settled : bool;
  ae_amount_minor : Z;
  ae_currency : str;
  ae_psp_reference : str;
}.

Section Items.
Context (base64_decode : str -> option (list byte)) (sha256_mac : Mac).

Definition signing_string (i : NotificationRequestItem) : str := str_join ":" [
  psp_reference i; original_reference i; EmptyString; merchant_reference i;
  to_dec (ao_value (ni_amount i)); ao_currency (ni_amount i); event_code i; ni_success i].
Definition verify_item_hmac (i : NotificationRequestItem) (key : list byte) : Result AdyenWebhookError unit :=
  let given := trim (hmac_signature i) in
  return_if is_empty given with_ Err MissingSignature;
  if verify_hmac_sha256_base64 base64_decode sha256_mac key (as_bytes (signing_string i)) given
  then Ok tt else Err InvalidSignature.
(** One turn of the loop: the answer, or why the item is passed over. *)
Definition item_event (key : list byte) (i : NotificationRequestItem) : Result AdyenWebhookError AdyenWebhookEvent :=
  _ ← verify_item_hmac i key;
  return_if negb (String.eqb (event_code i) "AUTHORISATION") with_ Err (UnhandledEvent (event_code i));
  return_if is_empty (merchant_reference i) with_ Err (MalformedResponse "missing merchantReference");
  return_if is_empty (psp_reference i) with_
    Err (MalformedResponse "no pspReference: this notificationItem carries no id to deduplicate on");
  let cur := normal_currency (ao_currency (ni_amount i)) in
  let event settled amt := {| ae_event_id := psp_reference i; ae_reference := merchant_reference i;
    ae_settled := settled; ae_amount_minor := amt; ae_currency := cur; ae_psp_reference := psp_reference i |} in
  if String.eqb (ni_success i) "true" then
    return_if ao_value (ni_amount i) =? 0 with_ Err (MalformedResponse "success=true with non-positive amount");
    Ok (event true (ao_value (ni_amount i)))
  else Ok (event false 0).
Fixpoint first_event (key : list byte) (last_err : AdyenWebhookError) (items : list NotificationRequestItem)
    : Result AdyenWebhookError AdyenWebhookEvent :=
  match items with
  | [] => Err last_err
  | i :: items =>
      match item_event key i with
      | Ok e => Ok e
      | Err e => first_event key e items
      end
  end.
Definition verify_and_parse `{AdyenJson} (key body : list byte) : Result AdyenWebhookError AdyenWebhookEvent :=
  env ← map_err MalformedResponse (from_json (T := NotificationEnvelope) body);
  return_if bool_decide (notification_items env = []) with_ Err (MalformedResponse "no notificationItems");
  first_event key (MalformedResponse "no notificationItems produced a settlement result") (notification_items env).
End Items.

(** ** config.rs *)

Record AdyenConfig := {
  cfg_api_key : str;
  cfg_merchant_account : str;
  hmac_key_hex : str;
  api_base_url : str;
  ad_requires_kyc : bool;
  ad_currencies : list str;
  ad_settlement_days : Z;
  ad_timeout_secs : Z;
}.
Definition adyen_config_from_env (env : Environment) : Result Error AdyenConfig :=
  key ← non_empty_env env "ADYEN_API_KEY";
  account ← non_empty_env env "ADYEN_MERCHANT_ACCOUNT";
  hmac ← non_empty_env env "ADYEN_HMAC_KEY";
  base ← non_empty_env env "ADYEN_API_BASE_URL";
  Ok {| cfg_api_key := key; cfg_merchant_account := account; hmac_key_hex := hmac; api_base_url := base;
        ad_requires_kyc := env_flag env "ADYEN_REQUIRES_KYC" true;
        ad_currencies := env_currencies env "ADYEN_CURRENCIES" [];
        ad_settlement_days := env_u8 env "ADYEN_SETTLEMENT_DAYS" 2;
        ad_timeout_secs := env_u64 env "ADYEN_TIMEOUT_SECS" 15 |}.

(** ** rail.rs *)

Record AdyenRail (W : Type) := {
  adyen_id : str;
  api_key : str;
  merchant_account : str;
  hmac_key : list byte;
  ad_http : HttpClient W;
  ad_capabilities : RailCapabilities;
  ad_base_url : str;
}.
Arguments adyen_id {W} _.
Arguments api_key {W} _.
Arguments merchant_account {W} _.
Arguments hmac_key {W} _.
Arguments ad_http {W} _.
Arguments ad_capabilities {W} _.
Arguments ad_base_url {W} _.

Definition adyen_new `{AdyenJson, Hex} {W} (c : AdyenConfig) (builder : HttpBuilder W) : Result Error (AdyenRail W) :=
  _ ← required "api_key" (cfg_api_key c);
  _ ← required "merchant_account" (cfg_merchant_account c);
  _ ← required "hmac_key_hex" (hmac_key_hex c);
  _ ← required "api_base_url" (api_base_url c);
  key ← ok_or (InvalidRequest ("hmac_key_hex is not valid hex: " +:+ hex_error (trim (hmac_key_hex c))))
    (hex_decode (trim (hmac_key_hex c)));
  http ← built_client "adyen" builder (ad_timeout_secs c);
  Ok {| adyen_id := "adyen"; api_key := cfg_api_key c; merchant_account := cfg_merchant_account c;
        hmac_key := key; ad_http := http;
        ad_capabilities := {|
          class := CustodialReversible; reversible := true; requires_kyc := ad_requires_kyc c;
          holds_funds := true; currencies := ad_currencies c; settlement := Days (ad_settlement_days c);
          atomic_multi_party := false |};
        ad_base_url := trim_end_slashes (api_base_url c) |}.

Definition safe_path_segment : str -> Result Error str := path_segment "an adyen id".

Section AdyenRail.
Context `{AdyenJson} `{!ProofBytes ChargeProof} `{!ProofBytes RefundProof} (base64_decode : str -> option (list byte))
  (sha256_mac : Mac) {W : Type} `{Clock W}.

Definition check_currency (r : AdyenRail W) : str -> Result Error unit :=
  check_unless_empty (adyen_id r) (currencies (ad_capabilities r)).
Definition json_call (r : AdyenRail W) (method path : str) (body : option Json) : HttpCall := {|
  hc_method := method; hc_url := ad_base_url r +:+ path; hc_basic_auth := None;
  hc_headers := [("X-API-Key", api_key r); ("Content-Type", "application/json"); ("Accept", "application/json")]%string;
  hc_body := json_body body |}.
Definition do_json (r : AdyenRail W) (method path : str) (body : option Json)
    : Eff W Error (list byte * Z) :=
  transport "adyen" path (ad_http r) (json_call r method path body).

Definition adyen_quote (r : AdyenRail W) (req : PayRequest) : Eff W Error Quote :=
  _ ← eff_of (validate req);
  _ ← eff_of (check_currency r (req_currency req));
  _ ← eff_of (adyen_amount (req_amount_minor req) (req_currency req));
  quoted (adyen_id r) (settlement (ad_capabilities r)) 300 (req_currency req) req.

Definition amount_json (amt : Z) (cur : str) : Json := JObject [("value", json_u64 amt); ("currency", JString cur)]%string.
Definition link_request (r : AdyenRail W) (req : PayRequest) (amt : Z) (cur : str) : Json := JObject [
  ("amount", amount_json amt cur); ("reference", JString (req_reference req));
  ("returnUrl", JString (req_destination req)); ("merchantAccount", JString (merchant_account r))]%string.
Definition adyen_charge (r : AdyenRail W) (req : PayRequest) : Eff W Error Receipt :=
  _ ← eff_of (validate req);
  _ ← eff_of (check_currency r (req_currency req));
  let cur := normal_currency (req_currency req) in
  amt ← eff_of (adyen_amount (req_amount_minor req) cur);
  body ← expect_2xx classify_error (do_json r "POST" "/paymentLinks" (Some (link_request r req amt cur)));
  parsed ← parse_as (T := PaymentLinkResponse) "adyen" body;
  return_if is_empty (pl_id parsed) || is_empty (pl_url parsed) with_
    eff_err (adyen_malformed "empty payment link id or url");
  mret (open_receipt (adyen_id r) cur (req_reference req)
    {| payment_link_id := pl_id parsed; cp_psp_reference := None; redirect := Some (pl_url parsed) |}).

Definition adyen_verify (r : AdyenRail W) (rc : Receipt) : Eff W Error bool := eff_err (Unsupported
  "verify (Adyen's Pay by Link resource cannot be looked up by merchant reference; rely on the AUTHORISATION webhook via crate::adyen::webhook::verify_and_parse as the authoritative settlement signal)").

Definition no_psp_reference : Error := Rail
  "adyen: receipt has no psp_reference -- refund requires a receipt whose proof was updated from a verified AUTHORISATION webhook (see proof.rs module docs)".
Definition refund_request (r : AdyenRail W) (rc : Receipt) (amt : Z) (cur : str) : Json := JObject [
  ("amount", amount_json amt cur); ("merchantAccount", JString (merchant_account r));
  ("reference", JString (reference rc))]%string.
Definition adyen_refund (r : AdyenRail W) (rc : Receipt) : Eff W Error Receipt :=
  return_if negb (String.eqb (rail_id rc) (adyen_id r)) with_ eff_err (other_rail (adyen_id r) rc);
  p ← eff_of (ok_or (InvalidRequest "receipt proof is not an adyen charge proof")
    (from_bytes (P := ChargeProof) (proof rc)));
  let psp := default EmptyString (cp_psp_reference p) in
  return_if is_blank psp with_ eff_err no_psp_reference;
  psp ← eff_of (safe_path_segment psp);
  let cur := normal_currency (currency rc) in
  amt ← eff_of (adyen_amount (amount_minor rc) cur);
  body ← expect_2xx classify_error
    (do_json r "POST" ("/payments/" +:+ psp +:+ "/refunds") (Some (refund_request r rc amt cur)));
  parsed ← parse_as (T := RefundResponse) "adyen" body;
  mret (open_receipt (adyen_id r) cur (reference rc)
    {| refund_psp_reference := rr_psp_reference parsed; status_at_refund := rr_status parsed |}).

Definition adyen_webhook (r : AdyenRail W) (d : WebhookDelivery) : Result Error WebhookEvent :=
  event ← map_err (fun e => InvalidRequest (adyen_webhook_error_display e))
    (verify_and_parse base64_decode sha256_mac (hmac_key r) (raw_body d));
  Ok (with_object_id (ae_psp_reference event)
    (settlement_event (adyen_id r) (ae_event_id event) (ae_reference event) (ae_settled event)
       (ae_amount_minor event) (ae_currency event))).
Definition adyen_rail (r : AdyenRail W) : PaymentRail W := {|
  id := adyen_id r;
  capabilities := ad_capabilities r;
  quote := adyen_quote r;
  charge := adyen_charge r;
  verify := adyen_verify r;
  validate_destination := redirect_url (adyen_id r);
  refund := adyen_refund r;
  verify_webhook d := eff_of (adyen_webhook r d);
|}.
End AdyenRail.
#[export] Hint Unfold adyen_rail adyen_new adyen_charge adyen_quote safe_path_segment do_json : adapter.

(** ** Lemmas *)

Section AdyenLemmas.
Context `{AdyenJson} `{!ProofBytes ChargeProof} `{!ProofBytes RefundProof} (base64_decode : str -> option (list byte))
  (sha256_mac : Mac) {W : Type} `{Clock W}.

(** The answer comes from one item, and every item before it was passed over. *)
Lemma first_event_spec key last_err items e :
  first_event base64_decode sha256_mac key last_err items = Ok e <->
  exists before i after, items = before ++ i :: after /\ item_event base64_decode sha256_mac key i = Ok e /\
    Forall (fun j => is_ok (item_event base64_decode sha256_mac key j) = false) before.
Proof.
  revert last_err. induction items as [|i items IH]; intros last_err; cbn.
  - split; [done|]. intros (before & i & after & Hi & _). now destruct before.
  - destruct (item_event base64_decode sha256_mac key i) as [e'|err] eqn:Ei; [|rewrite IH]; split.
    + intros [= <-]. exists [], i, items. split; [done|]. split; [done | constructor].
    + intros ([|b before] & j & after & [= -> ->] & Hj & Hb); [congruence|].
      apply Forall_cons in Hb as [Hb _]. now rewrite Ei in Hb.
    + intros (before & j & after & -> & Hj & Hb). exists (i :: before), j, after. split; [done|]. split; [done|].
      constructor; [now rewrite Ei | done].
    + intros ([|b before] & j & after & [= -> ->] & Hj & Hb); [congruence|]. apply Forall_cons in Hb as [_ Hb].
      exists before, j, after. done.
Qed.
Definition item_signed (key : list byte) (i : NotificationRequestItem) : Prop :=
  base64_signed base64_decode sha256_mac key (as_bytes (signing_string i)) (trim (hmac_signature i)).
Lemma item_event_signed key i e : item_event base64_decode sha256_mac key i = Ok e ->
  item_signed key i /\ event_code i = "AUTHORISATION"%string /\ ae_event_id e = psp_reference i /\
  psp_reference i <> EmptyString /\ ae_reference e = merchant_reference i /\
  (ae_settled e = true -> ni_success i = "true"%string /\ ae_amount_minor e = ao_value (ni_amount i) /\ ao_value (ni_amount i) <> 0).
Proof.
  unfold item_event, verify_item_hmac. intros He. run_inv He.
  destruct (verify_hmac_sha256_base64 _ _ _ _ _) eqn:Es in Hx; [|done]. apply base64_signed_spec in Es.
  apply negb_false_iff, String.eqb_eq in Hc0. apply is_empty_false in Hc1, Hc2. revert He.
  destruct (String.eqb_spec (ni_success i) "true"); intros He.
  - run_inv He. injection He as <-. apply Z.eqb_neq in Hc3. done.
  - injection He as <-. done.
Qed.
Definition adyen_authentic (r : AdyenRail W) (d : WebhookDelivery) (w : W) : Prop :=
  exists env i, from_json (T := NotificationEnvelope) (raw_body d) = Ok env /\ In i (notification_items env) /\
    item_signed (hmac_key r) i /\ event_code i = "AUTHORISATION"%string.
Definition adyen_places : Places := {|
  amount_at := ["amount"; "value"]; currency_at := At ["amount"; "currency"];
  reference_at := ["reference"] |}%string.
Definition adyen_ordered (r : AdyenRail W) (o : Order) (rc : Receipt) (w w' : W) : Prop :=
  ordered_by (ad_http r) "POST" (ad_base_url r +:+ "/paymentLinks") (reads adyen_places) o w w'.
#[export] Instance adyen_orders r : ChargeOrders (adyen_rail base64_decode sha256_mac r) (exactly in_minor_units) (adyen_ordered r).
Proof.
  intros q rc w w' Hu Hc. charge_inv Hc. unfold adyen_amount in Hx1. run_inv Hx1. injection Hx1 as <-.
  orders (to_dec (req_amount_minor q)) (normal_currency (req_currency q)). sent.
Qed.
#[export] Instance adyen_opens r : ChargeOpens (adyen_rail base64_decode sha256_mac r).
Proof. charge_opens. Qed.
#[export] Instance adyen_quotes r : QuotesCharge (adyen_rail base64_decode sha256_mac r) 300.
Proof. quotes_before. same_guard adyen_amount. Qed.
Definition adyen_refunded (r : AdyenRail W) (text : str) (rc : Receipt) (w w' : W) : Prop :=
  exists cp psp, from_bytes (P := ChargeProof) (proof rc) = Some cp /\ cp_psp_reference cp = Some psp /\
    called (ad_http r) "POST" (ad_base_url r +:+ "/payments/" +:+ psp +:+ "/refunds") (fun b =>
      body_at ["amount"; "value"]%string b = Some text /\
      body_at ["amount"; "currency"]%string b = Some (normal_currency (currency rc)) /\
      body_at ["reference"%string] b = Some (reference rc)) w w'.
#[export] Instance adyen_refunds r : RefundOrders (adyen_rail base64_decode sha256_mac r) (exactly in_minor_units) (adyen_refunded r).
Proof.
  intros rc rc' w w' Hu Hr. cbn in Hr. unfold adyen_refund in Hr. refund_inv Hr.
  destruct (cp_psp_reference x) as [psp|] eqn:Ep; [|discriminate]. cbn [default] in *.
  match goal with Ha : adyen_amount _ _ = Ok _ |- _ => unfold adyen_amount in Ha; run_inv Ha; injection Ha as <- end.
  refunds Hr (to_dec (amount_minor rc)). do 2 eexists. split; [eassumption|]. split; [eassumption | sent].
Qed.
#[export] Instance adyen_webhook_answers r :
  WebhookAnswers (adyen_rail base64_decode sha256_mac r) (adyen_authentic r).
Proof.
  intros d w ev w' Hw. cbn [verify_webhook adyen_rail] in Hw.
  unfold adyen_webhook, verify_and_parse in Hw. run_inv Hw. simplify_eq.
  apply first_event_spec in Hx as (before & i & after & Hi & He & _).
  apply item_event_signed in He as (Hs & Hcode & Hid & Hn & _). split; [done|]. split.
  - cbn. now rewrite Hid.
  - unfold adyen_authentic. eexists _, i. split; [eassumption|]. rewrite Hi. split; [|done].
    apply in_or_app. right. now left.
Qed.

(** verify is an error whatever the receipt, even one of another rail: the first
    of the seam's laws does not hold here. *)
Lemma adyen_verify_unsupported (r : AdyenRail W) rc w :
  exists what, verify (adyen_rail base64_decode sha256_mac r) rc w = (Err (Unsupported what), w).
Proof. now eexists. Qed.
End AdyenLemmas.
