(* ===== verification/PayFast.v ===== *)
(** * The PayFast adapter ([patala-fiat/src/payfast/*.rs])

    A signed redirect the buyer's browser follows: charge makes no call. There is
    nothing to poll, so verify is unsupported; settlement is an ITN whose MD5
    signature is recomputed from its body and which PayFast is asked to confirm. *)

From S2P Require Import Prelude RustStr Core External HttpShared FiatDest Json Currency Adapter Orders UrlForm.

(** ** models.rs *)

Definition payfast_malformed (detail : str) : Error := Rail ("payfast: malformed ITN payload: " +:+ detail).
Definition unsupported_currency (got : str) : Error :=
  InvalidRequest ("payfast: only ZAR is supported, got " +:+ debug_str got).
Definition unexpected_status (msg : str) : Error :=
  Rail ("payfast: unexpected API response status: " +:+ msg).
Record Kv := { key : str; value : str }.

Definition escape_char (a : ascii) : str :=
  if query_safe a then String a EmptyString
  else if Ascii.eqb a " " then "+"
  else String "%" (String (hex_digit_upper (code a / 16)) (String (hex_digit_upper (code a mod 16)) EmptyString)).
Fixpoint query_escape (s : str) : str :=
  match s with EmptyString => EmptyString | String a s => escape_char a +:+ query_escape s end.
Fixpoint unescape_bytes (l : list byte) : option (list byte) :=
  match l with
  | [] => Some []
  | b :: t =>
      if Byte.eqb b x2b then cons x20 <$> unescape_bytes t
      else if Byte.eqb b x25 then
        match t with
        | hi :: lo :: t' => c ← hex_radix2 hi lo; cons c <$> unescape_bytes t'
        | _ => None
        end
      else cons b <$> unescape_bytes t
  end.
Definition query_unescape (s : str) : option str := unescape_bytes (as_bytes s) ≫= from_utf8.

Section Signature.
Context `{Hex} (md5 : list byte -> list byte).
Definition field_part (kv : Kv) : str := key kv +:+ "=" +:+ query_escape (value kv).
Definition signed_parts (fields : list Kv) (passphrase : str) : list str :=
  map field_part (List.filter (fun kv => negb (is_empty (value kv))) fields)
  ++ (if is_empty passphrase then [] else ["passphrase=" +:+ query_escape passphrase]).
Definition compute_signature (fields : list Kv) (passphrase : str) : str :=
  hex_encode (md5 (as_bytes (str_join "&" (signed_parts fields passphrase)))).

(** A pair whose key and value both decode. *)
Definition decoded_pair (kv : str * str) : option Kv :=
  k ← query_unescape kv.1; v ← query_unescape kv.2; Some {| key := k; value := v |}.
Definition signed_fields (body : str) : list Kv :=
  omap decoded_pair (List.filter (fun kv => negb (String.eqb kv.1 "signature")) (form_pairs body)).
Definition verify_signature (raw_body : list byte) (given passphrase : str) : bool :=
  return_if is_empty given with_ false;
  let_some body := from_utf8 raw_body or_else false;
  constant_time_eq (as_bytes (compute_signature (signed_fields body) passphrase)) (as_bytes given).
End Signature.
Definition parse_query_map (raw_body : list byte) : Result Error (gmap str str) :=
  body ← ok_or (payfast_malformed "notification body is not valid UTF-8") (from_utf8 raw_body);
  Ok (fold_left (fun m kv => <[key kv := value kv]> m) (omap decoded_pair (form_pairs body)) ∅).

Record NotificationOutcome := {
  no_reference : str;
  no_event_id : str;
  no_settled : bool;
  no_amount_minor : Z;
}.
Definition get (k : str) (m : gmap str str) : str := default EmptyString (m !! k).
Definition evaluate_notification (values : gmap str str) : Result Error NotificationOutcome :=
  let ref := get "m_payment_id" values in
  let amt_str := get "amount_gross" values in
  let pf_id := get "pf_payment_id" values in
  return_if is_empty ref || is_empty amt_str with_ Err (payfast_malformed "missing m_payment_id or amount_gross");
  return_if is_empty pf_id with_
    Err (payfast_malformed "no pf_payment_id: this notification carries no id to deduplicate on");
  amt ← map_err (fun e => payfast_malformed ("amount_gross " +:+ debug_str amt_str +:+ ": " +:+ currency_error_display e))
    (major_string_to_minor amt_str "ZAR");
  if String.eqb (get "payment_status" values) "COMPLETE" then
    return_if amt =? 0 with_ Err (payfast_malformed "COMPLETE status with non-positive amount");
    Ok {| no_reference := ref; no_event_id := pf_id; no_settled := true; no_amount_minor := amt |}
  else Ok {| no_reference := ref; no_event_id := pf_id; no_settled := false; no_amount_minor := 0 |}.

(** ** proof.rs *)

Record ChargeProof := { proof_process_url : str; signed_fields_query : str }.

(** ** webhook.rs *)

Inductive PayFastWebhookError := MissingSignature | InvalidSignature | MalformedNotification (e : str).
Definition payfast_webhook_error_display (e : PayFastWebhookError) : str :=
  match e with
  | MissingSignature => "payments: payfast: missing signature field"
  | InvalidSignature => "payments: payfast: invalid signature"
  | MalformedNotification e => "payments: payfast: malformed ITN payload: " +:+ e
  end.
Record PayFastNotificationEvent := {
  pfe_reference : str;
  pfe_event_id : str;
  pfe_settled : bool;
  pfe_amount_minor : Z;
}.
Definition verify_and_parse `{Hex} (md5 : list byte -> list byte) (passphrase : str) (raw_body : list byte)
    : Result PayFastWebhookError PayFastNotificationEvent :=
  values ← map_err (fun e => MalformedNotification (error_display e)) (parse_query_map raw_body);
  let given := get "signature" values in
  return_if is_empty given with_ Err MissingSignature;
  return_if negb (verify_signature md5 raw_body given passphrase) with_ Err InvalidSignature;
  outcome ← map_err (fun e => MalformedNotification (error_display e)) (evaluate_notification values);
  Ok {| pfe_reference := no_reference outcome; pfe_event_id := no_event_id outcome;
        pfe_settled := no_settled outcome; pfe_amount_minor := no_amount_minor outcome |}.

(** ** config.rs *)

Record PayFastConfig := {
  merchant_id : str;
  merchant_key : str;
  passphrase : str;
  pf_requires_kyc : bool;
  pf_settlement_days : Z;
  pf_timeout_secs : Z;
}.
Definition payfast_config_from_env (env : Environment) : Result Error PayFastConfig :=
  mid ← non_empty_env env "PAYFAST_MERCHANT_ID";
  mkey ← non_empty_env env "PAYFAST_MERCHANT_KEY";
  Ok {| merchant_id := mid; merchant_key := mkey;
        passphrase := default EmptyString (env "PAYFAST_PASSPHRASE"%string);
        pf_requires_kyc := env_flag env "PAYFAST_REQUIRES_KYC" true;
        pf_settlement_days := env_u8 env "PAYFAST_SETTLEMENT_DAYS" 2;
        pf_timeout_secs := env_u64 env "PAYFAST_TIMEOUT_SECS" 15 |}.

(** ** rail.rs *)

Definition PAYFAST_PROCESS_URL : str := "https://www.payfast.co.za/eng/process".
Definition PAYFAST_VALIDATE_URL : str := "https://www.payfast.co.za/eng/query/validate".
Record PayFastRail (W : Type) := {
  payfast_id : str;
  pf_config : PayFastConfig;
  pf_http : HttpClient W;
  pf_capabilities : RailCapabilities;
  process_url : str;
  validate_url : str;
}.
Arguments payfast_id {W} _.
Arguments pf_config {W} _.
Arguments pf_http {W} _.
Arguments pf_capabilities {W} _.
Arguments process_url {W} _.
Arguments validate_url {W} _.

Definition payfast_new {W} (c : PayFastConfig) (builder : HttpBuilder W) : Result Error (PayFastRail W) :=
  _ ← required "merchant_id" (merchant_id c);
  _ ← required "merchant_key" (merchant_key c);
  http ← built_client "payfast" builder (pf_timeout_secs c);
  Ok {| payfast_id := "payfast"; pf_config := c; pf_http := http;
        pf_capabilities := {|
          class := CustodialReversible; reversible := true; requires_kyc := pf_requires_kyc c;
          holds_funds := true; currencies := ["ZAR"%string]; settlement := Days (pf_settlement_days c);
          atomic_multi_party := false |};
        process_url := PAYFAST_PROCESS_URL; validate_url := PAYFAST_VALIDATE_URL |}.

Section PayFastRail.
Context `{!ProofBytes ChargeProof} `{Hex} (md5 : list byte -> list byte) {W : Type} `{Clock W}.

Definition check_currency (cur : str) : Result Error unit :=
  return_if negb (eq_ignore_ascii_case cur "ZAR") with_ Err (unsupported_currency cur);
  Ok tt.
Definition zar_string (amt : Z) : Result Error str :=
  map_err (fun e => InvalidRequest (currency_error_display e)) (minor_to_major_string amt "ZAR").
#[global] Arguments zar_string : simpl never.

Definition validate_call (r : PayFastRail W) (raw_body : list byte) : HttpCall := {|
  hc_method := "POST"; hc_url := validate_url r; hc_basic_auth := None;
  hc_headers := [("Content-Type", "application/x-www-form-urlencoded")]%string;
  hc_body := RawBody raw_body |}.
Definition validate_failed (e : HttpFailure) : str :=
  match e with
  | SendFailed e => "payfast: validate request failed: " +:+ e
  | BodyFailed e => "payfast: failed reading validate response: " +:+ e
  end.
Definition not_valid : Error := Rail "payfast: server-side validate confirmation did not return VALID".
Definition confirm_with_payfast (r : PayFastRail W) (raw_body : list byte) : Eff W Error unit :=
  body ← expect_2xx (fun code _ => unexpected_status ("validate endpoint returned http " +:+ to_dec code))
    (transport_saying validate_failed "payfast" (pf_http r) (validate_call r raw_body));
  return_if negb (String.eqb (trim (from_utf8_lossy body)) "VALID") with_ eff_err not_valid;
  mret tt.
Definition handle_itn (r : PayFastRail W) (raw_body : list byte) : Eff W Error PayFastNotificationEvent :=
  _ ← eff_of (map_err (fun e => Rail ("payfast: " +:+ e)) (bounded_len_check raw_body DEFAULT_MAX_BODY_BYTES));
  event ← eff_of (map_err (fun e => Rail (payfast_webhook_error_display e))
    (verify_and_parse md5 (passphrase (pf_config r)) raw_body));
  _ ← confirm_with_payfast r raw_body;
  mret event.

Definition payfast_quote (r : PayFastRail W) (req : PayRequest) : Eff W Error Quote :=
  _ ← eff_of (validate req);
  _ ← eff_of (check_currency (req_currency req));
  _ ← eff_of (zar_string (req_amount_minor req));
  quoted (payfast_id r) (settlement (pf_capabilities r)) 300 "ZAR" req.

Definition charge_fields (c : PayFastConfig) (req : PayRequest) (amt : str) : list Kv :=
  let callback := trim (req_destination req) in
  map (fun kv => {| key := kv.1; value := kv.2 |}) [
    ("merchant_id", merchant_id c); ("merchant_key", merchant_key c); ("return_url", callback);
    ("cancel_url", callback); ("notify_url", EmptyString); ("m_payment_id", req_reference req);
    ("amount", amt); ("item_name", "Order " +:+ req_reference req)]%string.
Definition push_field (qs : str) (kv : Kv) : str :=
  if is_empty (value kv) then qs
  else (if is_empty qs then qs else qs +:+ "&") +:+ field_part kv.
Definition payfast_charge (r : PayFastRail W) (req : PayRequest) : Eff W Error Receipt :=
  _ ← eff_of (validate req);
  _ ← eff_of (check_currency (req_currency req));
  amt ← eff_of (zar_string (req_amount_minor req));
  let fields := charge_fields (pf_config r) req amt in
  let qs := fold_left push_field fields EmptyString in
  mret (open_receipt (payfast_id r) "ZAR" (req_reference req)
    {| proof_process_url := process_url r;
       signed_fields_query := qs +:+ "&signature=" +:+ compute_signature md5 fields (passphrase (pf_config r)) |}).

Definition payfast_verify (r : PayFastRail W) (rc : Receipt) : Eff W Error bool :=
  eff_err (Unsupported "verify (payfast has no polling endpoint; use handle_itn instead)").

Definition payfast_webhook (r : PayFastRail W) (d : WebhookDelivery) : Eff W Error WebhookEvent :=
  event ← handle_itn r (raw_body d);
  mret (settlement_event (payfast_id r) (pfe_event_id event) (pfe_reference event) (pfe_settled event)
    (pfe_amount_minor event) "ZAR").
Definition payfast_rail (r : PayFastRail W) : PaymentRail W := {|
  id := payfast_id r;
  capabilities := pf_capabilities r;
  quote := payfast_quote r;
  charge := payfast_charge r;
  verify := payfast_verify r;
  validate_destination := redirect_url (payfast_id r);
  refund := default_refund;
  verify_webhook := payfast_webhook r;
|}.
End PayFastRail.
#[export] Hint Unfold payfast_rail payfast_new payfast_charge payfast_quote : adapter.

(** ** Lemmas *)

Lemma unescape_escape_char a l :
  unescape_bytes (as_bytes (escape_char a) ++ l) = cons (byte_of_ascii a) <$> unescape_bytes l.
Proof. destruct a as [[] [] [] [] [] [] [] []]; reflexivity. Qed.
Lemma unescape_query_escape s : unescape_bytes (as_bytes (query_escape s)) = Some (as_bytes s).
Proof.
  induction s as [|a s IH]; [done|]. cbn [query_escape]. rewrite as_bytes_app, unescape_escape_char, IH. done.
Qed.

Section PayFastLemmas.
Context `{!ProofBytes ChargeProof} `{Hex} (md5 : list byte -> list byte) {W : Type} `{Clock W}.

(** A text whose signature field is the digest of its other fields. *)
Definition payfast_signed (passphrase : str) (raw_body : list byte) : Prop :=
  exists body values, from_utf8 raw_body = Some body /\ parse_query_map raw_body = Ok values /\
    get "signature" values <> EmptyString /\
    compute_signature md5 (signed_fields body) passphrase = get "signature" values.
Lemma verify_signature_spec raw given pass : verify_signature md5 raw given pass = true <->
  given <> EmptyString /\ exists body, from_utf8 raw = Some body /\ compute_signature md5 (signed_fields body) pass = given.
Proof.
  unfold verify_signature. destruct (is_empty given) eqn:Eg.
  { apply is_empty_spec in Eg. split; [done | tauto]. }
  apply is_empty_false in Eg. destruct (from_utf8 raw) as [body|]; [|split; [done | naive_solver]].
  rewrite constant_time_eq_spec. split.
  - intros E%as_bytes_inj. eauto.
  - intros (_ & ? & [= <-] & E). now rewrite E.
Qed.
(** PayFast was asked about this very body, and answered VALID. *)
Definition payfast_confirmed (r : PayFastRail W) (raw_body : list byte) (w w' : W) : Prop :=
  exists answer, answered (pf_http r) (validate_call r raw_body) w answer w' /\ trim (from_utf8_lossy answer) = "VALID"%string.
Lemma confirm_with_payfast_Ok r raw w u w' :
  confirm_with_payfast r raw w = (Ok u, w') <-> payfast_confirmed r raw w w'.
Proof.
  unfold confirm_with_payfast, payfast_confirmed. split.
  - intros Hc. run_inv Hc. apply expect_2xx_saying_Ok in Hx. apply negb_false_iff, String.eqb_eq in Hc0. subst. eauto.
  - intros (answer & Ha & Hv). eapply expect_2xx_saying_Ok in Ha. apply eff_bind_Ok. do 2 eexists. split; [exact Ha|].
    rewrite Hv. now destruct u.
Qed.
Definition payfast_authentic (r : PayFastRail W) (d : WebhookDelivery) (w : W) : Prop :=
  payfast_signed (passphrase (pf_config r)) (raw_body d) /\ exists w', payfast_confirmed r (raw_body d) w w'.
Lemma evaluate_notification_id values o : evaluate_notification values = Ok o -> no_event_id o <> EmptyString.
Proof.
  unfold evaluate_notification. intros He. run_inv He. apply is_empty_false in Hc0. revert He.
  destruct (String.eqb _ _); intros He; [run_inv He|]; now injection He as <-.
Qed.
Definition payfast_places : Places := {|
  amount_at := ["amount"%string]; currency_at := Always "ZAR"; reference_at := ["m_payment_id"%string] |}.
Definition signed_query (fields : list Kv) (pass : str) : str :=
  fold_left push_field fields EmptyString +:+ "&signature=" +:+ compute_signature md5 fields pass.
(** Nothing is sent: the receipt's proof is the signed form the buyer is sent to. *)
Definition payfast_ordered (r : PayFastRail W) (o : Order) (rc : Receipt) (w w' : W) : Prop :=
  w' = w /\ exists fields, reads payfast_places (FormBody (map (fun kv => (key kv, value kv)) fields)) o /\
    proof rc = to_bytes {| proof_process_url := process_url r;
                           signed_fields_query := signed_query fields (passphrase (pf_config r)) |}.
#[export] Instance payfast_orders r : ChargeOrders (payfast_rail md5 r) (exactly in_major_units) (payfast_ordered r).
Proof.
  intros q rc w w' Hu Hc. charge_inv Hc. unfold check_currency in Hx0. run_inv Hx0. apply negb_false_iff in Hc0.
  unfold zar_string in Hx1. run_inv Hx1. major_orders "ZAR"%string. subst rc.
  split; [done|]. eexists. split; [|reflexivity]. now repeat split.
Qed.
#[export] Instance payfast_opens r : ChargeOpens (payfast_rail md5 r).
Proof. charge_opens. Qed.
#[export] Instance payfast_quotes r : QuotesCharge (payfast_rail md5 r) 300.
Proof. quotes_before. eapply only_same; eassumption. Qed.
#[export] Instance payfast_webhook_answers r : WebhookAnswers (payfast_rail md5 r) (payfast_authentic r).
Proof.
  intros d w ev w' Hw. cbn [verify_webhook payfast_rail] in Hw.
  unfold payfast_webhook, handle_itn, verify_and_parse in Hw. run_inv Hw. simplify_eq.
  apply negb_false_iff, verify_signature_spec in Hc0 as (Hn & body & Hb & Hs).
  match goal with Hx : confirm_with_payfast _ _ _ = _ |- _ => apply confirm_with_payfast_Ok in Hx end.
  split; [done|]. split.
  - cbn. eapply evaluate_notification_id; eassumption.
  - split; [|eauto]. unfold payfast_signed. eauto 10.
Qed.
Lemma payfast_verify_unsupported (r : PayFastRail W) rc w :
  exists what, verify (payfast_rail md5 r) rc w = (Err (Unsupported what), w).
Proof. now eexists. Qed.
End PayFastLemmas.
