(* ===== verification/Iyzico.v ===== *)
(** * The iyzico adapter ([patala-fiat/src/iyzico/*.rs])

    Hosted checkout forms, known by a token. Requests are signed over a nonce
    taken from the clock. A callback is not authenticated at all: it names a
    token, and the adapter answers from what it retrieves for that token. *)

From S2P Require Import Prelude RustStr Core External HttpShared FiatDest Json Currency Adapter Orders UrlForm.

(** ** models.rs *)

Definition iyzico_malformed : str -> Error := api_malformed "iyzico".
Definition unexpected_status (msg : str) : Error := Rail ("iyzico: unexpected API response status: " +:+ msg).
Record IyzicoCheckoutFormResult := {
  cf_status : str;
  payment_status : str;
  cf_token : str;
  cf_payment_id : str;
  paid_price : str;
  cf_currency : str;
  basket_id : str;
  cf_error_message : str;
}.
Record CheckoutOutcome := {
  co_event_id : str;
  co_settled : bool;
  co_amount_minor : Z;
  co_currency : str;
}.
(** The message of a refusal: the processor's own, or the status it gave. *)
Definition refusal (status msg : str) : Error :=
  unexpected_status (if is_empty msg then "status=" +:+ debug_str status else msg).
Definition form_amount (res : IyzicoCheckoutFormResult) : Result Error Z :=
  return_if is_empty (paid_price res) with_ Ok 0;
  map_err (fun e => iyzico_malformed ("paidPrice " +:+ debug_str (paid_price res) +:+ ": " +:+ currency_error_display e))
    (major_string_to_minor (paid_price res) (normal_currency (cf_currency res))).
Definition evaluate_checkout_form (res : IyzicoCheckoutFormResult) : Result Error CheckoutOutcome :=
  return_if negb (String.eqb (cf_status res) "success") with_ Err (refusal (cf_status res) (cf_error_message res));
  let cur := normal_currency (cf_currency res) in
  amt ← form_amount res;
  if String.eqb (payment_status res) "SUCCESS" then
    return_if (amt =? 0) || is_empty (cf_payment_id res) with_
      Err (iyzico_malformed "SUCCESS status with non-positive amount or no paymentId");
    Ok {| co_event_id := cf_payment_id res; co_settled := true; co_amount_minor := amt; co_currency := cur |}
  else Ok {| co_event_id := cf_payment_id res; co_settled := false; co_amount_minor := 0; co_currency := cur |}.

(** ** proof.rs, what [rail.rs] sends and reads *)

Record ChargeProof := { token : str; proof_redirect_url : option str }.
Record ErrorEnvelope := { env_error_message : str }.
Record RetrieveRequest := { rt_locale : str; rt_conversation_id : str; rt_token : str }.
Record BeginRequest := {
  bg_locale : str;
  bg_conversation_id : str;
  bg_price : str;
  bg_paid_price : str;
  bg_currency : str;
  bg_basket_id : str;
  bg_payment_group : str;
  bg_callback_url : str;
}.
Record CreateResponse := { cr_status : str; cr_token : str; payment_page_url : str; cr_error_message : str }.
Record CallbackPayload := { cb_token : str }.
(** [to_vec] of the two requests, SHA-1 and base64. *)
Class IyzicoJson := {
  #[export] error_json :: FromJson ErrorEnvelope;
  #[export] create_json :: FromJson CreateResponse;
  #[export] form_json :: FromJson IyzicoCheckoutFormResult;
  #[export] callback_json :: FromJson CallbackPayload;
  retrieve_to_vec : RetrieveRequest -> Result str (list byte);
  begin_to_vec : BeginRequest -> Result str (list byte);
  sha1 : list byte -> list byte;
  base64_encode : list byte -> str;
}.
Definition classify_error `{IyzicoJson} (code : Z) (body : list byte) : Error :=
  let env := default {| env_error_message := EmptyString |} (result_ok (from_json body)) in
  api_status "iyzico" code (or_no_message (env_error_message env)).

(** ** webhook.rs *)

(** Indexing [&v[i + 1..i + 3]] panics where [i + 3] is not a character
    boundary: where the third byte after the [%] continues a character.
    [None] is that panic. *)
Definition slice_panics (after : list byte) : bool :=
  match after with b :: _ => continuation b | [] => false end.
Fixpoint decode_bytes (l : list byte) : option (list byte) :=
  match l with
  | [] => Some []
  | b :: t =>
      if Byte.eqb b x2b then cons x20 <$> decode_bytes t
      else if Byte.eqb b x25 then
        match t with
        | hi :: lo :: t' =>
            return_if slice_panics t' with_ None;
            match hex_radix2 hi lo with
            | Some c => cons c <$> decode_bytes t'
            | None => cons b <$> decode_bytes t
            end
        | _ => cons b <$> decode_bytes t
        end
      else cons b <$> decode_bytes t
  end.
Definition percent_decode_form_value (v : str) : option str :=
  out ← decode_bytes (as_bytes v); Some (default v (from_utf8 out)).
(** The loop over the pairs of a form body: it gives up at the first pair
    without a [=]. *)
Fixpoint find_token (pairs : list str) : option (option str) :=
  match pairs with
  | [] => Some None
  | p :: pairs =>
      match split_once "=" p with
      | None => Some None
      | Some (k, v) =>
          if String.eqb k "token" then Some <$> percent_decode_form_value v else find_token pairs
      end
  end.
Definition extract_token `{IyzicoJson} (content_type : str) (raw_body : list byte) : option (option str) :=
  if contains_str "application/json" content_type then
    Some (p ← result_ok (from_json (T := CallbackPayload) raw_body);
          if is_empty (cb_token p) then None else Some (cb_token p))
  else
    match from_utf8 raw_body with
    | Some body => find_token (split_char "&" body)
    | None => Some None
    end.
Definition missing_token : Error := Rail "payments: iyzico: callback carried no token".
Record IyzicoWebhookOutcome := {
  wo_token : str;
  wo_settled : bool;
  wo_amount_minor : Z;
  wo_currency : str;
}.

(** ** config.rs *)

Definition PRODUCTION_BASE_URL : str := "https://api.iyzipay.com".
Definition DEFAULT_CURRENCIES : list str := ["TRY"; "USD"; "EUR"; "GBP"]%string.
Record IyzicoConfig := {
  api_key : str;
  secret_key : str;
  base_url : str;
  iz_requires_kyc : bool;
  iz_currencies : list str;
  iz_settlement_days : Z;
  iz_timeout_secs : Z;
}.
Definition iyzico_config_from_env (env : Environment) : Result Error IyzicoConfig :=
  key ← non_empty_env env "IYZICO_API_KEY";
  secret ← non_empty_env env "IYZICO_SECRET_KEY";
  let base := default EmptyString (env "IYZICO_BASE_URL"%string) in
  Ok {| api_key := key; secret_key := secret;
        base_url := if is_blank base then PRODUCTION_BASE_URL else base;
        iz_requires_kyc := env_flag env "IYZICO_REQUIRES_KYC" true;
        iz_currencies := env_currencies env "IYZICO_CURRENCIES" DEFAULT_CURRENCIES;
        iz_settlement_days := env_u8 env "IYZICO_SETTLEMENT_DAYS" 2;
        iz_timeout_secs := env_u64 env "IYZICO_TIMEOUT_SECS" 15 |}.

(** ** rail.rs *)

Record IyzicoRail (W : Type) := {
  iyzico_id : str;
  iz_config : IyzicoConfig;
  iz_http : HttpClient W;
  iz_capabilities : RailCapabilities;
  iz_base_url : str;
}.
Arguments iyzico_id {W} _.
Arguments iz_config {W} _.
Arguments iz_http {W} _.
Arguments iz_capabilities {W} _.
Arguments iz_base_url {W} _.

Definition iyzico_new {W} (c : IyzicoConfig) (builder : HttpBuilder W) : Result Error (IyzicoRail W) :=
  _ ← required "api_key" (api_key c);
  _ ← required "secret_key" (secret_key c);
  return_if bool_decide (iz_currencies c = []) with_ Err (InvalidRequest "currencies must not be empty");
  http ← built_client "iyzico" builder (iz_timeout_secs c);
  Ok {| iyzico_id := "iyzico"; iz_config := c; iz_http := http;
        iz_capabilities := {|
          class := CustodialReversible; reversible := true; requires_kyc := iz_requires_kyc c;
          holds_funds := true; currencies := iz_currencies c; settlement := Days (iz_settlement_days c);
          atomic_multi_party := false |};
        iz_base_url := base_url c |}.

Definition is_safe_token (s : str) : bool :=
  negb (is_empty s || str_any (fun a => existsb (Ascii.eqb a) ["009"; "010"; "013"]%char) s).
Definition safe_reference (s : str) : Result Error str :=
  return_if negb (is_safe_token s) with_ Err (InvalidRequest ("value " +:+ debug_str s +:+ " is not a safe iyzico token"));
  Ok s.

(** The clock in nanoseconds, the source of the request nonces. *)
Class NanoClock (W : Type) := now_nanos : W -> Z * W.

(** [panicked] is what becomes of a call whose thread panics. *)
Section IyzicoRail.
Context `{IyzicoJson} `{!ProofBytes ChargeProof} {W : Type} `{Clock W, NanoClock W}
  (panicked : Eff W Error IyzicoWebhookOutcome).

Definition check_currency (r : IyzicoRail W) : str -> Result Error unit :=
  check_listed (iyzico_id r) (currencies (iz_capabilities r)).
Definition auth_headers (c : IyzicoConfig) (random_key : str) (body : list byte) : str * str :=
  ("IYZWS " +:+ api_key c +:+ ":" +:+
     base64_encode (sha1 (as_bytes (api_key c) ++ as_bytes random_key ++ as_bytes (secret_key c) ++ body)),
   random_key).
Definition post_call (r : IyzicoRail W) (path : str) (body : list byte) (random_key : str) : HttpCall :=
  let auth := auth_headers (iz_config r) random_key body in {|
  hc_method := "POST"; hc_url := iz_base_url r +:+ path; hc_basic_auth := None;
  hc_headers := [("Authorization", auth.1); ("x-iyzi-rnd", auth.2); ("Content-Type", "application/json")]%string;
  hc_body := RawBody body |}.
Definition do_post (r : IyzicoRail W) (path : str) (body : list byte) : Eff W Error (list byte * Z) :=
  nanos ← eff_io now_nanos;
  transport "iyzico" path (iz_http r) (post_call r path body (to_dec nanos)).
Definition encode_failed (e : str) : Error := Rail ("iyzico: encode request: " +:+ e).

Definition DETAIL : str := "/payment/iyzipos/checkoutform/auth/ecom/detail".
Definition retrieve_checkout_form (r : IyzicoRail W) (tok : str) : Eff W Error IyzicoCheckoutFormResult :=
  bytes ← eff_of (map_err encode_failed (retrieve_to_vec {| rt_locale := "en"; rt_conversation_id := tok; rt_token := tok |}));
  body ← expect_2xx classify_error (do_post r DETAIL bytes);
  parse_as (T := IyzicoCheckoutFormResult) "iyzico" body.
Definition retrieve_and_evaluate (r : IyzicoRail W) (tok : str) : Eff W Error (option CheckoutOutcome) :=
  res ← retrieve_checkout_form r tok;
  mret (result_ok (evaluate_checkout_form res)).

Definition handle_webhook (r : IyzicoRail W) (content_type : str) (raw_body : list byte)
    : Eff W Error IyzicoWebhookOutcome :=
  _ ← eff_of (map_err (fun e => Rail ("iyzico: " +:+ e)) (bounded_len_check raw_body DEFAULT_MAX_BODY_BYTES));
  match extract_token content_type raw_body with
  | None => panicked
  | Some tok =>
      tok ← eff_of (ok_or missing_token tok);
      res ← retrieve_checkout_form r tok;
      outcome ← eff_of (evaluate_checkout_form res);
      mret {| wo_token := tok; wo_settled := co_settled outcome;
              wo_amount_minor := co_amount_minor outcome; wo_currency := co_currency outcome |}
  end.

Definition major_amount (amt : Z) (cur : str) : Result Error str :=
  map_err (fun e => InvalidRequest (currency_error_display e)) (minor_to_major_string amt cur).
Definition iyzico_quote (r : IyzicoRail W) (req : PayRequest) : Eff W Error Quote :=
  _ ← eff_of (validate req);
  _ ← eff_of (check_currency r (req_currency req));
  _ ← eff_of (major_amount (req_amount_minor req) (req_currency req));
  quoted (iyzico_id r) (settlement (iz_capabilities r)) 300 (req_currency req) req.

Definition begin_request (req : PayRequest) (cur price : str) : BeginRequest := {|
  bg_locale := "en"; bg_conversation_id := req_reference req; bg_price := price; bg_paid_price := price;
  bg_currency := cur; bg_basket_id := req_reference req; bg_payment_group := "PRODUCT";
  bg_callback_url := trim (req_destination req) |}.
Definition INITIALIZE : str := "/payment/iyzipos/checkoutform/initialize/auth/ecom".
Definition created (p : CreateResponse) : bool :=
  String.eqb (cr_status p) "success" && negb (is_empty (cr_token p)) && negb (is_empty (payment_page_url p)).
Definition iyzico_charge (r : IyzicoRail W) (req : PayRequest) : Eff W Error Receipt :=
  _ ← eff_of (validate req);
  _ ← eff_of (check_currency r (req_currency req));
  let cur := normal_currency (req_currency req) in
  price ← eff_of (major_amount (req_amount_minor req) cur);
  bytes ← eff_of (map_err encode_failed (begin_to_vec (begin_request req cur price)));
  body ← expect_2xx classify_error (do_post r INITIALIZE bytes);
  parsed ← parse_as (T := CreateResponse) "iyzico" body;
  return_if negb (created parsed) with_ eff_err (refusal (cr_status parsed) (cr_error_message parsed));
  mret (open_receipt (iyzico_id r) cur (req_reference req)
    {| token := cr_token parsed; proof_redirect_url := Some (payment_page_url parsed) |}).

Definition iyzico_verify (r : IyzicoRail W) (rc : Receipt) : Eff W Error bool :=
  return_if negb (String.eqb (rail_id rc) (iyzico_id r)) with_ mret false;
  let_some p := from_bytes (P := ChargeProof) (proof rc) or_else mret false;
  let_ok tok := safe_reference (token p) or_else mret false;
  evaluated ← retrieve_and_evaluate r tok;
  let_some outcome := evaluated or_else mret false;
  mret (covers (co_settled outcome) (co_currency outcome) (co_amount_minor outcome) rc).

Definition iyzico_webhook (r : IyzicoRail W) (d : WebhookDelivery) : Eff W Error WebhookEvent :=
  outcome ← handle_webhook r (header_or_empty "Content-Type" d) (raw_body d);
  mret (with_object_id (wo_token outcome)
    (settlement_event (iyzico_id r) (wo_token outcome) EmptyString (wo_settled outcome)
       (wo_amount_minor outcome) (wo_currency outcome))).
Definition iyzico_rail (r : IyzicoRail W) : PaymentRail W := {|
  id := iyzico_id r;
  capabilities := iz_capabilities r;
  quote := iyzico_quote r;
  charge := iyzico_charge r;
  verify := iyzico_verify r;
  validate_destination := redirect_url (iyzico_id r);
  refund := default_refund;
  verify_webhook := iyzico_webhook r;
|}.
End IyzicoRail.
#[export] Hint Unfold iyzico_rail iyzico_new iyzico_verify iyzico_charge iyzico_quote : adapter.

(** ** Lemmas *)

(** A successful form with a payment id and money in it. *)
Definition iyzico_paid (res : IyzicoCheckoutFormResult) (ev : Evidence) : Prop :=
  cf_status res = "success"%string /\ payment_status res = "SUCCESS"%string /\ cf_payment_id res <> EmptyString /\
  form_amount res = Ok (ev_amount ev) /\ ev_amount ev <> 0 /\
  ev_reference ev = None /\ ev_currency ev = normal_currency (cf_currency res).
Lemma evaluate_settled res o : evaluate_checkout_form res = Ok o -> co_settled o = true ->
  iyzico_paid res {| ev_reference := None; ev_currency := co_currency o; ev_amount := co_amount_minor o |}.
Proof.
  unfold evaluate_checkout_form. intros He Hs. run_inv He. apply negb_false_iff, String.eqb_eq in Hc.
  revert He. destruct (String.eqb_spec (payment_status res) "SUCCESS"); [|now intros [= <-]].
  intros He. run_inv He. apply orb_false_iff in Hc0 as [Ha%Z.eqb_neq Hi%is_empty_false]. now injection He as <-.
Qed.
Lemma paid_evaluates res ev : iyzico_paid res ev -> exists eid,
  evaluate_checkout_form res = Ok {| co_event_id := eid; co_settled := true;
    co_amount_minor := ev_amount ev; co_currency := ev_currency ev |}.
Proof.
  intros (E1 & E2 & E3%is_empty_false & Ea & E4%Z.eqb_neq & _ & ->). exists (cf_payment_id res).
  unfold evaluate_checkout_form. rewrite E1, Ea, E2. cbn. now rewrite E3, E4.
Qed.
Lemma iyzico_safe_reference_Ok s x : safe_reference s = Ok x <-> x = s /\ is_safe_token s = true.
Proof. unfold safe_reference. destruct (is_safe_token s); cbn; naive_solver. Qed.

Section IyzicoLemmas.
Context `{IyzicoJson} `{!ProofBytes ChargeProof} {W : Type} `{Clock W, NanoClock W}
  (panicked : Eff W Error IyzicoWebhookOutcome).

(** What iyzico answers for a token, under the nonce the clock gives. *)
Definition retrieved (r : IyzicoRail W) (tok : str) (w : W) (res : IyzicoCheckoutFormResult) (w' : W) : Prop :=
  exists bytes body, retrieve_to_vec {| rt_locale := "en"; rt_conversation_id := tok; rt_token := tok |} = Ok bytes /\
    answered (iz_http r) (post_call r DETAIL bytes (to_dec (now_nanos w).1)) (now_nanos w).2 body w' /\
    from_json (T := IyzicoCheckoutFormResult) body = Ok res.
Lemma expect_post_Ok (r : IyzicoRail W) path bytes w body w' :
  expect_2xx classify_error (do_post r path bytes) w = (Ok body, w') <->
  answered (iz_http r) (post_call r path bytes (to_dec (now_nanos w).1)) (now_nanos w).2 body w'.
Proof.
  rewrite <- (expect_2xx_Ok "iyzico" path _ classify_error). unfold expect_2xx, do_post.
  rewrite !eff_bind_Ok. split.
  - intros (x & v & Hx & Hk). apply eff_bind_Ok in Hx as (n & v0 & Hn & Hx). unfold eff_io in Hn.
    destruct (now_nanos w). injection Hn as <- <-. cbn. eauto.
  - intros (x & v & Hx & Hk). exists x, v. split; [|done]. apply eff_bind_Ok. unfold eff_io.
    destruct (now_nanos w). cbn in Hx. eauto.
Qed.
Lemma retrieve_Ok (r : IyzicoRail W) tok w res w' :
  retrieve_checkout_form r tok w = (Ok res, w') <-> retrieved r tok w res w'.
Proof.
  unfold retrieve_checkout_form, retrieved. split.
  - intros Hr. run_inv Hr. apply expect_post_Ok in Hx0. eauto 10.
  - intros (bytes & body & Hb & Ha & Hj). apply expect_post_Ok in Ha. run.
Qed.
Definition iyzico_evidence (r : IyzicoRail W) (p : list byte) (ref : str) (w : W) (ev : Evidence) (w' : W) : Prop :=
  exists cp res, from_bytes (P := ChargeProof) p = Some cp /\ is_safe_token (token cp) = true /\
    retrieved r (token cp) w res w' /\ iyzico_paid res ev.
#[export] Instance iyzico_verifies r : VerifiesBy (iyzico_rail panicked r) (iyzico_evidence r).
Proof.
  intros rc w w'. cbn [verify iyzico_rail id]. unfold iyzico_verify, iyzico_evidence, retrieve_and_evaluate. split.
  - intros Hv. run_inv Hv. subst. apply names_rail in Hc. apply iyzico_safe_reference_Ok in Hp0 as [-> Hs].
    apply retrieve_Ok in Hx0. destruct (evaluate_checkout_form _) as [o|] eqn:Ee; [|done]. injection Hp1 as ->.
    apply covers_spec in Hv as (Hset & Hcur & Ha). pose proof (evaluate_settled _ _ Ee Hset).
    split; [done|]. eexists. split; [eauto 10|]. done.
  - intros (Hi%names_rail & ev & (cp & res & Hp & Hs & Hr & Hpaid) & Href & Hcur & Ha).
    pose proof (proj2 (iyzico_safe_reference_Ok _ _) (conj eq_refl Hs)) as Hsafe.
    apply retrieve_Ok in Hr. apply paid_evaluates in Hpaid as [eid Hpaid].
    rewrite Hi, Hp, Hsafe. apply eff_bind_Ok. do 2 eexists. split.
    { apply eff_bind_Ok. do 2 eexists. split; [exact Hr|]. reflexivity. }
    rewrite Hpaid. apply eff_ret_Ok. split; [|done]. now apply covers_spec.
Qed.
Lemma iyzico_ignores_reference r : ignores_reference (iyzico_rail panicked r).
Proof. intros rc ref w. reflexivity. Qed.
(** The body is what serde writes for the request; the clock gives the nonce. *)
Definition iyzico_reads (b : HttpBody) (o : Order) : Prop :=
  exists bytes br, b = RawBody bytes /\ begin_to_vec br = Ok bytes /\ bg_paid_price br = o_amount o /\
    bg_price br = o_amount o /\ bg_currency br = o_currency o /\ bg_basket_id br = o_reference o.
Definition iyzico_ordered (r : IyzicoRail W) (o : Order) (rc : Receipt) (w w' : W) : Prop :=
  ordered_by (iz_http r) "POST" (iz_base_url r +:+ INITIALIZE) iyzico_reads o (now_nanos w).2 w'.
#[export] Instance iyzico_orders r : ChargeOrders (iyzico_rail panicked r) (exactly in_major_units) (iyzico_ordered r).
Proof.
  intros q rc w w' Hu Hc. charge_inv Hc. unfold major_amount in Hx1. run_inv Hx1. apply expect_post_Ok in Hx3.
  major_orders (normal_currency (req_currency q)). by_the_call.
  eexists _, _. split; [reflexivity|]. split; [eassumption | now repeat split].
Qed.
#[export] Instance iyzico_opens r : ChargeOpens (iyzico_rail panicked r).
Proof. charge_opens. Qed.
#[export] Instance iyzico_quotes r : QuotesCharge (iyzico_rail panicked r) 300.
Proof. quotes_before. Qed.
#[export] Instance iyzico_rail_laws c builder r :
  iyzico_new c builder = Ok r -> RailLaws (fun _ : W => True) (iyzico_rail panicked r).
Proof. intros Hnew. solve_rail_laws Hnew. Qed.
End IyzicoLemmas.
