(* ===== verification/Hyperswitch.v ===== *)
(** * The Hyperswitch adapter ([patala-hyperswitch/src/*.rs])

    A client of a self-hosted payment switch. charge confirms the payment in the
    same call and may settle at once; verify asks the switch to re-check with
    the connector, and refuses a payment that has been refunded since. A
    notification is authenticated and otherwise not read: its signature is its
    deduplication key. *)

From S2P Require Import Prelude RustStr Core External HttpShared Json Adapter UrlForm.

(** ** models.rs, proof.rs *)

Inductive IntentStatus :=
  | Succeeded | IntentFailed | Cancelled | CancelledPostCapture | Processing
  | RequiresCustomerAction | RequiresMerchantAction | RequiresPaymentMethod | RequiresConfirmation | RequiresCapture
  | PartiallyCaptured | PartiallyCapturedAndCapturable | PartiallyAuthorizedAndRequiresCapture
  | PartiallyCapturedAndProcessing | Conflicted | Expired | Review.
Definition is_settled_success (s : IntentStatus) : bool := match s with Succeeded => true | _ => false end.
Inductive RefundStatus := RefundSucceeded | RefundFailed | RefundPending | RefundReview.
#[export] Instance RefundStatus_eq_dec : EqDecision RefundStatus.
Proof. solve_decision. Defined.
Record RefundResponse := {
  rf_refund_id : str;
  rf_payment_id : str;
  rf_amount : Z;
  rf_currency : str;
  rf_status : RefundStatus;
  rf_reason : option str;
  rf_error_message : option str;
}.
Record NextActionData := { redirect_to_url : option str }.
Record PaymentsResponse := {
  pr_payment_id : str;
  pr_status : IntentStatus;
  pr_amount : Z;
  amount_received : option Z;
  pr_currency : str;
  pr_connector : option str;
  next_action : option NextActionData;
  refunds : option (list RefundResponse);
}.
Record ErrorResponse := { error_type : option str; er_message : option str; er_code : option str }.
Record PaymentsCreateRequest := {
  c_amount : Z;
  c_currency : str;
  c_confirm : option bool;
  c_payment_token : option str;
  c_payment_id : option str;
  c_connector : option (list str);
}.
Record RefundRequest := {
  rq_payment_id : str;
  rq_amount : option Z;
  rq_reason : option str;
  rq_refund_id : option str;
}.
Record ChargeProof := { payment_id : str; status_at_charge : IntentStatus; cp_redirect : option str }.
Record RefundProof := { refund_id : str; rp_payment_id : str; status_at_refund : RefundStatus }.

(** [status_text] is the [Display] of a status code. *)
Class HyperswitchJson := {
  #[export] error_json :: FromJson ErrorResponse;
  #[export] payments_json :: FromJson PaymentsResponse;
  #[export] refund_json :: FromJson RefundResponse;
  status_text : Z -> str;
}.
(** A field that is left out when it is [None]. *)
Definition optional {A} (k : str) (f : A -> Json) (o : option A) : list (str * Json) :=
  match o with Some a => [(k, f a)] | None => [] end.
Definition create_json (c : PaymentsCreateRequest) : Json := JObject (
  [("amount", json_u64 (c_amount c)); ("currency", JString (c_currency c))]%string
  ++ optional "confirm" JBool (c_confirm c)
  ++ optional "payment_token" JString (c_payment_token c)
  ++ optional "payment_id" JString (c_payment_id c)
  ++ optional "connector" (fun l => JArray (map JString l)) (c_connector c)).
Definition refund_request_json (q : RefundRequest) : Json := JObject (
  [("payment_id", JString (rq_payment_id q))]%string ++ optional "amount" json_u64 (rq_amount q)
  ++ optional "reason" JString (rq_reason q) ++ optional "refund_id" JString (rq_refund_id q)).

(** ** config.rs *)

Record HyperswitchConfig := {
  base_url : str;
  api_key : str;
  connector : option str;
  webhook_secret : option str;
  hs_requires_kyc : bool;
  hs_currencies : list str;
  hs_settlement_days : Z;
  hs_timeout_secs : Z;
}.
(** [.ok().filter(|s| !s.trim().is_empty())] *)
Definition env_present (env : Environment) (name : str) : option str :=
  v ← env name; if is_blank v then None else Some v.
Definition hyperswitch_config_from_env (env : Environment) : Result Error HyperswitchConfig :=
  base ← non_empty_env env "HYPERSWITCH_BASE_URL";
  k ← non_empty_env env "HYPERSWITCH_API_KEY";
  Ok {| base_url := trim_end_slashes base; api_key := k;
        connector := env_present env "HYPERSWITCH_CONNECTOR";
        webhook_secret := env_present env "HYPERSWITCH_WEBHOOK_SECRET";
        hs_requires_kyc := env_flag env "HYPERSWITCH_REQUIRES_KYC" true;
        hs_currencies := env_currencies env "HYPERSWITCH_CURRENCIES" ["USD"%string];
        hs_settlement_days := env_u8 env "HYPERSWITCH_SETTLEMENT_DAYS" 2;
        hs_timeout_secs := env_u64 env "HYPERSWITCH_TIMEOUT_SECS" 30 |}.

(** ** webhook.rs *)

Definition verify_webhook_signature `{Hex} (sha512_mac : Mac) (secret raw_body : list byte) (signature_header : str) : bool :=
  return_if bool_decide (secret = []) || is_blank signature_header with_ false;
  let_some expected := hex_decode (trim signature_header) or_else false;
  let_some tag := mac_tag secret or_else false;
  verify_slice (tag raw_body) expected.

(** ** rail.rs *)

Record HyperswitchRail (W : Type) := {
  hyperswitch_id : str;
  hs_config : HyperswitchConfig;
  hs_http : HttpClient W;
  hs_capabilities : RailCapabilities;
}.
Arguments hyperswitch_id {W} _.
Arguments hs_config {W} _.
Arguments hs_http {W} _.
Arguments hs_capabilities {W} _.
Definition hyperswitch_new {W} (c : HyperswitchConfig) (builder : HttpBuilder W) : Result Error (HyperswitchRail W) :=
  _ ← required "base_url" (base_url c);
  _ ← required "api_key" (api_key c);
  return_if bool_decide (hs_currencies c = []) with_ Err (InvalidRequest "currencies must not be empty");
  http ← built_client "hyperswitch" builder (hs_timeout_secs c);
  Ok {| hyperswitch_id := "hyperswitch"; hs_config := c; hs_http := http;
        hs_capabilities := {|
          class := CustodialReversible; reversible := true; requires_kyc := hs_requires_kyc c;
          holds_funds := true; currencies := hs_currencies c; settlement := Days (hs_settlement_days c);
          atomic_multi_party := false |} |}.
Definition safe_path_segment : str -> Result Error str := path_segment "a hyperswitch id".

Definition hyperswitch_destination (rid dest : str) : DestinationVerdict :=
  return_if is_blank dest with_
    malformed rid "an empty destination is not a usable Hyperswitch payment_token, and `PayRequest::validate()` refuses one on every rail";
  unknown rid ("the " +:+ rid +:+ " rail passes `destination` through as Hyperswitch's `payment_token` — a reference to a payment method tokenized out of band, NOT an address money is sent to. Its format is defined by the self-hosted Hyperswitch instance and its connector, not by patala, and Hyperswitch's own OpenAPI spec gives it no grammar to check against; so this rail deliberately makes no format check rather than guess one and refuse a token a live instance would have accepted. A human, or the instance itself, must confirm this token. Note also that money does not travel to this string: to give a customer their money back on this rail, call `refund`.").

Section HyperswitchRail.
Context `{HyperswitchJson} `{!ProofBytes ChargeProof} `{!ProofBytes RefundProof} `{Hex} (sha512_mac : Mac)
  {W : Type} `{Clock W}.

Definition check_currency (r : HyperswitchRail W) : str -> Result Error unit :=
  check_listed (hyperswitch_id r) (currencies (hs_capabilities r)).
Definition failure_text (path : str) (e : HttpFailure) : str :=
  match e with
  | SendFailed e => "hyperswitch request to " +:+ path +:+ " failed: " +:+ e
  | BodyFailed e => "failed reading hyperswitch response body: " +:+ e
  end.
Definition response_message (body : list byte) : str :=
  default (String.concat "" (take 300 (chars (from_utf8_lossy body))))
    (e ← result_ok (from_json (T := ErrorResponse) body);
     match er_message e with Some m => Some m | None => error_type e end).
Definition parse_response {R} `{FromJson R} (code : Z) (body : list byte) : Result Error R :=
  return_if negb (is_2xx code) with_
    Err (Rail ("hyperswitch returned HTTP " +:+ status_text code +:+ ": " +:+ response_message body));
  map_err (fun e => Rail ("failed decoding hyperswitch response (" +:+ to_dec (Z.of_nat (length body)) +:+ " bytes): " +:+ e))
    (from_json body).
Definition call_of (r : HyperswitchRail W) (method path : str) (body : option Json) : HttpCall := {|
  hc_method := method; hc_url := base_url (hs_config r) +:+ path; hc_basic_auth := None;
  hc_headers := [("api-key"%string, api_key (hs_config r))]; hc_body := json_body body |}.
Definition send {R} `{FromJson R} (r : HyperswitchRail W) (method path : str) (body : option Json) : Eff W Error R :=
  resp ← eff_map_err (fun e => Rail (failure_text path e)) (hs_http r (call_of r method path body));
  eff_of (parse_response resp.2 resp.1).
Definition post {R} `{FromJson R} (r : HyperswitchRail W) (path : str) (body : Json) : Eff W Error R :=
  send r "POST" path (Some body).
Definition hs_get {R} `{FromJson R} (r : HyperswitchRail W) (path : str) : Eff W Error R := send r "GET" path None.

Definition hyperswitch_quote (r : HyperswitchRail W) (req : PayRequest) : Eff W Error Quote :=
  _ ← eff_of (validate req);
  _ ← eff_of (check_currency r (req_currency req));
  quoted (hyperswitch_id r) (settlement (hs_capabilities r)) 300 (req_currency req) req.

Definition create_request (c : HyperswitchConfig) (req : PayRequest) : PaymentsCreateRequest := {|
  c_amount := req_amount_minor req; c_currency := req_currency req; c_confirm := Some true;
  c_payment_token := Some (req_destination req); c_payment_id := Some (req_reference req);
  c_connector := (fun c => [c]) <$> connector c |}.
Definition charged_amount (p : PaymentsResponse) : Z :=
  if is_settled_success (pr_status p) then default (pr_amount p) (amount_received p) else 0.
Definition hyperswitch_charge (r : HyperswitchRail W) (req : PayRequest) : Eff W Error Receipt :=
  _ ← eff_of (validate req);
  _ ← eff_of (check_currency r (req_currency req));
  _ ← eff_of (safe_path_segment (req_reference req));
  parsed ← post (R := PaymentsResponse) r "/payments" (create_json (create_request (hs_config r) req));
  now ← read_clock;
  mret {|
    rail_id := hyperswitch_id r;
    amount_minor := charged_amount parsed;
    currency := pr_currency parsed;
    reference := req_reference req;
    proof := to_bytes {| payment_id := pr_payment_id parsed; status_at_charge := pr_status parsed;
                         cp_redirect := n ← next_action parsed; redirect_to_url n |};
    settled_at_unix := now;
  |}.

(** [.filter(..).map(|r| r.amount).sum()], a [u64] sum. *)
Definition refunded_total (p : PaymentsResponse) : Z :=
  fold_left (fun s r => as_u64 (s + rf_amount r))
    (List.filter (fun r => bool_decide (rf_status r = RefundSucceeded)) (default [] (refunds p))) 0.
Definition payment_holds (p : PaymentsResponse) (rc : Receipt) : bool :=
  return_if negb (String.eqb (pr_currency p) (currency rc)) with_ false;
  return_if negb (is_settled_success (pr_status p)) with_ false;
  return_if default 0 (amount_received p) <? amount_minor rc with_ false;
  return_if amount_minor rc <=? refunded_total p with_ false;
  true.
Definition sync_path (pid : str) : str := "/payments/" +:+ pid +:+ "?force_sync=true".
Definition hyperswitch_verify (r : HyperswitchRail W) (rc : Receipt) : Eff W Error bool :=
  return_if negb (String.eqb (rail_id rc) (hyperswitch_id r)) with_ mret false;
  let_some p := from_bytes (P := ChargeProof) (proof rc) or_else mret false;
  let_ok pid := safe_path_segment (payment_id p) or_else mret false;
  parsed ← hs_get (R := PaymentsResponse) r (sync_path pid);
  mret (payment_holds parsed rc).

Definition hyperswitch_refund (r : HyperswitchRail W) (rc : Receipt) : Eff W Error Receipt :=
  return_if negb (String.eqb (rail_id rc) (hyperswitch_id r)) with_ eff_err (other_rail (hyperswitch_id r) rc);
  p ← eff_of (ok_or (InvalidRequest "receipt proof is not a hyperswitch charge proof")
    (from_bytes (P := ChargeProof) (proof rc)));
  _ ← eff_of (safe_path_segment (payment_id p));
  parsed ← post (R := RefundResponse) r "/refunds"
    (refund_request_json {| rq_payment_id := payment_id p; rq_amount := Some (amount_minor rc);
      rq_reason := None; rq_refund_id := None |});
  now ← read_clock;
  mret {|
    rail_id := hyperswitch_id r;
    amount_minor := if bool_decide (rf_status parsed = RefundSucceeded) then rf_amount parsed else 0;
    currency := rf_currency parsed;
    reference := reference rc;
    proof := to_bytes {| refund_id := rf_refund_id parsed; rp_payment_id := rf_payment_id parsed;
                         status_at_refund := rf_status parsed |};
    settled_at_unix := now;
  |}.

Definition hyperswitch_webhook (r : HyperswitchRail W) (d : WebhookDelivery) : Result Error WebhookEvent :=
  let secret := default EmptyString (webhook_secret (hs_config r)) in
  return_if is_empty secret with_ Err (Unsupported "verify_webhook (no HYPERSWITCH_WEBHOOK_SECRET configured)");
  let signature := trim (header_or_empty "X-Webhook-Signature-512" d) in
  return_if negb (verify_webhook_signature sha512_mac (as_bytes secret) (raw_body d) signature) with_
    Err (InvalidRequest "hyperswitch: webhook signature did not verify");
  Ok (unconfirmed (hyperswitch_id r) signature EmptyString).
Definition hyperswitch_rail (r : HyperswitchRail W) : PaymentRail W := {|
  id := hyperswitch_id r;
  capabilities := hs_capabilities r;
  quote := hyperswitch_quote r;
  charge := hyperswitch_charge r;
  verify := hyperswitch_verify r;
  validate_destination := hyperswitch_destination (hyperswitch_id r);
  refund := hyperswitch_refund r;
  verify_webhook d := eff_of (hyperswitch_webhook r d);
|}.
End HyperswitchRail.
#[export] Hint Unfold hyperswitch_rail hyperswitch_new hyperswitch_verify hyperswitch_charge hyperswitch_quote
  safe_path_segment : adapter.

(** ** Lemmas *)

(** What a settled payment says in favour of a receipt: the currency to the
    letter, enough received, and less than the receipt's amount given back. *)
Definition holds_for (p : PaymentsResponse) (rc : Receipt) : Prop :=
  pr_currency p = currency rc /\ pr_status p = Succeeded /\
  amount_minor rc <= default 0 (amount_received p) /\ refunded_total p < amount_minor rc.
Lemma payment_holds_spec p rc : payment_holds p rc = true <-> holds_for p rc.
Proof.
  unfold payment_holds, holds_for. destruct (String.eqb_spec (pr_currency p) (currency rc)) as [E|E]; cbn [negb].
  - destruct (pr_status p); cbn [is_settled_success negb]; try (split; [done | now intros (_ & ? & _)]).
    destruct (Z.ltb_spec (default 0 (amount_received p)) (amount_minor rc)); [split; [done | lia]|].
    destruct (Z.leb_spec (amount_minor rc) (refunded_total p)); split; try done; lia.
  - split; [done | now intros [? _]].
Qed.

Section HyperswitchLemmas.
Context `{HyperswitchJson} `{!ProofBytes ChargeProof} `{!ProofBytes RefundProof} `{Hex} (sha512_mac : Mac)
  {W : Type} `{Clock W}.

(** A 2xx answer that decodes; its size is not bounded here. *)
Definition got {R} `{FromJson R} (r : HyperswitchRail W) (call : HttpCall) (w : W) (a : R) (w' : W) : Prop :=
  exists body code, hs_http r call w = (Ok (body, code), w') /\ is_2xx code = true /\ from_json body = Ok a.
Lemma send_Ok {R} `{FromJson R} (r : HyperswitchRail W) method path body w (a : R) w' :
  send r method path body w = (Ok a, w') <-> got r (call_of r method path body) w a w'.
Proof.
  unfold send, got, parse_response. rewrite eff_bind_Ok. unfold eff_map_err. split.
  - intros ([b c] & v & Hh & Hp). destruct (hs_http _ _ w) as [[?|?] ?] eqn:Eh; [|done]. injection Hh as -> ->.
    apply eff_of_Ok in Hp as [Hp ->]. run_inv Hp. apply negb_false_iff in Hc. eauto 10.
  - intros (b & c & Hh & Hc & Hj). exists (b, c), w'. rewrite Hh. split; [done|].
    apply eff_of_Ok. cbn. now rewrite Hc, Hj.
Qed.
Lemma refunded_total_nonneg p : 0 <= refunded_total p.
Proof.
  unfold refunded_total. enough (forall l s, 0 <= s -> 0 <= fold_left (fun s r => as_u64 (s + rf_amount r)) l s) as Hl
    by now apply Hl.
  induction l as [|r l IH]; intros s Hs; [exact Hs|]. apply IH. unfold as_u64. now apply Z.mod_pos_bound.
Qed.
(** A receipt for nothing holds for no payment: no less than its amount has
    always been given back. *)
Lemma holds_for_positive p rc : holds_for p rc -> 0 < amount_minor rc.
Proof. intros (_ & _ & _ & Hr). pose proof (refunded_total_nonneg p). lia. Qed.
(** verify is true exactly when the proof names a payment the switch, asked to
    re-check, reports settled, unrefunded and large enough. *)
Lemma hyperswitch_verifies (r : HyperswitchRail W) rc w w' :
  verify (hyperswitch_rail sha512_mac r) rc w = (Ok true, w') <->
  rail_id rc = hyperswitch_id r /\ exists cp p,
    from_bytes (P := ChargeProof) (proof rc) = Some cp /\ is_safe_path_segment (payment_id cp) = true /\
    got (R := PaymentsResponse) r (call_of r "GET" (sync_path (payment_id cp)) None) w p w' /\ holds_for p rc.
Proof.
  cbn [verify hyperswitch_rail]. unfold hyperswitch_verify, hs_get. split.
  - intros Hv. run_inv Hv. apply names_rail in Hc. apply path_segment_Ok in Hp0 as [-> Hs].
    apply send_Ok in Hx. apply payment_holds_spec in Hv. eauto 10.
  - intros (Hi%names_rail & cp & p & Hp & Hs & Hg%send_Ok & Hh%payment_holds_spec).
    pose proof (proj2 (path_segment_Ok "a hyperswitch id" _ _) (conj eq_refl Hs)). unfold safe_path_segment. run.
Qed.
Lemma hyperswitch_ignores_reference (r : HyperswitchRail W) : ignores_reference (hyperswitch_rail sha512_mac r).
Proof. intros rc ref w. reflexivity. Qed.

Definition hyperswitch_authentic (r : HyperswitchRail W) (d : WebhookDelivery) (w : W) : Prop :=
  exists secret, webhook_secret (hs_config r) = Some secret /\
    hex_signed sha512_mac (as_bytes secret) (raw_body d) (trim (header_or_empty "X-Webhook-Signature-512" d)).
Lemma verify_webhook_signature_spec key body sig :
  verify_webhook_signature sha512_mac key body sig = true <-> hex_signed sha512_mac key body sig.
Proof. apply (hex_signed_spec sha512_mac key body sig). Qed.
#[export] Instance hyperswitch_webhook_answers r :
  WebhookAnswers (hyperswitch_rail sha512_mac r) (hyperswitch_authentic r).
Proof.
  intros d w ev w' Hw. cbn [verify_webhook hyperswitch_rail] in Hw.
  unfold hyperswitch_webhook in Hw. run_inv Hw. simplify_eq.
  apply negb_false_iff, verify_webhook_signature_spec in Hc0 as Hs. split; [done|]. split.
  - destruct Hs as (_ & Ht & _). intros E. unfold unconfirmed in E. cbn [event_id] in E.
    apply Ht. rewrite E. reflexivity.
  - unfold hyperswitch_authentic. destruct (webhook_secret _); [eauto | done].
Qed.
#[export] Instance hyperswitch_rail_laws c builder r :
  hyperswitch_new c builder = Ok r -> RailLaws (fun _ : W => True) (hyperswitch_rail sha512_mac r).
Proof.
  intros Hnew. autounfold with adapter in Hnew. run_inv Hnew. injection Hnew as <-.
  split; cbn [id verify charge quote capabilities refund validate_destination class hyperswitch_rail].
  - intros rc w Hid. cbn in Hid |- *. autounfold with adapter. cbn. now rewrite (proj2 (String.eqb_neq _ _) Hid).
  - done.
  - intros q w rc w' _ Hch. autounfold with adapter in Hch. run_inv Hch. now subst.
  - intros q w e Hv. autounfold with adapter. now apply eff_refused.
  - intros q w e Hv. autounfold with adapter. now apply eff_refused.
  - intros d. unfold hyperswitch_destination. solve_honest.
  - intros d Hb. unfold hyperswitch_destination. now rewrite Hb.
  - done.
Qed.

(** The receipt of a charge that is still pending. *)
Definition claiming_nothing (rc : Receipt) : Receipt := {|
  rail_id := rail_id rc; amount_minor := 0; currency := currency rc;
  reference := reference rc; proof := proof rc; settled_at_unix := settled_at_unix rc;
|}.

(** ** Theorems *)

(** C16: verify trusts the switch alone, asked anew. HyperswitchRail::verify
    answers true exactly when the receipt names the rail, its proof names a
    payment by an id fit for a path, and the switch, forced to synchronise with
    the connector, answers a succeeded payment in the receipt's currency that
    received at least its amount and gave back less; so a receipt for zero,
    which is what charge answers while a payment is pending, never verifies. *)
Theorem hyperswitch_verify_exact (r : HyperswitchRail W) rc w w' :
  (hyperswitch_verify r rc w = (Ok true, w') <->
   rail_id rc = hyperswitch_id r /\ exists cp p,
     from_bytes (P := ChargeProof) (proof rc) = Some cp /\ is_safe_path_segment (payment_id cp) = true /\
     got (R := PaymentsResponse) r (call_of r "GET" (sync_path (payment_id cp)) None) w p w' /\ holds_for p rc) /\
  hyperswitch_verify r (claiming_nothing rc) w <> (Ok true, w').
Proof.
  split; [apply (hyperswitch_verifies r rc)|].
  intros (_ & cp & p & _ & _ & _ & Hh%holds_for_positive)%(hyperswitch_verifies r). cbn in Hh. lia.
Qed.
End HyperswitchLemmas.
