(* ===== verification/Manual.v ===== *)
(** * ManualRail ([patala-fiat/src/manual.rs])

    The always-available fiat rail: an operator attests that an order was
    paid. Its interior state, a locked map from references to records, is part
    of the world, beside the clock. *)

From S2P Require Import Prelude RustStr Core Currency FiatDest Orders.

Definition RAIL_ID_MANUAL : str := "manual".

Inductive ManualStatus := Pending | Paid | Failed.
#[export] Instance ManualStatus_eq_dec : EqDecision ManualStatus.
Proof. solve_decision. Defined.

Record ManualRecord := {
  mr_reference : str;
  mr_amount_minor : Z;
  mr_currency : str;
  mr_status : ManualStatus;
  instructions : str;
  created_at_unix : Z;
  marked_by : str;
  marked_at_unix : Z;
}.
(** [State]: the records of one rail. *)
Abbreviation ManualState := (gmap str ManualRecord).

Definition ManualInstructions : Type := PayRequest -> Result Error str.
Definition manual_error (e : CurrencyError) : Error :=
  InvalidRequest ("manual: " +:+ currency_error_display e).
Definition default_manual_instructions : ManualInstructions := fun req =>
  major ← map_err manual_error (minor_to_major_string (req_amount_minor req) (req_currency req));
  cur ← map_err manual_error (normalize (req_currency req));
  mret ("Pay " +:+ major +:+ " " +:+ cur +:+ ", quoting order reference " +:+ req_reference req
    +:+ ". Ask the operator to confirm and mark this order paid once they've received it.").

Record ManualRail := { manual_instructions : ManualInstructions }.
Definition manual_new (f : option ManualInstructions) : ManualRail :=
  {| manual_instructions := default default_manual_instructions f |}.
Definition manual_capabilities : RailCapabilities := {|
  class := CustodialReversible; reversible := false; requires_kyc := false; holds_funds := false;
  currencies := []; settlement := Days 0; atomic_multi_party := false;
|}.

(** The world: this rail's records, and everything the clock reads. *)
#[export] Instance state_clock {S C} `{Clock C} : Clock (S * C) :=
  fun w => let '(t, c) := now_unix w.2 in (t, (w.1, c)).

Section Manual.
Context {C : Type} `{Clock C}.
(** [serde_json::to_vec] of [ManualProof { instructions }]. *)
Context (proof_to_bytes : str -> list byte).
Abbreviation W := (ManualState * C)%type.

Definition set_mark (status : ManualStatus) (by' : str) (at' : Z) (r : ManualRecord)
    : ManualRecord := {|
  mr_reference := mr_reference r; mr_amount_minor := mr_amount_minor r;
  mr_currency := mr_currency r; mr_status := status; instructions := instructions r;
  created_at_unix := created_at_unix r; marked_by := by'; marked_at_unix := at';
|}.

Definition mark (reference by' : str) (status : ManualStatus) : Eff W Error ManualRecord :=
  let reference := trim reference in
  let by' := trim by' in
  return_if is_empty reference with_ eff_err (InvalidRequest "manual: reference is required");
  return_if is_empty by' with_
    eff_err (InvalidRequest "manual: marked_by is required (this is an auditable action and needs an actor)");
  fun w =>
    let_some rec := w.1 !! reference or_else
      (Err (InvalidRequest ("manual: unknown reference " +:+ debug_str reference)), w);
    return_if bool_decide (status = Paid) && bool_decide (mr_status rec = Paid) with_ (Ok rec, w);
    let '(now, w) := now_unix w in
    let rec := set_mark status by' now rec in
    (Ok rec, (<[reference := rec]> w.1, w.2)).
Definition mark_paid (reference by' : str) := mark reference by' Paid.
Definition mark_failed (reference by' : str) := mark reference by' Failed.
Definition record (reference : str) (w : W) : option ManualRecord := w.1 !! trim reference.

Definition manual_quote (req : PayRequest) : Eff W Error Quote :=
  eff_of (validate req) ≫= fun _ =>
  eff_of (map_err manual_error (currency_validate (req_currency req))) ≫= fun _ =>
  now ← read_clock;
  mret {|
    q_rail_id := RAIL_ID_MANUAL;
    q_amount_minor := req_amount_minor req;
    q_currency := req_currency req;
    q_fee_minor := 0;
    q_total_minor := req_amount_minor req;
    q_settlement := settlement manual_capabilities;
    q_expires_at_unix := u64_saturating_add now 300;
  |}.

Definition with_currency (c : str) (q : PayRequest) : PayRequest :=
  {| req_amount_minor := req_amount_minor q; req_currency := c;
     req_destination := req_destination q; req_reference := req_reference q |}.

(** The receipt of a reference already on record. *)
Definition existing_receipt (existing : ManualRecord) : Receipt := {|
  rail_id := RAIL_ID_MANUAL;
  amount_minor := if bool_decide (mr_status existing = Paid) then mr_amount_minor existing else 0;
  currency := mr_currency existing;
  reference := mr_reference existing;
  proof := proof_to_bytes (instructions existing);
  settled_at_unix := marked_at_unix existing;
|}.

(** The locked part of [charge], for the normalized currency [cur]. *)
Definition manual_charge_locked (m : ManualRail) (req : PayRequest) (cur : str)
    : Eff W Error Receipt := fun w =>
  match w.1 !! req_reference req with
  | Some existing => (Ok (existing_receipt existing), w)
  | None =>
      match manual_instructions m (with_currency cur req) with
      | Err e => (Err e, w)
      | Ok text =>
          return_if is_blank text with_
            (Err (InvalidRequest "manual: instructions must not be empty"), w);
          let '(now, w) := now_unix w in
          let rec := {|
            mr_reference := req_reference req;
            mr_amount_minor := req_amount_minor req;
            mr_currency := cur;
            mr_status := Pending;
            instructions := text;
            created_at_unix := now;
            marked_by := EmptyString;
            marked_at_unix := 0;
          |} in
          (Ok {|
            rail_id := RAIL_ID_MANUAL; amount_minor := 0; currency := cur;
            reference := req_reference req; proof := proof_to_bytes text; settled_at_unix := 0;
          |}, (<[req_reference req := rec]> w.1, w.2))
      end
  end.

Definition manual_charge (m : ManualRail) (req : PayRequest) : Eff W Error Receipt :=
  eff_of (validate req) ≫= fun _ =>
  eff_of (map_err manual_error (normalize (req_currency req))) ≫= manual_charge_locked m req.

Definition manual_verify (receipt : Receipt) : Eff W Error bool := fun w =>
  return_if negb (String.eqb (rail_id receipt) RAIL_ID_MANUAL) with_ (Ok false, w);
  let_some rec := w.1 !! reference receipt or_else (Ok false, w);
  return_if negb (bool_decide (mr_status rec = Paid)) with_ (Ok false, w);
  return_if negb (eq_ignore_ascii_case (mr_currency rec) (currency receipt)) with_ (Ok false, w);
  return_if mr_amount_minor rec <? amount_minor receipt with_ (Ok false, w);
  (Ok true, w).

Definition manual_rail (m : ManualRail) : PaymentRail W := {|
  id := RAIL_ID_MANUAL;
  capabilities := manual_capabilities;
  quote := manual_quote;
  charge := manual_charge m;
  verify := manual_verify;
  validate_destination := ignored RAIL_ID_MANUAL;
  refund := default_refund;
  verify_webhook := default_verify_webhook;
|}.

(** ** Histories

    What can happen to one rail, most recent event first: a charge, an
    operator's mark (with its outcome), and time passing. *)

Inductive Event :=
  | Charged (q : PayRequest) (ok : bool)
  | Marked (reference by' : str) (status : ManualStatus) (ok : bool)
  | Ticked.

Inductive history (m : ManualRail) : list Event -> W -> Prop :=
  | hist_start c : history m [] (∅, c)
  | hist_charge tr w q r w' :
      history m tr w -> manual_charge m q w = (r, w') -> history m (Charged q (is_ok r) :: tr) w'
  | hist_paid tr w ref by' r w' :
      history m tr w -> mark_paid ref by' w = (r, w') -> history m (Marked ref by' Paid (is_ok r) :: tr) w'
  | hist_failed tr w ref by' r w' :
      history m tr w -> mark_failed ref by' w = (r, w') -> history m (Marked ref by' Failed (is_ok r) :: tr) w'
  | hist_tick tr s c c' : history m tr (s, c) -> history m (Ticked :: tr) (s, c').

(** The mark in force on a record: the latest successful one, except that
    marking a paid record paid again changes nothing. *)
Fixpoint mark_in_force (k : str) (tr : list Event) : option (ManualStatus * str) :=
  match tr with
  | [] => None
  | Marked ref by' status true :: tr =>
      let before := mark_in_force k tr in
      if String.eqb (trim ref) k then
        match status, before with
        | Paid, Some (Paid, who) => Some (Paid, who)
        | _, _ => Some (status, trim by')
        end
      else before
  | _ :: tr => mark_in_force k tr
  end.
(** The charge that opened a record: the earliest successful one. *)
Fixpoint opening_charge (k : str) (tr : list Event) : option PayRequest :=
  match tr with
  | [] => None
  | Charged q true :: tr =>
      match opening_charge k tr with
      | Some q' => Some q'
      | None => if String.eqb (req_reference q) k then Some q else None
      end
  | _ :: tr => opening_charge k tr
  end.

(** The state invariant: each record is the one its history wrote. *)
Definition record_of (tr : list Event) (k : str) (rec : ManualRecord) : Prop :=
  mr_reference rec = k /\
  (exists q, opening_charge k tr = Some q /\ req_reference q = k /\ validate q = Ok tt /\
     mr_amount_minor rec = req_amount_minor q /\ normalize (req_currency q) = Ok (mr_currency rec)) /\
  match mark_in_force k tr with
  | None => mr_status rec = Pending /\ marked_by rec = EmptyString /\ marked_at_unix rec = 0
  | Some (st, who) =>
      mr_status rec = st /\ st <> Pending /\ marked_by rec = who /\ who <> EmptyString /\ trim k = k
  end.
Definition manual_inv (tr : list Event) (s : ManualState) : Prop :=
  forall k, match s !! k with
            | Some rec => record_of tr k rec
            | None => opening_charge k tr = None /\ mark_in_force k tr = None
            end.

(** ** Lemmas *)

Lemma mark_spec ref by' st w r w' : mark ref by' st w = (r, w') ->
  (is_ok r = false /\ w' = w) \/
  (exists rec, r = Ok rec /\ w' = w /\ w.1 !! trim ref = Some rec /\ st = Paid /\ mr_status rec = Paid)
  \/ (exists rec, trim by' <> EmptyString /\ w.1 !! trim ref = Some rec /\
       ~ (st = Paid /\ mr_status rec = Paid) /\
       r = Ok (set_mark st (trim by') (now_unix w.2).1 rec) /\
       w' = (<[trim ref := set_mark st (trim by') (now_unix w.2).1 rec]> w.1, (now_unix w.2).2)).
Proof.
  unfold mark. destruct (is_empty (trim ref)); [intros [= <- <-]; now left|].
  destruct (trim by') as [|x y] eqn:Eb; [intros [= <- <-]; now left|]. cbn [is_empty].
  destruct (w.1 !! trim ref) as [rec|] eqn:Er; [|intros [= <- <-]; now left].
  destruct (bool_decide (st = Paid) && bool_decide (mr_status rec = Paid)) eqn:Ep.
  - apply andb_true_iff in Ep as [E1%bool_decide_eq_true E2%bool_decide_eq_true].
    intros [= <- <-]. right. left. eauto 10.
  - unfold now_unix at 1, state_clock. destruct (now_unix w.2) as [t c] eqn:Ec. intros [= <- <-].
    right. right. exists rec. split_and!; try done. intros [-> E].
    rewrite E in Ep. discriminate.
Qed.

Lemma charge_spec m q w r w' : manual_charge m q w = (r, w') ->
  (is_ok r = false /\ w' = w) \/
  (exists rec, w.1 !! req_reference q = Some rec /\ w' = w /\ r = Ok (existing_receipt rec)) \/
  (exists cur text, validate q = Ok tt /\ normalize (req_currency q) = Ok cur /\
     w.1 !! req_reference q = None /\
     manual_instructions m (with_currency cur q) = Ok text /\ is_blank text = false /\
     r = Ok {| rail_id := RAIL_ID_MANUAL; amount_minor := 0; currency := cur;
               reference := req_reference q; proof := proof_to_bytes text; settled_at_unix := 0 |} /\
     w' = (<[req_reference q := {|
              mr_reference := req_reference q; mr_amount_minor := req_amount_minor q;
              mr_currency := cur; mr_status := Pending; instructions := text;
              created_at_unix := (now_unix w.2).1; marked_by := EmptyString; marked_at_unix := 0 |}]>
            w.1, (now_unix w.2).2)).
Proof.
  unfold manual_charge, manual_charge_locked. unfold_eff. destruct (validate q) as [[]|] eqn:Ev; [|intros [= <- <-]; now left].
  destruct (normalize (req_currency q)) as [cur|] eqn:Ec; cbn [map_err]; [|intros [= <- <-]; now left].
  destruct (w.1 !! req_reference q) as [rec|] eqn:Er; [intros [= <- <-]; right; left; eauto|].
  destruct (manual_instructions m _) as [text|] eqn:Et; [|intros [= <- <-]; now left].
  destruct (is_blank text) eqn:Eb; [intros [= <- <-]; now left|].
  unfold now_unix at 1, state_clock. destruct (now_unix w.2) as [t c]. intros [= <- <-].
  right. right. exists cur, text. split_and!; done.
Qed.

(** A mark that took effect, or was absorbed, updates the history the same
    way it updates the record. *)
Lemma inv_mark tr w ref by' st r w' :
  st <> Pending -> manual_inv tr w.1 -> mark ref by' st w = (r, w') ->
  manual_inv (Marked ref by' st (is_ok r) :: tr) w'.1.
Proof.
  intros Hst Hinv [[-> ->]|[(rec & -> & -> & Hr & -> & Hp)|(rec & Hby & Hr & Hne & -> & ->)]]%mark_spec
    k; [exact (Hinv k) | |]; pose proof (Hinv (trim ref)) as Href; rewrite Hr in Href;
    destruct Href as (Hk & Hq & Hm).
  - pose proof (Hinv k) as H0. cbn [is_ok].
    destruct (String.eqb_spec (trim ref) k) as [<-|Hn]; unfold record_of; cbn [mark_in_force opening_charge].
    + rewrite Hr, String.eqb_refl. split; [done|]. split; [done|].
      destruct (mark_in_force (trim ref) tr) as [[st who]|].
      * destruct Hm as (Hs & Hm). rewrite Hs in Hp. subst st. destruct Hm as (? & ? & ? & ?). done.
      * destruct Hm as (Hs & _). congruence.
    + destruct (String.eqb_spec (trim ref) k); [done | exact H0].
  - cbn [fst is_ok]. destruct (decide (trim ref = k)) as [<-|Hn].
    + rewrite lookup_insert_eq. split; [done|]. split; [exact Hq|].
      cbn [mark_in_force]. rewrite String.eqb_refl.
      assert (match st, mark_in_force (trim ref) tr with
              | Paid, Some (Paid, who) => Some (Paid, who)
              | _, _ => Some (st, trim by') end = Some (st, trim by')) as ->.
      { destruct st; try done. destruct (mark_in_force _ tr) as [[[] who]|]; try done.
        destruct Hne. split; [done | apply Hm]. }
      split_and!; try done. apply trim_idem.
    + rewrite lookup_insert_ne by done. specialize (Hinv k). unfold record_of in *.
      cbn [mark_in_force opening_charge]. apply String.eqb_neq in Hn. rewrite Hn. exact Hinv.
Qed.

Lemma inv_charge m tr w q r w' :
  manual_inv tr w.1 -> manual_charge m q w = (r, w') -> manual_inv (Charged q (is_ok r) :: tr) w'.1.
Proof.
  intros Hinv [[-> ->]|[(rec & Hr & -> & ->)|(cur & text & Hv & Hc & Hr & Ht & Hb & -> & ->)]]%charge_spec
    k; [exact (Hinv k) | |]; pose proof (Hinv (req_reference q)) as Hq; rewrite Hr in Hq;
    unfold record_of; cbn [is_ok opening_charge mark_in_force].
  - destruct Hq as (Hk & (q' & Hop & Hq') & Hm).
    specialize (Hinv k). destruct (w.1 !! k) as [rec'|] eqn:Ek.
    + destruct Hinv as (? & (q'' & Hop'' & ?) & ?). rewrite Hop''. eauto 10.
    + destruct Hinv as [-> ->]. split; [|done].
      destruct (String.eqb_spec (req_reference q) k) as [<-|]; [congruence | done].
  - destruct Hq as [Hop Hm]. cbn [fst]. destruct (decide (req_reference q = k)) as [<-|Hn].
    + rewrite lookup_insert_eq. cbn [mr_reference]. rewrite Hop, String.eqb_refl, Hm.
      split; [done|]. split; [|done]. exists q. done.
    + rewrite lookup_insert_ne by done. specialize (Hinv k).
      destruct (w.1 !! k) as [rec'|].
      * destruct Hinv as (? & (q'' & Hop'' & ?) & ?). rewrite Hop''. eauto 10.
      * destruct Hinv as [-> ->]. apply String.eqb_neq in Hn. now rewrite Hn.
Qed.

(** Rule induction: every reachable state satisfies the invariant. *)
Lemma history_inv m tr w : history m tr w -> manual_inv tr w.1.
Proof.
  induction 1 as [c|tr w q r w' _ IH Hc|tr w ref by' r w' _ IH Hm|tr w ref by' r w' _ IH Hm
    |tr s c c' _ IH].
  - intros k. cbn. now rewrite lookup_empty.
  - now apply (inv_charge m tr w q r w').
  - now apply (inv_mark tr w ref by' Paid r w').
  - now apply (inv_mark tr w ref by' Failed r w').
  - exact IH.
Qed.

Lemma verify_spec r w : manual_verify r w = (Ok true, w) <->
  rail_id r = RAIL_ID_MANUAL /\ exists rec, w.1 !! reference r = Some rec /\
    mr_status rec = Paid /\ eq_ignore_ascii_case (mr_currency rec) (currency r) = true /\
    amount_minor r <= mr_amount_minor rec.
Proof.
  unfold manual_verify. destruct (String.eqb_spec (rail_id r) RAIL_ID_MANUAL) as [->|]; cbn [negb];
    [|split; [done | now intros [? _]]].
  destruct (w.1 !! reference r) as [rec|]; [|split; [done | now intros (_ & ? & ? & _)]].
  case_bool_decide as Hs; cbn [negb]; [|split; [done | intros (_ & ? & [= <-] & ? & _); done]].
  destruct (eq_ignore_ascii_case _ _) eqn:Ec; cbn [negb];
    [|split; [done | intros (_ & ? & [= <-] & _ & ? & _); congruence]].
  destruct (Z.ltb_spec (mr_amount_minor rec) (amount_minor r)).
  - split; [done | intros (_ & ? & [= <-] & _ & _ & ?); lia].
  - split; [|done]. eauto 10.
Qed.
Lemma verify_total r w : exists b, manual_verify r w = (Ok b, w).
Proof. unfold manual_verify. repeat case_match; eauto. Qed.

(** The invariant of the shared interface: a record sits at its reference. *)
Definition keyed (w : W) : Prop := forall k rec, w.1 !! k = Some rec -> mr_reference rec = k.

Lemma charge_keyed m q w r w' : keyed w -> manual_charge m q w = (r, w') -> keyed w'.
Proof.
  intros Hk [[_ ->]|[(rec & Hr & -> & _)|(cur & text & _ & _ & _ & _ & _ & _ & ->)]]%charge_spec;
    [done | done |].
  intros k rec. cbn [fst]. destruct (decide (req_reference q = k)) as [<-|Hn].
  - rewrite lookup_insert_eq. now intros [= <-].
  - rewrite lookup_insert_ne by done. apply Hk.
Qed.

#[export] Instance manual_quotes m : QuotesCharge (manual_rail m) 300.
Proof.
  intros q. apply quoted_before_guard; intros _ _. apply quoted_before_amount.
  - intros c. unfold normalize, currency_validate. destruct (lookup _); cbn; [eauto | done].
  - intros _. exact (quoted_before_quoted _ _ _ _ _ _ (same_currency_refl _)).
Qed.
#[export] Instance manual_rail_laws m : RailLaws keyed (manual_rail m).
Proof.
  split; cbn.
  - intros r w Hr. unfold manual_verify. destruct (String.eqb_spec (rail_id r) RAIL_ID_MANUAL); done.
  - intros q w r w' Hw Hc. eapply charge_keyed; eauto.
  - intros q w r w' Hw [[? _]|[(rec & Hr & _ & [= ->])|(cur & text & _ & _ & _ & _ & _ & [= ->] & _)]]%charge_spec.
    + done.
    + split; [done | exact (Hw _ _ Hr)].
    + done.
  - intros q w e He. unfold manual_charge. unfold_eff. now rewrite He.
  - intros q w e He. unfold manual_quote. unfold_eff. now rewrite He.
  - intros d. apply (fiat_verdict_honest ignored). cbn; tauto.
  - intros d. apply (fiat_verdict_blank ignored). cbn; tauto.
  - done.
Qed.
End Manual.

(** ** Theorems *)

(** C5: a manual receipt verifies only on an operator's word. Over every history of charges,
    marks and time, if [verify] answers [true] then the mark in force on that reference is
    [mark_paid] by a named actor, and the claimed amount is at most, and the currency that
    of, the valid charge that opened the record. *)
Theorem manual_verified_is_attested {C} `{Clock C} (pb : str -> list byte) (m : ManualRail)
    (tr : list Event) (w : gmap str ManualRecord * C) (r : Receipt)
    (Hh : history pb m tr w) (Hv : manual_verify r w = (Ok true, w)) :
  exists who q, mark_in_force (reference r) tr = Some (Paid, who) /\ who <> EmptyString /\
    opening_charge (reference r) tr = Some q /\ validate q = Ok tt /\
    amount_minor r <= req_amount_minor q /\
    exists c, normalize (req_currency q) = Ok c /\ eq_ignore_ascii_case c (currency r) = true.
Proof.
  apply verify_spec in Hv as (_ & rec & Hr & Hp & Hc & Ha).
  pose proof (history_inv pb m tr w Hh (reference r)) as Hi. rewrite Hr in Hi.
  destruct Hi as (_ & (q & Hop & _ & Hq & Hqa & Hqc) & Hm).
  destruct (mark_in_force (reference r) tr) as [[st who]|].
  - destruct Hm as (<- & _ & _ & Hwho & _). exists who, q. rewrite Hp. split_and!; try done; [lia|].
    eauto.
  - destruct Hm as [Hs _]. congruence.
Qed.

Definition demo_manual : ManualRail := manual_new None.
Definition demo_order : PayRequest := {|
  req_amount_minor := 1999; req_currency := "usd"; req_destination := "unused";
  req_reference := "order-7";
|}.
Definition demo_bytes : str -> list byte := as_bytes.
Definition order_charged := manual_charge demo_bytes demo_manual demo_order (∅, 100).
Definition order_paid := mark_paid "order-7" "ayesha" order_charged.2.
Definition order_receipt : Receipt := {|
  rail_id := "manual"; amount_minor := 1999; currency := "USD"; reference := "order-7";
  proof := []; settled_at_unix := 0;
|}.
Lemma order_history : history demo_bytes demo_manual
  [Marked "order-7" "ayesha" Paid true; Charged demo_order true] order_paid.2.
Proof.
  apply (hist_paid _ _ _ order_charged.2 "order-7" "ayesha" order_paid.1);
    [|exact (surjective_pairing order_paid)].
  apply (hist_charge _ _ [] (∅, 100) demo_order order_charged.1);
    [constructor | exact (surjective_pairing order_charged)].
Qed.
Lemma manual_verified_is_attested_witness :
  manual_verify order_receipt order_paid.2 = (Ok true, order_paid.2) /\
  exists who, mark_in_force "order-7"
    [Marked "order-7" "ayesha" Paid true; Charged demo_order true] = Some (Paid, who).
Proof.
  assert (manual_verify order_receipt order_paid.2 = (Ok true, order_paid.2)) as Hv
    by (vm_compute; reflexivity).
  split; [exact Hv|].
  destruct (manual_verified_is_attested demo_bytes demo_manual _ _ order_receipt order_history Hv)
    as (who & q & Hm & _).
  exists who. exact Hm.
Defined.

(** C40: the manual order life cycle. For a fresh reference without surrounding space, charging
    opens a pending record whose receipt claims nothing and does not verify; charging again,
    with any valid request for that reference, changes nothing; once an operator marks it
    paid that very receipt verifies, and so does a receipt claiming the full amount. *)
Theorem manual_order_lifecycle {C} `{Clock C} (pb : str -> list byte) (m : ManualRail)
    (s : gmap str ManualRecord) (c : C) (q q' : PayRequest) (cur text by' : str)
    (Hu : is_u64 (req_amount_minor q)) (Hq : validate q = Ok tt)
    (Hc : normalize (req_currency q) = Ok cur)
    (Hq' : validate q' = Ok tt) (Hc' : is_ok (normalize (req_currency q')) = true)
    (Hqq : req_reference q' = req_reference q)
    (Ht : manual_instructions m (with_currency cur q) = Ok text) (Hb : is_blank text = false)
    (Hfresh : s !! req_reference q = None) (Htrim : trim (req_reference q) = req_reference q)
    (Hby : is_blank by' = false) :
  exists r w1 w2 rec,
    manual_charge pb m q (s, c) = (Ok r, w1) /\ amount_minor r = 0 /\
    manual_verify r w1 = (Ok false, w1) /\
    manual_charge pb m q' w1 = (Ok r, w1) /\
    mark_paid (req_reference q) by' w1 = (Ok rec, w2) /\ marked_by rec = trim by' /\
    manual_verify r w2 = (Ok true, w2) /\
    exists r', manual_charge pb m q' w2 = (Ok r', w2) /\
      amount_minor r' = req_amount_minor q /\ manual_verify r' w2 = (Ok true, w2).
Proof.
  pose proof (proj1 (validate_spec q) Hq) as (_ & _ & _ & Href).
  assert (is_empty (req_reference q) = false) as Hne by (unfold is_blank in Href; now rewrite <- Htrim).
  destruct (normalize (req_currency q')) as [cur'|] eqn:Hc2; [|done].
  assert (is_empty (trim by') = false) as Hbe by exact Hby.
  destruct (now_unix c) as [t c1] eqn:Et. destruct (now_unix c1) as [t2 c2] eqn:Et2.
  eexists _, (<[req_reference q := _]> s, c1), (<[req_reference q := _]> (<[req_reference q := _]> s), c2), _.
  split.
  { unfold manual_charge, manual_charge_locked. unfold_eff. rewrite Hq, Hc. cbn [map_err fst snd].
    rewrite Hfresh, Ht, Hb. unfold now_unix, state_clock. cbn [fst snd].
    change (H c) with (now_unix c). rewrite Et. reflexivity. }
  split; [reflexivity|]. split.
  { unfold manual_verify. cbn [rail_id reference fst]. rewrite lookup_insert_eq. reflexivity. }
  split.
  { unfold manual_charge, manual_charge_locked. unfold_eff. rewrite Hq', Hc2, Hqq. cbn [map_err fst snd].
    rewrite lookup_insert_eq. reflexivity. }
  split.
  { unfold mark_paid, mark. rewrite Htrim, Hne, Hbe. cbn [fst snd].
    rewrite lookup_insert_eq. cbn [mr_status]. unfold now_unix, state_clock. cbn [fst snd andb].
    change (H c1) with (now_unix c1). rewrite Et2. reflexivity. }
  split; [reflexivity|]. split.
  { unfold manual_verify. cbn [rail_id reference fst]. rewrite lookup_insert_eq.
    cbn -[eq_ignore_ascii_case Z.ltb]. rewrite eq_ignore_ascii_case_refl. cbn [negb]. destruct (Z.ltb_spec (req_amount_minor q) 0);
      [unfold_ints; lia | done]. }
  eexists. split.
  { unfold manual_charge, manual_charge_locked. unfold_eff. rewrite Hq', Hc2, Hqq. cbn [map_err fst snd].
    rewrite lookup_insert_eq. reflexivity. }
  split; [reflexivity|].
  unfold manual_verify. cbn [rail_id reference fst existing_receipt set_mark mr_reference].
  rewrite lookup_insert_eq. cbn -[eq_ignore_ascii_case Z.ltb]. rewrite eq_ignore_ascii_case_refl. cbn [negb]. now rewrite Z.ltb_irrefl.
Qed.

Lemma manual_order_lifecycle_witness :
  exists r w1, manual_charge demo_bytes demo_manual demo_order (∅, 100) = (Ok r, w1) /\
    manual_verify r w1 = (Ok false, w1).
Proof.
  destruct (manual_order_lifecycle demo_bytes demo_manual ∅ 100 demo_order demo_order "USD"
    "Pay 19.99 USD, quoting order reference order-7. Ask the operator to confirm and mark this order paid once they've received it."
    "ayesha") as (r & w1 & w2 & rec & Hc & _ & Hv & _);
    [unfold_ints; cbn; lia | vm_compute; reflexivity .. |].
  exists r, w1. auto.
Defined.

(** An order whose reference has surrounding space can never be paid. [charge] stores the
    reference as given, marks look it up trimmed: in every reachable state [verify] refuses
    any receipt for such a reference, whatever the operator does. *)
Theorem manual_untrimmed_never_verifies {C} `{Clock C} (pb : str -> list byte) (m : ManualRail)
    (tr : list Event) (w : gmap str ManualRecord * C) (r : Receipt)
    (Hh : history pb m tr w) (Hr : trim (reference r) <> reference r) :
  manual_verify r w = (Ok false, w).
Proof.
  destruct (verify_total r w) as [[] Hv]; [|exact Hv]. exfalso.
  apply verify_spec in Hv as (_ & rec & Hrec & Hp & _).
  pose proof (history_inv pb m tr w Hh (reference r)) as Hi. rewrite Hrec in Hi.
  destruct Hi as (_ & _ & Hm). destruct (mark_in_force (reference r) tr) as [[st who]|].
  - destruct Hm as (_ & _ & _ & _ & Ht). done.
  - destruct Hm as [Hs _]. congruence.
Qed.

Definition spaced_order : PayRequest := {|
  req_amount_minor := 1999; req_currency := "USD"; req_destination := "unused";
  req_reference := "order-7 ";
|}.
Definition spaced_charged := manual_charge demo_bytes demo_manual spaced_order (∅, 100).
Definition spaced_marked := mark_paid "order-7 " "ayesha" spaced_charged.2.
Lemma manual_untrimmed_never_verifies_witness :
  is_ok spaced_charged.1 = true /\
  manual_verify {| rail_id := "manual"; amount_minor := 0; currency := "USD";
      reference := "order-7 "; proof := []; settled_at_unix := 0 |} spaced_marked.2
  = (Ok false, spaced_marked.2).
Proof.
  split; [vm_compute; reflexivity|].
  apply (manual_untrimmed_never_verifies demo_bytes demo_manual
    [Marked "order-7 " "ayesha" Paid false; Charged spaced_order true]);
    [|vm_compute; discriminate].
  apply (hist_paid _ _ _ spaced_charged.2 "order-7 " "ayesha" spaced_marked.1);
    [|exact (surjective_pairing spaced_marked)].
  apply (hist_charge _ _ [] (∅, 100) spaced_order spaced_charged.1);
    [constructor | exact (surjective_pairing spaced_charged)].
Defined.

(** The first mark is the audit trail. Marking a paid record paid again, by anyone, returns
    the record as it was and leaves the whole state, clock included, unchanged. *)
Theorem manual_first_mark_kept {C} `{Clock C} (ref by' : str)
    (w : gmap str ManualRecord * C) (rec : ManualRecord)
    (Hrec : record ref w = Some rec) (Hp : mr_status rec = Paid)
    (Hby : is_blank by' = false) (Href : is_blank ref = false) :
  mark_paid ref by' w = (Ok rec, w).
Proof.
  unfold record, is_blank, mark_paid, mark in *. now rewrite Href, Hby, Hrec, Hp.
Qed.
Lemma manual_first_mark_kept_witness :
  mark_paid " order-7" "someone else" order_paid.2 = (order_paid.1, order_paid.2).
Proof.
  set (rec := match order_paid.1 with Ok r => r | Err _ =>
    {| mr_reference := ""; mr_amount_minor := 0; mr_currency := ""; mr_status := Pending;
       instructions := ""; created_at_unix := 0; marked_by := ""; marked_at_unix := 0 |} end).
  transitivity (Ok (E := Error) rec, order_paid.2).
  - apply manual_first_mark_kept; vm_compute; reflexivity.
  - vm_compute. reflexivity.
Defined.
