(* ===== verification/Registry.v ===== *)
(** * The rail registry ([patala-fiat/src/registry.rs])

    Rails by id, the enablement allowlist, and selection. Each operation holds
    the lock for its whole body, so it is one step on the map. *)

From Stdlib Require Import Sorting.Sorted.
From stdpp Require Import sorting.
From S2P Require Import Prelude RustStr Core Mock Manual.

Inductive RegistryError :=
  | RailNotFound (name : str)
  | RailDisabled (name : str)
  | CurrencyNotSupported (name cur : str)
  | EmptyRailId
  | AlreadyRegistered (name : str).
#[export] Instance RegistryError_eq_dec : EqDecision RegistryError.
Proof. solve_decision. Defined.

Record CapabilityFilter := { cf_currency : option str; cf_class : option RailClass }.

Definition supports_currency (caps : RailCapabilities) (c : str) : bool :=
  return_if bool_decide (currencies caps = []) with_ true;
  existsb (fun c' => eq_ignore_ascii_case c' c) (currencies caps).

(** The order of Rust strings: bytewise lexicographic. *)
Definition str_le (a b : str) : Prop := String.leb a b = true.
#[export] Instance str_le_dec a b : Decision (str_le a b).
Proof. unfold str_le. apply _. Defined.

Section Registry.
Context {W : Type}.

Record Registry := {
  reg_rails : gmap str (PaymentRail W);
  enabled : option (gset str);
}.
Definition registry_new : Registry := {| reg_rails := ∅; enabled := None |}.

(** One turn of [from_env]'s loop, on [(set, any)]. *)
Definition env_part (acc : gset str * bool) (part : str) : gset str * bool :=
  let name := to_ascii_lowercase (trim part) in
  if is_empty name then acc else ({[name]} ∪ acc.1, true).
Definition from_env (env : str) : Registry :=
  let '(set, any) := fold_left env_part (split_char "," env) (∅, false) in
  {| reg_rails := ∅;
     enabled := if any : bool then Some ({[RAIL_ID_MANUAL]} ∪ set) else None |}.

Definition register (rail : PaymentRail W) (g : Registry) : Result RegistryError unit * Registry :=
  let name := trim (id rail) in
  return_if is_empty name with_ (Err EmptyRailId, g);
  match reg_rails g !! name with
  | Some _ => (Err (AlreadyRegistered name), g)
  | None => (Ok tt, {| reg_rails := <[name := rail]> (reg_rails g); enabled := enabled g |})
  end.

Definition get (g : Registry) (name : str) : option (PaymentRail W) := reg_rails g !! name.
Definition names (g : Registry) : list str :=
  merge_sort str_le (map fst (map_to_list (reg_rails g))).
Definition is_enabled (g : Registry) (name : str) : bool :=
  return_if String.eqb name RAIL_ID_MANUAL with_ true;
  match enabled g with
  | None => true
  | Some set => bool_decide (to_ascii_lowercase name ∈ set)
  end.

Definition id_le (a b : PaymentRail W) : Prop := str_le (id a) (id b).
#[export] Instance id_le_dec a b : Decision (id_le a b).
Proof. unfold id_le. apply _. Defined.
Definition matches (g : Registry) (f : CapabilityFilter) (r : PaymentRail W) : bool :=
  is_enabled g (id r)
  && match cf_currency f with Some c => supports_currency (capabilities r) c | None => true end
  && match cf_class f with Some c => bool_decide (class (capabilities r) = c) | None => true end.
Definition list_rails (g : Registry) (f : CapabilityFilter) : list (PaymentRail W) :=
  List.filter (matches g f) (merge_sort id_le (map snd (map_to_list (reg_rails g)))).

Definition select (g : Registry) (name : str) (cur : option str)
    : Result RegistryError (PaymentRail W) :=
  rail ← ok_or (RailNotFound name) (get g name);
  return_if negb (is_enabled g name) with_ Err (RailDisabled name);
  match cur with
  | Some c =>
      return_if negb (supports_currency (capabilities rail) c) with_
        Err (CurrencyNotSupported name c);
      Ok rail
  | None => Ok rail
  end.

(** ** Invariant and lemmas *)

Definition registry_inv (g : Registry) : Prop :=
  forall k R, reg_rails g !! k = Some R -> trim (id R) = k /\ k <> EmptyString.

Lemma register_inv rail g r g' :
  registry_inv g -> register rail g = (r, g') -> registry_inv g'.
Proof.
  intros Hg. unfold register. destruct (is_empty (trim (id rail))) eqn:Ee; [now intros [= <- <-]|].
  destruct (reg_rails g !! trim (id rail)) eqn:El; [now intros [= <- <-]|]. intros [= <- <-] k R.
  cbn [reg_rails]. destruct (decide (trim (id rail) = k)) as [<-|Hn].
  - rewrite lookup_insert_eq. intros [= <-]. split; [done|]. intros E. now rewrite E in Ee.
  - rewrite lookup_insert_ne by done. apply Hg.
Qed.
Lemma registry_new_inv : registry_inv registry_new.
Proof. intros k R. cbn. now rewrite lookup_empty. Qed.
Lemma from_env_inv env : registry_inv (from_env env).
Proof.
  unfold from_env. destruct (fold_left _ _ _) as [s []]; intros k R; cbn; now rewrite lookup_empty.
Qed.

(** Every registry a program can build. *)
Inductive built : Registry -> Prop :=
  | built_new : built registry_new
  | built_env env : built (from_env env)
  | built_register g rail r g' : built g -> register rail g = (r, g') -> built g'.
Lemma built_inv g : built g -> registry_inv g.
Proof.
  induction 1 as [|env|g rail r g' _ IH Hr].
  - apply registry_new_inv.
  - apply from_env_inv.
  - eapply register_inv; eauto.
Qed.

Lemma env_parts l s any : 
  let '(s', any') := fold_left env_part l (s, any) in
  (forall n, n ∈ s' <-> n ∈ s \/ exists p, p ∈ l /\ is_blank p = false /\ to_ascii_lowercase (trim p) = n) /\
  (any' = true <-> any = true \/ exists p, p ∈ l /\ is_blank p = false).
Proof.
  revert s any. induction l as [|p l IH]; intros s any; cbn [fold_left].
  - split; [intros n|]; split; auto; intros [H|(p & Hp & _)]; auto; now apply not_elem_of_nil in Hp.
  - assert (is_empty (to_ascii_lowercase (trim p)) = is_blank p) as Eb
      by (unfold is_blank; now destruct (trim p)).
    unfold env_part at 2. rewrite Eb. destruct (is_blank p) eqn:Ep.
    + specialize (IH s any). destruct (fold_left env_part l (s, any)) as [s' any'].
      destruct IH as [IH1 IH2]. split; [intros n; rewrite IH1 | rewrite IH2];
        (split; (intros [H|(p' & Hp' & Hb)]; [now left | right; exists p']));
        rewrite ?elem_of_cons in *; intuition congruence.
    + cbn [fst]. specialize (IH ({[to_ascii_lowercase (trim p)]} ∪ s) true).
      destruct (fold_left env_part l _) as [s' any']. destruct IH as [IH1 IH2]. split.
      * intros n. rewrite IH1, elem_of_union, elem_of_singleton. split.
        -- intros [[->|?]|(p' & ? & ?)]; [right; exists p; rewrite elem_of_cons; auto | now left |].
           right. exists p'. rewrite elem_of_cons. auto.
        -- intros [?|(p' & [->|?]%elem_of_cons & ? & <-)]; [auto | auto | right; eauto].
      * rewrite IH2. split; [intros _|auto]. right. exists p. rewrite elem_of_cons. auto.
Qed.
End Registry.
Arguments Registry : clear implicits.

(** ** The order *)

#[export] Instance str_le_total : Total str_le.
Proof. intros a b. apply String.leb_total. Qed.

Lemma string_compare_lt_trans a b c :
  String.compare a b <> Gt -> String.compare b c <> Gt -> String.compare a c <> Gt.
Proof.
  revert b c. induction a as [|x a IH]; intros [|y b] [|z c]; cbn; try done.
  unfold Ascii.compare. intros H1 H2.
  destruct (N.compare_spec (N_of_ascii x) (N_of_ascii y)) as [E1|E1|E1]; [| |done];
    destruct (N.compare_spec (N_of_ascii y) (N_of_ascii z)) as [E2|E2|E2]; try done;
    destruct (N.compare_spec (N_of_ascii x) (N_of_ascii z)) as [E3|E3|E3]; try done;
    try lia. eauto.
Qed.
#[export] Instance str_le_trans : Transitive str_le.
Proof.
  intros a b c. unfold str_le, String.leb. intros H1 H2.
  pose proof (string_compare_lt_trans a b c) as H.
  destruct (String.compare a b), (String.compare b c), (String.compare a c); try done;
    destruct H; done.
Qed.
#[export] Instance id_le_total {W} : Total (id_le (W := W)).
Proof. intros a b. apply str_le_total. Qed.
#[export] Instance id_le_trans {W} : Transitive (id_le (W := W)).
Proof. intros a b c. apply str_le_trans. Qed.

(** ** Theorems *)

(** [Registry::select], branch by branch. It answers the rail registered under exactly that
    name when it is enabled and supports the asked currency; otherwise the first failing
    check, in the order registered, enabled, currency, is the error. *)
Theorem registry_select_spec {W} (g : Registry W) (name : str) (cur : option str) :
  select g name cur =
  match get g name with
  | None => Err (RailNotFound name)
  | Some R =>
      if is_enabled g name then
        match cur with
        | Some c => if supports_currency (capabilities R) c then Ok R
                    else Err (CurrencyNotSupported name c)
        | None => Ok R
        end
      else Err (RailDisabled name)
  end.
Proof.
  unfold select, mbind, result_bind, ok_or. destruct (get g name) as [R|]; [|done].
  destruct (is_enabled g name); cbn [negb]; [|done]. destruct cur as [c|]; [|done].
  now destruct (supports_currency (capabilities R) c).
Qed.

(** The ids of a built registry's rails are distinct: their trimmed forms are
    the map's keys. *)
Lemma built_ids {W} (g : Registry W) : built g ->
  NoDup (map id (map snd (map_to_list (reg_rails g)))).
Proof.
  intros Hb. pose proof (built_inv g Hb) as Hinv. apply (NoDup_fmap_1 trim).
  assert (map trim (map id (map snd (map_to_list (reg_rails g)))) = map fst (map_to_list (reg_rails g)))
    as E; [|setoid_rewrite E; apply NoDup_fst_map_to_list].
  rewrite !map_map. apply map_ext_in. intros [k R] H%list_elem_of_In%elem_of_map_to_list.
  exact (proj1 (Hinv k R H)).
Qed.
Lemma filter_strongly_sorted {A} (R : relation A) (p : A -> bool) l :
  StronglySorted R l -> StronglySorted R (List.filter p l).
Proof.
  induction 1 as [|x l Hs IH Hf]; cbn; [constructor|]. destruct (p x); [|done].
  constructor; [done|]. rewrite Forall_forall in *. intros y Hy%list_elem_of_In.
  apply filter_In in Hy as [Hy _]. apply Hf. now apply list_elem_of_In.
Qed.
Lemma filter_map_nodup {A B} (h : A -> B) (p : A -> bool) l :
  NoDup (map h l) -> NoDup (map h (List.filter p l)).
Proof.
  induction l as [|x l IH]; cbn; [done|]. intros [Hx Hl]%NoDup_cons.
  destruct (p x); cbn; [|auto]. apply NoDup_cons. split; [|auto].
  intros (y & Hy & Hin%list_elem_of_In)%list_elem_of_fmap. apply Hx.
  apply filter_In in Hin as [Hin%list_elem_of_In _]. rewrite Hy. now apply list_elem_of_fmap_2.
Qed.

(** [Registry::list]. In any registry a program can build, the listing holds exactly the
    registered rails that are enabled and match the filter, sorted by id, each id once. *)
Theorem registry_list_spec {W} (g : Registry W) (f : CapabilityFilter) (Hb : built g) :
  (forall R, R ∈ list_rails g f <->
     (exists k, get g k = Some R) /\ is_enabled g (id R) = true /\
     match cf_currency f with Some c => supports_currency (capabilities R) c = true | None => True end /\
     match cf_class f with Some c => class (capabilities R) = c | None => True end) /\
  StronglySorted id_le (list_rails g f) /\ NoDup (map id (list_rails g f)).
Proof.
  assert (forall R, R ∈ merge_sort id_le (map snd (map_to_list (reg_rails g))) <->
    exists k, get g k = Some R) as Hin.
  { intros R. rewrite merge_sort_Permutation, list_elem_of_fmap. split.
    - intros ([k R'] & -> & H%elem_of_map_to_list). now exists k.
    - intros [k H]. exists (k, R). split; [done | now apply elem_of_map_to_list]. }
  unfold list_rails. split_and!.
  - intros R. rewrite list_elem_of_In, filter_In, <- list_elem_of_In, Hin. unfold matches.
    rewrite !andb_true_iff.
    destruct (cf_currency f), (cf_class f); rewrite ?bool_decide_eq_true; tauto.
  - apply filter_strongly_sorted, StronglySorted_merge_sort; apply _.
  - apply filter_map_nodup.
    assert (map id (merge_sort id_le (map snd (map_to_list (reg_rails g)))) ≡ₚ
      map id (map snd (map_to_list (reg_rails g)))) as ->
      by (apply (fmap_Permutation id), merge_sort_Permutation).
    now apply built_ids.
Qed.

Definition rail_a : PaymentRail Z := mock_rail (mock_new "stripe" CustodialReversible ["USD"]).
Definition rail_b : PaymentRail Z := mock_rail (mock_new "paystack" CustodialReversible ["NGN"]).
Definition demo_registry : Registry Z := (register rail_b (register rail_a (from_env "Stripe, paystack")).2).2.
Lemma registry_list_spec_witness :
  map id (list_rails demo_registry {| cf_currency := Some "usd"; cf_class := None |}) = ["stripe"] /\
  NoDup (map id (list_rails demo_registry {| cf_currency := Some "usd"; cf_class := None |})).
Proof.
  split; [vm_compute; reflexivity|].
  apply (registry_list_spec demo_registry {| cf_currency := Some "usd"; cf_class := None |}).
  eapply built_register; [|unfold demo_registry; apply surjective_pairing].
  eapply built_register; [|apply surjective_pairing]. apply built_env.
Defined.

(** The allowlist. A registry built from the environment value enables exactly: [manual],
    always; every name, when the value lists nothing; and otherwise the names that some
    comma-separated entry spells, ignoring ASCII case and surrounding space. Registering
    rails never changes it. *)
Theorem registry_allowlist {W} (env : str) (rs : list (PaymentRail W)) (name : str) :
  let g := fold_left (fun g R => (register R g).2) rs (from_env env) in
  is_enabled g name = true <->
  name = RAIL_ID_MANUAL \/
  (forall p, p ∈ split_char "," env -> is_blank p = true) \/
  to_ascii_lowercase name = RAIL_ID_MANUAL \/
  exists p, p ∈ split_char "," env /\ is_blank p = false /\
    to_ascii_lowercase (trim p) = to_ascii_lowercase name.
Proof.
  cbn zeta. assert (enabled (fold_left (fun g R => (register R g).2) rs (from_env (W := W) env))
    = enabled (from_env (W := W) env)) as E.
  { generalize (from_env (W := W) env). induction rs as [|R rs IH]; intros g; [done|].
    cbn [fold_left]. rewrite IH. unfold register. now repeat case_match. }
  unfold is_enabled. rewrite E. clear E.
  destruct (String.eqb_spec name RAIL_ID_MANUAL) as [->|Hm]; [tauto|].
  unfold from_env. pose proof (env_parts (split_char "," env) ∅ false) as Hp.
  destruct (fold_left _ _ _) as [s any]. destruct Hp as [Hs Ha]. cbn [enabled].
  destruct any.
  - rewrite bool_decide_eq_true, elem_of_union, elem_of_singleton, Hs.
    destruct (proj1 Ha eq_refl) as [|(p & Hp & Hb)]; [done|]. split.
    + intros [?|[H|?]]; [auto | now apply not_elem_of_empty in H | auto].
    + intros [?|[H|[?|?]]]; [done | | auto | auto]. specialize (H p Hp). congruence.
  - split; [intros _|done]. right. left. intros p Hp. destruct (is_blank p) eqn:Eb; [done|].
    discriminate (proj2 Ha (or_intror (ex_intro _ p (conj Hp Eb)))).
Qed.

(** Registration. It succeeds exactly when the trimmed id is non-empty and free; then the
    rail is found under that trimmed id and every other name still finds what it found;
    otherwise nothing changes. *)
Theorem registry_register_spec {W} (R : PaymentRail W) (g : Registry W) :
  let '(r, g') := register R g in
  (r = Ok tt <-> is_blank (id R) = false /\ get g (trim (id R)) = None) /\
  (r = Ok tt -> get g' (trim (id R)) = Some R /\
     forall name, name <> trim (id R) -> get g' name = get g name) /\
  (r <> Ok tt -> g' = g).
Proof.
  unfold register, get, is_blank. destruct (is_empty (trim (id R))) eqn:Ee.
  { split_and!; try done. split; [done | now intros [? _]]. }
  destruct (reg_rails g !! trim (id R)) eqn:El.
  - split_and!; try done. split; [done | now intros [_ ?]].
  - cbn [reg_rails]. split_and!; try done. intros _. split; [apply lookup_insert_eq|].
    intros name Hn. now apply lookup_insert_ne.
Qed.

(** A rail whose id has surrounding space is registered and selectable under
    the trimmed id, yet [list] asks whether the untrimmed id is enabled. *)
Definition rail_spaced : PaymentRail Z := mock_rail (mock_new "stripe " CustodialReversible ["USD"]).
Definition spaced_registry : Registry Z := (register rail_spaced (from_env "stripe")).2.
Lemma registry_selectable_but_not_listed :
  is_ok (select spaced_registry "stripe" (Some "USD")) = true /\
  map id (list_rails spaced_registry {| cf_currency := None; cf_class := None |}) = [].
Proof. split; vm_compute; reflexivity. Qed.
