(* ===== verification/StellarTx.v ===== *)
(** * Stellar transactions ([patala-stellar/src/tx.rs], [keys.rs])

    The bindings that go into a memo, the builders of payment and
    sequence-bump transactions, the signing base, the envelope, and the strict
    decoder. The XDR codec, SHA-256 and StrKey are the linked libraries'. *)

From S2P Require Import Prelude RustStr Core External.

Inductive StellarError :=
  | Rpc (m : str)
  | BadAddress (m : str)
  | Config (m : str)
  | Xdr (m : str).
#[export] Instance StellarError_eq_dec : EqDecision StellarError.
Proof. solve_decision. Defined.
Definition stellar_error_display (e : StellarError) : str :=
  match e with
  | Rpc m => "stellar horizon: " +:+ m
  | BadAddress m => "not a valid stellar address: " +:+ m
  | Config m => "stellar rail misconfigured: " +:+ m
  | Xdr m => "stellar xdr: " +:+ m
  end.
(** [impl From<StellarError> for Error] *)
Definition from_stellar (e : StellarError) : Error := Rail (stellar_error_display e).

(** ** The XDR shapes the code builds and matches

    A 32-byte array is its bytes. The variants the code never looks into keep
    an opaque payload. *)

Abbreviation key32 := (list byte).
Inductive MuxedAccount := MuxedEd25519 (k : key32) | MuxedOther (raw : list byte).
Record AlphaNum4 := { asset_code : list byte; issuer : key32 }.
Inductive Asset := CreditAlphanum4 (a : AlphaNum4) | AssetOther (raw : list byte).
Record PaymentOp := { op_destination : MuxedAccount; op_asset : Asset; op_amount : Z }.
Inductive OperationBody :=
  | Payment (p : PaymentOp)
  | BumpSequence (bump_to : Z)
  | BodyOther (raw : list byte).
Record Operation := { op_source_account : option MuxedAccount; op_body : OperationBody }.
Inductive Memo := MemoHash (h : list byte) | MemoOther (raw : list byte).
Record PreconditionsV2 := {
  time_bounds : option (Z * Z);
  ledger_bounds : option (Z * Z);
  min_seq_num : option Z;
  min_seq_age : Z;
  min_seq_ledger_gap : Z;
  extra_signers : list (list byte);
}.
Inductive Preconditions := PrecondNone | PrecondTime (min max : Z) | PrecondV2 (v : PreconditionsV2).
Record Transaction := {
  source_account : MuxedAccount;
  fee : Z;
  seq_num : Z;
  cond : Preconditions;
  memo : Memo;
  operations : list Operation;
}.
Record DecoratedSignature := { hint : list byte; signature : list byte }.
Inductive TransactionEnvelope :=
  | EnvTx (tx : Transaction) (signatures : list DecoratedSignature)
  | EnvOther (raw : list byte).

#[export] Instance MuxedAccount_eq_dec : EqDecision MuxedAccount.
Proof. solve_decision. Defined.
#[export] Instance AlphaNum4_eq_dec : EqDecision AlphaNum4.
Proof. solve_decision. Defined.
#[export] Instance Asset_eq_dec : EqDecision Asset.
Proof. solve_decision. Defined.

(** The XDR codec: [to_xdr] of a [TransactionSignaturePayload] for a network
    and transaction, and the base64 envelope both ways. *)
Class XdrCodec := {
  payload_to_xdr : list byte -> Transaction -> Result str (list byte);
  envelope_encode : TransactionEnvelope -> Result str str;
  envelope_decode : str -> Result str TransactionEnvelope;
}.
(** XDR decoding inverts encoding; the signature payload's encoding is
    therefore injective. *)
Class XdrLaws `{XdrCodec} : Prop := {
  envelope_roundtrip e s : envelope_encode e = Ok s -> envelope_decode s = Ok e;
  payload_inj n t n' t' b :
    payload_to_xdr n t = Ok b -> payload_to_xdr n' t' = Ok b -> n = n' /\ t = t';
}.

(** [stellar-strkey]: the kinds of StrKey, the parser of all of them, and the
    encoder of account addresses ([G...]). *)
Inductive Strkey :=
  | PublicKeyEd25519 (k : key32)
  | MuxedAccountEd25519 (raw : list byte)
  | ContractKey (raw : list byte)
  | PreAuthTx (raw : list byte)
  | HashX (raw : list byte)
  | SignedPayloadEd25519 (raw : list byte)
  | PrivateKeyEd25519 (raw : list byte).
Class StrKey := { strkey_encode : key32 -> str; strkey_parse : str -> option Strkey }.
(** [ed25519::PublicKey::from_string] *)
Definition strkey_decode `{StrKey} (s : str) : option key32 :=
  match strkey_parse s with Some (PublicKeyEd25519 k) => Some k | _ => None end.
(** SEP-23: an account address is 56 base32 characters, the first a [G]
    (either case decodes), and carries 32 bytes. *)
Definition strkey_char (a : ascii) : bool := is_ascii_alphabetic a || between 50 55 a.
Class StrKeyLaws `{StrKey} : Prop := {
  strkey_roundtrip k : length k = 32%nat -> strkey_parse (strkey_encode k) = Some (PublicKeyEd25519 k);
  length_strkey_payload s k : strkey_parse s = Some (PublicKeyEd25519 k) -> length k = 32%nat;
  strkey_account_shape s k : strkey_parse s = Some (PublicKeyEd25519 k) ->
    String.length s = 56%nat /\ str_all strkey_char s = true /\
    (first_char s = Some "G"%char \/ first_char s = Some "g"%char);
}.

(** ** Constants *)

Definition USDC_DECIMALS : Z := 7.
Definition MAX_OPERATIONS : Z := 100.

Section Keys.
Context `{StrKey} `{Ed25519}.
Definition to_strkey (k : key32) : str := strkey_encode k.
Definition from_strkey (s : str) : Result StellarError key32 :=
  ok_or (BadAddress s) (strkey_decode s).
(** [Keypair], by its seed. *)
Definition pubkey (seed : list byte) : key32 := ed_pubkey seed.
Definition sign (seed msg : list byte) : list byte := ed_sign seed msg.
Definition keypair_verify (pk msg sig : list byte) : bool :=
  return_if negb (ed_valid_key pk) with_ false;
  ed_verify pk msg sig.
End Keys.

(** ** Bindings *)

(** [h.update((field.len() as u64).to_le_bytes()); h.update(field)] *)
Definition lp_field (f : str) : list byte := u64_le (len f) ++ as_bytes f.
Definition lp_fields (fs : list str) : list byte := concat (map lp_field fs).

Section Tx.
Context `{Sha256} `{XdrCodec}.

Definition memo_preimage (rid source destination reference : str) : list byte :=
  as_bytes "patala-stellar-pay-v1" ++ lp_fields [rid; source; destination; reference].
Definition memo_hash (rid source destination reference : str) : list byte :=
  sha256 (memo_preimage rid source destination reference).

Definition lp_leg (leg : str * Z) : list byte := lp_field leg.1 ++ i64_le leg.2.
Definition split_memo_preimage (rid source reference : str) (legs : list (str * Z)) : list byte :=
  as_bytes "patala-stellar-split-v1" ++ lp_fields [rid; source; reference]
  ++ u64_le (Z.of_nat (length legs)) ++ concat (map lp_leg legs).
Definition split_memo_hash (rid source reference : str) (legs : list (str * Z)) : list byte :=
  sha256 (split_memo_preimage rid source reference legs).

Definition recurring_memo_preimage (rid source destination reference : str)
    (base_seq instalment_index instalment_count : Z) : list byte :=
  as_bytes "patala-stellar-recurring-v1" ++ lp_fields [rid; source; destination; reference]
  ++ i64_le base_seq ++ u32_le instalment_index ++ u32_le instalment_count.
Definition recurring_memo_hash (rid source destination reference : str)
    (base_seq instalment_index instalment_count : Z) : list byte :=
  sha256 (recurring_memo_preimage rid source destination reference
    base_seq instalment_index instalment_count).

Definition cancel_memo_preimage (rid source reference : str) (base_seq : Z) : list byte :=
  as_bytes "patala-stellar-recurring-cancel-v1" ++ lp_fields [rid; source; reference]
  ++ i64_le base_seq.
Definition cancel_memo_hash (rid source reference : str) (base_seq : Z) : list byte :=
  sha256 (cancel_memo_preimage rid source reference base_seq).

Definition network_id (passphrase : str) : list byte := sha256 (as_bytes passphrase).

(** ** Builders *)

Definition asset_code4 (c : str) : Result StellarError (list byte) :=
  return_if is_empty c || (4 <? len c) || negb (str_all is_ascii_alphanumeric c) with_
    Err (Config ("asset code " +:+ debug_str c +:+ " must be 1-4 ASCII alphanumerics"));
  Ok (as_bytes c ++ repeat x00 (4 - String.length c)).
Definition usdc_asset (c : str) (issuer_pk : key32) : Result StellarError Asset :=
  code4 ← asset_code4 c;
  mret (CreditAlphanum4 {| asset_code := code4; issuer := issuer_pk |}).

Record PaymentLeg := { dest_pk : key32; asset : Asset; amount : Z }.

Definition payment_op (leg : PaymentLeg) : Operation := {|
  op_source_account := None;
  op_body := Payment {| op_destination := MuxedEd25519 (dest_pk leg); op_asset := asset leg;
                        op_amount := amount leg |};
|}.

(** [VecM::try_from] is what enforces the protocol's limit. *)
Definition transaction_from_ops (source_pk : key32) (ops : list Operation) (seq fee_bid : Z)
    (m : list byte) (c : Preconditions) : Result StellarError Transaction :=
  return_if MAX_OPERATIONS <? Z.of_nat (length ops) with_
    Err (Xdr ("a stellar transaction carries at most " +:+ to_dec MAX_OPERATIONS +:+ " operations"));
  Ok {| source_account := MuxedEd25519 source_pk; fee := fee_bid; seq_num := seq; cond := c;
        memo := MemoHash m; operations := ops |}.

Definition leg_overflow (i : Z) : StellarError :=
  Config ("leg " +:+ to_dec i +:+ ": summing payment amounts overflows Stellar's i64 amount range").
Fixpoint total_amount_from (i total : Z) (legs : list PaymentLeg) : Result StellarError Z :=
  match legs with
  | [] => Ok total
  | leg :: legs =>
      match i64_checked_add total (amount leg) with
      | Some total => total_amount_from (i + 1) total legs
      | None => Err (leg_overflow i)
      end
  end.
Definition total_amount (legs : list PaymentLeg) : Result StellarError Z := total_amount_from 0 0 legs.

Definition total_fee (base_fee_stroops op_count : Z) : Result StellarError Z :=
  ops ← ok_or (Config ("absurd operation count " +:+ to_dec op_count)) (u32_try_from op_count);
  ok_or (Config ("fee bid overflows u32: " +:+ to_dec base_fee_stroops +:+ " stroops × "
                 +:+ to_dec ops +:+ " operations"))
    (u32_checked_mul base_fee_stroops ops).

Fixpoint check_positive (i : Z) (legs : list PaymentLeg) : Result StellarError unit :=
  match legs with
  | [] => Ok tt
  | leg :: legs =>
      return_if amount leg <=? 0 with_
        Err (Config ("leg " +:+ to_dec i +:+ ": payment amount must be strictly positive, got "
                     +:+ int_to_dec (amount leg)));
      check_positive (i + 1) legs
  end.

Definition build_payment_transaction (source_pk : key32) (legs : list PaymentLeg)
    (seq base_fee_stroops : Z) (m : list byte) : Result StellarError Transaction :=
  return_if bool_decide (length legs = O) with_
    Err (Config "a payment transaction needs at least one leg");
  return_if MAX_OPERATIONS <? Z.of_nat (length legs) with_
    Err (Config (to_dec (Z.of_nat (length legs)) +:+ " legs exceeds Stellar's limit of "
      +:+ to_dec MAX_OPERATIONS
      +:+ " operations per transaction; split the bundle across several transactions (each is then separately atomic — atomicity does NOT extend across them)"));
  _ ← check_positive 0 legs;
  _ ← total_amount legs;
  fee_bid ← total_fee base_fee_stroops (Z.of_nat (length legs));
  transaction_from_ops source_pk (map payment_op legs) seq fee_bid m PrecondNone.

(** The infallible builders: one operation never exceeds the limit
    ([expect]), so the record is written directly. *)
Definition build_transaction_with_preconditions (source_pk dest : key32) (a : Asset)
    (amt seq fee_bid : Z) (m : list byte) (c : Preconditions) : Transaction :=
  {| source_account := MuxedEd25519 source_pk; fee := fee_bid; seq_num := seq; cond := c;
     memo := MemoHash m;
     operations := [payment_op {| dest_pk := dest; asset := a; amount := amt |}] |}.
Definition build_transaction (source_pk dest : key32) (a : Asset) (amt seq fee_bid : Z)
    (m : list byte) : Transaction :=
  build_transaction_with_preconditions source_pk dest a amt seq fee_bid m PrecondNone.
Definition build_bump_sequence_transaction (source_pk : key32) (seq fee_bid bump_to : Z)
    (m : list byte) : Transaction :=
  {| source_account := MuxedEd25519 source_pk; fee := fee_bid; seq_num := seq;
     cond := PrecondNone; memo := MemoHash m;
     operations := [{| op_source_account := None; op_body := BumpSequence bump_to |}] |}.

(** ** Signing base and envelope *)

Definition signing_payload (net_id : list byte) (tx : Transaction) : Result StellarError (list byte) :=
  map_err (fun e => Xdr ("encode signature payload: " +:+ e)) (payload_to_xdr net_id tx).
Definition tx_hash (net_id : list byte) (tx : Transaction) : Result StellarError (list byte) :=
  p ← signing_payload net_id tx; mret (sha256 p).
Definition envelope (tx : Transaction) (signer_pk : key32) (sig : list byte) : TransactionEnvelope :=
  EnvTx tx [{| hint := drop 28 signer_pk; signature := sig |}].
Definition envelope_to_xdr_base64 (env : TransactionEnvelope) : Result StellarError str :=
  map_err (fun e => Xdr ("encode envelope: " +:+ e)) (envelope_encode env).
Definition envelope_from_xdr_base64 (b64 : str) : Result StellarError TransactionEnvelope :=
  map_err (fun e => Xdr ("decode envelope: " +:+ e)) (envelope_decode b64).

(** ** Decoding *)

Record DecodedPayments := {
  dp_source_pk : key32;
  dp_seq_num : Z;
  dp_fee : Z;
  dp_memo : list byte;
  dp_legs : list PaymentLeg;
}.

Definition op_error (i : Z) (m : str) : StellarError := Xdr ("operation " +:+ to_dec i +:+ m).
Definition decode_leg (i : Z) (op : Operation) : Result StellarError PaymentLeg :=
  return_if bool_decide (op_source_account op <> None) with_
    Err (op_error i " carries its own source override");
  match op_body op with
  | Payment pay =>
      match op_destination pay with
      | MuxedEd25519 dest =>
          return_if op_amount pay <=? 0 with_
            Err (op_error i (": payment amount " +:+ int_to_dec (op_amount pay)
                             +:+ " is not strictly positive"));
          Ok {| dest_pk := dest; asset := op_asset pay; amount := op_amount pay |}
      | MuxedOther _ => Err (op_error i ": destination is not a plain Ed25519 key")
      end
  | _ => Err (op_error i " is not PAYMENT")
  end.
Fixpoint decode_legs (i : Z) (ops : list Operation) : Result StellarError (list PaymentLeg) :=
  match ops with
  | [] => Ok []
  | op :: ops => leg ← decode_leg i op; legs ← decode_legs (i + 1) ops; mret (leg :: legs)
  end.

Definition decode_payments (env : TransactionEnvelope) : Result StellarError DecodedPayments :=
  match env with
  | EnvOther _ => Err (Xdr "not a v1 (ENVELOPE_TYPE_TX) envelope")
  | EnvTx tx _ =>
      match source_account tx with
      | MuxedOther _ => Err (Xdr "source account is not a plain Ed25519 key")
      | MuxedEd25519 source_pk =>
          match memo tx with
          | MemoOther _ => Err (Xdr "memo is not MEMO_HASH")
          | MemoHash m =>
              return_if bool_decide (length (operations tx) = O) with_
                Err (Xdr "transaction carries no operations at all");
              return_if MAX_OPERATIONS <? Z.of_nat (length (operations tx)) with_
                Err (Xdr (to_dec (Z.of_nat (length (operations tx)))
                  +:+ " operations exceeds the protocol limit of " +:+ to_dec MAX_OPERATIONS));
              legs ← decode_legs 0 (operations tx);
              mret {| dp_source_pk := source_pk; dp_seq_num := seq_num tx; dp_fee := fee tx;
                      dp_memo := m; dp_legs := legs |}
          end
      end
  end.

Record DecodedPayment := {
  d_source_pk : key32;
  d_seq_num : Z;
  d_fee : Z;
  d_dest_pk : key32;
  d_asset : Asset;
  d_amount : Z;
  d_memo : list byte;
}.
Definition decode_single_payment (env : TransactionEnvelope) : Result StellarError DecodedPayment :=
  decoded ← decode_payments env;
  match dp_legs decoded with
  | [leg] =>
      Ok {| d_source_pk := dp_source_pk decoded; d_seq_num := dp_seq_num decoded;
            d_fee := dp_fee decoded; d_dest_pk := dest_pk leg; d_asset := asset leg;
            d_amount := amount leg; d_memo := dp_memo decoded |}
  | legs => Err (Xdr ("expected exactly one operation, found " +:+ to_dec (Z.of_nat (length legs))))
  end.

Definition asset_is (a : Asset) (c : str) (issuer_pk : key32) : bool :=
  match a with
  | AssetOther _ => false
  | CreditAlphanum4 a =>
      let_ok want := asset_code4 c or_else false;
      bool_decide (asset_code a = want) && bool_decide (issuer a = issuer_pk)
  end.

Definition single_signature (env : TransactionEnvelope) : Result StellarError (list byte * list byte) :=
  match env with
  | EnvOther _ => Err (Xdr "not a v1 (ENVELOPE_TYPE_TX) envelope")
  | EnvTx _ [s] =>
      bytes ← ok_or (Xdr "signature is not 64 bytes") (array_of 64 (signature s));
      mret (hint s, bytes)
  | EnvTx _ sigs =>
      Err (Xdr ("expected exactly one signature, found " +:+ to_dec (Z.of_nat (length sigs))))
  end.
End Tx.

(** ** Lemmas on the builders *)

Lemma build_transaction_expect src dst a amt seq f m c :
  transaction_from_ops src [payment_op {| dest_pk := dst; asset := a; amount := amt |}] seq f m c
  = Ok (build_transaction_with_preconditions src dst a amt seq f m c).
Proof. done. Qed.

Definition positive (leg : PaymentLeg) : Prop := 0 < amount leg.
Definition sum_amounts (legs : list PaymentLeg) : Z := fold_right (fun l s => amount l + s) 0 legs.

Lemma check_positive_spec i legs : check_positive i legs = Ok tt <-> Forall positive legs.
Proof.
  revert i. induction legs as [|l legs IH]; intros i; cbn [check_positive]; [split; auto|].
  rewrite Forall_cons. unfold positive at 1. destruct (Z.leb_spec (amount l) 0).
  - split; [done | intros [? _]; lia].
  - rewrite IH. tauto.
Qed.
Lemma sum_amounts_nonneg legs : Forall positive legs -> 0 <= sum_amounts legs.
Proof.
  induction 1 as [|l legs Hl _ IH]; cbn; [lia|]. fold (sum_amounts legs). unfold positive in Hl. lia.
Qed.

(** With positive legs the running sum overflows iff the sum does. *)
Lemma total_amount_from_spec i t legs r :
  0 <= t <= i64_max -> Forall positive legs ->
  total_amount_from i t legs = Ok r <-> r = t + sum_amounts legs /\ t + sum_amounts legs <= i64_max.
Proof.
  revert i t. induction legs as [|l legs IH]; intros i t Ht Hp; cbn [total_amount_from sum_amounts fold_right].
  - rewrite Z.add_0_r. split; [intros [= <-]; lia | now intros [-> _]].
  - apply Forall_cons in Hp as [Hl Hp]. unfold positive in Hl. fold (sum_amounts legs).
    pose proof (sum_amounts_nonneg legs Hp). unfold i64_checked_add.
    destruct (in_range i64_min i64_max (t + amount l)) as [t'|] eqn:E.
    + apply in_range_Some in E as [-> Hr]. rewrite IH by (done || lia).
      rewrite Z.add_assoc. done.
    + apply in_range_None in E. split; [done|]. intros [-> ?]. destruct E.
      unfold i64_min in *. lia.
Qed.
Lemma total_amount_spec legs r : Forall positive legs ->
  total_amount legs = Ok r <-> r = sum_amounts legs /\ sum_amounts legs <= i64_max.
Proof.
  intros Hp. unfold total_amount. rewrite total_amount_from_spec; [|unfold i64_max; lia | done].
  now rewrite Z.add_0_l.
Qed.

Lemma total_fee_spec base n f : 0 <= base -> 0 <= n ->
  total_fee base n = Ok f <-> n <= u32_max /\ f = base * n /\ base * n <= u32_max.
Proof.
  intros Hb Hn. unfold total_fee, u32_try_from, u32_checked_mul, mbind, result_bind, ok_or.
  destruct (in_range 0 u32_max n) as [m|] eqn:E.
  - apply in_range_Some in E as [-> [_ E]].
    destruct (in_range 0 u32_max (base * n)) as [g|] eqn:G.
    + apply in_range_Some in G as [-> [_ G]]. split; [intros [= <-]; auto | now intros (_ & -> & _)].
    + apply in_range_None in G. split; [done|]. intros (_ & _ & ?). destruct G. nia.
  - apply in_range_None in E. split; [done|]. intros (? & _). destruct E. lia.
Qed.

Lemma decode_leg_spec i op leg :
  decode_leg i op = Ok leg <-> op = payment_op leg /\ positive leg.
Proof.
  unfold decode_leg, payment_op, positive. destruct op as [[src|] body]; cbn.
  { split; [done|]. now intros [? _]. }
  destruct body as [[dst a amt]| |]; cbn; try (split; [done | now intros [? _]]).
  destruct dst as [k|raw]; [|split; [done | now intros [? _]]].
  destruct (Z.leb_spec amt 0).
  - split; [done|]. intros [[= -> -> ->] ?]. lia.
  - split; [intros [= <-]; done|]. destruct leg as [x y z]; cbn. now intros [[= -> -> ->] ?].
Qed.
#[export] Instance payment_op_inj : Inj eq eq payment_op.
Proof. intros [] [] [= -> -> ->]. done. Qed.
Lemma payment_ops_inj legs legs' : map payment_op legs = map payment_op legs' -> legs = legs'.
Proof. exact (inj (fmap (M:=list) payment_op) legs legs'). Qed.

Lemma decode_legs_spec i ops legs :
  decode_legs i ops = Ok legs <-> ops = map payment_op legs /\ Forall positive legs.
Proof.
  revert i legs. induction ops as [|op ops IH]; intros i legs; cbn [decode_legs].
  - split; [now intros [= <-]|]. intros [E _]. now destruct legs.
  - unfold mbind, result_bind, mret, result_ret. split.
    + destruct (decode_leg i op) as [leg|e] eqn:El; [|done].
      destruct (decode_legs (i + 1) ops) as [ls|e] eqn:Es; [|done]. intros [= <-].
      apply decode_leg_spec in El as [-> ?]. apply IH in Es as [-> ?]. auto.
    + intros [E Hp]. destruct legs as [|l ls]; [done|]. injection E as -> ->.
      apply Forall_cons in Hp as [Hl Hls].
      rewrite (proj2 (decode_leg_spec i _ l)), (proj2 (IH (i + 1) ls)); auto.
Qed.

Lemma decode_payments_spec tx sigs d :
  decode_payments (EnvTx tx sigs) = Ok d <->
  source_account tx = MuxedEd25519 (dp_source_pk d) /\ memo tx = MemoHash (dp_memo d) /\
  seq_num tx = dp_seq_num d /\ fee tx = dp_fee d /\
  operations tx = map payment_op (dp_legs d) /\ Forall positive (dp_legs d) /\
  0 < Z.of_nat (length (dp_legs d)) <= MAX_OPERATIONS.
Proof.
  unfold decode_payments. destruct tx as [sa f sq c m ops]; cbn. destruct sa as [k|raw].
  2:{ split; [done | now intros [? _]]. }
  destruct m as [mh|raw]; [|split; [done | now intros (_ & ? & _)]].
  case_bool_decide as E0.
  { split; [done|]. intros (_ & _ & _ & _ & -> & _ & Hl). rewrite length_map in E0. lia. }
  destruct (Z.ltb_spec MAX_OPERATIONS (Z.of_nat (length ops))) as [E1|E1].
  { split; [done|]. intros (_ & _ & _ & _ & -> & _ & Hl). rewrite length_map in E1. lia. }
  unfold mbind, result_bind, mret, result_ret.
  destruct (decode_legs 0 ops) as [legs|e] eqn:El.
  - apply decode_legs_spec in El as [-> Hp]. rewrite length_map in *. split.
    + intros [= <-]. cbn. split_and!; auto; lia.
    + intros ([= ->] & [= ->] & -> & -> & Hops & _). apply payment_ops_inj in Hops as ->.
      now destruct d.
  - split; [done|]. intros (_ & _ & _ & _ & Hops & Hp & _).
    rewrite (proj2 (decode_legs_spec 0 ops (dp_legs d)) (conj Hops Hp)) in El. done.
Qed.

(** ** Bindings are unambiguous *)

(** What a memo can bind: one payment, one split, one instalment of a plan, or
    the cancellation of a plan. *)
Inductive Binding :=
  | BPay (rid source destination reference : str)
  | BSplit (rid source reference : str) (legs : list (str * Z))
  | BRecurring (rid source destination reference : str) (base_seq index count : Z)
  | BCancel (rid source reference : str) (base_seq : Z).
Definition preimage (b : Binding) : list byte :=
  match b with
  | BPay rid src dst ref => memo_preimage rid src dst ref
  | BSplit rid src ref legs => split_memo_preimage rid src ref legs
  | BRecurring rid src dst ref base i n => recurring_memo_preimage rid src dst ref base i n
  | BCancel rid src ref base => cancel_memo_preimage rid src ref base
  end.
Definition binding_hash `{Sha256} (b : Binding) : list byte :=
  match b with
  | BPay rid src dst ref => memo_hash rid src dst ref
  | BSplit rid src ref legs => split_memo_hash rid src ref legs
  | BRecurring rid src dst ref base i n => recurring_memo_hash rid src dst ref base i n
  | BCancel rid src ref base => cancel_memo_hash rid src ref base
  end.
(** The machine types of the fields. *)
Definition fits (f : str) : Prop := is_u64 (len f).
Definition binding_typed (b : Binding) : Prop :=
  match b with
  | BPay rid src dst ref => Forall fits [rid; src; dst; ref]
  | BSplit rid src ref legs =>
      Forall fits [rid; src; ref] /\ is_u64 (Z.of_nat (length legs)) /\
      Forall (fun l => fits l.1 /\ is_i64 l.2) legs
  | BRecurring rid src dst ref base i n =>
      Forall fits [rid; src; dst; ref] /\ is_i64 base /\ is_u32 i /\ is_u32 n
  | BCancel rid src ref base => Forall fits [rid; src; ref] /\ is_i64 base
  end.

Lemma length_u64_le z : length (u64_le z) = 8%nat.
Proof. apply length_le_bytes. Qed.
Lemma length_i64_le z : length (i64_le z) = 8%nat.
Proof. apply length_le_bytes. Qed.
Lemma length_u32_le z : length (u32_le z) = 4%nat.
Proof. apply length_le_bytes. Qed.

Lemma lp_field_inj f g r s :
  fits f -> fits g -> lp_field f ++ r = lp_field g ++ s -> f = g /\ r = s.
Proof.
  unfold lp_field, fits. intros Hf Hg E. rewrite <- !app_assoc in E.
  apply app_inj_1 in E as [El E]; [|now rewrite !length_u64_le].
  apply u64_le_inj in El; [|done|done]. unfold len in El. apply Nat2Z.inj in El.
  apply app_inj_1 in E as [Ef E]; [|now rewrite !length_as_bytes].
  split; [now apply list_byte_inj | done].
Qed.
Lemma lp_fields_inj fs gs r s :
  Forall fits fs -> Forall fits gs -> length fs = length gs ->
  lp_fields fs ++ r = lp_fields gs ++ s -> fs = gs /\ r = s.
Proof.
  unfold lp_fields. revert gs. induction fs as [|f fs IH]; intros [|g gs] Hf Hg Hl E; try done.
  apply Forall_cons in Hf as [? ?]. apply Forall_cons in Hg as [? ?].
  cbn [map concat] in E. rewrite <- !app_assoc in E.
  apply lp_field_inj in E as [-> E]; [|done|done].
  destruct (IH gs) as [-> ->]; auto.
Qed.
Lemma lp_legs_inj legs legs' :
  Forall (fun l => fits l.1 /\ is_i64 l.2) legs -> Forall (fun l => fits l.1 /\ is_i64 l.2) legs' ->
  length legs = length legs' -> concat (map lp_leg legs) = concat (map lp_leg legs') -> legs = legs'.
Proof.
  revert legs'. induction legs as [|[d a] legs IH]; intros [|[d' a'] legs'] Hf Hg Hl E; try done.
  apply Forall_cons in Hf as [[? ?] ?]. apply Forall_cons in Hg as [[? ?] ?].
  cbn [map concat lp_leg fst snd] in *. unfold lp_leg in E; cbn [fst snd] in E.
  rewrite <- !app_assoc in E.
  apply lp_field_inj in E as [-> E]; [|done|done].
  apply app_inj_1 in E as [Ea E]; [|now rewrite !length_i64_le].
  apply i64_le_inj in Ea as ->; [|done|done]. f_equal. apply IH; auto.
Qed.

(** Two texts that differ within their first bytes never start the same
    preimage. *)
Lemma domain_clash (n : nat) (p q r s : list byte) :
  (n <= length p)%nat -> (n <= length q)%nat -> take n p <> take n q -> p ++ r <> q ++ s.
Proof.
  intros Hp Hq Hn E. apply Hn. apply (f_equal (take n)) in E.
  now rewrite !take_app_le in E by done.
Qed.

Lemma preimage_inj b b' :
  binding_typed b -> binding_typed b' -> preimage b = preimage b' -> b = b'.
Proof.
  destruct b as [rid src dst ref|rid src ref legs|rid src dst ref base i n|rid src ref base],
    b' as [rid' src' dst' ref'|rid' src' ref' legs'|rid' src' dst' ref' base' i' n'|rid' src' ref' base'];
    cbn [binding_typed preimage];
    unfold memo_preimage, split_memo_preimage, recurring_memo_preimage, cancel_memo_preimage;
    intros T T' E;
    try (exfalso; revert E; apply (domain_clash 16); [cbn; lia | cbn; lia | vm_compute; discriminate]);
    try (exfalso; revert E; apply (domain_clash 27); [cbn; lia | cbn; lia | vm_compute; discriminate]);
    apply app_inj_1 in E as [_ E]; [|done | | done | | done | | done].
  - rewrite <- (app_nil_r (lp_fields _)), <- (app_nil_r (lp_fields [rid'; _; _; _])) in E.
    apply lp_fields_inj in E as [[= -> -> -> ->] _]; done.
  - destruct T as (T & Tl & TL), T' as (T' & Tl' & TL').
    apply lp_fields_inj in E as [[= -> -> ->] E]; [|done..].
    apply app_inj_1 in E as [El E]; [|now rewrite !length_u64_le].
    apply u64_le_inj in El; [|done..]. apply Nat2Z.inj in El.
    now rewrite (lp_legs_inj legs legs').
  - destruct T as (T & Tb & Ti & Tn), T' as (T' & Tb' & Ti' & Tn').
    apply lp_fields_inj in E as [[= -> -> -> ->] E]; [|done..].
    apply app_inj_1 in E as [Eb E]; [|now rewrite !length_i64_le].
    apply app_inj_1 in E as [Ei En]; [|now rewrite !length_u32_le].
    now rewrite (i64_le_inj _ _ Tb Tb' Eb), (u32_le_inj _ _ Ti Ti' Ei), (u32_le_inj _ _ Tn Tn' En).
  - destruct T as (T & Tb), T' as (T' & Tb').
    apply lp_fields_inj in E as [[= -> -> ->] E]; [|done..].
    now rewrite (i64_le_inj _ _ Tb Tb' E).
Qed.

Lemma binding_hash_inj `{Sha256} b b' :
  binding_typed b -> binding_typed b' -> binding_hash b = binding_hash b' ->
  b = b' \/ sha256_collision (preimage b) (preimage b').
Proof.
  intros T T' E. destruct (decide (preimage b = preimage b')) as [Ep|Ep].
  - left. now apply preimage_inj.
  - right. split; [done|]. destruct b, b'; exact E.
Qed.

(** ** A concrete codec, for the witnesses

    Envelopes in the binary format of [External]. *)


#[export] Instance MuxedAccount_codec : Codec MuxedAccount.
Proof.
  codec_as (fun m => match m with MuxedEd25519 k => inl k | MuxedOther r => inr r end)
    (fun s => match s with inl k => MuxedEd25519 k | inr r => MuxedOther r end).
Defined.
#[export] Instance AlphaNum4_codec : Codec AlphaNum4.
Proof.
  codec_as (fun a => (asset_code a, issuer a))
    (fun p => {| asset_code := p.1; issuer := p.2 |}).
Defined.
#[export] Instance Asset_codec : Codec Asset.
Proof.
  codec_as (fun m => match m with CreditAlphanum4 a => inl a | AssetOther r => inr r end)
    (fun s => match s with inl a => CreditAlphanum4 a | inr r => AssetOther r end).
Defined.
#[export] Instance PaymentOp_codec : Codec PaymentOp.
Proof.
  codec_as (fun a => (op_destination a, (op_asset a, op_amount a)))
    (fun p => {| op_destination := p.1; op_asset := p.2.1; op_amount := p.2.2 |}).
Defined.
#[export] Instance OperationBody_codec : Codec OperationBody.
Proof.
  codec_as
    (fun m => match m with Payment p => inl p | BumpSequence n => inr (inl n) | BodyOther r => inr (inr r) end)
    (fun s => match s with inl p => Payment p | inr (inl n) => BumpSequence n | inr (inr r) => BodyOther r end).
Defined.
#[export] Instance Operation_codec : Codec Operation.
Proof.
  codec_as (fun a => (op_body a, op_source_account a))
    (fun p => {| op_body := p.1; op_source_account := p.2 |}).
Defined.
#[export] Instance Memo_codec : Codec Memo.
Proof.
  codec_as (fun m => match m with MemoHash h => inl h | MemoOther r => inr r end)
    (fun s => match s with inl h => MemoHash h | inr r => MemoOther r end).
Defined.
#[export] Instance PreconditionsV2_codec : Codec PreconditionsV2.
Proof.
  codec_as
    (fun v => ((time_bounds v, ledger_bounds v, min_seq_num v),
               (min_seq_age v, min_seq_ledger_gap v, extra_signers v)))
    (fun p => {| time_bounds := p.1.1.1; ledger_bounds := p.1.1.2; min_seq_num := p.1.2;
                 min_seq_age := p.2.1.1; min_seq_ledger_gap := p.2.1.2; extra_signers := p.2.2 |}).
Defined.
#[export] Instance Preconditions_codec : Codec Preconditions.
Proof.
  codec_as
    (fun m => match m with PrecondNone => inl x00 | PrecondTime a b => inr (inl (a, b)) | PrecondV2 v => inr (inr v) end)
    (fun s => match s with inl _ => PrecondNone | inr (inl p) => PrecondTime p.1 p.2 | inr (inr v) => PrecondV2 v end).
Defined.
#[export] Instance Transaction_codec : Codec Transaction.
Proof.
  codec_as
    (fun t => ((source_account t, (fee t, seq_num t)), (cond t, (memo t, operations t))))
    (fun p => {| source_account := p.1.1; fee := p.1.2.1; seq_num := p.1.2.2;
                 cond := p.2.1; memo := p.2.2.1; operations := p.2.2.2 |}).
Defined.
#[export] Instance DecoratedSignature_codec : Codec DecoratedSignature.
Proof.
  codec_as (fun s => (hint s, signature s)) (fun p => {| hint := p.1; signature := p.2 |}).
Defined.
#[export] Instance TransactionEnvelope_codec : Codec TransactionEnvelope.
Proof.
  codec_as (fun m => match m with EnvTx t s => inl (t, s) | EnvOther r => inr r end)
    (fun s => match s with inl p => EnvTx p.1 p.2 | inr r => EnvOther r end).
Defined.

Definition put_env (e : TransactionEnvelope) : str := string_of_list_byte (put e).
Definition get_env (s : str) : Result str TransactionEnvelope :=
  ok_or "not an envelope"%string (decode_all (as_bytes s)).
Definition ref_xdr : XdrCodec := {|
  payload_to_xdr n t := Ok (put (n, t));
  envelope_encode e := Ok (put_env e);
  envelope_decode := get_env;
|}.
Lemma get_put_env e : get_env (put_env e) = Ok e.
Proof. unfold get_env, put_env, as_bytes. now rewrite list_byte_of_string_of_list_byte, decode_put. Qed.
Lemma put_inj {T} `{Codec T} (x y : T) : put x = put y -> x = y.
Proof. intros E%(f_equal decode_all). rewrite !decode_put in E. congruence. Qed.
Lemma ref_xdr_laws : @XdrLaws ref_xdr.
Proof.
  split.
  - intros e s [= <-]. apply get_put_env.
  - intros n t n' t' b Hb Hb'. change (Ok (E := str) (put (n, t)) = Ok b) in Hb.
    change (Ok (E := str) (put (n', t')) = Ok b) in Hb'.
    assert (put (n, t) = put (n', t')) as E by congruence.
    apply put_inj in E. now injection E as -> ->.
Qed.

(** ** Theorems *)

(** C21: memo bindings are unambiguous. Two bindings (a payment, a split, an instalment or a
    cancellation, with fields of their machine types) that hash to the same 32 bytes are
    the same binding, field by field and leg by leg in order — or the two distinct
    preimages are a SHA-256 collision. *)
Theorem memo_binding_unambiguous `{Sha256} (b b' : Binding)
    (T : binding_typed b) (T' : binding_typed b') (E : binding_hash b = binding_hash b') :
  b = b' \/ sha256_collision (preimage b) (preimage b').
Proof. now apply binding_hash_inj. Qed.

Lemma memo_binding_unambiguous_witness :
  let b := BSplit "stellar" "GSRC" "order-42" [("GDEV", 700); ("GOPS", 300)] in
  b = b \/ @sha256_collision ref_sha256 (preimage b) (preimage b).
Proof.
  apply (@memo_binding_unambiguous ref_sha256);
    [| |reflexivity]; cbn; (split_and!; [repeat constructor; vm_compute; intuition discriminate
      | unfold_ints; lia | repeat constructor; vm_compute; intuition discriminate]).
Defined.

(** The payment builder. It succeeds exactly on 1 to 100 legs, each of a strictly positive
    amount, whose exact sum fits an [i64] and whose fee bid, base fee times legs, fits a
    [u32]; the transaction then carries those legs in order, that fee, the sequence number
    and the memo, and nothing else. *)
Theorem build_payment_transaction_spec (src : key32) (legs : list PaymentLeg)
    (seq base : Z) (m : list byte) (tx : Transaction) (Hbase : is_u32 base) :
  build_payment_transaction src legs seq base m = Ok tx <->
  0 < Z.of_nat (length legs) <= MAX_OPERATIONS /\ Forall positive legs /\
  sum_amounts legs <= i64_max /\ base * Z.of_nat (length legs) <= u32_max /\
  tx = {| source_account := MuxedEd25519 src; fee := base * Z.of_nat (length legs); seq_num := seq;
          cond := PrecondNone; memo := MemoHash m; operations := map payment_op legs |}.
Proof.
  unfold build_payment_transaction. case_bool_decide as E0; [split; [done | intros [? _]; lia]|].
  destruct (Z.ltb_spec MAX_OPERATIONS (Z.of_nat (length legs))) as [E1|E1];
    [split; [done | intros [? _]; lia]|].
  unfold mbind, result_bind.
  destruct (check_positive 0 legs) as [[]|] eqn:Ep.
  2:{ split; [done|]. intros (_ & Hp & _). now rewrite (proj2 (check_positive_spec 0 legs) Hp) in Ep. }
  apply check_positive_spec in Ep.
  destruct (total_amount legs) as [t|] eqn:Et.
  2:{ split; [done|]. intros (_ & _ & Hs & _).
      now rewrite (proj2 (total_amount_spec legs _ Ep) (conj eq_refl Hs)) in Et. }
  apply total_amount_spec in Et as [_ Hs]; [|done].
  destruct (total_fee base (Z.of_nat (length legs))) as [f|] eqn:Ef.
  2:{ split; [done|]. intros (Hl & _ & _ & Hf & _).
      assert (total_fee base (Z.of_nat (length legs)) = Ok (base * Z.of_nat (length legs))) as E2.
      { unfold is_u32, MAX_OPERATIONS in *. apply total_fee_spec; [lia | lia|].
        split_and!; [unfold u32_max; lia | done | done]. }
      congruence. }
  apply total_fee_spec in Ef as (_ & -> & Hf); [|unfold is_u32 in *; lia..].
  unfold transaction_from_ops. rewrite length_map.
  rewrite (proj2 (Z.ltb_ge _ _) E1). split.
  - intros [= <-]. split_and!; auto; lia.
  - intros (_ & _ & _ & _ & ->). done.
Qed.

Definition demo_key : key32 := repeat x01 32.
Definition demo_asset : Asset := CreditAlphanum4 {| asset_code := as_bytes "USDC"; issuer := demo_key |}.
Definition demo_legs : list PaymentLeg :=
  [{| dest_pk := repeat x02 32; asset := demo_asset; amount := 700 |};
   {| dest_pk := repeat x03 32; asset := demo_asset; amount := 300 |}].
Lemma build_payment_transaction_spec_witness :
  exists tx, build_payment_transaction demo_key demo_legs 43 100 (repeat x00 32) = Ok tx /\ fee tx = 200.
Proof.
  eexists. split.
  - apply build_payment_transaction_spec; [unfold_ints; lia|].
    split; [vm_compute; split; [reflexivity | discriminate]|].
    split; [repeat constructor|].
    split; [vm_compute; discriminate|]. split; [vm_compute; discriminate | reflexivity].
  - reflexivity.
Defined.

(** C20: the decoder is exact. [decode_payments] answers [Ok d] exactly for the v1 envelopes whose
    transaction is [d]'s plain source, sequence number, fee and memo hash with, as its
    operations, precisely the 1 to 100 strictly positive payments of [d] in order, without
    source overrides: nothing else can hide in an accepted envelope. *)
Theorem decode_payments_exact (env : TransactionEnvelope) (d : DecodedPayments) :
  decode_payments env = Ok d <->
  exists tx sigs, env = EnvTx tx sigs /\
    source_account tx = MuxedEd25519 (dp_source_pk d) /\ memo tx = MemoHash (dp_memo d) /\
    seq_num tx = dp_seq_num d /\ fee tx = dp_fee d /\
    operations tx = map payment_op (dp_legs d) /\ Forall positive (dp_legs d) /\
    0 < Z.of_nat (length (dp_legs d)) <= MAX_OPERATIONS.
Proof.
  destruct env as [tx sigs|raw].
  - rewrite decode_payments_spec. split; [intros H; eauto | intros (t & s & [= <- <-] & H); exact H].
  - split; [done | now intros (? & ? & ? & _)].
Qed.

(** Build, wrap, decode. What [build_payment_transaction] built, wrapped in an envelope by
    any signer, decodes to exactly the legs it was given, with its source, sequence number,
    total fee and memo; for one leg it is the transaction of the single-payment builder. *)
Theorem build_decode_roundtrip (src : key32) (legs : list PaymentLeg) (seq base : Z)
    (m signer sig : list byte) (tx : Transaction)
    (Hbase : is_u32 base)
    (Hb : build_payment_transaction src legs seq base m = Ok tx) :
  decode_payments (envelope tx signer sig) =
    Ok {| dp_source_pk := src; dp_seq_num := seq; dp_fee := base * Z.of_nat (length legs);
          dp_memo := m; dp_legs := legs |} /\
  forall leg, legs = [leg] ->
    tx = build_transaction src (dest_pk leg) (asset leg) (amount leg) seq base m.
Proof.
  apply build_payment_transaction_spec in Hb as (Hl & Hp & _ & _ & ->); [|done]. split.
  - apply decode_payments_spec. cbn. split_and!; auto; lia.
  - intros [d a x] ->. unfold build_transaction, build_transaction_with_preconditions. cbn.
    f_equal. lia.
Qed.
Lemma build_decode_roundtrip_witness :
  exists tx, build_payment_transaction demo_key demo_legs 43 100 (repeat x00 32) = Ok tx /\
    is_ok (decode_payments (envelope tx demo_key (repeat x00 64))) = true.
Proof.
  destruct (build_payment_transaction demo_key demo_legs 43 100 (repeat x00 32)) as [tx|] eqn:E;
    [|vm_compute in E; discriminate].
  exists tx. split; [reflexivity|].
  destruct (build_decode_roundtrip demo_key demo_legs 43 100 (repeat x00 32) demo_key (repeat x00 64) tx
    ltac:(unfold_ints; lia) E) as [-> _]. reflexivity.
Defined.
