(* ===== verification/StellarDest.v ===== *)
(** * Stellar destinations ([patala-stellar/src/destination.rs])

    What StrKey makes decidable about an address offline, and the sentence
    that explains each refusal. *)

From S2P Require Import Prelude RustStr Core External FiatDest StellarTx.

Definition STELLAR_RAIL_ID : str := "stellar".
Definition STRKEY_LEN_32 : Z := 56.
Definition STRKEY_LEN_MUXED : Z := 69.

Definition is_base32_char (c : ascii) : bool := is_ascii_alphabetic c || between 50 55 c.
Definition is_strkey_alphabet (s : str) : bool := str_all is_base32_char s.

Definition foreign_bech32 (dest : str) : bool :=
  let_some rest := orElse (strip_prefix "bc1" dest)
    (orElse (strip_prefix "tb1" dest) (strip_prefix "bcrt1" dest)) or_else false;
  negb (is_empty rest) && str_all (fun b => is_ascii_lowercase b || is_ascii_digit b) rest.
Definition foreign_format (dest : str) : option str :=
  return_if ((len dest =? 43) || (len dest =? 44)) && str_all is_base58_char dest with_
    Some "a Solana address (32 bytes of base58)"%string;
  return_if (26 <=? len dest) && (len dest <=? 35) && str_all is_base58_char dest
      && (starts_with_char "1" dest || starts_with_char "3" dest) with_
    Some "a legacy Bitcoin address"%string;
  return_if foreign_bech32 dest with_ Some "a bech32 Bitcoin address (bc1…)"%string;
  let_some hex := orElse (strip_prefix "0x" dest) (strip_prefix "0X" dest) or_else None;
  return_if negb (str_all is_ascii_hexdigit hex) with_ None;
  return_if len hex =? 40 with_ Some "an Ethereum/EVM address (0x + 40 hex characters)"%string;
  return_if len hex =? 64 with_ Some "a Sui or Aptos address (0x + 64 hex characters)"%string;
  None.

Definition secret_seed_refusal : DestinationVerdict := malformed STELLAR_RAIL_ID
  "STOP — this is not an address, it is a Stellar SECRET SEED (S…). You have just pasted a PRIVATE KEY into a destination field. Treat it as disclosed: create a new Stellar account, move every asset the old key controls to it, remove the old key as a signer anywhere it is one, and never use it again. patala has not logged the value and this message does not repeat it, but wherever you copied it from may have. The address you want is the PUBLIC account address (G…) derived from that seed.".

(** A character outside the alphabet; a non-ASCII one always is. *)
Definition bad_strkey_char (c : str) : bool :=
  match c with String a EmptyString => negb (is_base32_char a) | _ => true end.
Definition base32_hint (bad : str) : str :=
  return_if String.eqb bad "0" with_ " (base32 has no 0 — the letter O is what it uses)"%string;
  return_if String.eqb bad "1" with_ " (base32 has no 1 — the letter I is what it uses)"%string;
  return_if String.eqb bad "8" with_ " (base32 has no 8 — the letter B is what it uses)"%string;
  return_if String.eqb bad "9" with_ " (base32 has no 9 — the letter G is what it uses)"%string;
  EmptyString.
Definition explain_rejection (dest : str) (expected_len : Z) (what : str) : str :=
  match List.find bad_strkey_char (chars dest) with
  | Some bad =>
      "this is not a valid Stellar address: the character " +:+ debug_char bad
      +:+ " is not in the base32 alphabet StrKey uses" +:+ base32_hint bad +:+ "."
  | None =>
      return_if negb (len dest =? expected_len) with_
        ("this starts like " +:+ what +:+ ", but " +:+ what +:+ " is exactly " +:+ to_dec expected_len
         +:+ " characters and this is " +:+ to_dec (len dest)
         +:+ ". Characters were lost or added when it was copied — take the whole address again.");
      return_if match nth_error (chars dest) 1 with
                | Some (String a EmptyString) => between 65 68 a
                | _ => false
                end with_
        ("this is " +:+ what +:+ " of exactly the right length and alphabet, but its CRC16 checksum does not match — so at least one character is wrong. This is what a typo, a truncated copy, or an address mangled in transit looks like, and it is exactly the case Stellar's checksum exists to catch. Do NOT try to repair it by hand: copy the whole address again from the wallet that owns it.");
      "this starts like " +:+ what +:+ " and has the right length, but its second character does not encode a StrKey version byte, so it is not a StrKey at all. Re-copy the address."
  end.

Definition strkey_kind (dest : str) : option (Z * str) :=
  match first_char dest with
  | Some "G"%char => Some (STRKEY_LEN_32, "a Stellar account address (G…)"%string)
  | Some "M"%char => Some (STRKEY_LEN_MUXED, "a Stellar muxed account (M…)"%string)
  | Some "C"%char => Some (STRKEY_LEN_32, "a Stellar contract address (C…)"%string)
  | Some "S"%char => Some (STRKEY_LEN_32, "a Stellar secret seed (S…)"%string)
  | Some "T"%char => Some (STRKEY_LEN_32, "a Stellar pre-auth-tx signer (T…)"%string)
  | Some "X"%char => Some (STRKEY_LEN_32, "a Stellar hash-x signer (X…)"%string)
  | _ => None
  end.

Section StellarDest.
Context `{StrKey} `{Ed25519}.

Definition classify_strkey (parsed : Strkey) : DestinationVerdict :=
  match parsed with
  | PublicKeyEd25519 pk =>
      return_if negb (ed_valid_key pk) with_
        not_a_wallet STELLAR_RAIL_ID "this is a checksum-valid G… address whose 32-byte payload is not a point on the ed25519 curve, so no private key can correspond to it and no one can ever move funds out of it. A real Stellar account address is always a real public key; this one was constructed rather than generated.";
      structurally_valid STELLAR_RAIL_ID "this is a well-formed Stellar account address: the StrKey version byte says account, the CRC16 checksum verifies, and the payload is a real ed25519 public key. That is every check possible without asking Horizon a question. In particular this rail cannot yet know whether the account EXISTS and is funded above the base reserve, or whether it holds a TRUSTLINE for the USDC asset this rail pays in — without one the payment is rejected with op_no_trust, which is the most common way a Stellar payment fails. Confirm both with the recipient before paying."
  | MuxedAccountEd25519 _ =>
      not_a_wallet STELLAR_RAIL_ID "this is a muxed account (M…): a Stellar account plus a 64-bit subaccount id, which is what an exchange or custodian hands out so it can tell its own customers apart inside one shared omnibus account. It is a valid Stellar destination in general, but NOT one this rail can pay: patala-stellar builds only plain Ed25519 payment destinations, so it would drop the subaccount id and the money would land in the omnibus account with nothing to say it was yours — which is precisely the unrecoverable case. Ask the recipient for an account they control directly (G…), not a deposit address at a custodian."
  | ContractKey _ =>
      not_a_wallet STELLAR_RAIL_ID "this is a Soroban contract address (C…), not an account. A contract has no keypair and no one can sign for it; this rail builds classic PAYMENT operations, which a contract address cannot be the destination of at all. Ask for the recipient's account address (G…)."
  | PreAuthTx _ | HashX _ | SignedPayloadEd25519 _ =>
      not_a_wallet STELLAR_RAIL_ID "this is a valid StrKey, but it encodes a SIGNER (a pre-authorized transaction, a hash-x signer, or a signed payload), not an account. Signers are things that may authorize a transaction on an account; they are not places money can be sent, and nothing sent using one is recoverable. Ask for the recipient's account address (G…)."
  | PrivateKeyEd25519 _ => secret_seed_refusal
  end.

Definition stellar_validate (dest : str) : DestinationVerdict :=
  return_if is_blank dest with_
    malformed STELLAR_RAIL_ID "an empty destination is not an address on any rail";
  return_if negb (String.eqb (trim dest) dest) with_
    malformed STELLAR_RAIL_ID "this address has leading or trailing whitespace, which came from the copy rather than from the address — remove it and check nothing else was picked up with it";
  return_if (starts_with_char "S" dest || starts_with_char "s" dest) && (len dest =? STRKEY_LEN_32)
      && is_strkey_alphabet dest with_ secret_seed_refusal;
  match foreign_format dest with
  | Some what =>
      wrong_network STELLAR_RAIL_ID ("this looks like " +:+ what +:+ ", not a Stellar address. The stellar rail pays USDC on Stellar only; funds sent using an address from another chain do not arrive on that chain, they simply do not arrive. Ask for the recipient's Stellar account address — it starts with G and is 56 characters.")
  | None =>
      match strkey_parse dest with
      | Some parsed => classify_strkey parsed
      | None =>
          let_some kind := strkey_kind dest or_else
            malformed STELLAR_RAIL_ID "this is not a Stellar address. A Stellar account address is StrKey: 56 characters of uppercase base32 beginning with G. Ask the recipient for the address their wallet shows, not a username, an email, a federation address, or an address from another chain.";
          malformed STELLAR_RAIL_ID (explain_rejection dest kind.1 kind.2)
      end
  end.

(** ** Lemmas *)

Lemma stellar_verdict_honest d : verdict_honest STELLAR_RAIL_ID (stellar_validate d).
Proof. unfold stellar_validate, classify_strkey, secret_seed_refusal. solve_honest. Qed.
Lemma stellar_blank_refused d : is_blank d = true -> status (stellar_validate d) = Malformed.
Proof. unfold stellar_validate. now intros ->. Qed.

Lemma strkey_char_graphic a : strkey_char a = true -> is_graphic a = true.
Proof.
  unfold strkey_char, is_ascii_alphabetic, is_ascii_uppercase, is_ascii_lowercase.
  rewrite !orb_true_iff, !between_spec. intros Ha. apply between_spec. lia.
Qed.

(** An account address is no other chain's: wrong length, wrong first
    letter. *)
Lemma account_not_foreign s :
  String.length s = 56%nat -> first_char s = Some "G"%char \/ first_char s = Some "g"%char ->
  foreign_format s = None.
Proof.
  intros Hl Hf. unfold foreign_format, foreign_bech32, len. rewrite Hl. cbn [Z.of_nat].
  change ((Z.pos (Pos.of_succ_nat 55) =? 43) || (Z.pos (Pos.of_succ_nat 55) =? 44)) with false.
  change ((26 <=? Z.pos (Pos.of_succ_nat 55)) && (Z.pos (Pos.of_succ_nat 55) <=? 35)) with false.
  cbn [andb]. destruct s as [|a s]; [done|]. cbn [first_char] in Hf.
  destruct Hf as [[= ->]|[= ->]]; reflexivity.
Qed.
End StellarDest.

(** ** Concrete StrKey, for the witnesses

    [G] and the 32 bytes as 55 base-32 digits: the shape of an address, without
    the checksum. *)

Definition b32_char (n : Z) : ascii := if n <? 26 then char_of (65 + n) else char_of (24 + n).
Definition b32_val (a : ascii) : Z := if is_ascii_uppercase a then code a - 65 else code a - 24.
Definition b32_digits : nat -> Z -> str := digits 32 b32_char.
Definition b32_value : str -> Z := digits_value 32 b32_val.
Definition b32_encode (k : key32) : str := String "G" (b32_digits 55 (le_value k)).
Definition b32_parse (s : str) : option Strkey :=
  if (len s =? 56) && str_all strkey_char s && starts_with_char "G" s
  then Some (PublicKeyEd25519 (le_bytes 32 (b32_value (default EmptyString (strip_prefix "G" s)))))
  else None.
#[local] Instance ref_strkey : StrKey := {| strkey_encode := b32_encode; strkey_parse := b32_parse |}.

Lemma b32_facts n : 0 <= n < 32 ->
  b32_val (b32_char n) = n /\ strkey_char (b32_char n) = true.
Proof.
  intros H. unfold b32_val, b32_char, strkey_char, is_ascii_alphabetic, is_ascii_uppercase.
  destruct (Z.ltb_spec n 26).
  - replace (between 65 90 (char_of (65 + n))) with true
      by (symmetry; apply between_spec; rewrite code_char_of; lia).
    split; [rewrite code_char_of; lia | done].
  - replace (between 65 90 (char_of (24 + n))) with false
      by (symmetry; apply not_true_iff_false; rewrite between_spec, code_char_of; lia).
    replace (between 50 55 (char_of (24 + n))) with true
      by (symmetry; apply between_spec; rewrite code_char_of; lia).
    rewrite orb_true_r. split; [rewrite code_char_of; lia | done].
Qed.

Lemma b32_parse_encode k : length k = 32%nat -> b32_parse (b32_encode k) = Some (PublicKeyEd25519 k).
Proof.
  intros Hk. destruct (digits_shape 32 b32_char b32_val strkey_char b32_facts 55 (le_value k) ltac:(lia)) as [Hl Ha].
  fold b32_digits in Hl, Ha.
  assert (b32_value (b32_digits 55 (le_value k)) = le_value k) as Hv.
  { apply (digits_value_digits 32 b32_char b32_val strkey_char b32_facts); [lia|]. pose proof (le_value_range k) as Hr. rewrite Hk in Hr.
    change (256 ^ Z.of_nat 32) with (32 ^ 51 * 2) in Hr.
    change (32 ^ Z.of_nat 55) with (32 ^ 51 * 1048576). lia. }
  unfold b32_parse, b32_encode, len. revert Hl Ha Hv. generalize (b32_digits 55 (le_value k)).
  intros ds Hl Ha Hv. cbn [String.length str_all]. rewrite Hl, Ha. cbn -[b32_value le_bytes le_value].
  replace (match ds with EmptyString => ds | String _ _ => ds end) with ds by now destruct ds.
  change (Z.of_nat 56 =? 56) with true. change (strkey_char "G") with true. cbn [andb].
  rewrite Hv, <- Hk. now rewrite le_bytes_le_value.
Qed.
Lemma ref_strkey_laws : StrKeyLaws.
Proof.
  split; cbn [strkey_parse strkey_encode ref_strkey]; [exact b32_parse_encode | |];
    unfold b32_parse; intros s k; destruct (_ && _) eqn:E; try done.
  - intros Hs. injection Hs as <-. exact (length_le_bytes 32 _).
  - intros _. apply andb_true_iff in E as [E Hg]. apply andb_true_iff in E as [El Ha].
    apply Z.eqb_eq in El. unfold len in El. split; [lia|]. split; [done|]. left.
    unfold starts_with_char in Hg. destruct (first_char s) as [a|]; [|done].
    apply Ascii.eqb_eq in Hg. now subst.
Qed.

(** ** Theorems *)

Lemma classify_valid `{Ed25519} parsed :
  status (classify_strkey parsed) = StructurallyValid <->
  exists k, parsed = PublicKeyEd25519 k /\ ed_valid_key k = true.
Proof.
  destruct parsed as [k| | | | | |]; cbn [classify_strkey]; try (split; [done | now intros (? & ? & _)]).
  destruct (ed_valid_key k) eqn:E; cbn; (split; [intros Hs | intros (k' & Hk & Hv)]); try done.
  - now exists k.
  - injection Hk as <-. congruence.
Qed.

(** C38: what [validate_destination] of the Stellar rail promises. It answers [StructurallyValid] exactly
    for the strings that [charge] itself would accept as a destination and whose 32 bytes
    are a point on the curve: never for another chain's address, a muxed account, a contract
    or a signer. Anything shaped like a secret seed, in either case, gets one constant refusal,
    which therefore cannot repeat the key. *)
Theorem stellar_destination_decided `{StrKeyLaws, Ed25519} (d : str) :
  (status (stellar_validate d) = StructurallyValid <->
   exists k, from_strkey d = Ok k /\ ed_valid_key k = true) /\
  (is_strkey_alphabet d = true -> len d = STRKEY_LEN_32 ->
   starts_with_char "S" d || starts_with_char "s" d = true -> stellar_validate d = secret_seed_refusal).
Proof.
  assert (forall s, is_strkey_alphabet s = true -> str_all is_graphic s = true) as Hgr.
  { intros s. unfold is_strkey_alphabet. induction s as [|a s IH]; [done|]. cbn [str_all].
    rewrite !andb_true_iff. intros [Ha Hs]. split; [now apply strkey_char_graphic | auto]. }
  assert (forall s, is_strkey_alphabet s = true -> s <> EmptyString ->
    is_blank s = false /\ String.eqb (trim s) s = true) as Hbl.
  { intros s Ha Hs. rewrite is_blank_graphic, trim_graphic, String.eqb_refl; auto. }
  split; [split|].
  - unfold stellar_validate, secret_seed_refusal, malformed, wrong_network.
    repeat (case_match; [done|]). intros E.
    destruct (foreign_format d); [done|].
    unfold from_strkey, strkey_decode.
    destruct (strkey_parse d) as [parsed|]; [|now destruct (strkey_kind d)].
    apply classify_valid in E as (k & -> & ?). now exists k.
  - intros (k & Hk & Hv). unfold from_strkey, strkey_decode in Hk.
    destruct (strkey_parse d) as [parsed|] eqn:Ep; [|done].
    destruct parsed as [k'| | | | | |]; try done. injection Hk as ->.
    destruct (strkey_account_shape d k Ep) as (Hl & Ha & Hf).
    destruct (Hbl d) as [Hb Ht]; [exact Ha | now intros -> |].
    unfold stellar_validate. rewrite Hb, Ht, account_not_foreign by done.
    replace (starts_with_char "S" d || starts_with_char "s" d) with false
      by (unfold starts_with_char; destruct Hf as [-> | ->]; reflexivity).
    cbn [negb andb]. rewrite Ep. apply classify_valid. eauto.
  - intros Ha Hl Hs. destruct (Hbl d) as [Hb Ht]; [done | now intros -> |].
    unfold stellar_validate. now rewrite Hb, Ht, Hs, Hl, Ha.
Qed.

Lemma stellar_destination_decided_witness :
  status (@stellar_validate ref_strkey ref_ed25519 (strkey_encode demo_key)) = StructurallyValid.
Proof.
  pose proof (@stellar_destination_decided ref_strkey ref_strkey_laws ref_ed25519 (strkey_encode demo_key)) as [E _].
  apply E. exists demo_key. split; vm_compute; reflexivity.
Defined.
