(* ===== verification/StellarAmount.v ===== *)
(** * Horizon's decimal amounts ([patala-stellar/src/rpc.rs])

    [parse_stroops]: ledger amounts from their decimal rendering, in integer
    arithmetic. *)

From S2P Require Import Prelude RustStr Currency StellarTx.

Definition bad_amount (s : str) : StellarError := Rpc ("not a stellar decimal amount: " +:+ debug_str s).
Definition parse_stroops (s : str) : Result StellarError Z :=
  let '(whole, frac) :=
    match split_once "." s with Some (w, f) => (w, f) | None => (s, EmptyString) end in
  return_if is_empty whole && is_empty frac with_ Err (bad_amount s);
  return_if negb (str_all is_ascii_digit whole) || negb (str_all is_ascii_digit frac) with_
    Err (bad_amount s);
  return_if USDC_DECIMALS <? len frac with_ Err (bad_amount s);
  whole_n ← (if is_empty whole then mret 0 else ok_or (bad_amount s) (parse_i128 whole));
  units ← (if is_empty frac then mret 0 else ok_or (bad_amount s) (parse_i128 frac));
  let units := Nat.iter (Z.to_nat USDC_DECIMALS - String.length frac) (Z.mul 10) units in
  let scale := 10 ^ USDC_DECIMALS in
  total ← ok_or (bad_amount s) (w ← i128_checked_mul whole_n scale; i128_checked_add w units);
  ok_or (bad_amount s) (i64_try_from total).

(** ** Lemmas *)

Lemma iter_mul_10 n z : Nat.iter n (Z.mul 10) z = z * 10 ^ Z.of_nat n.
Proof.
  induction n as [|n IH]; [cbn; lia|]. cbn [Nat.iter nat_rect]. unfold Nat.iter in IH. rewrite IH.
  rewrite Nat2Z.inj_succ, Z.pow_succ_r by lia. lia.
Qed.

Lemma parse_i128_digits s : str_all is_ascii_digit s = true -> s <> EmptyString ->
  parse_i128 s = in_range i128_min i128_max (dec_value s).
Proof.
  intros Hd Hs. destruct s as [|a s]; [done|]. unfold parse_i128, parse_signed.
  destruct (Ascii.eqb_spec a "-") as [->|]; [discriminate|].
  rewrite strip_plus_digits by done. now rewrite (proj2 (parse_digits_spec _ _) (conj Hs (conj Hd eq_refl))).
Qed.
(** An optional run of digits, read as a number ([0] when absent). *)
Lemma parse_part s (e : StellarError) : str_all is_ascii_digit s = true ->
  result_ok (if is_empty s then mret 0 else ok_or e (parse_i128 s)) = in_range i128_min i128_max (dec_value s).
Proof.
  intros Hd. destruct s as [|a s]; [done|]. cbn [is_empty]. rewrite parse_i128_digits by done.
  now destruct (in_range _ _ _).
Qed.

(** The value of a decimal split at its dot. *)
Definition stroops (w f : str) : Z := dec_value w * 10 ^ 7 + dec_value f * 10 ^ (7 - len f).

Lemma parse_stroops_parts s w f v :
  match split_once "." s with Some (w, f) => (w, f) | None => (s, EmptyString) end = (w, f) ->
  parse_stroops s = Ok v <->
  (w <> EmptyString \/ f <> EmptyString) /\ str_all is_ascii_digit w = true /\
  str_all is_ascii_digit f = true /\ len f <= 7 /\ v = stroops w f /\ v <= i64_max.
Proof.
  intros E. unfold parse_stroops. rewrite E.
  destruct (is_empty w && is_empty f) eqn:Ee.
  { apply andb_true_iff in Ee as [?%is_empty_spec ?%is_empty_spec]. split; [done | tauto]. }
  destruct (str_all is_ascii_digit w) eqn:Hw; [|refute_iff].
  destruct (str_all is_ascii_digit f) eqn:Hf; [|refute_iff]. cbn [negb orb].
  unfold USDC_DECIMALS. destruct (Z.ltb_spec 7 (len f)) as [|Hl]; [split; [done | lia]|].
  pose proof (dec_value_range w Hw) as Rw. pose proof (dec_value_range f Hf) as Rf.
  assert (forall u, Nat.iter (Z.to_nat 7 - String.length f) (Z.mul 10) u = u * 10 ^ (7 - len f)) as Hit.
  { intros u. rewrite iter_mul_10, Nat2Z.inj_sub by (unfold len in Hl; lia). done. }
  assert (10 ^ len f <= 10 ^ 7 /\ 10 ^ (7 - len f) <= 10 ^ 7) as [P1 P2]
    by (unfold len in *; split; apply Z.pow_le_mono_r; lia).
  assert (0 <= dec_value f * 10 ^ (7 - len f) <= 10 ^ 14) as Hfr by nia.
  pose proof (parse_part w (bad_amount s) Hw) as Pw. pose proof (parse_part f (bad_amount s) Hf) as Pf.
  unfold mbind, result_bind.
  rewrite (in_range_ok _ _ (dec_value f)) in Pf by (unfold i128_min, i128_max; lia).
  destruct (if is_empty f then _ else _) as [u|]; [injection Pf as -> | done].
  assert (w <> EmptyString \/ f <> EmptyString) as Hne.
  { destruct w, f; try (right; discriminate); left; discriminate. }
  rewrite Hit. destruct (if is_empty w then _ else _) as [wn|]; cbn [result_ok] in Pw.
  - symmetry in Pw. apply in_range_Some in Pw as [-> Hwr].
    unfold i128_checked_mul, i128_checked_add, i64_try_from, mbind, option_bind.
    destruct (in_range _ _ (dec_value w * _)) as [p|] eqn:Ep.
    + apply in_range_Some in Ep as [-> Hp]. fold (stroops w f).
      destruct (in_range i128_min _ _) as [t|] eqn:Et; cbn [ok_or].
      * apply in_range_Some in Et as [-> Ht].
        destruct (in_range i64_min _ _) as [v'|] eqn:Ev; cbn [ok_or].
        -- apply in_range_Some in Ev as [-> Hv]. split; [intros [= <-]; split_and!; auto; lia|].
           now intros (_ & _ & _ & _ & -> & _).
        -- apply in_range_None in Ev. split; [done|]. intros (_ & _ & _ & _ & -> & ?).
           destruct Ev. unfold stroops, i64_min in *. lia.
      * apply in_range_None in Et. split; [done|]. intros (_ & _ & _ & _ & -> & ?).
        destruct Et. unfold stroops, i64_max, i128_min, i128_max in *. lia.
    + apply in_range_None in Ep. split; [done|]. intros (_ & _ & _ & _ & -> & ?).
      destruct Ep. unfold stroops, i64_max, i128_min, i128_max in *. lia.
  - symmetry in Pw. apply in_range_None in Pw. split; [done|]. intros (_ & _ & _ & _ & -> & ?).
    destruct Pw. unfold stroops, i64_max, i128_min, i128_max in *. lia.
Qed.

(** ** Theorems *)

(** C22: [parse_stroops], decided exactly. It accepts precisely the plain decimals with a digit somewhere
    and at most seven fractional digits whose exact value in ten-millionths fits an [i64],
    and answers that value: nothing is rounded or truncated, and no intermediate step in
    128 bits refuses a representable amount. *)
Theorem parse_stroops_spec (s : str) (v : Z) :
  parse_stroops s = Ok v <->
  exists w f, s = decimal_text w f /\ decimal_ok USDC_DECIMALS w f /\
    (w <> EmptyString \/ (f <> None /\ f <> Some EmptyString)) /\
    v = decimal_minor USDC_DECIMALS w f /\ v <= i64_max.
Proof.
  split.
  - destruct (split_once "." s) as [[w f]|] eqn:E; intros H.
    + apply (parse_stroops_parts s w f) in H as (Hne & Hw & Hf & Hl & -> & Hv); [|now rewrite E].
      apply split_once_Some in E as [E _]. exists w, (Some f).
      split_and!; try done. destruct Hne as [?|?]; [now left | right; split; congruence].
    + apply (parse_stroops_parts s s EmptyString) in H as (Hne & Hw & _ & _ & -> & Hv); [|now rewrite E].
      exists s, None. split_and!; try done.
      { now destruct Hne; [left|]. }
  - intros (w & f & -> & [Hw Hf] & Hne & -> & Hv).
    apply (parse_stroops_parts _ w (default EmptyString f)).
    { rewrite split_decimal by (destruct f; tauto). now destruct f. }
    destruct f as [f|]; cbn in *.
    + destruct Hf as [Hf Hl]. split_and!; try done.
      destruct Hne as [?|[_ ?]]; [now left | right; congruence].
    + split_and!; try done. destruct Hne as [?|[? _]]; [now left | done].
Qed.
