(* ===== verification/StellarRail.v ===== *)
(** * The Stellar rail ([patala-stellar/src/lib.rs], the seam of [rpc.rs])

    [charge]/[verify] and their atomic N-leg counterparts
    [charge_split]/[verify_split], over a Horizon given as a record of
    effectful operations. The invariant part of [verify] (steps 1 to 4, no
    network) and the read-back from Horizon (step 5) are two definitions. *)

From S2P Require Import Prelude RustStr Core External FiatDest StellarTx StellarDest.

(** ** Configuration *)

Inductive Network := Public | Testnet.
#[export] Instance Network_eq_dec : EqDecision Network.
Proof. solve_decision. Defined.
Definition passphrase (n : Network) : str :=
  match n with
  | Public => "Public Global Stellar Network ; September 2015"
  | Testnet => "Test SDF Network ; September 2015"
  end.
Definition is_mainnet (n : Network) : bool :=
  match n with Public => true | Testnet => false end.
Definition network_parse (s : str) : Result Error Network :=
  return_if String.eqb s "public" || String.eqb s "pubnet" || String.eqb s "mainnet" with_ Ok Public;
  return_if String.eqb s "testnet" with_ Ok Testnet;
  Err (from_stellar (Config ("unknown stellar network " +:+ debug_str s))).

Definition CIRCLE_USDC_ISSUER_PUBLIC : str :=
  "GA5ZSEJYB37JRC5AVCIA5MOP4RHTM335X2KGX3IHOJAPP5RE34K4KZVN".
Record StellarConfig := { network : Network; usdc_issuer : str; base_fee_stroops : Z }.
Definition config_testnet (issuer_strkey : str) : StellarConfig :=
  {| network := Testnet; usdc_issuer := issuer_strkey; base_fee_stroops := 100 |}.
Definition config_public : StellarConfig :=
  {| network := Public; usdc_issuer := CIRCLE_USDC_ISSUER_PUBLIC; base_fee_stroops := 100 |}.

(** ** rpc.rs: the Horizon seam *)

Record SubmitResult := { sr_hash : str; sr_ledger : Z; sr_successful : bool }.
Record TxRecord := { successful : bool; ledger : Z; envelope_xdr : str }.
Record AssetHolding := {
  is_native : bool;
  ah_asset_code : str;
  ah_asset_issuer : str;
  balance_stroops : Z;
  limit_stroops : Z;
  is_authorized : bool;
}.
Record StellarRpc (W : Type) := {
  load_sequence : str -> Eff W StellarError Z;
  load_account_holdings : str -> Eff W StellarError (option (list AssetHolding));
  submit_transaction : str -> Eff W StellarError SubmitResult;
  get_transaction : str -> Eff W StellarError (option TxRecord);
}.
Arguments load_sequence {W} _ _ _.
Arguments load_account_holdings {W} _ _ _.
Arguments submit_transaction {W} _ _ _.
Arguments get_transaction {W} _ _ _.

(** ** Receipt proofs *)

Record StellarBinding := {
  chain : str;
  network_passphrase : str;
  b_tx_hash : str;
  source : str;
  destination : str;
  b_asset_code : str;
  asset_issuer : str;
  amount_stroops : Z;
  b_seq_num : Z;
  b_fee : Z;
  b_memo_hash : str;
  b_signature : str;
}.
Record StellarSplitBinding := {
  s_chain : str;
  s_network_passphrase : str;
  s_tx_hash : str;
  s_source : str;
  s_asset_code : str;
  s_asset_issuer : str;
  s_legs : list (str * Z);
  s_seq_num : Z;
  s_fee : Z;
  s_memo_hash : str;
  s_signature : str;
}.

(** The rail; a signer is its seed. *)
Record StellarRail (W : Type) := {
  cfg : StellarConfig;
  rpc : StellarRpc W;
  signer : option (list byte);
  rail_capabilities : RailCapabilities;
}.
Arguments cfg {W} _.
Arguments rpc {W} _.
Arguments signer {W} _.
Arguments rail_capabilities {W} _.

Definition stellar_new {W} (c : StellarConfig) (h : StellarRpc W) : StellarRail W := {|
  cfg := c; rpc := h; signer := None;
  rail_capabilities := {|
    class := NonCustodialFinal; reversible := false; requires_kyc := false; holds_funds := false;
    currencies := ["USDC"%string]; settlement := Seconds 5; atomic_multi_party := false;
  |};
|}.
Definition with_signer {W} (seed : list byte) (r : StellarRail W) : StellarRail W :=
  {| cfg := cfg r; rpc := rpc r; signer := Some seed; rail_capabilities := rail_capabilities r |}.

Record SplitLeg := { leg_destination : str; leg_amount_minor : Z }.

Section StellarRail.
Context `{StrKey} `{Ed25519} `{Sha256} `{XdrCodec} `{Hex}.
Context `{Serde StellarBinding} `{Serde StellarSplitBinding}.
Context {W : Type} `{Clock W}.

Definition only_usdc (c : str) : Error :=
  InvalidRequest ("stellar rail only supports USDC, got " +:+ c).
Definition signer_pubkey (r : StellarRail W) : option key32 := pubkey <$> signer r.

Definition stellar_quote (r : StellarRail W) (req : PayRequest) : Eff W Error Quote :=
  eff_of (validate req) ≫= fun _ =>
  return_if negb (String.eqb (req_currency req) "USDC") with_ eff_err (only_usdc (req_currency req));
  now ← read_clock;
  mret {|
    q_rail_id := STELLAR_RAIL_ID;
    q_amount_minor := req_amount_minor req;
    q_currency := req_currency req;
    q_fee_minor := 0;
    q_total_minor := req_amount_minor req;
    q_settlement := settlement (rail_capabilities r);
    q_expires_at_unix := u64_saturating_add now 60;
  |}.

(** Sign, wrap, submit, and refuse anything but a successful submission of the
    very transaction that was signed. Answers the reported hash and the
    signature. *)
Definition sign_and_submit (r : StellarRail W) (seed : list byte) (unsigned : Transaction)
    (failed : str) : Eff W Error (str * list byte) :=
  let net_id := network_id (passphrase (network (cfg r))) in
  hash ← eff_of (map_err from_stellar (tx_hash net_id unsigned));
  let sig := sign seed hash in
  let env := envelope unsigned (pubkey seed) sig in
  env_b64 ← eff_of (map_err from_stellar (envelope_to_xdr_base64 env));
  submitted ← eff_map_err from_stellar (submit_transaction (rpc r) env_b64);
  return_if negb (sr_successful submitted) with_ eff_err (Rail failed);
  return_if negb (String.eqb (sr_hash submitted) (hex_encode hash)) with_
    eff_err (Rail "horizon-reported transaction hash does not match the locally computed hash");
  mret (sr_hash submitted, sig).

Definition next_sequence (r : StellarRail W) (source_strkey : str) : Eff W Error Z :=
  seq ← eff_map_err from_stellar (load_sequence (rpc r) source_strkey);
  eff_of (ok_or (Rail "account sequence number overflow") (i64_checked_add seq 1)).

Definition stellar_charge (r : StellarRail W) (req : PayRequest) : Eff W Error Receipt :=
  eff_of (validate req) ≫= fun _ =>
  return_if negb (String.eqb (req_currency req) "USDC") with_ eff_err (only_usdc (req_currency req));
  let_some seed := signer r or_else
    eff_err (Rail "stellar rail holds no signing key; it is verify-only (configure one with `with_signer`/`from_env` to charge)");
  dest ← eff_of (map_err (fun e => InvalidRequest
    ("destination is not a valid stellar address: " +:+ stellar_error_display e))
    (from_strkey (req_destination req)));
  issuer_pk ← eff_of (map_err (fun e => Rail
    ("configured usdc_issuer is invalid: " +:+ stellar_error_display e))
    (from_strkey (usdc_issuer (cfg r))));
  usdc ← eff_of (map_err from_stellar (usdc_asset "USDC" issuer_pk));
  amt ← eff_of (ok_or (InvalidRequest "amount_minor exceeds Stellar's i64 range")
    (i64_try_from (req_amount_minor req)));
  let source_pk := pubkey seed in
  next_seq ← next_sequence r (to_strkey source_pk);
  let m := memo_hash STELLAR_RAIL_ID (to_strkey source_pk) (req_destination req) (req_reference req) in
  let unsigned := build_transaction source_pk dest usdc amt next_seq (base_fee_stroops (cfg r)) m in
  submitted ← sign_and_submit r seed unsigned "stellar transaction failed on submission";
  let binding := {|
    chain := "stellar";
    network_passphrase := passphrase (network (cfg r));
    b_tx_hash := submitted.1;
    source := to_strkey source_pk;
    destination := req_destination req;
    b_asset_code := "USDC";
    asset_issuer := to_strkey issuer_pk;
    amount_stroops := amt;
    b_seq_num := next_seq;
    b_fee := base_fee_stroops (cfg r);
    b_memo_hash := hex_encode m;
    b_signature := hex_encode submitted.2;
  |} in
  bytes ← eff_of (map_err (fun e => Rail ("encode receipt proof: " +:+ e)) (to_vec binding));
  now ← read_clock;
  mret {|
    rail_id := STELLAR_RAIL_ID;
    amount_minor := req_amount_minor req;
    currency := req_currency req;
    reference := req_reference req;
    proof := bytes;
    settled_at_unix := now;
  |}.

(** Steps 1 to 4 of [verify]. [None] is [return Ok(false)]; otherwise the
    binding, its keys, the configured issuer and the memo. *)
Record Checked := {
  c_binding : StellarBinding;
  c_source : key32;
  c_dest : key32;
  c_issuer : key32;
  c_memo : list byte;
}.
Definition verify_offline (r : StellarRail W) (receipt : Receipt) : option Checked :=
  return_if negb (String.eqb (rail_id receipt) STELLAR_RAIL_ID) with_ None;
  return_if negb (String.eqb (currency receipt) "USDC") with_ None;
  let_some binding := from_slice (T := StellarBinding) (proof receipt) or_else None;
  return_if negb (String.eqb (chain binding) "stellar") with_ None;
  return_if negb (String.eqb (network_passphrase binding) (passphrase (network (cfg r)))) with_ None;
  let_ok configured_issuer := from_strkey (usdc_issuer (cfg r)) or_else None;
  return_if negb (String.eqb (b_asset_code binding) "USDC")
      || negb (String.eqb (asset_issuer binding) (to_strkey configured_issuer)) with_ None;
  return_if negb (amount_stroops binding =? as_i64 (amount_minor receipt)) with_ None;
  let expected_memo := hex_encode
    (memo_hash STELLAR_RAIL_ID (source binding) (destination binding) (reference receipt)) in
  return_if negb (String.eqb (b_memo_hash binding) expected_memo) with_ None;
  let_ok source_pk := from_strkey (source binding) or_else None;
  let_ok dst_pk := from_strkey (destination binding) or_else None;
  let_some memo_bytes := hex_decode (b_memo_hash binding) or_else None;
  let_some sig_bytes := hex_decode (b_signature binding) or_else None;
  let_some memo_arr := array_of 32 memo_bytes or_else None;
  let_some sig_arr := array_of 64 sig_bytes or_else None;
  let_ok usdc := usdc_asset (b_asset_code binding) configured_issuer or_else None;
  let rebuilt := build_transaction source_pk dst_pk usdc (amount_stroops binding)
    (b_seq_num binding) (b_fee binding) memo_arr in
  let net_id := network_id (network_passphrase binding) in
  let_ok recomputed_hash := tx_hash net_id rebuilt or_else None;
  let_some claimed_hash_bytes := hex_decode (b_tx_hash binding) or_else None;
  return_if negb (bool_decide (claimed_hash_bytes = recomputed_hash)) with_ None;
  return_if negb (keypair_verify source_pk recomputed_hash sig_arr) with_ None;
  Some {| c_binding := binding; c_source := source_pk; c_dest := dst_pk;
          c_issuer := configured_issuer; c_memo := memo_arr |}.

(** Step 5's comparison of what Horizon returned. *)
Definition record_matches (c : Checked) (record : TxRecord) : bool :=
  return_if negb (successful record) with_ false;
  let_ok env := envelope_from_xdr_base64 (envelope_xdr record) or_else false;
  let_ok decoded := decode_single_payment env or_else false;
  negb (negb (bool_decide (d_source_pk decoded = c_source c))
    || negb (bool_decide (d_dest_pk decoded = c_dest c))
    || negb (d_amount decoded =? amount_stroops (c_binding c))
    || negb (bool_decide (d_memo decoded = c_memo c))
    || negb (d_seq_num decoded =? b_seq_num (c_binding c))
    || negb (d_fee decoded =? b_fee (c_binding c))
    || negb (asset_is (d_asset decoded) "USDC" (c_issuer c))).

(** [match self.rpc.get_transaction(hash).await { .. }] and what follows it. *)
Definition read_back (r : StellarRail W) (hash : str) (ok : TxRecord -> bool) : Eff W Error bool :=
  found ← eff_map_err from_stellar (get_transaction (rpc r) hash);
  mret (match found with Some record => ok record | None => false end).
Definition stellar_verify (r : StellarRail W) (receipt : Receipt) : Eff W Error bool :=
  let_some c := verify_offline r receipt or_else mret false;
  read_back r (b_tx_hash (c_binding c)) (record_matches c).

(** ** Atomic splits *)

Fixpoint charge_legs (i : Z) (usdc : Asset) (legs : list SplitLeg)
    : Result Error (list PaymentLeg * list (str * Z)) :=
  match legs with
  | [] => Ok ([], [])
  | leg :: legs =>
      dest ← map_err (fun e => InvalidRequest ("leg " +:+ to_dec i
        +:+ ": destination is not a valid stellar address: " +:+ stellar_error_display e))
        (from_strkey (leg_destination leg));
      amt ← ok_or (InvalidRequest ("leg " +:+ to_dec i +:+ ": amount_minor exceeds Stellar's i64 range"))
        (i64_try_from (leg_amount_minor leg));
      rest ← charge_legs (i + 1) usdc legs;
      mret ({| dest_pk := dest; asset := usdc; amount := amt |} :: rest.1,
            (leg_destination leg, amt) :: rest.2)
  end.

Definition charge_split (r : StellarRail W) (legs : list SplitLeg) (ref : str) : Eff W Error Receipt :=
  return_if is_blank ref with_ eff_err (InvalidRequest "reference must not be empty");
  let_some seed := signer r or_else
    eff_err (Rail "stellar rail holds no signing key; it is verify-only (configure one with `with_signer`/`from_env` to charge_split)");
  issuer_pk ← eff_of (map_err (fun e => Rail
    ("configured usdc_issuer is invalid: " +:+ stellar_error_display e))
    (from_strkey (usdc_issuer (cfg r))));
  usdc ← eff_of (map_err from_stellar (usdc_asset "USDC" issuer_pk));
  both ← eff_of (charge_legs 0 usdc legs);
  let payment_legs := both.1 in
  let leg_pairs := both.2 in
  let source_pk := pubkey seed in
  next_seq ← next_sequence r (to_strkey source_pk);
  let m := split_memo_hash STELLAR_RAIL_ID (to_strkey source_pk) ref leg_pairs in
  fee_bid ← eff_of (map_err from_stellar
    (total_fee (base_fee_stroops (cfg r)) (Z.of_nat (length payment_legs))));
  unsigned ← eff_of (map_err from_stellar
    (build_payment_transaction source_pk payment_legs next_seq (base_fee_stroops (cfg r)) m));
  submitted ← sign_and_submit r seed unsigned "stellar split transaction failed on submission";
  total ← eff_of (map_err from_stellar (total_amount payment_legs));
  let binding := {|
    s_chain := "stellar";
    s_network_passphrase := passphrase (network (cfg r));
    s_tx_hash := submitted.1;
    s_source := to_strkey source_pk;
    s_asset_code := "USDC";
    s_asset_issuer := to_strkey issuer_pk;
    s_legs := leg_pairs;
    s_seq_num := next_seq;
    s_fee := fee_bid;
    s_memo_hash := hex_encode m;
    s_signature := hex_encode submitted.2;
  |} in
  bytes ← eff_of (map_err (fun e => Rail ("encode receipt proof: " +:+ e)) (to_vec binding));
  now ← read_clock;
  mret {|
    rail_id := STELLAR_RAIL_ID;
    amount_minor := as_u64 total;
    currency := "USDC";
    reference := ref;
    proof := bytes;
    settled_at_unix := now;
  |}.

(** The running [checked_add] over the claimed legs. *)
Fixpoint checked_total (total : Z) (legs : list (str * Z)) : option Z :=
  match legs with
  | [] => Some total
  | (_, amt) :: legs => let_some t := i64_checked_add total amt or_else None; checked_total t legs
  end.
Fixpoint parse_legs (usdc : Asset) (legs : list (str * Z)) : option (list PaymentLeg) :=
  match legs with
  | [] => Some []
  | (dest_str, amt) :: legs =>
      let_ok dst_pk := from_strkey dest_str or_else None;
      let_some rest := parse_legs usdc legs or_else None;
      Some ({| dest_pk := dst_pk; asset := usdc; amount := amt |} :: rest)
  end.
Fixpoint legs_match (issuer_pk : key32) (claimed : list (str * Z)) (decoded : list PaymentLeg) : bool :=
  match claimed, decoded with
  | [], [] => true
  | (dest_str, amt) :: claimed, d :: decoded =>
      let_ok dst_pk := from_strkey dest_str or_else false;
      return_if negb (bool_decide (dest_pk d = dst_pk)) || negb (amount d =? amt)
          || negb (asset_is (asset d) "USDC" issuer_pk) with_ false;
      legs_match issuer_pk claimed decoded
  | _, _ => false
  end.

Record SplitChecked := {
  sc_binding : StellarSplitBinding;
  sc_source : key32;
  sc_issuer : key32;
  sc_memo : list byte;
}.
Definition verify_split_offline (r : StellarRail W) (receipt : Receipt) : option SplitChecked :=
  return_if negb (String.eqb (rail_id receipt) STELLAR_RAIL_ID) with_ None;
  return_if negb (String.eqb (currency receipt) "USDC") with_ None;
  let_some binding := from_slice (T := StellarSplitBinding) (proof receipt) or_else None;
  return_if negb (String.eqb (s_chain binding) "stellar") with_ None;
  return_if negb (String.eqb (s_network_passphrase binding) (passphrase (network (cfg r)))) with_ None;
  let_ok configured_issuer := from_strkey (usdc_issuer (cfg r)) or_else None;
  return_if negb (String.eqb (s_asset_code binding) "USDC")
      || negb (String.eqb (s_asset_issuer binding) (to_strkey configured_issuer)) with_ None;
  return_if bool_decide (length (s_legs binding) = O) with_ None;
  let_some total := checked_total 0 (s_legs binding) or_else None;
  return_if negb (total =? as_i64 (amount_minor receipt)) with_ None;
  let expected_memo := hex_encode
    (split_memo_hash STELLAR_RAIL_ID (s_source binding) (reference receipt) (s_legs binding)) in
  return_if negb (String.eqb (s_memo_hash binding) expected_memo) with_ None;
  let_ok source_pk := from_strkey (s_source binding) or_else None;
  let_ok usdc := usdc_asset (s_asset_code binding) configured_issuer or_else None;
  let_some payment_legs := parse_legs usdc (s_legs binding) or_else None;
  let_some memo_bytes := hex_decode (s_memo_hash binding) or_else None;
  let_some sig_bytes := hex_decode (s_signature binding) or_else None;
  let_some memo_arr := array_of 32 memo_bytes or_else None;
  let_some sig_arr := array_of 64 sig_bytes or_else None;
  let_some n := u32_try_from (Z.of_nat (length payment_legs)) or_else None;
  return_if negb (0 <? n) with_ None;
  let per_op_fee := s_fee binding / n in
  let_ok rebuilt := build_payment_transaction source_pk payment_legs (s_seq_num binding)
    per_op_fee memo_arr or_else None;
  let net_id := network_id (s_network_passphrase binding) in
  let_ok recomputed_hash := tx_hash net_id rebuilt or_else None;
  let_some claimed_hash_bytes := hex_decode (s_tx_hash binding) or_else None;
  return_if negb (bool_decide (claimed_hash_bytes = recomputed_hash)) with_ None;
  return_if negb (keypair_verify source_pk recomputed_hash sig_arr) with_ None;
  Some {| sc_binding := binding; sc_source := source_pk; sc_issuer := configured_issuer;
          sc_memo := memo_arr |}.

Definition split_record_matches (c : SplitChecked) (record : TxRecord) : bool :=
  return_if negb (successful record) with_ false;
  let_ok env := envelope_from_xdr_base64 (envelope_xdr record) or_else false;
  let_ok decoded := decode_payments env or_else false;
  return_if negb (Nat.eqb (length (dp_legs decoded)) (length (s_legs (sc_binding c))))
      || negb (bool_decide (dp_source_pk decoded = sc_source c))
      || negb (bool_decide (dp_memo decoded = sc_memo c))
      || negb (dp_seq_num decoded =? s_seq_num (sc_binding c))
      || negb (dp_fee decoded =? s_fee (sc_binding c)) with_ false;
  legs_match (sc_issuer c) (s_legs (sc_binding c)) (dp_legs decoded).

Definition verify_split (r : StellarRail W) (receipt : Receipt) : Eff W Error bool :=
  let_some c := verify_split_offline r receipt or_else mret false;
  read_back r (s_tx_hash (sc_binding c)) (split_record_matches c).

Definition stellar_refund (_ : Receipt) : Eff W Error Receipt := eff_err (Unsupported "refund").
Definition stellar_rail (r : StellarRail W) : PaymentRail W := {|
  id := STELLAR_RAIL_ID;
  capabilities := rail_capabilities r;
  quote := stellar_quote r;
  charge := stellar_charge r;
  verify := stellar_verify r;
  validate_destination := stellar_validate;
  refund := stellar_refund;
  verify_webhook := default_verify_webhook;
|}.
End StellarRail.

(** ** Lemmas *)

(** Turns the evaluation of a chain of checks in a hypothesis into the facts
    the checks establish. *)
Ltac inv_checks H :=
  repeat match type of H with
  | context [if negb ?b then _ else _] => destruct b eqn:?; cbn [negb] in H; [|discriminate H]
  | context [if ?b then _ else _] => destruct b eqn:?; [discriminate H|]
  | context [match ?x with Some _ => _ | None => _ end] => destruct x eqn:?; [|discriminate H]
  | context [match ?x with Ok _ => _ | Err _ => _ end] => destruct x eqn:?; [|discriminate H]
  end.

Lemma asset_is_spec a c iss : asset_is a c iss = true <-> usdc_asset c iss = Ok a.
Proof.
  unfold asset_is, usdc_asset, mbind, result_bind, mret, result_ret.
  destruct a as [[code iss']|raw].
  - destruct (asset_code4 c) as [code'|e]; [|done].
    rewrite andb_true_iff, !bool_decide_eq_true. cbn. split; [intros [-> ->]; done|].
    now intros [= -> ->].
  - split; [done|]. now destruct (asset_code4 c).
Qed.

Section StellarRailLemmas.
Context `{StrKeyLaws} `{Ed25519Laws} `{Sha256Laws} `{XdrLaws} `{HexLaws}.
Context `{SerdeLaws StellarBinding} `{SerdeLaws StellarSplitBinding}.
Context {W : Type} `{Clock W}.
Implicit Types (r : StellarRail W) (rc : Receipt) (w : W).

(** What steps 1 to 4 of [verify] establish. *)
Record offline_facts (r : StellarRail W) (rc : Receipt) (c : Checked) : Prop := {
  of_rail : rail_id rc = STELLAR_RAIL_ID;
  of_currency : currency rc = "USDC"%string;
  of_proof : from_slice (proof rc) = Some (c_binding c);
  of_chain : chain (c_binding c) = "stellar"%string;
  of_network : network_passphrase (c_binding c) = passphrase (network (cfg r));
  of_issuer : from_strkey (usdc_issuer (cfg r)) = Ok (c_issuer c);
  of_asset : b_asset_code (c_binding c) = "USDC"%string /\
    asset_issuer (c_binding c) = to_strkey (c_issuer c);
  of_amount : amount_stroops (c_binding c) = as_i64 (amount_minor rc);
  of_memo : c_memo c =
    memo_hash STELLAR_RAIL_ID (source (c_binding c)) (destination (c_binding c)) (reference rc);
  of_memo_hex : b_memo_hash (c_binding c) = hex_encode (c_memo c);
  of_source : from_strkey (source (c_binding c)) = Ok (c_source c);
  of_dest : from_strkey (destination (c_binding c)) = Ok (c_dest c);
  of_signed : exists usdc h sig,
    usdc_asset "USDC" (c_issuer c) = Ok usdc /\
    tx_hash (network_id (passphrase (network (cfg r))))
      (build_transaction (c_source c) (c_dest c) usdc (amount_stroops (c_binding c))
        (b_seq_num (c_binding c)) (b_fee (c_binding c)) (c_memo c)) = Ok h /\
    hex_decode (b_tx_hash (c_binding c)) = Some h /\
    hex_decode (b_signature (c_binding c)) = Some sig /\ length sig = 64%nat /\
    keypair_verify (c_source c) h sig = true;
}.

Lemma verify_offline_spec r rc c : verify_offline r rc = Some c <-> offline_facts r rc c.
Proof.
  split.
  - unfold verify_offline. intros E. inv_checks E. injection E as <-.
    repeat match goal with
    | H : String.eqb _ _ = true |- _ => apply String.eqb_eq in H
    | H : (_ =? _) = true |- _ => apply Z.eqb_eq in H
    | H : bool_decide _ = true |- _ => apply bool_decide_eq_true in H
    | H : array_of _ _ = Some _ |- _ => apply array_of_Some in H as [-> ?]
    | H : _ || _ = false |- _ => apply orb_false_iff in H as [?%negb_false_iff ?%negb_false_iff]
    end.
    match goal with
    | Hm : b_memo_hash ?b = hex_encode ?m, Hd : hex_decode (b_memo_hash ?b) = Some _ |- _ =>
        rewrite Hm, hex_decode_encode in Hd; injection Hd as <-
    end.
    split; cbn; try done; try congruence.
    repeat match goal with H : _ = _ |- _ => progress (try rewrite H in * ) end.
    eauto 10.
  - intros [Hr Hc Hp Hch Hn Hi [Ha1 Ha2] Ham Hm Hmh Hs Hd (usdc & h & sig & Hu & Hh & Hx & Hsg & Hl & Hv)].
    assert (length (c_memo c) = 32%nat) as Hml by (rewrite Hm; apply length_sha256).
    unfold verify_offline. rewrite Hr, Hc, Hp, Hch, Hn, Hi, Ha1, Ha2, Ham, Hmh, <- Hm.
    rewrite !String.eqb_refl, Z.eqb_refl. cbn [negb orb].
    rewrite Hs, Hd, hex_decode_encode, Hsg.
    rewrite (proj2 (array_of_Some 32 (c_memo c) (c_memo c)) (conj eq_refl Hml)).
    rewrite (proj2 (array_of_Some 64 sig sig) (conj eq_refl Hl)).
    rewrite Hu, <- Ham, Hh, Hx, bool_decide_eq_true_2, Hv by done. now destruct c.
Qed.

Lemma read_back_true r h ok w w' :
  read_back r h ok w = (Ok true, w') <->
  exists rec, get_transaction (rpc r) h w = (Ok (Some rec), w') /\ ok rec = true.
Proof.
  unfold read_back. unfold_eff. destruct (get_transaction (rpc r) h w) as [[[rec|]|e] v]; cbn.
  - split; [intros [= E <-]; eauto | intros (? & [= <- <-] & ->); done].
  - split; [done | now intros (? & ? & _)].
  - split; [done | now intros (? & ? & _)].
Qed.
Lemma read_back_err r h ok w e w' :
  read_back r h ok w = (Err e, w') <->
  exists e', get_transaction (rpc r) h w = (Err e', w') /\ e = from_stellar e'.
Proof.
  unfold read_back. unfold_eff. destruct (get_transaction (rpc r) h w) as [[[rec|]|e0] v]; cbn.
  - split; [done | now intros (? & ? & _)].
  - split; [done | now intros (? & ? & _)].
  - split; [intros [= <- <-]; eauto | now intros (? & [= <- <-] & ->)].
Qed.

Lemma envelope_decode_ok b64 env :
  envelope_from_xdr_base64 b64 = Ok env <-> envelope_decode b64 = Ok env.
Proof.
  unfold envelope_from_xdr_base64. destruct (envelope_decode b64); cbn; split; intros E;
    now inversion E.
Qed.

(** The transaction a payment by [src] of [amt] to [dst] is, as decoded. *)
Definition paid (src dst : key32) (usdc : Asset) (amt seq f : Z) (m : list byte) : DecodedPayments :=
  {| dp_source_pk := src; dp_seq_num := seq; dp_fee := f; dp_memo := m;
     dp_legs := [{| dest_pk := dst; asset := usdc; amount := amt |}] |}.

Lemma decode_single_spec env d :
  decode_single_payment env = Ok d <->
  decode_payments env =
    Ok (paid (d_source_pk d) (d_dest_pk d) (d_asset d) (d_amount d) (d_seq_num d) (d_fee d) (d_memo d)).
Proof.
  unfold decode_single_payment, mbind, result_bind.
  destruct (decode_payments env) as [[src sq f m legs]|e]; [|split; done]. cbn.
  destruct legs as [|[dst a x] [|]]; cbn; try (split; done). unfold paid. destruct d; cbn.
  split; [intros [= <- <- <- <- <- <- <-]; done | intros [= -> -> -> -> -> -> ->]; done].
Qed.

Lemma record_matches_spec c rec :
  record_matches c rec = true <->
  successful rec = true /\ exists env usdc,
    envelope_decode (envelope_xdr rec) = Ok env /\ usdc_asset "USDC" (c_issuer c) = Ok usdc /\
    decode_payments env = Ok (paid (c_source c) (c_dest c) usdc (amount_stroops (c_binding c))
      (b_seq_num (c_binding c)) (b_fee (c_binding c)) (c_memo c)).
Proof.
  unfold record_matches. split.
  - intros E.
    destruct (successful rec); [|done]. cbn [negb] in E.
    destruct (envelope_from_xdr_base64 _) as [env|] eqn:Ee; [|done].
    destruct (decode_single_payment env) as [d|] eqn:Ed; [|done].
    apply negb_true_iff in E.
    repeat match goal with H : _ || _ = false |- _ =>
      apply orb_false_iff in H as [H ?%negb_false_iff] end.
    apply negb_false_iff in E.
    repeat match goal with
    | H : bool_decide _ = true |- _ => apply bool_decide_eq_true in H
    | H : (_ =? _) = true |- _ => apply Z.eqb_eq in H
    | H : asset_is _ _ _ = true |- _ => apply asset_is_spec in H
    end.
    split; [done|]. exists env, (d_asset d). split; [now apply envelope_decode_ok|]. split; [done|].
    apply decode_single_spec in Ed. congruence.
  - intros (-> & env & usdc & Ee & Hu & Ed). cbn [negb].
    rewrite (proj2 (envelope_decode_ok _ _) Ee).
    set (d := {| d_source_pk := c_source c; d_seq_num := b_seq_num (c_binding c);
      d_fee := b_fee (c_binding c); d_dest_pk := c_dest c; d_asset := usdc;
      d_amount := amount_stroops (c_binding c); d_memo := c_memo c |}).
    rewrite (proj2 (decode_single_spec env d) Ed). cbn.
    rewrite !bool_decide_eq_true_2, !Z.eqb_refl, (proj2 (asset_is_spec _ _ _) Hu) by done. done.
Qed.

Lemma paid_positive env src dst usdc amt seq f m :
  decode_payments env = Ok (paid src dst usdc amt seq f m) -> 0 < amt.
Proof.
  destruct env as [tx sigs|]; [|done]. intros Hd.
  apply decode_payments_spec in Hd as (_ & _ & _ & _ & _ & Hp & _).
  now apply Forall_inv in Hp.
Qed.

Lemma stellar_verify_true r rc w w' :
  stellar_verify r rc w = (Ok true, w') <->
  exists c rec, offline_facts r rc c /\
    get_transaction (rpc r) (b_tx_hash (c_binding c)) w = (Ok (Some rec), w') /\
    record_matches c rec = true.
Proof.
  unfold stellar_verify. destruct (verify_offline r rc) as [c|] eqn:E.
  - rewrite read_back_true. split.
    + intros (rec & ? & ?). exists c, rec. split; [now apply verify_offline_spec | done].
    + intros (c' & rec & F & Hg & Hm). apply verify_offline_spec in F.
      assert (c' = c) as -> by congruence. eauto.
  - split; [done|]. intros (c' & rec & F & _). apply verify_offline_spec in F. congruence.
Qed.

(** What a successful [sign_and_submit] did. *)
Lemma sign_and_submit_ok r seed tx msg w h sig w' :
  sign_and_submit r seed tx msg w = (Ok (h, sig), w') <->
  exists hash b64 sub,
    tx_hash (network_id (passphrase (network (cfg r)))) tx = Ok hash /\ sig = sign seed hash /\
    envelope_encode (envelope tx (pubkey seed) sig) = Ok b64 /\
    submit_transaction (rpc r) b64 w = (Ok sub, w') /\
    sr_successful sub = true /\ sr_hash sub = hex_encode hash /\ h = hex_encode hash.
Proof.
  unfold sign_and_submit, envelope_to_xdr_base64. unfold_eff. split.
  - destruct (tx_hash _ tx) as [hash|]; [|done]. cbn [map_err].
    destruct (envelope_encode _) as [b64|] eqn:Eb; [|done]. cbn [map_err].
    destruct (submit_transaction (rpc r) b64 w) as [[sub|] v] eqn:Es; [|done]. cbn [map_err].
    destruct (sr_successful sub) eqn:E1; [|done]. cbn [negb].
    destruct (String.eqb_spec (sr_hash sub) (hex_encode hash)) as [E2|]; [|done]. cbn [negb].
    intros [= <- <- <-]. exists hash, b64, sub. auto 10.
  - intros (hash & b64 & sub & -> & -> & Eb & Es & E1 & E2 & ->). cbn [map_err].
    rewrite Eb. cbn [map_err]. rewrite Es. cbn. now rewrite E1, E2, String.eqb_refl.
Qed.
Lemma next_sequence_ok r s w n w' :
  next_sequence r s w = (Ok n, w') ->
  exists m, load_sequence (rpc r) s w = (Ok m, w') /\ n = m + 1 /\ is_i64 n.
Proof.
  unfold next_sequence. unfold_eff.
  destruct (load_sequence (rpc r) s w) as [[m|] v]; [|done]. cbn.
  unfold i64_checked_add, ok_or. destruct (in_range _ _ _) eqn:E; [|done]. intros [= <- <-].
  apply in_range_Some in E as [-> ?]. eauto.
Qed.

(** What a successful [charge] did, and the receipt it answers. *)
Lemma stellar_charge_ok r q w rc w' :
  stellar_charge r q w = (Ok rc, w') ->
  exists seed dst iss usdc m0 w0 hash b64 sub w1 b now,
    validate q = Ok tt /\ req_currency q = "USDC"%string /\ signer r = Some seed /\
    from_strkey (req_destination q) = Ok dst /\ from_strkey (usdc_issuer (cfg r)) = Ok iss /\
    usdc_asset "USDC" iss = Ok usdc /\ is_i64 (req_amount_minor q) /\
    load_sequence (rpc r) (to_strkey (pubkey seed)) w = (Ok m0, w0) /\ is_i64 (m0 + 1) /\
    let m := memo_hash STELLAR_RAIL_ID (to_strkey (pubkey seed)) (req_destination q) (req_reference q) in
    let tx := build_transaction (pubkey seed) dst usdc (req_amount_minor q) (m0 + 1)
                (base_fee_stroops (cfg r)) m in
    tx_hash (network_id (passphrase (network (cfg r)))) tx = Ok hash /\
    envelope_encode (envelope tx (pubkey seed) (sign seed hash)) = Ok b64 /\
    submit_transaction (rpc r) b64 w0 = (Ok sub, w1) /\
    sr_successful sub = true /\ sr_hash sub = hex_encode hash /\
    b = {| chain := "stellar"; network_passphrase := passphrase (network (cfg r));
           b_tx_hash := hex_encode hash; source := to_strkey (pubkey seed);
           destination := req_destination q; b_asset_code := "USDC"; asset_issuer := to_strkey iss;
           amount_stroops := req_amount_minor q; b_seq_num := m0 + 1;
           b_fee := base_fee_stroops (cfg r); b_memo_hash := hex_encode m;
           b_signature := hex_encode (sign seed hash) |} /\
    to_vec b = Ok (proof rc) /\ now_unix w1 = (now, w') /\
    rail_id rc = STELLAR_RAIL_ID /\ amount_minor rc = req_amount_minor q /\
    currency rc = "USDC"%string /\ reference rc = req_reference q /\ settled_at_unix rc = now.
Proof.
  unfold stellar_charge. unfold_eff.
  destruct (validate q) as [[]|] eqn:Ev; [|done].
  destruct (String.eqb_spec (req_currency q) "USDC") as [Ec|]; [|done]. cbn [negb].
  destruct (signer r) as [seed|] eqn:Esg; [|done].
  destruct (from_strkey (req_destination q)) as [dst|] eqn:Ed; [|done]. cbn [map_err].
  destruct (from_strkey (usdc_issuer _)) as [iss|] eqn:Ei; [|done]. cbn [map_err].
  destruct (usdc_asset "USDC" iss) as [usdc|] eqn:Eu; [|done]. cbn [map_err].
  destruct (i64_try_from _) as [amt|] eqn:Ea; [|done]. cbn [ok_or].
  apply in_range_Some in Ea as [-> Ha].
  destruct (next_sequence r _ w) as [[n|] w0] eqn:En; [|done].
  apply next_sequence_ok in En as (m0 & El & -> & Hn).
  destruct (sign_and_submit _ _ _ _ _) as [[[h sig]|] w1] eqn:Es; [|done].
  apply sign_and_submit_ok in Es as (hash & b64 & sub & Eh & -> & Eb & Esub & Eok & Ehs & ->).
  cbn [fst snd]. destruct (to_vec _) as [bytes|] eqn:Et; [|done]. cbn [map_err].
  destruct (now_unix w1) as [now v] eqn:Enow. intros [= <- <-].
  exists seed, dst, iss, usdc, m0, w0, hash, b64, sub, w1. do 2 eexists. cbn.
  split_and!; try done.
Qed.

(** ** Splits *)

(** The configured USDC: its code is always acceptable. *)
Definition usdc_of (iss : key32) : Asset :=
  CreditAlphanum4 {| asset_code := as_bytes "USDC"; issuer := iss |}.
Lemma usdc_asset_ok iss : usdc_asset "USDC" iss = Ok (usdc_of iss).
Proof. reflexivity. Qed.

Lemma legs_match_spec iss claimed decoded :
  legs_match iss claimed decoded = true <-> parse_legs (usdc_of iss) claimed = Some decoded.
Proof.
  revert decoded. induction claimed as [|[d a] claimed IH]; intros [|[k x n] decoded]; cbn [legs_match parse_legs].
  - done.
  - done.
  - split; [done|]. destruct (from_strkey d); [|done]. now destruct (parse_legs _ _).
  - destruct (from_strkey d) as [k'|]; [|done]. cbn [dest_pk amount asset].
    destruct (parse_legs (usdc_of iss) claimed) as [pl|]; case_match eqn:E; rewrite ?IH.
    + split; [done|]. intros [= -> <- -> ->].
      rewrite bool_decide_eq_true_2, Z.eqb_refl, (proj2 (asset_is_spec _ _ _) (usdc_asset_ok iss)) in E by done.
      discriminate.
    + apply orb_false_iff in E as [E Ha%negb_false_iff]. apply orb_false_iff in E as [Hk%negb_false_iff Hn%negb_false_iff].
      apply bool_decide_eq_true in Hk as ->. apply Z.eqb_eq in Hn as ->. apply asset_is_spec in Ha as [= <-].
      split; [intros [= ->]; done | intros [= ->]; done].
    + done.
    + done.
Qed.
Lemma parse_legs_length usdc claimed pl : parse_legs usdc claimed = Some pl -> length pl = length claimed.
Proof.
  revert pl. induction claimed as [|[d a] claimed IH]; intros pl; cbn [parse_legs]; [now intros [= <-]|].
  destruct (from_strkey d); [|done]. destruct (parse_legs usdc claimed); [|done]. intros [= <-]. cbn. auto.
Qed.
Lemma checked_total_legs i t usdc claimed pl : parse_legs usdc claimed = Some pl ->
  checked_total t claimed = result_ok (total_amount_from i t pl).
Proof.
  revert i t pl. induction claimed as [|[d a] claimed IH]; intros i t pl; cbn [parse_legs]; [now intros [= <-]|].
  destruct (from_strkey d); [|done]. destruct (parse_legs usdc claimed) as [pl'|]; [|done]. intros [= <-].
  cbn. destruct (i64_checked_add t a); [now apply IH | done].
Qed.
Lemma charge_legs_ok i usdc legs pl pairs : charge_legs i usdc legs = Ok (pl, pairs) ->
  parse_legs usdc pairs = Some pl /\ pairs = map (fun l => (leg_destination l, leg_amount_minor l)) legs.
Proof.
  revert i pl pairs. induction legs as [|l legs IH]; intros i pl pairs; cbn [charge_legs]; [now intros [= <- <-]|].
  unfold mbind, result_bind. destruct (from_strkey (leg_destination l)) as [k|] eqn:Ek; [|done]. cbn [map_err].
  destruct (i64_try_from _) as [a|] eqn:Ea; [|done]. cbn [ok_or]. apply in_range_Some in Ea as [-> _].
  destruct (charge_legs _ _ _) as [[pl' pairs']|] eqn:E; [|done]. intros [= <- <-].
  apply IH in E as [E ->]. cbn [fst snd parse_legs map]. now rewrite Ek, E.
Qed.

Lemma build_payment_shape src legs seq base m tx :
  build_payment_transaction src legs seq base m = Ok tx ->
  0 < Z.of_nat (length legs) <= MAX_OPERATIONS /\ memo tx = MemoHash m /\ operations tx = map payment_op legs.
Proof.
  unfold build_payment_transaction, mbind, result_bind. case_bool_decide; [done|].
  destruct (Z.ltb_spec MAX_OPERATIONS (Z.of_nat (length legs))); [done|].
  destruct (check_positive 0 legs); [|done]. destruct (total_amount legs); [|done].
  destruct (total_fee _ _); [|done]. unfold transaction_from_ops. case_match; [done|].
  intros [= <-]. cbn. split; [lia | done].
Qed.

Record split_facts (r : StellarRail W) (rc : Receipt) (c : SplitChecked) : Prop := {
  sf_rail : rail_id rc = STELLAR_RAIL_ID;
  sf_currency : currency rc = "USDC"%string;
  sf_proof : from_slice (proof rc) = Some (sc_binding c);
  sf_chain : s_chain (sc_binding c) = "stellar"%string;
  sf_network : s_network_passphrase (sc_binding c) = passphrase (network (cfg r));
  sf_issuer : from_strkey (usdc_issuer (cfg r)) = Ok (sc_issuer c);
  sf_asset : s_asset_code (sc_binding c) = "USDC"%string /\
    s_asset_issuer (sc_binding c) = to_strkey (sc_issuer c);
  sf_total : checked_total 0 (s_legs (sc_binding c)) = Some (as_i64 (amount_minor rc));
  sf_memo : sc_memo c =
    split_memo_hash STELLAR_RAIL_ID (s_source (sc_binding c)) (reference rc) (s_legs (sc_binding c));
  sf_memo_hex : s_memo_hash (sc_binding c) = hex_encode (sc_memo c);
  sf_source : from_strkey (s_source (sc_binding c)) = Ok (sc_source c);
  sf_signed : exists pl tx h sig,
    parse_legs (usdc_of (sc_issuer c)) (s_legs (sc_binding c)) = Some pl /\
    build_payment_transaction (sc_source c) pl (s_seq_num (sc_binding c))
      (s_fee (sc_binding c) / Z.of_nat (length pl)) (sc_memo c) = Ok tx /\
    tx_hash (network_id (passphrase (network (cfg r)))) tx = Ok h /\
    hex_decode (s_tx_hash (sc_binding c)) = Some h /\
    hex_decode (s_signature (sc_binding c)) = Some sig /\ length sig = 64%nat /\
    keypair_verify (sc_source c) h sig = true;
}.

Lemma verify_split_offline_spec r rc c : verify_split_offline r rc = Some c <-> split_facts r rc c.
Proof.
  split.
  - unfold verify_split_offline. intros E. inv_checks E. injection E as <-.
    repeat match goal with
    | H : String.eqb _ _ = true |- _ => apply String.eqb_eq in H
    | H : (_ =? _) = true |- _ => apply Z.eqb_eq in H
    | H : bool_decide (_ = _) = true |- _ => apply bool_decide_eq_true in H
    | H : u32_try_from _ = Some _ |- _ => apply in_range_Some in H as [-> _]
    | H : array_of _ _ = Some _ |- _ => apply array_of_Some in H as [-> ?]
    | H : _ || _ = false |- _ => apply orb_false_iff in H as [?%negb_false_iff ?%negb_false_iff]
    end.
    match goal with
    | Hm : s_memo_hash ?b = hex_encode ?m, Hd : hex_decode (s_memo_hash ?b) = Some _ |- _ =>
        rewrite Hm, hex_decode_encode in Hd; injection Hd as <-
    end.
    split; cbn; try done; try congruence.
    match goal with
    | Hc : s_asset_code ?b = _, Hu : usdc_asset (s_asset_code ?b) _ = Ok _ |- _ =>
        rewrite Hc, usdc_asset_ok in Hu; injection Hu as <-
    end.
    repeat match goal with H : s_network_passphrase _ = _ |- _ => rewrite H in * end.
    match goal with
    | Hp : parse_legs _ _ = Some ?pl, Hb : build_payment_transaction _ _ _ _ _ = Ok ?tx,
      Hh : tx_hash _ _ = Ok ?h, Hs : hex_decode (s_signature _) = Some ?sg |- _ => exists pl, tx, h, sg
    end. split_and!; try done; congruence.
  - intros [Hr Hc Hp Hch Hn Hi [Ha1 Ha2] Ht Hm Hmh Hs (pl & tx & h & sig & Hl & Hb & Hh & Hx & Hsg & Hlen & Hv)].
    apply build_payment_shape in Hb as Hshape. destruct Hshape as (Hcount & _).
    pose proof (parse_legs_length _ _ _ Hl) as Hlen'.
    assert (length (sc_memo c) = 32%nat) as Hml by (rewrite Hm; apply length_sha256).
    unfold verify_split_offline.
    rewrite Hr, Hc, Hp, Hch, Hn, Hi, Ha1, Ha2, Ht, Hmh, <- Hm, !String.eqb_refl, Z.eqb_refl, Hs, usdc_asset_ok, Hl.
    rewrite bool_decide_eq_false_2 by lia. cbn [negb orb].
    rewrite hex_decode_encode, Hsg.
    rewrite (proj2 (array_of_Some 32 _ _) (conj eq_refl Hml)), (proj2 (array_of_Some 64 _ _) (conj eq_refl Hlen)).
    unfold u32_try_from. rewrite in_range_ok by (unfold MAX_OPERATIONS, u32_max in *; lia).
    rewrite (proj2 (Z.ltb_lt _ _)) by lia. cbn [negb].
    rewrite Hb, Hh, Hx, bool_decide_eq_true_2, Hv by done. now destruct c.
Qed.

Lemma split_record_matches_spec c rec :
  split_record_matches c rec = true <->
  successful rec = true /\ exists env pl,
    envelope_decode (envelope_xdr rec) = Ok env /\
    parse_legs (usdc_of (sc_issuer c)) (s_legs (sc_binding c)) = Some pl /\
    decode_payments env = Ok {| dp_source_pk := sc_source c; dp_seq_num := s_seq_num (sc_binding c);
      dp_fee := s_fee (sc_binding c); dp_memo := sc_memo c; dp_legs := pl |}.
Proof.
  unfold split_record_matches. split.
  - intros E. destruct (successful rec); [|done]. cbn [negb] in E.
    destruct (envelope_from_xdr_base64 _) as [env|] eqn:Ee; [|done].
    destruct (decode_payments env) as [[src sq f m pl]|] eqn:Ed; [|done]. cbn in E.
    destruct (_ || _) eqn:B in E; [done|].
    repeat match goal with H : _ || _ = false |- _ =>
      apply orb_false_iff in H as [H ?%negb_false_iff] end.
    repeat match goal with
    | H : bool_decide _ = true |- _ => apply bool_decide_eq_true in H as ->
    | H : (_ =? _) = true |- _ => apply Z.eqb_eq in H as ->
    end.
    apply legs_match_spec in E. split; [done|]. exists env, pl.
    split; [now apply envelope_decode_ok | done].
  - intros (-> & env & pl & Ee & Hp & Ed). cbn [negb].
    rewrite (proj2 (envelope_decode_ok _ _) Ee), Ed. cbn.
    rewrite (parse_legs_length _ _ _ Hp), Nat.eqb_refl, !bool_decide_eq_true_2, !Z.eqb_refl by done.
    cbn. now apply legs_match_spec.
Qed.

Lemma verify_split_true r rc w w' :
  verify_split r rc w = (Ok true, w') <->
  exists c rec, split_facts r rc c /\
    get_transaction (rpc r) (s_tx_hash (sc_binding c)) w = (Ok (Some rec), w') /\
    split_record_matches c rec = true.
Proof.
  unfold verify_split. destruct (verify_split_offline r rc) as [c|] eqn:E.
  - rewrite read_back_true. split.
    + intros (rec & ? & ?). exists c, rec. split; [now apply verify_split_offline_spec | done].
    + intros (c' & rec & F & Hg & Hm). apply verify_split_offline_spec in F.
      assert (c' = c) as -> by congruence. eauto.
  - split; [done|]. intros (c' & rec & F & _). apply verify_split_offline_spec in F. congruence.
Qed.

Lemma decoded_positive env d : decode_payments env = Ok d -> Forall positive (dp_legs d).
Proof.
  destruct env as [tx sigs|]; [|done]. intros Hd.
  now apply decode_payments_spec in Hd as (_ & _ & _ & _ & _ & Hp & _).
Qed.

(** The claimed total of accepted legs is their exact sum. *)
Lemma split_sum rc usdc claimed pl :
  is_u64 (amount_minor rc) -> checked_total 0 claimed = Some (as_i64 (amount_minor rc)) ->
  parse_legs usdc claimed = Some pl -> Forall positive pl -> sum_amounts pl = amount_minor rc.
Proof.
  intros Hu Ht Hp Hpos. rewrite (checked_total_legs 0 0 _ _ _ Hp) in Ht.
  fold (total_amount pl) in Ht.
  destruct (total_amount pl) as [t|] eqn:E; [|done]. injection Ht as ->.
  apply total_amount_spec in E as [E _]; [|done].
  apply as_i64_eq_nonneg; [done | now apply sum_amounts_nonneg | done].
Qed.

(** What a successful [charge_split] did, and the receipt it answers. *)
Lemma charge_split_ok r legs ref w rc w' :
  is_u32 (base_fee_stroops (cfg r)) -> charge_split r legs ref w = (Ok rc, w') ->
  exists seed iss pl pairs m0 w0 hash b64 sub w1 b now tx,
    is_blank ref = false /\ signer r = Some seed /\ from_strkey (usdc_issuer (cfg r)) = Ok iss /\
    parse_legs (usdc_of iss) pairs = Some pl /\
    pairs = map (fun l => (leg_destination l, leg_amount_minor l)) legs /\
    load_sequence (rpc r) (to_strkey (pubkey seed)) w = (Ok m0, w0) /\
    let m := split_memo_hash STELLAR_RAIL_ID (to_strkey (pubkey seed)) ref pairs in
    build_payment_transaction (pubkey seed) pl (m0 + 1) (base_fee_stroops (cfg r)) m = Ok tx /\
    tx_hash (network_id (passphrase (network (cfg r)))) tx = Ok hash /\
    envelope_encode (envelope tx (pubkey seed) (sign seed hash)) = Ok b64 /\
    submit_transaction (rpc r) b64 w0 = (Ok sub, w1) /\
    sr_successful sub = true /\ sr_hash sub = hex_encode hash /\
    b = {| s_chain := "stellar"; s_network_passphrase := passphrase (network (cfg r));
           s_tx_hash := hex_encode hash; s_source := to_strkey (pubkey seed);
           s_asset_code := "USDC"; s_asset_issuer := to_strkey iss; s_legs := pairs;
           s_seq_num := m0 + 1; s_fee := base_fee_stroops (cfg r) * Z.of_nat (length pl);
           s_memo_hash := hex_encode m; s_signature := hex_encode (sign seed hash) |} /\
    to_vec b = Ok (proof rc) /\ now_unix w1 = (now, w') /\
    rail_id rc = STELLAR_RAIL_ID /\ amount_minor rc = sum_amounts pl /\ sum_amounts pl <= i64_max /\
    currency rc = "USDC"%string /\ reference rc = ref.
Proof.
  intros Hbase. unfold charge_split. unfold_eff.
  destruct (is_blank ref) eqn:Ebl; [done|].
  destruct (signer r) as [seed|] eqn:Esg; [|done].
  destruct (from_strkey (usdc_issuer _)) as [iss|] eqn:Ei; [|done]. cbn [map_err].
  rewrite usdc_asset_ok. cbn [map_err].
  destruct (charge_legs 0 _ legs) as [[pl pairs]|] eqn:El; [|done]. cbn [fst snd].
  apply charge_legs_ok in El as [El Hpairs].
  destruct (next_sequence r _ w) as [[n|] w0] eqn:En; [|done].
  apply next_sequence_ok in En as (m0 & Hload & -> & Hn).
  destruct (total_fee _ _) as [f|] eqn:Ef; [|done]. cbn [map_err].
  apply total_fee_spec in Ef as (_ & -> & _); [|unfold is_u32 in Hbase; lia..].
  destruct (build_payment_transaction _ _ _ _ _) as [tx|] eqn:Eb; [|done]. cbn [map_err].
  destruct (sign_and_submit _ _ _ _ _) as [[[h sig]|] w1] eqn:Es; [|done].
  apply sign_and_submit_ok in Es as (hash & b64 & sub & Eh & -> & Ee & Esub & Eok & Ehs & ->).
  cbn [fst snd]. destruct (total_amount pl) as [t|] eqn:Et; [|done]. cbn [map_err].
  destruct (to_vec _) as [bytes|] eqn:Ev; [|done]. cbn [map_err].
  destruct (now_unix w1) as [now v] eqn:Enow. intros [= <- <-].
  apply build_payment_transaction_spec in Eb as Hb; [|done]. destruct Hb as (_ & Hpos & Hmax & _).
  apply total_amount_spec in Et as [-> _]; [|done].
  pose proof (sum_amounts_nonneg _ Hpos) as Hnn.
  exists seed, iss, pl, pairs, m0, w0, hash, b64, sub, w1. do 3 eexists. cbn.
  split_and!; try done. apply as_u64_small. unfold_ints. lia.
Qed.
End StellarRailLemmas.

(** ** Theorems *)

Section StellarRailTheorems.
Context `{StrKeyLaws} `{Ed25519Laws} `{Sha256Laws} `{XdrLaws} `{HexLaws}.
Context `{SerdeLaws StellarBinding} `{SerdeLaws StellarSplitBinding}.
Context {W : Type} `{Clock W}.

(** The trait's promises hold of every Stellar rail that [new] and
    [with_signer] build, with nothing assumed of Horizon. *)
#[export] Instance stellar_rail_laws (r : StellarRail W) : RailLaws (fun _ => True) (stellar_rail r).
Proof.
  split; cbn [id verify charge quote stellar_rail capabilities refund validate_destination].
  - intros rc w Hid. unfold stellar_verify, verify_offline.
    now rewrite (proj2 (String.eqb_neq _ _) Hid).
  - done.
  - intros q w rc w' _ Hc.
    apply stellar_charge_ok in Hc as (?&?&?&?&?&?&?&?&?&?&?&?&_&_&_&_&_&_&_&_&_&_&_&_&_&_&_&_&_&->&_&_&->&_).
    done.
  - intros q w e Hv. unfold stellar_charge. unfold_eff. now rewrite Hv.
  - intros q w e Hv. unfold stellar_quote. unfold_eff. now rewrite Hv.
  - intros d. apply stellar_verdict_honest.
  - apply stellar_blank_refused.
  - done.
Qed.

(** C8: what [verify] of the Stellar rail accepts. It answers [Ok(true)] exactly when the receipt's proof
    passes every offline check (rail, currency, network, issuer, memo bound to the receipt's
    reference, a genuine signature by the source over the rebuilt transaction's hash) and
    Horizon, asked once for that hash, reports a successful transaction whose envelope
    decodes to the single payment of the receipt's exact amount by that source to that
    destination in the configured USDC, with that memo, sequence number and fee. It answers
    an error exactly when those offline checks pass and Horizon itself fails. *)
Theorem stellar_verify_exact (r : StellarRail W) (rc : Receipt) (w w' : W)
    (Hu : is_u64 (amount_minor rc)) :
  (stellar_verify r rc w = (Ok true, w') <->
   exists c rec env usdc, offline_facts r rc c /\ amount_stroops (c_binding c) = amount_minor rc /\
     get_transaction (rpc r) (b_tx_hash (c_binding c)) w = (Ok (Some rec), w') /\
     successful rec = true /\ envelope_decode (envelope_xdr rec) = Ok env /\
     usdc_asset "USDC" (c_issuer c) = Ok usdc /\
     decode_payments env = Ok (paid (c_source c) (c_dest c) usdc (amount_minor rc)
       (b_seq_num (c_binding c)) (b_fee (c_binding c)) (c_memo c))) /\
  (forall e, stellar_verify r rc w = (Err e, w') <->
   exists c e', offline_facts r rc c /\
     get_transaction (rpc r) (b_tx_hash (c_binding c)) w = (Err e', w') /\ e = from_stellar e').
Proof.
  split; [|intros e].
  - rewrite stellar_verify_true. split.
    + intros (c & rec & F & Hg & Hm). apply record_matches_spec in Hm as (Hs & env & usdc & He & Ha & Hd).
      assert (amount_stroops (c_binding c) = amount_minor rc) as Eq.
      { apply as_i64_eq_nonneg; [done | apply paid_positive in Hd; lia | apply (of_amount _ _ _ F)]. }
      exists c, rec, env, usdc. rewrite <- Eq. auto 10.
    + intros (c & rec & env & usdc & F & Eq & Hg & Hs & He & Ha & Hd).
      exists c, rec. split; [done|]. split; [done|]. apply record_matches_spec. rewrite Eq. split; [done|]. now exists env, usdc.
  - unfold stellar_verify. destruct (verify_offline r rc) as [c|] eqn:E.
    + rewrite read_back_err. apply verify_offline_spec in E as F. split; [intros (e' & ? & ?); eauto|].
      intros (c' & e' & F' & ?). apply verify_offline_spec in F'.
      assert (c' = c) as -> by congruence. eauto.
    + split; [done|]. intros (c & e' & F & _). apply verify_offline_spec in F. congruence.
Qed.

(** C7: charge, then verify. When [charge] answers a receipt, all it did to the world is to read
    the account's sequence number, to submit one envelope and to read the clock, in that
    order. That envelope is the configured key's transaction at the next sequence number,
    signed, whose only operation pays the requested amount of the configured USDC to the
    requested destination under the memo bound to the reference, and Horizon called it
    successful under the hash computed locally; the receipt then verifies, on any rail with
    the same configuration, with or without a signer, in any world where Horizon answers for
    that hash with a successful record of that envelope. *)
Theorem stellar_charge_verify (r : StellarRail W) (q : PayRequest) (w : W) (rc : Receipt) (w' : W)
    (Hq : is_u64 (req_amount_minor q)) (Hc : stellar_charge r q w = (Ok rc, w')) :
  exists seed dst iss usdc seq w1 b64 hash sub w2,
    let src := pubkey seed in
    let m := memo_hash STELLAR_RAIL_ID (to_strkey src) (req_destination q) (req_reference q) in
    let tx := build_transaction src dst usdc (req_amount_minor q) (seq + 1) (base_fee_stroops (cfg r)) m in
    let env := envelope tx src (sign seed hash) in
    (load_sequence (rpc r) (to_strkey src) w = (Ok seq, w1) /\
     submit_transaction (rpc r) b64 w1 = (Ok sub, w2) /\
     now_unix w2 = (settled_at_unix rc, w')) /\
    (signer r = Some seed /\ from_strkey (req_destination q) = Ok dst /\
     from_strkey (usdc_issuer (cfg r)) = Ok iss /\ usdc_asset "USDC" iss = Ok usdc) /\
    (tx_hash (network_id (passphrase (network (cfg r)))) tx = Ok hash /\ envelope_decode b64 = Ok env /\
     decode_payments env = Ok (paid src dst usdc (req_amount_minor q) (seq + 1) (base_fee_stroops (cfg r)) m) /\
     sr_successful sub = true /\ sr_hash sub = hex_encode hash) /\
    forall (r' : StellarRail W) v v' rec, cfg r' = cfg r ->
      get_transaction (rpc r') (hex_encode hash) v = (Ok (Some rec), v') ->
      successful rec = true -> envelope_xdr rec = b64 ->
      stellar_verify r' rc v = (Ok true, v').
Proof.
  apply stellar_charge_ok in Hc as (seed & dst & iss & usdc & m0 & w0 & hash & b64 & sub & w1 & b & now &
    Hv & Hcur & Hsg & Hd & Hi & Hus & Ha & Hload & _ & Hh & He & Hsub & Hok & Hhs & -> & Ht & Hnow &
    Hri & Ham & Hrc & Href & ->).
  set (m := memo_hash _ _ _ _) in *. set (tx := build_transaction _ _ _ _ _ _ _) in *.
  apply validate_spec in Hv as (Hnz & _).
  assert (decode_payments (envelope tx (pubkey seed) (sign seed hash)) =
    Ok (paid (pubkey seed) dst usdc (req_amount_minor q) (m0 + 1) (base_fee_stroops (cfg r)) m)) as Hdec.
  { apply decode_payments_spec. cbn. split_and!; auto; try (unfold MAX_OPERATIONS; lia).
    repeat constructor. unfold positive. cbn. unfold_ints. lia. }
  pose proof (envelope_roundtrip _ _ He) as Hr.
  exists seed, dst, iss, usdc, m0, w0, b64, hash, sub, w1.
  do 3 (split; [done|]). intros r' v v' rec Hcfg Hg Hs Hx.
  pose proof (from_slice_to_vec _ _ Ht) as Hp.
  match type of Ht with to_vec ?b0 = _ => set (b := b0) in * end.
  assert (from_strkey (to_strkey (pubkey seed)) = Ok (pubkey seed)) as Hk.
  { unfold from_strkey, strkey_decode, to_strkey. rewrite strkey_roundtrip; [done | apply length_ed_pubkey]. }
  apply stellar_verify_true. exists {| c_binding := b; c_source := pubkey seed; c_dest := dst; c_issuer := iss; c_memo := m |}, rec.
  split; [|split; [exact Hg|]].
  - split; cbn; rewrite ?Hcfg; try done.
    + rewrite Ham. now rewrite as_i64_small.
    + now rewrite Href.
    + exists usdc, hash, (sign seed hash). split_and!; try done; try apply hex_decode_encode.
      * apply length_ed_sign.
      * unfold keypair_verify. rewrite ed_pubkey_valid. apply ed_verify_sign.
  - apply record_matches_spec. split; [done|]. rewrite Hx. cbn. eauto.
Qed.

(** What [verify_split] accepts. It answers [Ok(true)] exactly when the receipt's proof passes every
    offline check over all its legs and Horizon, asked once for the claimed hash, reports a
    successful transaction whose envelope decodes to exactly the claimed legs, in order, all
    in the configured USDC, with the claimed source, memo, sequence number and total fee;
    the receipt's amount is then the exact sum of the legs, although the code compares it
    through a wrapping cast. *)
Theorem stellar_verify_split_exact (r : StellarRail W) (rc : Receipt) (w w' : W)
    (Hu : is_u64 (amount_minor rc)) :
  verify_split r rc w = (Ok true, w') <->
  exists c rec env pl, split_facts r rc c /\
    parse_legs (usdc_of (sc_issuer c)) (s_legs (sc_binding c)) = Some pl /\
    sum_amounts pl = amount_minor rc /\
    get_transaction (rpc r) (s_tx_hash (sc_binding c)) w = (Ok (Some rec), w') /\
    successful rec = true /\ envelope_decode (envelope_xdr rec) = Ok env /\
    decode_payments env = Ok {| dp_source_pk := sc_source c; dp_seq_num := s_seq_num (sc_binding c);
      dp_fee := s_fee (sc_binding c); dp_memo := sc_memo c; dp_legs := pl |}.
Proof.
  rewrite verify_split_true. split.
  - intros (c & rec & F & Hg & Hm). apply split_record_matches_spec in Hm as (Hs & env & pl & He & Hp & Hd).
    exists c, rec, env, pl. split_and!; try done. apply decoded_positive in Hd as Hpos.
    exact (split_sum rc _ _ pl Hu (sf_total _ _ _ F) Hp Hpos).
  - intros (c & rec & env & pl & F & Hp & _ & Hg & Hs & He & Hd).
    exists c, rec. split_and!; try done. apply split_record_matches_spec.
    split; [done|]. now exists env, pl.
Qed.

(** An atomic split, then its verification. When [charge_split] answers a receipt, it has read the
    sequence number, submitted one envelope and read the clock; that envelope's operations are exactly the requested legs in order, and the receipt's
    amount is their exact sum; it then verifies, on any rail with the same configuration,
    wherever Horizon answers for its hash with a successful record of that envelope. *)
Theorem stellar_charge_split_verify (r : StellarRail W) (legs : list SplitLeg) (ref : str)
    (w : W) (rc : Receipt) (w' : W)
    (Hbase : is_u32 (base_fee_stroops (cfg r))) (Hc : charge_split r legs ref w = (Ok rc, w')) :
  exists src seq b64 h sub w0 w1 env d,
    load_sequence (rpc r) (to_strkey src) w = (Ok seq, w0) /\
    submit_transaction (rpc r) b64 w0 = (Ok sub, w1) /\ snd (now_unix w1) = w' /\
    sr_successful sub = true /\ sr_hash sub = h /\
    envelope_decode b64 = Ok env /\ decode_payments env = Ok d /\
    map (fun l => Some (amount l, dest_pk l)) (dp_legs d) =
      map (fun l => (fun k => (leg_amount_minor l, k)) <$> strkey_decode (leg_destination l)) legs /\
    sum_amounts (dp_legs d) = amount_minor rc /\
    forall (r' : StellarRail W) v v' rec, cfg r' = cfg r ->
      get_transaction (rpc r') h v = (Ok (Some rec), v') ->
      successful rec = true -> envelope_xdr rec = b64 ->
      verify_split r' rc v = (Ok true, v').
Proof.
  apply charge_split_ok in Hc as (seed & iss & pl & pairs & m0 & w0 & hash & b64 & sub & w1 & b & now & tx &
    _ & Hsg & Hi & Hp & Hpairs & Hload & Hb & Hh & He & Hsub & Hok & Hhs & -> & Ht & Hnow &
    Hri & Ham & Hmax & Hrc & Href); [|done].
  set (m := split_memo_hash _ _ _ _) in *.
  apply build_payment_transaction_spec in Hb as Hb'; [|done].
  destruct Hb' as (Hcount & Hpos & _ & _ & Htx).
  set (d := {| dp_source_pk := pubkey seed; dp_seq_num := m0 + 1;
    dp_fee := base_fee_stroops (cfg r) * Z.of_nat (length pl); dp_memo := m; dp_legs := pl |}).
  assert (decode_payments (envelope tx (pubkey seed) (sign seed hash)) = Ok d) as Hdec.
  { apply decode_payments_spec. rewrite Htx. cbn. split_and!; auto; lia. }
  pose proof (envelope_roundtrip _ _ He) as Hr.
  exists (pubkey seed), m0, b64, (hex_encode hash), sub, w0, w1, (envelope tx (pubkey seed) (sign seed hash)), d.
  split; [done|]. split; [done|]. split; [now rewrite Hnow|]. do 4 (split; [done|]). split; [|split; [done|]].
  { cbn [dp_legs d]. clear -Hp Hpairs. subst pairs. revert pl Hp.
    induction legs as [|l legs IH]; intros pl; cbn [map parse_legs]; [now intros [= <-]|].
    unfold from_strkey. destruct (strkey_decode (leg_destination l)) as [k|]; [|done]. cbn [ok_or].
    destruct (parse_legs _ _) as [pl'|]; [|done]. intros [= <-]. cbn. f_equal. now apply IH. }
  intros r' v v' rec Hcfg Hg Hs Hx.
  pose proof (from_slice_to_vec _ _ Ht) as Hfs.
  match type of Ht with to_vec ?b0 = _ => set (b := b0) in * end.
  assert (from_strkey (to_strkey (pubkey seed)) = Ok (pubkey seed)) as Hk.
  { unfold from_strkey, strkey_decode, to_strkey. rewrite strkey_roundtrip; [done | apply length_ed_pubkey]. }
  pose proof (sum_amounts_nonneg _ Hpos) as Hnn.
  apply verify_split_true.
  exists {| sc_binding := b; sc_source := pubkey seed; sc_issuer := iss; sc_memo := m |}, rec.
  split; [|split; [exact Hg|]].
  - split; cbn; rewrite ?Hcfg; try done.
    + rewrite (checked_total_legs 0 0 _ _ _ Hp). fold (total_amount pl).
      rewrite (proj2 (total_amount_spec pl _ Hpos) (conj eq_refl Hmax)), Ham, as_i64_small; [done|].
      unfold_ints. lia.
    + now rewrite Href.
    + exists pl, tx, hash, (sign seed hash).
      rewrite Z.div_mul by lia. split_and!; try done; try apply hex_decode_encode.
      * apply length_ed_sign.
      * unfold keypair_verify. rewrite ed_pubkey_valid. apply ed_verify_sign.
  - apply split_record_matches_spec. split; [done|]. rewrite Hx. cbn.
    exists (envelope tx (pubkey seed) (sign seed hash)), pl. done.
Qed.

(** A receipt accepted by [verify] or [verify_split] of some rail, the
    transaction hash it was accepted for, and what its memo binds. *)
Inductive accepted : Receipt -> list byte -> Binding -> Prop :=
  | accepted_pay (r : StellarRail W) rc b h w w' :
      stellar_verify r rc w = (Ok true, w') -> from_slice (proof rc) = Some b ->
      hex_decode (b_tx_hash b) = Some h ->
      accepted rc h (BPay STELLAR_RAIL_ID (source b) (destination b) (reference rc))
  | accepted_split (r : StellarRail W) rc b h w w' :
      verify_split r rc w = (Ok true, w') -> from_slice (proof rc) = Some b ->
      hex_decode (s_tx_hash b) = Some h ->
      accepted rc h (BSplit STELLAR_RAIL_ID (s_source b) (reference rc) (s_legs b)).

(** The bytes that were hashed and signed for a receipt: the payload of the
    transaction its own proof describes. *)
Definition pay_payload (b : StellarBinding) : option (list byte) :=
  src ← result_ok (from_strkey (source b));
  dst ← result_ok (from_strkey (destination b));
  iss ← result_ok (from_strkey (asset_issuer b));
  m ← hex_decode (b_memo_hash b);
  result_ok (payload_to_xdr (network_id (network_passphrase b))
    (build_transaction src dst (usdc_of iss) (amount_stroops b) (b_seq_num b) (b_fee b) m)).
Definition split_payload (b : StellarSplitBinding) : option (list byte) :=
  src ← result_ok (from_strkey (s_source b));
  iss ← result_ok (from_strkey (s_asset_issuer b));
  pl ← parse_legs (usdc_of iss) (s_legs b);
  m ← hex_decode (s_memo_hash b);
  tx ← result_ok (build_payment_transaction src pl (s_seq_num b) (s_fee b / Z.of_nat (length pl)) m);
  result_ok (payload_to_xdr (network_id (s_network_passphrase b)) tx).
Definition signed_payload (rc : Receipt) (B : Binding) : option (list byte) :=
  match B with
  | BPay _ _ _ _ => from_slice (proof rc) ≫= pay_payload
  | BSplit _ _ _ _ => from_slice (proof rc) ≫= split_payload
  | _ => None
  end.

(** Whatever was accepted was the hash of that payload, of a transaction carrying
    that memo and exactly those positive payments. *)
Lemma issuer_read s iss : from_strkey s = Ok iss -> from_strkey (to_strkey iss) = Ok iss.
Proof.
  unfold from_strkey, strkey_decode, to_strkey. destruct (strkey_parse s) as [[]|] eqn:E; intros [= <-].
  rewrite strkey_roundtrip; [done | exact (length_strkey_payload _ _ E)].
Qed.
Lemma accepted_tx rc h B : is_u64 (amount_minor rc) -> accepted rc h B ->
  exists n tx p pl, signed_payload rc B = Some p /\ payload_to_xdr n tx = Ok p /\ sha256 p = h /\
    memo tx = MemoHash (binding_hash B) /\ operations tx = map payment_op pl /\ sum_amounts pl = amount_minor rc.
Proof.
  intros Hu Ha. revert Hu.
  destruct Ha as [r rc' b h' w w' Hv Hb Hh|r rc' b h' w w' Hv Hb Hh]; intros Hu.
  - apply stellar_verify_true in Hv as (c & rec & F & _ & Hm).
    apply record_matches_spec in Hm as (_ & env & usdc & _ & Hus & Hd). apply paid_positive in Hd.
    pose proof (of_proof _ _ _ F) as Hp. assert (c_binding c = b) as Ec by congruence.
    pose proof (of_memo _ _ _ F) as Em. pose proof (of_amount _ _ _ F) as Ea.
    destruct (of_signed _ _ _ F) as (usdc' & h0 & sig & Hu' & Ht & Hx & _). rewrite usdc_asset_ok in Hu'. injection Hu' as <-.
    destruct (of_asset _ _ _ F) as [_ Eis].
    pose proof (of_source _ _ _ F) as Es. pose proof (of_dest _ _ _ F) as Ed. pose proof (of_memo_hex _ _ _ F) as Eh.
    pose proof (of_network _ _ _ F) as En. pose proof (issuer_read _ _ (of_issuer _ _ _ F)) as Ei.
    rewrite Ec in *. assert (h0 = h') as -> by congruence. rewrite <- En in Ht.
    unfold tx_hash, signing_payload, mbind, result_bind in Ht.
    destruct (payload_to_xdr _ _) as [p|] eqn:Ep; [|done]. injection Ht as <-.
    do 2 eexists. exists p. eexists [_]. split; [|split; [exact Ep|]].
    { cbn [signed_payload]. rewrite Hb. cbn. unfold pay_payload. rewrite Es, Ed, Eis, Ei, Eh, hex_decode_encode. cbn. now rewrite Ep. }
    split; [done|]. cbn. split; [f_equal; exact Em|]. split; [done|].
    apply as_i64_eq_nonneg in Ea; [|done | lia]. cbn. rewrite Ea. apply Z.add_0_r.
  - apply verify_split_true in Hv as (c & rec & F & _ & Hm).
    apply split_record_matches_spec in Hm as (_ & env & pl & _ & Hl & Hd). apply decoded_positive in Hd as Hpos.
    pose proof (split_sum rc' _ _ pl Hu (sf_total _ _ _ F) Hl Hpos) as Hsum.
    pose proof (sf_proof _ _ _ F) as Hp. assert (sc_binding c = b) as Ec by congruence.
    destruct (sf_signed _ _ _ F) as (pl' & tx & h0 & sig & Hl' & Hbt & Ht & Hx & _).
    destruct (sf_asset _ _ _ F) as [_ Eis]. pose proof (sf_memo _ _ _ F) as Em.
    pose proof (sf_source _ _ _ F) as Es. pose proof (sf_memo_hex _ _ _ F) as Eh.
    pose proof (sf_network _ _ _ F) as En. pose proof (issuer_read _ _ (sf_issuer _ _ _ F)) as Ei.
    rewrite Ec in *. assert (h0 = h') as -> by congruence. assert (pl' = pl) as -> by congruence.
    apply build_payment_shape in Hbt as Hshape. destruct Hshape as (_ & Hmemo & Hops). rewrite <- En in Ht.
    unfold tx_hash, signing_payload, mbind, result_bind in Ht.
    destruct (payload_to_xdr _ _) as [p|] eqn:Ep; [|done]. injection Ht as <-.
    exists (network_id (s_network_passphrase b)), tx, p, pl. split; [|split; [exact Ep|]].
    { cbn [signed_payload]. rewrite Hb. cbn. unfold split_payload. rewrite Es, Eis, Ei. cbn. rewrite Hl. cbn.
      rewrite Eh, hex_decode_encode. cbn. rewrite Hbt. cbn. now rewrite Ep. }
    split_and!; try done. rewrite Hmemo. f_equal. exact Em.
Qed.

(** C3: a transaction pays for one thing. If two receipts, of [charge] or [charge_split], are ever
    accepted for the same transaction hash — by any rails, in any worlds — then that hash is
    the SHA-256 of the payload each one's own proof describes, and they bind the same
    source, reference and payees (one payment, or the same legs in the same order) and
    claim the same amount; but for a collision of exactly those two payloads, or of the
    preimages of exactly those two memos. A settled payment cannot be presented again for
    another order. *)
Theorem stellar_transaction_pays_once (rc rc' : Receipt) (h : list byte) (B B' : Binding)
    (Hu : is_u64 (amount_minor rc)) (Hu' : is_u64 (amount_minor rc'))
    (T : binding_typed B) (T' : binding_typed B')
    (Ha : accepted rc h B) (Ha' : accepted rc' h B') :
  exists p p', signed_payload rc B = Some p /\ signed_payload rc' B' = Some p' /\ sha256 p = h /\ sha256 p' = h /\
    ((B = B' /\ amount_minor rc = amount_minor rc') \/
     sha256_collision p p' \/ sha256_collision (preimage B) (preimage B')).
Proof.
  apply accepted_tx in Ha as (n & tx & p & pl & Hs & Hp & Hh & Hm & Ho & Hsum); [|done].
  apply accepted_tx in Ha' as (n' & tx' & p' & pl' & Hs' & Hp' & Hh' & Hm' & Ho' & Hsum'); [|done].
  exists p, p'. do 4 (split; [assumption|]).
  destruct (decide (p = p')) as [->|Hne]; [|right; left; split; [done | congruence]].
  destruct (payload_inj _ _ _ _ _ Hp Hp') as [_ ->].
  rewrite Hm in Hm'. injection Hm' as Hm'.
  destruct (binding_hash_inj B B' T T' Hm') as [->|]; [|now right; right].
  left. split; [done|]. rewrite Ho in Ho'. apply payment_ops_inj in Ho' as ->. congruence.
Qed.
End StellarRailTheorems.

(** ** A Horizon for the witnesses

    It keeps the envelopes it was given under the hash of their transaction and
    calls all of them successful; the world is that ledger and a clock. *)

#[export] Instance StellarBinding_codec : Codec StellarBinding.
Proof.
  codec_as
    (fun b => ([chain b; network_passphrase b; b_tx_hash b; source b; destination b; b_asset_code b;
                asset_issuer b; b_memo_hash b; b_signature b], (amount_stroops b, b_seq_num b, b_fee b)))
    (fun p => let s i := nth i p.1 EmptyString in
       {| chain := s 0%nat; network_passphrase := s 1%nat; b_tx_hash := s 2%nat; source := s 3%nat;
          destination := s 4%nat; b_asset_code := s 5%nat; asset_issuer := s 6%nat;
          amount_stroops := p.2.1.1; b_seq_num := p.2.1.2; b_fee := p.2.2;
          b_memo_hash := s 7%nat; b_signature := s 8%nat |}).
Defined.
#[export] Instance StellarSplitBinding_codec : Codec StellarSplitBinding.
Proof.
  codec_as
    (fun b => ([s_chain b; s_network_passphrase b; s_tx_hash b; s_source b; s_asset_code b;
                s_asset_issuer b; s_memo_hash b; s_signature b], (s_legs b, s_seq_num b, s_fee b)))
    (fun p => let s i := nth i p.1 EmptyString in
       {| s_chain := s 0%nat; s_network_passphrase := s 1%nat; s_tx_hash := s 2%nat; s_source := s 3%nat;
          s_asset_code := s 4%nat; s_asset_issuer := s 5%nat;
          s_legs := p.2.1.1; s_seq_num := p.2.1.2; s_fee := p.2.2;
          s_memo_hash := s 6%nat; s_signature := s 7%nat |}).
Defined.

#[local] Existing Instances ref_strkey ref_ed25519 ref_sha256 ref_xdr ref_hex.
#[local] Instance pay_serde : Serde StellarBinding := ref_serde.
#[local] Instance split_serde : Serde StellarSplitBinding := ref_serde.
#[local] Instance pay_serde_laws : SerdeLaws StellarBinding := ref_serde_laws.
#[local] Instance split_serde_laws : SerdeLaws StellarSplitBinding := ref_serde_laws.
#[local] Existing Instances ref_strkey_laws ref_ed25519_laws ref_sha256_laws ref_xdr_laws ref_hex_laws.

Abbreviation DemoWorld := (list (str * str) * Z)%type.
#[local] Instance demo_clock : Clock DemoWorld := fun w => (w.2, (w.1, w.2 + 1)).
Definition demo_hash (b64 : str) : str :=
  match envelope_decode b64 with
  | Ok (EnvTx tx _) =>
      match tx_hash (network_id (passphrase Testnet)) tx with Ok h => hex_encode h | Err _ => EmptyString end
  | _ => EmptyString
  end.
Definition demo_horizon : StellarRpc DemoWorld := {|
  load_sequence _ w := (Ok 41, w);
  load_account_holdings _ w := (Ok None, w);
  submit_transaction b64 w :=
    (Ok {| sr_hash := demo_hash b64; sr_ledger := 7; sr_successful := true |},
     ((demo_hash b64, b64) :: w.1, w.2));
  get_transaction h w :=
    (Ok ((fun p => {| successful := true; ledger := 7; envelope_xdr := p.2 |})
           <$> find (fun p => String.eqb p.1 h) w.1), w);
|}.
Definition demo_strkey (b : byte) : str := strkey_encode (repeat b 32).
Definition demo_rail : StellarRail DemoWorld :=
  with_signer (repeat x05 32) (stellar_new (config_testnet (demo_strkey x09)) demo_horizon).
Definition demo_request : PayRequest := {| req_amount_minor := 25_000_000; req_currency := "USDC";
  req_destination := demo_strkey x02; req_reference := "order-42" |}.
Definition demo_charged : Result Error Receipt * DemoWorld := stellar_charge demo_rail demo_request ([], 0).
Definition demo_splits : list SplitLeg :=
  [{| leg_destination := demo_strkey x02; leg_amount_minor := 700 |};
   {| leg_destination := demo_strkey x03; leg_amount_minor := 300 |}].
Definition demo_split : Result Error Receipt * DemoWorld := charge_split demo_rail demo_splits "order-43" ([], 0).

Definition no_receipt : Receipt := {| rail_id := ""; amount_minor := 0; currency := ""; reference := "";
  proof := []; settled_at_unix := 0 |}.
Definition receipt_of (r : Result Error Receipt * DemoWorld) : Receipt := default no_receipt (result_ok r.1).
Lemma demo_ok :
  stellar_charge demo_rail demo_request ([], 0) = (Ok (receipt_of demo_charged), demo_charged.2).
Proof. vm_compute. reflexivity. Qed.
Lemma demo_split_ok :
  charge_split demo_rail demo_splits "order-43" ([], 0) = (Ok (receipt_of demo_split), demo_split.2).
Proof. vm_compute. reflexivity. Qed.
Lemma demo_verifies :
  stellar_verify demo_rail (receipt_of demo_charged) demo_charged.2 = (Ok true, demo_charged.2).
Proof. vm_compute. reflexivity. Qed.
Lemma demo_split_verifies :
  verify_split demo_rail (receipt_of demo_split) demo_split.2 = (Ok true, demo_split.2).
Proof. vm_compute. reflexivity. Qed.
Lemma demo_typed : is_u64 (amount_minor (receipt_of demo_charged)).
Proof. vm_compute. split; discriminate. Qed.
Lemma demo_split_typed : is_u64 (amount_minor (receipt_of demo_split)).
Proof. vm_compute. split; discriminate. Qed.

Lemma stellar_verify_exact_witness :
  exists c, offline_facts demo_rail (receipt_of demo_charged) c /\
    amount_stroops (c_binding c) = amount_minor (receipt_of demo_charged).
Proof.
  destruct (stellar_verify_exact demo_rail (receipt_of demo_charged) demo_charged.2 demo_charged.2 demo_typed)
    as [[Hv _] _].
  destruct (Hv demo_verifies) as (c & rec & env & usdc & F & Ha & _). exists c. split; [exact F | exact Ha].
Defined.

(** Another observer, whose Horizon shows one record for every hash. *)
Definition observer (rec : TxRecord) : StellarRail DemoWorld := stellar_new (cfg demo_rail) {|
  load_sequence _ w := (Ok 0, w); load_account_holdings _ w := (Ok None, w);
  submit_transaction _ w := (Err (Rpc "read only"), w); get_transaction _ w := (Ok (Some rec), w) |}.
Lemma demo_loads s v : snd (load_sequence (rpc demo_rail) s v) = v.
Proof. reflexivity. Qed.
Lemma demo_submits b v : snd (submit_transaction (rpc demo_rail) b v) = ((demo_hash b, b) :: v.1, v.2).
Proof. reflexivity. Qed.
(** The charge put one envelope in the ledger, the one its receipt verifies by. *)
Lemma stellar_charge_verify_witness :
  exists h b64 rec, demo_charged.2.1 = [(h, b64)] /\ envelope_xdr rec = b64 /\
    stellar_verify (observer rec) (receipt_of demo_charged) ([], 9) = (Ok true, ([], 9)).
Proof.
  destruct (stellar_charge_verify demo_rail demo_request ([], 0) (receipt_of demo_charged) demo_charged.2)
    as (seed & dst & iss & usdc & seq & w1 & b64 & hash & sub & w2 & (Hl & Hs & Hn) & _ & _ & Hv);
    [vm_compute; split; discriminate | exact demo_ok |].
  assert (demo_charged.2.1 = [(demo_hash b64, b64)]) as Hled.
  { change (demo_charged.2) with (snd (settled_at_unix (receipt_of demo_charged), demo_charged.2)). rewrite <- Hn.
    apply (f_equal snd) in Hs. rewrite demo_submits in Hs. cbn [snd] in Hs.
    rewrite <- Hs. apply (f_equal snd) in Hl. rewrite demo_loads in Hl. cbn [snd] in Hl. rewrite <- Hl. reflexivity. }
  exists (demo_hash b64), b64, {| successful := true; ledger := 7; envelope_xdr := b64 |}.
  split; [exact Hled|]. split; [reflexivity|]. eapply Hv; reflexivity.
Defined.
Lemma stellar_verify_split_exact_witness :
  exists c pl, split_facts demo_rail (receipt_of demo_split) c /\
    sum_amounts pl = amount_minor (receipt_of demo_split).
Proof.
  destruct (stellar_verify_split_exact demo_rail (receipt_of demo_split) demo_split.2 demo_split.2 demo_split_typed)
    as [Hv _].
  destruct (Hv demo_split_verifies) as (c & rec & env & pl & F & _ & Hs & _).
  exists c, pl. split; [exact F | exact Hs].
Defined.
Lemma stellar_charge_split_verify_witness :
  exists rec, verify_split (observer rec) (receipt_of demo_split) ([], 9) = (Ok true, ([], 9)).
Proof.
  destruct (stellar_charge_split_verify demo_rail demo_splits "order-43" ([], 0) (receipt_of demo_split) demo_split.2)
    as (src & seq & b64 & h & sub & w0 & w1 & env & d & _ & _ & _ & _ & _ & _ & _ & _ & _ & Hv);
    [vm_compute; split; discriminate | exact demo_split_ok |].
  exists {| successful := true; ledger := 7; envelope_xdr := b64 |}.
  eapply Hv; reflexivity.
Defined.

Definition demo_binding : StellarBinding :=
  default {| chain := ""; network_passphrase := ""; b_tx_hash := ""; source := ""; destination := "";
    b_asset_code := ""; asset_issuer := ""; amount_stroops := 0; b_seq_num := 0; b_fee := 0;
    b_memo_hash := ""; b_signature := "" |} (from_slice (proof (receipt_of demo_charged))).
Definition demo_bound : Binding :=
  BPay STELLAR_RAIL_ID (source demo_binding) (destination demo_binding) (reference (receipt_of demo_charged)).
Definition demo_tx_hash : list byte := default [] (hex_decode (b_tx_hash demo_binding)).
Lemma demo_accepted : accepted (W := DemoWorld) (receipt_of demo_charged) demo_tx_hash demo_bound.
Proof.
  apply (accepted_pay demo_rail _ demo_binding _ demo_charged.2 demo_charged.2);
    [exact demo_verifies | vm_compute; reflexivity | vm_compute; reflexivity].
Qed.
Lemma demo_binding_typed : binding_typed demo_bound.
Proof. cbn. repeat constructor; vm_compute; discriminate. Qed.
Lemma stellar_transaction_pays_once_witness :
  exists p p', signed_payload (receipt_of demo_charged) demo_bound = Some p /\
    signed_payload (receipt_of demo_charged) demo_bound = Some p' /\ sha256 p = demo_tx_hash /\ sha256 p' = demo_tx_hash /\
    ((demo_bound = demo_bound /\ amount_minor (receipt_of demo_charged) = amount_minor (receipt_of demo_charged)) \/
     sha256_collision p p' \/ sha256_collision (preimage demo_bound) (preimage demo_bound)).
Proof.
  exact (stellar_transaction_pays_once (W := DemoWorld) _ _ demo_tx_hash demo_bound demo_bound demo_typed demo_typed
    demo_binding_typed demo_binding_typed demo_accepted demo_accepted).
Defined.
