(* ===== verification/RpcHttp.v ===== *)
(** * HTTP with JSON answers, as the chain clients see it

    The seam below [patala-stellar/src/rpc.rs] and [patala-solana/src/rpc.rs]: a
    request, and a reply of which the code looks at the status and at what
    [Response::json] makes of the body, never at the bytes. *)

From S2P Require Import Prelude RustStr Json Adapter.

(** ** The seam *)

Record RpcReply := { status : Z; json : Result str Json }.
(** [send().await]; its error is a text. *)
Definition RpcHttp (W : Type) : Type := HttpCall -> Eff W str RpcReply.
(** [Display] of a status code and of a JSON value. *)
Class HttpText := { status_display : Z -> str; json_display : Json -> str }.

(** [v.as_u64()]. *)
Definition json_as_u64 (j : Json) : option Z :=
  match j with JNumber t => if str_all is_ascii_digit t then parse_u64 t else None | _ => None end.
Definition get_u64 (k : str) (j : Json) : option Z := get_field k j ≫= json_as_u64.
Definition get_bool (k : str) (j : Json) : option bool := get_field k j ≫= as_bool.
Definition as_u32 (n : Z) : Z := n mod 2 ^ 32.

Definition get_request (url : str) : HttpCall := {|
  hc_method := "GET"; hc_url := url; hc_basic_auth := None; hc_headers := []; hc_body := NoBody |}.
Definition post_form (url : str) (fields : list (str * str)) : HttpCall := {|
  hc_method := "POST"; hc_url := url; hc_basic_auth := None; hc_headers := []; hc_body := FormBody fields |}.
Definition post_json (url : str) (body : Json) : HttpCall := {|
  hc_method := "POST"; hc_url := url; hc_basic_auth := None; hc_headers := []; hc_body := JsonBody body |}.

(** ** Lemmas *)

Lemma mapM_Ok {E A B} (f : A -> Result E B) l k : mapM f l = Ok k <-> Forall2 (fun a b => f a = Ok b) l k.
Proof.
  revert k. induction l as [|a l IH]; intros k; cbn.
  - split; [intros [= <-]; constructor | now inversion 1].
  - rewrite result_bind_Ok. split.
    + intros (b & Hb & Hr). apply result_bind_Ok in Hr as (bs & Hbs & E'). injection E' as <-.
      constructor; [done | now apply IH].
    + inversion 1 as [|? b ? bs Hb Hbs]; subst. exists b. split; [done|].
      apply IH in Hbs. rewrite Hbs. done.
Qed.
Lemma as_u32_range n : 0 <= as_u32 n <= u32_max.
Proof. unfold as_u32, u32_max. pose proof (Z.mod_pos_bound n (2 ^ 32)). lia. Qed.

Section Replies.
Context {W : Type} (http : RpcHttp W).
(** A reply with a success status whose body is this JSON. *)
Definition replied (call : HttpCall) (w : W) (v : Json) (w' : W) : Prop :=
  exists reply, http call w = (Ok reply, w') /\ is_2xx (status reply) = true /\ json reply = Ok v.
Definition not_found (call : HttpCall) (w w' : W) : Prop :=
  exists reply, http call w = (Ok reply, w') /\ status reply = 404.
Lemma replied_fun call w v w1 v' w2 : replied call w v w1 -> replied call w v' w2 -> v' = v /\ w2 = w1.
Proof. intros (r & H1 & _ & J1) (r' & H2 & _ & J2). rewrite H1 in H2. injection H2 as <- <-. split; congruence. Qed.
End Replies.
