(* ===== verification/Horizon.v ===== *)
(** * The Horizon client ([patala-stellar/src/rpc.rs])

    [HorizonRpc], the one implementation of the [StellarRpc] seam that opens a
    socket: what it asks, and how it reduces Horizon's JSON to the seam's types. *)

From S2P Require Import Prelude RustStr Core External Currency Json Adapter RpcHttp StellarTx StellarDest StellarAmount StellarRail.

Record HorizonRpc (W : Type) := { hz_base_url : str; hz_http : RpcHttp W }.
Arguments hz_base_url {W} _.
Arguments hz_http {W} _.
(** [while base_url.ends_with('/') { base_url.pop(); }] *)
Definition horizon_new {W} (base_url : str) (http : RpcHttp W) : HorizonRpc W :=
  {| hz_base_url := trim_end_slashes base_url; hz_http := http |}.
Definition accounts_url {W} (h : HorizonRpc W) (account : str) : str := hz_base_url h +:+ "/accounts/" +:+ account.
Definition transaction_url {W} (h : HorizonRpc W) (hash : str) : str := hz_base_url h +:+ "/transactions/" +:+ hash.
Definition submit_url {W} (h : HorizonRpc W) : str := hz_base_url h +:+ "/transactions".

Definition GET_ACCOUNTS : str := "GET /accounts".
Definition POST_TRANSACTIONS : str := "POST /transactions".
Definition GET_TRANSACTION : str := "GET /transactions/{hash}".

(** ** Reading what Horizon answers *)

Definition no_field (what field : str) : StellarError := Rpc (what +:+ ": no " +:+ field).
(** One entry of [balances]. *)
Definition holding_of (b : Json) : Result StellarError AssetHolding :=
  let native := String.eqb (default EmptyString (get_str "asset_type" b)) "native" in
  balance ← ok_or (Rpc "GET /accounts: balance not a string") (get_str "balance" b);
  balance ← parse_stroops balance;
  limit ← (if native then Ok i64_max
           else match get_str "limit" b with Some l => parse_stroops l | None => Ok i64_max end);
  Ok {|
    is_native := native;
    ah_asset_code := default EmptyString (get_str "asset_code" b);
    ah_asset_issuer := default EmptyString (get_str "asset_issuer" b);
    balance_stroops := balance;
    limit_stroops := limit;
    is_authorized := native || default false (get_bool "is_authorized" b);
  |}.
Definition submit_result_of (v : Json) : Result StellarError SubmitResult :=
  hash ← ok_or (no_field POST_TRANSACTIONS "hash") (get_str "hash" v);
  ledger ← ok_or (no_field POST_TRANSACTIONS "ledger") (get_u64 "ledger" v);
  Ok {| sr_hash := hash; sr_ledger := as_u32 ledger; sr_successful := default true (get_bool "successful" v) |}.
Definition tx_record_of (v : Json) : Result StellarError TxRecord :=
  ok ← ok_or (no_field GET_TRANSACTION "successful") (get_bool "successful" v);
  at_ledger ← ok_or (no_field GET_TRANSACTION "ledger") (get_u64 "ledger" v);
  xdr ← ok_or (no_field GET_TRANSACTION "envelope_xdr") (get_str "envelope_xdr" v);
  Ok {| successful := ok; ledger := as_u32 at_ledger; envelope_xdr := xdr |}.

(** ** The four calls *)

Section HorizonRpc.
Context `{HttpText} {W : Type}.

Definition http_send (what : str) (h : HorizonRpc W) (call : HttpCall) : Eff W StellarError RpcReply :=
  eff_map_err (fun e => Rpc (what +:+ ": " +:+ e)) (hz_http h call).
Definition reply_json (what : str) (reply : RpcReply) : Result StellarError Json :=
  map_err (fun e => Rpc (what +:+ ": bad JSON: " +:+ e)) (json reply).
Definition http_status (what : str) (reply : RpcReply) : StellarError :=
  Rpc (what +:+ ": HTTP " +:+ status_display (status reply)).

Definition horizon_load_sequence (h : HorizonRpc W) (account : str) : Eff W StellarError Z :=
  resp ← http_send GET_ACCOUNTS h (get_request (accounts_url h account));
  return_if negb (is_2xx (status resp)) with_ eff_err (http_status GET_ACCOUNTS resp);
  v ← eff_of (reply_json GET_ACCOUNTS resp);
  eff_of (ok_or (no_field GET_ACCOUNTS "sequence") (get_str "sequence" v ≫= parse_i64)).

Definition horizon_load_account_holdings (h : HorizonRpc W) (account : str)
    : Eff W StellarError (option (list AssetHolding)) :=
  resp ← http_send GET_ACCOUNTS h (get_request (accounts_url h account));
  return_if status resp =? 404 with_ mret None;
  return_if negb (is_2xx (status resp)) with_ eff_err (http_status GET_ACCOUNTS resp);
  v ← eff_of (reply_json GET_ACCOUNTS resp);
  balances ← eff_of (ok_or (Rpc "GET /accounts: no balances array") (get_field "balances" v ≫= as_array));
  out ← eff_of (mapM holding_of balances);
  mret (Some out).

(** The body is read whatever the status, which is part of the error's text. *)
Definition horizon_submit_transaction (h : HorizonRpc W) (envelope_xdr_b64 : str) : Eff W StellarError SubmitResult :=
  resp ← http_send POST_TRANSACTIONS h (post_form (submit_url h) [("tx"%string, envelope_xdr_b64)]);
  v ← eff_of (reply_json POST_TRANSACTIONS resp);
  return_if negb (is_2xx (status resp)) with_
    eff_err (Rpc ("POST /transactions: HTTP " +:+ status_display (status resp) +:+ ": " +:+ json_display v));
  eff_of (submit_result_of v).

Definition horizon_get_transaction (h : HorizonRpc W) (hash : str) : Eff W StellarError (option TxRecord) :=
  resp ← http_send GET_TRANSACTION h (get_request (transaction_url h hash));
  return_if status resp =? 404 with_ mret None;
  return_if negb (is_2xx (status resp)) with_ eff_err (http_status GET_TRANSACTION resp);
  v ← eff_of (reply_json GET_TRANSACTION resp);
  rec ← eff_of (tx_record_of v);
  mret (Some rec).

Definition horizon_rpc (h : HorizonRpc W) : StellarRpc W := {|
  load_sequence := horizon_load_sequence h;
  load_account_holdings := horizon_load_account_holdings h;
  submit_transaction := horizon_submit_transaction h;
  get_transaction := horizon_get_transaction h;
|}.
End HorizonRpc.

(** ** Lemmas *)

Lemma parse_stroops_range s n : parse_stroops s = Ok n -> 0 <= n <= i64_max.
Proof.
  intros Hp. destruct (match split_once "." s with Some (w, f) => (w, f) | None => (s, EmptyString) end) as [w f] eqn:E.
  destruct (proj1 (parse_stroops_parts s w f n E) Hp) as (_ & Hw & Hf & _ & -> & Hm). split; [|done]. unfold stroops.
  pose proof (dec_value_nonneg w Hw). pose proof (dec_value_nonneg f Hf).
  pose proof (Z.pow_nonneg 10 (7 - len f) ltac:(lia)). nia.
Qed.
(** The loop of [new] removes every slash at the end and nothing else. *)
Lemma trim_end_slashes_spec s :
  (exists n, s = trim_end_slashes s +:+ str_repeat "/" n) /\ ends_with_char "/" (trim_end_slashes s) = false.
Proof.
  induction s as [|a s [[n IH] Hl]]; [split; [now exists O | done]|]. cbn [trim_end_slashes].
  destruct (trim_end_slashes s) as [|b t] eqn:Et; cbn [is_empty andb].
  - cbn in IH. destruct (Ascii.eqb_spec a "/") as [->|Ha].
    + split; [exists (S n) | done]. cbn. now rewrite <- IH.
    + split; [exists n; cbn; now rewrite <- IH|]. change (Ascii.eqb "/" a = false). apply Ascii.eqb_neq. congruence.
  - split; [exists n; cbn; cbn in IH; now rewrite <- IH|]. unfold ends_with_char in *. cbn in *. done.
Qed.

(** What an entry of [balances] says. *)
Definition holding_reads (b : Json) (a : AssetHolding) : Prop :=
  (is_native a = true <-> get_str "asset_type" b = Some "native"%string) /\
  (exists text, get_str "balance" b = Some text /\ parse_stroops text = Ok (balance_stroops a)) /\
  (if is_native a then limit_stroops a = i64_max
   else match get_str "limit" b with
        | Some text => parse_stroops text = Ok (limit_stroops a)
        | None => limit_stroops a = i64_max
        end) /\
  (is_authorized a = true <-> is_native a = true \/ get_bool "is_authorized" b = Some true) /\
  ah_asset_code a = default EmptyString (get_str "asset_code" b) /\
  ah_asset_issuer a = default EmptyString (get_str "asset_issuer" b).
Lemma holding_of_reads b a : holding_of b = Ok a -> holding_reads b a.
Proof.
  unfold holding_of. intros Hh. run_inv Hh. injection Hh as <-. unfold holding_reads. cbn.
  split; [rewrite String.eqb_eq; destruct (get_str "asset_type" b); cbn; split; congruence|].
  split; [eauto|]. split; [|split_and!; try done].
  - destruct (String.eqb _ _); [now injection Hx1 as <-|]. destruct (get_str "limit" b); [done | now injection Hx1 as <-].
  - destruct (get_bool "is_authorized" b) as [[]|]; cbn; rewrite ?orb_true_r, ?orb_false_r; intuition congruence.
Qed.
Lemma holding_reads_of b a : holding_reads b a -> holding_of b = Ok a.
Proof.
  destruct a as [native code issuer balance limit auth]. unfold holding_reads, holding_of. cbn.
  intros (Hn & (text & Ht & Hb) & Hl & Ha & -> & ->). rewrite Ht. cbn. rewrite Hb. cbn.
  assert (String.eqb (default EmptyString (get_str "asset_type" b)) "native" = native) as ->.
  { apply Bool.eq_iff_eq_true. rewrite String.eqb_eq, Hn. destruct (get_str "asset_type" b); cbn; split; congruence. }
  assert (native || default false (get_bool "is_authorized" b) = auth) as ->.
  { apply Bool.eq_iff_eq_true. rewrite Ha, orb_true_iff. destruct (get_bool "is_authorized" b); cbn; intuition congruence. }
  destruct native; [now rewrite Hl|]. destruct (get_str "limit" b); [now rewrite Hl | now rewrite Hl].
Qed.
Lemma holding_reads_bounds b a : holding_reads b a ->
  0 <= balance_stroops a <= i64_max /\ 0 <= limit_stroops a <= i64_max.
Proof.
  intros (_ & (text & _ & Hb%parse_stroops_range) & Hl & _). split; [done|].
  destruct (is_native a); [rewrite Hl; unfold_ints; lia|].
  destruct (get_str "limit" b); [now apply parse_stroops_range in Hl | rewrite Hl; unfold_ints; lia].
Qed.

Section HorizonLemmas.
Context `{HttpText} {W : Type} (h : HorizonRpc W).

Lemma http_send_Ok what call w reply w' :
  http_send what h call w = (Ok reply, w') <-> hz_http h call w = (Ok reply, w').
Proof. apply eff_map_err_Ok. Qed.
Lemma get_transaction_Some hash w rec w' :
  horizon_get_transaction h hash w = (Ok (Some rec), w') <->
  exists v, replied (hz_http h) (get_request (transaction_url h hash)) w v w' /\ tx_record_of v = Ok rec.
Proof.
  unfold horizon_get_transaction, replied. rewrite eff_bind_Ok. split.
  - intros (reply & u & Hs%http_send_Ok & Hr). destruct (status reply =? 404) eqn:E4; [done|].
    run_inv Hr. injection Hr as <-. apply negb_false_iff in Hc. apply map_err_Ok in Hx. eauto 10.
  - intros (v & (reply & Hs%(http_send_Ok GET_TRANSACTION) & H2 & Hj) & Hr). exists reply, w'. split; [done|].
    destruct (Z.eqb_spec (status reply) 404) as [E|E]; [rewrite E in H2; done|].
    rewrite H2. cbn [negb]. unfold reply_json. rewrite Hj. unfold_eff. cbn. now rewrite Hr.
Qed.
Lemma get_transaction_None hash w w' :
  horizon_get_transaction h hash w = (Ok None, w') <-> not_found (hz_http h) (get_request (transaction_url h hash)) w w'.
Proof.
  unfold horizon_get_transaction, not_found. rewrite eff_bind_Ok. split.
  - intros (reply & u & Hs%http_send_Ok & Hr). destruct (Z.eqb_spec (status reply) 404) as [E4|E4].
    + apply eff_ret_Ok in Hr as [_ ->]. eauto.
    + run_inv Hr. done.
  - intros (reply & Hs%(http_send_Ok GET_TRANSACTION) & E). exists reply, w'. now rewrite E.
Qed.
Lemma holdings_Some account w w' hs :
  horizon_load_account_holdings h account w = (Ok (Some hs), w') <->
  exists v bs, replied (hz_http h) (get_request (accounts_url h account)) w v w' /\
    get_field "balances" v = Some (JArray bs) /\ Forall2 holding_reads bs hs.
Proof.
  unfold horizon_load_account_holdings, replied. rewrite eff_bind_Ok. split.
  - intros (reply & u & Hr%http_send_Ok & Hk). destruct (status reply =? 404) eqn:E4; [done|].
    run_inv Hk. injection Hk as <-. apply negb_false_iff in Hc. apply map_err_Ok in Hx. apply mapM_Ok in Hx1.
    destruct (get_field "balances" x) as [[]|] eqn:Eb; try done. injection Hx0 as ->.
    exists x, x0. split_and!; eauto 10 using Forall2_impl, holding_of_reads.
  - intros (v & bs & (reply & Hr%(http_send_Ok GET_ACCOUNTS) & H2 & Hj) & Hb & Hf). exists reply, w'. split; [done|].
    destruct (Z.eqb_spec (status reply) 404) as [E|E]; [rewrite E in H2; done|].
    rewrite H2. cbn [negb]. unfold reply_json. rewrite Hj. unfold_eff. cbn. rewrite Hb. cbn.
    rewrite (proj2 (mapM_Ok holding_of bs hs)); [done|]. eauto using Forall2_impl, holding_reads_of.
Qed.
Lemma holdings_None account w w' :
  horizon_load_account_holdings h account w = (Ok None, w') <-> not_found (hz_http h) (get_request (accounts_url h account)) w w'.
Proof.
  unfold horizon_load_account_holdings, not_found. rewrite eff_bind_Ok. split.
  - intros (reply & u & Hr%http_send_Ok & Hk). destruct (Z.eqb_spec (status reply) 404) as [E4|E4].
    + apply eff_ret_Ok in Hk as [_ ->]. eauto.
    + run_inv Hk. done.
  - intros (reply & Hr%(http_send_Ok GET_ACCOUNTS) & E). exists reply, w'. now rewrite E.
Qed.
End HorizonLemmas.

(** ** Theorems *)

(** What an account holds, as Horizon reports it. The client answers holdings
    exactly when Horizon answers 2xx with a JSON array of balances every entry of
    which reads, and then entry by entry: balances and limits exact, in stroops
    and within an [i64], a trustline authorized only where Horizon says so in as
    many words, the native balance always. It answers no account exactly for a
    404; every other reply, and every entry that does not read, is an error. *)
Theorem horizon_holdings_spec `{HttpText} {W : Type} (h : HorizonRpc W) account w w' hs :
  (horizon_load_account_holdings h account w = (Ok (Some hs), w') <->
   exists v bs, replied (hz_http h) (get_request (accounts_url h account)) w v w' /\
     get_field "balances" v = Some (JArray bs) /\ Forall2 holding_reads bs hs) /\
  (horizon_load_account_holdings h account w = (Ok None, w') <->
   not_found (hz_http h) (get_request (accounts_url h account)) w w') /\
  (horizon_load_account_holdings h account w = (Ok (Some hs), w') ->
   Forall (fun a => 0 <= balance_stroops a <= i64_max /\ 0 <= limit_stroops a <= i64_max) hs).
Proof.
  split; [apply holdings_Some|]. split; [apply holdings_None|].
  intros (v & bs & _ & _ & Hf)%holdings_Some. induction Hf; constructor; eauto using holding_reads_bounds.
Qed.

Section StellarOverHorizon.
Context `{StrKey} `{Ed25519} `{Sha256} `{XdrCodec} `{Hex} `{Serde StellarBinding} `{Serde StellarSplitBinding}.
Context `{HttpText} {W : Type} `{Clock W} (c0 : StellarConfig) (h : HorizonRpc W).

(** C10: verify, down to the request. On the rail that talks to Horizon, verify
    answers true exactly when every offline check passes and one GET of the
    transaction's own URL is answered 2xx with JSON that says successful, names a
    ledger, and carries an envelope that decodes to the receipt's payment. It
    answers false where the checks pass and Horizon answers 404, and never true
    on any other status or on JSON that leaves one of those fields out. *)
Theorem stellar_verify_over_horizon (rc : Receipt) (w w' : W) :
  let r := stellar_new c0 (horizon_rpc h) in
  (stellar_verify r rc w = (Ok true, w') <->
   exists c v n xdr, verify_offline r rc = Some c /\
     replied (hz_http h) (get_request (transaction_url h (b_tx_hash (c_binding c)))) w v w' /\
     get_bool "successful" v = Some true /\ get_u64 "ledger" v = Some n /\
     get_str "envelope_xdr" v = Some xdr /\
     record_matches c {| successful := true; ledger := as_u32 n; envelope_xdr := xdr |} = true) /\
  (forall c, verify_offline r rc = Some c ->
     not_found (hz_http h) (get_request (transaction_url h (b_tx_hash (c_binding c)))) w w' ->
     stellar_verify r rc w = (Ok false, w')).
Proof.
  intros r. split; [split|].
  - unfold stellar_verify. destruct (verify_offline r rc) as [c|] eqn:Ec; [|done].
    intros (rec & (v & Hg & Hr)%get_transaction_Some & Hm)%read_back_true. unfold tx_record_of in Hr. run_inv Hr. injection Hr as <-.
    assert (x = true) as -> by (unfold record_matches in Hm; now destruct x).
    exists c, v, x0, x1. split_and!; try done.
  - intros (c & v & n & xdr & Ec & Hg & Hs & Hl & Hx & Hm). unfold stellar_verify. rewrite Ec.
    apply read_back_true. eexists. split; [|exact Hm]. apply get_transaction_Some. exists v. split; [done|].
    unfold tx_record_of. now rewrite Hs, Hl, Hx.
  - intros c Ec Hn%get_transaction_None. unfold stellar_verify, read_back. rewrite Ec. unfold_eff.
    cbn [rpc get_transaction r horizon_rpc stellar_new]. now rewrite Hn.
Qed.
End StellarOverHorizon.
