(* ===== verification/StellarRecurring.v ===== *)
(** * Recurring payments ([patala-stellar/src/recurring.rs])

    A plan of pre-signed instalments on a dedicated account, its cancellation,
    and the validity rule of the preconditions. The ledger's side of the story
    (a valid transaction executes and moves the account's sequence) is a step
    relation over the account. *)

From S2P Require Import Prelude RustStr Core External StellarTx.

Definition MAX_INSTALMENTS : Z := 3650.

Record RecurringPlan := {
  plan_source_pk : key32;
  plan_dest_pk : key32;
  plan_asset : Asset;
  plan_amount : Z;
  base_seq : Z;
  count : Z;
  plan_base_fee : Z;
  min_seq_age_step_seconds : Z;
  min_seq_ledger_gap_step : Z;
  plan_rail_id : str;
  source_strkey : str;
  dest_strkey : str;
  plan_reference : str;
}.

Section Plan.
Context `{Sha256}.

Definition validate_shape (p : RecurringPlan) : Result StellarError unit :=
  return_if count p =? 0 with_ Err (Config "a recurring plan needs at least one instalment");
  return_if MAX_INSTALMENTS <? count p with_
    Err (Config (to_dec (count p) +:+ " instalments exceeds this crate's sanity cap of "
      +:+ to_dec MAX_INSTALMENTS
      +:+ " (not a protocol limit — raise MAX_INSTALMENTS if you genuinely need more)"));
  return_if plan_amount p <=? 0 with_
    Err (Config ("instalment amount must be strictly positive, got " +:+ int_to_dec (plan_amount p)));
  Ok tt.

Definition instalment_cond (p : RecurringPlan) (i : Z) : Preconditions :=
  let '(age, gap) :=
    if i =? 1 then (0, 0) else (min_seq_age_step_seconds p, min_seq_ledger_gap_step p) in
  PrecondV2 {|
    time_bounds := None; ledger_bounds := None; min_seq_num := None;
    min_seq_age := age; min_seq_ledger_gap := gap; extra_signers := [];
  |}.

Definition build_instalment (p : RecurringPlan) (i : Z) : Result StellarError Transaction :=
  _ ← validate_shape p;
  return_if (i =? 0) || (count p <? i) with_
    Err (Config ("instalment " +:+ to_dec i +:+ " is out of range for a " +:+ to_dec (count p)
      +:+ "-instalment plan"));
  seq ← ok_or (Config ("base_seq " +:+ int_to_dec (base_seq p) +:+ " + instalment " +:+ to_dec i
    +:+ " overflows i64")) (i64_checked_add (base_seq p) i);
  let m := recurring_memo_hash (plan_rail_id p) (source_strkey p) (dest_strkey p) (plan_reference p)
    (base_seq p) i (count p) in
  mret (build_transaction_with_preconditions (plan_source_pk p) (plan_dest_pk p) (plan_asset p)
    (plan_amount p) seq (plan_base_fee p) m (instalment_cond p i)).

(** [(1..=self.count).map(..).collect()]: stops at the first error. *)
Fixpoint collect_instalments (p : RecurringPlan) (i : Z) (n : nat)
    : Result StellarError (list Transaction) :=
  match n with
  | O => Ok []
  | S n =>
      tx ← build_instalment p i;
      txs ← collect_instalments p (i + 1) n;
      mret (tx :: txs)
  end.
Definition build_all_instalments (p : RecurringPlan) : Result StellarError (list Transaction) :=
  _ ← validate_shape p;
  collect_instalments p 1 (Z.to_nat (count p)).

Definition build_cancel_transaction (p : RecurringPlan) (current_seq fee_bid : Z)
    : Result StellarError Transaction :=
  _ ← validate_shape p;
  bump_to ← ok_or (Config ("base_seq " +:+ int_to_dec (base_seq p) +:+ " + count "
    +:+ to_dec (count p) +:+ " overflows i64")) (i64_checked_add (base_seq p) (count p));
  cancel_seq ← ok_or (Config "current_seq + 1 overflows i64") (i64_checked_add current_seq 1);
  let m := cancel_memo_hash (plan_rail_id p) (source_strkey p) (plan_reference p) (base_seq p) in
  mret (build_bump_sequence_transaction (plan_source_pk p) cancel_seq fee_bid bump_to m).
End Plan.

Definition would_be_valid (c : Preconditions) (tx_seq_num account_seq account_seqtime
    account_seqledger now_time now_ledger : Z) : bool :=
  match c with
  | PrecondV2 v2 =>
      let seq_ok := match min_seq_num v2 with
                    | Some min => (min <=? account_seq) && (account_seq <? tx_seq_num)
                    | None => account_seq =? as_i64 (tx_seq_num - 1)
                    end in
      let age_ok := u64_saturating_add account_seqtime (min_seq_age v2) <=? now_time in
      let gap_ok := u32_saturating_add account_seqledger (min_seq_ledger_gap v2) <=? now_ledger in
      seq_ok && age_ok && gap_ok
  | _ => false
  end.

(** ** The dedicated account on the ledger

    What the protocol does with the account: a valid instalment that closes in a
    ledger moves its sequence to the transaction's, stamped with that ledger; a
    cancellation is an ordinary transaction at the next sequence number whose
    operation raises the sequence to [bump_to] if that is higher. *)

Record Account := { acc_seq : Z; acc_seqtime : Z; acc_seqledger : Z }.
Inductive LedgerEvent :=
  | Executed (instalment : Z) (at_time at_ledger : Z)
  | Cancelled (at_time at_ledger : Z).

Section Ledger.
Context `{Sha256}.
Inductive run (p : RecurringPlan) : list LedgerEvent -> Account -> Prop :=
  | run_start a : acc_seq a = base_seq p -> run p [] a
  | run_execute tr a i tx t l :
      run p tr a -> is_u32 i -> build_instalment p i = Ok tx ->
      would_be_valid (cond tx) (seq_num tx) (acc_seq a) (acc_seqtime a) (acc_seqledger a) t l = true ->
      run p (Executed i t l :: tr) {| acc_seq := seq_num tx; acc_seqtime := t; acc_seqledger := l |}
  | run_cancel tr a f tx bump t l :
      run p tr a -> build_cancel_transaction p (acc_seq a) f = Ok tx ->
      operations tx = [{| op_source_account := None; op_body := BumpSequence bump |}] ->
      run p (Cancelled t l :: tr)
        {| acc_seq := Z.max (seq_num tx) bump; acc_seqtime := t; acc_seqledger := l |}.
End Ledger.

(** Instalments [k, k-1, .., 1], most recent first, each one at least a step
    after its predecessor. *)
Fixpoint in_schedule (p : RecurringPlan) (k : nat) (tr : list LedgerEvent) : Prop :=
  match k, tr with
  | O, [] => True
  | S k', Executed i t l :: tr =>
      i = Z.of_nat k /\ in_schedule p k' tr /\
      match tr with
      | Executed _ t' l' :: _ =>
          u64_saturating_add t' (min_seq_age_step_seconds p) <= t /\
          u32_saturating_add l' (min_seq_ledger_gap_step p) <= l
      | _ => True
      end
  | _, _ => False
  end.
Definition is_cancelled (e : LedgerEvent) : bool :=
  match e with Cancelled _ _ => true | Executed _ _ _ => false end.

(** ** Lemmas *)

Section PlanLemmas.
Context `{Sha256}.

Lemma validate_shape_spec p :
  validate_shape p = Ok tt <-> count p <> 0 /\ count p <= MAX_INSTALMENTS /\ 0 < plan_amount p.
Proof.
  unfold validate_shape. destruct (Z.eqb_spec (count p) 0); [split; [done | tauto]|].
  destruct (Z.ltb_spec MAX_INSTALMENTS (count p)); [split; [done | lia]|].
  destruct (Z.leb_spec (plan_amount p) 0); [split; [done | lia]|]. split; auto.
Qed.

(** The transaction of instalment [i]. *)
Definition instalment (p : RecurringPlan) (i : Z) : Transaction :=
  build_transaction_with_preconditions (plan_source_pk p) (plan_dest_pk p) (plan_asset p)
    (plan_amount p) (base_seq p + i) (plan_base_fee p)
    (recurring_memo_hash (plan_rail_id p) (source_strkey p) (dest_strkey p) (plan_reference p)
       (base_seq p) i (count p))
    (instalment_cond p i).
Lemma build_instalment_ok p i tx :
  build_instalment p i = Ok tx <->
  validate_shape p = Ok tt /\ i <> 0 /\ i <= count p /\ is_i64 (base_seq p + i) /\ tx = instalment p i.
Proof.
  unfold build_instalment, mbind, result_bind.
  destruct (validate_shape p) as [[]|]; [|split; [done | now intros [? _]]].
  destruct (Z.eqb_spec i 0); [split; [done | tauto]|].
  destruct (Z.ltb_spec (count p) i); cbn [orb]; [split; [done | lia]|].
  unfold i64_checked_add, ok_or. destruct (in_range _ _ _) as [s|] eqn:E.
  - apply in_range_Some in E as [-> ?]. split; [intros [= <-]; auto | now intros (_ & _ & _ & _ & ->)].
  - apply in_range_None in E. split; [done|]. intros (_ & _ & _ & ? & _). now destruct E.
Qed.
Lemma collect_instalments_ok p i n txs :
  collect_instalments p i n = Ok txs <->
  (forall k, (k < n)%nat -> build_instalment p (i + Z.of_nat k) = Ok (instalment p (i + Z.of_nat k))) /\
  txs = map (fun k => instalment p (i + Z.of_nat k)) (seq 0 n).
Proof.
  revert i txs. induction n as [|n IH]; intros i txs; cbn [collect_instalments].
  - split; [intros [= <-]; split; [lia | done] | now intros [_ ->]].
  - unfold mbind, result_bind.
    assert (map (fun k => instalment p (i + Z.of_nat k)) (seq 0 (S n)) =
      instalment p i :: map (fun k => instalment p (i + 1 + Z.of_nat k)) (seq 0 n)) as Em.
    { cbn [seq map]. rewrite Z.add_0_r, <- seq_shift, map_map. f_equal.
      apply map_ext. intros k. f_equal. lia. }
    rewrite Em. destruct (build_instalment p i) as [tx|] eqn:E1.
    + apply build_instalment_ok in E1 as E1'. destruct E1' as (_ & _ & _ & _ & ->).
      destruct (collect_instalments p (i + 1) n) as [ts|] eqn:E2.
      * apply IH in E2 as [Hk ->]. split; [|now intros [_ ->]].
        intros [= <-]. split; [|done]. intros [|k] Hlt; [now rewrite Z.add_0_r|].
        replace (i + Z.of_nat (S k)) with (i + 1 + Z.of_nat k) by lia. apply Hk. lia.
      * split; [done|]. intros [Hk _].
        rewrite (proj2 (IH (i + 1) (map (fun k => instalment p (i + 1 + Z.of_nat k)) (seq 0 n)))) in E2; [done|]. split; [|reflexivity].
        intros k Hlt. replace (i + 1 + Z.of_nat k) with (i + Z.of_nat (S k)) by lia. apply Hk. lia.
    + split; [done|]. intros [Hk _]. specialize (Hk O ltac:(lia)). rewrite Z.add_0_r in Hk. congruence.
Qed.

Lemma build_cancel_ok p cur f tx :
  build_cancel_transaction p cur f = Ok tx ->
  seq_num tx = cur + 1 /\
  operations tx = [{| op_source_account := None; op_body := BumpSequence (base_seq p + count p) |}].
Proof.
  unfold build_cancel_transaction, mbind, result_bind. destruct (validate_shape p); [|done].
  unfold i64_checked_add, ok_or.
  destruct (in_range _ _ (_ + count p)) as [b|] eqn:E; [|done]. apply in_range_Some in E as [-> _].
  destruct (in_range _ _ (cur + 1)) as [c|] eqn:E; [|done]. apply in_range_Some in E as [-> _].
  now intros [= <-].
Qed.

Lemma instalment_valid p i a t l : is_i64 (base_seq p + i - 1) ->
  would_be_valid (cond (instalment p i)) (seq_num (instalment p i)) (acc_seq a) (acc_seqtime a)
    (acc_seqledger a) t l = true <->
  acc_seq a = base_seq p + i - 1 /\
  u64_saturating_add (acc_seqtime a) (if i =? 1 then 0 else min_seq_age_step_seconds p) <= t /\
  u32_saturating_add (acc_seqledger a) (if i =? 1 then 0 else min_seq_ledger_gap_step p) <= l.
Proof.
  intros Hi. unfold would_be_valid, instalment, instalment_cond.
  destruct (i =? 1); cbn -[Z.sub Z.add as_i64 u64_saturating_add u32_saturating_add];
    rewrite as_i64_small, !andb_true_iff, !Z.leb_le, Z.eqb_eq by done; tauto.
Qed.

(** The invariant of every run: a schedule, then cancellations. *)
Definition run_inv (p : RecurringPlan) (tr : list LedgerEvent) (a : Account) : Prop :=
  exists k cs ex, tr = cs ++ ex /\ forallb is_cancelled cs = true /\ in_schedule p k ex /\
    Z.of_nat k <= count p /\
    (cs = [] -> acc_seq a = base_seq p + Z.of_nat k /\
       match ex with
       | Executed _ t l :: _ => acc_seqtime a = t /\ acc_seqledger a = l
       | _ => True
       end) /\
    (cs <> [] -> base_seq p + count p <= acc_seq a).

Lemma run_invariant p tr a : 0 <= count p -> is_i64 (base_seq p) -> run p tr a -> run_inv p tr a.
Proof.
  intros Hc Hbase. induction 1 as [a Ha|tr a i tx t l _ IH Hu Hb Hv|tr a f tx bump t l _ IH Hb Hops].
  - exists O, [], []. split_and!; try done. intros _. split; [lia | done].
  - destruct IH as (k & cs & ex & -> & Hcs & Hex & Hk & H0 & H1).
    apply build_instalment_ok in Hb as (_ & Hi0 & Hi & Hr & ->).
    apply instalment_valid in Hv; [|unfold is_u32, is_i64 in *; lia]. destruct Hv as (Hseq & Hage & Hgap).
    destruct cs as [|c cs]; [|specialize (H1 ltac:(done)); lia].
    destruct (H0 eq_refl) as [Hs Htl]. assert (i = Z.of_nat (S k)) as -> by lia.
    exists (S k), [], (Executed (Z.of_nat (S k)) t l :: ex). cbn [app].
    split_and!; try done. cbn [in_schedule]. split_and!; try done.
    destruct ex as [|[i' t' l'|] ex]; try done. destruct Htl as [Ht Hl].
    destruct k as [|k]; [done|]. rewrite (proj2 (Z.eqb_neq _ _)) in Hage, Hgap by lia.
    rewrite Ht in Hage. rewrite Hl in Hgap. done.
  - destruct IH as (k & cs & ex & -> & Hcs & Hex & Hk & H0 & H1).
    apply build_cancel_ok in Hb as [Hs Ho]. rewrite Ho in Hops. injection Hops as <-.
    exists k, (Cancelled t l :: cs), ex. split_and!; try done. intros _. cbn. lia.
Qed.
End PlanLemmas.

(** ** Theorems *)

(** C19: a plan is redeemed in order, spaced and never after its cancellation. In every run of the dedicated
    account, the executed instalments are 1, 2, .., k in that order, each once, none of them
    before the configured seconds and ledgers have passed since the previous one executed,
    and nothing executes after a cancellation, whenever it happened. Conversely, while the
    plan is not cancelled and not finished, its next instalment executes at every ledger that
    respects the spacing. *)
Theorem recurring_schedule_enforced `{Sha256} (p : RecurringPlan) (tr : list LedgerEvent) (a : Account)
    (Hs : validate_shape p = Ok tt) (Hc : 0 <= count p) (Hmax : is_i64 (base_seq p + count p))
    (Hmin : is_i64 (base_seq p)) (R : run p tr a) :
  exists k cs ex, tr = cs ++ ex /\ forallb is_cancelled cs = true /\ in_schedule p k ex /\
    Z.of_nat k <= count p /\
    (cs = [] -> Z.of_nat k < count p -> forall t l,
      u64_saturating_add (acc_seqtime a) (min_seq_age_step_seconds p) <= t ->
      u32_saturating_add (acc_seqledger a) (min_seq_ledger_gap_step p) <= l ->
      0 <= min_seq_age_step_seconds p -> 0 <= min_seq_ledger_gap_step p ->
      exists a', run p (Executed (Z.of_nat (S k)) t l :: tr) a').
Proof.
  destruct (run_invariant p tr a Hc Hmin R) as (k & cs & ex & Etr & Hcs & Hex & Hk & H0 & _).
  exists k, cs, ex. split_and!; try done. intros Ecs Hlt t l Ht Hl Hage Hgap.
  destruct (H0 Ecs) as [Hseq _].
  assert (build_instalment p (Z.of_nat (S k)) = Ok (instalment p (Z.of_nat (S k)))) as Hb.
  { apply build_instalment_ok. unfold is_i64 in *. split_and!; try done; lia. }
  eexists. apply validate_shape_spec in Hs as (_ & Hcap & _).
  eapply run_execute; [exact R | unfold_ints; unfold MAX_INSTALMENTS in Hcap; lia | exact Hb |].
  apply instalment_valid; [unfold is_i64 in *; lia|].
  unfold u64_saturating_add, u32_saturating_add in *.
  destruct (Z.of_nat (S k) =? 1); split_and!; lia.
Qed.

Definition demo_plan : RecurringPlan := {|
  plan_source_pk := demo_key; plan_dest_pk := repeat x02 32; plan_asset := demo_asset;
  plan_amount := 10_000_000; base_seq := 100; count := 3; plan_base_fee := 100;
  min_seq_age_step_seconds := 30; min_seq_ledger_gap_step := 2; plan_rail_id := "stellar";
  source_strkey := "GSRC"; dest_strkey := "GDST"; plan_reference := "rent" |}.
Lemma demo_run : @run ref_sha256 demo_plan [Executed 1 1000 50] {| acc_seq := 101; acc_seqtime := 1000; acc_seqledger := 50 |}.
Proof.
  refine (@run_execute ref_sha256 demo_plan [] {| acc_seq := 100; acc_seqtime := 0; acc_seqledger := 0 |}
    1 (@instalment ref_sha256 demo_plan 1) 1000 50 _ _ _ _);
    [now apply run_start | unfold_ints; lia | reflexivity | reflexivity].
Qed.
Lemma recurring_schedule_enforced_witness :
  exists k cs ex, [Executed 1 1000 50] = cs ++ ex /\ in_schedule demo_plan k ex /\ Z.of_nat k <= 3.
Proof.
  destruct (@recurring_schedule_enforced ref_sha256 demo_plan [Executed 1 1000 50]
    {| acc_seq := 101; acc_seqtime := 1000; acc_seqledger := 50 |} eq_refl
    ltac:(cbn; lia) ltac:(cbn; unfold_ints; lia) ltac:(cbn; unfold_ints; lia) demo_run)
    as (k & cs & ex & E & _ & Hx & Hk & _).
  exists k, cs, ex. split; [exact E|]. split; [exact Hx | exact Hk].
Defined.

(** The whole plan, built up front. [build_all_instalments] succeeds exactly on a well-shaped plan
    whose last sequence number fits an [i64], and answers one transaction per instalment in
    order: the one [build_instalment] builds, at [base_seq + i], paying the plan's amount to
    its destination, with a memo that no other instalment of the plan shares unless SHA-256
    collides. *)
Theorem build_all_instalments_spec `{Sha256} (p : RecurringPlan) (txs : list Transaction)
    (Hc : is_u32 (count p)) (Hb : is_i64 (base_seq p))
    (Hf : Forall fits [plan_rail_id p; source_strkey p; dest_strkey p; plan_reference p]) :
  (build_all_instalments p = Ok txs <->
   validate_shape p = Ok tt /\ base_seq p + count p <= i64_max /\
   txs = map (fun k => instalment p (1 + Z.of_nat k)) (seq 0 (Z.to_nat (count p)))) /\
  (forall i j, is_u32 i -> is_u32 j -> memo (instalment p i) = memo (instalment p j) ->
     i = j \/ exists x y, sha256_collision x y).
Proof.
  split.
  - unfold build_all_instalments, mbind, result_bind.
    destruct (validate_shape p) as [[]|] eqn:Es; [|split; [done | now intros [? _]]].
    rewrite collect_instalments_ok. apply validate_shape_spec in Es as Hs. unfold is_u32, is_i64 in *.
    split.
    + intros [Hk ->]. split_and!; try done.
      specialize (Hk (Z.to_nat (count p) - 1)%nat ltac:(lia)).
      apply build_instalment_ok in Hk as (_ & _ & _ & [_ Hk] & _). lia.
    + intros (_ & Hm & ->). split; [|done]. intros k Hk. apply build_instalment_ok.
      unfold is_i64. split_and!; try done; lia.
  - intros i j Hi Hj [= E].
    set (b := fun i => BRecurring (plan_rail_id p) (source_strkey p) (dest_strkey p) (plan_reference p)
      (base_seq p) i (count p)).
    destruct (binding_hash_inj (b i) (b j)) as [[= ->]|]; try done; eauto.
Qed.
Lemma build_all_instalments_spec_witness :
  exists txs, @build_all_instalments ref_sha256 demo_plan = Ok txs /\ length txs = 3%nat.
Proof.
  destruct (@build_all_instalments_spec ref_sha256 demo_plan
    (map (fun k => @instalment ref_sha256 demo_plan (1 + Z.of_nat k)) (seq 0 3))) as [E _];
    [cbn; unfold_ints; lia | cbn; unfold_ints; lia | repeat constructor; vm_compute; discriminate |].
  eexists. split; [apply E|].
  - split; [reflexivity|]. split; [vm_compute; discriminate | reflexivity].
  - reflexivity.
Defined.
