(* ===== verification/SolanaTx.v ===== *)
(** * Solana transactions ([patala-solana/src/tx.rs], [keys.rs])

    Addresses, program-derived addresses, the two instructions the rail emits,
    the legacy message and its wire form. Base58, SHA-256, Ed25519 and the curve
    check are the linked libraries'. *)

From S2P Require Import Prelude RustStr Core External FiatDest.

Inductive SolanaError :=
  | SolRpc (m : str)
  | SolBadAddress (m : str)
  | Derivation
  | SolConfig (m : str).
#[export] Instance SolanaError_eq_dec : EqDecision SolanaError.
Proof. solve_decision. Defined.
Definition solana_error_display (e : SolanaError) : str :=
  match e with
  | SolRpc m => "solana rpc: " +:+ m
  | SolBadAddress m => "not a valid solana address: " +:+ m
  | Derivation => "could not derive associated token address"
  | SolConfig m => "solana rail misconfigured: " +:+ m
  end.
Definition from_solana (e : SolanaError) : Error := Rail (solana_error_display e).

(** [bs58], and [CompressedEdwardsY::decompress().is_some()]. *)
Class Base58 := { b58_encode : list byte -> str; b58_decode : str -> option (list byte) }.
(** The text of a 32-byte value is 32 to 44 characters of the alphabet, and only
    leading zero bytes, written [1], make it shorter than 43. *)
Class Base58Laws `{Base58} : Prop := {
  b58_roundtrip b : b58_decode (b58_encode b) = Some b;
  b58_address_shape s b : b58_decode s = Some b -> length b = 32%nat ->
    str_all is_base58_char s = true /\ 32 <= len s <= 44 /\
    (first_char s = Some "1"%char \/ 43 <= len s);
}.
Class Curve25519 := { is_on_curve : list byte -> bool }.

Definition TOKEN_PROGRAM_ID : str := "TokenkegQfeZyiNwAJbNbGKPFXCWuBvf9Ss623VQ5DA".
Definition ASSOCIATED_TOKEN_PROGRAM_ID : str := "ATokenGPvbdGVxr1b2hvZbsiqW5xWH25efTNsLJA8knL".
Definition MEMO_PROGRAM_ID : str := "MemoSq4gqABAXKb96qnH8TysNcWxMyWCqXgDLGmfcHr".
Definition USDC_MAINNET_MINT : str := "EPjFWdd5AufqSSqeM2qN1xzybapC8G4wEGGkZwyTDt1v".
Definition USDC_DEVNET_MINT : str := "4zMMC9srt5Ri5X14GAgXhaHii3GnPAEERYPJgZJDncDU".
Definition SOL_USDC_DECIMALS : Z := 6.

Abbreviation pubkey32 := (list byte).
(** [(pubkey, is_signer, is_writable)] *)
Abbreviation AccountKey := (pubkey32 * bool * bool)%type.

Record Instruction := {
  program_id : pubkey32;
  accounts : list (pubkey32 * bool * bool);
  ix_data : list byte;
}.

Section SolanaTx.
Context `{Base58} `{Curve25519} `{Sha256}.

Definition pubkey_from_base58 (s : str) : Result SolanaError pubkey32 :=
  raw ← ok_or (SolBadAddress s) (b58_decode s);
  ok_or (SolBadAddress s) (array_of 32 raw).
Definition pubkey_to_base58 (k : pubkey32) : str := b58_encode k.

(** [for bump in (0u8..=255).rev()]: [n] is the number of bumps left. *)
Definition pda_candidate (seeds : list (list byte)) (bump : Z) (program : pubkey32) : list byte :=
  sha256 (concat seeds ++ [byte_of_Z bump] ++ program ++ as_bytes "ProgramDerivedAddress").
Fixpoint find_bump (n : nat) (seeds : list (list byte)) (program : pubkey32)
    : Result SolanaError (pubkey32 * Z) :=
  match n with
  | O => Err Derivation
  | S n =>
      let out := pda_candidate seeds (Z.of_nat n) program in
      return_if negb (is_on_curve out) with_ Ok (out, Z.of_nat n);
      find_bump n seeds program
  end.
Definition find_program_address (seeds : list (list byte)) (program : pubkey32)
    : Result SolanaError (pubkey32 * Z) := find_bump 256 seeds program.
Definition associated_token_address (owner mint : pubkey32) : Result SolanaError pubkey32 :=
  token ← pubkey_from_base58 TOKEN_PROGRAM_ID;
  ata_program ← pubkey_from_base58 ASSOCIATED_TOKEN_PROGRAM_ID;
  found ← find_program_address [owner; token; mint] ata_program;
  mret found.1.

(** [expect]: the constant decodes (32 zero bytes stand for the panic). *)
Definition const_key (s : str) : pubkey32 :=
  match pubkey_from_base58 s with Ok k => k | Err _ => repeat x00 32 end.
Definition transfer_checked (source_ata mint dest_ata authority : pubkey32) (amt decimals : Z)
    : Instruction := {|
  program_id := const_key TOKEN_PROGRAM_ID;
  accounts := [(source_ata, false, true); (mint, false, false); (dest_ata, false, true);
               (authority, true, false)];
  ix_data := byte_of_Z 12 :: u64_le amt ++ [byte_of_Z decimals];
|}.
Definition memo_ix (signer_key : pubkey32) (note : str) : Instruction := {|
  program_id := const_key MEMO_PROGRAM_ID;
  accounts := [(signer_key, true, false)];
  ix_data := as_bytes note;
|}.

(** A [usize] has at most 64 bits: ten groups of seven suffice. *)
Fixpoint compact_loop (fuel : nat) (rem : Z) : list byte :=
  match fuel with
  | O => []
  | S fuel =>
      let byte := Z.land rem 127 in
      let rem := Z.shiftr rem 7 in
      if rem =? 0 then [byte_of_Z byte] else byte_of_Z (Z.lor byte 128) :: compact_loop fuel rem
  end.
Definition compact_u16 (v : Z) : list byte := compact_loop 10 v.

(** ** The message *)

Fixpoint add_key (k : pubkey32) (s w : bool) (keys : list AccountKey) : list AccountKey :=
  match keys with
  | [] => [(k, s, w)]
  | (k', s', w') :: keys =>
      if bool_decide (k' = k) then (k', s' || s, w' || w) :: keys
      else (k', s', w') :: add_key k s w keys
  end.
Definition add_accounts (keys : list AccountKey) (ix : Instruction) : list AccountKey :=
  fold_left (fun keys '(k, s, w) => add_key k s w keys) (accounts ix) keys.
Definition collect_keys (payer : pubkey32) (ixs : list Instruction) : list AccountKey :=
  fold_left (fun keys ix => add_key (program_id ix) false false keys) ixs
    (fold_left add_accounts ixs [(payer, true, true)]).

Definition rank (e : AccountKey) : Z :=
  match e.1.2, e.2 with
  | true, true => 0
  | true, false => 1
  | false, true => 2
  | false, false => 3
  end.
(** [keys.sort_by_key(rank)], a stable sort over the four ranks. *)
Definition with_rank (r : Z) (keys : list AccountKey) : list AccountKey :=
  List.filter (fun e => rank e =? r) keys.
Definition sort_keys (keys : list AccountKey) : list AccountKey :=
  with_rank 0 keys ++ with_rank 1 keys ++ with_rank 2 keys ++ with_rank 3 keys.

Definition count_keys (p : AccountKey -> bool) (keys : list AccountKey) : list byte :=
  [byte_of_Z (Z.of_nat (length (List.filter p keys)))].
Fixpoint position (k : pubkey32) (keys : list AccountKey) : nat :=
  match keys with
  | [] => O
  | e :: keys => if bool_decide (e.1.1 = k) then O else S (position k keys)
  end.
Definition index_of (keys : list AccountKey) (k : pubkey32) : byte :=
  byte_of_Z (Z.of_nat (position k keys)).

Definition serialize_instruction (keys : list AccountKey) (ix : Instruction) : list byte :=
  [index_of keys (program_id ix)]
  ++ compact_u16 (Z.of_nat (length (accounts ix)))
  ++ map (fun a => index_of keys a.1.1) (accounts ix)
  ++ compact_u16 (Z.of_nat (length (ix_data ix))) ++ ix_data ix.
Definition serialize_message (payer : pubkey32) (ixs : list Instruction) (blockhash : list byte)
    : list byte :=
  let keys := sort_keys (collect_keys payer ixs) in
  count_keys (fun e => e.1.2) keys
  ++ count_keys (fun e => e.1.2 && negb e.2) keys
  ++ count_keys (fun e => negb e.1.2 && negb e.2) keys
  ++ compact_u16 (Z.of_nat (length keys)) ++ concat (map (fun e => e.1.1) keys)
  ++ blockhash
  ++ compact_u16 (Z.of_nat (length ixs)) ++ concat (map (serialize_instruction keys) ixs).

Definition wire_transaction (sig message : list byte) : list byte :=
  compact_u16 1 ++ sig ++ message.
End SolanaTx.

(** ** Base64 (standard alphabet, padded) *)

Definition b64_char (n : Z) : ascii :=
  let n := Z.land n 63 in
  if n <? 26 then char_of (65 + n)
  else if n <? 52 then char_of (71 + n)
  else if n <? 62 then char_of (n - 4)
  else if n =? 62 then "+"%char else "/"%char.
Definition b64_group (b0 b1 b2 : Z) : Z := Z.lor (Z.lor (Z.shiftl b0 16) (Z.shiftl b1 8)) b2.
Definition b64_quad (n : Z) (two three : bool) : str :=
  String (b64_char (Z.shiftr n 18)) (String (b64_char (Z.shiftr n 12))
    (String (if two then b64_char (Z.shiftr n 6) else "="%char)
      (String (if three then b64_char n else "="%char) EmptyString))).
Fixpoint b64 (bytes : list byte) : str :=
  match bytes with
  | [] => EmptyString
  | [x] => b64_quad (b64_group (Z_of_byte x) 0 0) false false
  | [x; y] => b64_quad (b64_group (Z_of_byte x) (Z_of_byte y) 0) true false
  | x :: y :: z :: rest =>
      b64_quad (b64_group (Z_of_byte x) (Z_of_byte y) (Z_of_byte z)) true true +:+ b64 rest
  end.

(** [Keypair::from_bytes]: a 64-byte keypair starts with its 32-byte seed. *)
Definition seed_of_bytes (bytes : list byte) : Result SolanaError (list byte) :=
  return_if Nat.eqb (length bytes) 64 with_ Ok (take 32 bytes);
  return_if Nat.eqb (length bytes) 32 with_ Ok bytes;
  Err (SolConfig ("keypair must be 32 or 64 bytes, got " +:+ to_dec (Z.of_nat (length bytes)))).

(** ** Reading a message back

    The legacy message format: three counts, the keys, the blockhash and the
    compiled instructions, whose account and program indices are resolved
    against the keys. *)

Fixpoint parse_compact (b : list byte) : option (Z * list byte) :=
  match b with
  | [] => None
  | x :: b =>
      if Z_of_byte x <? 128 then Some (Z_of_byte x, b)
      else p ← parse_compact b; Some (Z_of_byte x - 128 + 128 * p.1, p.2)
  end.
Definition split_at (n : Z) (b : list byte) : option (list byte * list byte) :=
  if n <=? Z.of_nat (length b) then Some (take (Z.to_nat n) b, drop (Z.to_nat n) b) else None.
Fixpoint parse_keys (n : nat) (b : list byte) : option (list pubkey32 * list byte) :=
  match n with
  | O => Some ([], b)
  | S n => k ← split_at 32 b; r ← parse_keys n k.2; Some (k.1 :: r.1, r.2)
  end.
Definition resolve (keys : list pubkey32) (i : byte) : option pubkey32 :=
  nth_error keys (Z.to_nat (Z_of_byte i)).
Fixpoint resolve_all (keys : list pubkey32) (ids : list byte) : option (list pubkey32) :=
  match ids with
  | [] => Some []
  | i :: ids => k ← resolve keys i; ks ← resolve_all keys ids; Some (k :: ks)
  end.
(** An instruction without its flags: program, account keys, data. *)
Abbreviation PlainIx := (pubkey32 * list pubkey32 * list byte)%type.
Definition parse_instruction (keys : list pubkey32) (b : list byte) : option (PlainIx * list byte) :=
  h ← split_at 1 b;
  program ← resolve_all keys h.1;
  n ← parse_compact h.2;
  a ← split_at n.1 n.2;
  accs ← resolve_all keys a.1;
  d ← parse_compact a.2;
  r ← split_at d.1 d.2;
  Some ((default [] (head program), accs, r.1), r.2).
Fixpoint parse_instructions (n : nat) (keys : list pubkey32) (b : list byte)
    : option (list PlainIx * list byte) :=
  match n with
  | O => Some ([], b)
  | S n => i ← parse_instruction keys b; r ← parse_instructions n keys i.2; Some (i.1 :: r.1, r.2)
  end.
Record Message := {
  msg_signers : Z;
  msg_readonly_signed : Z;
  msg_readonly_unsigned : Z;
  msg_keys : list pubkey32;
  msg_blockhash : list byte;
  msg_instructions : list PlainIx;
}.
Definition parse_message (b : list byte) : option Message :=
  h ← split_at 3 b;
  n ← parse_compact h.2;
  ks ← parse_keys (Z.to_nat n.1) n.2;
  bh ← split_at 32 ks.2;
  m ← parse_compact bh.2;
  ixs ← parse_instructions (Z.to_nat m.1) ks.1 m.2;
  let count i := match nth_error h.1 i with Some x => Z_of_byte x | None => 0 end in
  if bool_decide (ixs.2 = []) then
    Some {| msg_signers := count 0%nat; msg_readonly_signed := count 1%nat;
            msg_readonly_unsigned := count 2%nat; msg_keys := ks.1; msg_blockhash := bh.1;
            msg_instructions := ixs.1 |}
  else None.
(** What the runtime reads off the counts for the account at index [i]. *)
Definition msg_is_signer (m : Message) (i : nat) : bool := Z.of_nat i <? msg_signers m.
Definition msg_is_writable (m : Message) (i : nat) : bool :=
  (Z.of_nat i <? msg_signers m - msg_readonly_signed m)
  || ((msg_signers m <=? Z.of_nat i)
      && (Z.of_nat i <? Z.of_nat (length (msg_keys m)) - msg_readonly_unsigned m)).

(** ** Lemmas *)

Lemma lor_128 x : 0 <= x < 128 -> Z.lor x 128 = x + 128.
Proof.
  intros Hx. assert (forallb (fun n => Z.lor n 128 =? n + 128) (map Z.of_nat (seq 0 128)) = true) as F
    by (vm_compute; reflexivity).
  rewrite forallb_forall in F. apply Z.eqb_eq, F, in_map_iff. exists (Z.to_nat x).
  split; [lia|]. apply in_seq. lia.
Qed.
Lemma compact_loop_parse fuel v rest :
  0 <= v < 128 ^ Z.of_nat fuel -> (0 < fuel)%nat ->
  parse_compact (compact_loop fuel v ++ rest) = Some (v, rest).
Proof.
  revert v. induction fuel as [|fuel IH]; intros v Hv Hf; [lia|].
  rewrite Nat2Z.inj_succ, Z.pow_succ_r in Hv by lia. cbn [compact_loop].
  assert (Z.land v 127 = v mod 128) as -> by (change 127 with (Z.ones 7); now rewrite Z.land_ones by lia).
  rewrite Z.shiftr_div_pow2 by lia. change (2 ^ 7) with 128.
  pose proof (Z.mod_pos_bound v 128 ltac:(lia)) as Hm. pose proof (Z.div_mod v 128 ltac:(lia)) as Hd.
  destruct (Z.eqb_spec (v / 128) 0) as [E|E].
  - cbn [app parse_compact]. rewrite Z_of_byte_of_Z, (Z.mod_small (v mod 128)) by lia.
    rewrite (proj2 (Z.ltb_lt _ _)) by lia. do 2 f_equal. lia.
  - assert (Z.lor (v mod 128) 128 = v mod 128 + 128) as ->.
    { now apply lor_128. }
    cbn [app parse_compact]. rewrite Z_of_byte_of_Z, (Z.mod_small (v mod 128 + 128)) by lia.
    rewrite (proj2 (Z.ltb_ge _ _)) by lia.
    rewrite IH.
    + cbn. do 2 f_equal. lia.
    + split; [apply Z.div_pos; lia | apply Z.div_lt_upper_bound; lia].
    + destruct fuel; [|lia]. cbn in Hv. rewrite Z.div_small in E by lia. done.
Qed.
Lemma parse_compact_u16 v rest : is_u64 v -> parse_compact (compact_u16 v ++ rest) = Some (v, rest).
Proof.
  intros Hv. apply compact_loop_parse; [|lia]. unfold_ints. split; [lia|].
  change (128 ^ Z.of_nat 10) with (2 ^ 70). lia.
Qed.
(** More turns than the value has groups of seven bits change nothing. *)
Lemma compact_loop_fuel fuel k v :
  0 <= v < 128 ^ Z.of_nat fuel -> (0 < fuel <= k)%nat -> compact_loop k v = compact_loop fuel v.
Proof.
  revert k v. induction fuel as [|fuel IH]; intros [|k] v Hv Hk; [lia..|].
  rewrite Nat2Z.inj_succ, Z.pow_succ_r in Hv by lia. cbn [compact_loop].
  rewrite Z.shiftr_div_pow2 by lia. change (2 ^ 7) with 128.
  destruct (Z.eqb_spec (v / 128) 0) as [|E]; [done|]. f_equal.
  pose proof (Z.div_mod v 128 ltac:(lia)). pose proof (Z.mod_pos_bound v 128 ltac:(lia)).
  assert (0 <= v / 128 < 128 ^ Z.of_nat fuel) by (split; [apply Z.div_pos; lia | apply Z.div_lt_upper_bound; lia]).
  apply IH; [done|]. destruct fuel; [cbn in *; lia | lia].
Qed.
(** One byte per group of seven bits, and no leading zero group. *)
Lemma compact_loop_length fuel v :
  0 <= v < 128 ^ Z.of_nat fuel -> (0 < fuel)%nat ->
  exists n, length (compact_loop fuel v) = S n /\ v < 128 ^ Z.of_nat (S n) /\ (n = O \/ 128 ^ Z.of_nat n <= v).
Proof.
  revert v. induction fuel as [|fuel IH]; intros v Hv Hf; [lia|].
  rewrite Nat2Z.inj_succ, Z.pow_succ_r in Hv by lia. cbn [compact_loop].
  rewrite Z.shiftr_div_pow2 by lia. change (2 ^ 7) with 128.
  pose proof (Z.div_mod v 128 ltac:(lia)) as Hd. pose proof (Z.mod_pos_bound v 128 ltac:(lia)) as Hm.
  destruct (Z.eqb_spec (v / 128) 0) as [E|E].
  - exists O. cbn. split_and!; [done | lia | now left].
  - assert (0 <= v / 128 < 128 ^ Z.of_nat fuel) as Hq by (split; [apply Z.div_pos; lia | apply Z.div_lt_upper_bound; lia]).
    destruct (IH (v / 128) Hq) as (n & Hl & Hlt & Hge); [destruct fuel; [cbn in Hq; lia | lia]|].
    exists (S n). cbn [length]. rewrite Hl. split; [done|]. rewrite (Nat2Z.inj_succ (S n)), Z.pow_succ_r by lia.
    split; [nia|]. right. rewrite Nat2Z.inj_succ, Z.pow_succ_r by lia. destruct Hge as [->|Hge]; [cbn; lia | nia].
Qed.
Lemma split_at_app n a b : Z.of_nat (length a) = n -> split_at n (a ++ b) = Some (a, b).
Proof.
  intros <-. unfold split_at. rewrite length_app, (proj2 (Z.leb_le _ _)) by lia.
  rewrite Nat2Z.id, take_app_length, drop_app_length. done.
Qed.

(** Merging requests: what the list says of a key is what was asked. *)
Definition asks_sign (k : pubkey32) (l : list AccountKey) : bool :=
  existsb (fun e => bool_decide (e.1.1 = k) && e.1.2) l.
Definition asks_write (k : pubkey32) (l : list AccountKey) : bool :=
  existsb (fun e => bool_decide (e.1.1 = k) && e.2) l.
Definition keys_of (l : list AccountKey) : list pubkey32 := map (fun e => e.1.1) l.
Record merged (l keys : list AccountKey) : Prop := {
  merged_nodup : NoDup (keys_of keys);
  merged_flags : Forall (fun e => e.1.2 = asks_sign e.1.1 l /\ e.2 = asks_write e.1.1 l) keys;
  merged_keys : forall k, k ∈ keys_of keys <-> k ∈ keys_of l;
}.
Lemma add_key_merged l keys k s w : merged l keys -> merged (l ++ [(k, s, w)]) (add_key k s w keys).
Proof.
  assert (forall keys, keys_of (add_key k s w keys) =
    if decide (k ∈ keys_of keys) then keys_of keys else keys_of keys ++ [k]) as Hkeys.
  { clear. induction keys as [|[[k' s'] w'] keys IH]; [done|]. cbn [add_key].
    case_bool_decide as E; cbn [keys_of map fst]; fold (keys_of keys).
    - subst k'. rewrite decide_True by (apply list_elem_of_here). done.
    - fold (keys_of (add_key k s w keys)). rewrite IH.
      destruct (decide (k ∈ keys_of keys)) as [Hi|Hi].
      + rewrite decide_True by now apply list_elem_of_further. done.
      + rewrite decide_False; [done|]. rewrite elem_of_cons. intros [?|?]; congruence. }
  intros [Hn Hf Hk]. split.
  - rewrite Hkeys. destruct (decide _) as [Hi|Hi]; [done|].
    apply NoDup_app. split; [done|]. split; [|apply NoDup_singleton].
    intros x Hx ->%list_elem_of_singleton. done.
  - assert (forall e, asks_sign e (l ++ [(k, s, w)]) = asks_sign e l || (bool_decide (k = e) && s)) as As.
    { intros e. unfold asks_sign. rewrite existsb_app. cbn. now rewrite orb_false_r. }
    assert (forall e, asks_write e (l ++ [(k, s, w)]) = asks_write e l || (bool_decide (k = e) && w)) as Aw.
    { intros e. unfold asks_write. rewrite existsb_app. cbn. now rewrite orb_false_r. }
    assert (k ∉ keys_of keys -> asks_sign k l = false /\ asks_write k l = false) as Hfresh.
    { intros Hni. rewrite Hk in Hni. unfold asks_sign, asks_write.
      split; apply not_true_iff_false; intros (e & He & Hb)%existsb_exists;
        apply andb_true_iff in Hb as [<-%bool_decide_eq_true _]; destruct Hni;
        apply list_elem_of_In, in_map_iff; eauto. }
    clear Hk. induction keys as [|[[k' s'] w'] keys IH]; cbn [add_key].
    + constructor; [|constructor]. cbn. rewrite As, Aw, bool_decide_eq_true_2 by done.
      destruct Hfresh as [-> ->]; [apply not_elem_of_nil | done].
    + apply Forall_cons in Hf as [[Hs Hw] Hf]. cbn in Hs, Hw.
      cbn [keys_of map fst] in Hn. fold (keys_of keys) in Hn. apply NoDup_cons in Hn as [Hni Hn].
      case_bool_decide as E.
      * subst k'. constructor.
        { cbn. rewrite As, Aw, bool_decide_eq_true_2, <- Hs, <- Hw by done. done. }
        apply Forall_forall. intros e He. rewrite Forall_forall in Hf.
        destruct (Hf e He) as [-> ->]. rewrite As, Aw, bool_decide_eq_false_2; [now rewrite !orb_false_r|].
        intros ->. apply Hni. apply list_elem_of_In, in_map_iff. exists e. split; [done|].
        now apply list_elem_of_In.
      * constructor.
        { cbn. rewrite As, Aw, bool_decide_eq_false_2 by congruence. now rewrite !orb_false_r, <- Hs, <- Hw. }
        apply IH; auto. intros Hni'. apply Hfresh. cbn [keys_of map fst]. rewrite elem_of_cons.
        intros [->|?]; done.
  - intros x. assert (keys_of (l ++ [(k, s, w)]) = keys_of l ++ [k]) as ->
      by (unfold keys_of; now rewrite map_app).
    rewrite Hkeys, elem_of_app, list_elem_of_singleton. destruct (decide _) as [Hi|Hi].
    + rewrite <- Hk. split; [tauto|]. intros [?| ->]; done.
    + rewrite elem_of_app, list_elem_of_singleton, <- Hk. done.
Qed.
Definition add_request (keys : list AccountKey) (e : AccountKey) : list AccountKey :=
  add_key e.1.1 e.1.2 e.2 keys.
Lemma fold_merged reqs l keys : merged l keys -> merged (l ++ reqs) (fold_left add_request reqs keys).
Proof.
  revert l keys. induction reqs as [|[[k s] w] reqs IH]; intros l keys M; [now rewrite app_nil_r|].
  cbn [fold_left]. change (l ++ (k, s, w) :: reqs) with (l ++ [(k, s, w)] ++ reqs). rewrite app_assoc.
  apply IH. now apply add_key_merged.
Qed.

(** Everything a message's instructions ask for, payer first. *)
Definition requests (payer : pubkey32) (ixs : list Instruction) : list AccountKey :=
  (payer, true, true) :: concat (map accounts ixs) ++ map (fun ix => (program_id ix, false, false)) ixs.
Lemma collect_keys_fold payer ixs :
  collect_keys payer ixs = fold_left add_request (concat (map accounts ixs) ++
    map (fun ix => (program_id ix, false, false)) ixs) [(payer, true, true)].
Proof.
  unfold collect_keys. rewrite fold_left_app.
  assert (forall ks, fold_left add_accounts ixs ks = fold_left add_request (concat (map accounts ixs)) ks) as ->.
  { induction ixs as [|ix ixs IH]; intros ks; [done|]. cbn [fold_left map concat].
    rewrite fold_left_app, <- IH. f_equal. unfold add_accounts.
    generalize (accounts ix). intros l. revert ks. induction l as [|[[k s] w] l IHl]; intros ks; [done|].
    cbn [fold_left]. apply IHl. }
  generalize (fold_left add_request (concat (map accounts ixs)) [(payer, true, true)]).
  induction ixs as [|ix ixs IH]; intros ks; [done|]. cbn [fold_left map]. apply IH.
Qed.
Lemma collect_keys_merged payer ixs : merged (requests payer ixs) (collect_keys payer ixs).
Proof.
  rewrite collect_keys_fold. apply (fold_merged _ [(payer, true, true)]).
  split; [apply NoDup_singleton | | done].
  constructor; [|constructor]. cbn. rewrite bool_decide_eq_true_2 by done. done.
Qed.
Lemma fold_head reqs e keys : exists keys', exists s w,
  fold_left add_request reqs (e :: keys) = (e.1.1, s, w) :: keys' /\ (e.1.2 = true -> s = true) /\ (e.2 = true -> w = true).
Proof.
  revert e keys. induction reqs as [|[[k s] w] reqs IH]; intros [[k0 s0] w0] keys; [cbn; eauto 10|].
  change (fold_left add_request ((k, s, w) :: reqs) ((k0, s0, w0) :: keys)) with
    (fold_left add_request reqs (add_key k s w ((k0, s0, w0) :: keys))).
  cbn [add_key]. case_bool_decide.
  - destruct (IH (k0, s0 || s, w0 || w) keys) as (keys' & s' & w' & E & Hs & Hw).
    exists keys', s', w'. cbn in *. rewrite E. split; [done|].
    split; intros ->; [apply Hs | apply Hw]; done.
  - destruct (IH (k0, s0, w0) (add_key k s w keys)) as (keys' & s' & w' & E & Hs & Hw).
    exists keys', s', w'. rewrite E. auto.
Qed.
Lemma collect_keys_head payer ixs : exists keys, collect_keys payer ixs = (payer, true, true) :: keys.
Proof.
  rewrite collect_keys_fold.
  destruct (fold_head (concat (map accounts ixs) ++ map (fun ix => (program_id ix, false, false)) ixs)
    (payer, true, true) []) as (keys & s & w & -> & Hs & Hw).
  rewrite Hs, Hw by done. eauto.
Qed.

(** The sorted keys are the collected ones, in four runs of one rank each. *)
Lemma rank_cases e : rank e = 0 \/ rank e = 1 \/ rank e = 2 \/ rank e = 3.
Proof. destruct e as [[k []] []]; auto. Qed.
Lemma in_with_rank r e keys : In e (with_rank r keys) <-> In e keys /\ rank e = r.
Proof. unfold with_rank. rewrite filter_In, Z.eqb_eq. done. Qed.
Lemma in_sort_keys e keys : In e (sort_keys keys) <-> In e keys.
Proof.
  unfold sort_keys. rewrite !in_app_iff, !in_with_rank. pose proof (rank_cases e). tauto.
Qed.
Lemma nodup_sort_keys keys : NoDup (keys_of keys) -> NoDup (keys_of (sort_keys keys)).
Proof.
  intros Hn. assert (forall e e', In e keys -> In e' keys -> e.1.1 = e'.1.1 -> e = e') as Hinj.
  { clear -Hn. induction keys as [|x keys IH]; [done|]. cbn [keys_of map] in Hn. fold (keys_of keys) in Hn.
    apply NoDup_cons in Hn as [Hx Hn]. intros e e' [->|He] [->|He'] E; auto.
    - destruct Hx. rewrite E. apply list_elem_of_In, in_map_iff. eauto.
    - destruct Hx. rewrite <- E. apply list_elem_of_In, in_map_iff. eauto. }
  assert (forall r, NoDup (keys_of (with_rank r keys))) as Hr.
  { intros r. clear Hinj. induction keys as [|x keys IH]; [constructor|].
    cbn [keys_of map] in Hn. fold (keys_of keys) in Hn. apply NoDup_cons in Hn as [Hx Hn].
    unfold with_rank. cbn [List.filter]. destruct (rank x =? r); [|now apply IH].
    cbn [keys_of map]. apply NoDup_cons. split; [|now apply IH].
    intros (y & Ey & Hy)%list_elem_of_In%in_map_iff. apply (in_with_rank r y keys) in Hy as [Hy _].
    apply Hx. rewrite <- Ey. apply list_elem_of_In, in_map_iff. eauto. }
  assert (forall r l, (forall e, In e l -> In e keys /\ rank e <> r) -> NoDup (keys_of l) ->
    NoDup (keys_of (with_rank r keys ++ l))) as Hcons.
  { intros r l Hl Hnl. unfold keys_of. rewrite map_app. apply NoDup_app. split; [apply Hr|]. split; [|done].
    intros k (y & Ey & Hy)%list_elem_of_In%in_map_iff (z & Ez & Hz)%list_elem_of_In%in_map_iff.
    apply in_with_rank in Hy as [Hy Hry]. apply Hl in Hz as [Hz Hrz].
    rewrite (Hinj y z Hy Hz) in Hry by congruence. done. }
  unfold sort_keys. repeat (apply Hcons; [|try apply Hr]);
    intros e; rewrite ?in_app_iff, ?in_with_rank; intros He; (split; [tauto|]); intuition lia.
Qed.
Lemma filter_all {A} (p : A -> bool) l : (forall e, In e l -> p e = true) -> List.filter p l = l.
Proof.
  induction l as [|a l IH]; intros Hp; [done|]. cbn. rewrite (Hp a (or_introl eq_refl)), IH; [done|].
  intros e He. apply Hp. now right.
Qed.
Lemma filter_none {A} (p : A -> bool) l : (forall e, In e l -> p e = false) -> List.filter p l = [].
Proof.
  induction l as [|a l IH]; intros Hp; [done|]. cbn. rewrite (Hp a (or_introl eq_refl)), IH; [done|].
  intros e He. apply Hp. now right.
Qed.
(** Filtering the sorted keys by a predicate of the flags keeps whole runs. *)
Lemma filter_sorted (p : AccountKey -> bool) (q : Z -> bool) keys : (forall e, p e = q (rank e)) ->
  let run r := if q r then with_rank r keys else [] in
  List.filter p (sort_keys keys) = run 0 ++ run 1 ++ run 2 ++ run 3.
Proof.
  intros Hpq run. unfold sort_keys. rewrite !List.filter_app.
  assert (forall r, List.filter p (with_rank r keys) = run r) as Hr.
  { intros r. unfold run. destruct (q r) eqn:E; [apply filter_all | apply filter_none];
      intros e [_ He]%in_with_rank; rewrite Hpq, He; done. }
  now rewrite !Hr.
Qed.
Lemma nth_app4 {A} (a b c d : list A) i e : nth_error (a ++ b ++ c ++ d) i = Some e ->
  (In e a /\ (i < length a)%nat) \/
  (In e b /\ (length a <= i < length a + length b)%nat) \/
  (In e c /\ (length a + length b <= i < length a + length b + length c)%nat) \/
  (In e d /\ (length a + length b + length c <= i < length a + length b + length c + length d)%nat).
Proof.
  assert (forall (x y : list A) j, nth_error (x ++ y) j = Some e ->
    (In e x /\ (j < length x)%nat) \/ ((length x <= j)%nat /\ nth_error y (j - length x) = Some e)) as Hs.
  { intros x y j Hj. destruct (Nat.lt_ge_cases j (length x)) as [Hl|Hl].
    - rewrite nth_error_app1 in Hj by done. left. split; [eapply nth_error_In; eauto | done].
    - rewrite nth_error_app2 in Hj by done. auto. }
  intros [?|[Ha Hi]]%Hs; [auto|]. apply Hs in Hi as [[? ?]|[Hb Hi]]; [right; left; split; [done | lia]|].
  apply Hs in Hi as [[? ?]|[Hc Hi]]; [right; right; left; split; [done | lia]|].
  apply nth_error_In in Hi as Hin. assert (i - length a - length b - length c < length d)%nat by (apply nth_error_Some; congruence).
  right; right; right. split; [done | lia].
Qed.

Lemma position_spec k keys : k ∈ keys_of keys ->
  nth_error (keys_of keys) (position k keys) = Some k /\ (position k keys < length keys)%nat.
Proof.
  induction keys as [|e keys IH]; [now intros ?%not_elem_of_nil|].
  cbn [keys_of map position]. fold (keys_of keys). rewrite elem_of_cons. case_bool_decide as E.
  - intros _. cbn. split; [now f_equal | lia].
  - intros [->|Hk]; [done|]. destruct (IH Hk) as [? ?]. cbn. split; [done | lia].
Qed.
Lemma resolve_index keys k : (length keys <= 256)%nat -> k ∈ keys_of keys ->
  resolve (keys_of keys) (index_of keys k) = Some k.
Proof.
  intros Hl Hk. destruct (position_spec k keys Hk) as [Hn Hp].
  unfold resolve, index_of. rewrite Z_of_byte_of_Z, Z.mod_small, Nat2Z.id by lia. done.
Qed.
Lemma resolve_all_index keys ks : (length keys <= 256)%nat -> Forall (fun k => k ∈ keys_of keys) ks ->
  resolve_all (keys_of keys) (map (index_of keys) ks) = Some ks.
Proof.
  intros Hl. induction 1 as [|k ks Hk _ IH]; [done|]. cbn [map resolve_all].
  rewrite resolve_index by done. cbn. now rewrite IH.
Qed.
Lemma parse_keys_concat ks rest : Forall (fun k => length k = 32%nat) ks ->
  parse_keys (length ks) (concat ks ++ rest) = Some (ks, rest).
Proof.
  induction 1 as [|k ks Hk _ IH]; [done|]. cbn [length concat parse_keys].
  rewrite <- app_assoc, split_at_app by lia. cbn. now rewrite IH.
Qed.

Definition plain (ix : Instruction) : PlainIx :=
  (program_id ix, map (fun a => a.1.1) (accounts ix), ix_data ix).
(** The instruction's keys are among the message's, and its lengths are
    [usize]s. *)
Definition ix_fits (keys : list AccountKey) (ix : Instruction) : Prop :=
  program_id ix ∈ keys_of keys /\ Forall (fun k => k ∈ keys_of keys) (map (fun a => a.1.1) (accounts ix)) /\
  is_u64 (Z.of_nat (length (accounts ix))) /\ is_u64 (Z.of_nat (length (ix_data ix))).
Lemma parse_instruction_serialize keys ix rest : (length keys <= 256)%nat -> ix_fits keys ix ->
  parse_instruction (keys_of keys) (serialize_instruction keys ix ++ rest) = Some (plain ix, rest).
Proof.
  intros Hl (Hp & Ha & Hn & Hd). unfold parse_instruction, serialize_instruction.
  rewrite <- !app_assoc. rewrite split_at_app by done. cbn [mbind option_bind fst snd].
  change [index_of keys (program_id ix)] with (map (index_of keys) [program_id ix]).
  rewrite (resolve_all_index keys [program_id ix]) by (done || now constructor).
  cbn [mbind option_bind]. rewrite parse_compact_u16 by done. cbn [mbind option_bind fst snd].
  rewrite split_at_app by (now rewrite length_map). cbn [mbind option_bind fst snd].
  rewrite <- (map_map (fun a => a.1.1) (index_of keys)), resolve_all_index by done.
  cbn [mbind option_bind]. rewrite parse_compact_u16 by done. cbn [mbind option_bind fst snd].
  rewrite split_at_app by done. done.
Qed.
Lemma parse_instructions_serialize keys ixs rest : (length keys <= 256)%nat -> Forall (ix_fits keys) ixs ->
  parse_instructions (length ixs) (keys_of keys) (concat (map (serialize_instruction keys) ixs) ++ rest)
  = Some (map plain ixs, rest).
Proof.
  intros Hl. induction 1 as [|ix ixs Hi _ IH]; [done|]. cbn [length map concat parse_instructions].
  rewrite <- app_assoc, parse_instruction_serialize by done. cbn [mbind option_bind fst snd]. now rewrite IH.
Qed.

Lemma length_sort_keys keys : length (sort_keys keys) = length keys.
Proof.
  unfold sort_keys. rewrite !length_app. induction keys as [|e keys IH]; [done|].
  unfold with_rank in *. cbn [List.filter length].
  destruct (rank_cases e) as [->|[->|[->| ->]]]; cbn -[Z.eqb]; cbn [Z.eqb Pos.eqb length]; lia.
Qed.

Lemma instruction_fits payer ixs ix :
  (forall k, k ∈ keys_of (sort_keys (collect_keys payer ixs)) <-> k ∈ keys_of (requests payer ixs)) ->
  (forall ix, In ix ixs ->
     is_u64 (Z.of_nat (length (accounts ix))) /\ is_u64 (Z.of_nat (length (ix_data ix)))) ->
  ix ∈ ixs -> ix_fits (sort_keys (collect_keys payer ixs)) ix.
Proof.
  intros Hks Hlens Hin%list_elem_of_In. destruct (Hlens ix Hin) as [Ha Hd].
  assert (forall e, In e (requests payer ixs) -> e.1.1 ∈ keys_of (sort_keys (collect_keys payer ixs))) as Hreq.
  { intros e He. apply Hks. unfold keys_of. apply list_elem_of_In, in_map_iff. eauto. }
  split_and!; try done.
  - apply (Hreq (program_id ix, false, false)). right. apply in_app_iff. right. apply in_map_iff. eauto.
  - apply Forall_forall. intros k (a & <- & Hain)%list_elem_of_In%in_map_iff. apply Hreq.
    right. apply in_app_iff. left. apply in_concat. exists (accounts ix). split; [|done].
    apply in_map_iff. eauto.
Qed.

(** The three counts, and the flags they give back. *)
Lemma header_flags keys i e :
  let n r := Z.of_nat (length (with_rank r keys)) in
  let signers := n 0 + n 1 in
  nth_error (sort_keys keys) i = Some e ->
  (Z.of_nat i <? signers) = e.1.2 /\
  (Z.of_nat i <? signers - n 1) || ((signers <=? Z.of_nat i) && (Z.of_nat i <? Z.of_nat (length keys) - n 3)) = e.2.
Proof.
  intros n signers Hi. pose proof (length_sort_keys keys) as Hl. unfold sort_keys in Hl, Hi.
  rewrite !length_app in Hl. subst signers n. cbv beta.
  destruct (nth_app4 _ _ _ _ _ _ Hi) as [[He Hr]|[[He Hr]|[[He Hr]|[He Hr]]]];
    apply in_with_rank in He as [_ He]; destruct e as [[k []] []]; try discriminate He; cbn [fst snd];
    (split; [apply Z.ltb_lt || apply Z.ltb_ge; lia|]).
  - apply orb_true_iff. left. apply Z.ltb_lt. lia.
  - apply orb_false_iff. split; [apply Z.ltb_ge; lia|]. apply andb_false_iff. left. apply Z.leb_gt. lia.
  - apply orb_true_iff. right. apply andb_true_iff. split; [apply Z.leb_le | apply Z.ltb_lt]; lia.
  - apply orb_false_iff. split; [apply Z.ltb_ge; lia|]. apply andb_false_iff. right. apply Z.ltb_ge. lia.
Qed.
Lemma count_keys_sorted p q keys : (forall e, p e = q (rank e)) ->
  count_keys p (sort_keys keys) =
  [byte_of_Z (fold_right (fun r acc => (if q r then Z.of_nat (length (with_rank r keys)) else 0) + acc) 0 [0;1;2;3])].
Proof.
  intros Hpq. unfold count_keys. rewrite (filter_sorted p q keys Hpq), !length_app. do 2 f_equal. cbn.
  destruct (q 0), (q 1), (q 2), (q 3); cbn; lia.
Qed.
Lemma serialize_header payer ixs bh :
  let keys := collect_keys payer ixs in
  let n r := Z.of_nat (length (with_rank r keys)) in
  exists rest, serialize_message payer ixs bh = [byte_of_Z (n 0 + n 1); byte_of_Z (n 1); byte_of_Z (n 3)] ++ rest /\
  rest = compact_u16 (Z.of_nat (length keys)) ++ concat (keys_of (sort_keys keys)) ++ bh
    ++ compact_u16 (Z.of_nat (length ixs)) ++ concat (map (serialize_instruction (sort_keys keys)) ixs) ++ [].
Proof.
  intros keys n. eexists. split; [|reflexivity]. unfold serialize_message. fold keys.
  rewrite (count_keys_sorted (fun e => e.1.2) (fun r => r <=? 1)) by now intros [[? []] []].
  rewrite (count_keys_sorted (fun e => e.1.2 && negb e.2) (fun r => r =? 1)) by now intros [[? []] []].
  rewrite (count_keys_sorted (fun e => negb e.1.2 && negb e.2) (fun r => r =? 3)) by now intros [[? []] []].
  rewrite length_sort_keys, app_nil_r. subst n.
  cbn [app fold_right Z.leb Z.eqb Z.compare Pos.compare Pos.compare_cont Pos.eqb].
  rewrite !Z.add_0_l, !Z.add_0_r. done.
Qed.

(** ** Theorems *)

(** C13: a serialized message says what was asked. Read back by the legacy format and with its indices
    resolved, the message of [serialize_message] holds exactly the given instructions in
    order (programs, account keys, data) and the blockhash; its keys are distinct, the payer
    first; and the header makes an account a signer, or writable, exactly when some
    instruction asked for it (the payer is always both): no account gains or loses a
    privilege in the reordering. *)
Theorem message_roundtrip (payer : pubkey32) (ixs : list Instruction) (bh : list byte)
    (Hbh : length bh = 32%nat)
    (Hkeys : forall e, In e (requests payer ixs) -> length e.1.1 = 32%nat)
    (Hcount : (length (collect_keys payer ixs) <= 255)%nat)
    (Hixs : is_u64 (Z.of_nat (length ixs)))
    (Hlens : forall ix, In ix ixs ->
       is_u64 (Z.of_nat (length (accounts ix))) /\ is_u64 (Z.of_nat (length (ix_data ix)))) :
  exists m, parse_message (serialize_message payer ixs bh) = Some m /\
    msg_instructions m = map plain ixs /\ msg_blockhash m = bh /\
    NoDup (msg_keys m) /\ head (msg_keys m) = Some payer /\
    forall i k, nth_error (msg_keys m) i = Some k ->
      msg_is_signer m i = asks_sign k (requests payer ixs) /\
      msg_is_writable m i = asks_write k (requests payer ixs).
Proof.
  set (keys := collect_keys payer ixs) in *.
  pose proof (collect_keys_merged payer ixs) as [Hn Hf Hk]. fold keys in Hn, Hf, Hk.
  destruct (serialize_header payer ixs bh) as (rest & -> & ->). fold keys.
  set (n r := Z.of_nat (length (with_rank r keys))).
  pose proof (length_sort_keys keys) as Hl.
  assert (n 0 + n 1 + n 2 + n 3 = Z.of_nat (length keys)) as Hsum
    by (unfold n; rewrite <- Hl; unfold sort_keys; rewrite !length_app; lia).
  assert (forall r, 0 <= n r) as Hpos by (unfold n; lia).
  pose proof (Hpos 0). pose proof (Hpos 1). pose proof (Hpos 2). pose proof (Hpos 3).
  assert (forall k, k ∈ keys_of (sort_keys keys) <-> k ∈ keys_of (requests payer ixs)) as Hks.
  { intros k. rewrite <- Hk. unfold keys_of. rewrite !list_elem_of_In, !in_map_iff.
    split; intros (e & <- & He); exists e; (split; [done|]); now apply in_sort_keys. }
  unfold parse_message. rewrite split_at_app by done. cbn [mbind option_bind fst snd].
  rewrite parse_compact_u16 by (unfold_ints; lia). cbn [mbind option_bind fst snd].
  rewrite Nat2Z.id. replace (length keys) with (length (keys_of (sort_keys keys)))
    by (unfold keys_of; now rewrite length_map).
  rewrite parse_keys_concat.
  2:{ apply Forall_forall. intros k Hin%Hks. unfold keys_of in Hin.
      apply list_elem_of_In, in_map_iff in Hin as (e & <- & He). now apply Hkeys. }
  cbn [mbind option_bind fst snd]. rewrite split_at_app by lia. cbn [mbind option_bind fst snd].
  rewrite parse_compact_u16 by done. cbn [mbind option_bind fst snd]. rewrite Nat2Z.id.
  rewrite parse_instructions_serialize by
    (rewrite ?Hl; try lia; apply Forall_forall; intros ix Hin; now apply instruction_fits).
  cbn [mbind option_bind fst snd nth_error]. rewrite bool_decide_eq_true_2 by done.
  subst n. cbv beta in *. rewrite !Z_of_byte_of_Z, !Z.mod_small by lia.
  eexists. split; [reflexivity|]. cbn [msg_instructions msg_blockhash msg_keys].
  split; [done|]. split; [done|]. split; [now apply nodup_sort_keys|]. split.
  { unfold keys. destruct (collect_keys_head payer ixs) as (tl & ->). done. }
  intros i k Hi. unfold keys_of in Hi. rewrite nth_error_map in Hi.
  destruct (nth_error (sort_keys keys) i) as [e|] eqn:Ei; [|done]. injection Hi as <-.
  destruct (header_flags keys i e Ei) as [Hs Hw].
  apply nth_error_In, (proj1 (in_sort_keys e keys)), list_elem_of_In in Ei. rewrite Forall_forall in Hf.
  destruct (Hf e Ei) as [<- <-]. unfold msg_is_signer, msg_is_writable.
  cbn [msg_signers msg_readonly_signed msg_readonly_unsigned msg_keys].
  unfold keys_of. rewrite length_map, Hl. split; [exact Hs | exact Hw].
Qed.

(** Stand-ins for the witnesses: 32 bytes as 44 base-58 digits (43 are read as
    well), other lengths in hexadecimal behind a [0]; and a curve off which every
    hash of [ref_sha256] lies. *)
Definition b58_alphabet : str := "123456789ABCDEFGHJKLMNPQRSTUVWXYZabcdefghijkmnopqrstuvwxyz".
Definition b58_char (n : Z) : ascii := default "1"%char (String.get (Z.to_nat n) b58_alphabet).
Fixpoint index_in (a : ascii) (s : str) : Z :=
  match s with EmptyString => 0 | String b s => if Ascii.eqb a b then 0 else 1 + index_in a s end.
Definition b58_val (a : ascii) : Z := index_in a b58_alphabet.
Lemma b58_facts n : 0 <= n < 58 -> b58_val (b58_char n) = n /\ is_base58_char (b58_char n) = true.
Proof.
  intros Hn. assert (forallb (fun n => (b58_val (b58_char n) =? n) && is_base58_char (b58_char n))
    (map Z.of_nat (seq 0 58)) = true) as F by (vm_compute; reflexivity).
  rewrite forallb_forall in F.
  assert (In n (map Z.of_nat (seq 0 58))) as Hin.
  { apply in_map_iff. exists (Z.to_nat n). split; [lia|]. apply in_seq. lia. }
  apply F, andb_true_iff in Hin as [?%Z.eqb_eq ?]. done.
Qed.
Definition b58_encode_ref (b : list byte) : str :=
  if Nat.eqb (length b) 32 then digits 58 b58_char 44 (le_value b) else String "0" (hex_encode_ref b).
Definition b58_decode_ref (s : str) : option (list byte) :=
  if str_all is_base58_char s && ((len s =? 43) || (len s =? 44)) then
    Some (le_bytes 32 (digits_value 58 b58_val s))
  else match s with
       | String "0" h => b ← hex_decode_ref h; if Nat.eqb (length b) 32 then None else Some b
       | _ => None
       end.
Definition ref_base58 : Base58 := {| b58_encode := b58_encode_ref; b58_decode := b58_decode_ref |}.
Lemma b58_decode_encode b : b58_decode_ref (b58_encode_ref b) = Some b.
Proof.
  unfold b58_encode_ref, b58_decode_ref. destruct (Nat.eqb_spec (length b) 32) as [Hl|Hl].
  - destruct (digits_shape 58 b58_char b58_val is_base58_char b58_facts 44 (le_value b) ltac:(lia)) as [Hn Ha].
    pose proof (digits_value_digits 58 b58_char b58_val is_base58_char b58_facts 44 (le_value b)) as Hv.
    pose proof (le_value_range b) as Hr. rewrite Hl in Hr.
    change (256 ^ Z.of_nat 32) with (2 ^ 256) in Hr.
    assert (2 ^ 256 < 58 ^ Z.of_nat 44) as Hc by (vm_compute; reflexivity).
    specialize (Hv ltac:(lia) ltac:(lia)). revert Hn Ha Hv. generalize (digits 58 b58_char 44 (le_value b)).
    intros ds Hn Ha ->. unfold len. rewrite Ha, Hn. change ((Z.of_nat 44 =? 43) || (Z.of_nat 44 =? 44)) with true.
    cbn [andb]. now rewrite <- Hl, le_bytes_le_value.
  - cbn [str_all]. change (is_base58_char "0") with false. cbn [andb].
    destruct ref_hex_laws as [Hd _ _]. cbn in Hd. rewrite Hd. cbn.
    now rewrite (proj2 (Nat.eqb_neq _ _) Hl).
Qed.
Lemma ref_base58_laws : @Base58Laws ref_base58.
Proof.
  split; [exact b58_decode_encode|]. intros s b Hs Hl.
  change (b58_decode_ref s = Some b) in Hs. unfold b58_decode_ref in Hs.
  destruct (str_all is_base58_char s && _) eqn:E.
  - apply andb_true_iff in E as [Ha [E%Z.eqb_eq|E%Z.eqb_eq]%orb_true_iff]; split_and!; try done; lia || (right; lia).
  - exfalso. destruct s as [|a s]; [done|].
    repeat match type of Hs with match ?x with _ => _ end = _ => destruct x; try discriminate Hs end.
    destruct (hex_decode_ref s) as [b'|]; [|done]. cbn in Hs.
    destruct (Nat.eqb_spec (length b') 32); [done|]. congruence.
Qed.
Definition ref_curve : Curve25519 := {| is_on_curve b := bool_decide (nth 31 b x00 <> x00) |}.

Definition demo_ixs : list Instruction :=
  [@memo_ix ref_base58 (repeat x01 32) "patala:v1:00";
   @transfer_checked ref_base58 (repeat x02 32) (repeat x03 32) (repeat x04 32) (repeat x01 32) 700 6].
Lemma message_roundtrip_witness :
  exists m, parse_message (serialize_message (repeat x01 32) demo_ixs (repeat x09 32)) = Some m /\
    msg_instructions m = map plain demo_ixs /\ head (msg_keys m) = Some (repeat x01 32).
Proof.
  destruct (message_roundtrip (repeat x01 32) demo_ixs (repeat x09 32)) as (m & Hm & Hi & _ & _ & Hh & _).
  - reflexivity.
  - apply List.Forall_forall. repeat constructor.
  - vm_compute. lia.
  - vm_compute. split; discriminate.
  - apply List.Forall_forall. repeat constructor; vm_compute; intuition discriminate.
  - exists m. split; [exact Hm|]. split; [exact Hi | exact Hh].
Defined.

(** C31: compact_u16's loop ends, after one turn for every group of seven bits of
    the length it writes. For every usize ten turns are enough: allowing more
    changes nothing, what is written is minimal and no longer than ten bytes
    (three for a length of a u16), and it reads back as that length with the
    bytes after it left alone. *)
Theorem compact_u16_terminates v :
  is_u64 v ->
  (forall turns, (10 <= turns)%nat -> compact_loop turns v = compact_u16 v) /\
  (exists n, length (compact_u16 v) = S n /\ (n < 10)%nat /\ v < 128 ^ Z.of_nat (S n) /\
     (n = O \/ 128 ^ Z.of_nat n <= v) /\ (v < 2 ^ 16 -> (n < 3)%nat)) /\
  (forall rest, parse_compact (compact_u16 v ++ rest) = Some (v, rest)).
Proof.
  intros Hv. assert (0 <= v < 128 ^ Z.of_nat 10) as Hw.
  { unfold_ints. change (128 ^ Z.of_nat 10) with (2 ^ 70). lia. }
  split; [intros turns Ht; apply compact_loop_fuel; [done | lia]|].
  split; [|intros; now apply parse_compact_u16].
  destruct (compact_loop_length 10 v Hw) as (n & Hl & Hlt & Hge); [lia|]. exists n. split; [exact Hl|].
  assert (forall m, 0 <= v < 128 ^ Z.of_nat m -> (0 < m)%nat -> (n < m)%nat) as Hn.
  { intros m Hm Hp. destruct Hge as [->|Hge]; [lia|]. apply Nat2Z.inj_lt, (Z.pow_lt_mono_r_iff 128); lia. }
  split_and!; try done; [apply Hn; [exact Hw | lia]|]. intros Hs. apply Hn; [cbn; lia | lia].
Qed.
Lemma compact_u16_terminates_witness :
  is_u64 1232 /\ compact_loop 64 1232 = compact_u16 1232 /\ compact_u16 1232 = [xd0; x09].
Proof.
  split; [unfold_ints; lia|]. split; [|vm_compute; reflexivity].
  apply (compact_u16_terminates 1232); [unfold_ints; lia | lia].
Defined.

(** [find_program_address] answers the highest bump whose hash is off the curve, with that hash, and
    fails exactly when all 256 hashes are on it: the search terminates, and its address can
    never be a signable key. *)
Theorem find_program_address_spec `{Sha256, Curve25519} (seeds : list (list byte)) (program : pubkey32) :
  (forall addr bump, find_program_address seeds program = Ok (addr, bump) <->
     0 <= bump <= 255 /\ addr = pda_candidate seeds bump program /\ is_on_curve addr = false /\
     forall b, bump < b <= 255 -> is_on_curve (pda_candidate seeds b program) = true) /\
  (find_program_address seeds program = Err Derivation <->
     forall b, 0 <= b <= 255 -> is_on_curve (pda_candidate seeds b program) = true).
Proof.
  assert (forall n, (forall addr bump, find_bump n seeds program = Ok (addr, bump) <->
     0 <= bump < Z.of_nat n /\ addr = pda_candidate seeds bump program /\ is_on_curve addr = false /\
     forall b, bump < b < Z.of_nat n -> is_on_curve (pda_candidate seeds b program) = true) /\
    (find_bump n seeds program = Err Derivation <->
     forall b, 0 <= b < Z.of_nat n -> is_on_curve (pda_candidate seeds b program) = true)) as Hn.
  { induction n as [|n [IH1 IH2]]; cbn [find_bump].
    - split; [intros a b; split; [done | lia]|]. split; [lia | done].
    - destruct (is_on_curve (pda_candidate seeds (Z.of_nat n) program)) eqn:E; cbn [negb].
      + assert (forall b, Z.of_nat n <= b < Z.of_nat (S n) -> b = Z.of_nat n) as Hb by lia.
        split; [intros addr bump; rewrite IH1 | rewrite IH2]; split.
        * intros (Hr & -> & Hc & Ha). split_and!; try done; try lia. intros b Hbr.
          destruct (Z_lt_le_dec b (Z.of_nat n)); [apply Ha; lia | now rewrite (Hb b ltac:(lia))].
        * intros (Hr & -> & Hc & Ha). split_and!; try done; try (intros; apply Ha; lia).
          { lia. }
          destruct (Z.eq_dec bump (Z.of_nat n)) as [->|]; [congruence | lia].
        * intros Ha b Hbr. destruct (Z_lt_le_dec b (Z.of_nat n)); [apply Ha; lia | now rewrite (Hb b ltac:(lia))].
        * intros Ha b Hbr. apply Ha. lia.
      + split.
        * intros addr bump. split.
          -- intros [= <- <-]. split_and!; try done; lia.
          -- intros (Hr & -> & Hc & Ha). destruct (Z_lt_le_dec bump (Z.of_nat n)).
             ++ specialize (Ha (Z.of_nat n) ltac:(lia)). congruence.
             ++ assert (bump = Z.of_nat n) as -> by lia. done.
        * split; [done|]. intros Ha. specialize (Ha (Z.of_nat n) ltac:(lia)). congruence. }
  destruct (Hn 256%nat) as [H1 H2]. unfold find_program_address. change (Z.of_nat 256) with 256 in *.
  split; [intros addr bump; rewrite H1 | rewrite H2]; split.
  - intros (? & ? & ? & Ha). split_and!; try done; try lia. intros; apply Ha; lia.
  - intros (? & ? & ? & Ha). split_and!; try done; try lia. intros; apply Ha; lia.
  - intros Ha b ?. apply Ha. lia.
  - intros Ha b ?. apply Ha. lia.
Qed.
