(* ===== verification/SolanaDest.v ===== *)
(** * Solana destinations ([patala-solana/src/destination.rs])

    What is decidable about an address offline: the accounts nobody holds a key
    for, addresses of other chains, the alphabet, the length and the curve. *)

From S2P Require Import Prelude RustStr Core External FiatDest SolanaTx.

Definition SOLANA_RAIL_ID : str := "solana".

Definition base58_lookalike (c : str) : option str :=
  return_if String.eqb c "0" with_ Some "the digit 0 is not in the base58 alphabet — did you mean the letter O? (base58 omits both, so re-copy the address rather than guessing)"%string;
  return_if String.eqb c "O" with_ Some "the letter O is not in the base58 alphabet — did you mean the digit 0? (base58 omits both, so re-copy the address rather than guessing)"%string;
  return_if String.eqb c "I" with_ Some "the capital I is not in the base58 alphabet — did you mean a lowercase l or the digit 1? (base58 omits I and l, so re-copy the address rather than guessing)"%string;
  return_if String.eqb c "l" with_ Some "the lowercase l is not in the base58 alphabet — did you mean a capital I or the digit 1? (base58 omits I and l, so re-copy the address rather than guessing)"%string;
  None.

Definition WELL_KNOWN_ACCOUNTS : list (str * str) := [
  ("11111111111111111111111111111111", "the System Program (the all-zeroes account id)");
  ("TokenkegQfeZyiNwAJbNbGKPFXCWuBvf9Ss623VQ5DA", "the SPL Token program");
  ("TokenzQdBNbLqP5VEhdkAS6EPFLC1PHnBqCXEpPxuEb", "the SPL Token-2022 program");
  ("ATokenGPvbdGVxr1b2hvZbsiqW5xWH25efTNsLJA8knL", "the Associated Token Account program");
  ("MemoSq4gqABAXKb96qnH8TysNcWxMyWCqXgDLGmfcHr", "the SPL Memo v3 program");
  ("ComputeBudget111111111111111111111111111111", "the Compute Budget program");
  ("Stake11111111111111111111111111111111111111", "the Stake program");
  ("Vote111111111111111111111111111111111111111", "the Vote program");
  ("SysvarRent111111111111111111111111111111111", "the Rent sysvar");
  ("SysvarC1ock11111111111111111111111111111111", "the Clock sysvar");
  ("1nc1nerator11111111111111111111111111111111",
   "the incinerator — anything sent here is burned, permanently and by design");
  (USDC_MAINNET_MINT, "the mainnet-beta USDC mint account itself, not a wallet holding USDC");
  (USDC_DEVNET_MINT, "the devnet USDC mint account itself, not a wallet holding USDC");
  ("So11111111111111111111111111111111111111112", "the Wrapped SOL mint account itself, not a wallet")
]%string.

Inductive ForeignFormat := OtherChain (what : str) | StellarSecretSeed.

Definition is_upper_base32 (s : str) : bool :=
  negb (is_empty s) && str_all (fun b => is_ascii_uppercase b || between 50 55 b) s.
Definition strkey_shape (first : ascii) (n : Z) : option ForeignFormat :=
  let hit c m := Ascii.eqb first c && (n =? m) in
  return_if hit "S"%char 56 with_ Some StellarSecretSeed;
  return_if hit "G"%char 56 with_ Some (OtherChain "a Stellar account address (G…)");
  return_if hit "C"%char 56 with_ Some (OtherChain "a Stellar/Soroban contract address (C…)");
  return_if hit "T"%char 56 with_ Some (OtherChain "a Stellar pre-authorized-transaction signer (T…)");
  return_if hit "X"%char 56 with_ Some (OtherChain "a Stellar hash-x signer (X…)");
  return_if hit "M"%char 69 with_ Some (OtherChain "a Stellar muxed account address (M…)");
  return_if Ascii.eqb first "P" && (56 <=? n) with_
    Some (OtherChain "a Stellar signed-payload signer (P…)");
  None.
Definition is_stellar_shape (dest : str) : option ForeignFormat :=
  return_if negb (is_upper_base32 dest) with_ None;
  let_some first := first_char dest or_else None;
  strkey_shape first (len dest).

Definition is_bech32_shape (dest : str) : bool :=
  let_some rest := orElse (strip_prefix "bc1" dest)
    (orElse (strip_prefix "tb1" dest) (strip_prefix "bcrt1" dest)) or_else false;
  negb (is_empty rest) && str_all (fun b => is_ascii_lowercase b || is_ascii_digit b) rest.
Definition hex_shape (dest : str) : option ForeignFormat :=
  let_some hex := orElse (strip_prefix "0x" dest) (strip_prefix "0X" dest) or_else None;
  return_if negb (str_all is_ascii_hexdigit hex) with_ None;
  return_if len hex =? 40 with_ Some (OtherChain "an Ethereum/EVM address (0x + 40 hex characters)");
  return_if len hex =? 64 with_ Some (OtherChain "a Sui or Aptos address (0x + 64 hex characters)");
  None.

Definition solana_seed_refusal (what : str) : DestinationVerdict := malformed SOLANA_RAIL_ID
  ("STOP — this is not an address, it is " +:+ what +:+ ". You have just pasted a PRIVATE KEY into a destination field. Treat it as disclosed: create a new account, move everything the old key controls to it, and never use the old key again. patala has not logged the value and this message does not repeat it, but wherever you copied it from may have. The address you want is the PUBLIC one derived from that key.").

Definition bad_base58_char (c : str) : bool :=
  match c with String a EmptyString => negb (is_base58_char a) | _ => true end.

Section SolanaDest.
Context `{Base58} `{Curve25519}.

Definition bitcoin_shape (dest : str) : option ForeignFormat :=
  return_if (len dest =? 43) || (len dest =? 44) with_ None;
  return_if (26 <=? len dest) && (len dest <=? 35)
      && (starts_with_char "1" dest || starts_with_char "3" dest)
      && bool_decide ((length <$> b58_decode dest) = Some 25%nat) with_
    Some (OtherChain "a legacy Bitcoin address");
  return_if is_bech32_shape dest with_ Some (OtherChain "a bech32 Bitcoin address (bc1…)");
  None.
Definition solana_foreign_format (dest : str) : option ForeignFormat :=
  orElse (is_stellar_shape dest) (orElse (bitcoin_shape dest) (hex_shape dest)).

Definition solana_validate (dest : str) : DestinationVerdict :=
  return_if is_blank dest with_
    malformed SOLANA_RAIL_ID "an empty destination is not an address on any rail";
  return_if negb (String.eqb (trim dest) dest) with_
    malformed SOLANA_RAIL_ID "this address has leading or trailing whitespace, which came from the copy rather than from the address — remove it and check nothing else was picked up with it";
  match List.find (fun p => String.eqb p.1 dest) WELL_KNOWN_ACCOUNTS with
  | Some (_, what) =>
      not_a_wallet SOLANA_RAIL_ID ("this is " +:+ what +:+ ". It is a real Solana account, but no one holds a key for it and nothing sent to it can be recovered — by the recipient, by you, or by anyone. Ask for the recipient's own wallet address.")
  | None =>
      match solana_foreign_format dest with
      | Some StellarSecretSeed => solana_seed_refusal "a Stellar secret seed (S…)"
      | Some (OtherChain what) =>
          wrong_network SOLANA_RAIL_ID ("this looks like " +:+ what +:+ ", not a Solana address. The solana rail pays SPL USDC on Solana only; funds sent using an address from another chain do not arrive on that chain, they simply do not arrive. Ask for the recipient's Solana wallet address — 32 bytes of base58, 43 or 44 characters.")
      | None =>
          match List.find bad_base58_char (chars dest) with
          | Some bad =>
              malformed SOLANA_RAIL_ID ("this is not a Solana address: "
                +:+ default ("the character " +:+ debug_char bad
                              +:+ " is not in the base58 alphabet Solana addresses use")
                      (base58_lookalike bad) +:+ ".")
          | None =>
              match pubkey_from_base58 dest with
              | Err _ =>
                  malformed SOLANA_RAIL_ID ("this is base58 but it decodes to "
                    +:+ match b58_decode dest with
                        | Some b => to_dec (Z.of_nat (length b)) +:+ " bytes"
                        | None => "something base58 could not decode at all"
                        end
                    +:+ "; a Solana address is exactly 32 bytes, which is always 43 or 44 characters. A string of the wrong length is usually an address for a different chain, or one that lost characters when it was copied.")
              | Ok key =>
                  return_if negb (is_on_curve key) with_
                    not_a_wallet SOLANA_RAIL_ID "this is a valid 32-byte Solana account id, but it is not on the ed25519 curve, so no private key can exist for it — it is a program-derived address (a program's own account, or an associated token account). If it is an associated token account, note that this rail derives the recipient's token account from their WALLET address itself: give it the wallet, not the token account, or the transfer is built against the token account of a token account and the funds are unreachable.";
                  structurally_valid SOLANA_RAIL_ID "this is a well-formed Solana address: 32 bytes of base58, on the ed25519 curve, and not a program or mint this rail knows of. That is every check possible without asking the chain a question — whether the account exists, is rent-exempt, or already holds a USDC token account are all chain queries, and whether the person on the other end can actually be credited on it is not knowable at all. Confirm with them before paying."
              end
          end
      end
  end.
End SolanaDest.

(** ** Lemmas *)

Lemma solana_verdict_honest `{Base58, Curve25519} d : verdict_honest SOLANA_RAIL_ID (solana_validate d).
Proof. unfold solana_validate, solana_seed_refusal. solve_honest. Qed.
Lemma solana_blank_refused `{Base58, Curve25519} d : is_blank d = true -> status (solana_validate d) = Malformed.
Proof. unfold solana_validate. now intros ->. Qed.

Lemma chars_plain s : str_all (fun a => negb (is_continuation a)) s = true ->
  chars s = map (fun a => String a EmptyString) (list_ascii_of_string s).
Proof.
  induction s as [|a s IH]; [done|]. cbn [str_all chars list_ascii_of_string map].
  intros [Ha Hs]%andb_true_iff. rewrite IH by done. destruct s as [|b s]; [done|].
  cbn [list_ascii_of_string map first_char]. cbn [str_all] in Hs.
  apply andb_true_iff in Hs as [Hb _]. apply negb_true_iff in Hb. now rewrite Hb.
Qed.
Lemma base58_char_plain a : is_base58_char a = true -> is_continuation a = false /\ is_graphic a = true.
Proof. revert a. intros [[] [] [] [] [] [] [] []]; vm_compute; intuition congruence. Qed.
Lemma no_bad_base58 s : str_all is_base58_char s = true -> List.find bad_base58_char (chars s) = None.
Proof.
  intros Hs. rewrite chars_plain.
  - induction s as [|a s IH]; [done|]. cbn [str_all] in Hs. apply andb_true_iff in Hs as [Ha Hs].
    cbn [list_ascii_of_string map List.find bad_base58_char]. rewrite Ha. cbn [negb]. auto.
  - apply (str_all_impl is_base58_char); [|done]. intros a Ha. now destruct (base58_char_plain a Ha) as [-> _].
Qed.

(** An address of 32 bytes is never mistaken for another chain's. *)
Lemma address_not_foreign `{Base58Laws, Curve25519} d b :
  b58_decode d = Some b -> length b = 32%nat -> solana_foreign_format d = None.
Proof.
  intros Hd Hl. destruct (b58_address_shape d b Hd Hl) as (Ha & [Hmin Hmax] & Hone).
  destruct d as [|a d]; [unfold len in Hmin; cbn in Hmin; lia|].
  assert (is_base58_char a = true) as Hc by (cbn [str_all] in Ha; now apply andb_true_iff in Ha as [? _]).
  unfold solana_foreign_format.
  assert (is_stellar_shape (String a d) = None) as ->.
  { unfold is_stellar_shape. case_match; [done|]. cbn [first_char]. unfold strkey_shape. cbv zeta.
    rewrite !(proj2 (Z.eqb_neq (len (String a d)) _)) by lia. rewrite !andb_false_r.
    rewrite (proj2 (Z.leb_gt _ _)) by lia. now rewrite andb_false_r. }
  assert (bitcoin_shape (String a d) = None) as ->.
  { unfold bitcoin_shape. case_match eqn:E43; [done|]. rewrite Hd. cbn [fmap option_fmap option_map].
    rewrite Hl, (bool_decide_eq_false_2 (Some 32%nat = Some 25%nat)) by done. rewrite andb_false_r.
    apply orb_false_iff in E43 as [?%Z.eqb_neq ?%Z.eqb_neq].
    destruct Hone as [Hone|?]; [|lia]. injection Hone as ->. reflexivity. }
  unfold hex_shape. cbn [orElse strip_prefix].
  destruct (Ascii.eqb_spec "0" a) as [<-|]; [discriminate Hc | done].
Qed.

(** ** Theorems *)

(** What [validate_destination] of the Solana rail promises. It answers [StructurallyValid] exactly
    for the addresses [charge] accepts (32 bytes of base58) whose bytes are a point on the
    curve and which are not one of the well-known accounts: nobody is told that a program, a
    mint or a program-derived address is a wallet, and no real wallet address is refused as
    another chain's. *)
Theorem solana_destination_decided `{Base58Laws, Curve25519} (d : str) :
  status (solana_validate d) = StructurallyValid <->
  (exists k, pubkey_from_base58 d = Ok k /\ is_on_curve k = true) /\ ~ In d (map fst WELL_KNOWN_ACCOUNTS).
Proof.
  assert ((exists p, List.find (fun p => String.eqb p.1 d) WELL_KNOWN_ACCOUNTS = Some p) <->
    In d (map fst WELL_KNOWN_ACCOUNTS)) as Hk.
  { split.
    - intros ([a what] & [Hin E%String.eqb_eq]%List.find_some). cbn in E. subst. now apply (in_map fst) in Hin.
    - intros ([a what] & E & Hin)%in_map_iff. cbn in E. subst.
      destruct (List.find _ _) eqn:F; [eauto|].
      pose proof (List.find_none _ _ F _ Hin) as N. cbn in N. now rewrite String.eqb_refl in N. }
  split.
  - unfold solana_validate, solana_seed_refusal.
    destruct (is_blank d); [done|]. destruct (negb (String.eqb (trim d) d)); [done|].
    destruct (List.find (fun p => String.eqb p.1 d) WELL_KNOWN_ACCOUNTS) as [[a what]|] eqn:F; [done|].
    destruct (solana_foreign_format d) as [[]|]; [done | done|].
    destruct (List.find bad_base58_char (chars d)); [done|].
    destruct (pubkey_from_base58 d) as [k|]; [|done].
    destruct (is_on_curve k) eqn:Ec; [|done]. intros _. split; [eauto|].
    intros (p & E)%Hk. congruence.
  - intros [(k & Hd & Hc) Hw]. unfold solana_validate.
    pose proof Hd as Hd'. unfold pubkey_from_base58, mbind, result_bind in Hd'.
    destruct (b58_decode d) as [raw|] eqn:Er; [|done]. cbn [ok_or] in Hd'.
    destruct (array_of 32 raw) as [k'|] eqn:Ea; [|done]. apply array_of_Some in Ea as [-> Hl].
    destruct (b58_address_shape d raw Er Hl) as (Ha & [Hmin _] & _).
    assert (str_all is_graphic d = true) as Hg
      by (apply (str_all_impl is_base58_char); [|done]; intros a ?; now apply base58_char_plain).
    rewrite is_blank_graphic, trim_graphic, String.eqb_refl; [|done | done | intros ->; apply Hmin; reflexivity].
    cbn [negb]. destruct (List.find (fun p => String.eqb p.1 d) WELL_KNOWN_ACCOUNTS) as [p|] eqn:F.
    { destruct Hw. apply Hk. eauto. }
    rewrite (address_not_foreign d raw Er Hl), (no_bad_base58 d Ha), Hd, Hc. done.
Qed.
Definition demo_wallet : str := @b58_encode ref_base58 (repeat x05 32).
Lemma solana_destination_decided_witness :
  status (@solana_validate ref_base58 ref_curve demo_wallet) = StructurallyValid.
Proof.
  apply (@solana_destination_decided ref_base58 ref_base58_laws ref_curve demo_wallet). split.
  - exists (repeat x05 32). split; vm_compute; reflexivity.
  - vm_compute. intuition discriminate.
Defined.
