(* ===== verification/SolanaRail.v ===== *)
(** * The Solana rail ([patala-solana/src/lib.rs], the seam of [rpc.rs])

    SPL-USDC: [charge] builds, signs and sends a memo and a checked transfer;
    [verify] reads a confirmed transaction back as JSON and checks its outcome,
    its signer, its memo and the net token balances. *)

From S2P Require Import Prelude RustStr Core External Json SolanaTx SolanaDest.

(** ** Configuration *)

Inductive Cluster := MainnetBeta | Devnet | SolTestnet | Localnet.
#[export] Instance Cluster_eq_dec : EqDecision Cluster.
Proof. solve_decision. Defined.
Definition cluster_parse (s : str) : Result Error Cluster :=
  return_if String.eqb s "mainnet-beta" || String.eqb s "mainnet" with_ Ok MainnetBeta;
  return_if String.eqb s "devnet" with_ Ok Devnet;
  return_if String.eqb s "testnet" with_ Ok SolTestnet;
  return_if String.eqb s "localnet" || String.eqb s "local" with_ Ok Localnet;
  Err (from_solana (SolConfig ("unknown cluster " +:+ debug_str s))).
Definition cluster_is_mainnet (c : Cluster) : bool :=
  match c with MainnetBeta => true | _ => false end.

Inductive Commitment := Confirmed | Finalized.
#[export] Instance Commitment_eq_dec : EqDecision Commitment.
Proof. solve_decision. Defined.
Definition commitment_parse (s : str) : Result Error Commitment :=
  return_if String.eqb s "confirmed" with_ Ok Confirmed;
  return_if String.eqb s "finalized" with_ Ok Finalized;
  return_if String.eqb s "processed" with_
    Err (from_solana (SolConfig "commitment 'processed' can be rolled back and is not accepted"));
  Err (from_solana (SolConfig ("unknown commitment " +:+ debug_str s))).
Definition commitment_str (c : Commitment) : str :=
  match c with Confirmed => "confirmed" | Finalized => "finalized" end.
Definition commitment_settlement (c : Commitment) : Settlement :=
  match c with Confirmed => Seconds 1 | Finalized => Seconds 13 end.

Record SolanaConfig := {
  rpc_url : str;
  cluster : Cluster;
  commitment : Commitment;
  usdc_mint : pubkey32;
}.

Record SolanaRpc (W : Type) := {
  sol_get_transaction : str -> str -> Eff W SolanaError (option Json);
  get_latest_blockhash : str -> Eff W SolanaError str;
  send_transaction : str -> Eff W SolanaError str;
}.
Arguments sol_get_transaction {W} _ _ _ _.
Arguments get_latest_blockhash {W} _ _ _.
Arguments send_transaction {W} _ _ _.

Record SolanaBinding := {
  sb_chain : str;
  tx_signature : str;
  mint : str;
  sb_payer : str;
  sb_destination : str;
  sb_reference : str;
}.

Record SolanaRail (W : Type) := {
  sol_cfg : SolanaConfig;
  sol_rpc : SolanaRpc W;
  sol_signer : option (list byte);
  sol_capabilities : RailCapabilities;
}.
Arguments sol_cfg {W} _.
Arguments sol_rpc {W} _.
Arguments sol_signer {W} _.
Arguments sol_capabilities {W} _.

Definition solana_new {W} (c : SolanaConfig) (h : SolanaRpc W) : SolanaRail W := {|
  sol_cfg := c; sol_rpc := h; sol_signer := None;
  sol_capabilities := {|
    class := NonCustodialFinal; reversible := false; requires_kyc := false; holds_funds := false;
    currencies := ["USDC"%string]; settlement := commitment_settlement (commitment c);
    atomic_multi_party := false;
  |};
|}.
Definition sol_with_signer {W} (seed : list byte) (r : SolanaRail W) : SolanaRail W :=
  {| sol_cfg := sol_cfg r; sol_rpc := sol_rpc r; sol_signer := Some seed;
     sol_capabilities := sol_capabilities r |}.

Definition sol_signer_pubkey `{Ed25519} {W} (r : SolanaRail W) : option pubkey32 :=
  ed_pubkey <$> sol_signer r.

(** ** Reading a transaction *)

(** [v.get(a)?.get(b)?] *)
Definition get2 (a b : str) (j : Json) : option Json := get_field a j ≫= get_field b.

Definition is_memo (want : str) (ix : Json) : bool :=
  bool_decide (get_str "program" ix = Some "spl-memo"%string)
  && bool_decide (get_str "parsed" ix = Some want).
Definition memo_scan (ixs : option Json) (want : str) : bool :=
  match ixs ≫= as_array with Some arr => existsb (is_memo want) arr | None => false end.
Definition memo_matches (txn : Json) (want : str) : bool :=
  let msg := get2 "transaction" "message" txn in
  return_if memo_scan (msg ≫= get_field "instructions") want with_ true;
  match get2 "meta" "innerInstructions" txn ≫= as_array with
  | Some groups => existsb (fun g => memo_scan (get_field "instructions" g) want) groups
  | None => false
  end.

(** [i128] arithmetic as compiled for release: it wraps. *)
Definition wrap_i128 (z : Z) : Z := (z + 2 ^ 127) mod 2 ^ 128 - 2 ^ 127.

Fixpoint add_delta (owner : str) (d : Z) (deltas : list (str * Z)) : list (str * Z) :=
  match deltas with
  | [] => [(owner, d)]
  | (o, x) :: deltas =>
      if String.eqb o owner then (o, wrap_i128 (x + d)) :: deltas
      else (o, x) :: add_delta owner d deltas
  end.
(** The owner and amount of a balance entry of this mint. *)
Definition balance_entry (e : Json) : Result Error (str * Z) :=
  owner ← ok_or (Rail "token balance without owner") (get_str "owner" e);
  text ← ok_or (Rail "token balance without amount") (get2 "uiTokenAmount" "amount" e ≫= as_str);
  amt ← ok_or (Rail "token amount is not an integer") (parse_i128 text);
  mret (owner, amt).
Fixpoint apply_balances (mint_b58 : str) (sign : Z) (entries : list Json) (deltas : list (str * Z))
    : Result Error (list (str * Z)) :=
  match entries with
  | [] => Ok deltas
  | e :: entries =>
      return_if negb (bool_decide (get_str "mint" e = Some mint_b58)) with_
        apply_balances mint_b58 sign entries deltas;
      oa ← balance_entry e;
      apply_balances mint_b58 sign entries (add_delta oa.1 (wrap_i128 (sign * oa.2)) deltas)
  end.
Definition mint_deltas (txn : Json) (mint_b58 : str) : Result Error (list (str * Z)) :=
  meta ← ok_or (Rail "transaction has no meta") (get_field "meta" txn);
  deltas ← apply_balances mint_b58 (-1) (items_of (get_field "preTokenBalances" meta)) [];
  apply_balances mint_b58 1 (items_of (get_field "postTokenBalances" meta)) deltas.

Definition succeeded (txn : Json) : bool :=
  match get2 "meta" "err" txn with Some e => is_null e | None => false end.
Definition commitment_ok (c : Commitment) (txn : Json) : bool :=
  match get_str "confirmationStatus" txn with
  | Some status =>
      match c with
      | Confirmed => String.eqb status "confirmed" || String.eqb status "finalized"
      | Finalized => String.eqb status "finalized"
      end
  | None => true
  end.
Definition is_signer_key (want : str) (k : Json) : bool :=
  bool_decide (get_str "pubkey" k = Some want)
  && bool_decide ((get_field "signer" k ≫= as_bool) = Some true).
Definition signed_by (want : str) (txn : Json) : bool :=
  match (get2 "transaction" "message" txn ≫= get_field "accountKeys") ≫= as_array with
  | Some keys => existsb (is_signer_key want) keys
  | None => false
  end.
Definition delta_of (who : str) (deltas : list (str * Z)) : Z := default 0 (assoc who deltas).
Definition deltas_match (expected deltas : list (str * Z)) : bool :=
  forallb (fun '(who, want) => delta_of who deltas =? want) expected
  && forallb (fun '(who, d) => (d =? 0) || existsb (fun '(e, _) => String.eqb e who) expected) deltas.

(** [blake3] *)
Class Blake3 := { blake3 : list byte -> list byte }.

Section SolanaRail.
Context `{Base58} `{Curve25519} `{Sha256} `{Ed25519} `{Hex} `{Blake3} `{Serde SolanaBinding}.
Context {W : Type} `{Clock W}.

Definition solana_devnet (url : str) : SolanaConfig := {|
  rpc_url := url; cluster := Devnet; commitment := Confirmed; usdc_mint := const_key USDC_DEVNET_MINT |}.
Definition solana_mainnet (url : str) : SolanaConfig := {|
  rpc_url := url; cluster := MainnetBeta; commitment := Finalized; usdc_mint := const_key USDC_MAINNET_MINT |}.
Definition mint_base58 (c : SolanaConfig) : str := pubkey_to_base58 (usdc_mint c).
Definition reference_preimage (payer : pubkey32) (ref : str) : list byte :=
  as_bytes "patala-solana-pay-v1" ++ payer ++ u64_le (len ref) ++ as_bytes ref.
Definition binding_reference (payer : pubkey32) (ref : str) : list byte :=
  blake3 (reference_preimage payer ref).
Definition binding_memo (payer : pubkey32) (ref : str) : str :=
  "patala:v1:" +:+ hex_encode (binding_reference payer ref).

Definition sol_only_usdc (c : str) : Error :=
  InvalidRequest ("solana rail only supports USDC, got " +:+ c).
Definition solana_quote (r : SolanaRail W) (req : PayRequest) : Eff W Error Quote :=
  eff_of (validate req) ≫= fun _ =>
  return_if negb (String.eqb (req_currency req) "USDC") with_ eff_err (sol_only_usdc (req_currency req));
  now ← read_clock;
  mret {|
    q_rail_id := SOLANA_RAIL_ID;
    q_amount_minor := req_amount_minor req;
    q_currency := req_currency req;
    q_fee_minor := 0;
    q_total_minor := req_amount_minor req;
    q_settlement := settlement (sol_capabilities r);
    q_expires_at_unix := u64_saturating_add now 60;
  |}.

(** The two instructions of a payment. *)
Definition payment_ixs (c : SolanaConfig) (payer dest : pubkey32) (amt : Z) (ref : str)
    : Result SolanaError (list Instruction) :=
  source ← associated_token_address payer (usdc_mint c);
  dest_ata ← associated_token_address dest (usdc_mint c);
  mret [memo_ix payer (binding_memo payer ref);
        transfer_checked source (usdc_mint c) dest_ata payer amt SOL_USDC_DECIMALS].

Definition solana_charge (r : SolanaRail W) (req : PayRequest) : Eff W Error Receipt :=
  eff_of (validate req) ≫= fun _ =>
  return_if negb (String.eqb (req_currency req) "USDC") with_ eff_err (sol_only_usdc (req_currency req));
  let_some seed := sol_signer r or_else
    eff_err (Rail "solana rail holds no signing key; it is verify-only (configure one with `with_signer`/`from_env` to charge)");
  dest ← eff_of (map_err (fun e => InvalidRequest
    ("destination is not a valid solana address: " +:+ solana_error_display e))
    (pubkey_from_base58 (req_destination req)));
  let payer := ed_pubkey seed in
  blockhash ← eff_map_err from_solana
    (get_latest_blockhash (sol_rpc r) (commitment_str (commitment (sol_cfg r))));
  bh ← eff_of (ok_or (Rail "blockhash is not 32 bytes") (b58_decode blockhash ≫= array_of 32));
  ixs ← eff_of (map_err from_solana
    (payment_ixs (sol_cfg r) payer dest (req_amount_minor req) (req_reference req)));
  let message := serialize_message payer ixs bh in
  let wire := wire_transaction (ed_sign seed message) message in
  sent ← eff_map_err from_solana (send_transaction (sol_rpc r) (b64 wire));
  let binding := {|
    sb_chain := "solana";
    tx_signature := sent;
    mint := mint_base58 (sol_cfg r);
    sb_payer := pubkey_to_base58 payer;
    sb_destination := req_destination req;
    sb_reference := hex_encode (binding_reference payer (req_reference req));
  |} in
  bytes ← eff_of (map_err (fun e => Rail ("encode receipt proof: " +:+ e)) (to_vec binding));
  now ← read_clock;
  mret {|
    rail_id := SOLANA_RAIL_ID;
    amount_minor := req_amount_minor req;
    currency := req_currency req;
    reference := req_reference req;
    proof := bytes;
    settled_at_unix := now;
  |}.

(** The checks of [verify] before any network: the binding and the payer, or
    [return Ok(false)]. *)
Definition solana_offline (r : SolanaRail W) (receipt : Receipt) : option (SolanaBinding * pubkey32) :=
  return_if negb (String.eqb (rail_id receipt) SOLANA_RAIL_ID) with_ None;
  return_if negb (String.eqb (currency receipt) "USDC") with_ None;
  let_some binding := from_slice (T := SolanaBinding) (proof receipt) or_else None;
  return_if negb (String.eqb (sb_chain binding) "solana") with_ None;
  return_if negb (String.eqb (mint binding) (mint_base58 (sol_cfg r))) with_ None;
  let_ok payer := pubkey_from_base58 (sb_payer binding) or_else None;
  let expected_ref := hex_encode (binding_reference payer (reference receipt)) in
  return_if negb (String.eqb (sb_reference binding) expected_ref) with_ None;
  Some (binding, payer).

(** What the receipt says the net balance changes are. *)
Definition expected_deltas (binding : SolanaBinding) (payer : pubkey32) (receipt : Receipt)
    : list (str * Z) :=
  [(sb_destination binding, amount_minor receipt);
   (pubkey_to_base58 payer, - amount_minor receipt)].
(** The checks of the transaction the cluster returned. *)
Definition check_txn (r : SolanaRail W) (receipt : Receipt) (binding : SolanaBinding)
    (payer : pubkey32) (txn : Json) : Result Error bool :=
  return_if negb (succeeded txn) with_ Ok false;
  return_if negb (commitment_ok (commitment (sol_cfg r)) txn) with_ Ok false;
  return_if negb (signed_by (pubkey_to_base58 payer) txn) with_ Ok false;
  return_if negb (memo_matches txn (binding_memo payer (reference receipt))) with_ Ok false;
  deltas ← mint_deltas txn (mint_base58 (sol_cfg r));
  mret (deltas_match (expected_deltas binding payer receipt) deltas).
Definition solana_verify (r : SolanaRail W) (receipt : Receipt) : Eff W Error bool :=
  let_some bp := solana_offline r receipt or_else mret false;
  found ← eff_map_err from_solana (sol_get_transaction (sol_rpc r) (tx_signature bp.1)
    (commitment_str (commitment (sol_cfg r))));
  let_some txn := found or_else mret false;
  eff_of (check_txn r receipt bp.1 bp.2 txn).
Definition solana_refund (_ : Receipt) : Eff W Error Receipt := eff_err (Unsupported "refund").
Definition solana_rail (r : SolanaRail W) : PaymentRail W := {|
  id := SOLANA_RAIL_ID;
  capabilities := sol_capabilities r;
  quote := solana_quote r;
  charge := solana_charge r;
  verify := solana_verify r;
  validate_destination := solana_validate;
  refund := solana_refund;
  verify_webhook := default_verify_webhook;
|}.
End SolanaRail.

(** ** The net balance changes of a transaction *)

(** The entries of a mint can all be read. *)
Definition entries_ok (m : str) (entries : list Json) : Prop :=
  Forall (fun e => get_str "mint" e = Some m -> exists oa, balance_entry e = Ok oa) entries.
(** What [owner] holds of the mint according to a list of balances. *)
Fixpoint balance_of (m owner : str) (entries : list Json) : Z :=
  match entries with
  | [] => 0
  | e :: entries =>
      match balance_entry e with
      | Ok (o, a) =>
          if bool_decide (get_str "mint" e = Some m) && String.eqb o owner
          then a + balance_of m owner entries else balance_of m owner entries
      | Err _ => balance_of m owner entries
      end
  end.
Definition balances (field : str) (txn : Json) : list Json :=
  items_of (get_field "meta" txn ≫= get_field field).
Definition net_change (txn : Json) (m owner : str) : Z :=
  wrap_i128 (balance_of m owner (balances "postTokenBalances" txn)
             - balance_of m owner (balances "preTokenBalances" txn)).
Record readable (txn : Json) (m : str) : Prop := {
  readable_meta : exists meta, get_field "meta" txn = Some meta;
  readable_pre : entries_ok m (balances "preTokenBalances" txn);
  readable_post : entries_ok m (balances "postTokenBalances" txn);
}.

(** ** Lemmas *)

Lemma wrap_range z : - 2 ^ 127 <= wrap_i128 z < 2 ^ 127.
Proof. unfold wrap_i128. pose proof (Z.mod_pos_bound (z + 2 ^ 127) (2 ^ 128) ltac:(lia)). lia. Qed.
Lemma wrap_small z : - 2 ^ 127 <= z < 2 ^ 127 -> wrap_i128 z = z.
Proof. intros H. unfold wrap_i128. rewrite Z.mod_small; lia. Qed.
Lemma wrap_wrap z : wrap_i128 (wrap_i128 z) = wrap_i128 z.
Proof. apply wrap_small, wrap_range. Qed.
Lemma wrap_add_l a b : wrap_i128 (wrap_i128 a + b) = wrap_i128 (a + b).
Proof.
  unfold wrap_i128. f_equal.
  replace ((a + 2 ^ 127) mod 2 ^ 128 - 2 ^ 127 + b + 2 ^ 127) with ((a + 2 ^ 127) mod 2 ^ 128 + b) by lia.
  rewrite Zplus_mod_idemp_l. f_equal. lia.
Qed.
Lemma wrap_add_r a b : wrap_i128 (a + wrap_i128 b) = wrap_i128 (a + b).
Proof. rewrite Z.add_comm, wrap_add_l. f_equal. lia. Qed.

(** One entry per owner, every value an [i128]. *)
Record wf_deltas (l : list (str * Z)) : Prop := {
  wf_nodup : NoDup (map fst l);
  wf_wrapped : Forall (fun p => wrap_i128 p.2 = p.2) l;
}.
Lemma assoc_In {A} k (a : A) l : NoDup (map fst l) -> assoc k l = Some a <-> In (k, a) l.
Proof.
  induction l as [|[k' a'] l IH]; cbn [assoc map fst]; intros Hn; [done|].
  apply NoDup_cons in Hn as [Hk Hn]. destruct (String.eqb_spec k' k) as [->|Hne].
  - split; [intros [= ->]; now left|]. intros [[= ->]|Hin]; [done|].
    destruct Hk. apply list_elem_of_In, in_map_iff. now exists (k, a).
  - rewrite IH by done. split; [now right|]. intros [[= -> ->]|?]; [done | done].
Qed.
Lemma keys_add_delta o d l k : In k (map fst (add_delta o d l)) <-> k = o \/ In k (map fst l).
Proof.
  induction l as [|[o' x] l IH]; cbn; [intuition|].
  destruct (String.eqb_spec o' o) as [->|]; cbn; [intuition | rewrite IH; intuition].
Qed.
Lemma add_delta_wf o d l : wrap_i128 d = d -> wf_deltas l -> wf_deltas (add_delta o d l).
Proof.
  intros Hd [Hn Hw]. split.
  - induction l as [|[o' x] l IH]; cbn in *; [apply NoDup_singleton|].
    apply NoDup_cons in Hn as [Ho Hn]. apply Forall_cons in Hw as [? Hw].
    destruct (String.eqb_spec o' o) as [->|Hne]; cbn; apply NoDup_cons; (split; [|auto]); [done|].
    intros [->|Hin]%list_elem_of_In%keys_add_delta; [done|]. apply Ho. now apply list_elem_of_In.
  - clear Hn. induction l as [|[o' x] l IH]; cbn; [now repeat constructor|].
    apply Forall_cons in Hw as [? Hw].
    destruct (String.eqb_spec o' o); constructor; auto. apply wrap_wrap.
Qed.
Lemma delta_add_delta o d l k : wrap_i128 d = d -> wf_deltas l ->
  delta_of k (add_delta o d l) = if String.eqb o k then wrap_i128 (delta_of k l + d) else delta_of k l.
Proof.
  intros Hd [_ Hw]. unfold delta_of. induction l as [|[o' x] l IH]; cbn.
  - destruct (String.eqb o k); [|done]. cbn [default from_option id]. now rewrite Z.add_0_l, Hd.
  - apply Forall_cons in Hw as [? Hw]. specialize (IH Hw).
    destruct (String.eqb_spec o' o) as [->|Hne]; cbn.
    + now destruct (String.eqb o k).
    + destruct (String.eqb_spec o' k) as [->|]; [|exact IH].
      rewrite (proj2 (String.eqb_neq o k)) by congruence. done.
Qed.

Lemma apply_balances_spec m s entries l l' :
  wf_deltas l -> apply_balances m s entries l = Ok l' ->
  wf_deltas l' /\ entries_ok m entries /\
  forall k, delta_of k l' = wrap_i128 (delta_of k l + s * balance_of m k entries).
Proof.
  revert l. induction entries as [|e entries IH]; intros l Hwf; cbn [apply_balances balance_of].
  - intros [= <-]. split_and!; [done | constructor |]. intros k. rewrite Z.mul_0_r, Z.add_0_r.
    unfold delta_of. destruct (assoc k l) as [x|] eqn:E; [|done]. cbn. symmetry.
    destruct Hwf as [Hn Hw]. apply assoc_In in E; [|done].
    rewrite Forall_forall in Hw. now apply (Hw (k, x)), list_elem_of_In.
  - case_bool_decide as Hm; cbn [negb].
    + unfold mbind, result_bind. destruct (balance_entry e) as [[o a]|] eqn:Ee; [|done].
      intros H. apply IH in H as (Hwf' & Hok & Hk); [|now apply add_delta_wf; [apply wrap_wrap|]].
      split_and!; [done | constructor; eauto |]. intros k. rewrite Hk, delta_add_delta by (apply wrap_wrap || done).
      cbn [fst snd andb]. destruct (String.eqb o k).
      * rewrite wrap_add_l, Z.mul_add_distr_l, <- Z.add_assoc, (Z.add_comm (wrap_i128 _)), Z.add_assoc, wrap_add_r.
        f_equal. lia.
      * done.
    + intros H. apply IH in H as (? & Hok & Hk); [|done]. split_and!; [done | constructor; done |].
      intros k. rewrite Hk. destruct (balance_entry e) as [[o a]|]; done.
Qed.
Lemma apply_balances_total m s entries l :
  entries_ok m entries -> exists l', apply_balances m s entries l = Ok l'.
Proof.
  intros Hok. revert l. induction Hok as [|e entries He _ IH]; intros l; cbn [apply_balances]; [eauto|].
  case_bool_decide as Hm; cbn [negb]; [|apply IH].
  destruct (He Hm) as [oa ->]. cbn. apply IH.
Qed.

Lemma mint_deltas_spec txn m l : mint_deltas txn m = Ok l ->
  readable txn m /\ wf_deltas l /\ forall k, delta_of k l = net_change txn m k.
Proof.
  unfold mint_deltas, mbind, result_bind, ok_or.
  destruct (get_field "meta" txn) as [meta|] eqn:Em; [|done].
  destruct (apply_balances m (-1) _ []) as [l1|] eqn:E1; [|done]. intros E2.
  apply apply_balances_spec in E1 as (W1 & O1 & D1); [|split; constructor].
  apply apply_balances_spec in E2 as (W2 & O2 & D2); [|done].
  assert (forall f, items_of (get_field f meta) = balances f txn) as Hb
    by (intros f; unfold balances; now rewrite Em).
  rewrite Hb in *. split; [split; eauto|]. split; [done|]. intros k.
  rewrite D2, D1, wrap_add_l. unfold net_change. f_equal. cbn. lia.
Qed.
Lemma mint_deltas_total txn m : readable txn m -> exists l, mint_deltas txn m = Ok l.
Proof.
  intros [[meta Em] Hpre Hpost]. unfold mint_deltas. rewrite Em. cbn [ok_or mbind result_bind].
  unfold balances in *. rewrite Em in *. cbn [mbind option_bind] in *.
  destruct (apply_balances_total m (-1) _ [] Hpre) as [l1 ->]. cbn. now apply apply_balances_total.
Qed.

Lemma deltas_match_spec dest payer amt l : wf_deltas l ->
  deltas_match [(dest, amt); (payer, - amt)] l = true <->
  delta_of dest l = amt /\ delta_of payer l = - amt /\
  forall k, k <> dest -> k <> payer -> delta_of k l = 0.
Proof.
  intros [Hn Hw]. unfold deltas_match. cbn [forallb existsb].
  rewrite !andb_true_iff, !Z.eqb_eq, forallb_forall. split.
  - intros [(Hd & Hp & _) Hall]. split_and!; [done | done |]. intros k Hkd Hkp. unfold delta_of.
    destruct (assoc k l) as [x|] eqn:E; [|done]. apply assoc_In in E; [|done]. cbn.
    specialize (Hall _ E). cbn in Hall.
    rewrite (proj2 (String.eqb_neq dest k)), (proj2 (String.eqb_neq payer k)) in Hall by congruence.
    rewrite !orb_false_r in Hall. now apply Z.eqb_eq.
  - intros (Hd & Hp & Hall). split; [done|]. intros [k x] Hin.
    destruct (String.eqb_spec dest k); [now rewrite orb_true_r|].
    destruct (String.eqb_spec payer k); [now rewrite orb_true_r|].
    specialize (Hall k ltac:(congruence) ltac:(congruence)). unfold delta_of in Hall.
    apply (assoc_In k x l Hn) in Hin. rewrite Hin in Hall. cbn in Hall. subst x. done.
Qed.

(** ** What a receipt and a transaction must say *)

Section SolanaVerify.
Context `{Base58} `{Curve25519} `{Sha256} `{Ed25519} `{Hex} `{Blake3} `{Serde SolanaBinding}.
Context {W : Type} `{Clock W}.
Implicit Types (r : SolanaRail W) (rc : Receipt) (w : W).

(** The receipt's proof is a binding of this rail's mint whose reference is the
    one derived from its payer and the receipt's reference. *)
Record receipt_binds (r : SolanaRail W) (rc : Receipt) (b : SolanaBinding) (payer : pubkey32) : Prop := {
  rb_rail : rail_id rc = SOLANA_RAIL_ID;
  rb_currency : currency rc = "USDC"%string;
  rb_proof : from_slice (proof rc) = Some b;
  rb_chain : sb_chain b = "solana"%string;
  rb_mint : mint b = mint_base58 (sol_cfg r);
  rb_payer : pubkey_from_base58 (sb_payer b) = Ok payer;
  rb_reference : sb_reference b = hex_encode (binding_reference payer (reference rc));
}.
(** The transaction succeeded at the configured commitment, was signed by the
    payer, carries the memo, and its only net effect on the mint is the payment:
    [+amount] for the destination, [-amount] for the payer, nothing for anyone
    else (in the code's wrapping 128-bit arithmetic). *)
Record settles (c : SolanaConfig) (txn : Json) (memo_text dest payer : str) (amt : Z) : Prop := {
  st_succeeded : succeeded txn = true;
  st_commitment : commitment_ok (commitment c) txn = true;
  st_signed : signed_by payer txn = true;
  st_memo : memo_matches txn memo_text = true;
  st_readable : readable txn (mint_base58 c);
  st_dest : net_change txn (mint_base58 c) dest = amt;
  st_payer : net_change txn (mint_base58 c) payer = - amt;
  st_others : forall k, k <> dest -> k <> payer -> net_change txn (mint_base58 c) k = 0;
}.

Lemma solana_offline_spec r rc b payer :
  solana_offline r rc = Some (b, payer) <-> receipt_binds r rc b payer.
Proof.
  unfold solana_offline. split.
  - intros E.
    destruct (String.eqb_spec (rail_id rc) SOLANA_RAIL_ID); [|done]. cbn [negb] in E.
    destruct (String.eqb_spec (currency rc) "USDC"); [|done]. cbn [negb] in E.
    destruct (from_slice (proof rc)) as [b'|] eqn:Ep; [|done].
    destruct (String.eqb_spec (sb_chain b') "solana"); [|done]. cbn [negb] in E.
    destruct (String.eqb_spec (mint b') (mint_base58 (sol_cfg r))); [|done]. cbn [negb] in E.
    destruct (pubkey_from_base58 (sb_payer b')) as [k|] eqn:Ek; [|done].
    destruct (String.eqb_spec (sb_reference b') (hex_encode (binding_reference k (reference rc)))); [|done].
    cbn [negb] in E. injection E as -> ->. now split.
  - intros [-> -> -> -> -> -> ->]. now rewrite !String.eqb_refl.
Qed.
Lemma check_txn_spec r rc b payer txn :
  check_txn r rc b payer txn = Ok true <->
  settles (sol_cfg r) txn (binding_memo payer (reference rc)) (sb_destination b)
    (pubkey_to_base58 payer) (amount_minor rc).
Proof.
  unfold check_txn. split.
  - destruct (succeeded txn) eqn:E1; [|done]. destruct (commitment_ok _ txn) eqn:E2; [|done].
    destruct (signed_by _ txn) eqn:E3; [|done]. destruct (memo_matches txn _) eqn:E4; [|done]. cbn [negb].
    unfold mbind, result_bind, mret, result_ret. destruct (mint_deltas txn _) as [l|] eqn:Em; [|done].
    intros [= Hl]. apply mint_deltas_spec in Em as (Hr & Hwf & Hk).
    apply deltas_match_spec in Hl as (Hd & Hp & Ho); [|done].
    split; rewrite <- ?Hk; try done. intros k ? ?. rewrite <- Hk. now apply Ho.
  - intros [-> -> -> -> Hr Hd Hp Ho]. cbn [negb].
    destruct (mint_deltas_total txn _ Hr) as [l Em]. rewrite Em. cbn.
    apply mint_deltas_spec in Em as (_ & Hwf & Hk). f_equal. apply deltas_match_spec; [done|].
    rewrite !Hk. split_and!; [done | done |]. intros k ? ?. rewrite Hk. now apply Ho.
Qed.
Lemma solana_verify_spec r rc w w' :
  solana_verify r rc w = (Ok true, w') <->
  exists b payer txn, receipt_binds r rc b payer /\
    sol_get_transaction (sol_rpc r) (tx_signature b) (commitment_str (commitment (sol_cfg r))) w
      = (Ok (Some txn), w') /\
    settles (sol_cfg r) txn (binding_memo payer (reference rc)) (sb_destination b)
      (pubkey_to_base58 payer) (amount_minor rc).
Proof.
  unfold solana_verify. destruct (solana_offline r rc) as [[b payer]|] eqn:Eo.
  - apply solana_offline_spec in Eo as F. unfold_eff. cbn [fst snd].
    destruct (sol_get_transaction _ _ _ w) as [[[txn|]|e] v] eqn:Eg; cbn [map_err].
    + split.
      * intros [= Hc <-]. apply check_txn_spec in Hc. eauto 10.
      * intros (b' & payer' & txn' & F' & Hg & Hs). apply solana_offline_spec in F'.
        rewrite Eo in F'. injection F' as <- <-. rewrite Eg in Hg. injection Hg as <- <-.
        f_equal. now apply check_txn_spec.
    + split; [done|]. intros (b' & payer' & txn' & F' & Hg & _). apply solana_offline_spec in F'.
      rewrite Eo in F'. injection F' as <- <-. congruence.
    + split; [done|]. intros (b' & payer' & txn' & F' & Hg & _). apply solana_offline_spec in F'.
      rewrite Eo in F'. injection F' as <- <-. congruence.
  - split; [done|]. intros (b & payer & txn & F & _). apply solana_offline_spec in F. congruence.
Qed.

(** A verified receipt with this binding: the transaction it was accepted for. *)
Lemma verified_settles r rc b payer w w' :
  receipt_binds r rc b payer -> solana_verify r rc w = (Ok true, w') ->
  exists txn,
    sol_get_transaction (sol_rpc r) (tx_signature b) (commitment_str (commitment (sol_cfg r))) w
      = (Ok (Some txn), w') /\
    settles (sol_cfg r) txn (binding_memo payer (reference rc)) (sb_destination b)
      (pubkey_to_base58 payer) (amount_minor rc).
Proof.
  intros Hb Hv. apply solana_verify_spec in Hv as (b0 & p0 & txn & Hb0 & Hg & Hs).
  assert (b0 = b) as -> by (pose proof (rb_proof _ _ _ _ Hb); pose proof (rb_proof _ _ _ _ Hb0); congruence).
  assert (p0 = payer) as -> by (pose proof (rb_payer _ _ _ _ Hb); pose proof (rb_payer _ _ _ _ Hb0); congruence).
  now exists txn.
Qed.
(** A transaction's balance changes are those of one payment only. *)
Lemma settles_unique c txn memo memo' dest dest' payer payer' a a' :
  0 < a -> 0 <= a' -> settles c txn memo dest payer a -> settles c txn memo' dest' payer' a' ->
  dest' = dest /\ payer' = payer /\ a' = a.
Proof.
  intros Ha Ha' [_ _ _ _ _ Hd Hp _] [_ _ _ _ _ Hd' Hp' Ho'].
  assert (dest = dest') as ->.
  { destruct (decide (dest = dest')); [done|]. destruct (decide (dest = payer')) as [->|]; [lia|].
    specialize (Ho' dest ltac:(done) ltac:(done)). lia. }
  assert (payer = payer') as ->.
  { destruct (decide (payer = payer')); [done|]. destruct (decide (payer = dest')) as [->|]; [lia|].
    specialize (Ho' payer ltac:(done) ltac:(done)). lia. }
  split_and!; try done. lia.
Qed.

(** What a successful [charge] did. *)
Lemma solana_charge_ok r q w rc w' :
  solana_charge r q w = (Ok rc, w') ->
  exists seed dst hash bh ixs sig w0 w1 b,
    validate q = Ok tt /\ sol_signer r = Some seed /\ pubkey_from_base58 (req_destination q) = Ok dst /\
    payment_ixs (sol_cfg r) (ed_pubkey seed) dst (req_amount_minor q) (req_reference q) = Ok ixs /\
    get_latest_blockhash (sol_rpc r) (commitment_str (commitment (sol_cfg r))) w = (Ok hash, w0) /\
    b58_decode hash = Some bh /\ length bh = 32%nat /\
    (let message := serialize_message (ed_pubkey seed) ixs bh in
     send_transaction (sol_rpc r) (b64 (wire_transaction (ed_sign seed message) message)) w0 = (Ok sig, w1)) /\
    b = {| sb_chain := "solana"; tx_signature := sig; mint := mint_base58 (sol_cfg r);
           sb_payer := pubkey_to_base58 (ed_pubkey seed); sb_destination := req_destination q;
           sb_reference := hex_encode (binding_reference (ed_pubkey seed) (req_reference q)) |} /\
    to_vec b = Ok (proof rc) /\ rail_id rc = SOLANA_RAIL_ID /\ amount_minor rc = req_amount_minor q /\
    currency rc = "USDC"%string /\ reference rc = req_reference q /\ now_unix w1 = (settled_at_unix rc, w').
Proof.
  unfold solana_charge. unfold_eff.
  destruct (validate q) as [[]|] eqn:Ev; [|done].
  destruct (String.eqb_spec (req_currency q) "USDC") as [Ec|]; [|done]. cbn [negb].
  destruct (sol_signer r) as [seed|] eqn:Esg; [|done].
  destruct (pubkey_from_base58 (req_destination q)) as [dst|] eqn:Ed; [|done]. cbn [map_err].
  destruct (get_latest_blockhash _ _ w) as [[h|] w0] eqn:Eb; [|done]. cbn [map_err].
  destruct (match b58_decode h with Some a => array_of 32 a | None => None end) as [bh|] eqn:Eh;
    unfold option_bind; rewrite Eh; [|done]. cbn [ok_or].
  destruct (b58_decode h) as [raw|] eqn:Eraw; [|done]. apply array_of_Some in Eh as [-> Hl].
  destruct (payment_ixs _ _ _ _ _) as [ixs|] eqn:Ei; [|done]. cbn [map_err].
  destruct (send_transaction _ _ w0) as [[sig|] w1] eqn:Es; [|done]. cbn [map_err].
  destruct (to_vec _) as [bytes|] eqn:Et; [|done]. cbn [map_err].
  destruct (now_unix w1) as [now v] eqn:Enow. intros [= <- <-].
  exists seed, dst, h, raw, ixs, sig, w0, w1. eexists. cbn. split_and!; try done.
Qed.
End SolanaVerify.

(** ** Theorems *)

Section SolanaTheorems.
Context `{Base58Laws} `{Curve25519} `{Sha256} `{Ed25519Laws} `{Hex} `{Blake3} `{SerdeLaws SolanaBinding}.
Context {W : Type} `{Clock W}.

Lemma pubkey_from_base58_length t k : pubkey_from_base58 t = Ok k -> length k = 32%nat.
Proof.
  unfold pubkey_from_base58, mbind, result_bind, ok_or. destruct (b58_decode t) as [a|]; [|done].
  destruct (array_of 32 a) as [k'|] eqn:E; [|done]. intros [= <-]. now apply array_of_Some in E as [-> ?].
Qed.
Lemma pubkey_base58_roundtrip k : length k = 32%nat -> pubkey_from_base58 (pubkey_to_base58 k) = Ok k.
Proof.
  intros Hl. unfold pubkey_from_base58, pubkey_to_base58. rewrite b58_roundtrip. cbn.
  now rewrite (proj2 (array_of_Some 32 _ _) (conj eq_refl Hl)).
Qed.

(** The trait's promises hold of every Solana rail, with nothing assumed of the
    cluster. *)
#[export] Instance solana_rail_laws (r : SolanaRail W) : RailLaws (fun _ => True) (solana_rail r).
Proof.
  split; cbn [id verify charge quote solana_rail capabilities refund validate_destination].
  - intros rc w Hid. unfold solana_verify, solana_offline.
    now rewrite (proj2 (String.eqb_neq _ _) Hid).
  - done.
  - intros q w rc w' _ Hc.
    apply solana_charge_ok in Hc as (?&?&?&?&?&?&?&?&?&_&_&_&_&_&_&_&_&_&_&->&_&_&->&_). done.
  - intros q w e Hv. unfold solana_charge. unfold_eff. now rewrite Hv.
  - intros q w e Hv. unfold solana_quote. unfold_eff. now rewrite Hv.
  - intros d. apply solana_verdict_honest.
  - apply solana_blank_refused.
  - done.
Qed.

(** What [verify] of the Solana rail accepts. It answers [Ok(true)] exactly when the receipt's proof is
    a binding of the configured mint whose reference is derived from its payer and the
    receipt's reference, and the cluster, asked once for that signature at the configured
    commitment, returns a transaction that settles it: succeeded, signed by the payer,
    carrying the derived memo, and moving exactly the receipt's amount of that mint from the
    payer to the binding's destination with no net change for anyone else. *)
Theorem solana_verify_exact (r : SolanaRail W) (rc : Receipt) (w w' : W) :
  solana_verify r rc w = (Ok true, w') <->
  exists b payer txn, receipt_binds r rc b payer /\
    sol_get_transaction (sol_rpc r) (tx_signature b) (commitment_str (commitment (sol_cfg r))) w
      = (Ok (Some txn), w') /\
    settles (sol_cfg r) txn (binding_memo payer (reference rc)) (sb_destination b)
      (pubkey_to_base58 payer) (amount_minor rc).
Proof. apply solana_verify_spec. Qed.

(** C24: charge, then verify, on Solana. When [charge] answers a receipt, all it did to the world is
    to read the latest blockhash, to send one wire transaction and to read the clock, in that
    order. That transaction is genuinely signed by the configured key, over a message at that
    blockhash that carries exactly the memo bound to the reference and a checked transfer of
    the requested amount between the two associated token accounts of the configured mint; the
    receipt then verifies on any rail with the same configuration wherever the cluster shows,
    for the signature it answered, a transaction that settles it. *)
Theorem solana_charge_verify (r : SolanaRail W) (q : PayRequest) (w : W) (rc : Receipt) (w' : W)
    (Hc : solana_charge r q w = (Ok rc, w')) :
  exists seed dst src_ata dst_ata hash bh sig w1 w2,
    let payer := ed_pubkey seed in
    let mint_key := usdc_mint (sol_cfg r) in
    let message := serialize_message payer
      [memo_ix payer (binding_memo payer (req_reference q));
       transfer_checked src_ata mint_key dst_ata payer (req_amount_minor q) SOL_USDC_DECIMALS] bh in
    (get_latest_blockhash (sol_rpc r) (commitment_str (commitment (sol_cfg r))) w = (Ok hash, w1) /\
     send_transaction (sol_rpc r) (b64 (wire_transaction (ed_sign seed message) message)) w1 = (Ok sig, w2) /\
     now_unix w2 = (settled_at_unix rc, w')) /\
    (sol_signer r = Some seed /\ pubkey_from_base58 (req_destination q) = Ok dst /\
     b58_decode hash = Some bh /\ length bh = 32%nat /\
     associated_token_address payer mint_key = Ok src_ata /\
     associated_token_address dst mint_key = Ok dst_ata /\
     ed_verify payer message (ed_sign seed message) = true) /\
    forall (r' : SolanaRail W) v v' txn, sol_cfg r' = sol_cfg r ->
      sol_get_transaction (sol_rpc r') sig (commitment_str (commitment (sol_cfg r'))) v = (Ok (Some txn), v') ->
      settles (sol_cfg r') txn (binding_memo payer (req_reference q)) (req_destination q)
        (pubkey_to_base58 payer) (req_amount_minor q) ->
      solana_verify r' rc v = (Ok true, v').
Proof.
  apply solana_charge_ok in Hc as (seed & dst & hash & bh & ixs & sig & w0 & w1 & b & Hv & Hsg & Hd & Hi & Hbh & Hdec & Hl &
    Hsend & -> & Ht & Hri & Ham & Hcur & Href & Hnow).
  unfold payment_ixs, mbind, result_bind in Hi.
  destruct (associated_token_address (ed_pubkey seed) _) as [src|] eqn:Es; [|done].
  destruct (associated_token_address dst _) as [dat|] eqn:Ed; [|done]. injection Hi as <-.
  exists seed, dst, src, dat, hash, bh, sig, w0, w1. cbv zeta.
  split; [done|]. split; [split_and!; try done; apply ed_verify_sign|].
  intros r' v v' txn Hcfg Hg Hs. apply solana_verify_spec. 
  match type of Ht with to_vec ?b0 = _ => exists b0 end. eexists. exists txn.
  rewrite Ham, Href.
  split; [|split; [exact Hg | exact Hs]].
  split; try done.
  - exact (from_slice_to_vec _ _ Ht).
  - cbn. now rewrite Hcfg.
  - apply pubkey_base58_roundtrip, length_ed_pubkey.
  - cbn. now rewrite Href.
Qed.

(** One Solana payment can settle several orders. If a receipt verifies and its transaction also carries
    the memo derived for another reference of the same payer, then the same payment verifies
    for that reference too: [memo_matches] asks for some matching memo, not for the only
    one, although [verify] is commented to make a transaction redeemable for one
    [(payer, reference)] and nothing else. *)
Theorem solana_memo_reusable (r : SolanaRail W) (rc rc' : Receipt) (b b' : SolanaBinding)
    (payer : pubkey32) (txn : Json) (w w' : W)
    (Hb : receipt_binds r rc b payer)
    (Hg : sol_get_transaction (sol_rpc r) (tx_signature b) (commitment_str (commitment (sol_cfg r))) w
            = (Ok (Some txn), w'))
    (Hv : solana_verify r rc w = (Ok true, w'))
    (Hb' : receipt_binds r rc' b' payer)
    (Hsame : tx_signature b' = tx_signature b /\ sb_destination b' = sb_destination b /\
             amount_minor rc' = amount_minor rc)
    (Hmemo : memo_matches txn (binding_memo payer (reference rc')) = true) :
  solana_verify r rc' w = (Ok true, w').
Proof.
  apply (verified_settles _ _ _ _ _ _ Hb) in Hv as (t0 & Hg0 & Hs).
  assert (t0 = txn) as -> by congruence.
  destruct Hsame as (Hsig & Hdst & Ham). apply solana_verify_spec. exists b', payer, txn.
  rewrite Hsig, Hdst, Ham. split; [exact Hb'|]. split; [exact Hg|].
  destruct Hs. now split.
Qed.
(** C25: one Solana transaction settles one payment. Take two receipts that rails of one
    configuration accept for one transaction signature, where the cluster answers both the
    same for it (in one state of the cluster, or in two between which that transaction's
    record did not change). If the first is for a positive amount, as every receipt of
    [charge] is, then they name the same destination, payer and amount, whatever their
    references: the balance check leaves no room for a second payee, a second payer or
    another amount. *)
Theorem solana_payment_unique (r r' : SolanaRail W) (rc rc' : Receipt) (b b' : SolanaBinding)
    (payer payer' : pubkey32) (w v w1 v1 : W)
    (Hcfg : sol_cfg r' = sol_cfg r)
    (Hb : receipt_binds r rc b payer) (Hb' : receipt_binds r' rc' b' payer')
    (Hsame : tx_signature b' = tx_signature b)
    (Hrecord : let query := commitment_str (commitment (sol_cfg r)) in
      fst (sol_get_transaction (sol_rpc r') (tx_signature b) query v) =
      fst (sol_get_transaction (sol_rpc r) (tx_signature b) query w))
    (Hpos : 0 < amount_minor rc) (Hu' : is_u64 (amount_minor rc'))
    (Hv : solana_verify r rc w = (Ok true, w1))
    (Hv' : solana_verify r' rc' v = (Ok true, v1)) :
  sb_destination b' = sb_destination b /\ payer' = payer /\ amount_minor rc' = amount_minor rc.
Proof.
  apply (verified_settles _ _ _ _ _ _ Hb) in Hv as (txn & Hg & Hs).
  apply (verified_settles _ _ _ _ _ _ Hb') in Hv' as (txn' & Hg' & Hs').
  rewrite Hcfg in Hs', Hg'. cbv zeta in Hrecord. rewrite Hsame in Hg'. rewrite Hg, Hg' in Hrecord. injection Hrecord as ->.
  destruct (settles_unique _ _ _ _ _ _ _ _ _ _ Hpos (proj1 Hu') Hs Hs') as (Hd & Hp & Ha).
  split_and!; [done | | done]. apply (f_equal pubkey_from_base58) in Hp.
  pose proof (rb_payer _ _ _ _ Hb) as Hk. pose proof (rb_payer _ _ _ _ Hb') as Hk'.
  rewrite !pubkey_base58_roundtrip in Hp by (eapply pubkey_from_base58_length; eassumption). congruence.
Qed.
End SolanaTheorems.

(** ** A cluster for the witnesses *)

#[export] Instance SolanaBinding_codec : Codec SolanaBinding.
Proof.
  codec_as
    (fun b => [sb_chain b; tx_signature b; mint b; sb_payer b; sb_destination b; sb_reference b])
    (fun l => let s i := nth i l EmptyString in
       {| sb_chain := s 0%nat; tx_signature := s 1%nat; mint := s 2%nat; sb_payer := s 3%nat;
          sb_destination := s 4%nat; sb_reference := s 5%nat |}).
Defined.
#[local] Existing Instances ref_base58 ref_curve ref_ed25519 ref_sha256 ref_hex.
#[local] Instance sol_serde : Serde SolanaBinding := ref_serde.
#[local] Instance sol_serde_laws : SerdeLaws SolanaBinding := ref_serde_laws.
#[local] Existing Instances ref_base58_laws ref_ed25519_laws.
#[local] Instance ref_blake3 : Blake3 := {| blake3 := fun m => sha256 m |}.
#[local] Instance sol_clock : Clock Z := fun w => (w, w + 1).

Definition sol_payer : pubkey32 := repeat x05 32.
Definition sol_payee : str := b58_encode (repeat x06 32).
Definition sol_mint : pubkey32 := repeat x07 32.
Definition sol_balance (owner amount : str) : Json := JObject
  [("mint"%string, JString (b58_encode sol_mint)); ("owner"%string, JString owner);
   ("uiTokenAmount"%string, JObject [("amount"%string, JString amount)])].
Definition sol_memo (ref : str) : Json := JObject
  [("program"%string, JString "spl-memo"); ("parsed"%string, JString (binding_memo sol_payer ref))].
(** A finalized transfer of 700 whose signer added a second memo. *)
Definition sol_txn : Json := JObject
  [("transaction"%string, JObject [("message"%string, JObject
     [("accountKeys"%string, JArray [JObject
        [("pubkey"%string, JString (b58_encode sol_payer)); ("signer"%string, JBool true)]]);
      ("instructions"%string, JArray [sol_memo "order-1"; sol_memo "order-2"])])]);
   ("meta"%string, JObject
     [("err"%string, JNull);
      ("preTokenBalances"%string, JArray [sol_balance (b58_encode sol_payer) "1000"]);
      ("postTokenBalances"%string,
        JArray [sol_balance (b58_encode sol_payer) "300"; sol_balance sol_payee "700"])]);
   ("confirmationStatus"%string, JString "finalized")].
Definition sol_cluster : SolanaRpc Z := {|
  sol_get_transaction _ _ w := (Ok (Some sol_txn), w);
  get_latest_blockhash _ w := (Ok (b58_encode (repeat x08 32)), w);
  send_transaction _ w := (Ok "signature"%string, w);
|}.
Definition sol_rail : SolanaRail Z := sol_with_signer sol_payer (solana_new
  {| rpc_url := "http://localhost"; cluster := Localnet; commitment := Finalized; usdc_mint := sol_mint |}
  sol_cluster).
Definition sol_request (ref : str) : PayRequest := {| req_amount_minor := 700; req_currency := "USDC";
  req_destination := sol_payee; req_reference := ref |}.
Definition sol_binding (ref : str) : SolanaBinding := {|
  sb_chain := "solana"; tx_signature := "signature"; mint := b58_encode sol_mint;
  sb_payer := b58_encode sol_payer; sb_destination := sol_payee;
  sb_reference := hex_encode (binding_reference sol_payer ref) |}.
Definition sol_receipt (ref : str) : Receipt := {|
  rail_id := SOLANA_RAIL_ID; amount_minor := 700; currency := "USDC"; reference := ref;
  proof := put (sol_binding ref); settled_at_unix := 5 |}.

Lemma sol_charged : solana_charge sol_rail (sol_request "order-1") 5 = (Ok (sol_receipt "order-1"), 6).
Proof. vm_compute. reflexivity. Qed.
Lemma sol_verified ref : ref = "order-1"%string \/ ref = "order-2"%string ->
  solana_verify sol_rail (sol_receipt ref) 9 = (Ok true, 9).
Proof. intros [->| ->]; vm_compute; reflexivity. Qed.
Lemma sol_binds ref : ref = "order-1"%string \/ ref = "order-2"%string ->
  receipt_binds sol_rail (sol_receipt ref) (sol_binding ref) sol_payer.
Proof. intros [->| ->]; split; vm_compute; reflexivity. Qed.
Lemma sol_settles : settles (sol_cfg sol_rail) sol_txn (binding_memo sol_payer "order-1") sol_payee
  (pubkey_to_base58 sol_payer) 700.
Proof.
  destruct (verified_settles _ _ _ _ 9 9 (sol_binds "order-1" (or_introl eq_refl))
    (sol_verified "order-1" (or_introl eq_refl))) as (txn & Hg & Hs).
  cbn in Hg. injection Hg as <-. exact Hs.
Qed.

Lemma solana_charge_verify_witness :
  solana_verify sol_rail (sol_receipt "order-1") 30 = (Ok true, 30).
Proof.
  destruct (solana_charge_verify sol_rail (sol_request "order-1") 5 (sol_receipt "order-1") 6 sol_charged)
    as (seed & src & dst & dat & hash & bh & sig & w1 & w2 & _ & (Hs & _) & Hv).
  injection Hs as <-. apply (Hv sol_rail 30 30 sol_txn eq_refl eq_refl). exact sol_settles.
Defined.
Lemma solana_memo_reusable_witness :
  solana_verify sol_rail (sol_receipt "order-2") 9 = (Ok true, 9).
Proof.
  apply (solana_memo_reusable sol_rail (sol_receipt "order-1") (sol_receipt "order-2")
    (sol_binding "order-1") (sol_binding "order-2") sol_payer sol_txn 9 9).
  - exact (sol_binds "order-1" (or_introl eq_refl)).
  - reflexivity.
  - exact (sol_verified "order-1" (or_introl eq_refl)).
  - exact (sol_binds "order-2" (or_intror eq_refl)).
  - split; [reflexivity | split; reflexivity].
  - vm_compute. reflexivity.
Defined.
Lemma solana_payment_unique_witness :
  sb_destination (sol_binding "order-2") = sb_destination (sol_binding "order-1") /\
  sol_payer = sol_payer /\ amount_minor (sol_receipt "order-2") = amount_minor (sol_receipt "order-1").
Proof.
  apply (solana_payment_unique sol_rail sol_rail (sol_receipt "order-1") (sol_receipt "order-2")
    (sol_binding "order-1") (sol_binding "order-2") sol_payer sol_payer 9 9 9 9).
  - reflexivity.
  - exact (sol_binds "order-1" (or_introl eq_refl)).
  - exact (sol_binds "order-2" (or_intror eq_refl)).
  - reflexivity.
  - reflexivity.
  - reflexivity.
  - split; apply Z.leb_le; reflexivity.
  - exact (sol_verified "order-1" (or_introl eq_refl)).
  - exact (sol_verified "order-2" (or_intror eq_refl)).
Defined.
