(* ===== verification/SolanaHttp.v ===== *)
(** * The Solana JSON-RPC client ([patala-solana/src/rpc.rs])

    [HttpRpc], the one implementation of the [SolanaRpc] seam that opens a
    socket: one JSON-RPC call, and the three methods the rail needs. *)

From S2P Require Import Prelude RustStr Core External Json Adapter RpcHttp SolanaTx SolanaDest SolanaRail.

Record HttpRpc (W : Type) := { url : str; http : RpcHttp W }.
Arguments url {W} _.
Arguments http {W} _.

(** [serde_json::json!{..}] *)
Definition rpc_body (method : str) (params : Json) : Json := JObject [
  ("jsonrpc", JString "2.0"); ("id", JNumber "1"); ("method", JString method); ("params", params)]%string.
Definition get_transaction_params (signature commitment : str) : Json := JArray [JString signature;
  JObject [("encoding", JString "jsonParsed"); ("commitment", JString commitment);
           ("maxSupportedTransactionVersion", JNumber "0")]%string].
Definition blockhash_params (commitment : str) : Json := JArray [JObject [("commitment"%string, JString commitment)]].
Definition send_params (wire_base64 : str) : Json :=
  JArray [JString wire_base64; JObject [("encoding"%string, JString "base64")]].

(** What a JSON-RPC reply's body holds: the error it reports, or its result. *)
Definition rpc_result `{HttpText} (method : str) (v : Json) : Result SolanaError Json :=
  match get_field "error" v with
  | Some err => Err (SolRpc (method +:+ ": " +:+ json_display err))
  | None => ok_or (SolRpc (method +:+ ": no result")) (get_field "result" v)
  end.

Section HttpRpc.
Context `{HttpText} {W : Type}.

Definition rpc_call (c : HttpRpc W) (method : str) (params : Json) : Eff W SolanaError Json :=
  resp ← eff_map_err (fun e => SolRpc (method +:+ ": " +:+ e)) (http c (post_json (url c) (rpc_body method params)));
  return_if negb (is_2xx (status resp)) with_
    eff_err (SolRpc (method +:+ ": HTTP " +:+ status_display (status resp)));
  v ← eff_of (map_err (fun e => SolRpc (method +:+ ": bad JSON: " +:+ e)) (json resp));
  eff_of (rpc_result method v).

Definition http_get_transaction (c : HttpRpc W) (signature commitment : str) : Eff W SolanaError (option Json) :=
  result ← rpc_call c "getTransaction" (get_transaction_params signature commitment);
  mret (if is_null result then None else Some result).
Definition http_get_latest_blockhash (c : HttpRpc W) (commitment : str) : Eff W SolanaError str :=
  result ← rpc_call c "getLatestBlockhash" (blockhash_params commitment);
  eff_of (ok_or (SolRpc "getLatestBlockhash: no blockhash") (get_field "value" result ≫= get_str "blockhash")).
Definition http_send_transaction (c : HttpRpc W) (wire_base64 : str) : Eff W SolanaError str :=
  result ← rpc_call c "sendTransaction" (send_params wire_base64);
  eff_of (ok_or (SolRpc "sendTransaction: no signature") (as_str result)).

Definition http_rpc (c : HttpRpc W) : SolanaRpc W := {|
  sol_get_transaction := http_get_transaction c;
  get_latest_blockhash := http_get_latest_blockhash c;
  send_transaction := http_send_transaction c;
|}.

(** ** Lemmas *)

(** A call's result: a 2xx reply of JSON that reports no error and has a result. *)
Definition rpc_answered (c : HttpRpc W) (method : str) (params : Json) (w : W) (result : Json) (w' : W) : Prop :=
  exists v, replied (http c) (post_json (url c) (rpc_body method params)) w v w' /\
    get_field "error" v = None /\ get_field "result" v = Some result.
Lemma rpc_result_Ok method v result :
  rpc_result method v = Ok result <-> get_field "error" v = None /\ get_field "result" v = Some result.
Proof.
  unfold rpc_result. destruct (get_field "error" v); [split; [done | now intros [? _]]|].
  rewrite ok_or_Ok. tauto.
Qed.
Lemma rpc_call_Ok c method params w result w' :
  rpc_call c method params w = (Ok result, w') <-> rpc_answered c method params w result w'.
Proof.
  unfold rpc_call, rpc_answered, replied. rewrite eff_bind_Ok. split.
  - intros (reply & u & Hr%eff_map_err_Ok & Hk). run_inv Hk. apply negb_false_iff in Hc. subst.
    apply rpc_result_Ok in Hk as [? ?]. eauto 10.
  - intros (v & (reply & Hr & H2 & Hj) & Hres%(rpc_result_Ok method)). exists reply, w'.
    rewrite eff_map_err_Ok. split; [done|].
    rewrite H2. cbn [negb]. rewrite Hj. unfold_eff. cbn. now rewrite Hres.
Qed.
Lemma http_transaction_Some c signature commitment w txn w' :
  http_get_transaction c signature commitment w = (Ok (Some txn), w') <->
  rpc_answered c "getTransaction" (get_transaction_params signature commitment) w txn w' /\ is_null txn = false.
Proof.
  unfold http_get_transaction. rewrite eff_bind_Ok. split.
  - intros (result & u & Hc%rpc_call_Ok & Hk%eff_ret_Ok). destruct Hk as [Hk ->].
    destruct (is_null result) eqn:En; [done|]. injection Hk as ->. done.
  - intros [Hc%rpc_call_Ok En]. exists txn, w'. split; [done|]. now rewrite En.
Qed.
End HttpRpc.

(** ** Theorems *)

Section SolanaOverHttp.
Context `{Base58} `{Curve25519} `{Sha256} `{Ed25519} `{Hex} `{Blake3} `{Serde SolanaBinding}.
Context `{HttpText} {W : Type} `{Clock W} (c0 : SolanaConfig) (client : HttpRpc W).

(** C9: Solana's verify, down to the request. On the rail that talks JSON-RPC,
    verify answers true exactly when the receipt binds and one getTransaction for
    its signature, at the configured commitment, is answered 2xx with JSON that
    reports no error and whose result settles the receipt. A null result is
    false; a reply that reports an error is an error of verify, never a verdict. *)
Theorem solana_verify_over_http (rc : Receipt) (w w' : W) :
  let r := solana_new c0 (http_rpc client) in
  let params b := get_transaction_params (tx_signature b) (commitment_str (commitment c0)) in
  (solana_verify r rc w = (Ok true, w') <->
   exists b payer txn, receipt_binds r rc b payer /\
     rpc_answered client "getTransaction" (params b) w txn w' /\
     settles c0 txn (binding_memo payer (reference rc)) (sb_destination b) (pubkey_to_base58 payer) (amount_minor rc)) /\
  (forall b payer, receipt_binds r rc b payer ->
     rpc_answered client "getTransaction" (params b) w JNull w' -> solana_verify r rc w = (Ok false, w')) /\
  (forall b payer v err, receipt_binds r rc b payer ->
     replied (http client) (post_json (url client) (rpc_body "getTransaction" (params b))) w v w' ->
     get_field "error" v = Some err ->
     solana_verify r rc w = (Err (from_solana (SolRpc ("getTransaction: " +:+ json_display err))), w')).
Proof.
  intros r params. split; [|split].
  - unfold r. rewrite solana_verify_spec. cbn [sol_rpc sol_cfg solana_new sol_get_transaction http_rpc].
    apply exist_proper; intros b. apply exist_proper; intros payer. apply exist_proper; intros txn.
    rewrite http_transaction_Some. split; [tauto|]. intros (Hb & Hc & Hs). split_and!; try done.
    destruct txn; [|done..]. discriminate (st_succeeded _ _ _ _ _ _ Hs).
  - intros b payer Hb%solana_offline_spec Hc%rpc_call_Ok. unfold solana_verify. rewrite Hb.
    cbn [sol_rpc sol_cfg solana_new sol_get_transaction http_rpc r fst snd]. unfold http_get_transaction.
    unfold_eff. unfold params in Hc. now rewrite Hc.
  - intros b payer v err Hb%solana_offline_spec (reply & Hr & Hok & Hj) He. unfold solana_verify. rewrite Hb.
    cbn [sol_rpc sol_cfg solana_new sol_get_transaction http_rpc r fst snd]. unfold http_get_transaction, rpc_call.
    unfold_eff. unfold params in Hr. rewrite Hr. cbn. rewrite Hok. cbn. rewrite Hj. cbn. unfold rpc_result. now rewrite He.
Qed.
End SolanaOverHttp.
