(* ===== verification/Sidecar.v ===== *)
(** * The sidecar ([patala-sidecar/src/auth.rs], [registry.rs], [api.rs], [lib.rs])

    A local HTTP service over a set of rails: a bearer token in front of every
    route that reaches a rail, one handler per trait method, and the mapping of
    errors to status codes. A request arrives here
    with its [route]; [Server] holds the table that finds it. axum's extractors
    are a class. *)

From S2P Require Import Prelude RustStr Core Mock HttpShared.

(** ** auth.rs *)

Definition TOKEN_ENV_VAR : str := "PATALA_SIDECAR_TOKEN".
(** [SidecarToken::from_env], given the value of the variable. *)
Definition token_from_env (var : option str) : Result str str :=
  match var with
  | Some v =>
      return_if negb (is_blank v) with_ Ok v;
      Err (TOKEN_ENV_VAR +:+ " is set but empty; refusing to start unauthenticated")
  | None => Err (TOKEN_ENV_VAR +:+ " is not set; refusing to start unauthenticated. Set it to a random local secret, e.g.: export "
                 +:+ TOKEN_ENV_VAR +:+ "=$(openssl rand -hex 32)")
  end.
Definition token_matches (token presented : str) : bool :=
  let expected := as_bytes token in
  let presented := as_bytes presented in
  return_if negb (Nat.eqb (length expected) (length presented)) with_ false;
  ct_diff expected presented =? 0.

(** ** HTTP *)

Inductive Route :=
  | Healthz
  | RCapabilities (rid : str)
  | RQuote (rid : str)
  | RCharge (rid : str)
  | RVerify (rid : str)
  | RValidateDestination (rid : str)
  | RWebhook (rid : str).
Record HttpRequest := {
  route : Route;
  (** In order of arrival, names as the server keeps them. *)
  req_headers : list (str * list byte);
  req_query : str;
  req_body : list byte;
}.

(** What a handler answers: the value given to [Json(..)], or plain text. *)
Inductive Body :=
  | BText (text : str)
  | BCapabilities (c : RailCapabilities)
  | BQuote (q : Quote)
  | BReceipt (r : Receipt)
  | BVerify (valid : bool)
  | BDestination (v : DestinationVerdict) (refusal : bool)
  | BEvent (e : WebhookEvent)
  | BError (error kind : str).
Record Response := { resp_status : Z; resp_body : Body }.

(** axum's extractors: a value, or the rejection the framework answers; the
    text of a header value, when it is visible ASCII; and serde's reading of
    the one hand-parsed body. *)
Class HttpLib := {
  header_text : list byte -> option str;
  extract_pay_request : HttpRequest -> Result Response PayRequest;
  extract_receipt : HttpRequest -> Result Response Receipt;
  extract_query : HttpRequest -> Result Response (gmap str str);
  extract_bytes : HttpRequest -> Result Response (list byte);
  parse_destination : list byte -> Result str str;
}.
(** Rejections are client errors that carry the framework's text. *)
Definition is_rejection (r : Response) : Prop :=
  400 <= resp_status r < 500 /\ exists text, resp_body r = BText text.
Definition rejects {A} (r : Result Response A) : Prop := forall resp, r = Err resp -> is_rejection resp.
Class HttpLaws `{HttpLib} : Prop := {
  pay_request_rejects req : rejects (extract_pay_request req);
  receipt_rejects req : rejects (extract_receipt req);
  query_rejects req : rejects (extract_query req);
  bytes_rejects req : rejects (extract_bytes req);
}.

(** [HeaderMap::get]: the first value of a name. *)
Fixpoint get_header (name : str) (hs : list (str * list byte)) : option (list byte) :=
  match hs with
  | [] => None
  | (n, v) :: hs => if String.eqb n name then Some v else get_header name hs
  end.

(** ** api.rs *)

Inductive ApiError := UnknownRail (rid : str) | CoreError (e : Error).

Definition error_response (e : ApiError) : Response :=
  let '(code, kind, message) :=
    match e with
    | UnknownRail rid => (404, "unknown_rail", "no rail is registered under id " +:+ debug_str rid)
    | CoreError (InvalidRequest msg) => (400, "invalid_request", msg)
    | CoreError (Unsupported op) => (501, "unsupported", op +:+ " is not supported by this rail")
    | CoreError (Rail msg) => (502, "rail_error", msg)
    | CoreError (CrossClassFailover from to) =>
        (409, "cross_class_failover",
         "failover from " +:+ debug_class from +:+ " to " +:+ debug_class to +:+ " was not opted into")
    | CoreError AllRailsFailed => (502, "all_rails_failed", "no rail satisfied the request")
    end%string in
  {| resp_status := code; resp_body := BError message kind |}.
Definition json_ok (b : Body) : Response := {| resp_status := 200; resp_body := b |}.

(** [SystemTime::now()]: nanoseconds since the epoch, negative before it. *)
Class SystemClock (W : Type) := system_time : W -> Z * W.
Definition unix_seconds (t : Z) : Result ApiError Z :=
  return_if t <? 0 with_ Err (CoreError (Rail "patala-sidecar: the system clock is before the unix epoch, so a webhook's replay window cannot be checked. Refusing the delivery rather than checking it against a fabricated time."));
  Ok (t / 10 ^ 9).

Definition NEVER_FORWARD : list str := ["authorization"; "proxy-authorization"; "cookie"]%string.

Section Api.
Context `{HttpLib} {W : Type} `{SystemClock W}.
Abbreviation RailRegistry := (gmap str (PaymentRail W)).

Definition lookup_rail (reg : RailRegistry) (rid : str) : Eff W ApiError (PaymentRail W) :=
  eff_of (ok_or (UnknownRail rid) (reg !! rid)).
Definition api_capabilities (reg : RailRegistry) (rid : str) : Eff W ApiError RailCapabilities :=
  rail ← lookup_rail reg rid;
  mret (capabilities rail).
Definition api_quote (reg : RailRegistry) (rid : str) (req : PayRequest) : Eff W ApiError Quote :=
  rail ← lookup_rail reg rid;
  eff_map_err CoreError (quote rail req).
Definition api_charge (reg : RailRegistry) (rid : str) (req : PayRequest) : Eff W ApiError Receipt :=
  rail ← lookup_rail reg rid;
  eff_map_err CoreError (charge rail req).
Definition api_verify (reg : RailRegistry) (rid : str) (receipt : Receipt) : Eff W ApiError bool :=
  rail ← lookup_rail reg rid;
  eff_map_err CoreError (verify rail receipt).
Definition api_validate_destination (reg : RailRegistry) (rid : str) (body : list byte)
    : Eff W ApiError DestinationVerdict :=
  rail ← lookup_rail reg rid;
  dest ← eff_of (map_err (fun e => CoreError (InvalidRequest
    ("expected a JSON object with a single string field " +:+ dquote +:+ "destination" +:+ dquote +:+ ": " +:+ e)))
    (parse_destination body));
  mret (validate_destination rail dest).

(** The headers a rail is shown. *)
Definition forwarded (hs : list (str * list byte)) : list (str * str) :=
  omap (fun '(name, value) =>
    if existsb (String.eqb name) NEVER_FORWARD then None else (fun v => (name, v)) <$> header_text value) hs.
Definition delivery_of (hs : list (str * list byte)) (q : gmap str str) (body : list byte) (now : Z)
    : WebhookDelivery :=
  with_query (map_to_list q) (with_headers (forwarded hs) (delivery_new body now)).
Definition api_webhook (reg : RailRegistry) (rid : str) (q : gmap str str) (hs : list (str * list byte))
    (body : list byte) : Eff W ApiError WebhookEvent :=
  rail ← lookup_rail reg rid;
  t ← eff_io system_time;
  now ← eff_of (unix_seconds t);
  eff_map_err CoreError (verify_webhook rail (delivery_of hs q body now)).

(** A handler's result as axum answers it: [Ok(Json(..))] is a [200]. *)
Definition respond {A} (f : A -> Body) (m : Eff W ApiError A) : W -> Response * W := fun w =>
  match m w with
  | (Ok a, w) => (json_ok (f a), w)
  | (Err e, w) => (error_response e, w)
  end.
(** An extractor that rejects answers before the handler's body runs. *)
Definition extracted {A} (x : Result Response A) (k : A -> W -> Response * W) : W -> Response * W :=
  match x with Ok a => k a | Err resp => fun w => (resp, w) end.
Definition healthz : Response := json_ok (BText "ok").
Definition dispatch (reg : RailRegistry) (req : HttpRequest) : W -> Response * W :=
  match route req with
  | Healthz => fun w => (healthz, w)
  | RCapabilities rid => respond BCapabilities (api_capabilities reg rid)
  | RQuote rid => extracted (extract_pay_request req) (fun q => respond BQuote (api_quote reg rid q))
  | RCharge rid => extracted (extract_pay_request req) (fun q => respond BReceipt (api_charge reg rid q))
  | RVerify rid => extracted (extract_receipt req) (fun r => respond BVerify (api_verify reg rid r))
  | RValidateDestination rid => extracted (extract_bytes req) (fun body =>
      respond (fun v => BDestination v (is_refusal v)) (api_validate_destination reg rid body))
  | RWebhook rid => extracted (extract_query req) (fun q => extracted (extract_bytes req) (fun body =>
      respond BEvent (api_webhook reg rid q (req_headers req) body)))
  end.

Definition unauthorized : Response := {| resp_status := 401; resp_body := BText "unauthorized" |}.
(** The middleware in front of the [/v1] routes. *)
Definition require_token (token : str) (req : HttpRequest) (next : W -> Response * W) : W -> Response * W :=
  match (get_header "authorization" (req_headers req) ≫= header_text) ≫= strip_prefix "Bearer " with
  | Some p => if token_matches token p then next else fun w => (unauthorized, w)
  | None => fun w => (unauthorized, w)
  end.
Definition app (reg : RailRegistry) (token : str) (req : HttpRequest) : W -> Response * W :=
  match route req with
  | Healthz => dispatch reg req
  | _ => require_token token req (dispatch reg req)
  end.

(** registry.rs *)
Definition default_registry `{Clock W} : RailRegistry :=
  {[ "mock"%string := mock_rail (mock_new "mock" NonCustodialFinal ["USDC"; "USD"]%string) ]}.
End Api.

(** ** What the service promises

    The request carries the token; the operation a route names succeeded on the
    rail registered under the route's id. *)

Definition authorized `{HttpLib} (token : str) (req : HttpRequest) : Prop :=
  exists v, get_header "authorization" (req_headers req) = Some v /\
    header_text v = Some ("Bearer " +:+ token).

Inductive succeeds `{HttpLib} {W} `{SystemClock W} (reg : gmap str (PaymentRail W)) (req : HttpRequest)
    (w : W) : Body -> W -> Prop :=
  | succeeds_healthz : route req = Healthz -> succeeds reg req w (BText "ok") w
  | succeeds_capabilities rid R :
      route req = RCapabilities rid -> reg !! rid = Some R ->
      succeeds reg req w (BCapabilities (capabilities R)) w
  | succeeds_quote rid R q a w' :
      route req = RQuote rid -> reg !! rid = Some R -> extract_pay_request req = Ok q ->
      quote R q w = (Ok a, w') -> succeeds reg req w (BQuote a) w'
  | succeeds_charge rid R q rc w' :
      route req = RCharge rid -> reg !! rid = Some R -> extract_pay_request req = Ok q ->
      charge R q w = (Ok rc, w') -> succeeds reg req w (BReceipt rc) w'
  | succeeds_verify rid R rc b w' :
      route req = RVerify rid -> reg !! rid = Some R -> extract_receipt req = Ok rc ->
      verify R rc w = (Ok b, w') -> succeeds reg req w (BVerify b) w'
  | succeeds_destination rid R body d :
      route req = RValidateDestination rid -> reg !! rid = Some R -> extract_bytes req = Ok body ->
      parse_destination body = Ok d ->
      succeeds reg req w (BDestination (validate_destination R d) (is_refusal (validate_destination R d))) w
  | succeeds_webhook rid R q body t w0 e w' :
      route req = RWebhook rid -> reg !! rid = Some R -> extract_query req = Ok q ->
      extract_bytes req = Ok body -> system_time w = (t, w0) -> 0 <= t ->
      verify_webhook R (delivery_of (req_headers req) q body (t / 10 ^ 9)) w0 = (Ok e, w') ->
      succeeds reg req w (BEvent e) w'.

(** ** Lemmas *)

Lemma token_matches_spec token p : token_matches token p = true <-> p = token.
Proof.
  change (token_matches token p) with (constant_time_eq (as_bytes token) (as_bytes p)).
  rewrite constant_time_eq_spec. split; [|congruence].
  intros E%(f_equal string_of_list_byte). unfold as_bytes in E.
  now rewrite !string_of_list_byte_of_string in E.
Qed.

Section SidecarLemmas.
Context `{HttpLib} {W : Type} `{SystemClock W}.
Implicit Types (reg : gmap str (PaymentRail W)) (req : HttpRequest) (w : W).

Lemma require_token_spec token req (next : W -> Response * W) w :
  (authorized token req /\ require_token token req next w = next w) \/
  (~ authorized token req /\ require_token token req next w = (unauthorized, w)).
Proof.
  unfold require_token, authorized, mbind, option_bind.
  destruct (get_header _ _) as [v|]; [|right; split; [intros (? & ? & ?); congruence | done]].
  destruct (header_text v) as [t|] eqn:Et; [|right; split; [intros (? & ? & ?); congruence | done]].
  destruct (strip_prefix "Bearer " t) as [p|] eqn:Ep.
  - apply strip_prefix_spec in Ep as ->. destruct (token_matches token p) eqn:Em.
    + apply token_matches_spec in Em as ->. left. split; [now exists v | done].
    + right. split; [|done]. intros (v' & [= <-] & Hv). assert (p = token) as -> by (apply (inj (String.append "Bearer ")); congruence).
      now rewrite (proj2 (token_matches_spec token token) eq_refl) in Em.
  - right. split; [|done]. intros (v' & [= <-] & Hv). assert (t = "Bearer " +:+ token) as -> by congruence.
    now rewrite strip_prefix_app in Ep.
Qed.

Lemma error_not_ok e : resp_status (error_response e) <> 200.
Proof. destruct e as [|[]]; discriminate. Qed.
Lemma respond_ok {A} (f : A -> Body) m w b w' :
  respond f m w = (json_ok b, w') <-> exists a, m w = (Ok a, w') /\ b = f a.
Proof.
  unfold respond. destruct (m w) as [[a|e] v].
  { split; [intros [= <- <-]; now exists a | now intros (? & [= <- <-] & ->)]. }
  split; [|now intros (? & ? & _)].
  intros [= He _]. apply (f_equal resp_status) in He. now apply error_not_ok in He.
Qed.
Lemma extracted_ok {A} (x : Result Response A) (k : A -> W -> Response * W) w b w' :
  rejects x -> extracted x k w = (json_ok b, w') <-> exists a, x = Ok a /\ k a w = (json_ok b, w').
Proof.
  intros Hr. destruct x as [a|resp]; cbn.
  { split; [intros ?; now exists a | now intros (? & [= <-] & ?)]. }
  split; [|now intros (? & ? & _)].
  intros [= -> _]. specialize (Hr _ eq_refl) as [[? _] _]. cbn in *. lia.
Qed.
(** The registered rail's operation, its errors passed through. *)
Lemma on_rail_ok {A} reg rid (op : PaymentRail W -> Eff W Error A) w a w' :
  (rail ← lookup_rail reg rid; eff_map_err CoreError (op rail)) w = (Ok a, w') <->
  exists R, reg !! rid = Some R /\ op R w = (Ok a, w').
Proof.
  unfold lookup_rail. unfold_eff. destruct (reg !! rid) as [R|]; cbn [ok_or]; [|split; [done | now intros (? & ? & _)]].
  split.
  - destruct (op R w) as [[] v] eqn:E; [|done]. intros [= -> ->]. now exists R.
  - intros (R' & [= <-] & ->). done.
Qed.
Lemma api_webhook_ok reg rid q hs body w e w' :
  api_webhook reg rid q hs body w = (Ok e, w') <->
  exists R t w0, reg !! rid = Some R /\ system_time w = (t, w0) /\ 0 <= t /\
    verify_webhook R (delivery_of hs q body (t / 10 ^ 9)) w0 = (Ok e, w').
Proof.
  unfold api_webhook, lookup_rail, unix_seconds. unfold_eff.
  destruct (reg !! rid) as [R|]; cbn [ok_or]; [|split; [done | now intros (? & ? & ? & ? & _)]].
  destruct (system_time w) as [t w0] eqn:Et. destruct (Z.ltb_spec t 0).
  - split; [done|]. intros (R' & t' & w0' & _ & [= <- <-] & ? & _). lia.
  - split.
    + destruct (verify_webhook R _ w0) as [[] v] eqn:E; [|done]. intros [= -> ->]. now exists R, t, w0.
    + intros (R' & t' & w0' & [= <-] & [= <- <-] & _ & ->). done.
Qed.
End SidecarLemmas.

(** The last readable value of a header. *)
Fixpoint last_value `{HttpLib} (name : str) (hs : list (str * list byte)) : option str :=
  match hs with
  | [] => None
  | (n, v) :: hs =>
      match last_value name hs with
      | Some t => Some t
      | None => if String.eqb n name then header_text v else None
      end
  end.
Definition last_of (name : str) (hs : list (str * str)) (d : option str) : option str :=
  fold_left (fun acc '(n, v) => if String.eqb n name then Some v else acc) hs d.

Lemma last_of_default name hs d :
  last_of name hs d = match last_of name hs None with Some v => Some v | None => d end.
Proof.
  revert d. induction hs as [|[n v] hs IH]; intros d; [done|]. cbn. destruct (String.eqb n name); [|apply IH].
  change (last_of name hs (Some v) = match last_of name hs (Some v) with Some v => Some v | None => d end).
  rewrite (IH (Some v)). now destruct (last_of name hs None).
Qed.
Lemma with_headers_spec hs d : Forall (fun h => to_ascii_lowercase h.1 = h.1) hs ->
  let d' := with_headers hs d in
  raw_body d' = raw_body d /\ query d' = query d /\ wd_now_unix d' = wd_now_unix d /\
  forall n, headers d' !! n = last_of n hs (headers d !! n).
Proof.
  intros Hl. revert d. induction Hl as [|[n v] hs Hn _ IH]; intros d; [done|].
  cbv zeta. change (with_headers ((n, v) :: hs) d) with (with_headers hs (with_header n v d)).
  destruct (IH (with_header n v d)) as (-> & -> & -> & Hh). split_and!; try done. intros k.
  rewrite Hh. cbn [with_header headers]. cbn [fst] in Hn. rewrite Hn.
  cbn. destruct (String.eqb_spec n k) as [->|Hne].
  - now rewrite lookup_insert_eq.
  - now rewrite lookup_insert_ne.
Qed.
Lemma with_query_spec ps d : NoDup (map fst ps) ->
  let d' := with_query ps d in
  raw_body d' = raw_body d /\ headers d' = headers d /\ wd_now_unix d' = wd_now_unix d /\
  query d' = list_to_map ps ∪ query d.
Proof.
  revert d. induction ps as [|[k v] ps IH]; intros d Hn; [cbn; now rewrite map_empty_union|].
  apply NoDup_cons in Hn as [Hk Hn]. cbv zeta.
  change (with_query ((k, v) :: ps) d) with (with_query ps (with_query_param k v d)).
  destruct (IH (with_query_param k v d) Hn) as (-> & -> & -> & Hq).
  split_and!; try done. rewrite Hq. cbn [with_query_param query].
  change (list_to_map ((k, v) :: ps)) with (<[k:=v]> (list_to_map ps : gmap str str)).
  rewrite <- insert_union_l. symmetry. apply insert_union_r. apply not_elem_of_list_to_map_1. exact Hk.
Qed.
Lemma forwarded_lower `{HttpLib} hs : Forall (fun h => to_ascii_lowercase h.1 = h.1) hs ->
  Forall (fun h => to_ascii_lowercase h.1 = h.1) (forwarded hs).
Proof.
  induction 1 as [|[m v] hs Hm _ IH]; [constructor|].
  unfold forwarded. cbn [omap list_omap]. destruct (existsb _ _); [exact IH|].
  destruct (header_text v); [|exact IH]. now constructor.
Qed.
Lemma last_of_cons n m t hs :
  last_of n ((m, t) :: hs) None =
  match last_of n hs None with Some u => Some u | None => if String.eqb m n then Some t else None end.
Proof. unfold last_of at 1. cbn [fold_left]. apply last_of_default. Qed.
Lemma last_of_forwarded `{HttpLib} n hs :
  last_of n (forwarded hs) None = if existsb (String.eqb n) NEVER_FORWARD then None else last_value n hs.
Proof.
  induction hs as [|[m v] hs IH]; [now destruct (existsb _ _)|]. cbn [last_value].
  change (forwarded ((m, v) :: hs)) with
    (match (if existsb (String.eqb m) NEVER_FORWARD then None else (fun v => (m, v)) <$> header_text v) with
     | Some y => y :: forwarded hs | None => forwarded hs end).
  destruct (existsb (String.eqb m) NEVER_FORWARD) eqn:Em; [|destruct (header_text v) as [t|]; cbn [fmap option_fmap option_map]];
    rewrite ?last_of_cons, IH; destruct (String.eqb_spec m n) as [->|]; rewrite ?Em; try done;
    destruct (existsb _ _); try done; now destruct (last_value n hs).
Qed.

(** ** Theorems *)

Section SidecarTheorems.
Context `{HttpLib} {W : Type} `{SystemClock W}.
Implicit Types (reg : gmap str (PaymentRail W)) (req : HttpRequest) (w : W).

Lemma dispatch_ok `{!HttpLaws} reg req w (b : Body) w' :
  dispatch reg req w = (json_ok b, w') <-> succeeds reg req w b w'.
Proof.
  split.
  - unfold dispatch. destruct (route req) as [|rid|rid|rid|rid|rid|rid] eqn:Er.
    + intros [= <- <-]. now constructor.
    + intros (a & Ha & ->)%respond_ok. unfold api_capabilities, lookup_rail in Ha. revert Ha. unfold_eff.
      destruct (reg !! rid) as [R|] eqn:E; [|done]. intros [= <- <-]. exact (succeeds_capabilities _ _ _ rid R Er E).
    + intros (q & Hq & (a & (R & HR & Ho)%on_rail_ok & ->)%respond_ok)%extracted_ok; [|apply pay_request_rejects].
      eapply succeeds_quote; eassumption.
    + intros (q & Hq & (a & (R & HR & Ho)%on_rail_ok & ->)%respond_ok)%extracted_ok; [|apply pay_request_rejects].
      eapply succeeds_charge; eassumption.
    + intros (q & Hq & (a & (R & HR & Ho)%on_rail_ok & ->)%respond_ok)%extracted_ok; [|apply receipt_rejects].
      eapply succeeds_verify; eassumption.
    + intros (q & Hq & (a & Ha & ->)%respond_ok)%extracted_ok; [|apply bytes_rejects].
      unfold api_validate_destination, lookup_rail in Ha. revert Ha. unfold_eff.
      destruct (reg !! rid) as [R|] eqn:E; [|done]. cbn [ok_or].
      destruct (parse_destination q) as [d|] eqn:Ed; [|done]. intros [= <- <-].
      eapply succeeds_destination; eassumption.
    + intros (q & Hq & (body & Hb & (a & (R & t & w0 & ? & ? & ? & ?)%api_webhook_ok & ->)%respond_ok)%extracted_ok)%extracted_ok;
        [|apply bytes_rejects | apply query_rejects].
      eapply succeeds_webhook; eassumption.
  - unfold dispatch. intros Hs.
    destruct Hs as [Er|rid R Er HR|rid R q a w' Er HR Hq Ho|rid R q rc w' Er HR Hq Ho|rid R rc b w' Er HR Hq Ho
      |rid R body d Er HR Hq Hd|rid R q body t w0 e w' Er HR Hq Hb Ht Hpos Ho]; rewrite Er.
    + done.
    + apply respond_ok. eexists. split; [|done]. unfold api_capabilities, lookup_rail. unfold_eff. now rewrite HR.
    + rewrite Hq. apply respond_ok. eexists. split; [|done]. apply on_rail_ok. eauto.
    + rewrite Hq. apply respond_ok. eexists. split; [|done]. apply on_rail_ok. eauto.
    + rewrite Hq. apply respond_ok. eexists. split; [|done]. apply on_rail_ok. eauto.
    + rewrite Hq. apply respond_ok. eexists. split; [|done].
      unfold api_validate_destination, lookup_rail. unfold_eff. rewrite HR. cbn [ok_or]. now rewrite Hd.
    + rewrite Hq, Hb. apply respond_ok. eexists. split; [|done]. apply api_webhook_ok. eauto 10.
Qed.

(** The token gate. Every request but the liveness check either carries [Authorization: Bearer]
    with exactly the configured token, and is answered as the handlers answer it, or is
    answered the same bare 401 whatever the rail, the body or the reason, without any effect
    on any rail. *)
Theorem sidecar_requires_token reg (token : str) req w :
  route req = Healthz /\ app reg token req w = (healthz, w) \/
  authorized token req /\ app reg token req w = dispatch reg req w \/
  ~ authorized token req /\ app reg token req w = (unauthorized, w).
Proof.
  unfold app. pose proof (require_token_spec token req (dispatch reg req) w) as Hr.
  destruct (route req) eqn:E; [left; split; [done|]; unfold dispatch; now rewrite E|right; exact Hr..].
Qed.

(** What a 200 means. A handler answers 200 exactly when the operation its route names succeeded on
    the rail registered under the route's id, with that operation's own result as the body
    and its effect as the only effect: no failure — of a rail, of the framework's parsing, of
    the clock, of the lookup — is ever reported as a success, and in particular [valid: true]
    is only ever the rail's own [Ok(true)]. *)
Theorem sidecar_dispatch_spec `{!HttpLaws} reg req w (b : Body) w' :
  dispatch reg req w = (json_ok b, w') <-> succeeds reg req w b w'.
Proof. apply dispatch_ok. Qed.

(** What a rail is shown of a webhook. The delivery a rail authenticates has the request's exact
    body bytes, its query and the one clock reading, and of its headers exactly the readable
    ones, the last value of each name — except [authorization], [proxy-authorization] and
    [cookie], which it never has: the service's own token cannot reach a rail. *)
Theorem sidecar_delivery_spec (hs : list (str * list byte)) (q : gmap str str) (body : list byte)
    (now : Z) (Hlow : Forall (fun h => to_ascii_lowercase h.1 = h.1) hs) :
  let d := delivery_of hs q body now in
  raw_body d = body /\ query d = q /\ wd_now_unix d = now /\
  forall n, headers d !! n = if existsb (String.eqb n) NEVER_FORWARD then None else last_value n hs.
Proof.
  unfold delivery_of.
  destruct (with_query_spec (map_to_list q) (with_headers (forwarded hs) (delivery_new body now))) as (-> & Hh & -> & ->);
    [apply NoDup_fst_map_to_list|].
  destruct (with_headers_spec (forwarded hs) (delivery_new body now)) as (-> & -> & -> & Hl).
  { now apply forwarded_lower. }
  split_and!; [done | | done |].
  - rewrite list_to_map_to_list. apply map_union_empty.
  - intros n. rewrite Hh, Hl. cbn [delivery_new headers]. rewrite lookup_empty. apply last_of_forwarded.
Qed.
End SidecarTheorems.

(** ** A service for the witnesses

    Its extractors read no bytes: every request is the same valid one. *)

Definition demo_pay : PayRequest := {| req_amount_minor := 5; req_currency := "USDC";
  req_destination := "mock:wallet:alice"; req_reference := "order-1" |}.
#[local] Instance demo_http : HttpLib := {
  header_text v := if forallb (fun b => (32 <=? Z_of_byte b) && (Z_of_byte b <? 127)) v
                   then Some (string_of_list_byte v) else None;
  extract_pay_request _ := Ok demo_pay;
  extract_receipt _ := Err {| resp_status := 422; resp_body := BText "not a receipt" |};
  extract_query _ := Ok ∅;
  extract_bytes req := Ok (req_body req);
  parse_destination b := Ok (string_of_list_byte b);
}.
#[local] Instance demo_http_laws : HttpLaws.
Proof. split; intros req resp; cbn; try discriminate. intros [= <-]. split; [cbn; lia | now eexists]. Qed.
#[local] Instance demo_system_clock : SystemClock Z := fun w => (w * 10 ^ 9, w + 1).

Definition charge_call : HttpRequest := {| route := RCharge "mock";
  req_headers := [("authorization"%string, as_bytes "Bearer s3cr3t")]; req_query := ""; req_body := [] |}.
Lemma sidecar_dispatch_spec_witness :
  exists rc, succeeds (default_registry (W := Z)) charge_call 7 (BReceipt rc) 8 /\ amount_minor rc = 5.
Proof.
  destruct (app default_registry "s3cr3t" charge_call 7) as [[code []] w] eqn:E; try discriminate E.
  exists r. split.
  - apply (sidecar_dispatch_spec (W := Z)). vm_compute in E. injection E as _ <- _. vm_compute. reflexivity.
  - vm_compute in E. injection E as _ <- _. reflexivity.
Defined.
Lemma sidecar_delivery_spec_witness :
  headers (delivery_of (req_headers charge_call) ∅ [] 0) !! "authorization"%string = None.
Proof.
  destruct (sidecar_delivery_spec (req_headers charge_call) ∅ [] 0) as (_ & _ & _ & Hh).
  { repeat constructor. }
  rewrite Hh. reflexivity.
Defined.

(** A process started from its environment never accepts a blank token, and
    knows the mock rail only. *)
Lemma token_from_env_spec var t :
  token_from_env var = Ok t <-> var = Some t /\ is_blank t = false.
Proof.
  unfold token_from_env. destruct var as [v|]; [|now split; [|intros [? _]]].
  destruct (is_blank v) eqn:E; cbn [negb]; split; try done.
  - intros [[= <-] ?]. congruence.
  - now intros [= <-].
  - now intros [[= <-] _].
Qed.
Lemma default_registry_mock_only `{HttpLib} {W} `{SystemClock W} `{Clock W} rid (w : W) :
  rid <> "mock"%string -> api_capabilities default_registry rid w = (Err (UnknownRail rid), w).
Proof.
  intros Hne. unfold api_capabilities, lookup_rail, default_registry. unfold_eff.
  rewrite lookup_singleton_ne by done. done.
Qed.
