(* ===== verification/Server.v ===== *)
(** * The sidecar process ([patala-sidecar/src/main.rs], [lib.rs])

    From the environment to the socket, and from a method and a path to a
    handler: the route table of [app], which routes stand behind the token, and
    the start-up that refuses to run without one. axum's path patterns, its two
    fallbacks and its path extractor are a class; the listener is an effect. *)

From S2P Require Import Prelude RustStr Core Mock HttpShared Sidecar.

(** ** lib.rs: the route table *)

Record RawRequest := {
  raw_method : str;
  raw_path : str;
  raw_headers : list (str * list byte);
  raw_query : str;
  raw_content : list byte;
}.
(** [get(..)] answers HEAD requests too. *)
Inductive Verb := Get | Post.
Definition accepts (v : Verb) (method : str) : bool :=
  match v with
  | Get => String.eqb method "GET" || String.eqb method "HEAD"
  | Post => String.eqb method "POST"
  end.
Record Endpoint := { pattern : str; verb : Verb; handler : str -> Route }.
Definition protected : list Endpoint := [
  {| pattern := "/v1/rails/:rail_id"; verb := Get; handler := RCapabilities |};
  {| pattern := "/v1/rails/:rail_id/quote"; verb := Post; handler := RQuote |};
  {| pattern := "/v1/rails/:rail_id/charge"; verb := Post; handler := RCharge |};
  {| pattern := "/v1/rails/:rail_id/verify"; verb := Post; handler := RVerify |};
  {| pattern := "/v1/rails/:rail_id/validate-destination"; verb := Post; handler := RValidateDestination |};
  {| pattern := "/v1/rails/:rail_id/webhook"; verb := Post; handler := RWebhook |}
].
Definition HEALTHZ : str := "/healthz".

(** axum's router: whether a path is an instance of a pattern, the decoded
    [:rail_id] of one that is ([Path<String>]), and what it answers by itself
    when no pattern matches or a matching one has no such method. *)
Class AxumRouter := {
  path_matches : str -> str -> bool;
  path_param : str -> str -> Result Response str;
  not_found : RawRequest -> Response;
  wrong_method : str -> RawRequest -> Response;
}.
Definition refuses (r : Response) : Prop := 400 <= resp_status r < 500.
Class AxumRouterLaws `{AxumRouter} : Prop := {
  path_param_refuses p path resp : path_param p path = Err resp -> refuses resp;
  not_found_refuses req : refuses (not_found req);
  wrong_method_refuses token req : refuses (wrong_method token req);
}.

Section Serve.
Context `{AxumRouter, HttpLib} {W : Type} `{SystemClock W}.

Definition request_of (r : Route) (req : RawRequest) : HttpRequest :=
  {| route := r; req_headers := raw_headers req; req_query := raw_query req; req_body := raw_content req |}.
(** A response to HEAD has no body. *)
Definition strip_body (method : str) (r : Response) : Response :=
  if String.eqb method "HEAD" then {| resp_status := resp_status r; resp_body := BText EmptyString |} else r.
(** [route_layer]: the middleware reads the headers before any extractor runs. *)
Definition call_route (e : Endpoint) (reg : gmap str (PaymentRail W)) (token : str) (req : RawRequest)
    : W -> Response * W :=
  require_token token (request_of Healthz req)
    (extracted (path_param (pattern e) (raw_path req)) (fun rid => dispatch reg (request_of (handler e rid) req))).
Definition serve (reg : gmap str (PaymentRail W)) (token : str) (req : RawRequest) (w : W) : Response * W :=
  if path_matches HEALTHZ (raw_path req) then
    return_if negb (accepts Get (raw_method req)) with_ (wrong_method token req, w);
    (strip_body (raw_method req) healthz, w)
  else
    match List.find (fun e => path_matches (pattern e) (raw_path req)) protected with
    | None => (not_found req, w)
    | Some e =>
        return_if negb (accepts (verb e) (raw_method req)) with_ (wrong_method token req, w);
        let '(r, w') := call_route e reg token req w in
        (strip_body (raw_method req) r, w')
    end.
End Serve.

(** ** main.rs *)

Definition HOST : list Z := [127; 0; 0; 1].
Definition DEFAULT_PORT : Z := 8420.
Definition PORT_ENV_VAR : str := "PATALA_SIDECAR_PORT".
Definition u16_max : Z := 2 ^ 16 - 1.
Definition port_from_env (var : option str) : Z := default DEFAULT_PORT (var ≫= parse_unsigned u16_max).
Definition show_addr (port : Z) : str := "127.0.0.1:" +:+ to_dec port.

(** How the process goes on: it exits, or it serves this router on the socket
    it bound, until it is told to stop. *)
Inductive Process (W : Type) :=
  | Exits (code : Z) (message : str)
  | Serves (host : list Z) (port : Z) (router : RawRequest -> W -> Response * W).
Arguments Exits {W} code message.
Arguments Serves {W} host port router.
(** [TcpListener::bind]. *)
Definition Bind (W : Type) : Type := list Z -> Z -> Eff W str unit.

Definition main `{AxumRouter, HttpLib} {W} `{SystemClock W, Clock W} (bind : Bind W) (env : str -> option str)
    (w : W) : Process W * W :=
  match token_from_env (env TOKEN_ENV_VAR) with
  | Err msg => (Exits 1 ("patala-sidecar: refusing to start: " +:+ msg), w)
  | Ok token =>
      let port := port_from_env (env PORT_ENV_VAR) in
      let router := serve default_registry token in
      match bind HOST port w with
      | (Ok _, w) => (Serves HOST port router, w)
      | (Err e, w) => (Exits 1 ("patala-sidecar: failed to bind " +:+ show_addr port +:+ ": " +:+ e), w)
      end
  end.

(** ** Lemmas *)

Definition is_head (req : RawRequest) : bool := String.eqb (raw_method req) "HEAD".
Definition raw_authorized `{HttpLib} (token : str) (req : RawRequest) : Prop :=
  authorized token (request_of Healthz req).
(** The endpoint a request reaches, by its path and its method. *)
Definition reaches `{AxumRouter} (req : RawRequest) (e : Endpoint) (rid : str) : Prop :=
  In e protected /\ path_matches (pattern e) (raw_path req) = true /\
  accepts (verb e) (raw_method req) = true /\ path_param (pattern e) (raw_path req) = Ok rid.

Section ServerLemmas.
Context `{AxumRouterLaws, HttpLib} {W : Type} `{SystemClock W}.
Implicit Types (reg : gmap str (PaymentRail W)) (req : RawRequest) (w : W).

Lemma strip_status m r : resp_status (strip_body m r) = resp_status r.
Proof. unfold strip_body. now destruct (String.eqb _ _). Qed.
Lemma strip_other m r : String.eqb m "HEAD" = false -> strip_body m r = r.
Proof. unfold strip_body. now intros ->. Qed.

(** Every request, by how it is answered. *)
Lemma serve_cases reg token req w :
  serve reg token req w = (strip_body (raw_method req) healthz, w) \/
  (exists r, serve reg token req w = (r, w) /\ refuses r) \/
  (raw_authorized token req /\ exists e rid, reaches req e rid /\
     let '(r, w') := dispatch reg (request_of (handler e rid) req) w in
     serve reg token req w = (strip_body (raw_method req) r, w')).
Proof.
  unfold serve. destruct (path_matches HEALTHZ _).
  { destruct (accepts Get _); cbn [negb]; [now left | right; left; eauto using wrong_method_refuses]. }
  destruct (List.find _ protected) as [e|] eqn:Ef; [|right; left; eauto using not_found_refuses].
  apply find_some in Ef as [Hin Hm].
  destruct (accepts (verb e) _) eqn:Ea; cbn [negb]; [|right; left; eauto using wrong_method_refuses].
  unfold call_route.
  match goal with |- context [require_token token ?q ?next w] =>
    destruct (require_token_spec token q next w) as [[Hauth ->]|[_ ->]] end.
  - destruct (path_param (pattern e) (raw_path req)) as [rid|resp] eqn:Ep; cbn [extracted].
    + right; right. split; [exact Hauth|]. exists e, rid. split; [done|].
      now destruct (dispatch reg _ w).
    + right; left. eexists. split; [reflexivity|].
      unfold refuses. rewrite strip_status. exact (path_param_refuses _ _ _ Ep).
  - right; left. eexists. split; [reflexivity|]. unfold refuses. rewrite strip_status. cbn. lia.
Qed.
(** A matched request with the token is [app]'s to answer. *)
Lemma serve_is_app reg token req w e rid :
  path_matches HEALTHZ (raw_path req) = false ->
  List.find (fun e => path_matches (pattern e) (raw_path req)) protected = Some e ->
  accepts (verb e) (raw_method req) = true -> path_param (pattern e) (raw_path req) = Ok rid ->
  is_head req = false ->
  serve reg token req w = app reg token (request_of (handler e rid) req) w.
Proof.
  intros Hh Hf Ha Hp Hn. unfold serve. rewrite Hh, Hf, Ha. cbn [negb]. unfold call_route. rewrite Hp. cbn [extracted].
  assert (route (request_of (handler e rid) req) <> Healthz) as Hr.
  { apply find_some in Hf as [Hin _]. cbn in Hin.
    repeat (destruct Hin as [<-|Hin]; [discriminate|]). destruct Hin. }
  transitivity (require_token token (request_of (handler e rid) req) (dispatch reg (request_of (handler e rid) req)) w).
  - change (require_token token (request_of Healthz req)) with
      (require_token (W:=W) token (request_of (handler e rid) req)).
    destruct (require_token _ _ _ w) as [r w']. now rewrite strip_other.
  - unfold app. now destruct (route (request_of (handler e rid) req)).
Qed.
(** Only a POST route of a registered rail has an effect. *)
Lemma unregistered {A} reg rid (f : A -> Body) (k : PaymentRail W -> Eff W ApiError A) w :
  reg !! rid = None -> snd (respond f (rail ← lookup_rail reg rid; k rail) w) = w.
Proof. intros E. unfold respond, lookup_rail. unfold_eff. now rewrite E. Qed.
Lemma extracted_effect {A} (x : Result Response A) (k : A -> W -> Response * W) w :
  (forall a, snd (k a w) = w) -> snd (extracted x k w) = w.
Proof. intros Hk. destruct x; [apply Hk | done]. Qed.
Lemma dispatch_effect reg req e rid w :
  In e protected -> snd (dispatch reg (request_of (handler e rid) req) w) <> w ->
  verb e = Post /\ is_Some (reg !! rid).
Proof.
  intros Hin Hw. destruct (reg !! rid) as [R|] eqn:E.
  - split; [|now exists R]. cbn in Hin. destruct Hin as [<-|Hin].
    + exfalso. apply Hw. unfold dispatch, respond, api_capabilities, lookup_rail. cbn. unfold_eff. now rewrite E.
    + repeat (destruct Hin as [<-|Hin]; [done|]). destruct Hin.
  - exfalso. apply Hw. clear Hw. cbn in Hin.
    repeat (destruct Hin as [<-|Hin]; [unfold dispatch; cbn [handler route request_of];
      repeat (apply extracted_effect; intros ?); now apply unregistered|]). destruct Hin.
Qed.
Lemma port_from_env_range var : 0 <= port_from_env var <= u16_max.
Proof.
  unfold port_from_env. destruct var as [v|]; cbn; [|unfold DEFAULT_PORT, u16_max; lia].
  unfold parse_unsigned. destruct (parse_digits _) as [n|]; cbn; [|unfold DEFAULT_PORT, u16_max; lia].
  destruct (in_range 0 u16_max n) as [m|] eqn:E; cbn; [|unfold DEFAULT_PORT, u16_max; lia].
  apply in_range_Some in E as [-> ?]. done.
Qed.
End ServerLemmas.

(** ** Theorem *)

(** C37: the process never serves without its token. Started in an environment whose
    token is unset or blank it exits 1, having bound nothing. When it serves, it
    does on 127.0.0.1 only, with a token that is not blank; and whatever a request
    says, on any path and with any method, a request that does not carry exactly
    that bearer token changes nothing and gets the liveness answer or a 4xx; a
    request that changes anything is a POST to a route of the table for the mock
    rail; and what is answered, short of a refusal, is the handlers' own answer. *)
Theorem server_gated `{AxumRouterLaws, HttpLib} {W} `{SystemClock W, Clock W} (bind : Bind W) env (w : W) :
  ((forall t, env TOKEN_ENV_VAR = Some t -> is_blank t = true) ->
     exists msg, main bind env w = (Exits 1 msg, w)) /\
  (forall host port router w1, main bind env w = (Serves host port router, w1) ->
     host = [127; 0; 0; 1] /\ 0 <= port < 65536 /\ bind host port w = (Ok tt, w1) /\
     exists token, env TOKEN_ENV_VAR = Some token /\ is_blank token = false /\
     forall req w2 resp w3, router req w2 = (resp, w3) ->
       (~ raw_authorized token req ->
          w3 = w2 /\ (resp = strip_body (raw_method req) healthz \/ refuses resp)) /\
       (w3 <> w2 -> raw_method req = "POST"%string /\ exists e, reaches req e "mock") /\
       (resp = strip_body (raw_method req) healthz \/ refuses resp \/
        exists e rid r, reaches req e rid /\ resp = strip_body (raw_method req) r /\
          dispatch default_registry (request_of (handler e rid) req) w2 = (r, w3))).
Proof.
  split.
  - intros Hb. unfold main. destruct (token_from_env (env TOKEN_ENV_VAR)) as [t|msg] eqn:E; [|now exists ("patala-sidecar: refusing to start: " +:+ msg)].
    apply token_from_env_spec in E as [E1 E2]. rewrite (Hb _ E1) in E2. discriminate E2.
  - intros host port router w1 Hm. unfold main in Hm.
    destruct (token_from_env (env TOKEN_ENV_VAR)) as [token|msg] eqn:E; [|discriminate Hm].
    apply token_from_env_spec in E as [E1 E2].
    destruct (bind HOST _ w) as [[[]|e] wb] eqn:Eb; [|discriminate Hm]. injection Hm as <- <- <- <-.
    split; [done|]. split; [pose proof (port_from_env_range (env PORT_ENV_VAR)); unfold u16_max in *; lia|].
    split; [exact Eb|]. exists token. split; [exact E1|]. split; [exact E2|]. intros req w2 resp w3 Hs.
    destruct (serve_cases default_registry token req w2) as [E|[(r & E & Hr)|(Ha & e & rid & Hre & Hd)]].
    + rewrite E in Hs. injection Hs as <- <-. split_and!; [auto | done | auto].
    + rewrite E in Hs. injection Hs as <- <-. split_and!; [auto | done | auto].
    + destruct (dispatch default_registry _ w2) as [r w'] eqn:Ed. rewrite Hd in Hs. injection Hs as <- <-.
      split_and!; [done | | right; right; now exists e, rid, r].
      intros Hw. destruct Hre as (Hin & Hpm & Hac & Hpp).
      destruct (dispatch_effect default_registry req e rid w2 Hin) as [Hv [R HR]]; [now rewrite Ed|].
      unfold default_registry in HR. apply lookup_singleton_Some in HR as [<- _].
      split; [|now exists e]. rewrite Hv in Hac. now apply String.eqb_eq in Hac.
Qed.

(** ** A router for the witness

    Patterns and paths by segments; a parameter is one segment, not empty. *)

Fixpoint segments (s : str) : list str :=
  match s with
  | EmptyString => [EmptyString]
  | String a s =>
      if Ascii.eqb a "/" then EmptyString :: segments s
      else match segments s with x :: l => String a x :: l | [] => [String a EmptyString] end
  end.
Definition is_parameter (segment : str) : bool := match segment with String ":" _ => true | _ => false end.
Fixpoint match_segments (pattern path : list str) : option (list str) :=
  match pattern, path with
  | [], [] => Some []
  | p :: ps, x :: xs =>
      if is_parameter p then (if String.eqb x "" then None else cons x <$> match_segments ps xs)
      else if String.eqb p x then match_segments ps xs else None
  | _, _ => None
  end.
#[local] Instance segment_router : AxumRouter := {
  path_matches p x := if match_segments (segments p) (segments x) then true else false;
  path_param p x := match match_segments (segments p) (segments x) with
                    | Some (rid :: _) => Ok rid
                    | _ => Err {| resp_status := 400; resp_body := BText "no parameter" |} end;
  not_found _ := {| resp_status := 404; resp_body := BText "" |};
  wrong_method _ _ := {| resp_status := 405; resp_body := BText "" |};
}.
#[local] Instance segment_router_laws : AxumRouterLaws.
Proof.
  split; unfold refuses; cbn; try (intros; lia). intros p x resp.
  destruct (match_segments _ _) as [[|rid l]|]; intros [= <-]; cbn; lia.
Qed.
#[local] Existing Instances demo_http demo_system_clock.
Definition free_ports : Bind Z := fun _ _ w => (Ok tt, w).
Definition environment (name : str) : option str :=
  if String.eqb name TOKEN_ENV_VAR then Some "s3cr3t"%string
  else if String.eqb name PORT_ENV_VAR then Some "+9000"%string else None.
Definition charge_request (authorization : str) : RawRequest := {| raw_method := "POST";
  raw_path := "/v1/rails/mock/charge"; raw_headers := [("authorization"%string, as_bytes authorization)];
  raw_query := ""; raw_content := [] |}.
Lemma server_gated_witness :
  exists router, main free_ports environment 0 = (Serves HOST 9000 router, 0) /\
    snd (router (charge_request "Bearer s3cr3t") 7) = 8 /\
    snd (router (charge_request "Bearer s3cr3T") 7) = 7.
Proof.
  eexists. split; [reflexivity|]. split; [vm_compute; reflexivity|].
  destruct (proj2 (server_gated free_ports environment 0) HOST 9000 _ 0 eq_refl) as (_ & _ & _ & token & Ht & _ & Hr).
  injection Ht as <-.
  destruct (Hr (charge_request "Bearer s3cr3T") 7 _ _ (surjective_pairing _)) as [Hn _].
  refine (proj1 (Hn _)). intros (v & Hv & He). injection Hv as <-. vm_compute in He. discriminate He.
Defined.
