(* ===== verification/Stripe.v ===== *)
(** * The Stripe adapter ([patala-fiat/src/stripe/*.rs])

    The representative of the processor adapters: hosted checkout sessions.
    [config.rs] and the amount rules of [models.rs], the receipt proof of
    [proof.rs], the rail of [rail.rs] over an HTTP client given as an effectful
    operation, and the webhook scheme of [webhook.rs]. serde's reading of
    Stripe's JSON is a class. *)

From S2P Require Import Prelude RustStr Core External HttpShared FiatDest Json Adapter Orders.

(** ** models.rs: amounts *)

Definition STRIPE_FORCED_TWO_DECIMAL : list str := ["ISK"; "UGX"]%string.
Definition STRIPE_THREE_DECIMAL : list str := ["KWD"; "BHD"; "JOD"; "OMR"; "TND"]%string.
Definition contains_code (codes : list str) (c : str) : bool := existsb (fun x => eq_ignore_ascii_case x c) codes.
Definition stripe_currency (c : str) : str := to_ascii_uppercase (trim c).

Definition stripe_unsupported_currency (cur : str) : Error := InvalidRequest
  ("stripe: " +:+ cur +:+ " is a three-decimal ISO-4217 currency, not verified against Stripe's documented amount semantics; refusing rather than guessing").
Definition stripe_malformed (detail : str) : Error := api_malformed "stripe" detail.
Definition stripe_amount (amt : Z) (c : str) : Result Error Z :=
  let cur := stripe_currency c in
  return_if contains_code STRIPE_THREE_DECIMAL cur with_ Err (stripe_unsupported_currency cur);
  return_if contains_code STRIPE_FORCED_TWO_DECIMAL cur with_
    ok_or (InvalidRequest ("stripe: amount " +:+ to_dec amt +:+ " overflows for " +:+ cur)) (u64_checked_mul amt 100);
  Ok amt.
Definition stripe_amount_to_minor (amt : Z) (c : str) : Result Error Z :=
  let cur := stripe_currency c in
  return_if contains_code STRIPE_THREE_DECIMAL cur with_ Err (stripe_unsupported_currency cur);
  return_if contains_code STRIPE_FORCED_TWO_DECIMAL cur with_
    (return_if negb (amt mod 100 =? 0) with_
       Err (stripe_malformed (cur +:+ " amount " +:+ to_dec amt +:+ " is not a whole multiple of 100 as Stripe documents"));
     Ok (amt / 100));
  Ok amt.

(** ** models.rs: sessions *)

Record StripeSession := {
  ss_id : str;
  payment_status : str;
  amount_total : Z;
  ss_currency : str;
  client_reference_id : str;
  metadata : gmap str str;
  payment_intent : option str;
}.
Record SessionOutcome := {
  so_reference : str;
  so_settled : bool;
  so_amount_minor : Z;
  so_currency : str;
}.
Definition session_reference (s : StripeSession) : Result Error str :=
  return_if negb (is_empty (client_reference_id s)) with_ Ok (client_reference_id s);
  ok_or (stripe_malformed "session has no client_reference_id or patala_reference metadata to reconcile against")
    (metadata s !! "patala_reference"%string).
Definition evaluate_session (s : StripeSession) : Result Error SessionOutcome :=
  return_if is_empty (ss_id s) with_ Err (stripe_malformed "missing session id");
  ref ← session_reference s;
  let cur := stripe_currency (ss_currency s) in
  return_if negb (String.eqb (payment_status s) "paid") with_
    Ok {| so_reference := ref; so_settled := false; so_amount_minor := 0; so_currency := cur |};
  return_if amount_total s =? 0 with_
    Err (stripe_malformed "payment_status=paid with non-positive amount_total");
  amt ← stripe_amount_to_minor (amount_total s) cur;
  Ok {| so_reference := ref; so_settled := true; so_amount_minor := amt; so_currency := cur |}.

(** ** proof.rs and the JSON the adapter reads *)

Record ChargeProof := { session_id : str; status_at_charge : str; redirect_url_of : option str }.
Record RefundProof := { refund_id : str; status_at_refund : str }.
Record CreateResponse := { cr_id : str; cr_url : str }.
Record RefundResponse := { rr_id : str; rr_status : str; rr_amount : Z; rr_currency : str }.
Record Envelope := { env_id : str; event_type : str; env_object : Json }.

Record StripeErrorEnvelope := { see_message : str }.

(** serde's readings of these types, from bytes or from a value. *)
Class StripeJson := {
  #[export] create_json :: FromJson CreateResponse;
  #[export] session_json :: FromJson StripeSession;
  #[export] refund_json :: FromJson RefundResponse;
  #[export] envelope_json :: FromJson Envelope;
  #[export] object_json :: FromValue StripeSession;
  #[export] error_json :: FromJson StripeErrorEnvelope;
}.

Definition classify_error `{StripeJson} (code : Z) (body : list byte) : Error :=
  let env := default {| see_message := EmptyString |} (result_ok (from_json body)) in
  api_status "stripe" code (or_no_message (see_message env)).

(** ** webhook.rs *)

Definition SIGNATURE_TOLERANCE_SECS : Z := 5 * 60.
Inductive StripeWebhookError :=
  | EmptyBody | MissingSignature | InvalidSignature | StaleSignature
  | MalformedResponse (e : str)
  | UnhandledEvent (ty : str).
Definition stripe_webhook_error_display (e : StripeWebhookError) : str :=
  match e with
  | EmptyBody => "payments: stripe: empty request body"
  | MissingSignature => "payments: stripe: missing Stripe-Signature header"
  | InvalidSignature => "payments: stripe: invalid webhook signature"
  | StaleSignature => "payments: stripe: webhook timestamp outside replay tolerance"
  | MalformedResponse e => "payments: stripe: malformed API response: " +:+ e
  | UnhandledEvent ty => "payments: unhandled webhook event type: " +:+ ty
  end.

(** One [key=value] part of the signature header. *)
Definition signature_part (acc : option str * option str) (part : str) : option str * option str :=
  match split_once "=" (trim part) with
  | Some (k, v) =>
      return_if String.eqb k "t" with_ (Some v, acc.2);
      return_if String.eqb k "v1" with_ (acc.1, Some v);
      acc
  | None => acc
  end.
Definition parse_signature_header (h : str) : Result StripeWebhookError (str * str) :=
  match fold_left signature_part (split_char "," h) (None, None) with
  | (Some t, Some v) => Ok (t, v)
  | _ => Err InvalidSignature
  end.
Definition signed_payload (ts : str) (body : list byte) : list byte :=
  as_bytes ts ++ as_bytes "." ++ body.
Definition handled_event (ty : str) : bool :=
  String.eqb ty "checkout.session.completed" || String.eqb ty "checkout.session.async_payment_succeeded".

Record StripeWebhookEvent := {
  swe_event_id : str;
  swe_reference : str;
  swe_settled : bool;
  swe_amount_minor : Z;
  swe_currency : str;
}.
Definition parse_event `{StripeJson} (body : list byte) : Result StripeWebhookError StripeWebhookEvent :=
  env ← map_err MalformedResponse (from_json (T := Envelope) body);
  return_if negb (handled_event (event_type env)) with_ Err (UnhandledEvent (event_type env));
  session ← map_err (fun e => MalformedResponse ("event data.object: " +:+ e)) (from_value (env_object env));
  outcome ← map_err (fun e => MalformedResponse (error_display e)) (evaluate_session session);
  Ok {| swe_event_id := if is_empty (env_id env) then ss_id session else env_id env;
        swe_reference := so_reference outcome; swe_settled := so_settled outcome;
        swe_amount_minor := so_amount_minor outcome; swe_currency := so_currency outcome |}.
Definition verify_and_parse `{Hex, StripeJson} (M : Mac) (secret : str) (body : list byte) (sig_header : str)
    (now : Z) : Result StripeWebhookError StripeWebhookEvent :=
  let h := trim sig_header in
  return_if is_empty h with_ Err MissingSignature;
  return_if bool_decide (body = []) with_ Err EmptyBody;
  tv ← parse_signature_header h;
  return_if negb (verify_hmac_sha256_hex M (as_bytes secret) (signed_payload tv.1 body) tv.2) with_
    Err InvalidSignature;
  ts ← ok_or InvalidSignature (parse_i64 tv.1);
  return_if SIGNATURE_TOLERANCE_SECS <? signature_age now ts with_ Err StaleSignature;
  parse_event body.

(** ** config.rs and rail.rs *)

Record StripeConfig := {
  secret_key : str;
  webhook_secret : str;
  st_requires_kyc : bool;
  st_currencies : list str;
  settlement_days : Z;
  timeout_secs : Z;
}.
(** [StripeConfig::from_env]. *)
Definition stripe_config_from_env (env : Environment) : Result Error StripeConfig :=
  key ← non_empty_env env "STRIPE_SECRET_KEY";
  secret ← non_empty_env env "STRIPE_WEBHOOK_SECRET";
  Ok {| secret_key := key; webhook_secret := secret;
        st_requires_kyc := env_flag env "STRIPE_REQUIRES_KYC" true;
        st_currencies := env_currencies env "STRIPE_CURRENCIES" [];
        settlement_days := env_u8 env "STRIPE_SETTLEMENT_DAYS" 2;
        timeout_secs := env_u64 env "STRIPE_TIMEOUT_SECS" 15 |}.
Definition STRIPE_API_BASE : str := "https://api.stripe.com/v1".

Record StripeRail (W : Type) := {
  stripe_id : str;
  st_config : StripeConfig;
  st_http : HttpClient W;
  st_capabilities : RailCapabilities;
  base_url : str;
}.
Arguments stripe_id {W} _.
Arguments st_config {W} _.
Arguments st_http {W} _.
Arguments st_capabilities {W} _.
Arguments base_url {W} _.

Definition stripe_new {W} (c : StripeConfig) (builder : HttpBuilder W) : Result Error (StripeRail W) :=
  _ ← required "secret_key" (secret_key c);
  _ ← required "webhook_secret" (webhook_secret c);
  http ← built_client "stripe" builder (timeout_secs c);
  Ok {| stripe_id := "stripe"; st_config := c; st_http := http;
        st_capabilities := {|
          class := CustodialReversible; reversible := true; requires_kyc := st_requires_kyc c;
          holds_funds := true; currencies := st_currencies c; settlement := Days (settlement_days c);
          atomic_multi_party := false |};
        base_url := STRIPE_API_BASE |}.

Definition safe_path_segment : str -> Result Error str := path_segment "a stripe id".

Section StripeRail.
Context `{StripeJson} `{ProofBytes ChargeProof} `{ProofBytes RefundProof} `{Hex} (sha256_mac : Mac)
  {W : Type} `{Clock W}.

Definition check_currency (r : StripeRail W) : str -> Result Error unit :=
  check_unless_empty (stripe_id r) (currencies (st_capabilities r)).
Definition form_call (r : StripeRail W) (method path : str) (form : option (list (str * str)))
    (idem : option str) : HttpCall := {|
  hc_method := method; hc_url := base_url r +:+ path;
  hc_basic_auth := Some (secret_key (st_config r), None);
  hc_headers := match idem with Some k => [("Idempotency-Key"%string, k)] | None => [] end
    ++ [("Accept"%string, "application/json"%string)];
  hc_body := match form with Some f => FormBody f | None => NoBody end |}.
Definition do_form (r : StripeRail W) (method path : str) (form : option (list (str * str)))
    (idem : option str) : Eff W Error (list byte * Z) :=
  transport "stripe" path (st_http r) (form_call r method path form idem).

Definition stripe_quote (r : StripeRail W) (req : PayRequest) : Eff W Error Quote :=
  eff_of (validate req) ≫= fun _ =>
  eff_of (check_currency r (req_currency req)) ≫= fun _ =>
  eff_of (stripe_amount (req_amount_minor req) (req_currency req)) ≫= fun _ =>
  quoted (stripe_id r) (settlement (st_capabilities r)) 300 (req_currency req) req.

Definition checkout_form (req : PayRequest) (cur : str) (amt : Z) : list (str * str) := [
  ("mode", "payment");
  ("client_reference_id", req_reference req);
  ("line_items[0][quantity]", "1");
  ("line_items[0][price_data][currency]", to_ascii_lowercase cur);
  ("line_items[0][price_data][unit_amount]", to_dec amt);
  ("line_items[0][price_data][product_data][name]", "patala order " +:+ req_reference req);
  ("success_url", req_destination req);
  ("cancel_url", req_destination req);
  ("metadata[patala_reference]", req_reference req)]%string.
Definition stripe_charge (r : StripeRail W) (req : PayRequest) : Eff W Error Receipt :=
  eff_of (validate req) ≫= fun _ =>
  eff_of (check_currency r (req_currency req)) ≫= fun _ =>
  let cur := stripe_currency (req_currency req) in
  amt ← eff_of (stripe_amount (req_amount_minor req) cur);
  body ← expect_2xx classify_error (do_form r "POST" "/checkout/sessions" (Some (checkout_form req cur amt))
    (Some ("begin:" +:+ req_reference req)));
  parsed ← parse_as (T := CreateResponse) "stripe" body;
  return_if is_empty (cr_id parsed) || is_empty (cr_url parsed) with_
    eff_err (stripe_malformed "empty session id or url");
  mret (open_receipt (stripe_id r) cur (req_reference req)
    {| session_id := cr_id parsed; status_at_charge := "open"; redirect_url_of := Some (cr_url parsed) |}).

(** What [verify] asks of the session Stripe reports. *)
Definition session_pays (s : StripeSession) (receipt : Receipt) : bool :=
  let_ok outcome := evaluate_session s or_else false;
  covers (so_settled outcome) (so_currency outcome) (so_amount_minor outcome) receipt.
Definition stripe_verify (r : StripeRail W) (receipt : Receipt) : Eff W Error bool :=
  return_if negb (String.eqb (rail_id receipt) (stripe_id r)) with_ mret false;
  let_some p := from_bytes (P := ChargeProof) (proof receipt) or_else mret false;
  let_ok sid := safe_path_segment (session_id p) or_else mret false;
  body ← expect_2xx classify_error (do_form r "GET" ("/checkout/sessions/" +:+ sid) None None);
  session ← parse_as (T := StripeSession) "stripe" body;
  mret (session_pays session receipt).

Definition intent_of (s : StripeSession) : Result Error str :=
  match payment_intent s with
  | Some i => if is_blank i then Err (Rail "stripe: session has no payment_intent to refund (payment not completed)") else Ok i
  | None => Err (Rail "stripe: session has no payment_intent to refund (payment not completed)")
  end.
Definition stripe_refund (r : StripeRail W) (receipt : Receipt) : Eff W Error Receipt :=
  return_if negb (String.eqb (rail_id receipt) (stripe_id r)) with_
    eff_err (other_rail (stripe_id r) receipt);
  p ← eff_of (ok_or (InvalidRequest "receipt proof is not a stripe charge proof") (from_bytes (P := ChargeProof) (proof receipt)));
  sid ← eff_of (safe_path_segment (session_id p));
  body ← expect_2xx classify_error (do_form r "GET" ("/checkout/sessions/" +:+ sid) None None);
  session ← parse_as (T := StripeSession) "stripe" body;
  intent ← eff_of (intent_of session);
  body ← expect_2xx classify_error (do_form r "POST" "/refunds" (Some [("payment_intent"%string, intent)]) None);
  parsed ← parse_as (T := RefundResponse) "stripe" body;
  let cur := stripe_currency (rr_currency parsed) in
  amt ← eff_of (if String.eqb (rr_status parsed) "succeeded" then stripe_amount_to_minor (rr_amount parsed) cur else Ok 0);
  now ← read_clock;
  mret {|
    rail_id := stripe_id r;
    amount_minor := amt;
    currency := cur;
    reference := reference receipt;
    proof := to_bytes {| refund_id := rr_id parsed; status_at_refund := rr_status parsed |};
    settled_at_unix := now;
  |}.

Definition stripe_webhook (r : StripeRail W) (d : WebhookDelivery) : Result Error WebhookEvent :=
  event ← map_err (fun e => InvalidRequest (stripe_webhook_error_display e))
    (verify_and_parse sha256_mac (webhook_secret (st_config r)) (raw_body d)
       (header_or_empty "Stripe-Signature" d) (wd_now_unix d));
  Ok (settlement_event (stripe_id r) (swe_event_id event) (swe_reference event) (swe_settled event)
        (swe_amount_minor event) (swe_currency event)).
Definition stripe_rail (r : StripeRail W) : PaymentRail W := {|
  id := stripe_id r;
  capabilities := st_capabilities r;
  quote := stripe_quote r;
  charge := stripe_charge r;
  verify := stripe_verify r;
  validate_destination := redirect_url (stripe_id r);
  refund := stripe_refund r;
  verify_webhook d := eff_of (stripe_webhook r d);
|}.
End StripeRail.
#[export] Hint Unfold stripe_rail stripe_new stripe_verify stripe_charge stripe_quote safe_path_segment do_form : adapter.

(** ** Lemmas *)

(** A rail configured from the environment is always a whole one. *)
Lemma stripe_from_env_builds {W} env c (builder : HttpBuilder W) http :
  stripe_config_from_env env = Ok c -> builder (timeout_secs c) = Ok http -> exists r, stripe_new c builder = Ok r.
Proof.
  unfold stripe_config_from_env. intros H Hb. run_inv H. injection H as <-.
  apply non_empty_env_Ok in Hx as [_ Hx], Hx0 as [_ Hx0].
  unfold stripe_new, required, built_client. cbn [secret_key webhook_secret] in *. rewrite Hx, Hx0, Hb. cbn. eauto.
Qed.

(** A session that says it was paid, for this reference, this much. *)
Record session_paid (s : StripeSession) (ref cur : str) (amt : Z) : Prop := {
  sp_id : ss_id s <> EmptyString;
  sp_reference : session_reference s = Ok ref;
  sp_status : payment_status s = "paid"%string;
  sp_positive : amount_total s <> 0;
  sp_currency : cur = stripe_currency (ss_currency s);
  sp_amount : stripe_amount_to_minor (amount_total s) cur = Ok amt;
}.
Lemma evaluate_session_paid s o :
  evaluate_session s = Ok o /\ so_settled o = true <->
  exists ref cur amt, session_paid s ref cur amt /\
    o = {| so_reference := ref; so_settled := true; so_amount_minor := amt; so_currency := cur |}.
Proof.
  unfold evaluate_session, mbind, result_bind. split.
  - intros [He Hs]. destruct (is_empty (ss_id s)) eqn:Ei; [done|].
    destruct (session_reference s) as [ref|] eqn:Er; [|done].
    destruct (String.eqb_spec (payment_status s) "paid"); cbn [negb] in He; [|now injection He as <-].
    destruct (Z.eqb_spec (amount_total s) 0); [done|].
    destruct (stripe_amount_to_minor _ _) as [amt|] eqn:Ea; [|done]. injection He as <-.
    exists ref, (stripe_currency (ss_currency s)), amt. split; [|done]. split; try done.
    intros E. now rewrite E in Ei.
  - intros (ref & cur & amt & [Hi Hr Hs Hp -> Ha] & ->). cbn [so_settled]. split; [|done].
    destruct (is_empty (ss_id s)) eqn:Ei; [now apply is_empty_spec in Ei|].
    rewrite Hr, Hs, Ha. cbn. now rewrite (proj2 (Z.eqb_neq _ _) Hp).
Qed.
Lemma session_pays_spec s rc :
  session_pays s rc = true <->
  exists ref cur amt, session_paid s ref cur amt /\
    eq_ignore_ascii_case cur (currency rc) = true /\ amount_minor rc <= amt.
Proof.
  unfold session_pays. split.
  - destruct (evaluate_session s) as [o|] eqn:Ee; [|done]. intros (Hs & Hc & Ha)%covers_spec.
    destruct (proj1 (evaluate_session_paid s o) (conj Ee Hs)) as (ref & cur & amt & Hp & ->).
    exists ref, cur, amt. auto.
  - intros (ref & cur & amt & Hp & Hc & Ha).
    destruct (proj2 (evaluate_session_paid s _) (ex_intro _ ref (ex_intro _ cur (ex_intro _ amt (conj Hp eq_refl))))) as [-> _].
    now apply covers_spec.
Qed.

Section StripeLemmas.
Context `{StripeJson} `{ProofBytes ChargeProof} `{ProofBytes RefundProof} `{Hex} (sha256_mac : Mac)
  {W : Type} `{Clock W}.
Implicit Types (r : StripeRail W) (rc : Receipt) (q : PayRequest) (w : W).

Lemma stripe_verify_spec r rc w w' :
  stripe_verify r rc w = (Ok true, w') <->
  exists p body s ref cur amt,
    rail_id rc = stripe_id r /\ from_bytes (P := ChargeProof) (proof rc) = Some p /\
    is_safe_path_segment (session_id p) = true /\
    answered (st_http r) (form_call r "GET" ("/checkout/sessions/" +:+ session_id p) None None) w body w' /\
    from_json (T := StripeSession) body = Ok s /\ session_paid s ref cur amt /\
    eq_ignore_ascii_case cur (currency rc) = true /\ amount_minor rc <= amt.
Proof.
  unfold stripe_verify. split.
  - intros Hv. run_inv Hv. apply names_rail in Hc. apply path_segment_Ok in Hp0 as [-> Hs].
    apply expect_2xx_Ok in Hx. apply session_pays_spec in Hv as (ref & cur & amt & ? & ? & ?).
    eauto 15.
  - intros (p & body & s & ref & cur & amt & Hi%names_rail & Hp & Hs & Hg & Hb & Hpaid & Hc & Ha).
    pose proof (proj2 (path_segment_Ok "a stripe id" _ _) (conj eq_refl Hs)).
    pose proof (proj2 (expect_2xx_Ok "stripe" ("/checkout/sessions/" +:+ session_id p) _ classify_error _ _ _ _) Hg).
    assert (session_pays s rc = true) by (apply session_pays_spec; eauto 10).
    unfold safe_path_segment, do_form. run.
Qed.

(** A paid session of the proof's id; its own reference is not kept. *)
Definition stripe_evidence r (p : list byte) (ref : str) w (ev : Evidence) w' : Prop :=
  exists cp body s ref',
    from_bytes (P := ChargeProof) p = Some cp /\ is_safe_path_segment (session_id cp) = true /\
    answered (st_http r) (form_call r "GET" ("/checkout/sessions/" +:+ session_id cp) None None) w body w' /\
    from_json (T := StripeSession) body = Ok s /\ session_paid s ref' (ev_currency ev) (ev_amount ev) /\
    ev_reference ev = None.
#[export] Instance stripe_verifies r : VerifiesBy (stripe_rail sha256_mac r) (stripe_evidence r).
Proof.
  intros rc w w'. cbn [verify stripe_rail id]. rewrite stripe_verify_spec. unfold stripe_evidence, supports. split.
  - intros (p & body & s & ref & cur & amt & Hi & ? & ? & ? & ? & ? & Hc & Ha). split; [done|].
    exists {| ev_reference := None; ev_currency := cur; ev_amount := amt |}. split; [|done]. eauto 10.
  - intros (Hi & ev & (cp & body & s & ref & ? & ? & ? & ? & ? & _) & _ & Hc & Ha).
    exists cp, body, s, ref, (ev_currency ev), (ev_amount ev). split_and!; done.
Qed.
Lemma stripe_ignores_reference r : ignores_reference (stripe_rail sha256_mac r).
Proof. intros rc ref w. reflexivity. Qed.

(** A recent delivery whose [v1] is the tag of its timestamp and body. *)
Definition stripe_authentic r (d : WebhookDelivery) w : Prop :=
  exists t v1 ts, parse_signature_header (trim (header_or_empty "Stripe-Signature" d)) = Ok (t, v1) /\
    hex_signed sha256_mac (as_bytes (webhook_secret (st_config r))) (signed_payload t (raw_body d)) v1 /\
    parse_i64 t = Some ts /\ signature_age (wd_now_unix d) ts <= SIGNATURE_TOLERANCE_SECS.
Lemma evaluate_session_id s o : evaluate_session s = Ok o -> ss_id s <> EmptyString.
Proof. unfold evaluate_session. intros He. run_inv He. now apply is_empty_false. Qed.
Lemma stripe_parse_event_id body ev : parse_event body = Ok ev -> swe_event_id ev <> EmptyString.
Proof.
  unfold parse_event. intros Hp. run_inv Hp. injection Hp as <-. cbn [swe_event_id].
  destruct (is_empty (env_id x)) eqn:Ei; [|now apply is_empty_false].
  now apply evaluate_session_id in Hx1.
Qed.
#[export] Instance stripe_webhook_answers r : WebhookAnswers (stripe_rail sha256_mac r) (stripe_authentic r).
Proof.
  intros d w ev w' Hw. cbn [verify_webhook stripe_rail] in Hw. unfold stripe_webhook, verify_and_parse in Hw.
  run_inv Hw. simplify_eq. split; [done|].
  apply negb_false_iff, hex_signed_spec in Hc1. apply Z.ltb_ge in Hc2. split; [exact (stripe_parse_event_id _ _ Hx)|].
  destruct x0 as [t v1]. exists t, v1, x1. done.
Qed.
End StripeLemmas.

(** ** Theorems *)

(** Stripe's amounts. The conversion to Stripe's integer and the one back are inverse to each other on
    every amount and currency: what [stripe_amount] sends is what [stripe_amount_to_minor]
    reads back, and conversely every amount it reads back is the one that would be sent.
    Three-decimal currencies are refused both ways, and the two currencies Stripe keeps at
    two decimals go through the factor 100. *)
Theorem stripe_amount_inverse (a n : Z) (c : str) (Ha : is_u64 a) (Hn : is_u64 n) :
  stripe_amount a c = Ok n <-> stripe_amount_to_minor n c = Ok a.
Proof.
  unfold stripe_amount, stripe_amount_to_minor, ok_or.
  destruct (contains_code STRIPE_THREE_DECIMAL _); [done|].
  destruct (contains_code STRIPE_FORCED_TWO_DECIMAL _); [|split; now intros [= ->]].
  destruct (u64_checked_mul a 100) as [m|] eqn:Em.
  - apply in_range_Some in Em as [-> _]. split.
    + intros [= <-]. rewrite Z.mod_mul, Z.div_mul by lia. done.
    + destruct (Z.eqb_spec (n mod 100) 0) as [E|]; [|done]. cbn [negb]. intros [= <-].
      f_equal. pose proof (Z.div_mod n 100). lia.
  - split; [done|]. destruct (Z.eqb_spec (n mod 100) 0) as [E|]; [|done]. cbn [negb]. intros [= <-].
    apply in_range_None in Em. destruct Em. unfold is_u64 in Hn. pose proof (Z.div_mod n 100). lia.
Qed.
Lemma stripe_amount_inverse_witness : stripe_amount_to_minor 50000 " isk" = Ok 500.
Proof.
  apply stripe_amount_inverse; [split; apply Z.leb_le; reflexivity | split; apply Z.leb_le; reflexivity |].
  vm_compute. reflexivity.
Defined.

Section StripeTheorems.
Context `{StripeJson} `{!ProofBytes ChargeProof} `{!ProofLaws ChargeProof} `{!ProofBytes RefundProof} `{Hex}
  (sha256_mac : Mac) {W : Type} `{Clock W}.
Implicit Types (r : StripeRail W) (rc : Receipt) (q : PayRequest) (w : W).

Definition stripe_places : Places := {|
  amount_at := ["line_items[0][price_data][unit_amount]"]; currency_at := At ["line_items[0][price_data][currency]"];
  reference_at := ["metadata[patala_reference]"] |}%string.
Definition stripe_ordered (r : StripeRail W) (o : Order) (rc : Receipt) (w w' : W) : Prop :=
  ordered_by (st_http r) "POST" (base_url r +:+ "/checkout/sessions") (reads stripe_places) o w w'.
(** What Stripe documents of the integers it takes: whole units for these, the
    ariary among them; hundredths of two that have none; minor units else. *)
Definition stripe_units (c : str) : option Z :=
  if lists_currency ["BIF"; "CLP"; "DJF"; "GNF"; "JPY"; "KMF"; "KRW"; "PYG"; "RWF"; "VND"; "VUV"; "XAF"; "XOF"; "XPF"] c
     || lists_currency ["MGA"] c then Some 0
  else if lists_currency ["ISK"; "UGX"] c then Some 2 else None.
Definition stripe_terms : Terms := {| price := in_units_of stripe_units; exact_below := 2 ^ 64;
  ratio c := if lists_currency ["MGA"] c then (100, 1) else (1, 1) |}.
Lemma stripe_amount_asked c n m : is_u64 n -> stripe_amount n c = Ok m -> normal_currency c = c ->
  asks_for stripe_terms (to_ascii_lowercase c) (to_dec m) n.
Proof.
  intros Hn Hm Hc _. cbn [stripe_terms price ratio]. unfold stripe_amount in Hm. change stripe_currency with normal_currency in Hm.
  rewrite Hc in Hm. change (contains_code ?l) with (lists_currency l) in Hm.
  destruct (lists_currency STRIPE_THREE_DECIMAL c); [done|]. rewrite lists_currency_lower.
  assert (minor_places (to_ascii_lowercase c) = minor_places c) as Hp
    by (apply minor_places_case, eq_ignore_ascii_case_spec, to_ascii_lowercase_idem).
  assert (0 <= m) as Hm0.
  { unfold is_u64 in Hn. destruct (lists_currency STRIPE_FORCED_TWO_DECIMAL c);
      [run_inv Hm; apply in_range_Some in Hm as [-> ?] | injection Hm as <-]; lia. }
  destruct (lists_currency ["MGA"] c) eqn:Emga.
  - apply units_major with (d := 0); [done | unfold stripe_units; now rewrite !lists_currency_lower, Emga, orb_true_r |].
    rewrite (lists_apart _ STRIPE_FORCED_TWO_DECIMAL c Emga eq_refl) in Hm. injection Hm as <-.
    rewrite Hp, (lists_places _ 2 c Emga eq_refl). lia.
  - destruct (lists_currency STRIPE_FORCED_TWO_DECIMAL c) eqn:Ef.
    + run_inv Hm. apply in_range_Some in Hm as [-> _]. apply units_major with (d := 2); [done | |].
      * unfold stripe_units. rewrite !lists_currency_lower, Emga. unfold STRIPE_FORCED_TWO_DECIMAL in Ef. rewrite Ef.
        now rewrite (lists_apart _ ["BIF"; "CLP"; "DJF"; "GNF"; "JPY"; "KMF"; "KRW"; "PYG"; "RWF"; "VND"; "VUV"; "XAF"; "XOF"; "XPF"]%string c Ef eq_refl).
      * rewrite Hp, (lists_places _ 0 c Ef eq_refl). lia.
    + injection Hm as <-. unfold stripe_units at 1.
      destruct (stripe_units (to_ascii_lowercase c)) as [d|] eqn:Eu; [|now apply units_minor].
      apply units_major with (d := d); [done..|]. unfold stripe_units in Eu. rewrite !lists_currency_lower, Emga in Eu.
      unfold STRIPE_FORCED_TWO_DECIMAL in Ef. rewrite Ef, orb_false_r in Eu.
      destruct (lists_currency _ c) eqn:Ez in Eu; [|done]. injection Eu as <-. rewrite Hp, (lists_places _ 0 c Ez eq_refl). lia.
Qed.
#[export] Instance stripe_orders r : ChargeOrders (stripe_rail sha256_mac r) stripe_terms (stripe_ordered r).
Proof.
  intros q rc w w' Hu Hc. charge_inv Hc. orders (to_dec x1) (to_ascii_lowercase (stripe_currency (req_currency q))); [sent|].
  apply stripe_amount_asked; [done | done | apply normal_currency_idem].
Qed.
#[export] Instance stripe_opens r : ChargeOpens (stripe_rail sha256_mac r).
Proof. charge_opens. Qed.
#[export] Instance stripe_quotes r : QuotesCharge (stripe_rail sha256_mac r) 300.
Proof. quotes_before. change stripe_currency with normal_currency. same_guard stripe_amount. Qed.
(** Stripe is never told an amount: a refund gives the whole payment back. *)
Lemma stripe_refunds_all r rc amt w :
  refund (stripe_rail sha256_mac r) (with_amount amt rc) w = refund (stripe_rail sha256_mac r) rc w.
Proof. reflexivity. Qed.
(** The trait's promises, of every rail [stripe_new] builds. *)
#[export] Instance stripe_rail_laws c builder r :
  stripe_new c builder = Ok r -> RailLaws (fun _ => True) (stripe_rail (W := W) sha256_mac r).
Proof.
  intros Hnew. solve_rail_laws Hnew.
Qed.

(** What [verify] of the Stripe rail accepts. It answers [Ok(true)] exactly when the receipt names this
    rail, its proof carries a session id that is safe in a URL, and Stripe, asked once for
    that session, answers a session that says it was paid, in the receipt's currency up to
    case, for at least the receipt's amount. The session's own reference is read but is not
    compared with the receipt's. *)
Theorem stripe_verify_exact r rc w w' :
  stripe_verify r rc w = (Ok true, w') <->
  exists p body s ref cur amt,
    rail_id rc = stripe_id r /\ from_bytes (P := ChargeProof) (proof rc) = Some p /\
    is_safe_path_segment (session_id p) = true /\
    answered (st_http r) (form_call r "GET" ("/checkout/sessions/" +:+ session_id p) None None) w body w' /\
    from_json (T := StripeSession) body = Ok s /\ session_paid s ref cur amt /\
    eq_ignore_ascii_case cur (currency rc) = true /\ amount_minor rc <= amt.
Proof. apply stripe_verify_spec. Qed.

(** A paid session settles any order. A Stripe receipt that verifies verifies just as well under any
    other reference, and for any smaller amount: [verify] never compares the session's
    reference with the receipt's, so one paid session entitles its holder to every order of
    the same currency that costs no more. *)
Theorem stripe_reference_unbound r rc (ref : str) (amt : Z) w w'
    (Hv : stripe_verify r rc w = (Ok true, w')) (Hle : amt <= amount_minor rc) :
  stripe_verify r {| rail_id := rail_id rc; amount_minor := amt; currency := currency rc;
    reference := ref; proof := proof rc; settled_at_unix := settled_at_unix rc |} w = (Ok true, w').
Proof.
  apply stripe_verify_spec in Hv as (p & body & s & ref' & cur & a & Hi & Hp & Hsafe & Hg & Hs & Hpaid & Hc & Ha).
  apply stripe_verify_spec. exists p, body, s, ref', cur, a. split_and!; try done. cbn. lia.
Qed.

(** Charge on Stripe. A receipt answered by [charge] comes from one POST to the checkout-session
    endpoint, idempotent in the request's reference and carrying exactly Stripe's rendering
    of the requested amount; the receipt claims nothing moved yet (amount 0). It verifies on
    any rail with the same id exactly where Stripe's answer for that session is a paid one of
    the same currency. *)
Theorem stripe_charge_verify r q w rc w' (Hc : stripe_charge r q w = (Ok rc, w')) :
  exists amt body parsed,
    validate q = Ok tt /\ stripe_amount (req_amount_minor q) (stripe_currency (req_currency q)) = Ok amt /\
    answered (st_http r) (form_call r "POST" "/checkout/sessions"
      (Some (checkout_form q (stripe_currency (req_currency q)) amt)) (Some ("begin:" +:+ req_reference q))) w body w' /\
    from_json (T := CreateResponse) body = Ok parsed /\ rail_id rc = stripe_id r /\ reference rc = req_reference q /\
    amount_minor rc = 0 /\
    forall r' v v' body' s, stripe_id r' = stripe_id r -> is_safe_path_segment (cr_id parsed) = true ->
      answered (st_http r') (form_call r' "GET" ("/checkout/sessions/" +:+ cr_id parsed) None None) v body' v' ->
      from_json (T := StripeSession) body' = Ok s ->
      stripe_verify r' rc v = (Ok true, v') <->
      exists ref cur paid, session_paid s ref cur paid /\ 0 <= paid /\
        eq_ignore_ascii_case cur (stripe_currency (req_currency q)) = true.
Proof.
  unfold stripe_charge in Hc. run_inv Hc. subst rc. apply expect_2xx_Ok in Hx2. destruct x.
  eexists _, _, _. split_and!; try eassumption; try done. intros r' u u' body' s Hid Hsafe Hg Hs.
  rewrite stripe_verify_spec. cbn [open_receipt rail_id proof currency amount_minor reference].
  rewrite from_to_bytes. split.
  - intros (p & b & s' & ref & cur & paid & _ & [= <-] & _ & Hg' & Hs' & Hpaid & Hcur & Hle).
    destruct (answered_fun _ _ _ _ _ _ _ Hg Hg') as [-> _].
    assert (s' = s) as -> by congruence. exists ref, cur, paid. done.
  - intros (ref & cur & paid & Hpaid & Hpos & Hcur).
    eexists _, body', s, ref, cur, paid. split_and!; done.
Qed.

(** The webhook gate. [verify_and_parse] answers an event exactly when the signature header carries a
    timestamp and a [v1] signature that is, in hex, the tag of exactly ["t.body"] under a
    non-empty secret, the timestamp is within five minutes of the clock either way, and the
    body parses as one of the two settlement events; the event is then the body's own. No
    unauthenticated or stale byte is ever interpreted. *)
Theorem stripe_webhook_authentic (secret : str) (body : list byte) (sig : str) (now : Z)
    (ev : StripeWebhookEvent) (Hnow : 0 <= now < 2 ^ 62) :
  verify_and_parse sha256_mac secret body sig now = Ok ev <->
  trim sig <> EmptyString /\ body <> [] /\
  exists t v1 ts tag, parse_signature_header (trim sig) = Ok (t, v1) /\
    secret <> EmptyString /\ trim v1 <> EmptyString /\ mac_tag (as_bytes secret) = Some tag /\
    hex_decode (trim v1) = Some (tag (signed_payload t body)) /\
    parse_i64 t = Some ts /\ Z.abs (now - ts) <= SIGNATURE_TOLERANCE_SECS /\
    parse_event body = Ok ev.
Proof.
  unfold verify_and_parse, mbind, result_bind.
  destruct (is_empty (trim sig)) eqn:Es.
  { apply is_empty_spec in Es. split; [done | now intros [? _]]. }
  assert (trim sig <> EmptyString) as Hs by (intros E; now rewrite E in Es).
  case_bool_decide as Hb; [split; [done | now intros (_ & ? & _)]|].
  destruct (parse_signature_header _) as [[t v1]|]; [|split; [done | now intros (_ & _ & ? & ? & ? & ? & ? & _)]].
  cbn [fst snd]. destruct (verify_hmac_sha256_hex _ _ _ _) eqn:Em; cbn [negb].
  - apply verify_hmac_hex_spec in Em as (Hsec & Hv1 & tag & Htag & Hdec).
    destruct (parse_i64 t) as [ts|] eqn:Et; cbn [ok_or].
    + pose proof (signature_age_spec SIGNATURE_TOLERANCE_SECS now ts ltac:(done) Hnow (parse_i64_range _ _ Et)) as Hage.
      destruct (Z.ltb_spec SIGNATURE_TOLERANCE_SECS (signature_age now ts)); split.
      * done.
      * intros (_ & _ & ? & ? & ? & ? & [= <- <-] & _ & _ & _ & _ & Et' & ? & _). rewrite Et in Et'.
        injection Et' as <-. lia.
      * intros Hev. split_and!; [done | done |]. exists t, v1, ts, tag. split_and!; try done; [|now apply Hage].
        now intros ->.
      * intros (_ & _ & ? & ? & ? & ? & [= <- <-] & _ & _ & _ & _ & _ & _ & ?). done.
    + split; [done|]. intros (_ & _ & ? & ? & ? & ? & [= <- <-] & _ & _ & _ & _ & ? & _). congruence.
  - split; [done|]. intros (_ & _ & ? & ? & ts & tag & [= <- <-] & Hsec & Hv1 & Htag & Hdec & _).
    enough (verify_hmac_sha256_hex sha256_mac (as_bytes secret) (signed_payload t body) v1 = true) by congruence.
    apply verify_hmac_hex_spec. split_and!; [|done|eauto].
    intros E. apply Hsec. now apply (list_byte_inj secret EmptyString).
Qed.
End StripeTheorems.

(** ** A processor for the witnesses

    It answers every call with the same paid session. *)

#[export] Instance ChargeProof_codec : Codec ChargeProof.
Proof.
  codec_as (fun p => ((session_id p, status_at_charge p), redirect_url_of p))
    (fun t => {| session_id := t.1.1; status_at_charge := t.1.2; redirect_url_of := t.2 |}).
Defined.
#[local] Existing Instance ref_hex.
#[export] Instance RefundProof_codec : Codec RefundProof.
Proof.
  codec_as (fun p => (refund_id p, status_at_refund p)) (fun t => {| refund_id := t.1; status_at_refund := t.2 |}).
Defined.
#[local] Existing Instance codec_proof.
#[local] Existing Instance codec_proof_laws.
Definition demo_session : StripeSession := {| ss_id := "cs_1"; payment_status := "paid";
  amount_total := 5000; ss_currency := "usd"; client_reference_id := "order-1"; metadata := ∅;
  payment_intent := Some "pi_1"%string |}.
#[local] Instance demo_json : StripeJson := {|
  create_json _ := Ok {| cr_id := "cs_1"; cr_url := "https://checkout.stripe.com/c/cs_1" |};
  session_json _ := Ok demo_session;
  refund_json _ := Err "no refunds"%string;
  envelope_json _ := Ok {| env_id := "evt_1"; event_type := "checkout.session.completed"; env_object := JNull |};
  object_json _ := Ok demo_session;
  error_json _ := Err "not an error"%string |}.
Definition demo_stripe : StripeRail Z := {|
  stripe_id := "stripe";
  st_config := {| secret_key := "sk_test"; webhook_secret := "whsec_test"; st_requires_kyc := true;
    st_currencies := []; settlement_days := 2; timeout_secs := 15 |};
  st_http := says "{}";
  st_capabilities := {| class := CustodialReversible; reversible := true; requires_kyc := true;
    holds_funds := true; currencies := []; settlement := Days 2; atomic_multi_party := false |};
  base_url := STRIPE_API_BASE |}.
Definition demo_checkout : PayRequest := {| req_amount_minor := 5000; req_currency := "USD";
  req_destination := "https://shop.example/return"; req_reference := "order-1" |}.
Definition demo_open_receipt : Receipt := {| rail_id := "stripe"; amount_minor := 0; currency := "USD";
  reference := "order-1"; settled_at_unix := 0;
  proof := put {| session_id := "cs_1"; status_at_charge := "open";
                  redirect_url_of := Some "https://checkout.stripe.com/c/cs_1"%string |} |}.
Lemma demo_stripe_charged : stripe_charge demo_stripe demo_checkout 3 = (Ok demo_open_receipt, 3).
Proof. vm_compute. reflexivity. Qed.
Lemma demo_stripe_verified : stripe_verify demo_stripe demo_open_receipt 3 = (Ok true, 3).
Proof. vm_compute. reflexivity. Qed.

Lemma stripe_reference_unbound_witness :
  stripe_verify demo_stripe {| rail_id := "stripe"; amount_minor := 0; currency := "USD";
    reference := "order-99"; proof := proof demo_open_receipt; settled_at_unix := 0 |} 3 = (Ok true, 3).
Proof.
  apply (stripe_reference_unbound demo_stripe demo_open_receipt "order-99" 0 3 3);
    [exact demo_stripe_verified | apply Z.leb_le; reflexivity].
Defined.
Lemma stripe_charge_verify_witness :
  amount_minor demo_open_receipt = 0 /\ reference demo_open_receipt = "order-1"%string.
Proof.
  destruct (stripe_charge_verify demo_stripe demo_checkout 3 demo_open_receipt 3 demo_stripe_charged)
    as (amt & body & parsed & _ & _ & _ & _ & _ & Hr & Ha & _).
  split; [exact Ha | exact Hr].
Defined.

(** Stripe's own header over a body is accepted while it is fresh. *)
Definition demo_body : list byte := as_bytes "{}".
Definition demo_signature : str :=
  "t=1700000000,v1=" +:+ hex_encode (as_bytes "whsec_test" ++ signed_payload "1700000000" demo_body).
Definition demo_event : StripeWebhookEvent := {| swe_event_id := "evt_1"; swe_reference := "order-1";
  swe_settled := true; swe_amount_minor := 5000; swe_currency := "USD" |}.
Lemma stripe_webhook_authentic_witness :
  verify_and_parse ref_mac "whsec_test" demo_body demo_signature 1700000100 = Ok demo_event.
Proof.
  apply stripe_webhook_authentic; [split; [apply Z.leb_le | apply Zlt_is_lt_bool]; reflexivity|].
  split; [vm_compute; discriminate|]. split; [discriminate|].
  exists "1700000000"%string,
    (hex_encode (as_bytes "whsec_test" ++ signed_payload "1700000000" demo_body)), 1700000000,
    (fun msg => as_bytes "whsec_test" ++ msg).
  split_and!; try (vm_compute; reflexivity); try discriminate.
Defined.
