(* ===== verification/Ffi.v ===== *)
(** * The C ABI's core ([patala-ffi/src/lib.rs])

    JSON in, JSON out, over integer handles: the process-wide table of live
    rails, the configuration documents, and the dispatch of [patala_call]. The string
    and pointer shell of [abi.rs] around it is in [Abi]. *)

From S2P Require Import Prelude RustStr Core Mock External Sidecar.

(** ** The handle table

    One lock guards the map; the counter is an atomic beside it, so opening a
    handle is two steps and threads interleave between them. *)

Record Handles (W : Type) := {
  next_handle : Z;
  (** Handles taken from the counter and not yet in the map. *)
  reserved : gmap Z (PaymentRail W);
  instances : gmap Z (PaymentRail W);
}.
Arguments next_handle {W} _.
Arguments reserved {W} _.
Arguments instances {W} _.
Definition handles_init {W} : Handles W := {| next_handle := 1; reserved := ∅; instances := ∅ |}.

(** [NEXT_HANDLE.fetch_add(1)]: an [AtomicU64] wraps. *)
Definition fetch_handle {W} (R : PaymentRail W) (s : Handles W) : Z * Handles W :=
  (next_handle s, {| next_handle := (next_handle s + 1) mod 2 ^ 64;
                     reserved := <[next_handle s := R]> (reserved s); instances := instances s |}).
(** [registry().lock().insert(handle, instance)] by the thread that fetched it. *)
Definition publish_handle {W} (h : Z) (R : PaymentRail W) (s : Handles W) : Handles W :=
  {| next_handle := next_handle s; reserved := delete h (reserved s);
     instances := <[h := R]> (instances s) |}.
Definition ffi_close {W} (h : Z) (s : Handles W) : Handles W :=
  {| next_handle := next_handle s; reserved := reserved s; instances := delete h (instances s) |}.
Definition ffi_lookup {W} (s : Handles W) (h : Z) : Result str (PaymentRail W) :=
  ok_or ("patala: unknown handle " +:+ to_dec h +:+ " (never created, or already closed)") (instances s !! h).
Definition live_handles {W} (s : Handles W) : nat := size (instances s).
Definition handle_is_live {W} (s : Handles W) (h : Z) : bool := bool_decide (is_Some (instances s !! h)).

(** What threads do to the table, one atomic step each. *)
Inductive HandleEvent W :=
  | Fetched (h : Z) (R : PaymentRail W)
  | Opened (h : Z)
  | Closed (h : Z).
Arguments Fetched {W} h R.
Arguments Opened {W} h.
Arguments Closed {W} h.

Inductive handle_step {W} : Handles W -> HandleEvent W -> Handles W -> Prop :=
  | step_fetch s R : handle_step s (Fetched (next_handle s) R) (fetch_handle R s).2
  | step_publish s h R :
      reserved s !! h = Some R -> handle_step s (Opened h) (publish_handle h R s)
  | step_close s h : handle_step s (Closed h) (ffi_close h s).
(** Every interleaving, from the empty table; the latest event last. *)
Inductive handle_run {W} : list (HandleEvent W) -> Handles W -> Prop :=
  | run_init : handle_run [] handles_init
  | run_step tr s e s' : handle_run tr s -> handle_step s e s' -> handle_run (tr ++ [e]) s'.
Definition fetched_handle {W} (e : HandleEvent W) : option Z :=
  match e with Fetched h _ => Some h | _ => None end.
Definition fetches {W} (tr : list (HandleEvent W)) : list Z := omap fetched_handle tr.

(** ** Configuration *)

Inductive RailConfig :=
  | CfgMock (rid : str) (cls : RailClass) (curs : list str) (fee : Z) (fail checks : bool)
  | CfgFiat (provider : str) (config : gmap str str)
  | CfgSolana (rpc_url cluster : str) (keypair_seed_hex : option str)
  | CfgStellar (horizon_url network : str) (usdc_issuer keypair_seed_hex : option str)
  | CfgHyperswitch (base_url api_key : str) (connector webhook_secret : option str)
      (kyc : bool) (curs : list str) (days timeout : Z).
Definition cfg_default_mock : RailConfig := CfgMock "mock" NonCustodialFinal ["USDC"%string] 0 false true.

Definition not_compiled_in (feature what : str) : str :=
  "patala: this libpatala_ffi was built without --features " +:+ feature +:+ ", so the " +:+ debug_str what
  +:+ " rail is not available in it. Rebuild with `cargo build -p patala-ffi --features " +:+ feature
  +:+ "` (see patala-ffi/README.md).".

Definition hex_nibble (a : ascii) (at_ : Z) : Result str Z :=
  return_if between 48 57 a with_ Ok (code a - 48);
  return_if between 97 102 a with_ Ok (code a - 97 + 10);
  return_if between 65 70 a with_ Ok (code a - 65 + 10);
  Err ("the character at position " +:+ to_dec at_ +:+ " is not a hex digit (it is not quoted back here: this is a private key)").
Fixpoint decode_pairs (i : Z) (s : str) : Result str (list byte) :=
  match s with
  | String a (String b s) =>
      hi ← hex_nibble a (i * 2);
      lo ← hex_nibble b (i * 2 + 1);
      rest ← decode_pairs (i + 1) s;
      Ok (byte_of_Z (Z.lor (Z.shiftl hi 4) lo) :: rest)
  | _ => Ok []
  end.
Definition ffi_decode_hex (s : str) : Result str (list byte) :=
  return_if negb (len s mod 2 =? 0) with_ Err ("odd number of hex digits (" +:+ to_dec (len s) +:+ ")");
  decode_pairs 0 s.
Definition decode_seed (hex : option str) (rail : str) : Result str (option (list byte)) :=
  match hex with
  | None => Ok None
  | Some s =>
      bytes ← map_err (fun e => "patala: " +:+ rail +:+ " keypair_seed_hex is not valid hex: " +:+ e) (ffi_decode_hex s);
      Ok (Some bytes)
  end.

(** The rails of the optional features: [None] where the feature is off, else
    the constructor of the binding crate, with its error's text. *)
Record Features (W : Type) := {
  new_fiat : option (str -> gmap str str -> Result str (PaymentRail W));
  new_solana : option (str -> str -> option (list byte) -> Result str (PaymentRail W));
  new_stellar : option (str -> str -> option str -> option (list byte) -> Result str (PaymentRail W));
  new_hyperswitch : option (RailConfig -> Result str (PaymentRail W));
  fiat_providers : list str;
}.
Arguments new_fiat {W} _.
Arguments new_solana {W} _.
Arguments new_stellar {W} _.
Arguments new_hyperswitch {W} _.
Arguments fiat_providers {W} _.
(** The default build. *)
Definition no_features {W} : Features W := {| new_fiat := None; new_solana := None; new_stellar := None;
  new_hyperswitch := None; fiat_providers := [] |}.

Definition patala_err {A} (r : Result str A) : Result str A := map_err (fun e => "patala: " +:+ e) r.
Definition cfg_mock (rid : str) (cls : RailClass) (curs : list str) (fee : Z) (fail checks : bool) : MockRail :=
  let rail := with_fee_minor fee (mock_new rid cls curs) in
  let rail := if checks then rail else without_destination_checks rail in
  if fail then failing rail else rail.
Definition cfg_build {W} `{Clock W} (F : Features W) (c : RailConfig) : Result str (PaymentRail W) :=
  match c with
  | CfgMock rid cls curs fee fail checks => Ok (mock_rail (cfg_mock rid cls curs fee fail checks))
  | CfgFiat provider config =>
      match new_fiat F with
      | Some f => patala_err (f provider config)
      | None => Err (not_compiled_in "fiat" provider)
      end
  | CfgSolana url cl seed_hex =>
      match new_solana F with
      | Some f => seed ← decode_seed seed_hex "solana"; patala_err (f url cl seed)
      | None => Err (not_compiled_in "solana" "solana")
      end
  | CfgStellar url net issuer seed_hex =>
      match new_stellar F with
      | Some f => seed ← decode_seed seed_hex "stellar"; patala_err (f url net issuer seed)
      | None => Err (not_compiled_in "stellar" "stellar")
      end
  | CfgHyperswitch _ _ _ _ _ _ _ _ =>
      match new_hyperswitch F with
      | Some f => patala_err (f c)
      | None => Err (not_compiled_in "hyperswitch" "hyperswitch")
      end
  end.

(** ** Dispatch *)

Definition METHODS : list str := ["id"; "capabilities"; "quote"; "charge"; "verify";
  "validate-destination"; "webhook"; "caveat"; "providers"]%string.
Definition unknown_method (method : str) : str :=
  "patala: unknown method " +:+ debug_str method +:+ " (want one of: "
  +:+ String.concat ", " METHODS +:+ ")".
Definition bad_request (method e : str) : str := "patala: " +:+ method +:+ ": invalid request JSON: " +:+ e.

Record WebhookRequest := {
  wr_body : option str;
  wr_body_hex : option str;
  wr_headers : gmap str str;
  wr_query : gmap str str;
  wr_now_unix : Z;
}.
(** The values [encode] is given: the sidecar's bodies, and three of its own. *)
Inductive Reply :=
  | ReplyId (rid : str)
  | ReplyBody (b : Body)
  | ReplyCaveat (caveat : str)
  | ReplyProviders (names : list str).

(** serde's reading of the request documents, with its error text, and its
    writing of a response. *)
Class FfiJson := {
  parse_config : str -> Result str RailConfig;
  parse_pay : str -> Result str PayRequest;
  parse_receipt : str -> Result str Receipt;
  parse_dest_request : str -> Result str str;
  parse_webhook_request : str -> Result str WebhookRequest;
  encode : Reply -> Result str str;
}.

Definition webhook_raw_body (req : WebhookRequest) : Result str (list byte) :=
  match wr_body req, wr_body_hex req with
  | Some _, Some _ => Err ("patala: webhook: give exactly one of " +:+ dquote +:+ "body" +:+ dquote +:+ " or "
      +:+ dquote +:+ "body_hex" +:+ dquote +:+ ", not both — they would disagree about what the processor signed")
  | Some b, None => Ok (as_bytes b)
  | None, Some h => map_err (fun e => "patala: webhook: body_hex is not valid hex: " +:+ e) (ffi_decode_hex h)
  | None, None => Err ("patala: webhook: one of " +:+ dquote +:+ "body" +:+ dquote +:+ " or "
      +:+ dquote +:+ "body_hex" +:+ dquote +:+ " is required")
  end.

Section Ffi.
Context `{FfiJson} {W : Type} `{Clock W} (F : Features W).

(** [open] up to the two steps on the table. [runtime] is what tokio's builder of
    a current-thread runtime answers this time. *)
Definition ffi_build (runtime : Result str unit) (config_json : str) : Result str (PaymentRail W) :=
  config ← (if is_blank config_json then Ok cfg_default_mock
            else map_err (fun e => "patala: invalid configuration document: " +:+ e) (parse_config config_json));
  rail ← cfg_build F config;
  _ ← map_err (fun e => "patala: could not create the current-thread runtime: " +:+ e) runtime;
  Ok rail.
(** [open] when no other thread runs in between. *)
Definition ffi_open (runtime : Result str unit) (config_json : str) (s : Handles W) : Result str Z * Handles W :=
  match ffi_build runtime config_json with
  | Ok R => let hs := fetch_handle R s in (Ok hs.1, publish_handle hs.1 R hs.2)
  | Err e => (Err e, s)
  end.
(** [patala_new]: [None] is a document that is not UTF-8; 0 is the failure. *)
Definition patala_new (runtime : Result str unit) (config : option str) (s : Handles W) : Z * option str * Handles W :=
  match config with
  | None => (0, Some "patala: configuration is not valid UTF-8. It is refused rather than                  treated as absent, because an absent configuration means the offline                  MockRail — which would report a charge that never happened as settled."%string, s)
  | Some c =>
      match ffi_open runtime c s with
      | (Ok h, s) => (h, None, s)
      | (Err e, s) => (0, Some e, s)
      end
  end.

Definition on_rail {A} (f : A -> Body) (m : Eff W Error A) : Eff W str Reply :=
  a ← eff_map_err (fun e => "patala: " +:+ error_display e) m;
  mret (ReplyBody (f a)).
Definition ffi_reply (rail : PaymentRail W) (method request : str) : Eff W str Reply :=
  return_if String.eqb method "id" with_ mret (ReplyId (id rail));
  return_if String.eqb method "capabilities" with_ mret (ReplyBody (BCapabilities (capabilities rail)));
  return_if String.eqb method "quote" with_
    (req ← eff_of (map_err (bad_request method) (parse_pay request)); on_rail BQuote (quote rail req));
  return_if String.eqb method "charge" with_
    (req ← eff_of (map_err (bad_request method) (parse_pay request)); on_rail BReceipt (charge rail req));
  return_if String.eqb method "verify" with_
    (receipt ← eff_of (map_err (bad_request method) (parse_receipt request)); on_rail BVerify (verify rail receipt));
  return_if String.eqb method "validate-destination" with_
    (dest ← eff_of (map_err (bad_request method) (parse_dest_request request));
     let verdict := validate_destination rail dest in
     mret (ReplyBody (BDestination verdict (is_refusal verdict))));
  return_if String.eqb method "webhook" with_
    (req ← eff_of (map_err (bad_request method) (parse_webhook_request request));
     raw_body ← eff_of (webhook_raw_body req);
     let delivery := with_query (map_to_list (wr_query req))
       (with_headers (map_to_list (wr_headers req)) (delivery_new raw_body (wr_now_unix req))) in
     on_rail BEvent (verify_webhook rail delivery));
  return_if String.eqb method "caveat" with_ mret (ReplyCaveat EXCHANGE_DEPOSIT_CAVEAT);
  return_if String.eqb method "providers" with_
    match new_fiat F with
    | Some _ => mret (ReplyProviders (fiat_providers F))
    | None => eff_err (not_compiled_in "fiat" "fiat")
    end;
  eff_err (unknown_method method).
(** [call] *)
Definition ffi_call (s : Handles W) (h : Z) (method request : str) : Eff W str str :=
  rail ← eff_of (ffi_lookup s h);
  reply ← ffi_reply rail method request;
  eff_of (map_err (fun e => "patala: could not encode the response: " +:+ e) (encode reply)).
End Ffi.

(** ** Lemmas *)

Section Handles.
Context {W : Type}.
Implicit Types (s : Handles W) (tr : list (HandleEvent W)).

Lemma fetches_app tr tr' : fetches (tr ++ tr') = fetches tr ++ fetches tr'.
Proof. apply omap_app. Qed.

(** With fewer than [2^64 - 1] opens, the counter has not wrapped: the handles
    given out so far are [1, 2, ...], and every entry of the table was fetched
    under its own handle. *)
Record handles_inv tr s : Prop := {
  hi_next : next_handle s = 1 + Z.of_nat (length (fetches tr));
  hi_fetches : fetches tr = map (fun n => 1 + Z.of_nat n) (seq 0 (length (fetches tr)));
  hi_reserved : forall h R, reserved s !! h = Some R -> In (Fetched h R) tr;
  hi_live : forall h R, instances s !! h = Some R -> In (Fetched h R) tr /\ In (Opened h) tr;
  hi_apart : forall h, In (Opened h) tr -> reserved s !! h = None;
  hi_opened : forall h, In (Opened h) tr -> In h (fetches tr);
}.
Lemma in_fetches tr h : In h (fetches tr) <-> exists R, In (Fetched h R) tr.
Proof.
  unfold fetches. rewrite <- list_elem_of_In, list_elem_of_omap. split.
  - intros (e & He & Hf). destruct e as [h' R| |]; [|done..]. injection Hf as <-.
    exists R. now apply list_elem_of_In.
  - intros (R & HR). exists (Fetched h R). split; [now apply list_elem_of_In | done].
Qed.
Lemma handles_inv_run tr s :
  handle_run tr s -> Z.of_nat (length (fetches tr)) < 2 ^ 64 - 1 -> handles_inv tr s.
Proof.
  induction 1 as [|tr s e s' Hrun IH Hstep].
  - intros _. split; try done. 
  - rewrite fetches_app, length_app. intros Hlen.
    pose proof (fetches_app tr [e]) as Happ.
    destruct IH as [Hnext Hf Hres Hlive Hap Hop]; [lia|].
    assert (forall h, In h (fetches tr) -> h < next_handle s) as Hlt.
    { intros h Hin. rewrite Hf in Hin. apply in_map_iff in Hin as (n & <- & Hn). apply in_seq in Hn. lia. }
    destruct Hstep as [s R|s h R HR|s h].
    + change (fetches [Fetched (next_handle s) R]) with [next_handle s] in *. cbn [length] in Hlen.
      split; cbn [fetch_handle snd next_handle reserved instances]; rewrite ?Happ, ?length_app; cbn [length].
      * rewrite Z.mod_small by lia. lia.
      * rewrite seq_app, map_app, <- Hf. cbn. now rewrite Hnext.
      * intros h R'. rewrite lookup_insert_Some, in_app_iff. intros [[<- <-]|[_ ?]]; [right; now left | left; auto].
      * intros h R' Hh. apply Hlive in Hh as [? ?]. rewrite !in_app_iff. auto.
      * intros h. rewrite in_app_iff. intros [Hin|[|[]]]; [|done]. 
        rewrite lookup_insert_ne; [auto|]. intros <-. apply Hop, Hlt in Hin. lia.
      * intros h. rewrite !in_app_iff. intros [Hin|[|[]]]; [left; auto | done].
    + change (fetches [Opened h : HandleEvent W]) with (@nil Z) in *. rewrite app_nil_r in Happ.
      split; cbn [publish_handle next_handle reserved instances]; rewrite ?Happ; try done.
      * intros h' R'. rewrite lookup_delete_Some, in_app_iff. intros [_ ?]. auto.
      * intros h' R'. rewrite lookup_insert_Some, !in_app_iff. intros [[<- <-]|[_ Hh]].
        -- split; [left; auto | right; now left].
        -- apply Hlive in Hh as [? ?]. auto.
      * intros h'. rewrite in_app_iff. intros [Hin|[[= <-]|[]]]; [|apply lookup_delete_eq].
        destruct (decide (h = h')) as [->|]; [apply lookup_delete_eq | rewrite lookup_delete_ne; auto].
      * intros h'. rewrite in_app_iff. intros [Hin|[[= <-]|[]]]; [auto|]. apply in_fetches. eauto.
    + change (fetches [Closed h : HandleEvent W]) with (@nil Z) in *. rewrite app_nil_r in Happ.
      split; cbn [ffi_close next_handle reserved instances]; rewrite ?Happ; try done.
      * intros h' R' Hh. rewrite in_app_iff. auto.
      * intros h' R'. rewrite lookup_delete_Some, !in_app_iff. intros [_ Hh]. apply Hlive in Hh as [? ?]. auto.
      * intros h'. rewrite in_app_iff. intros [?|[|[]]]; [auto | done].
      * intros h'. rewrite in_app_iff. intros [?|[|[]]]; [auto | done].
Qed.

Lemma fetched_once tr h R R' :
  NoDup (fetches tr) -> In (Fetched h R) tr -> In (Fetched h R') tr -> R = R'.
Proof.
  induction tr as [|e tr IH]; [done|]. change (e :: tr) with ([e] ++ tr). rewrite fetches_app.
  intros Hnd Hi Hi'. apply NoDup_app in Hnd as (_ & Hdis & Hnd).
  assert (forall R, e = Fetched h R -> forall R', ~ In (Fetched h R') tr) as Hx.
  { intros Q -> Q' Hin. apply (Hdis h); [now left|]. apply list_elem_of_In, in_fetches. eauto. }
  destruct Hi as [He|Hi], Hi' as [He'|Hi']; [congruence | | | now apply IH].
  - destruct (Hx _ He _ Hi').
  - destruct (Hx _ He' _ Hi).
Qed.
Lemma handles_nodup tr s : handles_inv tr s -> NoDup (fetches tr) /\ Forall (fun h => 0 < h) (fetches tr).
Proof.
  intros [_ Hf _ _ _ _]. rewrite Hf. split.
  - change (NoDup ((fun n => 1 + Z.of_nat n) <$> seq 0 (length (fetches tr)))).
    apply NoDup_fmap_2; [intros ? ? ?; lia | apply NoDup_seq].
  - apply Forall_forall. intros h Hin. apply list_elem_of_In, in_map_iff in Hin as (n & <- & _). lia.
Qed.
Lemma run_prefix tr s e : handle_run (tr ++ [e]) s -> exists s0, handle_run tr s0 /\ handle_step s0 e s.
Proof.
  intros Hr. inversion Hr as [E|tr' s0 e' s' Hr0 Hs E]; [now destruct tr|].
  apply app_inj_tail in E as [-> ->]. eauto.
Qed.
Lemma short_prefix tr (e : HandleEvent W) :
  Z.of_nat (length (fetches (tr ++ [e]))) < 2 ^ 64 - 1 -> Z.of_nat (length (fetches tr)) < 2 ^ 64 - 1.
Proof. rewrite fetches_app, length_app. lia. Qed.

(** Once opened and then closed, a handle answers nothing ever again. *)
Lemma closed_stays_closed tr1 tr2 h s :
  handle_run (tr1 ++ Closed h :: tr2) s -> Z.of_nat (length (fetches (tr1 ++ Closed h :: tr2))) < 2 ^ 64 - 1 ->
  In (Opened h) tr1 -> instances s !! h = None.
Proof.
  intros Hrun Hlen Hop. revert s Hrun Hlen. induction tr2 as [|e tr2 IH] using rev_ind; intros s Hrun Hlen.
  - apply run_prefix in Hrun as (s0 & _ & Hs). inversion Hs; subst. apply lookup_delete_eq.
  - change (tr1 ++ Closed h :: tr2 ++ [e]) with (tr1 ++ (Closed h :: tr2) ++ [e]) in *. rewrite app_assoc in *.
    apply short_prefix in Hlen as Hlen0. apply run_prefix in Hrun as (s0 & Hrun0 & Hs).
    specialize (IH s0 Hrun0 Hlen0). pose proof (handles_inv_run _ _ Hrun0 Hlen0) as Hinv.
    destruct Hs as [s R|s h' R HR|s h']; cbn [fetch_handle snd publish_handle ffi_close instances].
    + exact IH.
    + rewrite lookup_insert_ne; [exact IH|]. intros ->. rewrite (hi_apart _ _ Hinv h) in HR; [done|].
      apply in_app_iff. now left.
    + destruct (decide (h' = h)) as [->|]; [apply lookup_delete_eq | now rewrite lookup_delete_ne].
Qed.
(** Once opened and not closed since, it answers. *)
Lemma opened_stays_open tr1 tr2 h s :
  handle_run (tr1 ++ Opened h :: tr2) s -> Z.of_nat (length (fetches (tr1 ++ Opened h :: tr2))) < 2 ^ 64 - 1 ->
  ~ In (Closed h) tr2 -> exists R, instances s !! h = Some R.
Proof.
  intros Hrun Hlen. revert s Hrun Hlen. induction tr2 as [|e tr2 IH] using rev_ind; intros s Hrun Hlen Hcl.
  - apply run_prefix in Hrun as (s0 & _ & Hs). inversion Hs; subst. exists R. apply lookup_insert_eq.
  - change (tr1 ++ Opened h :: tr2 ++ [e]) with (tr1 ++ (Opened h :: tr2) ++ [e]) in *. rewrite app_assoc in *.
    apply short_prefix in Hlen as Hlen0. apply run_prefix in Hrun as (s0 & Hrun0 & Hs).
    destruct (IH s0 Hrun0 Hlen0) as [R0 HR0]; [intros Hin; apply Hcl, in_app_iff; now left|].
    destruct Hs as [s R|s h' R HR|s h']; cbn [fetch_handle snd publish_handle ffi_close instances].
    + eauto.
    + destruct (decide (h' = h)) as [->|]; [rewrite lookup_insert_eq | rewrite lookup_insert_ne by done]; eauto.
    + exists R0. rewrite lookup_delete_ne; [done|]. intros ->. apply Hcl, in_app_iff. right. now left.
Qed.
End Handles.

(** ** Theorems *)

(** C34: handles are never reused. In every interleaving of opens and closes by any number of threads, as
    long as fewer than [2^64 - 1] rails have ever been opened: no handle is given out twice
    and none is 0 (the failure value); a handle that answers answers with the rail it was
    opened for; after it is opened and closed it is reported unknown for ever; and after it is
    opened and until it is closed it answers. *)
Theorem ffi_handles_never_reused {W} (tr : list (HandleEvent W)) (s : Handles W)
    (Hrun : handle_run tr s) (Hlen : Z.of_nat (length (fetches tr)) < 2 ^ 64 - 1) :
  NoDup (fetches tr) /\ Forall (fun h => 0 < h) (fetches tr) /\
  (forall h R R', ffi_lookup s h = Ok R -> In (Fetched h R') tr -> R = R') /\
  (forall tr1 tr2 h, tr = tr1 ++ Closed h :: tr2 -> In (Opened h) tr1 -> is_ok (ffi_lookup s h) = false) /\
  (forall tr1 tr2 h, tr = tr1 ++ Opened h :: tr2 -> ~ In (Closed h) tr2 ->
    exists R, ffi_lookup s h = Ok R /\ In (Fetched h R) tr).
Proof.
  pose proof (handles_inv_run tr s Hrun Hlen) as Hinv.
  destruct (handles_nodup tr s Hinv) as [Hnd Hpos]. unfold ffi_lookup, ok_or.
  split_and!; [done | done | | |].
  - intros h R R'. destruct (instances s !! h) as [R0|] eqn:E; [|done]. intros [= <-] Hin.
    apply (hi_live _ _ Hinv) in E as [? _]. now apply (fetched_once tr h).
  - intros tr1 tr2 h -> Hop. now rewrite (closed_stays_closed tr1 tr2 h s).
  - intros tr1 tr2 h -> Hcl. destruct (opened_stays_open tr1 tr2 h s) as [R HR]; [done..|].
    rewrite HR. exists R. split; [done|]. now apply (hi_live _ _ Hinv) in HR as [? _].
Qed.


(** ** Seeds in hex *)

Definition is_hex_digit (a : ascii) : bool := bool_decide (is_Some (hex_val a)).

Lemma hex_nibble_spec a i n : hex_nibble a i = Ok n <-> hex_val a = Some n.
Proof.
  unfold hex_nibble, hex_val, is_ascii_digit.
  destruct (between 48 57 a); [split; congruence|].
  destruct (between 97 102 a).
  { replace (code a - 97 + 10) with (code a - 87) by lia. split; congruence. }
  destruct (between 65 70 a); [|done].
  replace (code a - 65 + 10) with (code a - 55) by lia. split; congruence.
Qed.
Lemma hex_val_range a n : hex_val a = Some n -> 0 <= n < 16.
Proof.
  unfold hex_val, is_ascii_digit.
  destruct (between 48 57 a) eqn:E1; [apply between_spec in E1; intros [= <-]; lia|].
  destruct (between 97 102 a) eqn:E2; [apply between_spec in E2; intros [= <-]; lia|].
  destruct (between 65 70 a) eqn:E3; [apply between_spec in E3; intros [= <-]; lia | done].
Qed.
Lemma nibbles_join h l : 0 <= h < 16 -> 0 <= l < 16 -> Z.lor (Z.shiftl h 4) l = 16 * h + l.
Proof.
  intros Hh Hl.
  assert (forallb (fun p => Z.lor (Z.shiftl p.1 4) p.2 =? 16 * p.1 + p.2)
    (list_prod (map Z.of_nat (seq 0 16)) (map Z.of_nat (seq 0 16))) = true) as F by (vm_compute; reflexivity).
  rewrite forallb_forall in F. apply Z.eqb_eq, (F (h, l)), in_prod;
    apply in_map_iff; [exists (Z.to_nat h) | exists (Z.to_nat l)]; (split; [lia | apply in_seq; lia]).
Qed.
(** Induction on a string two characters at a time. *)
Lemma str_pair_ind (P : str -> Prop) :
  P EmptyString -> (forall a, P (String a EmptyString)) ->
  (forall a b s, P s -> P (String a (String b s))) -> forall s, P s.
Proof.
  intros H0 H1 H2. fix IH 1. intros [|a [|b s]]; [exact H0 | apply H1 | apply H2, IH].
Qed.
Lemma decode_pairs_spec s i b : len s mod 2 = 0 ->
  decode_pairs i s = Ok b <-> hex_decode_ref s = Some b.
Proof.
  revert i b. induction s as [|a|a c s IH] using str_pair_ind; intros i b Hl.
  - cbn. split; congruence.
  - discriminate Hl.
  - assert (len s mod 2 = 0) as Hs.
    { unfold len in *. cbn [String.length] in Hl.
      rewrite <- Hl, !Nat2Z.inj_succ. replace (Z.succ (Z.succ (Z.of_nat (String.length s))))
        with (Z.of_nat (String.length s) + 1 * 2) by lia. now rewrite Z_mod_plus_full. }
    cbn [decode_pairs hex_decode_ref]. unfold mbind, result_bind, option_bind.
    destruct (hex_val a) as [h|] eqn:Ha.
    + rewrite (proj2 (hex_nibble_spec a (i * 2) h) Ha). destruct (hex_val c) as [l|] eqn:Hc.
      * rewrite (proj2 (hex_nibble_spec c (i * 2 + 1) l) Hc).
        rewrite nibbles_join by (eapply hex_val_range; eassumption).
        assert (forall r, decode_pairs (i + 1) s = Ok r <-> hex_decode_ref s = Some r) as IH'
          by (intros r; now apply IH).
        destruct (decode_pairs (i + 1) s) as [r|e], (hex_decode_ref s) as [r'|]; [| | |done].
        -- pose proof (proj1 (IH' r) eq_refl) as [= ->]. split; congruence.
        -- discriminate (proj1 (IH' r) eq_refl).
        -- discriminate (proj2 (IH' r') eq_refl).
      * destruct (hex_nibble c (i * 2 + 1)) as [l|] eqn:E; [|done]. apply hex_nibble_spec in E. congruence.
    + destruct (hex_nibble a (i * 2)) as [h|] eqn:E; [|done]. apply hex_nibble_spec in E. congruence.
Qed.
Lemma hex_decode_ref_even s b : hex_decode_ref s = Some b -> len s mod 2 = 0.
Proof.
  revert b. induction s as [|a|a c s IH] using str_pair_ind; intros b; [done | done |].
  cbn [hex_decode_ref]. unfold mbind, option_bind.
  destruct (hex_val a), (hex_val c), (hex_decode_ref s) as [r|]; try done. intros _. specialize (IH r eq_refl).
  unfold len in *. cbn [String.length]. rewrite !Nat2Z.inj_succ.
  replace (Z.succ (Z.succ (Z.of_nat (String.length s)))) with (Z.of_nat (String.length s) + 1 * 2) by lia.
  now rewrite Z_mod_plus_full.
Qed.

(** Two texts of one shape: the same positions hold hex digits. *)
Definition same_shape (s s' : str) : Prop :=
  map is_hex_digit (list_ascii_of_string s) = map is_hex_digit (list_ascii_of_string s').
Lemma same_shape_len s s' : same_shape s s' -> len s = len s'.
Proof.
  intros Hs%(f_equal (@length bool)). rewrite !length_map in Hs. unfold len.
  rewrite <- (string_of_list_ascii_of_string s), <- (string_of_list_ascii_of_string s').
  f_equal. revert Hs. generalize (list_ascii_of_string s) (list_ascii_of_string s').
  intros l. induction l as [|a l IH]; intros [|b l']; cbn; intros; try done. f_equal. apply IH. lia.
Qed.
Lemma hex_nibble_shape a a' i : is_hex_digit a = is_hex_digit a' ->
  (exists n n', hex_nibble a i = Ok n /\ hex_nibble a' i = Ok n') \/ hex_nibble a i = hex_nibble a' i.
Proof.
  intros Hs. assert (forall b, is_hex_digit b = false -> hex_nibble b i =
    Err ("the character at position " +:+ to_dec i +:+ " is not a hex digit (it is not quoted back here: this is a private key)")) as Hbad.
  { intros b. unfold is_hex_digit, hex_val, hex_nibble, is_ascii_digit.
    destruct (between 48 57 b); [done|]. destruct (between 97 102 b); [done|]. now destruct (between 65 70 b). }
  destruct (is_hex_digit a) eqn:E.
  - left. unfold is_hex_digit in E, Hs. symmetry in Hs. apply bool_decide_eq_true in E as [n Hn], Hs as [n' Hn'].
    exists n, n'. split; now apply hex_nibble_spec.
  - right. now rewrite !Hbad.
Qed.
Lemma decode_pairs_blind s s' i e : same_shape s s' ->
  decode_pairs i s = Err e -> decode_pairs i s' = Err e.
Proof.
  revert s' i. induction s as [|a|a b s IH] using str_pair_ind; intros s' i Hs; [done | done |].
  destruct s' as [|a' [|b' s']]; [discriminate Hs | discriminate Hs |]. unfold same_shape in Hs. cbn in Hs.
  injection Hs as Ha Hb Hs. cbn [decode_pairs]. unfold mbind, result_bind.
  destruct (hex_nibble_shape a a' (i * 2) Ha) as [(n & n' & -> & ->)| ->]; [|destruct (hex_nibble a' (i * 2)); [|done]];
  (destruct (hex_nibble_shape b b' (i * 2 + 1) Hb) as [(m & m' & -> & ->)| ->];
    [|destruct (hex_nibble b' (i * 2 + 1)); [|done]]);
  (destruct (decode_pairs (i + 1) s) as [r|e'] eqn:E; [done|]); intros [= ->]; now rewrite (IH s' (i + 1) Hs E).
Qed.

(** The hand-rolled hex decoder of private keys. It decodes exactly the pairs of hex digits of either
    case, to the bytes the reference decoder gives; and its error never discloses the key: two
    inputs whose hex digits sit at the same positions are refused with the same message,
    whatever the characters are. *)
Theorem ffi_decode_hex_spec (s s' : str) :
  (forall b, ffi_decode_hex s = Ok b <-> hex_decode_ref s = Some b) /\
  (same_shape s s' -> is_ok (ffi_decode_hex s) = false -> ffi_decode_hex s' = ffi_decode_hex s).
Proof.
  unfold ffi_decode_hex. split.
  - intros b. destruct (Z.eqb_spec (len s mod 2) 0) as [He|He]; cbn [negb].
    + now apply decode_pairs_spec.
    + split; [done|]. intros Hd%hex_decode_ref_even. done.
  - intros Hs. rewrite (same_shape_len s s' Hs). destruct (_ =? 0); cbn [negb]; [|done].
    destruct (decode_pairs 0 s) as [b|e] eqn:E; [done|]. intros _. exact (decode_pairs_blind s s' 0 e Hs E).
Qed.

(** ** The wire format is the sidecar's *)

(** The method that names what a route names. *)
Inductive same_operation (rid : str) : Route -> str -> Prop :=
  | same_capabilities : same_operation rid (RCapabilities rid) "capabilities"
  | same_quote : same_operation rid (RQuote rid) "quote"
  | same_charge : same_operation rid (RCharge rid) "charge"
  | same_verify : same_operation rid (RVerify rid) "verify"
  | same_destination : same_operation rid (RValidateDestination rid) "validate-destination".
(** A document read the same by both front ends. *)
Record same_document `{FfiJson, HttpLib} (req : HttpRequest) (text : str) : Prop := {
  same_pay q : extract_pay_request req = Ok q <-> parse_pay text = Ok q;
  same_receipt rc : extract_receipt req = Ok rc <-> parse_receipt text = Ok rc;
  same_dest d : (exists body, extract_bytes req = Ok body /\ parse_destination body = Ok d) <->
    parse_dest_request text = Ok d;
}.

Section Wire.
Context `{FfiJson} `{HttpLaws} {W : Type} `{SystemClock W} `{Clock W} (F : Features W).

Lemma on_rail_reply {A} (f : A -> Body) (m : Eff W Error A) w b w' :
  on_rail f m w = (Ok (ReplyBody b), w') <-> exists a, m w = (Ok a, w') /\ b = f a.
Proof.
  unfold on_rail. unfold_eff. destruct (m w) as [[a|e] v]; cbn [map_err].
  - split; [intros [= <- <-]; now exists a | now intros (? & [= <- <-] & ->)].
  - split; [done | now intros (? & ? & _)].
Qed.
Lemma parsed_reply {A} (r : Result str A) e (k : A -> Eff W str Reply) w x w' :
  (a ← eff_of (map_err e r); k a) w = (Ok x, w') <-> exists a, r = Ok a /\ k a w = (Ok x, w').
Proof.
  unfold_eff. destruct r as [a|]; cbn [map_err].
  - split; [now exists a | now intros (? & [= <-] & ?)].
  - split; [done | now intros (? & ? & _)].
Qed.

(** What success means, route by route. *)
Lemma succeeds_route reg (req : HttpRequest) (w : W) b w' :
  succeeds reg req w b w' <->
  match route req with
  | Healthz => b = BText "ok" /\ w' = w
  | RCapabilities rid => exists R, reg !! rid = Some R /\ b = BCapabilities (capabilities R) /\ w' = w
  | RQuote rid => exists R q a, reg !! rid = Some R /\ extract_pay_request req = Ok q /\
      quote R q w = (Ok a, w') /\ b = BQuote a
  | RCharge rid => exists R q a, reg !! rid = Some R /\ extract_pay_request req = Ok q /\
      charge R q w = (Ok a, w') /\ b = BReceipt a
  | RVerify rid => exists R rc a, reg !! rid = Some R /\ extract_receipt req = Ok rc /\
      verify R rc w = (Ok a, w') /\ b = BVerify a
  | RValidateDestination rid => exists R d, reg !! rid = Some R /\
      (exists body, extract_bytes req = Ok body /\ parse_destination body = Ok d) /\
      b = BDestination (validate_destination R d) (is_refusal (validate_destination R d)) /\ w' = w
  | RWebhook _ => succeeds reg req w b w'
  end.
Proof.
  destruct (route req) eqn:E; [| | | | | |done]; split;
    try (intros Hs; destruct Hs; try congruence;
         match goal with H : route _ = ?x, H' : route _ = ?y |- _ => rewrite H in H'; injection H' as <- end;
         repeat esplit; eassumption).
  - intros Hs. destruct Hs; try congruence. done.
  - intros [-> ->]. now constructor.
  - intros (R & ? & -> & ->). eapply succeeds_capabilities; eassumption.
  - intros (R & q & a & ? & ? & ? & ->). eapply succeeds_quote; eassumption.
  - intros (R & q & a & ? & ? & ? & ->). eapply succeeds_charge; eassumption.
  - intros (R & q & a & ? & ? & ? & ->). eapply succeeds_verify; eassumption.
  - intros (R & d & ? & (body & ? & ?) & -> & ->). eapply succeeds_destination; eassumption.
Qed.

(** C35: one wire format. For each of the five operations the two front ends share, on the same rail and a
    document both read the same way, the sidecar answers 200 with a body exactly when
    [patala_call] answers that body, with the same effect: a binding can move from one to the
    other without a change of meaning. *)
Theorem ffi_matches_sidecar (reg : gmap str (PaymentRail W)) (rid : str) (R : PaymentRail W)
    (req : HttpRequest) (method text : str) (w : W) (b : Body) (w' : W)
    (Hreg : reg !! rid = Some R) (Hop : same_operation rid (route req) method)
    (Hdoc : same_document req text) :
  dispatch reg req w = (json_ok b, w') <-> ffi_reply F R method text w = (Ok (ReplyBody b), w').
Proof.
  rewrite dispatch_ok, succeeds_route. destruct Hdoc as [Hpay Hrc Hdest].
  inversion Hop as [Er Em|Er Em|Er Em|Er Em|Er Em]; rewrite Hreg; unfold ffi_reply; cbn.
  - unfold mret, eff_ret. split; [intros (? & [= <-] & -> & ->); done | intros [= <- <-]; eauto].
  - rewrite parsed_reply. setoid_rewrite on_rail_reply. split.
    + intros (? & q & a & [= <-] & Hq & Ha & ->). exists q. rewrite <- Hpay. eauto.
    + intros (q & Hq & a & Ha & ->). exists R, q, a. rewrite Hpay. done.
  - rewrite parsed_reply. setoid_rewrite on_rail_reply. split.
    + intros (? & q & a & [= <-] & Hq & Ha & ->). exists q. rewrite <- Hpay. eauto.
    + intros (q & Hq & a & Ha & ->). exists R, q, a. rewrite Hpay. done.
  - rewrite parsed_reply. setoid_rewrite on_rail_reply. split.
    + intros (? & q & a & [= <-] & Hq & Ha & ->). exists q. rewrite <- Hrc. eauto.
    + intros (q & Hq & a & Ha & ->). exists R, q, a. rewrite Hrc. done.
  - rewrite parsed_reply. split.
    + intros (? & d & [= <-] & Hd & -> & ->). exists d. rewrite <- Hdest. done.
    + intros (d & Hd & [= <- <-]). exists R, d. rewrite Hdest. done.
Qed.
End Wire.

(** ** Witnesses *)

(** Two threads open at once; the second finishes first and closes at once. *)
Definition ffi_mock (rid : str) : PaymentRail Z := mock_rail (mock_new rid NonCustodialFinal ["USDC"%string]).
Definition two_threads : list (HandleEvent Z) :=
  [Fetched 1 (ffi_mock "a"); Fetched 2 (ffi_mock "b"); Opened 2; Closed 2; Opened 1].
Definition two_threads_end : Handles Z :=
  publish_handle 1 (ffi_mock "a") (ffi_close 2 (publish_handle 2 (ffi_mock "b")
    (fetch_handle (ffi_mock "b") (fetch_handle (ffi_mock "a") handles_init).2).2)).
Lemma two_threads_run : handle_run two_threads two_threads_end.
Proof.
  apply (run_step [Fetched 1 (ffi_mock "a"); Fetched 2 (ffi_mock "b"); Opened 2; Closed 2]
    (ffi_close 2 (publish_handle 2 (ffi_mock "b")
      (fetch_handle (ffi_mock "b") (fetch_handle (ffi_mock "a") handles_init).2).2))); [|now apply step_publish].
  apply (run_step [Fetched 1 (ffi_mock "a"); Fetched 2 (ffi_mock "b"); Opened 2]
    (publish_handle 2 (ffi_mock "b") (fetch_handle (ffi_mock "b") (fetch_handle (ffi_mock "a") handles_init).2).2));
    [|apply step_close].
  apply (run_step [Fetched 1 (ffi_mock "a"); Fetched 2 (ffi_mock "b")]
    (fetch_handle (ffi_mock "b") (fetch_handle (ffi_mock "a") handles_init).2).2); [|now apply step_publish].
  apply (run_step [Fetched 1 (ffi_mock "a")] (fetch_handle (ffi_mock "a") handles_init).2); [|apply step_fetch].
  apply (run_step [] handles_init); [constructor | apply step_fetch].
Qed.
Lemma ffi_handles_never_reused_witness :
  is_ok (ffi_lookup two_threads_end 2) = false /\ exists R, ffi_lookup two_threads_end 1 = Ok R.
Proof.
  destruct (ffi_handles_never_reused two_threads two_threads_end two_threads_run)
    as (_ & _ & _ & Hcl & Hop); [reflexivity|]. split.
  - apply (Hcl [Fetched 1 (ffi_mock "a"); Fetched 2 (ffi_mock "b"); Opened 2] [Opened 1] 2); [reflexivity|].
    right. right. now left.
  - destruct (Hop [Fetched 1 (ffi_mock "a"); Fetched 2 (ffi_mock "b"); Opened 2; Closed 2] [] 1) as (R & HR & _);
      [reflexivity | intros [] | exists R; exact HR].
Defined.

#[local] Existing Instances demo_http demo_http_laws demo_system_clock.
#[local] Instance demo_ffi_json : FfiJson := {
  parse_config _ := Ok cfg_default_mock;
  parse_pay _ := Ok demo_pay;
  parse_receipt _ := Err "not a receipt"%string;
  parse_dest_request t := Ok t;
  parse_webhook_request _ := Err "not a delivery"%string;
  encode _ := Ok "{}"%string;
}.
Lemma ffi_matches_sidecar_witness :
  exists rc, ffi_reply no_features (ffi_mock "mock") "charge" "" 7 = (Ok (ReplyBody (BReceipt rc)), 8).
Proof.
  destruct (dispatch {["mock"%string := ffi_mock "mock"]} charge_call 7) as [[code []] w] eqn:E; try discriminate E.
  exists r. apply (ffi_matches_sidecar (W := Z) no_features {["mock"%string := ffi_mock "mock"]} "mock"
    (ffi_mock "mock") charge_call "charge" "").
  - reflexivity.
  - constructor.
  - split; cbn; [intros q; split; now intros [= ->] | split; discriminate |]. intros d. split; [intros (b & [= <-] & [= <-]); reflexivity | intros [= <-]; now exists []].
  - vm_compute in E. injection E as _ <- _. vm_compute. reflexivity.
Defined.

(** A document that is not text never opens a rail; an absent one is the
    offline default. *)
Lemma patala_new_not_text {W} `{FfiJson} `{Clock W} (F : Features W) runtime s :
  exists e, patala_new F runtime None s = (0, Some e, s).
Proof. cbn. eauto. Qed.
Lemma ffi_blank_is_mock {W} `{FfiJson} `{Clock W} (F : Features W) c :
  is_blank c = true ->
  ffi_build F (Ok tt) c = Ok (mock_rail (mock_new "mock" NonCustodialFinal ["USDC"%string])).
Proof. intros Hb. unfold ffi_build. rewrite Hb. reflexivity. Qed.
(** The default build opens nothing but mocks. *)
Lemma default_build_only_mocks {W} `{Clock W} c (R : PaymentRail W) :
  cfg_build no_features c = Ok R -> exists m, R = mock_rail m.
Proof. destruct c; try discriminate. intros [= <-]. eauto. Qed.
