(* ===== verification/Secrets.v ===== *)
(** * Secrets: loading them, and keeping them out of text

    The signing keys both chain crates read from the environment
    ([patala-stellar/src/keys.rs], [patala-solana/src/keys.rs]), and the
    hand-written [Debug] of the two configurations that hold credentials
    ([patala-ffi/src/lib.rs], [patala-hyperswitch/src/config.rs]). Wiping memory
    is not modelled: a pure model has no copies to wipe. *)

From stdpp Require Import sorting.
From S2P Require Import Prelude RustStr Core External Adapter Mock Registry StellarTx StellarDest StellarRail SolanaTx SolanaDest SolanaRail Sidecar Ffi.
From S2P Require Hyperswitch.

(** ** Keys from the environment *)

(** [std::fs::read_to_string], and [serde_json::from_str::<Vec<u8>>]. *)
Class KeyFiles := {
  read_to_string : str -> Result str str;
  json_byte_array : str -> option (list byte);
}.
Definition solana_keypair_from_env `{Base58, KeyFiles} (env : Environment) : Result SolanaError (option (list byte)) :=
  match env "SOLANA_KEYPAIR_PATH"%string with
  | Some path =>
      raw ← map_err (fun e => SolConfig ("SOLANA_KEYPAIR_PATH " +:+ path +:+ ": " +:+ e)) (read_to_string path);
      bytes ← ok_or (SolConfig ("SOLANA_KEYPAIR_PATH " +:+ path +:+ ": not a JSON byte array")) (json_byte_array raw);
      seed ← seed_of_bytes bytes;
      Ok (Some seed)
  | None =>
      match env "SOLANA_KEYPAIR"%string with
      | Some b58 =>
          bytes ← ok_or (SolConfig "SOLANA_KEYPAIR: not base58") (b58_decode (trim b58));
          seed ← seed_of_bytes bytes;
          Ok (Some seed)
      | None => Ok None
      end
  end.
Definition stellar_keypair_from_env `{StrKey} (env : Environment) : Result StellarError (option (list byte)) :=
  match env "STELLAR_SECRET_KEY"%string with
  | None => Ok None
  | Some s =>
      match strkey_parse (trim s) with
      | Some (PrivateKeyEd25519 raw) => Ok (Some raw)
      | _ => Err (Config "STELLAR_SECRET_KEY: not a valid S... seed")
      end
  end.
Definition solana_rail_from_env `{Base58, KeyFiles} {W} (env : Environment) (c : SolanaConfig) (h : SolanaRpc W)
    : Result Error (SolanaRail W) :=
  key ← map_err from_solana (solana_keypair_from_env env);
  Ok (match key with Some k => sol_with_signer k (solana_new c h) | None => solana_new c h end).
Definition stellar_rail_from_env `{StrKey} {W} (env : Environment) (c : StellarConfig) (h : StellarRpc W)
    : Result Error (StellarRail W) :=
  key ← map_err from_stellar (stellar_keypair_from_env env);
  Ok (match key with Some k => with_signer k (stellar_new c h) | None => stellar_new c h end).

(** ** [Debug] *)

(** [f.debug_struct(name).field(..)...finish()] on one line. *)
Definition debug_struct (name : str) (fields : list (str * str)) : str :=
  match fields with
  | [] => name
  | _ => name +:+ " { " +:+ String.concat ", " (map (fun kv => kv.1 +:+ ": " +:+ kv.2) fields) +:+ " }"
  end.
Definition debug_list (items : list str) : str := "[" +:+ String.concat ", " (map debug_str items) +:+ "]".
Definition debug_option (o : option str) : str :=
  match o with Some s => "Some(" +:+ debug_str s +:+ ")" | None => "None" end.
Definition debug_bool (b : bool) : str := if b then "true" else "false".
Definition redacted (present : bool) : str := if present then "<redacted>" else "<unset>".
(** Set, of an [Option]. *)
Definition is_set {A} (o : option A) : bool := match o with Some _ => true | None => false end.

Definition debug_rail_config (c : RailConfig) : str :=
  match c with
  | CfgMock rid cls curs fee fail checks => debug_struct "Mock" [
      ("id", debug_str rid); ("class", debug_class cls); ("currencies", debug_list curs);
      ("fee_minor", to_dec fee); ("failing", debug_bool fail); ("destination_checks", debug_bool checks)]
  | CfgFiat provider config => debug_struct "Fiat" [
      ("provider", debug_str provider);
      ("config_keys", debug_list (merge_sort str_le (map fst (map_to_list config))))]
  | CfgSolana url cl seed => debug_struct "Solana" [
      ("rpc_url", debug_str url); ("cluster", debug_str cl);
      ("keypair_seed_hex", debug_str (redacted (is_set seed)))]
  | CfgStellar url net issuer seed => debug_struct "Stellar" [
      ("horizon_url", debug_str url); ("network", debug_str net); ("usdc_issuer", debug_option issuer);
      ("keypair_seed_hex", debug_str (redacted (is_set seed)))]
  | CfgHyperswitch base key connector secret kyc curs days timeout => debug_struct "Hyperswitch" [
      ("base_url", debug_str base); ("api_key", debug_str (redacted (negb (is_empty key))));
      ("connector", debug_option connector); ("webhook_secret", debug_str (redacted (is_set secret)));
      ("requires_kyc", debug_bool kyc); ("currencies", debug_list curs);
      ("settlement_days", to_dec days); ("timeout_secs", to_dec timeout)]
  end%string.
Definition debug_hyperswitch_config (c : Hyperswitch.HyperswitchConfig) : str := debug_struct "HyperswitchConfig" [
  ("base_url", debug_str (Hyperswitch.base_url c));
  ("api_key", debug_str (redacted (negb (is_empty (Hyperswitch.api_key c)))));
  ("connector", debug_option (Hyperswitch.connector c));
  ("webhook_secret", debug_str (redacted (is_set (Hyperswitch.webhook_secret c))));
  ("requires_kyc", debug_bool (Hyperswitch.hs_requires_kyc c));
  ("currencies", debug_list (Hyperswitch.hs_currencies c));
  ("settlement_days", to_dec (Hyperswitch.hs_settlement_days c));
  ("timeout_secs", to_dec (Hyperswitch.hs_timeout_secs c))]%string.

(** ** Lemmas *)

(** A key that loads is 32 bytes; one that does not is refused with a text that
    can hold the file's path, the file system's error and the number of bytes,
    and nothing else of what was read. *)
Inductive key_error `{KeyFiles} (env : Environment) : SolanaError -> Prop :=
  | unreadable path e : env "SOLANA_KEYPAIR_PATH"%string = Some path -> read_to_string path = Err e ->
      key_error env (SolConfig ("SOLANA_KEYPAIR_PATH " +:+ path +:+ ": " +:+ e))
  | not_bytes path : env "SOLANA_KEYPAIR_PATH"%string = Some path ->
      key_error env (SolConfig ("SOLANA_KEYPAIR_PATH " +:+ path +:+ ": not a JSON byte array"))
  | not_base58 : key_error env (SolConfig "SOLANA_KEYPAIR: not base58")
  | bad_length n : key_error env (SolConfig ("keypair must be 32 or 64 bytes, got " +:+ to_dec (Z.of_nat n))).
Lemma seed_of_bytes_outcome `{KeyFiles} env bytes :
  match seed_of_bytes bytes with Ok seed => length seed = 32%nat | Err e => key_error env e end.
Proof.
  unfold seed_of_bytes. destruct (Nat.eqb_spec (length bytes) 64); [rewrite length_take; lia|].
  destruct (Nat.eqb_spec (length bytes) 32); [done | constructor].
Qed.
Lemma solana_key_outcome `{Base58, KeyFiles} env :
  match solana_keypair_from_env env with
  | Ok None => env "SOLANA_KEYPAIR_PATH"%string = None /\ env "SOLANA_KEYPAIR"%string = None
  | Ok (Some seed) => length seed = 32%nat
  | Err e => key_error env e
  end.
Proof.
  unfold solana_keypair_from_env.
  destruct (env "SOLANA_KEYPAIR_PATH"%string) as [path|] eqn:Ep.
  - destruct (read_to_string path) as [raw|e] eqn:Er; cbn; [|now apply unreadable].
    destruct (json_byte_array raw) as [bytes|]; cbn; [|now apply not_bytes].
    pose proof (seed_of_bytes_outcome env bytes). now destruct (seed_of_bytes bytes).
  - destruct (env "SOLANA_KEYPAIR"%string) as [b58|]; [|done].
    destruct (b58_decode (trim b58)) as [bytes|]; cbn; [|constructor].
    pose proof (seed_of_bytes_outcome env bytes). now destruct (seed_of_bytes bytes).
Qed.
#[export] Instance str_le_antisymm : AntiSymm (=) str_le.
Proof.
  intros a b Ha Hb. unfold str_le, String.leb in *. rewrite String.compare_antisym in Hb.
  destruct (String.compare a b) eqn:E; try done. now apply String.compare_eq_iff.
Qed.
(** Keys in order do not depend on the values beside them. *)
Lemma sorted_keys_fmap (f : str -> str) (m : gmap str str) :
  merge_sort str_le (map fst (map_to_list (f <$> m))) = merge_sort str_le (map fst (map_to_list m)).
Proof.
  apply (StronglySorted_unique str_le); [apply (StronglySorted_merge_sort _) .. |].
  rewrite !merge_sort_Permutation, map_to_list_fmap.
  assert (forall l : list (str * str), map fst (prod_map Datatypes.id f <$> l) = map fst l) as E.
  { induction l as [|[k v] l IH]; [done|]. cbn. now f_equal. }
  now rewrite E.
Qed.

(** ** Theorems *)

(** The same configuration with every secret replaced. *)
Definition with_secrets (f : str -> str) (c : RailConfig) : RailConfig :=
  match c with
  | CfgMock _ _ _ _ _ _ => c
  | CfgFiat provider config => CfgFiat provider (f <$> config)
  | CfgSolana url cl seed => CfgSolana url cl (f <$> seed)
  | CfgStellar url net issuer seed => CfgStellar url net issuer (f <$> seed)
  | CfgHyperswitch base key connector secret kyc curs days timeout =>
      CfgHyperswitch base (f key) connector (f <$> secret) kyc curs days timeout
  end.
Definition with_hyperswitch_secrets (f : str -> str) (c : Hyperswitch.HyperswitchConfig) : Hyperswitch.HyperswitchConfig := {|
  Hyperswitch.base_url := Hyperswitch.base_url c; Hyperswitch.api_key := f (Hyperswitch.api_key c);
  Hyperswitch.connector := Hyperswitch.connector c;
  Hyperswitch.webhook_secret := f <$> Hyperswitch.webhook_secret c;
  Hyperswitch.hs_requires_kyc := Hyperswitch.hs_requires_kyc c;
  Hyperswitch.hs_currencies := Hyperswitch.hs_currencies c;
  Hyperswitch.hs_settlement_days := Hyperswitch.hs_settlement_days c;
  Hyperswitch.hs_timeout_secs := Hyperswitch.hs_timeout_secs c;
|}.

(** C33: printing a configuration never prints a secret. However the secrets of a
    configuration are replaced (empty by empty), its Debug text stays the same,
    character for character: API keys, webhook secrets and key seeds show only
    whether they are set, and of a fiat provider's settings only the names. *)
Theorem debug_never_prints_secrets (f : str -> str) (c : RailConfig) (hc : Hyperswitch.HyperswitchConfig) :
  (forall s, is_empty (f s) = is_empty s) ->
  debug_rail_config (with_secrets f c) = debug_rail_config c /\
  debug_hyperswitch_config (with_hyperswitch_secrets f hc) = debug_hyperswitch_config hc.
Proof.
  intros Hf. split.
  - destruct c as [|provider config|url cl []|url net issuer []|base key connector [] kyc curs days timeout];
      cbn [with_secrets debug_rail_config fmap option_fmap option_map is_set];
      rewrite ?Hf, ?sorted_keys_fmap; reflexivity.
  - unfold debug_hyperswitch_config. cbn. rewrite Hf. now destruct (Hyperswitch.webhook_secret hc).
Qed.
Lemma debug_never_prints_secrets_witness :
  let f s := if is_empty s then EmptyString else "other"%string in
  debug_rail_config (CfgStellar "https://horizon" "testnet" None (Some "other"%string)) =
  debug_rail_config (CfgStellar "https://horizon" "testnet" None (Some "c0ffee"%string)) /\
  with_secrets f (CfgFiat "stripe" {["secret_key"%string := "sk_live"%string]}) =
    CfgFiat "stripe" {["secret_key"%string := "other"%string]}.
Proof.
  intros f. split; [|vm_compute; reflexivity].
  apply (debug_never_prints_secrets f (CfgStellar "https://horizon" "testnet" None (Some "c0ffee"%string))
    {| Hyperswitch.base_url := ""; Hyperswitch.api_key := ""; Hyperswitch.connector := None;
       Hyperswitch.webhook_secret := None; Hyperswitch.hs_requires_kyc := true; Hyperswitch.hs_currencies := [];
       Hyperswitch.hs_settlement_days := 0; Hyperswitch.hs_timeout_secs := 0 |}).
  now intros [|a s].
Defined.
Example debug_rail_config_text :
  debug_rail_config (CfgSolana "http://rpc" "devnet" (Some "c0ffee"%string)) =
  ("Solana { rpc_url: " +:+ debug_str "http://rpc" +:+ ", cluster: " +:+ debug_str "devnet"
   +:+ ", keypair_seed_hex: " +:+ debug_str "<redacted>" +:+ " }")%string.
Proof. reflexivity. Qed.
