(* ===== verification/Abi.v ===== *)
(** * The C ABI's shell ([patala-ffi/src/abi.rs])

    Pointers, ownership of strings, and panics. The heap is the map of the C
    strings this library has handed out and not taken back; the host is a second
    party that calls, frees, and keeps what it has been given. Every decision is
    [patala-ffi/src/lib.rs]'s ([Ffi]), here a record of its three entry points. *)

From S2P Require Import Prelude RustStr Core External Adapter UrlForm Sidecar Ffi.

(** ** Pointers and strings *)

(** A [const char*] argument: NULL, or the bytes before its NUL. *)
Inductive CArg := Null | Text (bytes : list byte).
(** [CString::into_raw]: an address nothing live has, and never NULL. *)
Class Allocator := { fresh : gmap Z str -> Z }.
Class AllocatorLaws `{Allocator} : Prop := {
  fresh_not_null m : fresh m <> 0;
  fresh_unused m : m !! fresh m = None;
}.

(** The library's state, the strings it has handed out, and the host's [err]
    variable. *)
Record Process (St : Type) := { lib : St; live : gmap Z str; err : Z }.
Arguments lib {St} _.
Arguments live {St} _.
Arguments err {St} _.
(** What [catch_unwind] sees of a call. *)
Inductive Outcome (A : Type) := Returned (a : A) | Panicked.
Arguments Returned {A} a.
Arguments Panicked {A}.
Record Crate (St : Type) := {
  c_open : str -> St -> Outcome (Result str Z) * St;
  c_close : Z -> St -> Outcome unit * St;
  c_call : Z -> str -> str -> St -> Outcome (Result str str) * St;
}.
Arguments c_open {St} _ _ _.
Arguments c_close {St} _ _ _.
Arguments c_call {St} _ _ _ _ _.

Definition NUL : ascii := "000"%char.
(** The version in [patala-ffi/Cargo.toml]. *)
Definition ABI_VERSION : str := "0.1.2".
Definition not_utf8 : str := "patala: configuration is not valid UTF-8. It is refused rather than                  treated as absent, because an absent configuration means the offline                  MockRail — which would report a charge that never happened as settled.".
(** What crosses: a text with a NUL inside cannot. *)
Definition c_text (s : str) : str :=
  if contains_char NUL s then "patala: internal error — a response contained a NUL byte and cannot cross a C string" else s.
Definition as_str_opt (p : CArg) : option str := match p with Null => Some EmptyString | Text b => from_utf8 b end.
Definition as_str (p : CArg) : str := default EmptyString (as_str_opt p).

Section Shell.
Context `{Allocator} {St : Type} (crate : Crate St).
Implicit Types p : Process St.

Definition into_c (s : str) p : Z * Process St :=
  let ptr := fresh (live p) in
  (ptr, {| lib := lib p; live := <[ptr := c_text s]> (live p); err := err p |}).
(** [wanted]: the caller gave somewhere to put a message. *)
Definition set_err (wanted : bool) (message : str) p : Process St :=
  if wanted then let '(ptr, p) := into_c message p in {| lib := lib p; live := live p; err := ptr |} else p.
Definition clear_err (wanted : bool) p : Process St :=
  if wanted then {| lib := lib p; live := live p; err := 0 |} else p.
Definition with_lib (s : St) p : Process St := {| lib := s; live := live p; err := err p |}.

Definition version_mismatch (want : str) : str :=
  "patala: ABI version mismatch — this library is " +:+ ABI_VERSION +:+ ", the caller expected "
  +:+ debug_str want +:+ ". A stale libpatala_ffi is earlier on the load path than the one you installed.".
Definition patala_abi_check (expected : CArg) (wanted : bool) p : Z * Process St :=
  let p := clear_err wanted p in
  let want := as_str expected in
  if String.eqb want ABI_VERSION then (0, p) else (-1, set_err wanted (version_mismatch want) p).
Definition c_new (config_json : CArg) (wanted : bool) p : Z * Process St :=
  let p := clear_err wanted p in
  match as_str_opt config_json with
  | None => (0, set_err wanted not_utf8 p)
  | Some config =>
      match c_open crate config (lib p) with
      | (Returned (Ok handle), s) => (handle, with_lib s p)
      | (Returned (Err message), s) => (0, set_err wanted message (with_lib s p))
      | (Panicked, s) => (0, set_err wanted "patala: panicked while creating a rail" (with_lib s p))
      end
  end.
(** [let _ = catch_unwind(..)]: a panic inside is the end of the call too. *)
Definition patala_close (h : Z) p : Process St :=
  match c_close crate h (lib p) with
  | (Returned tt, s) | (Panicked, s) => with_lib s p
  end.
Definition patala_call (h : Z) (method request_json : CArg) (wanted : bool) p : Z * Process St :=
  let p := clear_err wanted p in
  match c_call crate h (as_str method) (as_str request_json) (lib p) with
  | (Returned (Ok out), s) => into_c out (with_lib s p)
  | (Returned (Err message), s) => (0, set_err wanted message (with_lib s p))
  | (Panicked, s) => (0, set_err wanted "patala: panicked during the call" (with_lib s p))
  end.
(** [None]: undefined behaviour, a pointer that is not this library's to free. *)
Definition patala_free (ptr : Z) p : option (Process St) :=
  return_if ptr =? 0 with_ Some p;
  _ ← live p !! ptr;
  Some {| lib := lib p; live := delete ptr (live p); err := err p |}.
End Shell.

(** The library itself: the table of handles, and the world its rails act in and
    tokio's builder finds. *)
Definition lib_crate `{FfiJson} {W : Type} `{Clock W} (F : Features W) (runtime : W -> Result str unit)
    : Crate (Handles W * W) := {|
  c_open config s := let '(r, table) := ffi_open F (runtime s.2) config s.1 in (Returned r, (table, s.2));
  c_close h s := (Returned tt, (ffi_close h s.1, s.2));
  c_call h method request s := let '(r, w) := ffi_call F s.1 h method request s.2 in (Returned r, (s.1, w));
|}.

(** ** The host

    It calls, keeps every string it is given, and frees only what it keeps. *)

Definition non_null (ptr : Z) : gset Z := if ptr =? 0 then ∅ else {[ptr]}.
(** The message, if the host gave somewhere to put one. *)
Definition message_of {St} (wanted : bool) (p : Process St) : gset Z := if wanted then non_null (err p) else ∅.
Definition started {St} (s : St) : Process St := {| lib := s; live := ∅; err := 0 |}.

Inductive host_step `{Allocator} {St} (crate : Crate St) : gset Z * Process St -> gset Z * Process St -> Prop :=
  | host_check held p expected wanted r p' :
      patala_abi_check expected wanted p = (r, p') -> host_step crate (held, p) (held ∪ message_of wanted p', p')
  | host_new held p config wanted h p' :
      c_new crate config wanted p = (h, p') -> host_step crate (held, p) (held ∪ message_of wanted p', p')
  | host_call held p h method request wanted out p' :
      patala_call crate h method request wanted p = (out, p') ->
      host_step crate (held, p) (held ∪ non_null out ∪ message_of wanted p', p')
  | host_close held p h : host_step crate (held, p) (held, patala_close crate h p)
  | host_free held p ptr p' :
      ptr ∈ held -> patala_free ptr p = Some p' -> host_step crate (held, p) (held ∖ {[ptr]}, p').

(** ** Lemmas *)

Section ShellLemmas.
Context `{AllocatorLaws} {St : Type} (crate : Crate St).
Implicit Types p : Process St.

Lemma into_c_spec s p ptr p' :
  into_c s p = (ptr, p') ->
  ptr <> 0 /\ live p !! ptr = None /\ live p' = <[ptr := c_text s]> (live p) /\ lib p' = lib p /\ err p' = err p.
Proof. intros [= <- <-]. split; [apply fresh_not_null|]. split; [apply fresh_unused | done]. Qed.
(** What a failure leaves behind: one message, if one is wanted. *)
Definition new_message (message : str) p p' : Prop :=
  err p' <> 0 /\ live p !! err p' = None /\ live p' = <[err p' := c_text message]> (live p).
Definition failed_with (wanted : bool) (message : str) p p' : Prop :=
  if wanted then new_message message p p' else live p' = live p /\ err p' = err p.
Lemma set_err_failed wanted message s p :
  failed_with wanted message p (set_err wanted message (with_lib s (clear_err wanted p))) /\
  lib (set_err wanted message (with_lib s (clear_err wanted p))) = s.
Proof.
  unfold failed_with, new_message, set_err. destruct wanted; [|done]. cbn. split; [|done].
  split; [apply fresh_not_null|]. split; [apply fresh_unused | done].
Qed.
Lemma new_message_set message s p : new_message message p (set_err true message (with_lib s (clear_err true p))).
Proof. exact (proj1 (set_err_failed true message s p)). Qed.
(** A call hands out exactly these strings, all new, and touches no other. *)
Record hands_out p p' (given : gset Z) : Prop := {
  ho_dom : dom (live p') = dom (live p) ∪ given;
  ho_new : given ## dom (live p);
  ho_null : 0 ∉ given;
  ho_kept ptr t : live p !! ptr = Some t -> live p' !! ptr = Some t;
}.
Lemma hands_out_nothing p p' : live p' = live p -> hands_out p p' ∅.
Proof. intros E. split; [rewrite E | | | rewrite E]; set_solver. Qed.
Lemma hands_out_one p p' ptr t :
  ptr <> 0 -> live p !! ptr = None -> live p' = <[ptr := t]> (live p) -> hands_out p p' (non_null ptr).
Proof.
  intros Hn Hf E. unfold non_null. rewrite (proj2 (Z.eqb_neq _ _) Hn).
  split; [rewrite E; set_solver | apply not_elem_of_dom in Hf; set_solver | set_solver |].
  intros ptr' t' Hp. rewrite E, lookup_insert_ne; [done | congruence].
Qed.
Lemma failed_hands_out wanted message p p' :
  failed_with wanted message p p' -> hands_out p p' (message_of wanted p').
Proof.
  unfold failed_with, message_of. destruct wanted; [|intros [E _]; now apply hands_out_nothing].
  intros (Hn & Hf & E). now apply (hands_out_one _ _ _ (c_text message)).
Qed.
Lemma set_err_hands_out wanted message s p :
  let p' := set_err wanted message (with_lib s (clear_err wanted p)) in hands_out p p' (message_of wanted p').
Proof. apply failed_hands_out with message, set_err_failed. Qed.
Lemma clear_hands_out wanted s p :
  let p' := with_lib s (clear_err wanted p) in hands_out p p' (message_of wanted p').
Proof.
  cbn zeta. replace (message_of _ _) with (∅ : gset Z) by now destruct wanted.
  apply hands_out_nothing. now destruct wanted.
Qed.
Lemma with_own_lib p : with_lib (lib p) p = p.
Proof. now destruct p. Qed.
Lemma lib_clear wanted p : lib (clear_err wanted p) = lib p.
Proof. now destruct wanted. Qed.

Lemma check_hands_out expected wanted p r p' :
  patala_abi_check expected wanted p = (r, p') -> hands_out p p' (message_of wanted p').
Proof.
  unfold patala_abi_check. rewrite <- (with_own_lib (clear_err wanted p)).
  destruct (String.eqb _ _); intros [= <- <-]; [apply clear_hands_out | apply set_err_hands_out].
Qed.
Lemma new_hands_out config wanted p h p' :
  c_new crate config wanted p = (h, p') -> hands_out p p' (message_of wanted p').
Proof.
  unfold c_new. destruct (as_str_opt config) as [c|].
  - destruct (c_open crate c _) as [[[h'|e]|] s]; intros [= <- <-];
      [apply clear_hands_out | apply set_err_hands_out ..].
  - rewrite <- (with_own_lib (clear_err wanted p)). intros [= <- <-]. apply set_err_hands_out.
Qed.
(** The result of a call, and what comes with it. *)
Lemma patala_call_spec h method request wanted p out p' :
  patala_call crate h method request wanted p = (out, p') ->
  exists outcome, c_call crate h (as_str method) (as_str request) (lib p) = (outcome, lib p') /\
    match outcome with
    | Returned (Ok text) => out <> 0 /\ live p !! out = None /\ live p' = <[out := c_text text]> (live p) /\
        err p' = (if wanted then 0 else err p)
    | Returned (Err message) => out = 0 /\ failed_with wanted message p p'
    | Panicked => out = 0 /\ failed_with wanted "patala: panicked during the call" p p'
    end.
Proof.
  unfold patala_call. rewrite lib_clear. destruct (c_call crate h _ _ _) as [[[text|e]|] s] eqn:E; intros Hp.
  - apply into_c_spec in Hp as (Hn & Hf & Hl & Hs & He). cbn in Hl, Hs, He. rewrite Hs.
    eexists. split; [reflexivity|]. cbn in Hf. destruct wanted; cbn in *; split_and!; done.
  - injection Hp as <- <-. destruct (set_err_failed wanted e s p) as [Hf ->].
    eexists. split; [reflexivity | done].
  - injection Hp as <- <-. destruct (set_err_failed wanted "patala: panicked during the call" s p) as [Hf ->].
    eexists. split; [reflexivity | done].
Qed.
Lemma call_hands_out h method request wanted p out p' :
  patala_call crate h method request wanted p = (out, p') ->
  hands_out p p' (non_null out ∪ message_of wanted p').
Proof.
  intros (outcome & _ & Ho)%patala_call_spec.
  assert (forall m, out = 0 /\ failed_with wanted m p p' -> hands_out p p' (non_null out ∪ message_of wanted p')) as Hfail.
  { intros m [-> Hf%failed_hands_out]. replace (non_null 0 ∪ _) with (message_of wanted p') by (cbn; set_solver). done. }
  destruct outcome as [[text|e]|]; [|eauto..]. destruct Ho as (Hn & Hf & E & He).
  replace (message_of wanted p') with (∅ : gset Z) by (unfold message_of; rewrite He; now destruct wanted).
  rewrite (union_empty_r_L (non_null out)). now apply (hands_out_one _ _ _ (c_text text)).
Qed.
Lemma patala_free_spec ptr p p' : ptr <> 0 ->
  patala_free ptr p = Some p' <-> is_Some (live p !! ptr) /\ p' = {| lib := lib p; live := delete ptr (live p); err := err p |}.
Proof.
  intros Hn. unfold patala_free. rewrite (proj2 (Z.eqb_neq _ _) Hn).
  destruct (live p !! ptr) as [t|]; cbn; split; try done.
  - intros [= <-]. split; [now exists t | done].
  - now intros [_ ->].
  - intros [[? E] _]. discriminate E.
Qed.

Lemma patala_close_keeps h p : live (patala_close crate h p) = live p.
Proof. unfold patala_close. now destruct (c_close crate h (lib p)) as [[[]|] s]. Qed.

(** What the host keeps is what is live. *)
Definition owns (hp : gset Z * Process St) : Prop := hp.1 = dom (live hp.2) /\ 0 ∉ hp.1.
Lemma hands_out_owns held p p' given : hands_out p p' given -> owns (held, p) -> owns (held ∪ given, p').
Proof. intros [Hd _ Hn _] [E Hz]. cbn in *. split; cbn; [now rewrite Hd, E | set_solver]. Qed.
Lemma host_step_owns hp hp' : host_step crate hp hp' -> owns hp -> owns hp'.
Proof.
  destruct 1 as [held p ex wanted r p' E|held p c wanted h p' E|held p h m r wanted out p' E|held p h|held p ptr p' Hin E];
    intros Ho.
  - apply check_hands_out in E. now apply (hands_out_owns _ _ _ _ E).
  - apply new_hands_out in E. now apply (hands_out_owns _ _ _ _ E).
  - rewrite <- (union_assoc_L held). apply call_hands_out in E. now apply (hands_out_owns _ _ _ _ E).
  - unfold owns in *. cbn. now rewrite patala_close_keeps.
  - destruct Ho as [Eh Hz]. cbn in *. assert (ptr <> 0) as Hn by set_solver.
    apply patala_free_spec in E as [_ ->]; [|done]. split; cbn; [rewrite dom_delete_L; now rewrite Eh | set_solver].
Qed.
Lemma host_run_owns hp hp' : rtc (host_step crate) hp hp' -> owns hp -> owns hp'.
Proof. induction 1; eauto using host_step_owns. Qed.
Lemma host_step_keeps hp hp' ptr t : host_step crate hp hp' ->
  live hp.2 !! ptr = Some t -> ptr ∈ hp'.1 -> live hp'.2 !! ptr = Some t.
Proof.
  destruct 1 as [held p ex wanted r p' E|held p c wanted h p' E|held p h m r wanted out p' E|held p h|held p q p' Hin E];
    cbn; intros Ht Hk.
  - apply check_hands_out in E. now apply (ho_kept _ _ _ E).
  - apply new_hands_out in E. now apply (ho_kept _ _ _ E).
  - apply call_hands_out in E. now apply (ho_kept _ _ _ E).
  - now rewrite patala_close_keeps.
  - unfold patala_free in E. destruct (q =? 0); [now injection E as <-|].
    destruct (live p !! q); [|done]. injection E as <-. cbn. rewrite lookup_delete_ne; [done | set_solver].
Qed.
End ShellLemmas.

(** Over the library itself, [patala_new] is the one of [Ffi]. *)
Lemma c_new_is_patala_new `{Allocator, FfiJson} {W} `{Clock W} (F : Features W) runtime config (p : Process (Handles W * W)) :
  let out := patala_new F (runtime (lib p).2) (as_str_opt config) (lib p).1 in
  (c_new (lib_crate F runtime) config true p).1 = out.1.1 /\
  lib (c_new (lib_crate F runtime) config true p).2 = (out.2, (lib p).2).
Proof.
  cbn zeta. unfold c_new, patala_new. destruct (as_str_opt config) as [c|]; cbn [lib clear_err c_open lib_crate].
  - destruct (ffi_open F _ c (lib p).1) as [[h|e] table]; now split.
  - cbn. split; [done | now destruct (lib p)].
Qed.

(** An allocator for the witnesses: one past the highest live address. *)
Definition top_address (m : gmap Z str) : Z := foldr Z.max 0 (map fst (map_to_list m)).
Lemma top_address_bound m ptr : is_Some (m !! ptr) -> ptr <= top_address m.
Proof.
  intros [t Ht]. unfold top_address. assert (In ptr (map fst (map_to_list m))) as Hin.
  { apply in_map_iff. exists (ptr, t). split; [done|]. apply list_elem_of_In. now apply elem_of_map_to_list. }
  revert Hin. generalize (map fst (map_to_list m)). induction l as [|a l IH]; cbn; [done|].
  intros [->|Hin]; [lia | specialize (IH Hin); lia].
Qed.
Lemma top_address_nonneg m : 0 <= top_address m.
Proof. unfold top_address. induction (map fst (map_to_list m)); cbn; lia. Qed.
Definition bump : Allocator := {| fresh m := top_address m + 1 |}.
Lemma bump_laws : @AllocatorLaws bump.
Proof.
  split; intros m; cbn; [pose proof (top_address_nonneg m); lia|].
  destruct (m !! (top_address m + 1)) as [t|] eqn:E; [|done].
  pose proof (top_address_bound m (top_address m + 1) ltac:(eauto)). lia.
Qed.

(** ** Theorems *)

(** C11: strings change hands exactly once. Over every sequence of calls by a host
    that keeps what it is given and frees only what it keeps, through failures and
    panics, the strings this library has live are exactly those the host keeps:
    each can be freed, none is NULL, none of them changes or disappears under a
    later call that does not free it, and a host that has freed all of its own
    leaves nothing behind. *)
Theorem abi_ownership `{AllocatorLaws} {St} (crate : Crate St) (s0 : St) held p :
  rtc (host_step crate) (∅, started s0) (held, p) ->
  held = dom (live p) /\ 0 ∉ held /\
  (forall ptr, ptr ∈ held -> is_Some (patala_free ptr p)) /\
  (forall held' p' ptr, host_step crate (held, p) (held', p') -> ptr ∈ held -> ptr ∈ held' ->
     live p' !! ptr = live p !! ptr) /\
  (held = ∅ -> live p = ∅).
Proof.
  intros Hr. assert (owns (held, p)) as [Hd Hz].
  { apply (host_run_owns _ _ _ Hr). split; cbn; set_solver. }
  cbn in *. split; [exact Hd|]. split; [exact Hz|]. split; [|split].
  - intros ptr Hp. assert (ptr <> 0) by set_solver. rewrite Hd in Hp. apply elem_of_dom in Hp as [t Ht].
    exists {| lib := lib p; live := delete ptr (live p); err := err p |}. apply patala_free_spec; [done|]. now split; [exists t|].
  - intros held' p' ptr Hs Hp Hp'. rewrite Hd in Hp. apply elem_of_dom in Hp as [t Ht]. rewrite Ht.
    eapply host_step_keeps in Hs; [exact Hs | exact Ht | exact Hp'].
  - intros ->. apply dom_empty_inv_L. now rewrite <- Hd.
Qed.
#[local] Existing Instance bump.
Definition refusing : Crate Z := {|
  c_open _ s := (Returned (Err "no"%string), s + 1);
  c_close _ s := (Panicked, s);
  c_call _ _ _ s := (Panicked, s + 1);
|}.
Definition refused : Process Z := (c_new refusing Null true (started 0)).2.
Lemma abi_ownership_witness :
  rtc (host_step refusing) (∅, started 0) ({[1]}, refused) /\ is_Some (patala_free 1 refused).
Proof.
  assert (rtc (host_step refusing) (∅, started 0) ({[1]}, refused)) as Hr.
  { apply rtc_once. exact (host_new refusing ∅ (started 0) Null true 0 refused eq_refl). }
  split; [exact Hr|]. pose proof bump_laws as L.
  exact (proj1 (proj2 (proj2 (abi_ownership refusing 0 _ _ Hr))) 1 (proj2 (elem_of_singleton 1 1) eq_refl)).
Defined.

(** C32: a call answers or says why not, never both and never neither. What
    [patala_call] hands back is what the library's own call came to: its text, in
    a string at an address that nothing had, with no message; or NULL with the
    message, in such a string if the caller wants it, for an error and for a panic
    alike (a panic's message is the fixed text that says so). [patala_new] is the
    same with a handle, and a configuration that is not text never reaches the
    library at all. No other string changes, and closing hands out nothing, even
    when it panics. *)
Theorem abi_answers `{AllocatorLaws} {St} (crate : Crate St) h method request config p :
  (forall out p', patala_call crate h method request true p = (out, p') ->
     (out <> 0 <-> err p' = 0) /\
     exists outcome, c_call crate h (as_str method) (as_str request) (lib p) = (outcome, lib p') /\
       match outcome with
       | Returned (Ok text) => out <> 0 /\ live p !! out = None /\ live p' = <[out := c_text text]> (live p)
       | Returned (Err message) => out = 0 /\ new_message message p p'
       | Panicked => out = 0 /\ new_message "patala: panicked during the call" p p'
       end) /\
  (forall out p', patala_call crate h method request false p = (out, p') -> err p' = err p /\
     (out = 0 -> live p' = live p)) /\
  (forall handle p', c_new crate config true p = (handle, p') ->
     match as_str_opt config with
     | None => handle = 0 /\ lib p' = lib p /\ new_message not_utf8 p p'
     | Some c => exists outcome, c_open crate c (lib p) = (outcome, lib p') /\
         match outcome with
         | Returned (Ok h') => handle = h' /\ err p' = 0 /\ live p' = live p
         | Returned (Err message) => handle = 0 /\ new_message message p p'
         | Panicked => handle = 0 /\ new_message "patala: panicked while creating a rail" p p'
         end
     end) /\
  live (patala_close crate h p) = live p /\ err (patala_close crate h p) = err p.
Proof.
  split; [|split; [|split]].
  - intros out p' (outcome & Hc & Ho)%patala_call_spec. rewrite Hc. split; [|exists outcome; split; [done|]];
      destruct outcome as [[text|e]|]; cbn [failed_with] in Ho; unfold new_message in *; tauto.
  - intros out p' (outcome & Hc & Ho)%patala_call_spec.
    destruct outcome as [[text|e]|]; cbn [failed_with] in Ho; tauto.
  - intros handle p' Hn. unfold c_new in Hn. destruct (as_str_opt config) as [c|].
    + rewrite lib_clear in Hn. destruct (c_open crate c (lib p)) as [[[h'|e]|] s]; injection Hn as <- <-;
        (eexists; split; [reflexivity | split; [done|]]); [done | apply new_message_set ..].
    + rewrite <- (with_own_lib (clear_err true p)) in Hn. injection Hn as <- <-.
      split; [done|]. split; [done | apply new_message_set].
  - split; [apply patala_close_keeps|]. unfold patala_close. now destruct (c_close crate h (lib p)) as [[[]|] s].
Qed.
(** A library of one rail, which answers with the request it was given. *)
Definition echoing : Crate Z := {|
  c_open _ s := (Returned (Ok 7), s + 1);
  c_close _ s := (Returned tt, s);
  c_call _ _ request s := (Returned (Ok request), s + 1);
|}.
Definition quote_text : CArg := Text (list_byte_of_string "{}").
Lemma pair_of_fst {A B} (x : A * B) a : x.1 = a -> x = (a, x.2).
Proof. destruct x. now intros <-. Qed.
(** [echoing] answers; [refusing] panics in a call, refuses to open and panics
    when it is closed. *)
Lemma abi_answers_witness :
  (exists text, c_call echoing 7 (as_str Null) (as_str quote_text) 0 = (Returned (Ok text), 1) /\
     live (patala_call echoing 7 Null quote_text true (started 0)).2 = <[1 := c_text text]> ∅) /\
  new_message "patala: panicked during the call" (started 0) (patala_call refusing 7 Null quote_text true (started 0)).2 /\
  new_message not_utf8 (started 0) (c_new echoing (Text [xff]) true (started 0)).2 /\
  new_message "no" (started 0) (c_new refusing quote_text true (started 0)).2 /\
  err (c_new echoing quote_text true (started 0)).2 = 0 /\
  live (patala_close refusing 7 (started 0)) = ∅.
Proof.
  pose proof bump_laws as L. pose proof (@abi_answers bump L Z) as Answers. split_and!.
  - destruct (proj1 (Answers echoing 7 Null quote_text Null (started 0)) 1 _
      (pair_of_fst _ _ ltac:(vm_compute; reflexivity))) as (_ & outcome & Hc & Ho).
    injection Hc as <-. destruct Ho as (_ & _ & Hl). now eexists.
  - destruct (proj1 (Answers refusing 7 Null quote_text Null (started 0)) 0 _
      (pair_of_fst _ _ ltac:(vm_compute; reflexivity))) as (_ & outcome & Hc & Ho).
    injection Hc as <-. exact (proj2 Ho).
  - apply (proj1 (proj2 (proj2 (Answers echoing 7 Null Null (Text [xff]) (started 0)))) 0). apply pair_of_fst. reflexivity.
  - destruct (proj1 (proj2 (proj2 (Answers refusing 7 Null Null quote_text (started 0)))) 0 _
      (pair_of_fst _ _ ltac:(vm_compute; reflexivity))) as (outcome & Hc & Ho).
    injection Hc as <-. exact (proj2 Ho).
  - destruct (proj1 (proj2 (proj2 (Answers echoing 7 Null Null quote_text (started 0)))) 7 _
      (pair_of_fst _ _ ltac:(vm_compute; reflexivity))) as (outcome & Hc & Ho).
    injection Hc as <-. exact (proj1 (proj2 Ho)).
  - exact (proj1 (proj2 (proj2 (proj2 (Answers refusing 7 Null Null Null (started 0)))))).
Defined.
