(* ===== verification/Uniffi.v ===== *)
(** * The UniFFI bindings ([patala-uniffi/src/lib.rs])

    The values that cross to the other languages, the errors, and the object
    that wraps any rail, with its constructors but the fiat ones (Providers).
    [block_on] is running the effect; zeroing a seed leaves no trace in its
    value. *)

From S2P Require Import Prelude RustStr Core External Mock StellarTx StellarRail SolanaTx SolanaRail Json Adapter.
From S2P Require Hyperswitch.

(** ** The values of the bindings *)

Module Ffi.
Inductive RailClass := CustodialReversible | NonCustodialFinal.
Inductive Settlement := Instant | Seconds (secs : Z) | Days (days : Z).
Record RailCapabilities := {
  rail_class : RailClass;
  reversible : bool;
  requires_kyc : bool;
  holds_funds : bool;
  currencies : list str;
  settlement : Settlement;
  atomic_multi_party : bool;
}.
Record PayRequest := { amount_minor : Z; currency : str; destination : str; reference : str }.
Record Quote := {
  q_rail_id : str;
  q_amount_minor : Z;
  q_currency : str;
  q_fee_minor : Z;
  q_total_minor : Z;
  q_settlement : Settlement;
  q_expires_at_unix : Z;
}.
Record Receipt := {
  r_rail_id : str;
  r_amount_minor : Z;
  r_currency : str;
  r_reference : str;
  r_proof : list byte;
  r_settled_at_unix : Z;
}.
(** A hash map is its entries in the order it is iterated. *)
Record WebhookDelivery := {
  raw_body : list byte;
  headers : list (str * str);
  query : option (list (str * str));
  now_unix : Z;
}.
Inductive WebhookStatus := Settled | NotSettled | Unconfirmed.
Record WebhookEvent := {
  e_rail_id : str;
  e_event_id : str;
  e_reference : str;
  e_object_id : str;
  e_status : WebhookStatus;
  e_amount_minor : Z;
  e_currency : str;
}.
Inductive DestinationStatus := Malformed | WrongNetwork | NotAWallet | StructurallyValid | Unknown.
Record DestinationVerdict := {
  v_rail_id : str;
  v_status : DestinationStatus;
  v_reason : str;
  v_human_must_confirm : bool;
  v_exchange_deposit_caveat : str;
  v_is_refusal : bool;
}.
End Ffi.

Inductive PatalaError :=
  | PE_Unsupported (operation : str)
  | PE_Rail (detail : str)
  | PE_InvalidRequest (detail : str)
  | PE_CrossClassFailover (from to : Ffi.RailClass)
  | PE_AllRailsFailed.

(** ** [From] and [Into] *)

Definition class_from_core (c : RailClass) : Ffi.RailClass :=
  match c with CustodialReversible => Ffi.CustodialReversible | NonCustodialFinal => Ffi.NonCustodialFinal end.
Definition class_to_core (c : Ffi.RailClass) : RailClass :=
  match c with Ffi.CustodialReversible => CustodialReversible | Ffi.NonCustodialFinal => NonCustodialFinal end.
Definition settlement_from_core (s : Settlement) : Ffi.Settlement :=
  match s with Instant => Ffi.Instant | Seconds secs => Ffi.Seconds secs | Days days => Ffi.Days days end.
Definition capabilities_from_core (c : RailCapabilities) : Ffi.RailCapabilities := {|
  Ffi.rail_class := class_from_core (class c); Ffi.reversible := reversible c;
  Ffi.requires_kyc := requires_kyc c; Ffi.holds_funds := holds_funds c; Ffi.currencies := currencies c;
  Ffi.settlement := settlement_from_core (settlement c); Ffi.atomic_multi_party := atomic_multi_party c |}.
Definition request_to_core (r : Ffi.PayRequest) : PayRequest := {|
  req_amount_minor := Ffi.amount_minor r; req_currency := Ffi.currency r;
  req_destination := Ffi.destination r; req_reference := Ffi.reference r |}.
Definition quote_from_core (q : Quote) : Ffi.Quote := {|
  Ffi.q_rail_id := q_rail_id q; Ffi.q_amount_minor := q_amount_minor q; Ffi.q_currency := q_currency q;
  Ffi.q_fee_minor := q_fee_minor q; Ffi.q_total_minor := q_total_minor q;
  Ffi.q_settlement := settlement_from_core (q_settlement q); Ffi.q_expires_at_unix := q_expires_at_unix q |}.
Definition receipt_from_core (r : Receipt) : Ffi.Receipt := {|
  Ffi.r_rail_id := rail_id r; Ffi.r_amount_minor := amount_minor r; Ffi.r_currency := currency r;
  Ffi.r_reference := reference r; Ffi.r_proof := proof r; Ffi.r_settled_at_unix := settled_at_unix r |}.
Definition receipt_to_core (r : Ffi.Receipt) : Receipt := {|
  rail_id := Ffi.r_rail_id r; amount_minor := Ffi.r_amount_minor r; currency := Ffi.r_currency r;
  reference := Ffi.r_reference r; proof := Ffi.r_proof r; settled_at_unix := Ffi.r_settled_at_unix r |}.
Definition delivery_to_core (d : Ffi.WebhookDelivery) : WebhookDelivery :=
  let core := with_headers (Ffi.headers d) (delivery_new (Ffi.raw_body d) (Ffi.now_unix d)) in
  match Ffi.query d with Some q => with_query q core | None => core end.
Definition webhook_status_from_core (s : WebhookStatus) : Ffi.WebhookStatus :=
  match s with Settled => Ffi.Settled | NotSettled => Ffi.NotSettled | Unconfirmed => Ffi.Unconfirmed end.
Definition event_from_core (e : WebhookEvent) : Ffi.WebhookEvent := {|
  Ffi.e_rail_id := we_rail_id e; Ffi.e_event_id := event_id e; Ffi.e_reference := we_reference e;
  Ffi.e_object_id := object_id e; Ffi.e_status := webhook_status_from_core (we_status e);
  Ffi.e_amount_minor := we_amount_minor e; Ffi.e_currency := we_currency e |}.
Definition destination_status_from_core (s : DestinationStatus) : Ffi.DestinationStatus :=
  match s with
  | Malformed => Ffi.Malformed | WrongNetwork => Ffi.WrongNetwork | NotAWallet => Ffi.NotAWallet
  | StructurallyValid => Ffi.StructurallyValid | Unknown => Ffi.Unknown
  end.
Definition verdict_from_core (v : DestinationVerdict) : Ffi.DestinationVerdict := {|
  Ffi.v_status := destination_status_from_core (status v); Ffi.v_is_refusal := is_refusal v;
  Ffi.v_human_must_confirm := human_must_confirm v; Ffi.v_rail_id := v_rail_id v; Ffi.v_reason := reason v;
  Ffi.v_exchange_deposit_caveat := exchange_deposit_caveat v |}.
Definition ffi_exchange_deposit_caveat : str := EXCHANGE_DEPOSIT_CAVEAT.
Definition error_from_core (e : Error) : PatalaError :=
  match e with
  | Unsupported op => PE_Unsupported op
  | Rail detail => PE_Rail detail
  | InvalidRequest detail => PE_InvalidRequest detail
  | CrossClassFailover from to => PE_CrossClassFailover (class_from_core from) (class_from_core to)
  | AllRailsFailed => PE_AllRailsFailed
  end.
Definition debug_ffi_class (c : Ffi.RailClass) : str := debug_class (class_to_core c).
(** The [#[error(...)]] attributes. *)
Definition patala_error_display (e : PatalaError) : str :=
  match e with
  | PE_Unsupported operation => operation +:+ " is not supported by this rail"
  | PE_Rail detail => "rail error: " +:+ detail
  | PE_InvalidRequest detail => "invalid request: " +:+ detail
  | PE_CrossClassFailover from to =>
      "failover from a " +:+ debug_ffi_class from +:+ " rail to a " +:+ debug_ffi_class to
      +:+ " rail would cross the settlement-class boundary"
  | PE_AllRailsFailed => "no rail satisfied the request"
  end.

(** ** [PatalaRail] *)

Record PatalaRail (W : Type) := { inner : PaymentRail W }.
Arguments inner {W} _.
Arguments Build_PatalaRail {W} _.

Section PatalaRail.
Context {W : Type}.
Definition as_payment_rail (p : PatalaRail W) : PaymentRail W := inner p.
Definition ffi_id (p : PatalaRail W) : str := id (inner p).
Definition ffi_capabilities (p : PatalaRail W) : Ffi.RailCapabilities := capabilities_from_core (capabilities (inner p)).
(** [block_on(_).map(_).map_err(PatalaError::from)] *)
Definition crossing {A B} (f : A -> B) (m : Eff W Error A) : Eff W PatalaError B :=
  eff_map_err error_from_core m ≫= fun a => mret (f a).
Definition ffi_quote (p : PatalaRail W) (req : Ffi.PayRequest) : Eff W PatalaError Ffi.Quote :=
  crossing quote_from_core (quote (inner p) (request_to_core req)).
Definition ffi_charge (p : PatalaRail W) (req : Ffi.PayRequest) : Eff W PatalaError Ffi.Receipt :=
  crossing receipt_from_core (charge (inner p) (request_to_core req)).
Definition ffi_verify (p : PatalaRail W) (rc : Ffi.Receipt) : Eff W PatalaError bool :=
  eff_map_err error_from_core (verify (inner p) (receipt_to_core rc)).
Definition ffi_verify_webhook (p : PatalaRail W) (d : Ffi.WebhookDelivery) : Eff W PatalaError Ffi.WebhookEvent :=
  crossing event_from_core (verify_webhook (inner p) (delivery_to_core d)).
Definition ffi_validate_destination (p : PatalaRail W) (dest : str) : Ffi.DestinationVerdict :=
  verdict_from_core (validate_destination (inner p) dest).
End PatalaRail.

(** ** Constructors

    [http_rpc] and [horizon] are the clients of the two RPC seams, at a URL;
    [http] builds the one of Hyperswitch. *)

Definition seed32 (bytes : list byte) (rail : str) : Result PatalaError (list byte) :=
  return_if Nat.eqb (length bytes) 32 with_ Ok bytes;
  Err (PE_InvalidRequest (rail +:+ " keypair seed must be exactly 32 bytes, got " +:+ to_dec (Z.of_nat (length bytes)))).
Definition with_seed32 {T} (seed : list byte) (rail : str) (build : list byte -> T) : Result PatalaError T :=
  bytes ← seed32 seed rail; Ok (build bytes).

Section Constructors.
Context {W : Type} `{Clock W}.
Definition bound_mock (rid : str) (cls : Ffi.RailClass) (curs : list str) (fee : Z) (fail : bool) : PatalaRail W :=
  let rail := with_fee_minor fee (mock_new rid (class_to_core cls) curs) in
  Build_PatalaRail (mock_rail (if fail then failing rail else rail)).
Definition bound_mock_without_destination_checks (rid : str) (cls : Ffi.RailClass) (curs : list str) (fee : Z)
    (fail : bool) : PatalaRail W :=
  let rail := without_destination_checks (with_fee_minor fee (mock_new rid (class_to_core cls) curs)) in
  Build_PatalaRail (mock_rail (if fail then failing rail else rail)).
End Constructors.

Section SolanaConstructor.
Context `{Base58} `{Curve25519} `{Sha256} `{Ed25519} `{Hex} `{Blake3} `{Serde SolanaBinding}.
Context {W : Type} `{Clock W} (http_rpc : str -> SolanaRpc W).
Definition solana_cluster_config (rpc_url cluster : str) : Result PatalaError SolanaConfig :=
  return_if String.eqb cluster "devnet" with_ Ok (solana_devnet rpc_url);
  return_if String.eqb cluster "mainnet" || String.eqb cluster "mainnet-beta" with_ Ok (solana_mainnet rpc_url);
  Err (PE_InvalidRequest ("unknown solana cluster " +:+ debug_str cluster +:+ "; use " +:+ debug_str "devnet" +:+ " or " +:+ debug_str "mainnet")).
Definition bound_solana (rpc_url cluster : str) (keypair_seed : option (list byte)) : Result PatalaError (PatalaRail W) :=
  c ← solana_cluster_config rpc_url cluster;
  let rail := solana_new c (http_rpc rpc_url) in
  rail ← match keypair_seed with
         | Some seed => with_seed32 seed "solana" (fun s => sol_with_signer s rail)
         | None => Ok rail
         end;
  Ok (Build_PatalaRail (solana_rail rail)).
End SolanaConstructor.

Section StellarConstructor.
Context `{StrKey} `{Ed25519} `{Sha256} `{XdrCodec} `{Hex} `{Serde StellarBinding} `{Serde StellarSplitBinding}.
Context {W : Type} `{Clock W} (horizon : str -> StellarRpc W).
Definition stellar_network_config (network : str) (usdc_issuer : option str) : Result PatalaError StellarConfig :=
  return_if String.eqb network "testnet" with_
    (issuer ← ok_or (PE_InvalidRequest
       ("stellar network " +:+ debug_str "testnet" +:+ " requires usdc_issuer (the testnet issuer rotates and has no fixed default)")) usdc_issuer;
     Ok (config_testnet issuer));
  return_if String.eqb network "public" || String.eqb network "mainnet" with_ Ok config_public;
  Err (PE_InvalidRequest ("unknown stellar network " +:+ debug_str network +:+ "; use " +:+ debug_str "testnet" +:+ " or " +:+ debug_str "public")).
Definition bound_stellar (horizon_url network : str) (usdc_issuer : option str) (keypair_seed : option (list byte))
    : Result PatalaError (PatalaRail W) :=
  c ← stellar_network_config network usdc_issuer;
  let rail := stellar_new c (horizon horizon_url) in
  rail ← match keypair_seed with
         | Some seed => with_seed32 seed "stellar" (fun s => with_signer s rail)
         | None => Ok rail
         end;
  Ok (Build_PatalaRail (stellar_rail rail)).
End StellarConstructor.

Section HyperswitchConstructor.
Context `{Hyperswitch.HyperswitchJson} `{!ProofBytes Hyperswitch.ChargeProof} `{!ProofBytes Hyperswitch.RefundProof}
  `{Hex} (sha512_mac : Mac) {W : Type} `{Clock W} (http : HttpBuilder W).
Definition bound_hyperswitch (base_url api_key : str) (connector webhook_secret : option str) (kyc : bool)
    (curs : list str) (days timeout : Z) : Result PatalaError (PatalaRail W) :=
  let config := {|
    Hyperswitch.base_url := base_url; Hyperswitch.api_key := api_key; Hyperswitch.connector := connector;
    Hyperswitch.webhook_secret := webhook_secret; Hyperswitch.hs_requires_kyc := kyc;
    Hyperswitch.hs_currencies := curs; Hyperswitch.hs_settlement_days := days;
    Hyperswitch.hs_timeout_secs := timeout |} in
  rail ← map_err error_from_core (Hyperswitch.hyperswitch_new config http);
  Ok (Build_PatalaRail (Hyperswitch.hyperswitch_rail sha512_mac rail)).
End HyperswitchConstructor.

(** ** Lemmas *)

Lemma class_roundtrip c : class_to_core (class_from_core c) = c.
Proof. now destruct c. Qed.
Lemma receipt_roundtrip r : receipt_to_core (receipt_from_core r) = r.
Proof. now destruct r. Qed.
Lemma receipt_from_to r : receipt_from_core (receipt_to_core r) = r.
Proof. now destruct r. Qed.
#[export] Instance error_from_core_inj : Inj (=) (=) error_from_core.
Proof.
  intros [?|?|?|a b|] [?|?|?|c d|] E; cbn in E; try discriminate; try congruence.
  injection E as Ea Eb. apply (f_equal class_to_core) in Ea, Eb.
  rewrite !class_roundtrip in Ea, Eb. congruence.
Qed.
(** The one sentence of the core's error texts that the binding leaves out. *)
Definition dropped_hint (e : Error) : str :=
  match e with
  | CrossClassFailover _ _ => "; call `.allow_cross_class(true)` on the FailoverRail if this is intentional"
  | _ => EmptyString
  end.
Lemma error_display_crosses e : error_display e = patala_error_display (error_from_core e) +:+ dropped_hint e.
Proof.
  destruct e as [?|?|?|[] []|]; try reflexivity; cbn [dropped_hint]; rewrite append_nil_r; reflexivity.
Qed.
Lemma map_err_effect {W A} (m : Eff W Error A) (w : W) x w' :
  eff_map_err error_from_core m w = (x, w') <-> exists y, m w = (y, w') /\ x = map_err error_from_core y.
Proof.
  unfold eff_map_err. destruct (m w) as [y v]. split.
  - intros E. exists y. destruct y; cbn in *; now injection E as <- <-.
  - intros (z & [= <- <-] & ->). now destruct y.
Qed.
Lemma crossing_spec {W A B} (f : A -> B) (m : Eff W Error A) (w : W) x w' :
  crossing f m w = (x, w') <->
  exists y, m w = (y, w') /\ x = match y with Ok a => Ok (f a) | Err e => Err (error_from_core e) end.
Proof.
  unfold crossing, eff_map_err, mbind, eff_bind, mret, eff_ret.
  destruct (m w) as [[a|e] v]; cbn; split.
  1, 3: intros [= <- <-]; eauto. 1, 2: now intros (y & [= <- <-] & ->).
Qed.

(** The same value on both sides of the boundary, field by field. *)
Definition same_request (q : Ffi.PayRequest) (c : PayRequest) : Prop :=
  Ffi.amount_minor q = req_amount_minor c /\ Ffi.currency q = req_currency c /\
  Ffi.destination q = req_destination c /\ Ffi.reference q = req_reference c.
Definition same_receipt (r : Ffi.Receipt) (c : Receipt) : Prop :=
  Ffi.r_rail_id r = rail_id c /\ Ffi.r_amount_minor r = amount_minor c /\ Ffi.r_currency r = currency c /\
  Ffi.r_reference r = reference c /\ Ffi.r_proof r = proof c /\ Ffi.r_settled_at_unix r = settled_at_unix c.
Definition same_settlement (s : Ffi.Settlement) (c : Settlement) : Prop :=
  match s, c with
  | Ffi.Instant, Instant => True
  | Ffi.Seconds n, Seconds m | Ffi.Days n, Days m => n = m
  | _, _ => False
  end.
Definition same_quote (q : Ffi.Quote) (c : Quote) : Prop :=
  Ffi.q_rail_id q = q_rail_id c /\ Ffi.q_amount_minor q = q_amount_minor c /\ Ffi.q_currency q = q_currency c /\
  Ffi.q_fee_minor q = q_fee_minor c /\ Ffi.q_total_minor q = q_total_minor c /\
  same_settlement (Ffi.q_settlement q) (q_settlement c) /\ Ffi.q_expires_at_unix q = q_expires_at_unix c.
(** The same error: of the same kind, and of the same text but for that hint. *)
Definition same_error (e : PatalaError) (c : Error) : Prop :=
  match e, c with
  | PE_InvalidRequest m, InvalidRequest n | PE_Unsupported m, Unsupported n | PE_Rail m, Rail n => m = n
  | PE_CrossClassFailover _ _, CrossClassFailover _ _ | PE_AllRailsFailed, AllRailsFailed => True
  | _, _ => False
  end /\ error_display c = patala_error_display e +:+ dropped_hint c.
Lemma same_request_spec q c : same_request q c <-> request_to_core q = c.
Proof. destruct q, c. unfold same_request, request_to_core. cbn. split; [now intros (-> & -> & -> & ->) | now intros [= -> -> -> ->]]. Qed.
Lemma same_receipt_spec r c : same_receipt r c <-> receipt_from_core c = r.
Proof.
  destruct r, c. unfold same_receipt, receipt_from_core. cbn.
  split; [now intros (-> & -> & -> & -> & -> & ->) | now intros [= -> -> -> -> -> ->]].
Qed.
Lemma same_settlement_spec s c : same_settlement s c <-> settlement_from_core c = s.
Proof. destruct s, c; cbn; split; try done; congruence. Qed.
Lemma same_quote_spec q c : same_quote q c <-> quote_from_core c = q.
Proof.
  destruct q, c. unfold same_quote, quote_from_core. cbn. rewrite same_settlement_spec.
  split; [now intros (-> & -> & -> & -> & -> & -> & ->) | now intros [= -> -> -> -> -> <- ->]].
Qed.
Lemma same_error_spec e c : same_error e c <-> error_from_core c = e.
Proof.
  split.
  - intros [Hm Ht]. destruct e as [|? | |x y|], c as [| | |x' y'|]; try done; cbn in *; try congruence.
    destruct x, y, x', y'; done.
  - intros <-. split; [destruct c; reflexivity || exact I | apply error_display_crosses].
Qed.
(** A crossing answers what the rail answers, in the values of the bindings. *)
Lemma crossing_same {W A B} (f : A -> B) (same : B -> A -> Prop) (m : Eff W Error A) (w w' : W) :
  (forall b a, same b a <-> f a = b) ->
  (forall b, crossing f m w = (Ok b, w') <-> exists a, same b a /\ m w = (Ok a, w')) /\
  (forall e, crossing f m w = (Err e, w') <-> exists c, same_error e c /\ m w = (Err c, w')).
Proof.
  intros Hsame. split; intros x; rewrite crossing_spec; split.
  - intros ([a|e] & Hm & E); [|done]. injection E as ->. exists a. now rewrite Hsame.
  - intros (a & <-%Hsame & Hm). now exists (Ok a).
  - intros ([a|c] & Hm & E); [done|]. injection E as ->. exists c. now rewrite same_error_spec.
  - intros (c & <-%same_error_spec & Hm). now exists (Err c).
Qed.

(** C26: nothing is lost or mixed up at the binding's boundary. Whatever rail an
    object wraps, its quote and its charge of a request are the rail's quote and
    charge of the same amount, currency, destination and reference: the same effect,
    and field by field the same answer or the same kind of error with the same text,
    but for one remediation hint. And [verify] of a receipt is the rail's [verify] of
    the receipt with the same six fields, such as the one the rail issued. *)
Theorem uniffi_transparent {W} (p : PatalaRail W) (w w' : W) :
  (forall q c, same_request q c ->
     (forall qt, ffi_quote p q w = (Ok qt, w') <-> exists a, same_quote qt a /\ quote (inner p) c w = (Ok a, w')) /\
     (forall rc, ffi_charge p q w = (Ok rc, w') <-> exists a, same_receipt rc a /\ charge (inner p) c w = (Ok a, w')) /\
     (forall e, ffi_quote p q w = (Err e, w') <-> exists d, same_error e d /\ quote (inner p) c w = (Err d, w')) /\
     (forall e, ffi_charge p q w = (Err e, w') <-> exists d, same_error e d /\ charge (inner p) c w = (Err d, w'))) /\
  (forall rc a, same_receipt rc a ->
     (forall b, ffi_verify p rc w = (Ok b, w') <-> verify (inner p) a w = (Ok b, w')) /\
     (forall e, ffi_verify p rc w = (Err e, w') <-> exists d, same_error e d /\ verify (inner p) a w = (Err d, w'))).
Proof.
  split.
  - intros q c <-%same_request_spec.
    destruct (crossing_same quote_from_core same_quote (quote (inner p) (request_to_core q)) w w' same_quote_spec).
    destruct (crossing_same receipt_from_core same_receipt (charge (inner p) (request_to_core q)) w w' same_receipt_spec).
    done.
  - intros rc a <-%same_receipt_spec. unfold ffi_verify. split; intros x; rewrite map_err_effect, receipt_roundtrip; split.
    + intros ([y|y] & Hv & E); cbn in E; congruence.
    + intros Hv. now exists (Ok x).
    + intros ([y|y] & Hv & E); [done|]. injection E as ->. exists y. now rewrite same_error_spec.
    + intros (d & <-%same_error_spec & Hv). now exists (Err d).
Qed.

(** A charge of 500 for order-1 through the binding of a mock rail; its receipt, come
    back, verifies. *)
#[local] Existing Instances ref_blake3.
Lemma uniffi_transparent_witness :
  let p := Build_PatalaRail (mock_rail demo_mock) in
  let q := {| Ffi.amount_minor := 500; Ffi.currency := "USDC"; Ffi.destination := "mock:wallet:alice";
              Ffi.reference := "order-1" |} in
  exists rc, ffi_charge p q 7 = (Ok rc, 8) /\ Ffi.r_reference rc = "order-1"%string /\ Ffi.r_amount_minor rc = 500 /\
    ffi_verify p rc 100 = (Ok true, 100).
Proof.
  set (p := Build_PatalaRail (mock_rail demo_mock)). cbv zeta.
  assert (exists a, charge (inner p) demo_req 7 = (Ok a, 8) /\ reference a = "order-1"%string /\ amount_minor a = 500 /\
    verify (inner p) a 100 = (Ok true, 100)) as (a & Ha & Href & Ham & Hv).
  { destruct (mock_charge_verify demo_mock demo_req 7) as (a & ? & ? & ? & ? & ? & ? & Hv);
      [vm_compute; reflexivity | reflexivity | vm_compute; reflexivity |]. exists a. split_and!; assumption || apply Hv. }
  exists (receipt_from_core a). split; [|split; [exact Href | split; [exact Ham|]]].
  - eapply (uniffi_transparent p 7 8); [|exists a; split; [repeat split | exact Ha]]. repeat split.
  - eapply (uniffi_transparent p 100 100); [|exact Hv]. repeat split.
Defined.
