(* ===== verification/Providers.v ===== *)
(** * The fiat providers by name ([patala-uniffi/src/fiat.rs])

    One constructor for all of [patala-fiat]'s rails: a provider name and a flat
    map of strings. Each [build_<name>] reads its provider's configuration and
    calls that adapter's own [new]. The theorems are about every rail the
    constructor can answer: the adapters' instances of the seam's interfaces,
    gathered.

    The rails run in the world of the manual rail's records and of a network;
    [http] builds every adapter's client, or cannot; [compiled] says which cargo
    features the build has. *)

From stdpp Require Import sorting.
From S2P Require Import Prelude RustStr Core External Currency HttpShared FiatDest Json Adapter Orders UrlForm Float Manual Registry Uniffi.
From S2P Require Stripe Paystack Adyen BTCPay CheckoutCom CoinbaseCommerce Flutterwave Iyzico LNbits MercadoPago Midtrans Mollie OpenNode PayFast PayPal PayU Razorpay Square Xendit Yoco.

(** ** Reading a configuration *)

Definition Config : Type := gmap str str.
Definition get_string (config : Config) (key : str) : str := default EmptyString (config !! key).
(** [.map(trim).filter(non-empty)] *)
Definition get_optional_string (config : Config) (key : str) : option str :=
  s ← config !! key; if is_empty (trim s) then None else Some (trim s).
Definition get_string_or (config : Config) (key dflt : str) : str := default dflt (get_optional_string config key).
Definition get_bool (config : Config) (key : str) (dflt : bool) : bool :=
  default dflt ((fun s => eq_ignore_ascii_case s "true") <$> config !! key).
Definition get_currencies (config : Config) (key : str) (dflt : list str) : list str :=
  match config !! key with
  | Some s => if is_blank s then dflt else currency_list s
  | None => dflt
  end.
(** A number, or the default where the key is missing or blank. *)
Definition get_number (config : Config) (key : str) (max dflt : Z) (refused : PatalaError) : Result PatalaError Z :=
  match config !! key with
  | None => Ok dflt
  | Some s => if is_blank s then Ok dflt else ok_or refused (parse_unsigned max (trim s))
  end.
Definition get_u8 (config : Config) (key : str) (dflt : Z) (provider : str) : Result PatalaError Z :=
  get_number config key u8_max dflt
    (PE_InvalidRequest (provider +:+ ": " +:+ debug_str key +:+ " must be an integer between 0 and 255")).
Definition not_a_number (provider key : str) : PatalaError :=
  PE_InvalidRequest (provider +:+ ": " +:+ debug_str key +:+ " must be a non-negative integer").
Definition get_u64 (config : Config) (key : str) (dflt : Z) (provider : str) : Result PatalaError Z :=
  get_number config key u64_max dflt (not_a_number provider key).
Definition get_optional_u32 (config : Config) (key provider : str) : Result PatalaError (option Z) :=
  match config !! key with
  | None => Ok None
  | Some s =>
      if is_blank s then Ok None
      else n ← ok_or (not_a_number provider key) (parse_unsigned u32_max (trim s)); Ok (Some n)
  end.
Definition get_quote_ttl (config : Config) : Result PatalaError Z :=
  get_number config "quote_ttl_secs" u64_max LNbits.DEFAULT_QUOTE_TTL_SECS
    (PE_InvalidRequest ("lnbits: " +:+ debug_str "quote_ttl_secs" +:+ " must be a positive integer number of seconds")).
Definition paypal_base (config : Config) : Result PatalaError str :=
  let env := to_ascii_lowercase (trim (get_string config "env")) in
  return_if String.eqb env "live" with_ Ok PayPal.LIVE_BASE_URL;
  return_if String.eqb env "sandbox" with_ Ok PayPal.SANDBOX_BASE_URL;
  Err (PE_InvalidRequest ("paypal: config key " +:+ debug_str "env" +:+ " must be exactly " +:+ debug_str "live"
    +:+ " or " +:+ debug_str "sandbox" +:+ ", got " +:+ debug_str env)).
Definition not_compiled_in (provider feature : str) : PatalaError := PE_InvalidRequest
  ("patala-uniffi was built without --features " +:+ feature +:+ "; the " +:+ debug_str provider
   +:+ " fiat rail is not available in this build").

(** ** The providers *)

Section Providers.
Context {C : Type} `{Clock C}.
Abbreviation W := (gmap str ManualRecord * C)%type.
Context `{NanoClock : !Iyzico.NanoClock W} (http : HttpBuilder W) (compiled : str -> bool).
Context `{Hex} (base64_decode : str -> Result str (list byte)) (sha256_mac sha512_mac : Mac)
  (sha512 md5 : list byte -> list byte) (manual_proof : str -> list byte)
  (panicked : Eff W Error Iyzico.IyzicoWebhookOutcome).
Definition base64_read (s : str) : option (list byte) := result_ok (base64_decode s).
Context `{!Stripe.StripeJson} `{!ProofBytes Stripe.ChargeProof} `{!ProofBytes Stripe.RefundProof}.
Context `{!Paystack.PaystackJson} `{!ProofBytes Paystack.ChargeProof}.
Context `{!Adyen.AdyenJson} `{!ProofBytes Adyen.ChargeProof} `{!ProofBytes Adyen.RefundProof}.
Context `{!BTCPay.BTCPayJson} `{!ProofBytes BTCPay.ChargeProof}.
Context `{!CheckoutCom.CheckoutJson} `{!ProofBytes CheckoutCom.ChargeProof} `{!ProofBytes CheckoutCom.RefundProof}.
Context `{!CoinbaseCommerce.CoinbaseJson} `{!ProofBytes CoinbaseCommerce.ChargeProof}.
Context `{!Flutterwave.FlutterwaveJson} `{!ProofBytes Flutterwave.ChargeProof}.
Context `{!Iyzico.IyzicoJson} `{!ProofBytes Iyzico.ChargeProof}.
Context `{!F64Text} `{!LNbits.LNbitsJson} `{!ProofBytes LNbits.ChargeProof}.
Context `{!MercadoPago.MercadoPagoJson} `{!ProofBytes MercadoPago.ChargeProof}.
Context `{!Midtrans.MidtransJson} `{!ProofBytes Midtrans.ChargeProof}.
Context `{!Mollie.MollieJson} `{!ProofBytes Mollie.ChargeProof} `{!ProofBytes Mollie.RefundProof}.
Context `{!OpenNode.OpenNodeJson} `{!ProofBytes OpenNode.ChargeProof}.
Context `{!ProofBytes PayFast.ChargeProof}.
Context `{!PayPal.PayPalJson} `{!ProofBytes PayPal.ChargeProof} `{!ProofBytes PayPal.RefundProof}.
Context `{!PayU.PayUJson} `{!ProofBytes PayU.ChargeProof}.
Context `{!Razorpay.RazorpayJson} `{!ProofBytes Razorpay.ChargeProof}.
Context `{!Square.SquareJson} `{!ProofBytes Square.ChargeProof}.
Context `{!Xendit.XenditJson} `{!ProofBytes Xendit.ChargeProof}.
Context `{!Yoco.YocoJson} `{!ProofBytes Yoco.ChargeProof}.

Definition build_stripe (config : Config) : Result PatalaError (PaymentRail W) :=
  days ← get_u8 config "settlement_days" 2 "stripe";
  timeout ← get_u64 config "timeout_secs" 15 "stripe";
  let cfg := {|
    Stripe.secret_key := get_string config "secret_key";
    Stripe.webhook_secret := get_string config "webhook_secret";
    Stripe.st_requires_kyc := get_bool config "requires_kyc" true;
    Stripe.st_currencies := get_currencies config "currencies" []; Stripe.settlement_days := days;
    Stripe.timeout_secs := timeout |} in
  rail ← map_err error_from_core (Stripe.stripe_new cfg http);
  Ok (Stripe.stripe_rail sha256_mac rail).
Definition build_paystack (config : Config) : Result PatalaError (PaymentRail W) :=
  days ← get_u8 config "settlement_days" 2 "paystack";
  timeout ← get_u64 config "timeout_secs" 15 "paystack";
  let cfg := {|
    Paystack.secret_key := get_string config "secret_key";
    Paystack.ps_requires_kyc := get_bool config "requires_kyc" true;
    Paystack.ps_currencies := get_currencies config "currencies" Paystack.DEFAULT_CURRENCIES;
    Paystack.ps_settlement_days := days; Paystack.ps_timeout_secs := timeout |} in
  rail ← map_err error_from_core (Paystack.paystack_new cfg http);
  Ok (Paystack.paystack_rail sha512_mac rail).
Definition build_adyen (config : Config) : Result PatalaError (PaymentRail W) :=
  days ← get_u8 config "settlement_days" 2 "adyen";
  timeout ← get_u64 config "timeout_secs" 15 "adyen";
  let cfg := {|
    Adyen.cfg_api_key := get_string config "api_key";
    Adyen.cfg_merchant_account := get_string config "merchant_account";
    Adyen.hmac_key_hex := get_string config "hmac_key_hex";
    Adyen.api_base_url := get_string config "api_base_url";
    Adyen.ad_requires_kyc := get_bool config "requires_kyc" true;
    Adyen.ad_currencies := get_currencies config "currencies" []; Adyen.ad_settlement_days := days;
    Adyen.ad_timeout_secs := timeout |} in
  rail ← map_err error_from_core (Adyen.adyen_new cfg http);
  Ok (Adyen.adyen_rail base64_read sha256_mac rail).
Definition build_btcpay (config : Config) : Result PatalaError (PaymentRail W) :=
  secs ← get_optional_u32 config "settlement_seconds" "btcpay";
  timeout ← get_u64 config "timeout_secs" 20 "btcpay";
  let cfg := {|
    BTCPay.base_url := get_string config "base_url"; BTCPay.api_key := get_string config "api_key";
    BTCPay.store_id := get_string config "store_id";
    BTCPay.webhook_secret := get_string config "webhook_secret";
    BTCPay.bt_requires_kyc := get_bool config "requires_kyc" false;
    BTCPay.bt_currencies := get_currencies config "currencies" []; BTCPay.settlement_seconds := secs;
    BTCPay.bt_timeout_secs := timeout |} in
  rail ← map_err error_from_core (BTCPay.btcpay_new cfg http);
  Ok (BTCPay.btcpay_rail sha256_mac rail).
Definition build_checkoutcom (config : Config) : Result PatalaError (PaymentRail W) :=
  days ← get_u8 config "settlement_days" 2 "checkoutcom";
  timeout ← get_u64 config "timeout_secs" 15 "checkoutcom";
  let cfg := {|
    CheckoutCom.secret_key := get_string config "secret_key";
    CheckoutCom.webhook_secret := get_string config "webhook_secret";
    CheckoutCom.api_base_url := get_string config "api_base_url";
    CheckoutCom.co_requires_kyc := get_bool config "requires_kyc" true;
    CheckoutCom.co_currencies := get_currencies config "currencies" [];
    CheckoutCom.co_settlement_days := days; CheckoutCom.co_timeout_secs := timeout |} in
  rail ← map_err error_from_core (CheckoutCom.checkout_new cfg http);
  Ok (CheckoutCom.checkout_rail sha256_mac rail).
Definition build_coinbasecommerce (config : Config) : Result PatalaError (PaymentRail W) :=
  timeout ← get_u64 config "timeout_secs" 20 "coinbasecommerce";
  let cfg := {|
    CoinbaseCommerce.api_key := get_string config "api_key";
    CoinbaseCommerce.webhook_secret := get_string config "webhook_secret";
    CoinbaseCommerce.base_url := get_string_or config "base_url" CoinbaseCommerce.DEFAULT_BASE_URL;
    CoinbaseCommerce.cc_requires_kyc := get_bool config "requires_kyc" false;
    CoinbaseCommerce.cc_currencies := get_currencies config "currencies" [];
    CoinbaseCommerce.cc_timeout_secs := timeout |} in
  rail ← map_err error_from_core (CoinbaseCommerce.coinbase_new cfg http);
  Ok (CoinbaseCommerce.coinbase_rail sha256_mac rail).
Definition build_flutterwave (config : Config) : Result PatalaError (PaymentRail W) :=
  days ← get_u8 config "settlement_days" 2 "flutterwave";
  timeout ← get_u64 config "timeout_secs" 15 "flutterwave";
  let cfg := {|
    Flutterwave.secret_key := get_string config "secret_key";
    Flutterwave.webhook_hash := get_string config "webhook_hash";
    Flutterwave.fw_requires_kyc := get_bool config "requires_kyc" true;
    Flutterwave.fw_currencies := get_currencies config "currencies" Flutterwave.DEFAULT_CURRENCIES;
    Flutterwave.fw_settlement_days := days; Flutterwave.fw_timeout_secs := timeout |} in
  rail ← map_err error_from_core (Flutterwave.flutterwave_new cfg http);
  Ok (Flutterwave.flutterwave_rail rail).
Definition build_iyzico (config : Config) : Result PatalaError (PaymentRail W) :=
  days ← get_u8 config "settlement_days" 2 "iyzico";
  timeout ← get_u64 config "timeout_secs" 15 "iyzico";
  let cfg := {|
    Iyzico.api_key := get_string config "api_key"; Iyzico.secret_key := get_string config "secret_key";
    Iyzico.base_url := get_string_or config "base_url" Iyzico.PRODUCTION_BASE_URL;
    Iyzico.iz_requires_kyc := get_bool config "requires_kyc" true;
    Iyzico.iz_currencies := get_currencies config "currencies" Iyzico.DEFAULT_CURRENCIES;
    Iyzico.iz_settlement_days := days; Iyzico.iz_timeout_secs := timeout |} in
  rail ← map_err error_from_core (Iyzico.iyzico_new cfg http);
  Ok (Iyzico.iyzico_rail panicked rail).
Definition build_lnbits (config : Config) : Result PatalaError (PaymentRail W) :=
  ttl ← get_quote_ttl config;
  timeout ← get_u64 config "timeout_secs" 20 "lnbits";
  let cfg := {|
    LNbits.base_url := get_string config "base_url"; LNbits.api_key := get_string config "api_key";
    LNbits.webhook_secret := get_string config "webhook_secret";
    LNbits.webhook_url := get_optional_string config "webhook_url"; LNbits.quote_ttl_secs := ttl;
    LNbits.ln_requires_kyc := get_bool config "requires_kyc" false;
    LNbits.ln_currencies := get_currencies config "currencies" []; LNbits.ln_timeout_secs := timeout |} in
  rail ← map_err error_from_core (LNbits.lnbits_new cfg http);
  Ok (LNbits.lnbits_rail rail).
Definition build_mercadopago (config : Config) : Result PatalaError (PaymentRail W) :=
  days ← get_u8 config "settlement_days" 2 "mercadopago";
  timeout ← get_u64 config "timeout_secs" 15 "mercadopago";
  let cfg := {|
    MercadoPago.access_token := get_string config "access_token";
    MercadoPago.webhook_secret := get_string config "webhook_secret";
    MercadoPago.mp_requires_kyc := get_bool config "requires_kyc" true;
    MercadoPago.mp_currencies := get_currencies config "currencies" MercadoPago.DEFAULT_CURRENCIES;
    MercadoPago.mp_settlement_days := days; MercadoPago.mp_timeout_secs := timeout |} in
  rail ← map_err error_from_core (MercadoPago.mercadopago_new cfg http);
  Ok (MercadoPago.mercadopago_rail sha256_mac rail).
Definition build_midtrans (config : Config) : Result PatalaError (PaymentRail W) :=
  days ← get_u8 config "settlement_days" 2 "midtrans";
  timeout ← get_u64 config "timeout_secs" 15 "midtrans";
  let cfg := {|
    Midtrans.server_key := get_string config "server_key";
    Midtrans.md_requires_kyc := get_bool config "requires_kyc" true; Midtrans.md_settlement_days := days;
    Midtrans.md_timeout_secs := timeout |} in
  rail ← map_err error_from_core (Midtrans.midtrans_new cfg http);
  Ok (Midtrans.midtrans_rail sha512 rail).
Definition build_mollie (config : Config) : Result PatalaError (PaymentRail W) :=
  days ← get_u8 config "settlement_days" 2 "mollie";
  timeout ← get_u64 config "timeout_secs" 15 "mollie";
  let cfg := {|
    Mollie.api_key := get_string config "api_key"; Mollie.webhook_url := get_string config "webhook_url";
    Mollie.mo_requires_kyc := get_bool config "requires_kyc" true;
    Mollie.mo_currencies := get_currencies config "currencies" []; Mollie.mo_settlement_days := days;
    Mollie.mo_timeout_secs := timeout |} in
  rail ← map_err error_from_core (Mollie.mollie_new cfg http);
  Ok (Mollie.mollie_rail rail).
Definition build_opennode (config : Config) : Result PatalaError (PaymentRail W) :=
  timeout ← get_u64 config "timeout_secs" 20 "opennode";
  let cfg := {|
    OpenNode.api_key := get_string config "api_key";
    OpenNode.base_url := get_string_or config "base_url" OpenNode.DEFAULT_BASE_URL;
    OpenNode.on_requires_kyc := get_bool config "requires_kyc" false;
    OpenNode.on_currencies := get_currencies config "currencies" []; OpenNode.on_timeout_secs := timeout |} in
  rail ← map_err error_from_core (OpenNode.opennode_new cfg http);
  Ok (OpenNode.opennode_rail sha256_mac rail).
Definition build_payfast (config : Config) : Result PatalaError (PaymentRail W) :=
  days ← get_u8 config "settlement_days" 2 "payfast";
  timeout ← get_u64 config "timeout_secs" 15 "payfast";
  let cfg := {|
    PayFast.merchant_id := get_string config "merchant_id";
    PayFast.merchant_key := get_string config "merchant_key";
    PayFast.passphrase := get_string config "passphrase";
    PayFast.pf_requires_kyc := get_bool config "requires_kyc" true; PayFast.pf_settlement_days := days;
    PayFast.pf_timeout_secs := timeout |} in
  rail ← map_err error_from_core (PayFast.payfast_new cfg http);
  Ok (PayFast.payfast_rail md5 rail).
Definition build_paypal (config : Config) : Result PatalaError (PaymentRail W) :=
  base ← paypal_base config;
  days ← get_u8 config "settlement_days" 2 "paypal";
  timeout ← get_u64 config "timeout_secs" 15 "paypal";
  let cfg := {|
    PayPal.client_id := get_string config "client_id";
    PayPal.client_secret := get_string config "client_secret";
    PayPal.webhook_id := get_string config "webhook_id"; PayPal.pp_config_base_url := base;
    PayPal.pp_requires_kyc := get_bool config "requires_kyc" true;
    PayPal.pp_currencies := get_currencies config "currencies" []; PayPal.pp_settlement_days := days;
    PayPal.pp_timeout_secs := timeout |} in
  rail ← map_err error_from_core (PayPal.paypal_new cfg http);
  Ok (PayPal.paypal_rail rail).
Definition build_payu (config : Config) : Result PatalaError (PaymentRail W) :=
  days ← get_u8 config "settlement_days" 2 "payu";
  timeout ← get_u64 config "timeout_secs" 15 "payu";
  let cfg := {|
    PayU.merchant_key := get_string config "merchant_key"; PayU.salt := get_string config "salt";
    PayU.pu_requires_kyc := get_bool config "requires_kyc" true; PayU.pu_settlement_days := days;
    PayU.pu_timeout_secs := timeout |} in
  rail ← map_err error_from_core (PayU.payu_new cfg http);
  Ok (PayU.payu_rail sha512 rail).
Definition build_razorpay (config : Config) : Result PatalaError (PaymentRail W) :=
  days ← get_u8 config "settlement_days" 2 "razorpay";
  timeout ← get_u64 config "timeout_secs" 15 "razorpay";
  let cfg := {|
    Razorpay.key_id := get_string config "key_id"; Razorpay.key_secret := get_string config "key_secret";
    Razorpay.webhook_secret := get_string config "webhook_secret";
    Razorpay.rp_requires_kyc := get_bool config "requires_kyc" true; Razorpay.rp_settlement_days := days;
    Razorpay.rp_timeout_secs := timeout |} in
  rail ← map_err error_from_core (Razorpay.razorpay_new cfg http);
  Ok (Razorpay.razorpay_rail sha256_mac rail).
Definition build_square (config : Config) : Result PatalaError (PaymentRail W) :=
  days ← get_u8 config "settlement_days" 2 "square";
  timeout ← get_u64 config "timeout_secs" 15 "square";
  let cfg := {|
    Square.access_token := get_string config "access_token";
    Square.webhook_signature_key := get_string config "webhook_signature_key";
    Square.location_id := get_string config "location_id";
    Square.notification_url := get_string config "notification_url";
    Square.api_base_url := get_string config "api_base_url";
    Square.sq_requires_kyc := get_bool config "requires_kyc" true;
    Square.sq_currencies := get_currencies config "currencies" []; Square.sq_settlement_days := days;
    Square.sq_timeout_secs := timeout |} in
  rail ← map_err error_from_core (Square.square_new cfg http);
  Ok (Square.square_rail base64_read sha256_mac rail).
Definition build_xendit (config : Config) : Result PatalaError (PaymentRail W) :=
  days ← get_u8 config "settlement_days" 2 "xendit";
  timeout ← get_u64 config "timeout_secs" 15 "xendit";
  let cfg := {|
    Xendit.secret_key := get_string config "secret_key";
    Xendit.webhook_token := get_string config "webhook_token";
    Xendit.xd_requires_kyc := get_bool config "requires_kyc" true;
    Xendit.xd_currencies := get_currencies config "currencies" Xendit.DEFAULT_CURRENCIES;
    Xendit.xd_settlement_days := days; Xendit.xd_timeout_secs := timeout |} in
  rail ← map_err error_from_core (Xendit.xendit_new cfg http);
  Ok (Xendit.xendit_rail rail).
Definition build_yoco (config : Config) : Result PatalaError (PaymentRail W) :=
  days ← get_u8 config "settlement_days" 2 "yoco";
  timeout ← get_u64 config "timeout_secs" 15 "yoco";
  let cfg := {|
    Yoco.secret_key := get_string config "secret_key";
    Yoco.webhook_secret := get_string config "webhook_secret";
    Yoco.yc_requires_kyc := get_bool config "requires_kyc" true; Yoco.yc_settlement_days := days;
    Yoco.yc_timeout_secs := timeout |} in
  rail ← map_err error_from_core (Yoco.yoco_new base64_decode cfg http);
  Ok (Yoco.yoco_rail base64_decode sha256_mac rail).

Definition build_manual : Result PatalaError (PaymentRail W) := Ok (manual_rail manual_proof (manual_new None)).

(** Every name with the feature its adapter is compiled under, and its builder. *)
Definition FIAT_PROVIDERS : list (str * (Config -> Result PatalaError (PaymentRail W))) := [
  ("stripe"%string, build_stripe);
  ("paystack"%string, build_paystack);
  ("adyen"%string, build_adyen);
  ("btcpay"%string, build_btcpay);
  ("checkoutcom"%string, build_checkoutcom);
  ("coinbasecommerce"%string, build_coinbasecommerce);
  ("flutterwave"%string, build_flutterwave);
  ("iyzico"%string, build_iyzico);
  ("lnbits"%string, build_lnbits);
  ("mercadopago"%string, build_mercadopago);
  ("midtrans"%string, build_midtrans);
  ("mollie"%string, build_mollie);
  ("opennode"%string, build_opennode);
  ("payfast"%string, build_payfast);
  ("paypal"%string, build_paypal);
  ("payu"%string, build_payu);
  ("razorpay"%string, build_razorpay);
  ("square"%string, build_square);
  ("xendit"%string, build_xendit);
  ("yoco"%string, build_yoco)].
Definition feature_of (provider : str) : str := "fiat-" +:+ provider.
Definition gated (provider : str) (build : Config -> Result PatalaError (PaymentRail W)) (config : Config)
    : Result PatalaError (PaymentRail W) :=
  if compiled (feature_of provider) then build config else Err (not_compiled_in provider (feature_of provider)).
Definition find_provider (name : str) : option (str * (Config -> Result PatalaError (PaymentRail W))) :=
  find (fun nb => String.eqb nb.1 name) FIAT_PROVIDERS.
Definition unknown_provider (name : str) : PatalaError := PE_InvalidRequest
  ("unknown fiat provider " +:+ debug_str name
   +:+ "; see patala-fiat's registry (PORTING.md) for the supported list").
Definition new_fiat (provider : str) (config : Config) : Result PatalaError (PatalaRail W) :=
  let name := to_ascii_lowercase provider in
  rail ← (return_if String.eqb name "manual" with_ build_manual;
          match find_provider name with
          | Some (p, build) => gated p build config
          | None => Err (unknown_provider name)
          end);
  Ok (Build_PatalaRail rail).
Definition patala_fiat_providers : list str :=
  merge_sort str_le ("manual"%string :: List.filter (fun p => compiled (feature_of p)) (map fst FIAT_PROVIDERS)).

(** ** What can be built

    The rails the constructor answers, each with the [new] that made it. *)

Inductive fiat_rail : str -> PaymentRail W -> Prop :=
  | is_stripe c r : Stripe.stripe_new c http = Ok r -> fiat_rail "stripe" (Stripe.stripe_rail sha256_mac r)
  | is_paystack c r : Paystack.paystack_new c http = Ok r -> fiat_rail "paystack" (Paystack.paystack_rail sha512_mac r)
  | is_adyen c r : Adyen.adyen_new c http = Ok r -> fiat_rail "adyen" (Adyen.adyen_rail base64_read sha256_mac r)
  | is_btcpay c r : BTCPay.btcpay_new c http = Ok r -> fiat_rail "btcpay" (BTCPay.btcpay_rail sha256_mac r)
  | is_checkoutcom c r : CheckoutCom.checkout_new c http = Ok r -> fiat_rail "checkoutcom" (CheckoutCom.checkout_rail sha256_mac r)
  | is_coinbasecommerce c r : CoinbaseCommerce.coinbase_new c http = Ok r -> fiat_rail "coinbasecommerce" (CoinbaseCommerce.coinbase_rail sha256_mac r)
  | is_flutterwave c r : Flutterwave.flutterwave_new c http = Ok r -> fiat_rail "flutterwave" (Flutterwave.flutterwave_rail r)
  | is_iyzico c r : Iyzico.iyzico_new c http = Ok r -> fiat_rail "iyzico" (Iyzico.iyzico_rail panicked r)
  | is_lnbits c r : LNbits.lnbits_new c http = Ok r -> fiat_rail "lnbits" (LNbits.lnbits_rail r)
  | is_mercadopago c r : MercadoPago.mercadopago_new c http = Ok r -> fiat_rail "mercadopago" (MercadoPago.mercadopago_rail sha256_mac r)
  | is_midtrans c r : Midtrans.midtrans_new c http = Ok r -> fiat_rail "midtrans" (Midtrans.midtrans_rail sha512 r)
  | is_mollie c r : Mollie.mollie_new c http = Ok r -> fiat_rail "mollie" (Mollie.mollie_rail r)
  | is_opennode c r : OpenNode.opennode_new c http = Ok r -> fiat_rail "opennode" (OpenNode.opennode_rail sha256_mac r)
  | is_payfast c r : PayFast.payfast_new c http = Ok r -> fiat_rail "payfast" (PayFast.payfast_rail md5 r)
  | is_paypal c r : PayPal.paypal_new c http = Ok r -> fiat_rail "paypal" (PayPal.paypal_rail r)
  | is_payu c r : PayU.payu_new c http = Ok r -> fiat_rail "payu" (PayU.payu_rail sha512 r)
  | is_razorpay c r : Razorpay.razorpay_new c http = Ok r -> fiat_rail "razorpay" (Razorpay.razorpay_rail sha256_mac r)
  | is_square c r : Square.square_new c http = Ok r -> fiat_rail "square" (Square.square_rail base64_read sha256_mac r)
  | is_xendit c r : Xendit.xendit_new c http = Ok r -> fiat_rail "xendit" (Xendit.xendit_rail r)
  | is_yoco c r : Yoco.yoco_new base64_decode c http = Ok r -> fiat_rail "yoco" (Yoco.yoco_rail base64_decode sha256_mac r)
  | is_manual m : fiat_rail "manual" (manual_rail manual_proof m).
Create HintDb provider.
Create HintDb provider_new.
Create HintDb provider_err.
#[local] Hint Unfold build_stripe build_paystack build_adyen build_btcpay build_checkoutcom build_coinbasecommerce build_flutterwave build_iyzico build_lnbits build_mercadopago build_midtrans build_mollie build_opennode build_payfast build_paypal build_payu build_razorpay build_square build_xendit build_yoco : provider.
#[local] Hint Unfold Stripe.stripe_new Paystack.paystack_new Adyen.adyen_new BTCPay.btcpay_new CheckoutCom.checkout_new CoinbaseCommerce.coinbase_new Flutterwave.flutterwave_new Iyzico.iyzico_new LNbits.lnbits_new MercadoPago.mercadopago_new Midtrans.midtrans_new Mollie.mollie_new OpenNode.opennode_new PayFast.payfast_new PayPal.paypal_new PayU.payu_new Razorpay.razorpay_new Square.square_new Xendit.xendit_new Yoco.yoco_new : provider_new.
Lemma find_provider_Some name p build : find_provider name = Some (p, build) -> p = name /\ In (name, build) FIAT_PROVIDERS.
Proof.
  unfold find_provider. intros [Hin E]%find_some. cbn [fst] in E. apply String.eqb_eq in E. now subst.
Qed.
(** A provider's builder answers one of its own rails. *)
Lemma provider_builds name build config R :
  In (name, build) FIAT_PROVIDERS -> build config = Ok R -> fiat_rail name R.
Proof.
  intros Hin Hb. unfold FIAT_PROVIDERS in Hin.
  repeat (destruct Hin as [E|Hin]; [injection E as <- <-; autounfold with provider in Hb; run_inv Hb; injection Hb as <-; econstructor; eassumption|]).
  destruct Hin.
Qed.
Lemma new_fiat_Ok provider config p :
  new_fiat provider config = Ok p ->
  fiat_rail (to_ascii_lowercase provider) (inner p) /\
  (to_ascii_lowercase provider = "manual"%string \/
   exists build, In (to_ascii_lowercase provider, build) FIAT_PROVIDERS /\ build config = Ok (inner p) /\
     compiled (feature_of (to_ascii_lowercase provider)) = true).
Proof.
  unfold new_fiat. intros Hn. apply result_bind_Ok in Hn as (R & HR & E). injection E as <-. cbn [inner].
  destruct (String.eqb_spec (to_ascii_lowercase provider) "manual") as [->|].
  - injection HR as <-. split; [constructor | now left].
  - destruct (find_provider _) as [[name build]|] eqn:Ef; [|done].
    apply find_provider_Some in Ef as [-> Hin]. unfold gated in HR.
    destruct (compiled _) eqn:Ec; [|done]. split; [now apply (provider_builds _ build config) | eauto].
Qed.

(** The guard every refund opens with. *)
Lemma refuses_foreign rid rc (k : Eff W Error Receipt) w : rail_id rc <> rid ->
  (if negb (String.eqb (rail_id rc) rid) then eff_err (other_rail rid rc) else k) w = (Err (other_rail rid rc), w).
Proof. intros Hne. now rewrite (proj2 (String.eqb_neq _ _) Hne). Qed.

(** What every capability claim of a built rail is. *)
Definition settlement_in_range (s : Settlement) : Prop :=
  match s with Instant => True | Seconds secs => 0 <= secs <= u32_max | Days days => 0 <= days <= u8_max end.
Record capabilities_honest (name : str) (R : PaymentRail W) : Prop := {
  ch_id : id R = name;
  ch_atomic : atomic_multi_party (capabilities R) = false;
  ch_final : class (capabilities R) = NonCustodialFinal <-> name = "btcpay"%string \/ name = "lnbits"%string;
  ch_custody : holds_funds (capabilities R) = true <->
    class (capabilities R) = CustodialReversible /\ name <> "manual"%string;
  ch_reversible : reversible (capabilities R) = true -> class (capabilities R) = CustodialReversible;
  ch_settlement : settlement_in_range (settlement (capabilities R));
}.
Lemma parse_unsigned_range hi s n : parse_unsigned hi s = Some n -> 0 <= n <= hi.
Proof. unfold parse_unsigned. destruct (parse_digits _); [|done]. cbn. intros [-> ?]%in_range_Some. done. Qed.
Lemma get_number_range config key max dflt refused n :
  0 <= dflt <= max -> get_number config key max dflt refused = Ok n -> 0 <= n <= max.
Proof.
  unfold get_number. intros Hd. destruct (config !! key) as [s|]; [|now intros [= <-]].
  destruct (is_blank s); [now intros [= <-]|]. intros Hn%ok_or_Ok. now apply parse_unsigned_range in Hn.
Qed.
Lemma get_u8_range config key dflt provider n :
  0 <= dflt <= u8_max -> get_u8 config key dflt provider = Ok n -> 0 <= n <= u8_max.
Proof. apply get_number_range. Qed.
Lemma get_optional_u32_range config key provider n :
  get_optional_u32 config key provider = Ok (Some n) -> 0 <= n <= u32_max.
Proof.
  unfold get_optional_u32. destruct (config !! key) as [s|]; [|done]. destruct (is_blank s); [done|].
  intros Hn. run_inv Hn. injection Hn as <-. now apply parse_unsigned_range in Hx.
Qed.
(** The settlement of a rail built with the days or the seconds just read. *)
Ltac settle :=
  lazymatch goal with
  | Hn : get_u8 _ _ _ _ = Ok ?d |- 0 <= ?d <= u8_max => refine (get_u8_range _ _ _ _ _ _ Hn); unfold u8_max; lia
  | Hn : get_optional_u32 _ _ _ = Ok ?o |- settlement_in_range match ?o with _ => _ end =>
      destruct o; [refine (get_optional_u32_range _ _ _ _ Hn) | exact I]
  end.
Lemma provider_capabilities name build config R :
  In (name, build) FIAT_PROVIDERS -> build config = Ok R -> capabilities_honest name R.
Proof.
  intros Hin Hb. unfold FIAT_PROVIDERS in Hin.
  repeat (destruct Hin as [E|Hin];
    [injection E as <- <-; autounfold with provider in Hb; run_inv Hb; injection Hb as <-;
     match goal with Hn : _ = Ok ?r |- capabilities_honest _ (_ ?r) => autounfold with provider_new in Hn; run_inv Hn; injection Hn as <- end;
     split; cbn; try tauto; try (intuition congruence); settle|]).
  destruct Hin.
Qed.

(** The configuration keys a provider cannot be built without. *)
Definition credential_keys (name : str) : list str :=
  default [] (assoc name [
    ("stripe", ["secret_key"; "webhook_secret"]);
    ("paystack", ["secret_key"]);
    ("adyen", ["api_key"; "merchant_account"; "hmac_key_hex"; "api_base_url"]);
    ("btcpay", ["base_url"; "api_key"; "store_id"; "webhook_secret"]);
    ("checkoutcom", ["secret_key"; "webhook_secret"; "api_base_url"]);
    ("coinbasecommerce", ["api_key"; "webhook_secret"]);
    ("flutterwave", ["secret_key"; "webhook_hash"]);
    ("iyzico", ["api_key"; "secret_key"]);
    ("lnbits", ["base_url"; "api_key"; "webhook_secret"]);
    ("mercadopago", ["access_token"; "webhook_secret"]);
    ("midtrans", ["server_key"]);
    ("mollie", ["api_key"; "webhook_url"]);
    ("opennode", ["api_key"]);
    ("payfast", ["merchant_id"; "merchant_key"]);
    ("paypal", ["client_id"; "client_secret"; "webhook_id"]);
    ("payu", ["merchant_key"; "salt"]);
    ("razorpay", ["key_id"; "key_secret"; "webhook_secret"]);
    ("square", ["access_token"; "webhook_signature_key"; "location_id"; "notification_url"; "api_base_url"]);
    ("xendit", ["secret_key"; "webhook_token"]);
    ("yoco", ["secret_key"; "webhook_secret"])]%string).

(** Every error of a computation satisfies [P]: closed under what the builders
    are made of. *)
Definition fails_with {E A} (P : E -> Prop) (r : Result E A) : Prop := forall e, r = Err e -> P e.
Lemma fails_Ok {E A} (P : E -> Prop) (a : A) : fails_with P (Ok a).
Proof. done. Qed.
Lemma fails_Err {E A} (P : E -> Prop) e : P e -> fails_with (A := A) P (Err e).
Proof. now intros HP ? [= <-]. Qed.
Lemma fails_bind {E A B} (P : E -> Prop) (m : Result E A) (k : A -> Result E B) :
  fails_with P m -> (forall a, m = Ok a -> fails_with P (k a)) -> fails_with P (m ≫= k).
Proof. intros Hm Hk. destruct m as [a|e]; [now apply Hk | intros e' [= <-]; now apply Hm]. Qed.
Lemma fails_map_err {E F A} (P : F -> Prop) (f : E -> F) (r : Result E A) :
  fails_with (fun e => P (f e)) r -> fails_with P (map_err f r).
Proof. intros Hr. destruct r; intros e' E'; [done | injection E' as <-; now apply Hr]. Qed.
Lemma fails_ok_or {E A} (P : E -> Prop) e (o : option A) : P e -> fails_with P (ok_or e o).
Proof. destruct o; [intros; apply fails_Ok | apply fails_Err]. Qed.
Lemma fails_required (P : Error -> Prop) field v : (forall m, P (InvalidRequest m)) -> fails_with P (required field v).
Proof. intros HP e. unfold required. destruct (is_blank v); [|done]. now intros [= <-]. Qed.
Lemma fails_built_client (P : Error -> Prop) name secs :
  (forall why, http secs = Err why -> P (client_unbuilt name why)) -> fails_with P (built_client name http secs).
Proof. intros HP e. unfold built_client. destruct (http secs) as [|why] eqn:E; [done|]. intros [= <-]. now apply HP. Qed.
(** What is refused: an invalid request, which the caller can act on; or, once every
    credential was found, the HTTP client that cannot be built. *)
Definition invalid_request (e : PatalaError) : Prop := exists m, e = PE_InvalidRequest m.
Definition credentials_present (name : str) (config : Config) : Prop :=
  Forall (fun k => is_blank (get_string config k) = false) (credential_keys name).
Definition client_refused (name : str) (config : Config) (e : PatalaError) : Prop :=
  credentials_present name config /\
  exists secs why, http secs = Err why /\ e = PE_Rail ("failed building " +:+ name +:+ " http client: " +:+ why).
Definition refusal (name : str) (config : Config) (e : PatalaError) : Prop :=
  invalid_request e \/ client_refused name config e.
(** Every credential of the provider was required on the way here. *)
Ltac credentials :=
  repeat match goal with Hq : required _ _ = Ok _ |- _ => apply required_Ok in Hq; cbn in Hq end;
  cbn; repeat (apply Forall_cons; split; [assumption|]); apply Forall_nil; exact I.
Ltac unbuilt := split; [credentials | do 2 eexists; split; [eassumption | reflexivity]].
Ltac fails := repeat (cbn beta zeta; lazymatch goal with
  | |- fails_with _ (required _ _) => apply fails_required; intros ?
  | |- fails_with _ (built_client _ _ _) => apply fails_built_client; intros ? ?
  | |- fails_with _ (_ ≫= _) => apply fails_bind; [|intros ? ?]
  | |- fails_with _ (map_err _ _) => apply fails_map_err
  | |- fails_with _ (ok_or _ _) => apply fails_ok_or
  | |- fails_with _ (match ?x with _ => _ end) => destruct x
  | |- fails_with _ (base64_decode _) => intros ? _
  | |- fails_with _ (Ok _) => apply fails_Ok
  | |- fails_with _ (Err _) => apply fails_Err
  | |- refusal _ _ _ => first [left; eexists; reflexivity | right; unbuilt]
  end).

#[local] Hint Unfold get_u8 get_u64 get_optional_u32 get_quote_ttl get_number not_a_number paypal_base
  Yoco.decode_webhook_secret : provider_err.
Lemma provider_errors name build config :
  In (name, build) FIAT_PROVIDERS -> fails_with (refusal name config) (build config).
Proof.
  intros Hin. unfold FIAT_PROVIDERS in Hin.
  repeat (destruct Hin as [E|Hin]; [injection E as <- <-; autounfold with provider provider_new provider_err; solve [fails]|]).
  destruct Hin.
Qed.

Lemma provider_required name build config R :
  In (name, build) FIAT_PROVIDERS -> build config = Ok R -> credentials_present name config.
Proof.
  intros Hin Hb. unfold FIAT_PROVIDERS in Hin.
  repeat (destruct Hin as [E|Hin];
    [injection E as <- <-; autounfold with provider in Hb; run_inv Hb;
     match goal with Hn : _ = Ok ?r, Hr : Ok (_ ?r) = Ok _ |- _ => autounfold with provider_new in Hn; run_inv Hn end;
     credentials|]).
  destruct Hin.
Qed.

(** ** What each rail's verify and webhook rest on *)

Definition EvidenceOf : Type := list byte -> str -> W -> Evidence -> W -> Prop.
Inductive fiat_evidence : PaymentRail W -> EvidenceOf -> Prop :=
  | ev_stripe r : fiat_evidence (Stripe.stripe_rail sha256_mac r) (Stripe.stripe_evidence r)
  | ev_paystack r : fiat_evidence (Paystack.paystack_rail sha512_mac r) (Paystack.paystack_evidence r)
  | ev_btcpay r : fiat_evidence (BTCPay.btcpay_rail sha256_mac r) (BTCPay.btcpay_evidence r)
  | ev_checkoutcom r : fiat_evidence (CheckoutCom.checkout_rail sha256_mac r) (CheckoutCom.checkout_evidence r)
  | ev_coinbasecommerce r : fiat_evidence (CoinbaseCommerce.coinbase_rail sha256_mac r) (CoinbaseCommerce.coinbase_evidence r)
  | ev_flutterwave r : fiat_evidence (Flutterwave.flutterwave_rail r) (Flutterwave.flutterwave_evidence r)
  | ev_iyzico r : fiat_evidence (Iyzico.iyzico_rail panicked r) (Iyzico.iyzico_evidence r)
  | ev_mercadopago r : fiat_evidence (MercadoPago.mercadopago_rail sha256_mac r) (MercadoPago.mercadopago_evidence r)
  | ev_midtrans r : fiat_evidence (Midtrans.midtrans_rail sha512 r) (Midtrans.midtrans_evidence r)
  | ev_mollie r : fiat_evidence (Mollie.mollie_rail r) (Mollie.mollie_evidence r)
  | ev_opennode r : fiat_evidence (OpenNode.opennode_rail sha256_mac r) (OpenNode.opennode_evidence r)
  | ev_paypal r : fiat_evidence (PayPal.paypal_rail r) (PayPal.paypal_evidence r)
  | ev_payu r : fiat_evidence (PayU.payu_rail sha512 r) (PayU.payu_evidence sha512 r)
  | ev_razorpay r : fiat_evidence (Razorpay.razorpay_rail sha256_mac r) (Razorpay.razorpay_evidence r)
  | ev_square r : fiat_evidence (Square.square_rail base64_read sha256_mac r) (Square.square_evidence r)
  | ev_xendit r : fiat_evidence (Xendit.xendit_rail r) (Xendit.xendit_evidence r)
  | ev_yoco r : fiat_evidence (Yoco.yoco_rail base64_decode sha256_mac r) (Yoco.yoco_evidence r).
Inductive fiat_authentic : PaymentRail W -> (WebhookDelivery -> W -> Prop) -> Prop :=
  | au_stripe r : fiat_authentic (Stripe.stripe_rail sha256_mac r) (Stripe.stripe_authentic sha256_mac r)
  | au_paystack r : fiat_authentic (Paystack.paystack_rail sha512_mac r) (Paystack.paystack_authentic sha512_mac r)
  | au_adyen r : fiat_authentic (Adyen.adyen_rail base64_read sha256_mac r) (Adyen.adyen_authentic base64_read sha256_mac r)
  | au_btcpay r : fiat_authentic (BTCPay.btcpay_rail sha256_mac r) (BTCPay.btcpay_authentic sha256_mac r)
  | au_checkoutcom r : fiat_authentic (CheckoutCom.checkout_rail sha256_mac r) (CheckoutCom.checkout_authentic sha256_mac r)
  | au_coinbasecommerce r : fiat_authentic (CoinbaseCommerce.coinbase_rail sha256_mac r) (CoinbaseCommerce.coinbase_authentic sha256_mac r)
  | au_flutterwave r : fiat_authentic (Flutterwave.flutterwave_rail r) (Flutterwave.flutterwave_authentic r)
  | au_lnbits r : fiat_authentic (LNbits.lnbits_rail r) (LNbits.lnbits_authentic r)
  | au_mercadopago r : fiat_authentic (MercadoPago.mercadopago_rail sha256_mac r) (MercadoPago.mercadopago_authentic sha256_mac r)
  | au_midtrans r : fiat_authentic (Midtrans.midtrans_rail sha512 r) (Midtrans.midtrans_authentic sha512 r)
  | au_opennode r : fiat_authentic (OpenNode.opennode_rail sha256_mac r) (OpenNode.opennode_authentic sha256_mac r)
  | au_payfast r : fiat_authentic (PayFast.payfast_rail md5 r) (PayFast.payfast_authentic md5 r)
  | au_paypal r : fiat_authentic (PayPal.paypal_rail r) (PayPal.paypal_authentic r)
  | au_payu r : fiat_authentic (PayU.payu_rail sha512 r) (PayU.payu_authentic sha512 r)
  | au_razorpay r : fiat_authentic (Razorpay.razorpay_rail sha256_mac r) (Razorpay.razorpay_authentic sha256_mac r)
  | au_square r : fiat_authentic (Square.square_rail base64_read sha256_mac r) (Square.square_authentic base64_read sha256_mac r)
  | au_xendit r : fiat_authentic (Xendit.xendit_rail r) (Xendit.xendit_authentic r)
  | au_yoco r : fiat_authentic (Yoco.yoco_rail base64_decode sha256_mac r) (Yoco.yoco_authentic base64_decode sha256_mac r).
(** What each rail's charge orders, and on what terms: how its processor reads an
    amount. *)
Definition OrderedBy : Type := Order -> Receipt -> W -> W -> Prop.
Inductive fiat_orders : PaymentRail W -> Terms -> OrderedBy -> Prop :=
  | or_stripe r : fiat_orders (Stripe.stripe_rail sha256_mac r) Stripe.stripe_terms (Stripe.stripe_ordered r)
  | or_paystack r : fiat_orders (Paystack.paystack_rail sha512_mac r) (exactly in_minor_units) (Paystack.paystack_ordered r)
  | or_adyen r : fiat_orders (Adyen.adyen_rail base64_read sha256_mac r) (exactly in_minor_units) (Adyen.adyen_ordered r)
  | or_btcpay r : fiat_orders (BTCPay.btcpay_rail sha256_mac r) (exactly in_major_units) (BTCPay.btcpay_ordered r)
  | or_checkoutcom r : fiat_orders (CheckoutCom.checkout_rail sha256_mac r) CheckoutCom.checkout_terms (CheckoutCom.checkout_ordered r)
  | or_coinbasecommerce r : fiat_orders (CoinbaseCommerce.coinbase_rail sha256_mac r) (exactly in_major_units) (CoinbaseCommerce.coinbase_ordered r)
  | or_flutterwave r : fiat_orders (Flutterwave.flutterwave_rail r) (exactly in_major_units) (Flutterwave.flutterwave_ordered r)
  | or_iyzico r : fiat_orders (Iyzico.iyzico_rail panicked r) (exactly in_major_units) (Iyzico.iyzico_ordered r)
  | or_lnbits r : fiat_orders (LNbits.lnbits_rail r) as_number (LNbits.lnbits_ordered r)
  | or_mercadopago r : fiat_orders (MercadoPago.mercadopago_rail sha256_mac r) as_number (MercadoPago.mercadopago_ordered r)
  | or_midtrans r : fiat_orders (Midtrans.midtrans_rail sha512 r) (exactly in_major_units) (Midtrans.midtrans_ordered r)
  | or_mollie r : fiat_orders (Mollie.mollie_rail r) (exactly in_major_units) (Mollie.mollie_ordered r)
  | or_opennode r : fiat_orders (OpenNode.opennode_rail sha256_mac r) as_number (OpenNode.opennode_ordered r)
  | or_payfast r : fiat_orders (PayFast.payfast_rail md5 r) (exactly in_major_units) (PayFast.payfast_ordered md5 r)
  | or_paypal r : fiat_orders (PayPal.paypal_rail r) PayPal.paypal_terms (PayPal.paypal_ordered r)
  | or_payu r : fiat_orders (PayU.payu_rail sha512 r) (exactly in_major_units) (PayU.payu_ordered r)
  | or_razorpay r : fiat_orders (Razorpay.razorpay_rail sha256_mac r) (exactly in_minor_units) (Razorpay.razorpay_ordered r)
  | or_square r : fiat_orders (Square.square_rail base64_read sha256_mac r) (exactly in_minor_units) (Square.square_ordered r)
  | or_xendit r : fiat_orders (Xendit.xendit_rail r) (exactly in_major_units) (Xendit.xendit_ordered r)
  | or_yoco r : fiat_orders (Yoco.yoco_rail base64_decode sha256_mac r) (exactly in_minor_units) (Yoco.yoco_ordered r).
(** What each rail's refund asks, of those that refund an amount. *)
Definition AskedBy : Type := str -> Receipt -> W -> W -> Prop.
Inductive fiat_refunds : PaymentRail W -> Terms -> AskedBy -> Prop :=
  | rf_paystack r : fiat_refunds (Paystack.paystack_rail sha512_mac r) (exactly in_minor_units) (Paystack.paystack_refunded r)
  | rf_adyen r : fiat_refunds (Adyen.adyen_rail base64_read sha256_mac r) (exactly in_minor_units) (Adyen.adyen_refunded r)
  | rf_checkoutcom r : fiat_refunds (CheckoutCom.checkout_rail sha256_mac r)
      CheckoutCom.checkout_terms (CheckoutCom.checkout_refunded r)
  | rf_mollie r : fiat_refunds (Mollie.mollie_rail r) (exactly in_major_units) (Mollie.mollie_refunded r)
  | rf_paypal r : fiat_refunds (PayPal.paypal_rail r) PayPal.paypal_terms (PayPal.paypal_refunded r)
  | rf_square r : fiat_refunds (Square.square_rail base64_read sha256_mac r) (exactly in_minor_units) (Square.square_refunded r).
Definition REFUNDING : list str := ["paystack"; "adyen"; "checkoutcom"; "mollie"; "paypal"; "square"]%string.
(** The currencies a rail is known to misprice, and the rails that send a number. *)
Definition misprices (name c : str) : bool :=
  (String.eqb name "stripe" && lists_currency ["MGA"%string] c) ||
  (String.eqb name "paypal" && (lists_currency ["HUF"; "TWD"]%string c ||
     lists_currency ["BIF"; "CLP"; "DJF"; "GNF"; "ISK"; "KMF"; "KRW"; "PYG"; "RWF"; "UGX"; "VND"; "VUV"; "XAF"; "XOF"; "XPF"]%string c ||
     lists_currency ["IQD"; "LYD"]%string c)).
Definition NUMBER_RAILS : list str := ["lnbits"; "opennode"; "mercadopago"]%string.
Definition terms_exact (name : str) (T : Terms) : Prop :=
  (forall c, misprices name c = false -> ratio T c = (1, 1)) /\
  (~ In name NUMBER_RAILS -> exact_below T = 2 ^ 64).
Lemma exactly_exact name p : terms_exact name (exactly p).
Proof. done. Qed.
Lemma as_number_exact name : In name NUMBER_RAILS -> terms_exact name as_number.
Proof. now split. Qed.
Lemma stripe_exact : terms_exact "stripe" Stripe.stripe_terms.
Proof.
  split; [|done]. intros c [Hm _]%orb_false_iff. change (lists_currency ["MGA"]%string c = false) in Hm.
  cbn [ratio Stripe.stripe_terms]. now rewrite Hm.
Qed.
Lemma paypal_exact : terms_exact "paypal" PayPal.paypal_terms.
Proof.
  split; [|done]. intros c [_ [[Hh Hz]%orb_false_iff Hi]%orb_false_iff]%orb_false_iff. cbn [ratio PayPal.paypal_terms]. now rewrite Hh, Hz, Hi.
Qed.
Ltac exact_terms := first [apply exactly_exact | apply as_number_exact; cbn; tauto | apply stripe_exact | apply paypal_exact].
(** Rails whose verify finds the payment by the proof alone, and those that
    find it by the reference. *)
Definition PROOF_ONLY : list str :=
  ["stripe"; "btcpay"; "checkoutcom"; "coinbasecommerce"; "iyzico"; "lnbits"; "mollie"; "opennode"; "razorpay"; "yoco"]%string.
Definition REFERENCE_COMPARED : list str := ["square"; "paypal"]%string.

(** What the adapters promise of their rails, gathered for the proofs below. *)
Create HintDb fiat_rails.
#[local] Hint Resolve Stripe.stripe_rail_laws BTCPay.btcpay_rail_laws CheckoutCom.checkout_rail_laws
  CoinbaseCommerce.coinbase_rail_laws Flutterwave.flutterwave_rail_laws Iyzico.iyzico_rail_laws LNbits.lnbits_rail_laws
  MercadoPago.mercadopago_rail_laws Midtrans.midtrans_rail_laws Mollie.mollie_rail_laws OpenNode.opennode_rail_laws
  PayPal.paypal_rail_laws PayU.payu_rail_laws Razorpay.razorpay_rail_laws Square.square_rail_laws
  Xendit.xendit_rail_laws Yoco.yoco_rail_laws BTCPay.btcpay_verifies CheckoutCom.checkout_verifies
  CoinbaseCommerce.coinbase_verifies Flutterwave.flutterwave_verifies Iyzico.iyzico_verifies
  MercadoPago.mercadopago_verifies Midtrans.midtrans_verifies Mollie.mollie_verifies OpenNode.opennode_verifies
  PayPal.paypal_verifies PayU.payu_verifies Paystack.paystack_verifies Razorpay.razorpay_verifies Square.square_verifies
  Stripe.stripe_verifies Xendit.xendit_verifies Yoco.yoco_verifies Adyen.adyen_webhook_answers
  BTCPay.btcpay_webhook_answers CheckoutCom.checkout_webhook_answers CoinbaseCommerce.coinbase_webhook_answers
  Flutterwave.flutterwave_webhook_answers LNbits.lnbits_webhook_answers MercadoPago.mercadopago_webhook_answers
  Midtrans.midtrans_webhook_answers OpenNode.opennode_webhook_answers
  PayFast.payfast_webhook_answers PayPal.paypal_webhook_answers PayU.payu_webhook_answers
  Paystack.paystack_webhook_answers Razorpay.razorpay_webhook_answers Square.square_webhook_answers
  Stripe.stripe_webhook_answers Xendit.xendit_webhook_answers Yoco.yoco_webhook_answers Stripe.stripe_ignores_reference
  BTCPay.btcpay_ignores_reference CheckoutCom.checkout_ignores_reference CoinbaseCommerce.coinbase_ignores_reference
  Iyzico.iyzico_ignores_reference LNbits.lnbits_ignores_reference Mollie.mollie_ignores_reference
  OpenNode.opennode_ignores_reference Razorpay.razorpay_ignores_reference Yoco.yoco_ignores_reference
  Square.square_compares_reference PayPal.paypal_compares_reference
  Paystack.paystack_refunds Adyen.adyen_refunds CheckoutCom.checkout_refunds Mollie.mollie_refunds PayPal.paypal_refunds
  Square.square_refunds
  Stripe.stripe_orders Paystack.paystack_orders Adyen.adyen_orders BTCPay.btcpay_orders CheckoutCom.checkout_orders
  CoinbaseCommerce.coinbase_orders Flutterwave.flutterwave_orders Iyzico.iyzico_orders LNbits.lnbits_orders
  MercadoPago.mercadopago_orders Midtrans.midtrans_orders Mollie.mollie_orders OpenNode.opennode_orders
  PayFast.payfast_orders PayPal.paypal_orders PayU.payu_orders Razorpay.razorpay_orders Square.square_orders
  Xendit.xendit_orders Yoco.yoco_orders
  Stripe.stripe_quotes Paystack.paystack_quotes Adyen.adyen_quotes BTCPay.btcpay_quotes CheckoutCom.checkout_quotes
  CoinbaseCommerce.coinbase_quotes Flutterwave.flutterwave_quotes Iyzico.iyzico_quotes LNbits.lnbits_quotes
  MercadoPago.mercadopago_quotes Midtrans.midtrans_quotes Mollie.mollie_quotes OpenNode.opennode_quotes
  PayFast.payfast_quotes PayPal.paypal_quotes PayU.payu_quotes Razorpay.razorpay_quotes Square.square_quotes
  Xendit.xendit_quotes Yoco.yoco_quotes
  Stripe.stripe_opens Paystack.paystack_opens Adyen.adyen_opens BTCPay.btcpay_opens CheckoutCom.checkout_opens
  CoinbaseCommerce.coinbase_opens Flutterwave.flutterwave_opens Iyzico.iyzico_opens LNbits.lnbits_opens
  MercadoPago.mercadopago_opens Midtrans.midtrans_opens Mollie.mollie_opens OpenNode.opennode_opens
  PayFast.payfast_opens PayPal.paypal_opens PayU.payu_opens Razorpay.razorpay_opens Square.square_opens
  Xendit.xendit_opens Yoco.yoco_opens
  manual_quotes : fiat_rails.

(** ** Theorems *)

(** C15: nothing is built from an incomplete configuration. [new_fiat] builds a
    rail only for a provider it lists and only when every credential that
    provider needs is present and not blank. What it refuses, it refuses as an
    invalid request, but for one thing: once every credential has been found, an
    HTTP client that cannot be built is a rail error that says so. *)
Theorem new_fiat_fails_closed provider config :
  let name := to_ascii_lowercase provider in
  (forall p, new_fiat provider config = Ok p -> name ∈ patala_fiat_providers /\ credentials_present name config) /\
  (forall e, new_fiat provider config = Err e -> invalid_request e \/ client_refused name config e).
Proof.
  cbn zeta. split.
  - intros p Hp. apply new_fiat_Ok in Hp as [_ [E|(build & Hin & Hb & Hc)]].
    + rewrite E. split; [|constructor]. unfold patala_fiat_providers. rewrite merge_sort_Permutation. left.
    + split; [|now apply (provider_required _ build config (inner p))].
      unfold patala_fiat_providers. rewrite merge_sort_Permutation. right.
      apply list_elem_of_In, filter_In. split; [|exact Hc]. now apply (in_map fst) in Hin.
  - enough (fails_with (refusal (to_ascii_lowercase provider) config) (new_fiat provider config)) as Hf by exact Hf.
    unfold new_fiat. apply fails_bind; [|intros; apply fails_Ok].
    destruct (String.eqb _ "manual"); [apply fails_Ok|].
    destruct (find_provider _) as [[p build]|] eqn:Ef; [|apply fails_Err; left; now eexists].
    apply find_provider_Some in Ef as [-> Hin]. unfold gated.
    destruct (compiled _); [now apply (provider_errors (to_ascii_lowercase provider)) | apply fails_Err; left; now eexists].
Qed.

(** No rail claims more than its kind can give. Whatever provider is built,
    the rail answers to that provider's name; it never claims an atomic
    multi-party settlement; only BTCPay and LNbits are non-custodial and final,
    and a rail that can be reversed or holds funds is custodial and reversible;
    and the settlement it reports fits the width of its field. *)
Theorem new_fiat_capabilities provider config p :
  new_fiat provider config = Ok p -> capabilities_honest (to_ascii_lowercase provider) (inner p).
Proof.
  intros Hp. pose proof (new_fiat_Ok _ _ _ Hp) as [_ [E|(build & Hin & Hb & _)]].
  - unfold new_fiat in Hp. rewrite E in Hp. injection Hp as <-. rewrite E.
    split; cbn; try tauto; try (intuition congruence). unfold u8_max. lia.
  - now apply (provider_capabilities _ build config).
Qed.

(** C17: every rail built this way, ManualRail aside, is a lawful rail. Its
    charge answers a receipt of its own name that settles nothing yet and names
    the order it was asked for, its capabilities are fixed, and it refuses a
    receipt of another rail; and the verdicts it can give on a destination are
    finitely many, so their texts cannot carry the destination. Adyen
    and PayFast cannot verify at all, and Paystack's receipt carries the
    processor's reference: they are the exceptions. *)
Theorem new_fiat_lawful provider config p :
  new_fiat provider config = Ok p ->
  to_ascii_lowercase provider ∉ ["manual"; "adyen"; "payfast"; "paystack"]%string ->
  RailLaws (fun _ => True) (inner p) /\ ChargeOpens (inner p) /\ finitely_many (validate_destination (inner p)).
Proof.
  intros [Hr _]%new_fiat_Ok. revert Hr. generalize (to_ascii_lowercase provider), (inner p). intros name R Hr Hn.
  rewrite list_elem_of_In in Hn. destruct Hr; try (exfalso; apply Hn; cbn; auto 6; fail);
    (split; [|split]; [eauto with fiat_rails | eauto with fiat_rails | apply fiat_verdict_finite; cbn; tauto]).
Qed.

(** Adyen and PayFast cannot verify a payment and say so. Their verify
    answers an unsupported-operation error for every receipt, and never a
    verdict. *)
Theorem new_fiat_unverifiable provider config p :
  new_fiat provider config = Ok p -> In (to_ascii_lowercase provider) ["adyen"; "payfast"]%string ->
  forall rc w, exists m, verify (inner p) rc w = (Err (Unsupported m), w).
Proof.
  intros [Hr _]%new_fiat_Ok. revert Hr. generalize (to_ascii_lowercase provider), (inner p). intros name R Hr Hn rc w.
  destruct Hr; try (exfalso; cbn in Hn; intuition congruence); eexists; reflexivity.
Qed.

(** C1: a rail verifies a receipt exactly when the processor's own records
    support it. For every rail built this way but the three that do not look a
    payment up and LNbits, verify answers yes when and only when the receipt
    names this rail and what the processor says of the payment covers its
    currency and its amount (and its order, where the adapter compares it).
    LNbits is only asked whether a payment hash is paid: its verify answers yes
    exactly when it says so of the hash in the receipt's proof, and the receipt
    claims no more than that same proof does, so that the amount and the currency
    are the proof's word and not the processor's. *)
Theorem new_fiat_verifies provider config p :
  new_fiat provider config = Ok p ->
  (to_ascii_lowercase provider ∉ ["manual"; "adyen"; "payfast"; "lnbits"]%string ->
   exists evidence, fiat_evidence (inner p) evidence /\ VerifiesBy (inner p) evidence) /\
  (to_ascii_lowercase provider = "lnbits"%string ->
   exists r, inner p = LNbits.lnbits_rail r /\
     forall rc w w', verify (inner p) rc w = (Ok true, w') <-> LNbits.lnbits_accepts r rc w w').
Proof.
  intros [Hr _]%new_fiat_Ok. revert Hr. generalize (to_ascii_lowercase provider), (inner p). intros name R Hr.
  split; intros Hn.
  - rewrite list_elem_of_In in Hn.
    destruct Hr; try (exfalso; apply Hn; cbn; auto 6; fail); eexists; (split; [constructor | eauto with fiat_rails]).
  - destruct Hr; try discriminate Hn. eexists. split; [reflexivity | apply LNbits.lnbits_verify_exact].
Qed.

(** C2: a charge asks for exactly what it was asked. Whatever rail is built,
    ManualRail aside, and whatever it did to answer a charge, it placed one order
    with its processor, by the one call [fiat_orders] names for it (for PayU and
    PayFast, by the form its receipt carries); that order is for the request's
    reference, in the request's currency, and for the requested amount of money:
    the text it sends, read as that processor documents it (a plain integer, a
    plain decimal, an integer of documented decimals), is the requested minor units
    of the shared currency table. The exceptions are [misprices]: a hundred times
    the amount in ariary at Stripe and in forint and new Taiwan dollars at PayPal,
    and at PayPal the table's other currencies without hundredths, by the ratio its
    terms name. LNbits, OpenNode and Mercado Pago are sent a number, which is exact
    below [2^50] minor units when it is read to the nearest one. The receipt never
    claims that anything has settled. *)
Theorem new_fiat_charges `{!F64TextLaws _} `{!MercadoPago.NumberLaws} provider config p :
  new_fiat provider config = Ok p -> to_ascii_lowercase provider <> "manual"%string ->
  exists terms ordered, fiat_orders (inner p) terms ordered /\ terms_exact (to_ascii_lowercase provider) terms /\
    forall q rc w w', is_u64 (req_amount_minor q) -> charge (inner p) q w = (Ok rc, w') ->
      (exists o, ordered o rc w w' /\ o_reference o = req_reference q /\
         same_currency (o_currency o) (req_currency q) /\
         asks_for terms (o_currency o) (o_amount o) (req_amount_minor q)) /\
      amount_minor rc = 0 /\ settled_at_unix rc = 0.
Proof.
  intros [Hr _]%new_fiat_Ok. revert Hr. generalize (to_ascii_lowercase provider), (inner p). intros name R Hr Hn.
  enough (exists terms ordered, fiat_orders R terms ordered /\ terms_exact name terms /\
    ChargeOrders R terms ordered /\ ChargeOpens R) as (terms & ordered & Ho & Ht & Hc & Hp).
  { exists terms, ordered. split; [exact Ho|]. split; [exact Ht|]. intros q rc w w' Hu Hq.
    split; [now apply Hc | now apply (Hp q rc w w')]. }
  destruct Hr; try done; do 2 eexists; (split; [constructor | split; [exact_terms | split; eauto with fiat_rails typeclass_instances]]).
Qed.

(** C36: a quote is what its charge will do. Whatever rail is built, a quote costs
    nothing and reads nothing but the clock: it names that rail, the requested
    amount and currency, no fee, the rail's own settlement time, and an expiry
    that many seconds after the clock, never past the largest [u64]. And a request
    that is refused a quote is refused a charge, before the processor is asked
    anything: whatever can be charged could have been quoted. *)
Theorem new_fiat_quotes provider config p :
  new_fiat provider config = Ok p ->
  exists ttl, (to_ascii_lowercase provider <> "lnbits"%string -> ttl = 300) /\ forall q w,
    match quote (inner p) q w with
    | (Ok qt, w') =>
        q_rail_id qt = id (inner p) /\ q_amount_minor qt = req_amount_minor q /\
        same_currency (q_currency qt) (req_currency q) /\ q_fee_minor qt = 0 /\
        q_total_minor qt = req_amount_minor q /\ q_settlement qt = settlement (capabilities (inner p)) /\
        q_expires_at_unix qt = Z.min u64_max (fst (now_unix w) + ttl) /\ w' = snd (now_unix w)
    | (Err _, w') => w' = w /\ exists e, charge (inner p) q w = (Err e, w)
    end.
Proof.
  intros [Hr _]%new_fiat_Ok. revert Hr. generalize (to_ascii_lowercase provider), (inner p). intros name R Hr.
  enough (exists ttl, (name <> "lnbits"%string -> ttl = 300) /\ QuotesCharge R ttl) as (ttl & Ht & Hq)
    by (exists ttl; split; [exact Ht | exact Hq]).
  destruct Hr; eexists; (split; [|eauto with fiat_rails]); done.
Qed.

(** C27: a refund gives back what the receipt says, or nothing. Whatever rail is
    built, a receipt of another rail is refused before any call. Paystack, Adyen,
    Checkout.com, Mollie, PayPal and Square ask their processor, in one call about
    the payment the receipt names, for exactly the receipt's amount (on the terms of
    a charge, with PayPal's exceptions), and answer a receipt for the same order;
    Stripe refunds the whole payment whatever amount the receipt names; every other
    rail answers that it cannot refund, without an effect. *)
Theorem new_fiat_refunds provider config p :
  new_fiat provider config = Ok p ->
  let name := to_ascii_lowercase provider in
  (In name REFUNDING -> exists terms asked, fiat_refunds (inner p) terms asked /\ terms_exact name terms /\
     forall rc rc' w w', is_u64 (amount_minor rc) -> refund (inner p) rc w = (Ok rc', w') ->
       rail_id rc = id (inner p) /\ rail_id rc' = id (inner p) /\ reference rc' = reference rc /\
       exists text, asked text rc w w' /\ asks_for terms (normal_currency (currency rc)) text (amount_minor rc)) /\
  (name = "stripe"%string -> forall rc amt w, refund (inner p) (with_amount amt rc) w = refund (inner p) rc w) /\
  (In name ("stripe"%string :: REFUNDING) -> forall rc w, rail_id rc <> id (inner p) ->
     refund (inner p) rc w = (Err (other_rail (id (inner p)) rc), w)) /\
  (~ In name ("stripe"%string :: REFUNDING) -> forall rc w, refund (inner p) rc w = (Err (Unsupported "refund"), w)).
Proof.
  intros [Hr _]%new_fiat_Ok. revert Hr. generalize (to_ascii_lowercase provider), (inner p). intros name R Hr. cbn zeta.
  split; [|split; [|split]]; intros Hn.
  - enough (exists terms asked, fiat_refunds R terms asked /\ terms_exact name terms /\ RefundOrders R terms asked)
      as (terms & asked & Hf & Ht & Ho) by (exists terms, asked; split; [exact Hf | split; [exact Ht | exact Ho]]).
    destruct Hr; try (exfalso; cbn in Hn; intuition congruence); do 2 eexists;
      (split; [constructor | split; [exact_terms | eauto with fiat_rails]]).
  - destruct Hr; try discriminate Hn. intros. apply Stripe.stripe_refunds_all.
  - intros rc w Hid. destruct Hr; try (exfalso; cbn in Hn; intuition congruence); now apply refuses_foreign.
  - intros rc w. destruct Hr; try reflexivity; exfalso; apply Hn; cbn; tauto.
Qed.

(** C29: where a receipt's order is checked. Ten of the rails find a payment by
    the proof alone, so that verify says the same of the receipt whatever order
    it names: the caller has to bind a proof to an order itself. Square and
    PayPal compare the reference: of one state of the processor's records, they
    verify a proof for one order only. *)
Theorem new_fiat_references provider config p :
  new_fiat provider config = Ok p ->
  (In (to_ascii_lowercase provider) PROOF_ONLY -> ignores_reference (inner p)) /\
  (In (to_ascii_lowercase provider) REFERENCE_COMPARED -> compares_reference (inner p)).
Proof.
  intros [Hr _]%new_fiat_Ok. revert Hr. generalize (to_ascii_lowercase provider), (inner p). intros name R Hr.
  split; intros Hn; destruct Hr; try (exfalso; cbn in Hn; intuition congruence); eauto with fiat_rails.
Qed.

(** C6: a webhook is answered only for a delivery the processor authenticated, or
    from what the processor itself answers. Whatever rail is built, but for the
    manual one and iyzico, an event it answers bears its name and a non-empty event
    id. For every one but Mollie, the delivery passed that processor's own
    authentication. Mollie authenticates no delivery: anyone's names a payment, and
    the event is what Mollie answers, with the API key, for that payment, a
    settlement only when it says that it was paid, with its reference, its currency
    and its amount. *)
Theorem new_fiat_webhooks provider config p :
  new_fiat provider config = Ok p ->
  (to_ascii_lowercase provider ∉ ["manual"; "iyzico"; "mollie"]%string ->
   exists authentic, fiat_authentic (inner p) authentic /\ WebhookAnswers (inner p) authentic) /\
  (to_ascii_lowercase provider = "mollie"%string ->
   exists r, inner p = Mollie.mollie_rail r /\ forall d w ev w', verify_webhook (inner p) d w = (Ok ev, w') ->
     we_rail_id ev = id (inner p) /\ event_id ev <> EmptyString /\ Mollie.mollie_refetched r d w ev w').
Proof.
  intros [Hr _]%new_fiat_Ok. revert Hr. generalize (to_ascii_lowercase provider), (inner p). intros name R Hr.
  split; intros Hn.
  - rewrite list_elem_of_In in Hn.
    destruct Hr; try (exfalso; apply Hn; cbn; auto 6; fail); eexists; (split; [constructor | eauto with fiat_rails]).
  - destruct Hr; try discriminate Hn. eexists. split; [reflexivity|]. intros. now apply Mollie.mollie_webhook_refetches.
Qed.
End Providers.

(** ** A build for the witnesses

    Every adapter compiled in, over a network that answers everything: an answer
    is read as nothing by most adapters, as one paid payment of 10.50 dollars for
    order-7 by Stripe's, Square's, Mollie's and LNbits'. *)
Module Demo.
#[local] Instance unread T : FromJson T := fun _ => Err "not read"%string.
#[local] Instance unread_value T : FromValue T := fun _ => Err "not read"%string.
#[local] Instance no_proof P : ProofBytes P := {| to_bytes _ := []; from_bytes _ := None |}.
#[local] Instance stopped_clock : Iyzico.NanoClock (gmap str ManualRecord * Z) := fun w => (0, w).
#[local] Existing Instance ref_hex.
(** The bytes of a proof that can be read: the one each of these adapters made. *)
Definition only_proof {P} (text : str) (p : P) : ProofBytes P := {|
  to_bytes _ := as_bytes text;
  from_bytes b := if bool_decide (b = as_bytes text) then Some p else None |}.
#[local] Instance paid_session : FromJson Stripe.StripeSession := fun _ => Ok {|
  Stripe.ss_id := "cs_1"; Stripe.payment_status := "paid"; Stripe.amount_total := 1050; Stripe.ss_currency := "usd";
  Stripe.client_reference_id := "order-7"; Stripe.metadata := ∅; Stripe.payment_intent := Some "pi_1"%string |}.
#[local] Instance stripe_proof : ProofBytes Stripe.ChargeProof := only_proof "cs_1" {|
  Stripe.session_id := "cs_1"; Stripe.status_at_charge := "open"; Stripe.redirect_url_of := None |}.
#[local] Instance completed_payment : FromJson Square.VerifyResponse := fun _ => Ok {| Square.vr_payment := {|
  Square.spp_id := "pay_1"; Square.spp_status := "COMPLETED"; Square.reference_id := "order-7"; Square.order_id := "ord_1";
  Square.amount_money := {| Square.sam_amount := 1050; Square.sam_currency := "USD" |} |} |}.
#[local] Instance square_proof : ProofBytes Square.ChargeProof := only_proof "pay_1" {|
  Square.cp_order_id := "ord_1"; Square.payment_link_id := "link_1"; Square.payment_id := Some "pay_1"%string |}.
#[local] Instance paid_payment : FromJson Mollie.PaymentPayload := fun _ => Ok {|
  Mollie.pp_id := "tr_1"; Mollie.pp_status := "paid";
  Mollie.pp_amount := {| Mollie.ao_currency := "USD"; Mollie.ao_value := "10.50" |};
  Mollie.pp_metadata := Some (JObject [("patala_reference", JString "order-7")]%string) |}.
#[local] Instance paid_hash : FromJson LNbits.PaymentStatus := fun _ => Ok {| LNbits.paid := true |}.
#[local] Instance paid_delivery : FromJson LNbits.Envelope := fun _ => Ok {| LNbits.env_payment_hash := "h1" |}.
#[local] Instance lnbits_proof : ProofBytes LNbits.ChargeProof := only_proof "h1" {|
  LNbits.payment_hash := "h1"; LNbits.payment_request := "lnbc1"; LNbits.cp_amount_minor := 1050;
  LNbits.cp_currency := "USD"; LNbits.created_at_unix := 0 |}.
#[local] Instance stripe_json : Stripe.StripeJson := Stripe.Build_StripeJson _ _ _ _ _ _.
#[local] Instance paystack_json : Paystack.PaystackJson := Paystack.Build_PaystackJson _ _ _ _ _.
#[local] Instance adyen_json : Adyen.AdyenJson := Adyen.Build_AdyenJson _ _ _ _ (fun s => s).
#[local] Instance btcpay_json : BTCPay.BTCPayJson := BTCPay.Build_BTCPayJson _ _ _.
#[local] Instance checkout_json : CheckoutCom.CheckoutJson := CheckoutCom.Build_CheckoutJson _ _ _ _ _.
#[local] Instance coinbase_json : CoinbaseCommerce.CoinbaseJson := CoinbaseCommerce.Build_CoinbaseJson _ _ _.
#[local] Instance flutterwave_json : Flutterwave.FlutterwaveJson :=
  Flutterwave.Build_FlutterwaveJson _ _ _ _ (fun _ => EmptyString).
#[local] Instance iyzico_json : Iyzico.IyzicoJson := Iyzico.Build_IyzicoJson _ _ _ _
  (fun _ => Err "not written"%string) (fun _ => Err "not written"%string) (fun b => b) (fun _ => EmptyString).
#[local] Instance lnbits_json : LNbits.LNbitsJson := LNbits.Build_LNbitsJson _ _ _ _.
#[local] Existing Instance expansion.
#[local] Instance mercadopago_json : MercadoPago.MercadoPagoJson :=
  MercadoPago.Build_MercadoPagoJson _ _ _ _ _ (fun s => Ok s).
#[local] Instance midtrans_json : Midtrans.MidtransJson :=
  Midtrans.Build_MidtransJson _ _ _ (fun _ => None) (fun _ => Err "not written"%string).
#[local] Instance mollie_json : Mollie.MollieJson := Mollie.Build_MollieJson _ _ _ _.
#[local] Instance opennode_json : OpenNode.OpenNodeJson :=
  OpenNode.Build_OpenNodeJson _ _ (fun _ => EmptyString).
#[local] Instance paypal_json : PayPal.PayPalJson := PayPal.Build_PayPalJson _ _ _ _ _ _ _ _ _.
#[local] Instance payu_json : PayU.PayUJson := PayU.Build_PayUJson _ (fun _ => []) (fun _ => EmptyString).
#[local] Instance razorpay_json : Razorpay.RazorpayJson := Razorpay.Build_RazorpayJson _ _ _ _.
#[local] Instance square_json : Square.SquareJson := Square.Build_SquareJson _ _ _ _ _.
#[local] Instance xendit_json : Xendit.XenditJson := Xendit.Build_XenditJson _ _ _ (fun _ => None).
#[local] Instance yoco_json : Yoco.YocoJson := Yoco.Build_YocoJson _ _ _ _.
Definition fiat_over (builder : HttpBuilder (gmap str ManualRecord * Z)) (provider : str) (config : Config)
    : Result PatalaError (PatalaRail (gmap str ManualRecord * Z)) :=
  new_fiat builder (fun _ => true) (fun s => Ok (as_bytes s)) ref_mac ref_mac (fun b => b) (fun b => b)
    as_bytes (eff_err (Rail "panicked")) provider config.
Definition fiat : str -> Config -> Result PatalaError (PatalaRail (gmap str ManualRecord * Z)) :=
  fiat_over (fun _ => Ok (says "{}")).
(** A machine on which no HTTP client can be built. *)
Definition no_client : HttpBuilder (gmap str ManualRecord * Z) := fun _ => Err "no TLS backend"%string.
Definition at_time (now : Z) : gmap str ManualRecord * Z := (∅, now).
Definition start : gmap str ManualRecord * Z := at_time 0.
Definition demo_config : Config := {[
  "secret_key"%string := "sk_test"%string; "webhook_secret"%string := "whsec_test"%string;
  "merchant_id"%string := "10000100"%string; "merchant_key"%string := "46f0cd694581a"%string;
  "api_key"%string := "key_test"%string; "webhook_url"%string := "https://shop.example/hook"%string;
  "base_url"%string := "https://lnbits.example"%string; "access_token"%string := "tok_test"%string;
  "webhook_signature_key"%string := "sig_test"%string; "location_id"%string := "L1"%string;
  "notification_url"%string := "https://shop.example/hook"%string;
  "api_base_url"%string := "https://connect.squareup.com"%string ]}.
(** A receipt of 10.50 dollars for order-7 whose proof has these bytes. *)
Definition receipt_of (name text : str) : Receipt := {|
  rail_id := name; amount_minor := 1050; currency := "USD"; reference := "order-7"; proof := as_bytes text;
  settled_at_unix := 0 |}.
#[local] Instance demo_numbers : MercadoPago.NumberLaws.
Proof. split. cbn. now intros t d n _ _ _ [= ->]. Qed.
End Demo.
Import Demo.
#[local] Existing Instances Demo.lnbits_json Demo.lnbits_proof Demo.mollie_json Demo.demo_numbers.

(** A rail of the demo build, and what can be computed of it. *)
Lemma demo_rail name (P : PatalaRail (gmap str ManualRecord * Z) -> Prop) :
  match fiat name demo_config with Ok p => P p | Err _ => False end -> exists p, fiat name demo_config = Ok p /\ P p.
Proof. destruct (fiat name demo_config) as [p|]; [eauto | done]. Qed.
Ltac built := lazymatch goal with |- exists p, fiat ?n _ = Ok p /\ _ =>
  let p := fresh "p" in let Hp := fresh "Hp" in
  destruct (demo_rail n (fun _ => True) ltac:(vm_compute; exact I)) as (p & Hp & _); exists p; split; [exact Hp|] end.
(** ... and of a call on it, which answers [a] and leaves the world [w']. *)
Ltac computed p Hp Hc name call := destruct (demo_rail name call ltac:(vm_compute; reflexivity)) as (p & Hp & Hc);
  cbn beta in Hc.
Ltac among := apply (bool_decide_eq_true_1 _); vm_compute; reflexivity.
Lemma new_fiat_capabilities_witness :
  exists p, fiat "Stripe" demo_config = Ok p /\ capabilities_honest "stripe" (inner p).
Proof. built. now apply new_fiat_capabilities in Hp. Defined.
(** With every credential there, a client that cannot be built is a rail error; with
    one missing, an invalid request is. *)
Lemma new_fiat_fails_closed_witness :
  (exists p, fiat "Stripe" demo_config = Ok p /\ credentials_present "stripe" demo_config) /\
  (exists e, fiat_over no_client "Stripe" demo_config = Err e /\ client_refused no_client "stripe" demo_config e) /\
  (exists e, fiat "Stripe" (delete "secret_key"%string demo_config) = Err e /\ invalid_request e).
Proof.
  split; [|split].
  - built. apply new_fiat_fails_closed in Hp as [_ Hp]. exact Hp.
  - assert (fiat_over no_client "Stripe" demo_config =
      Err (PE_Rail "failed building stripe http client: no TLS backend")) as He by (vm_compute; reflexivity).
    eexists. split; [exact He|]. apply new_fiat_fails_closed in He as [[m He]|He]; [discriminate He | exact He].
  - assert (match fiat "Stripe" (delete "secret_key"%string demo_config) with
            | Err (PE_InvalidRequest _) => True | _ => False end) as Hi by (vm_compute; exact I).
    destruct (fiat "Stripe" (delete "secret_key"%string demo_config)) as [p|e] eqn:He; [destruct Hi|].
    exists e. split; [reflexivity|]. apply new_fiat_fails_closed in He as [He|[Hc _]]; [exact He|].
    apply Forall_cons in Hc as [Hc _]. vm_compute in Hc. discriminate Hc.
Defined.
Lemma new_fiat_lawful_witness :
  exists p, fiat "Stripe" demo_config = Ok p /\
    RailLaws (fun _ => True) (inner p) /\ ChargeOpens (inner p) /\ finitely_many (validate_destination (inner p)).
Proof. built. apply new_fiat_lawful in Hp; [exact Hp | among]. Defined.
Lemma new_fiat_unverifiable_witness :
  exists p, fiat "PayFast" demo_config = Ok p /\ forall rc w, exists m, verify (inner p) rc w = (Err (Unsupported m), w).
Proof.
  built. intros rc w. apply new_fiat_unverifiable with (rc := rc) (w := w) in Hp; [exact Hp | cbn; tauto].
Defined.
(** Stripe does not look at the order; Square's completed payment is for order-7, and
    for no other. *)
Lemma new_fiat_references_witness :
  (exists p, fiat "stripe" demo_config = Ok p /\ ignores_reference (inner p)) /\
  (exists p, fiat "square" demo_config = Ok p /\
     verify (inner p) (receipt_of "square" "pay_1") start = (Ok true, start) /\
     forall ref w', verify (inner p) (with_reference ref (receipt_of "square" "pay_1")) start = (Ok true, w') ->
       ref = "order-7"%string).
Proof.
  split.
  - built. apply new_fiat_references in Hp as [Hp _]. apply Hp. cbn. tauto.
  - computed p Hp Hv "square" (fun p => verify (inner p) (receipt_of "square" "pay_1") start = (Ok true, start)).
    exists p. split; [exact Hp|]. split; [exact Hv|]. intros ref w' Hr.
    apply new_fiat_references in Hp as [_ Hc]. exact (Hc ltac:(cbn; tauto) _ _ _ _ _ Hv Hr).
Defined.
(** Stripe's paid session is evidence for a receipt of its amount and none for a cent
    more; LNbits' paid hash accepts a receipt. *)
Lemma new_fiat_verifies_witness :
  (exists p, fiat "stripe" demo_config = Ok p /\ exists evidence : EvidenceOf,
     (exists ev, evidence (as_bytes "cs_1") "order-7"%string start ev start /\ supports ev (receipt_of "stripe" "cs_1")) /\
     ~ (exists ev, evidence (as_bytes "cs_1") "order-7"%string start ev start /\
          supports ev (with_amount 1051 (receipt_of "stripe" "cs_1")))) /\
  (exists p, fiat "lnbits" demo_config = Ok p /\
     exists r, LNbits.lnbits_accepts r (receipt_of "lnbits" "h1") start start).
Proof.
  split.
  - computed p Hp Hv "stripe" (fun p => (verify (inner p) (receipt_of "stripe" "cs_1") start,
      verify (inner p) (with_amount 1051 (receipt_of "stripe" "cs_1")) start, id (inner p)) =
      ((Ok true, start), (Ok false, start), "stripe"%string)).
    injection Hv as Hv Hn Hid. exists p. split; [exact Hp|].
    apply new_fiat_verifies in Hp as [Hp _]. destruct (Hp ltac:(among)) as (evidence & _ & He). exists evidence. split.
    + apply He in Hv as [_ Hv]. exact Hv.
    + intros Hev. assert (verify (inner p) (with_amount 1051 (receipt_of "stripe" "cs_1")) start = (Ok true, start)) as Ht
        by (apply He; split; [symmetry; exact Hid | exact Hev]).
      rewrite Hn in Ht. discriminate Ht.
  - computed p Hp Hv "lnbits" (fun p => verify (inner p) (receipt_of "lnbits" "h1") start = (Ok true, start)).
    exists p. split; [exact Hp|]. apply new_fiat_verifies in Hp as [_ Hp].
    destruct (Hp eq_refl) as (r & _ & Hr). exists r. apply Hr. exact Hv.
Defined.
Definition ten_rand_fifty : PayRequest := {| req_amount_minor := 1050; req_currency := "ZAR";
  req_destination := "https://shop.example/done"; req_reference := "order-7" |}.
Lemma new_fiat_charges_witness :
  exists p rc w', fiat "PayFast" demo_config = Ok p /\ charge (inner p) ten_rand_fifty start = (Ok rc, w') /\
    exists terms o, terms_exact "payfast" terms /\ o_reference o = "order-7"%string /\
      asks_for terms (o_currency o) (o_amount o) 1050.
Proof.
  computed p Hp Hok "PayFast" (fun p => is_ok (charge (inner p) ten_rand_fifty start).1 = true).
  destruct (charge (inner p) ten_rand_fifty start) as [[rc|e] w'] eqn:Hc; [|discriminate Hok].
  exists p, rc, w'. split; [exact Hp|]. split; [exact Hc|].
  apply new_fiat_charges in Hp as (terms & ordered & _ & Ht & Ho);
    [|exact expansion_laws | exact demo_numbers | discriminate].
  destruct (Ho ten_rand_fifty _ _ _ ltac:(split; apply Z.leb_le; reflexivity) Hc) as [(o & _ & Hr & _ & Ha) _].
  now exists terms, o.
Defined.
Lemma new_fiat_quotes_witness :
  exists p qt w', fiat "PayFast" demo_config = Ok p /\ quote (inner p) ten_rand_fifty (at_time 40) = (Ok qt, w') /\
    q_total_minor qt = 1050 /\ q_expires_at_unix qt = 340 /\ w' = at_time 41.
Proof.
  computed p Hp Hok "PayFast" (fun p => is_ok (quote (inner p) ten_rand_fifty (at_time 40)).1 = true).
  destruct (quote (inner p) ten_rand_fifty (at_time 40)) as [[qt|e] w'] eqn:Hq; [|discriminate Hok].
  exists p, qt, w'. split; [exact Hp|]. split; [exact Hq|].
  apply new_fiat_quotes in Hp as (ttl & Ht & Hs). specialize (Ht ltac:(discriminate)). subst ttl.
  specialize (Hs ten_rand_fifty (at_time 40)). rewrite Hq in Hs. now destruct Hs as (_ & _ & _ & _ & -> & _ & -> & ->).
Defined.
Lemma new_fiat_refunds_witness :
  exists p, fiat "stripe" demo_config = Ok p /\
    forall rc w, rail_id rc <> id (inner p) -> refund (inner p) rc w = (Err (other_rail (id (inner p)) rc), w).
Proof. built. apply new_fiat_refunds in Hp as (_ & _ & Hf & _). apply Hf. now left. Defined.
(** LNbits answers a delivery that carries the secret; Mollie's event for a delivery
    anyone could send is the paid payment's, fetched. *)
Definition with_secret : WebhookDelivery :=
  {| raw_body := []; headers := ∅; query := {["secret"%string := "whsec_test"%string]}; wd_now_unix := 0 |}.
Definition naming_payment : WebhookDelivery := delivery_new (as_bytes "id=tr_1") 0.
Definition settled_order_7 (ev : WebhookEvent) : Prop :=
  event_id ev = "tr_1"%string /\ we_reference ev = "order-7"%string /\ we_status ev = Settled /\ we_amount_minor ev = 1050.
Lemma new_fiat_webhooks_witness :
  (exists p ev w', fiat "lnbits" demo_config = Ok p /\ verify_webhook (inner p) with_secret start = (Ok ev, w') /\
     we_rail_id ev = id (inner p) /\ event_id ev <> EmptyString /\
     exists authentic : WebhookDelivery -> (gmap str ManualRecord * Z) -> Prop, authentic with_secret start) /\
  (exists p ev w' r, fiat "mollie" demo_config = Ok p /\ verify_webhook (inner p) naming_payment start = (Ok ev, w') /\
     settled_order_7 ev /\ Mollie.mollie_refetched r naming_payment start ev w').
Proof.
  split.
  - computed p Hp Hok "lnbits" (fun p => is_ok (verify_webhook (inner p) with_secret start).1 = true).
    destruct (verify_webhook (inner p) with_secret start) as [[ev|e] w'] eqn:Hv; [|discriminate Hok].
    exists p, ev, w'. split; [exact Hp|]. split; [exact Hv|].
    apply new_fiat_webhooks in Hp as [Hp _]. destruct (Hp ltac:(among)) as (authentic & _ & Ha).
    destruct (Ha _ _ _ _ Hv) as (Hr & Hne & Hau). split; [exact Hr|]. split; [exact Hne|]. now exists authentic.
  - destruct (demo_rail "mollie" (fun p => match verify_webhook (inner p) naming_payment start with
        | (Ok ev, _) => settled_order_7 ev | _ => False end)) as (p & Hp & Hs); [vm_compute; tauto|].
    destruct (verify_webhook (inner p) naming_payment start) as [[ev|e] w'] eqn:Hv; [|destruct Hs].
    exists p, ev, w'. apply new_fiat_webhooks in Hp as Hm. destruct Hm as [_ Hm].
    destruct (Hm eq_refl) as (r & _ & Hr). exists r. destruct (Hr _ _ _ _ Hv) as (_ & _ & Hf). done.
Defined.
