(* ===== verification/Build.v ===== *)
(** * A full build of the C library

    Every feature on: the features record of [Ffi] filled with the constructors of
    [Uniffi] and [Providers], so that a configuration document leads to the
    adapters themselves. *)

From S2P Require Import Prelude RustStr Core Mock External Currency HttpShared FiatDest Json Adapter UrlForm Float Manual Registry StellarTx StellarDest StellarRail RpcHttp Horizon SolanaTx SolanaDest SolanaRail SolanaHttp Sidecar Ffi Uniffi Providers.
From S2P Require Stripe Paystack Adyen BTCPay CheckoutCom CoinbaseCommerce Flutterwave Iyzico LNbits MercadoPago Midtrans Mollie OpenNode PayFast PayPal PayU Razorpay Square Xendit Yoco Hyperswitch.

Section Build.
Context {C : Type} `{Clock C}.
Abbreviation W := (gmap str ManualRecord * C)%type.
Context `{NanoClock : !Iyzico.NanoClock W} (http : HttpBuilder W) (compiled : str -> bool).
Context `{Hex} (base64_decode : str -> Result str (list byte)) (sha256_mac sha512_mac : Mac)
  (sha512 md5 : list byte -> list byte) (manual_proof : str -> list byte)
  (panicked : Eff W Error Iyzico.IyzicoWebhookOutcome).
Context `{!Stripe.StripeJson} `{!ProofBytes Stripe.ChargeProof} `{!ProofBytes Stripe.RefundProof}.
Context `{!Paystack.PaystackJson} `{!ProofBytes Paystack.ChargeProof}.
Context `{!Adyen.AdyenJson} `{!ProofBytes Adyen.ChargeProof} `{!ProofBytes Adyen.RefundProof}.
Context `{!BTCPay.BTCPayJson} `{!ProofBytes BTCPay.ChargeProof}.
Context `{!CheckoutCom.CheckoutJson} `{!ProofBytes CheckoutCom.ChargeProof} `{!ProofBytes CheckoutCom.RefundProof}.
Context `{!CoinbaseCommerce.CoinbaseJson} `{!ProofBytes CoinbaseCommerce.ChargeProof}.
Context `{!Flutterwave.FlutterwaveJson} `{!ProofBytes Flutterwave.ChargeProof}.
Context `{!Iyzico.IyzicoJson} `{!ProofBytes Iyzico.ChargeProof}.
Context `{!F64Text} `{!LNbits.LNbitsJson} `{!ProofBytes LNbits.ChargeProof}.
Context `{!MercadoPago.MercadoPagoJson} `{!ProofBytes MercadoPago.ChargeProof}.
Context `{!Midtrans.MidtransJson} `{!ProofBytes Midtrans.ChargeProof}.
Context `{!Mollie.MollieJson} `{!ProofBytes Mollie.ChargeProof} `{!ProofBytes Mollie.RefundProof}.
Context `{!OpenNode.OpenNodeJson} `{!ProofBytes OpenNode.ChargeProof}.
Context `{!ProofBytes PayFast.ChargeProof}.
Context `{!PayPal.PayPalJson} `{!ProofBytes PayPal.ChargeProof} `{!ProofBytes PayPal.RefundProof}.
Context `{!PayU.PayUJson} `{!ProofBytes PayU.ChargeProof}.
Context `{!Razorpay.RazorpayJson} `{!ProofBytes Razorpay.ChargeProof}.
Context `{!Square.SquareJson} `{!ProofBytes Square.ChargeProof}.
Context `{!Xendit.XenditJson} `{!ProofBytes Xendit.ChargeProof}.
Context `{!Yoco.YocoJson} `{!ProofBytes Yoco.ChargeProof}.

Context `{Base58} `{Curve25519} `{Sha256} `{Ed25519} `{Blake3} `{Serde SolanaBinding}.
Context `{StrKey} `{XdrCodec} `{Serde StellarBinding} `{Serde StellarSplitBinding}.
Context `{HttpText} `{!Hyperswitch.HyperswitchJson} `{!ProofBytes Hyperswitch.ChargeProof} `{!ProofBytes Hyperswitch.RefundProof}.
Context (rpc_http : RpcHttp W).

(** [.map(|r| r.as_payment_rail()).map_err(|e| format!("patala: {e}"))] *)
Definition as_rail (r : Result PatalaError (PatalaRail W)) : Result str (PaymentRail W) :=
  map_err patala_error_display (rail ← r; Ok (as_payment_rail rail)).
Definition build_hyperswitch (c : RailConfig) : Result PatalaError (PatalaRail W) :=
  match c with
  | CfgHyperswitch base key connector secret kyc curs days timeout =>
      bound_hyperswitch sha512_mac http base key connector secret kyc curs days timeout
  | _ => Err (PE_InvalidRequest EmptyString)
  end.
Definition full_features : Features W := {|
  Ffi.new_fiat := Some (fun provider config => as_rail (Providers.new_fiat http compiled base64_decode sha256_mac sha512_mac
    sha512 md5 manual_proof panicked provider config));
  Ffi.new_solana := Some (fun url cluster seed => as_rail (bound_solana (fun u => http_rpc (Build_HttpRpc _ u rpc_http)) url cluster seed));
  Ffi.new_stellar := Some (fun url network issuer seed =>
    as_rail (bound_stellar (fun u => horizon_rpc (horizon_new u rpc_http)) url network issuer seed));
  Ffi.new_hyperswitch := Some (fun c => as_rail (build_hyperswitch c));
  Ffi.fiat_providers := patala_fiat_providers http compiled base64_decode sha256_mac sha512_mac sha512 md5 panicked;
|}.

(** ** Lemmas *)

(** What any rail of the library keeps to: a rail whose payments are final cannot
    be reversed, holds no funds, and has no refund. *)
Definition final_is_final (R : PaymentRail W) : Prop :=
  class (capabilities R) = NonCustodialFinal ->
  reversible (capabilities R) = false /\ holds_funds (capabilities R) = false /\
  forall rc w, refund R rc w = (Err (Unsupported "refund"), w).
Lemma as_rail_Ok r R : as_rail r = Ok R <-> exists p, r = Ok p /\ inner p = R.
Proof.
  unfold as_rail. destruct r as [p|e]; cbn; split; try done.
  - intros [= <-]. now exists p.
  - now intros (? & [= <-] & <-).
  - now intros (? & [=] & _).
Qed.
Lemma fiat_final provider config p :
  Providers.new_fiat http compiled base64_decode sha256_mac sha512_mac sha512 md5 manual_proof panicked
    provider config = Ok p -> final_is_final (inner p).
Proof.
  intros [Hr Hb]%new_fiat_Ok Hc.
  destruct Hb as [Em|(build & Hin & Hb & _)].
  - rewrite Em in Hr. inversion Hr as [| | | | | | | | | | | | | | | | | | | | m Hn Hm]. rewrite <- Hm in Hc. discriminate Hc.
  - pose proof (provider_capabilities http compiled base64_decode sha256_mac sha512_mac sha512 md5
      manual_proof panicked _ _ _ _ Hin Hb) as Hh.
    assert (forall b : bool, (b = true -> class (capabilities (inner p)) = CustodialReversible) -> b = false) as Hf.
    { intros [] Hb'; [|done]. rewrite Hb' in Hc by done. discriminate Hc. }
    split; [apply Hf, (ch_reversible _ _ Hh)|].
    split; [apply Hf; intros Hh'; now apply (ch_custody _ _ Hh)|].
    apply (ch_final _ _ Hh) in Hc. clear -Hr Hc. revert Hr Hc. generalize (to_ascii_lowercase provider), (inner p).
    intros name R Hr Hc. destruct Hr; try (exfalso; destruct Hc; discriminate); reflexivity.
Qed.

(** ** Theorems *)

(** C12: final means final, from a C host's document down to the adapter. Whatever
    configuration document a full build opens a rail for (a mock, any of the
    twenty-one fiat providers, Solana, Stellar or Hyperswitch), a rail that says
    its payments are final says as well that they cannot be reversed and that it
    holds no funds, and its refund is the unsupported-operation error for every
    receipt, without an effect. *)
Theorem c_abi_final_is_final (c : RailConfig) R : cfg_build full_features c = Ok R -> final_is_final R.
Proof.
  destruct c as [rid cls curs fee fail checks|provider config|url cl seed|url net issuer seed|base key connector secret kyc curs days timeout];
    cbn [cfg_build full_features Ffi.new_fiat Ffi.new_solana Ffi.new_stellar Ffi.new_hyperswitch]; intros Hb.
  - injection Hb as <-. unfold final_is_final, cfg_mock. destruct fail, checks; cbn; intros ->; done.
  - apply map_err_Ok, as_rail_Ok in Hb as (p & Hp & <-). now apply fiat_final in Hp.
  - run_inv Hb. apply map_err_Ok, as_rail_Ok in Hb as (p & Hp & <-). unfold bound_solana in Hp. run_inv Hp. injection Hp as <-.
    destruct x; [unfold with_seed32 in Hx1; run_inv Hx1|]; injection Hx1 as <-; done.
  - run_inv Hb. apply map_err_Ok, as_rail_Ok in Hb as (p & Hp & <-). unfold bound_stellar in Hp. run_inv Hp. injection Hp as <-.
    destruct x; [unfold with_seed32 in Hx1; run_inv Hx1|]; injection Hx1 as <-; done.
  - apply map_err_Ok, as_rail_Ok in Hb as (p & Hp & <-). unfold build_hyperswitch, bound_hyperswitch in Hp. run_inv Hp.
    injection Hp as <-. unfold Hyperswitch.hyperswitch_new in Hx. run_inv Hx. injection Hx as <-. done.
Qed.
End Build.

(** ** A full build for the witness *)
Module DemoBuild.
#[local] Existing Instances Demo.unread Demo.unread_value Demo.no_proof Demo.stopped_clock Demo.stripe_json Demo.paystack_json
  Demo.adyen_json Demo.btcpay_json Demo.checkout_json Demo.coinbase_json Demo.flutterwave_json Demo.iyzico_json Demo.lnbits_json
  Demo.mercadopago_json Demo.midtrans_json Demo.mollie_json Demo.opennode_json Demo.paypal_json Demo.payu_json
  Demo.razorpay_json Demo.square_json Demo.xendit_json Demo.yoco_json.
#[local] Existing Instances ref_hex ref_base58 ref_curve ref_sha256 ref_ed25519 ref_blake3 sol_serde ref_strkey ref_xdr
  pay_serde split_serde.
#[local] Instance plain_text : HttpText := {| status_display := to_dec; json_display _ := EmptyString |}.
#[local] Existing Instance expansion.
#[local] Instance hyperswitch_json : Hyperswitch.HyperswitchJson := Hyperswitch.Build_HyperswitchJson _ _ _ to_dec.
Definition features : Features (gmap str ManualRecord * Z) :=
  full_features (fun _ => Ok (says "{}")) (fun _ => true) (fun s => Ok (as_bytes s)) ref_mac ref_mac (fun b => b) (fun b => b)
    as_bytes (eff_err (Rail "panicked")) (fun _ w => (Err "unreachable"%string, w)).
End DemoBuild.
Lemma c_abi_final_is_final_witness :
  exists R, cfg_build DemoBuild.features (CfgSolana "http://rpc" "devnet" None) = Ok R /\
    class (capabilities R) = NonCustodialFinal /\ final_is_final R.
Proof.
  destruct (is_ok_Ok (cfg_build DemoBuild.features (CfgSolana "http://rpc" "devnet" None)) ltac:(vm_compute; reflexivity)) as [R HR].
  exists R. split; [exact HR|]. split; [|unfold DemoBuild.features in HR; now apply c_abi_final_is_final in HR].
  assert (forall r : Result str _, r = Ok R -> match r with Ok R => class (capabilities R) = NonCustodialFinal | Err _ => True end ->
    class (capabilities R) = NonCustodialFinal) as Hc by now intros ? ->.
  apply (Hc _ HR). vm_compute. reflexivity.
Defined.
